(* ===== verification/_CoqProject ===== *)
-Q . S2P
Prelude.v
Netip.v
Netutil.v
Checksum.v
Events.v
Packet.v
Layout.v
Translator.v
TranslatorFacts.v
Xlate4.v
Xlate6.v
Fills.v
Transport.v
Xlate4Facts.v
Fragments.v
Xlate4Data.v
Xlate4Icmp.v
Xlate6Facts.v
Xlate6Data.v
Xlate6Icmp.v
Mapped.v
Plain.v
Fixtures.v
TranslateProps.v
TransportProps.v
DataProps.v
RoundTrip.v
Text.v
Pool.v
PoolFacts.v
PoolOps.v
PoolSave.v
PoolRun.v
PoolProps.v
PoolThreads.v
PoolRaces.v
PoolCalls.v
PoolSchedules.v
PoolShared.v
PoolAvoid.v
Table.v
Join.v
TableFacts.v
TableMap.v
TableProps.v
Engine.v
EngineFacts.v
EngineProps.v
Fake.v
FakeProps.v
Netconf.v
NetconfFacts.v
NetconfProps.v
Strings.v
Configuration.v
Env.v
Resolve.v
ResolveFacts.v
EnvProps.v
ResolveProps.v
ResolveRuns.v
Daemon.v
Cli.v
DaemonFacts.v
DaemonApply.v
DaemonRun.v
Service.v
DaemonProps.v
CliProps.v
DaemonRuns.v
Admin.v
AdminProps.v
AdminRuns.v
Observe.v
ObserveProps.v
