(* ===== verification/Prelude.v ===== *)
(** * clatto: a verified model of a stateless NAT64 / CLAT translator

    clatto moves packets between a tun device and an IPv4/IPv6 translator.  This library
    models the Go program under [src/] and proves what it guarantees.  Data that Go keeps
    in fixed-width integers is in [Z] with the wrap-around written out ([u8] to [u64],
    [i64]); bytes are lists of [Z]; a Go panic is [Panic], a loop whose fuel ran out is
    [Stuck], and a theorem about [wp] or [owp] says that neither happens.

    ** Parts, files and sources

    - The basis.  This file: outcomes, machine integers, byte lists, the state monad [M]
      with its weakest precondition [wp], and the tactics the other files share.  [Netip],
      [Text] and [Strings] model what the program uses of Go's [net/netip], [strings],
      [strconv] and [path]; the text of addresses and prefixes ([ParseAddr], [String],
      [ParsePrefix]) is an interface with its documented laws ([AddrText], [PrefixText]).
    - [internal/netutil]: [Netutil] (classification, RFC 6052 embedding).
    - [internal/xlate]: [Checksum]; [Events]; [Packet] (parsing); [Translator] (the
      interfaces [Mapper] and [Emitter], configuration, [New], [Translate]); [Xlate4] and
      [Xlate6], one definition per Go function.  [Layout] describes headers as functions
      of their fields; [Fills], [Transport], [Fragments], [TranslatorFacts], [Xlate4Facts],
      [Xlate4Data], [Xlate4Icmp], [Xlate6Facts], [Xlate6Data] and [Xlate6Icmp] relate the
      functions to them; [Mapped] is about packets whose addresses the mapper knows and
      [Plain] about packets without options, fragments or ICMP.  The properties are in
      [TranslateProps], [TransportProps], [DataProps] and [RoundTrip] (two translators one
      after the other), run on the packets of [Fixtures].
    - [internal/addrmap]: [Pool] (heap of hosts, maps of references, bitmap; time and the
      order of map iteration are parameters) with [PoolFacts] (the representation
      relation [repr] to a finite map of hosts), [PoolOps] (its abstract transitions),
      [PoolSave], [PoolRun], [PoolAvoid], [PoolProps]; [PoolThreads] (the operations as
      the accesses they make, and schedules that interleave them) with [PoolRaces] (what
      an operation may rely on while others run), [PoolCalls], [PoolSchedules] and
      [PoolShared]; [Table] (builder, table and the
      two mapping functions over the shared pool) with [Join], [TableFacts], [TableMap]
      (the table implements [Mapper] with its laws) and [TableProps].
    - [internal/tundev/engine.go]: [Engine] (emitter with recycled buffers, one turn of
      the loop, [Run]) over the class [Device]; [EngineFacts], [EngineProps].
    - [internal/tundev/fake.go]: [Fake] (the device of the tests, an instance of [Device]),
      [FakeProps] (the engine on it).
    - [internal/netconf]: [Netconf] ([Apply], [Update] and their calls, over the class
      [Kernel], of which nothing is assumed); [NetconfFacts] (the [ledger] of what a kernel
      has acknowledged, kept beside any kernel), [NetconfProps].
    - [internal/config]: [Configuration] (data and parsers), [Env] ([LoadYAML], [LoadEnv],
      a route's YAML), [Resolve] ([ResolveWith]); [ResolveFacts], [EnvProps],
      [ResolveProps], [ResolveRuns].
    - [internal/daemon]: [Daemon].  The state is the record [Daemon] with the store of
      pools, the kernel and the files, and [Running] around it: where [Run] is ([RunPC]),
      whether the engine's goroutine ended and its result was taken, and whether the
      context was cancelled.  [Run] is one step from where it is to the next place where
      other goroutines can tell; [happen] is a step of [Run], a turn of the engine's
      loop, cancellation, or a call of [Apply], [ApplyYAML] or [Reload], and [happens]
      runs any sequence of them from before [Run] begins to after it ended.
      [DaemonFacts] states the invariant [daemon_ok]; [DaemonApply] what a configuration
      does; [DaemonRun] the invariant [run_ok] and that whatever happens keeps it;
      [Service] the configuration service the daemon implements, a step relation;
      [DaemonProps], and runs in [DaemonRuns].
    - [internal/admin/server.go]: [Admin] (handlers and routing over the class
      [Controller], which the daemon implements), [AdminProps], [AdminRuns].
    - [internal/observe/metrics.go]: [Observe], [ObserveProps].
    - [cmd/clatto/main.go]: [Cli] (loading the configuration, the probe, [run] and its
      exit code), [CliProps].

    The parts meet at interfaces: the translator is proved against [MapperLaws] and
    [EmitterLaws], which the table and the engine's emitter fulfil; the engine against
    [DeviceLaws]; the daemon against [FilesLaws] and [TunLaws]; the admin server against
    the daemon through [Controller].

    ** What the theorems show

    - Translation: no input makes it panic or loop, and what it emits is well formed and
      within the size limits; data packets are refused with one event or translated
      and counted once; transport checksums keep the receiver's verdict; fragments
      reassemble; translated ICMP errors are correct and errors never answer errors; a
      datagram taken to IPv6 by one translator and back by another arrives as it was sent.
    - The pool: an invariant of any sequence of its operations; lookups, aging, saving
      and loading refine operations on a finite map of hosts.  Goroutines that share a
      pool cannot break the invariant or block each other for good, and get answers that
      were true at some moment during the call; but a host can be made dormant while a
      packet is being sent to it ([lookup4_races_with_Maintain], on one schedule).
    - The table: it is built unless entries conflict, longest prefixes win, and the two
      directions are inverse to each other.
    - The engine: over table, pool and translator it never panics, and writes exactly the
      translations of what it read; on the device of the tests all that was injected
      comes out, translated, in order.
    - The kernel: after an update from one set of options to another that reports no
      error, the kernel has acknowledged all that the other asks for and that what only
      the first asked for is gone, and has taken back nothing else at the program's
      request.  What it does beyond what it is asked is its own: [renumbering_loses_routes] is an update after which
      Linux lacks a route it once acknowledged.
    - Configurations: a resolved one satisfies what every part it is made for needs,
      but for the interface's addresses and routes, which are not checked
      ([invalid_networks_resolve]); the environment sets the fields it names and no
      others; file, inline document and variables have the documented precedence.
    - The daemon: nothing panics from the command line to the exit; a configuration is
      rejected with the running one in place (its pool's leases and reserved addresses
      excepted) or in force everywhere at once; whatever happens is a run of the
      configuration service; a restart brings the pool's hosts back.  It
      also shows where the program falls short: a device closed under it blocks it, a
      pool that is configured away is not saved, a failed kernel update is not repaired
      by applying the running configuration, and switching http.admin off has no effect.
    - The admin server: what does not change anything, and the answer to each document.
    - Observers: metrics and log tell exactly what was observed.

    ** Fuel and bounds

    [frag_fuel] and [ext_fuel] are one more than the bytes left, and each round consumes
    at least one; [probe] has two more than the pool's largest offset, and finds a free
    offset or tries each once; [hash_fuel] is 40 because a round leaves at most half of
    the part of a 32-bit hash above the host bits, rounded up; twenty digits hold any int64.  The engine's
    [Run] is given a number of turns, and the daemon a list of happenings of any length;
    their theorems hold for all of them.

    ** Not modelled

    - Memory reordering: memory is sequentially consistent.  Operations of one pool
      interleave at the accesses they make without its mutex ([PoolThreads]); a section
      under [RLock], and [assign], [Save] and [SetLeases] under [Lock], is one step, and
      so the half-done states that an access without the mutex could see inside one are
      left out, as are two calls of [Save] that write one temporary file.  In the daemon goroutines
      interleave wherever [Run] leaves its mutex, at turns of the engine's loop, and at
      whole calls of [Apply], [ApplyYAML] and [Reload]; a call of a pool's operation or of
      [savePoolState] is one step there.  Cancelling the context closes the device at once.
    - The kernel, the tun device, the file system, the YAML decoder and encoder, the
      HTTP library, the metrics registry and the text of addresses: parameters or
      classes, with laws where a theorem needs them.  [Decode_ok] assumes that decoding
      keeps the fields' values within what their types hold (addresses of 32 and 128
      bits, prefixes no longer than their address), and not that they are valid.
    - [Pool.SetObserver]: a pool keeps the list of the events it reports.
    - Log messages but for packet events; profiling; signals, which appear as happenings;
      the text of errors, JSON and help; times as text.  Text is ASCII.
    - [test/bench] and [netconf_other.go]: a benchmark and a stub for other systems.  The
      capacities of the channels of [tundev/fake.go], which only make a sender wait. *)

From stdpp Require Import base tactics list numbers option strings.
From Stdlib Require Import ZArith Lia.

Open Scope Z_scope.

(** ** Outcomes: a value, a run-time panic, or a loop that ran out of fuel *)

Inductive outcome (A : Type) : Type :=
  | Ok (a : A)
  | Panic
  | Stuck.
Arguments Ok {A} _.
Arguments Panic {A}.
Arguments Stuck {A}.

#[export] Instance outcome_ret : MRet outcome := fun A a => Ok a.
#[export] Instance outcome_bind : MBind outcome := fun A B f m =>
  match m with Ok a => f a | Panic => Panic | Stuck => Stuck end.

(** ** Machine integers and bytes *)

Definition u8 (x : Z) : Z := x mod 256.
Definition u16 (x : Z) : Z := x mod 65536.
Definition u32 (x : Z) : Z := x mod 4294967296.
Definition u64 (x : Z) : Z := x mod 18446744073709551616.

(** Go's [^x] on uint16. *)
Definition not16 (x : Z) : Z := u16 (Z.lnot x).

Definition byte_ok (b : Z) : Prop := 0 <= b < 256.
Definition bytes_ok (l : list Z) : Prop := Forall byte_ok l.

(** Big-endian reading and writing (encoding/binary.BigEndian). *)
Definition be (l : list Z) : Z := fold_left (fun a b => a * 256 + b) l 0.

Fixpoint be_bytes (n : nat) (v : Z) : list Z :=
  match n with
  | O => []
  | S n' => be_bytes n' (v / 256) ++ [v mod 256]
  end.

(** ** Go slices over a list of bytes: every access is bounds-checked *)

Definition len {A} (l : list A) : Z := Z.of_nat (length l).

Definition at_ (l : list Z) (i : Z) : outcome Z :=
  if (0 <=? i) && (i <? len l) then Ok (l !!! Z.to_nat i) else Panic.

(** [l[i:j]] *)
Definition sub (l : list Z) (i j : Z) : outcome (list Z) :=
  if (0 <=? i) && (i <=? j) && (j <=? len l)
  then Ok (take (Z.to_nat (j - i)) (drop (Z.to_nat i) l)) else Panic.

(** [l[i:]] *)
Definition from (l : list Z) (i : Z) : outcome (list Z) := sub l i (len l).

(** Overwrite [length src] bytes of [l] from position [i] (in range). *)
Definition splice (l : list Z) (i : nat) (src : list Z) : list Z :=
  take i l ++ src ++ drop (i + length src) l.

(** [l[i] = v] *)
Definition set_at (l : list Z) (i v : Z) : outcome (list Z) :=
  if (0 <=? i) && (i <? len l) then Ok (splice l (Z.to_nat i) [v]) else Panic.

(** A write of all of [src] at [l[i:]], panicking when it does not fit, as
    binary.BigEndian.PutUint16 and PutUint32 do. *)
Definition put (l : list Z) (i : Z) (src : list Z) : outcome (list Z) :=
  if (0 <=? i) && (i + len src <=? len l) then Ok (splice l (Z.to_nat i) src) else Panic.

Definition put16 (l : list Z) (i v : Z) : outcome (list Z) := put l i (be_bytes 2 v).
Definition put32 (l : list Z) (i v : Z) : outcome (list Z) := put l i (be_bytes 4 v).

(** [binary.BigEndian.Uint16(l[i:])] and its 32-bit sibling. *)
Definition u16_at (l : list Z) (i : Z) : outcome Z :=
  s ← from l i; w ← sub s 0 2; Ok (be w).
Definition u32_at (l : list Z) (i : Z) : outcome Z :=
  s ← from l i; w ← sub s 0 4; Ok (be w).

(** [copy(l[i:j], src)]: copies the shorter of the two. *)
Definition copy_to (l : list Z) (i j : Z) (src : list Z) : outcome (list Z) :=
  if (0 <=? i) && (i <=? j) && (j <=? len l)
  then Ok (splice l (Z.to_nat i) (take (Z.to_nat (j - i)) src)) else Panic.

(** ** A state monad over outcomes, and its weakest preconditions

    [wp] is total correctness: a computation that panics or runs out of fuel
    satisfies no postcondition. *)

Definition M (S A : Type) : Type := S -> outcome (A * S).

#[export] Instance M_ret {S} : MRet (M S) := fun A a s => Ok (a, s).
#[export] Instance M_bind {S} : MBind (M S) := fun A B f m s =>
  match m s with Ok (a, s') => f a s' | Panic => Panic | Stuck => Stuck end.

Definition lift {S A} (o : outcome A) : M S A := fun s =>
  match o with Ok a => Ok (a, s) | Panic => Panic | Stuck => Stuck end.
Definition gets {S A} (f : S -> A) : M S A := fun s => Ok (f s, s).
Definition modify {S} (f : S -> S) : M S unit := fun s => Ok (tt, f s).
Definition skip {S} : M S unit := fun s => Ok (tt, s).

Definition wp {S A} (m : M S A) (Q : A -> S -> Prop) (s : S) : Prop :=
  match m s with Ok (a, s') => Q a s' | _ => False end.

(** The same for computations without state. *)
Definition owp {A} (o : outcome A) (Q : A -> Prop) : Prop :=
  match o with Ok a => Q a | _ => False end.

Section owp_rules.
Context {A : Type}.
Implicit Types (o : outcome A) (Q : A -> Prop).

Lemma owp_bind {B} (o : outcome B) (k : B -> outcome A) Q :
  owp o (fun b => owp (k b) Q) -> owp (o ≫= k) Q.
Proof. by destruct o. Qed.

Lemma owp_ok (a : A) Q : Q a -> owp (Ok a) Q.
Proof. done. Qed.

Lemma owp_eq o a Q : o = Ok a -> Q a -> owp o Q.
Proof. by intros ->. Qed.

Lemma owp_mono o Q Q' : owp o Q -> (forall a, Q a -> Q' a) -> owp o Q'.
Proof. destruct o; simpl; auto. Qed.

Lemma owp_run o Q : owp o Q <-> exists a, o = Ok a /\ Q a.
Proof.
  split; [destruct o; simpl; [eauto|done|done]|]. by intros (a & -> & H).
Qed.
End owp_rules.

Section wp_rules.
Context {S : Type}.
Implicit Types s : S.

Lemma wp_bind {A B} (m : M S A) (k : A -> M S B) Q s :
  wp m (fun a s' => wp (k a) Q s') s -> wp (m ≫= k) Q s.
Proof. unfold wp, mbind, M_bind. by destruct (m s) as [[a s']| |]. Qed.

Lemma wp_mono {A} (m : M S A) (Q Q' : A -> S -> Prop) s :
  wp m Q s -> (forall a s', Q a s' -> Q' a s') -> wp m Q' s.
Proof. unfold wp. destruct (m s) as [[a s']| |]; auto. Qed.

Lemma wp_ret {A} (a : A) (Q : A -> S -> Prop) s : Q a s -> wp (mret a) Q s.
Proof. done. Qed.

Lemma wp_skip (Q : unit -> S -> Prop) s : Q tt s -> wp skip Q s.
Proof. done. Qed.

Lemma wp_gets {A} (f : S -> A) (Q : A -> S -> Prop) s : Q (f s) s -> wp (gets f) Q s.
Proof. done. Qed.

Lemma wp_modify (f : S -> S) (Q : unit -> S -> Prop) s : Q tt (f s) -> wp (modify f) Q s.
Proof. done. Qed.

Lemma wp_lift {A} (o : outcome A) (Q : A -> S -> Prop) s :
  owp o (fun a => Q a s) -> wp (lift o) Q s.
Proof. unfold wp, lift. by destruct o. Qed.

(** A run that satisfies a postcondition ends, and its result satisfies it. *)
Lemma wp_run {A} (m : M S A) (Q : A -> S -> Prop) s :
  wp m Q s <-> exists a s', m s = Ok (a, s') /\ Q a s'.
Proof.
  unfold wp. split.
  - destruct (m s) as [[a s']| |]; [eauto | done | done].
  - intros (a & s' & -> & H). exact H.
Qed.
End wp_rules.

(** ** Tactics *)

(** Split a list of known length into its elements. *)
Ltac explode H :=
  lazymatch type of H with
  | length ?l = 0%nat => apply nil_length_inv in H; subst l
  | length ?l = S _ =>
      let x := fresh "x" in
      destruct l as [|x l]; [discriminate H |];
      cbn [length] in H; apply eq_add_S in H; explode H
  end.

(** Evaluate bounds-checked accesses to lists of known length.  stdpp keeps the
    conversions between [nat] and [Z] from reducing; [fold_consts] evaluates
    them on constants. *)
Ltac closed_nat n := lazymatch n with O => idtac | S ?m => closed_nat m end.
Ltac fold_nat e tac :=
  let v := eval vm_compute in e in closed_nat v; tac v.
Ltac fold_consts_in H :=
  repeat match type of H with
  | context [Z.to_nat ?e] =>
      fold_nat constr:(Z.to_nat e) ltac:(fun v => change (Z.to_nat e) with v in H)
  | context [Z.of_nat ?e] => closed_nat e;
      let v := eval vm_compute in (Z.of_nat e) in change (Z.of_nat e) with v in H
  end.
Ltac fold_consts :=
  repeat match goal with
  | |- context [Z.to_nat ?e] =>
      fold_nat constr:(Z.to_nat e) ltac:(fun v => change (Z.to_nat e) with v)
  | |- context [Z.of_nat ?e] => closed_nat e;
      let v := eval vm_compute in (Z.of_nat e) in change (Z.of_nat e) with v
  end.
Ltac exec_in H :=
  cbv [mbind outcome_bind mret outcome_ret from sub copy_to set_at put put16 put32
       at_ u16_at u32_at splice len] in H; cbn in H; fold_consts_in H; cbn in H;
  fold_consts_in H; cbn in H.
Ltac exec :=
  cbv [mbind outcome_bind mret outcome_ret from sub copy_to set_at put put16 put32
       at_ u16_at u32_at splice len]; cbn; fold_consts; cbn; fold_consts; cbn.

(** Turn boolean comparisons into propositions. *)
Ltac bool_prop :=
  repeat match goal with
  | H : context [(_ && _) = true] |- _ => rewrite andb_true_iff in H
  | H : context [(_ && _) = false] |- _ => rewrite andb_false_iff in H
  | H : context [(_ || _) = true] |- _ => rewrite orb_true_iff in H
  | H : context [(_ || _) = false] |- _ => rewrite orb_false_iff in H
  | H : context [negb _ = true] |- _ => rewrite negb_true_iff in H
  | H : context [negb _ = false] |- _ => rewrite negb_false_iff in H
  | H : context [(_ <=? _) = true] |- _ => rewrite Z.leb_le in H
  | H : context [(_ <=? _) = false] |- _ => rewrite Z.leb_gt in H
  | H : context [(_ <? _) = true] |- _ => rewrite Z.ltb_lt in H
  | H : context [(_ <? _) = false] |- _ => rewrite Z.ltb_ge in H
  | H : context [(_ =? _) = true] |- _ => rewrite Z.eqb_eq in H
  | H : context [(_ =? _) = false] |- _ => rewrite Z.eqb_neq in H
  end.

(** Case analysis on the condition of an [if] in the goal or a hypothesis. *)
Ltac case_if :=
  match goal with
  | |- context [if ?c then _ else _] => let E := fresh "E" in destruct c eqn:E
  | H : context [if ?c then _ else _] |- _ => let E := fresh "E" in destruct c eqn:E
  end.

Lemma bytes_ok_cons_inv x l : bytes_ok (x :: l) -> byte_ok x /\ bytes_ok l.
Proof. apply Forall_cons. Qed.
Lemma bytes_ok_app_inv l1 l2 : bytes_ok (l1 ++ l2) -> bytes_ok l1 /\ bytes_ok l2.
Proof. apply Forall_app. Qed.

(** Split what is known of the bytes of an explicit list. *)
Ltac bytes_inv :=
  repeat match goal with
  | H : bytes_ok (_ :: _) |- _ =>
      let Hx := fresh "Hb" in apply bytes_ok_cons_inv in H as [Hx H]; unfold byte_ok in Hx
  | H : bytes_ok [] |- _ => clear H
  | H : bytes_ok (_ ++ _) |- _ =>
      let H' := fresh "Hb" in apply bytes_ok_app_inv in H as [H H']
  end.

(** [bytes_ok] of an explicit list of constants. *)
Definition byte_okb (b : Z) : bool := (0 <=? b) && (b <? 256).
Lemma bytes_ok_b l : forallb byte_okb l = true -> bytes_ok l.
Proof.
  unfold bytes_ok. rewrite forallb_forall, Forall_forall. intros H x Hx%list_elem_of_In.
  specialize (H x Hx). unfold byte_okb, byte_ok in *.
  apply andb_true_iff in H as [H1%Z.leb_le H2%Z.ltb_lt]. lia.
Qed.
Ltac solve_bytes := apply bytes_ok_b; vm_compute; reflexivity.

(** [lia] with division and modulo by constants. *)
Ltac dlia := Z.div_mod_to_equations; lia.

Declare Scope clatto_scope.

Create HintDb clatto.

(** ** Lemmas on bytes and integers *)

Section byte_lemmas.
Lemma u8_ok x : byte_ok (u8 x).
Proof. unfold byte_ok, u8. dlia. Qed.

Lemma u8_small x : 0 <= x < 256 -> u8 x = x.
Proof. intros. by apply Z.mod_small. Qed.

Lemma u16_small x : 0 <= x < 65536 -> u16 x = x.
Proof. intros. by apply Z.mod_small. Qed.

Lemma u32_small x : 0 <= x < 4294967296 -> u32 x = x.
Proof. intros. by apply Z.mod_small. Qed.

Lemma u64_small x : 0 <= x < 18446744073709551616 -> u64 x = x.
Proof. intros. by apply Z.mod_small. Qed.

Lemma u16_range x : 0 <= u16 x < 65536.
Proof. unfold u16. dlia. Qed.

Lemma not16_eq x : 0 <= x < 65536 -> not16 x = 65535 - x.
Proof. intros Hx. unfold not16, u16, Z.lnot. dlia. Qed.

Lemma not16_range x : 0 <= not16 x < 65536.
Proof. apply u16_range. Qed.

Lemma length_be_bytes n v : length (be_bytes n v) = n.
Proof.
  revert v. induction n as [|n IH]; intros v; simpl; [done|].
  rewrite length_app, IH. simpl. lia.
Qed.

Lemma be_bytes_ok n v : bytes_ok (be_bytes n v).
Proof.
  revert v. induction n as [|n IH]; intros v; simpl; [constructor|].
  apply Forall_app. split; [apply IH|]. constructor; [apply u8_ok|constructor].
Qed.

Lemma be_one x : be [x] = x.
Proof. unfold be. simpl. lia. Qed.

Lemma len_one {A} (x : A) : len [x] = 1.
Proof. done. Qed.

Lemma be_app l1 l2 : be (l1 ++ l2) = be l1 * 256 ^ len l2 + be l2.
Proof.
  unfold be. rewrite fold_left_app. generalize (fold_left (fun a b => a * 256 + b) l1 0).
  induction l2 as [|x l2 IH] using rev_ind; intros a; simpl; [unfold len; simpl; lia|].
  rewrite !fold_left_app. simpl. rewrite IH. unfold len. rewrite length_app. simpl.
  rewrite Nat2Z.inj_add, Z.pow_add_r by lia. simpl. lia.
Qed.

Lemma be_be_bytes n v : be (be_bytes n v) = v mod 256 ^ Z.of_nat n.
Proof.
  revert v. induction n as [|n IH]; intros v.
  - by rewrite Z.mod_1_r.
  - cbn [be_bytes]. rewrite be_app, IH, be_one, len_one. change (256 ^ 1) with 256.
    rewrite Nat2Z.inj_succ, Z.pow_succ_r by lia.
    rewrite Z.rem_mul_r by lia. lia.
Qed.

Lemma be_range l : bytes_ok l -> 0 <= be l < 256 ^ len l.
Proof.
  induction l as [|x l IH] using rev_ind; intros H; [done|].
  apply Forall_app in H as [H1 H2]. rewrite Forall_singleton in H2.
  rewrite be_app, be_one, len_one. unfold len in *. rewrite length_app. cbn [length].
  rewrite Nat2Z.inj_add, Z.pow_add_r by lia.
  specialize (IH H1). unfold byte_ok in H2. change (256 ^ 1) with 256.
  change (256 ^ Z.of_nat 1) with 256. lia.
Qed.

Lemma be_bytes_be l : bytes_ok l -> be_bytes (length l) (be l) = l.
Proof.
  induction l as [|x l IH] using rev_ind; intros H; [done|].
  apply Forall_app in H as [H1 H2]. rewrite Forall_singleton in H2. unfold byte_ok in H2.
  rewrite length_app, be_app, be_one, len_one. cbn [length].
  rewrite Nat.add_comm. cbn [be_bytes Nat.add]. change (256 ^ 1) with 256.
  replace ((be l * 256 + x) / 256) with (be l) by dlia.
  replace ((be l * 256 + x) mod 256) with x by dlia.
  by rewrite IH.
Qed.

Lemma be_inj l1 l2 :
  bytes_ok l1 -> bytes_ok l2 -> length l1 = length l2 -> be l1 = be l2 -> l1 = l2.
Proof.
  intros H1 H2 Hl Hb. rewrite <- (be_bytes_be l1), <- (be_bytes_be l2) by done.
  by rewrite Hl, Hb.
Qed.
End byte_lemmas.

Lemma be4 a b c d : be [a; b; c; d] = a * 16777216 + b * 65536 + c * 256 + d.
Proof. unfold be. simpl. lia. Qed.

#[global] Arguments be : simpl never.
#[global] Arguments be_bytes : simpl never.

(** ** Lemmas on bounds-checked access *)

Section slice_lemmas.
Lemma len_nonneg {A} (l : list A) : 0 <= len l.
Proof. unfold len. lia. Qed.

Lemma len_app {A} (l1 l2 : list A) : len (l1 ++ l2) = len l1 + len l2.
Proof. unfold len. rewrite length_app. lia. Qed.
Lemma len_replicate {A} n (x : A) : 0 <= n -> len (replicate (Z.to_nat n) x) = n.
Proof. intros Hn. unfold len. rewrite length_replicate. by apply Z2Nat.id. Qed.

Lemma len_of {A} (l : list A) n : length l = n -> len l = Z.of_nat n.
Proof. by intros <-. Qed.

Lemma at_ok l i : 0 <= i < len l -> at_ l i = Ok (l !!! Z.to_nat i).
Proof. intros H. unfold at_. by rewrite (proj2 (Z.leb_le _ _)), (proj2 (Z.ltb_lt _ _)) by lia. Qed.

Lemma sub_ok l i j :
  0 <= i <= j -> j <= len l ->
  sub l i j = Ok (take (Z.to_nat (j - i)) (drop (Z.to_nat i) l)).
Proof. intros H Hj. unfold sub. by rewrite !(proj2 (Z.leb_le _ _)) by lia. Qed.

Lemma put_ok l i src :
  0 <= i -> i + len src <= len l -> put l i src = Ok (splice l (Z.to_nat i) src).
Proof. intros H Hj. unfold put. by rewrite !(proj2 (Z.leb_le _ _)) by lia. Qed.

Lemma u16_at_ok l i :
  0 <= i -> i + 2 <= len l -> u16_at l i = Ok (be (take 2 (drop (Z.to_nat i) l))).
Proof.
  intros Hi Hl. unfold u16_at, from. rewrite sub_ok by lia. cbn [mbind outcome_bind].
  rewrite take_ge by (unfold len in *; rewrite length_drop; lia).
  rewrite sub_ok by (unfold len in *; rewrite ?length_drop; lia). done.
Qed.

Lemma u32_at_ok l i :
  0 <= i -> i + 4 <= len l -> u32_at l i = Ok (be (take 4 (drop (Z.to_nat i) l))).
Proof.
  intros Hi Hl. unfold u32_at, from. rewrite sub_ok by lia. cbn [mbind outcome_bind].
  rewrite take_ge by (unfold len in *; rewrite length_drop; lia).
  rewrite sub_ok by (unfold len in *; rewrite ?length_drop; lia). done.
Qed.

Lemma length_splice l i src :
  (i + length src <= length l)%nat -> length (splice l i src) = length l.
Proof. intros. unfold splice. rewrite !length_app, length_take, length_drop. lia. Qed.

Lemma splice_app l1 x l2 src :
  length src = length x -> splice (l1 ++ x ++ l2) (length l1) src = l1 ++ src ++ l2.
Proof.
  intros H. unfold splice. rewrite take_app_length, H. do 2 f_equal.
  by rewrite app_assoc, <- length_app, drop_app_length.
Qed.

(** A list seen as what precedes, makes up and follows a range of it. *)
Lemma split_range {A} (l : list A) (i n : nat) :
  (i + n <= length l)%nat ->
  exists l1 x l2, l = l1 ++ x ++ l2 /\ length l1 = i /\ length x = n.
Proof.
  intros H. exists (take i l), (take n (drop i l)), (drop n (drop i l)).
  rewrite !take_drop, !length_take, length_drop. repeat split; lia.
Qed.

Lemma bytes_ok_take n l : bytes_ok l -> bytes_ok (take n l).
Proof. apply Forall_take. Qed.

Lemma bytes_ok_drop n l : bytes_ok l -> bytes_ok (drop n l).
Proof. apply Forall_drop. Qed.

Lemma bytes_ok_app l1 l2 : bytes_ok l1 -> bytes_ok l2 -> bytes_ok (l1 ++ l2).
Proof. intros. by apply Forall_app. Qed.

Lemma bytes_ok_splice l i src : bytes_ok l -> bytes_ok src -> bytes_ok (splice l i src).
Proof.
  intros. unfold splice.
  eauto using bytes_ok_app, bytes_ok_take, bytes_ok_drop.
Qed.

Lemma bytes_ok_lookup l i : bytes_ok l -> byte_ok (l !!! i).
Proof.
  intros H. destruct (decide (i < length l)%nat).
  - eapply Forall_lookup_1; [exact H|]. by apply list_lookup_lookup_total_lt.
  - rewrite list_lookup_total_alt, lookup_ge_None_2 by lia. split; simpl; lia.
Qed.
End slice_lemmas.

(** In-range accesses, as rules for symbolic execution. *)
Section access_rules.
Lemma owp_at l i Q : 0 <= i < len l -> Q (l !!! Z.to_nat i) -> owp (at_ l i) Q.
Proof. intros. by rewrite at_ok. Qed.

Lemma owp_sub l i j Q :
  0 <= i <= j -> j <= len l -> Q (take (Z.to_nat (j - i)) (drop (Z.to_nat i) l)) ->
  owp (sub l i j) Q.
Proof. intros. by rewrite sub_ok. Qed.

Lemma owp_from l i Q :
  0 <= i <= len l -> Q (drop (Z.to_nat i) l) -> owp (from l i) Q.
Proof.
  intros Hi HQ. unfold from. rewrite sub_ok by lia.
  rewrite take_ge; [done|]. unfold len in *. rewrite length_drop. lia.
Qed.

Lemma owp_put l i src Q :
  0 <= i -> i + len src <= len l -> Q (splice l (Z.to_nat i) src) -> owp (put l i src) Q.
Proof. intros. by rewrite put_ok. Qed.

Lemma owp_set_at l i v Q :
  0 <= i < len l -> Q (splice l (Z.to_nat i) [v]) -> owp (set_at l i v) Q.
Proof. intros H HQ. unfold set_at. by rewrite (proj2 (Z.leb_le _ _)), (proj2 (Z.ltb_lt _ _)) by lia. Qed.

Lemma owp_copy_to l i j src Q :
  0 <= i <= j -> j <= len l ->
  Q (splice l (Z.to_nat i) (take (Z.to_nat (j - i)) src)) -> owp (copy_to l i j src) Q.
Proof. intros. unfold copy_to. by rewrite !(proj2 (Z.leb_le _ _)) by lia. Qed.
End access_rules.

#[export] Hint Resolve u8_ok be_bytes_ok bytes_ok_take bytes_ok_drop bytes_ok_app
  bytes_ok_splice bytes_ok_lookup : clatto.

(** A boolean property of a byte is decided by running it on all 256 values. *)
Lemma byte_forall (P : Z -> bool) (x : Z) :
  forallb (fun n => P (Z.of_nat n)) (seq 0 256) = true -> byte_ok x -> P x = true.
Proof.
  intros H [Hl Hu]. rewrite forallb_forall in H.
  rewrite <- (Z2Nat.id x) by lia. apply H, in_seq. lia.
Qed.
