(* ===== verification/Netip.v ===== *)
(** * Addresses and prefixes: the part of Go's [net/netip] the program uses

    [net/netip] belongs to Go's standard library.  An [Addr] is the zero value,
    an IPv4 address or an IPv6 address with an optional zone; a [Prefix] is an
    address and a length, with length [-1] for an invalid prefix.  The map keys
    of the address table and of the dynamic pool are [Addr]s, hence the
    decidable equality and countability instances. *)

From stdpp Require Import base tactics list numbers option strings countable.
From Stdlib Require Import ZArith Lia.
From S2P Require Import Prelude.

Open Scope Z_scope.

Inductive Addr : Type :=
  | AddrZero
  | Addr4 (v : Z)
  | Addr6 (v : Z) (zone : string).

#[export] Instance Addr_eq_dec : EqDecision Addr.
Proof. solve_decision. Defined.

#[export] Program Instance Addr_countable : Countable Addr :=
  inj_countable'
    (fun a => match a with AddrZero => inl tt | Addr4 v => inr (inl v)
              | Addr6 v z => inr (inr (v, z)) end)
    (fun c => match c with inl _ => AddrZero | inr (inl v) => Addr4 v
              | inr (inr (v, z)) => Addr6 v z end) _.
Next Obligation. by intros []. Qed.

(** The values Go can hold. *)
Definition addr_ok (a : Addr) : Prop :=
  match a with
  | AddrZero => True
  | Addr4 v => 0 <= v < 2 ^ 32
  | Addr6 v _ => 0 <= v < 2 ^ 128
  end.

Definition IsValid (a : Addr) : bool := match a with AddrZero => false | _ => true end.
Definition Is4 (a : Addr) : bool := match a with Addr4 _ => true | _ => false end.
Definition Is6 (a : Addr) : bool := match a with Addr6 _ _ => true | _ => false end.
Definition Is4In6 (a : Addr) : bool :=
  match a with Addr6 v _ => Z.shiftr v 32 =? 0xffff | _ => false end.
Definition BitLen (a : Addr) : Z :=
  match a with AddrZero => 0 | Addr4 _ => 32 | Addr6 _ _ => 128 end.
Definition withoutZone (a : Addr) : Addr :=
  match a with Addr6 v _ => Addr6 v "" | _ => a end.
Definition hasZone (a : Addr) : bool :=
  match a with Addr6 _ z => negb (bool_decide (z = ""%string)) | _ => false end.

(** [As4] panics on the zero address and on a pure IPv6 address. *)
Definition As4 (a : Addr) : outcome (list Z) :=
  match a with
  | Addr4 v => Ok (be_bytes 4 v)
  | Addr6 v _ => if Is4In6 a then Ok (be_bytes 4 v) else Panic
  | AddrZero => Panic
  end.

Definition As16 (a : Addr) : list Z :=
  match a with
  | AddrZero => replicate 16 0
  | Addr4 v => be_bytes 16 (0xffff * 2 ^ 32 + v)
  | Addr6 v _ => be_bytes 16 v
  end.

Definition AddrFrom4 (b : list Z) : Addr := Addr4 (be b).
Definition AddrFrom16 (b : list Z) : Addr := Addr6 (be b) "".

(** [Addr.Less] *)
Definition Less (a b : Addr) : bool :=
  match a, b with
  | _, AddrZero => false
  | AddrZero, _ => true
  | Addr4 v, Addr4 w => v <? w
  | Addr4 _, Addr6 _ _ => true
  | Addr6 _ _, Addr4 _ => false
  | Addr6 v z, Addr6 w y => (v <? w) || ((v =? w) && String.ltb z y)
  end.

Record Prefix : Type := mkPrefix { p_addr : Addr; p_bits : Z }.

#[export] Instance Prefix_eq_dec : EqDecision Prefix.
Proof. solve_decision. Defined.

#[export] Program Instance Prefix_countable : Countable Prefix :=
  inj_countable' (fun p => (p_addr p, p_bits p)) (fun '(a, b) => mkPrefix a b) _.
Next Obligation. by intros []. Qed.

(** [netip.Prefix{}] *)
Definition PrefixZero : Prefix := mkPrefix AddrZero (-1).

Definition PrefixFrom (a : Addr) (bits : Z) : Prefix :=
  if IsValid a && (0 <=? bits) && (bits <=? BitLen a)
  then mkPrefix (withoutZone a) bits else mkPrefix (withoutZone a) (-1).

Definition PIsValid (p : Prefix) : bool := 0 <=? p_bits p.

(** Keep the [bits] high bits of a [w]-bit value. *)
Definition mask_hi (w bits v : Z) : Z := Z.shiftl (Z.shiftr v (w - bits)) (w - bits).

(** [Addr.Prefix(bits)] for [bits] in range. *)
Definition addr_prefix (a : Addr) (bits : Z) : Prefix :=
  match a with
  | AddrZero => PrefixZero
  | Addr4 v => mkPrefix (Addr4 (mask_hi 32 bits v)) bits
  | Addr6 v _ => mkPrefix (Addr6 (mask_hi 128 bits v) "") bits
  end.

Definition Masked (p : Prefix) : Prefix :=
  if PIsValid p then addr_prefix (p_addr p) (p_bits p) else PrefixZero.

Definition Contains (p : Prefix) (a : Addr) : bool :=
  if negb (PIsValid p) || hasZone a then false
  else match p_addr p, a with
       | Addr4 v, Addr4 w => Z.shiftr w (32 - p_bits p) =? Z.shiftr v (32 - p_bits p)
       | Addr6 v _, Addr6 w _ => Z.shiftr w (128 - p_bits p) =? Z.shiftr v (128 - p_bits p)
       | _, _ => false
       end.

Definition Overlaps (p o : Prefix) : bool :=
  if negb (PIsValid p) || negb (PIsValid o) then false
  else if bool_decide (p = o) then true
  else if negb (Bool.eqb (Is4 (p_addr p)) (Is4 (p_addr o))) then false
  else let minBits := Z.min (p_bits p) (p_bits o) in
       if minBits =? 0 then true
       else bool_decide (addr_prefix (p_addr p) minBits = addr_prefix (p_addr o) minBits).

Definition prefix_ok (p : Prefix) : Prop :=
  addr_ok (p_addr p) /\ hasZone (p_addr p) = false /\
  (p_bits p = -1 \/ 0 <= p_bits p <= BitLen (p_addr p)).

(** ** Lemmas *)

Lemma length_As16 a : length (As16 a) = 16%nat.
Proof. by destruct a. Qed.

Lemma As16_ok a : bytes_ok (As16 a).
Proof. destruct a; cbn [As16]; [by repeat constructor|apply be_bytes_ok..]. Qed.

Lemma As4_length a b : As4 a = Ok b -> length b = 4%nat.
Proof. destruct a; cbn [As4]; try case_if; intros; simplify_eq; apply length_be_bytes. Qed.

Lemma As4_bytes a b : As4 a = Ok b -> bytes_ok b.
Proof. destruct a; cbn [As4]; try case_if; intros; simplify_eq; apply be_bytes_ok. Qed.

Lemma As4_AddrFrom4 b : bytes_ok b -> length b = 4%nat -> As4 (AddrFrom4 b) = Ok b.
Proof. intros Hb Hl. cbn [As4 AddrFrom4]. f_equal. rewrite <- Hl at 1. by apply be_bytes_be. Qed.

Lemma As16_AddrFrom16 b : bytes_ok b -> length b = 16%nat -> As16 (AddrFrom16 b) = b.
Proof. intros Hb Hl. cbn [As16 AddrFrom16]. rewrite <- Hl at 1. by apply be_bytes_be. Qed.

Lemma AddrFrom4_inj b1 b2 :
  bytes_ok b1 -> bytes_ok b2 -> length b1 = length b2 ->
  AddrFrom4 b1 = AddrFrom4 b2 -> b1 = b2.
Proof. intros ??? [= E]. by apply be_inj. Qed.

(** The addresses a prefix contains agree with it on its high bits. *)
Lemma Contains4 v w bits :
  0 <= bits -> Contains (mkPrefix (Addr4 v) bits) (Addr4 w) = true <->
  Z.shiftr w (32 - bits) = Z.shiftr v (32 - bits).
Proof.
  intros Hb. unfold Contains, PIsValid. simpl. rewrite (proj2 (Z.leb_le 0 bits)) by done.
  simpl. apply Z.eqb_eq.
Qed.

#[export] Hint Resolve As16_ok length_As16 As4_bytes As4_length : clatto.
