(* ===== verification/Netutil.v ===== *)
(** * Address validation and RFC 6052 embedding: [src/internal/netutil/netutil.go]

    A [[4]byte] or [[16]byte] array is a list of that length; indexing such an
    array by a constant cannot panic.  [Embed] slices its arrays by a computed
    length and is bounds-checked. *)

From stdpp Require Import base tactics list numbers option strings.
From Stdlib Require Import ZArith Lia.
From S2P Require Import Prelude Netip.

Open Scope Z_scope.

Inductive NetErr := ErrInvalidPrefixLen | ErrNotEmbedded.

Inductive IPv4Class := IPv4Valid | IPv4LinkLocal | IPv4Invalid.

#[export] Instance IPv4Class_eq_dec : EqDecision IPv4Class.
Proof. solve_decision. Defined.

(** [64:ff9b::/96] *)
Definition WellKnownPrefix : Prefix := PrefixFrom (Addr6 (0x64ff9b * 2 ^ 96) "") 96.

Definition ClassifyIPv4 (a : list Z) : IPv4Class :=
  if a !!! 0%nat =? 0 then IPv4Invalid
  else if a !!! 0%nat =? 127 then IPv4Invalid
  else if (a !!! 0%nat =? 169) && (a !!! 1%nat =? 254) then IPv4LinkLocal
  else if Z.land (a !!! 0%nat) 0xf0 =? 0xe0 then IPv4Invalid
  else if bool_decide (a = [255; 255; 255; 255]) then IPv4Invalid
  else IPv4Valid.

Definition ValidIPv6 (a : list Z) : bool :=
  if (a !!! 0%nat =? 0) && (a !!! 1%nat =? 0x64) && (a !!! 2%nat =? 0xff) && (a !!! 3%nat =? 0x9b)
  then true
  else if a !!! 0%nat =? 0 then false
  else if a !!! 0%nat =? 0xff then false
  else if (a !!! 0%nat =? 0xfe) && (Z.land (a !!! 1%nat) 0xc0 =? 0x80) then false
  else true.

Definition IsPrivateIPv4 (a : list Z) : bool :=
  if a !!! 0%nat =? 10 then true
  else if (a !!! 0%nat =? 100) && (Z.land (a !!! 1%nat) 0xc0 =? 0x40) then true
  else if (a !!! 0%nat =? 172) && (Z.land (a !!! 1%nat) 0xf0 =? 0x10) then true
  else if (a !!! 0%nat =? 192) && (a !!! 1%nat =? 0) && (a !!! 2%nat =? 2) then true
  else if (a !!! 0%nat =? 192) && (a !!! 1%nat =? 168) then true
  else if (a !!! 0%nat =? 198) && (Z.land (a !!! 1%nat) 0xfe =? 0x12) then true
  else if (a !!! 0%nat =? 198) && (a !!! 1%nat =? 51) && (a !!! 2%nat =? 100) then true
  else if (a !!! 0%nat =? 203) && (a !!! 1%nat =? 0) && (a !!! 2%nat =? 113) then true
  else false.

Definition IsWellKnownPrefix (p : Prefix) : bool :=
  (p_bits p =? 96) && bool_decide (p_addr p = p_addr WellKnownPrefix).

Definition ValidRFC6052PrefixLen (n : Z) : bool :=
  bool_decide (n ∈ [32; 40; 48; 56; 64; 96]).

(** The switch on the prefix length is a chain of tests, as Go's is; integer
    division truncates towards zero ([Z.quot]). *)
Definition Embed (prefix : list Z) (prefixLen : Z) (v4 : list Z) : outcome (list Z + NetErr) :=
  let out := replicate 16 0 in
  src ← sub prefix 0 (Z.quot prefixLen 8);
  out ← copy_to out 0 (Z.quot prefixLen 8) src;
  if prefixLen =? 32 then
    out ← copy_to out 4 8 v4; Ok (inl out)
  else if prefixLen =? 40 then
    s ← sub v4 0 3; out ← copy_to out 5 8 s;
    out ← set_at out 9 (v4 !!! 3%nat); Ok (inl out)
  else if prefixLen =? 48 then
    s ← sub v4 0 2; out ← copy_to out 6 8 s;
    s ← sub v4 2 4; out ← copy_to out 9 11 s; Ok (inl out)
  else if prefixLen =? 56 then
    out ← set_at out 7 (v4 !!! 0%nat);
    s ← sub v4 1 4; out ← copy_to out 9 12 s; Ok (inl out)
  else if prefixLen =? 64 then
    out ← copy_to out 9 13 v4; Ok (inl out)
  else if prefixLen =? 96 then
    out ← copy_to out 12 16 v4; Ok (inl out)
  else Ok (inr ErrInvalidPrefixLen).

Definition zero (b : list Z) : bool := forallb (fun x => x =? 0) b.

Definition Extract (v6 : list Z) (prefixLen : Z) : outcome (list Z + NetErr) :=
  let out := replicate 4 0 in
  if prefixLen =? 32 then
    z ← sub v6 8 16;
    if negb (zero z) then Ok (inr ErrNotEmbedded)
    else s ← sub v6 4 8; out ← copy_to out 0 4 s; Ok (inl out)
  else if prefixLen =? 40 then
    z ← sub v6 10 16;
    if negb (v6 !!! 8%nat =? 0) || negb (zero z) then Ok (inr ErrNotEmbedded)
    else s ← sub v6 5 8; out ← copy_to out 0 3 s;
         out ← set_at out 3 (v6 !!! 9%nat); Ok (inl out)
  else if prefixLen =? 48 then
    z ← sub v6 11 16;
    if negb (v6 !!! 8%nat =? 0) || negb (zero z) then Ok (inr ErrNotEmbedded)
    else s ← sub v6 6 8; out ← copy_to out 0 2 s;
         s ← sub v6 9 11; out ← copy_to out 2 4 s; Ok (inl out)
  else if prefixLen =? 56 then
    z ← sub v6 12 16;
    if negb (v6 !!! 8%nat =? 0) || negb (zero z) then Ok (inr ErrNotEmbedded)
    else out ← set_at out 0 (v6 !!! 7%nat);
         s ← sub v6 9 12; out ← copy_to out 1 4 s; Ok (inl out)
  else if prefixLen =? 64 then
    z ← sub v6 13 16;
    if negb (v6 !!! 8%nat =? 0) || negb (zero z) then Ok (inr ErrNotEmbedded)
    else s ← sub v6 9 13; out ← copy_to out 0 4 s; Ok (inl out)
  else if prefixLen =? 96 then
    s ← sub v6 12 16; out ← copy_to out 0 4 s; Ok (inl out)
  else Ok (inr ErrInvalidPrefixLen).

(** ** Embedding and extraction are inverse to each other *)

(** Do the case analysis on the six legal prefix lengths. *)
Ltac rfc6052_cases H :=
  apply bool_decide_eq_true_1 in H;
  repeat (apply elem_of_cons in H as [->|H]); [..|by apply elem_of_nil in H].

Lemma valid_len_false n :
  ValidRFC6052PrefixLen n = false ->
  n <> 32 /\ n <> 40 /\ n <> 48 /\ n <> 56 /\ n <> 64 /\ n <> 96.
Proof.
  unfold ValidRFC6052PrefixLen. intros H%bool_decide_eq_false_1.
  repeat split; intros ->; apply H; by repeat constructor.
Qed.

Lemma Extract_Embed_ok prefix n v4 :
  ValidRFC6052PrefixLen n = true -> length prefix = 16%nat -> length v4 = 4%nat ->
  exists v6, Embed prefix n v4 = Ok (inl v6) /\ length v6 = 16%nat /\
             take (Z.to_nat (n / 8)) v6 = take (Z.to_nat (n / 8)) prefix /\
             Extract v6 n = Ok (inl v4).
Proof.
  intros Hn Hp Hv. explode Hp. explode Hv.
  rfc6052_cases Hn; eexists; repeat split; reflexivity.
Qed.

Lemma Embed_Extract_ok v6 n v4 :
  length v6 = 16%nat -> Extract v6 n = Ok (inl v4) ->
  ValidRFC6052PrefixLen n = true /\ length v4 = 4%nat /\ Embed v6 n v4 = Ok (inl v6).
Proof.
  intros Hl. explode Hl. unfold Extract. intros H.
  repeat match type of H with
  | context [if n =? ?k then _ else _] =>
      destruct (Z.eqb_spec n k) as [->|?];
      [exec_in H; try case_if; bool_prop; simplify_eq; destruct_and?; subst; done|]
  end.
  discriminate.
Qed.

(** ** The address classes as sets of prefixes *)

Definition v4net (a b c d bits : Z) : Prefix := mkPrefix (Addr4 (be [a; b; c; d])) bits.
Definition in_any (ps : list Prefix) (a : Addr) : bool := existsb (fun p => Contains p a) ps.


Lemma Contains_v4net p0 p1 p2 p3 bits a b c d k :
  0 <= bits -> 2 ^ (32 - bits) = k -> 0 < k -> bits <= 32 ->
  Contains (v4net p0 p1 p2 p3 bits) (AddrFrom4 [a; b; c; d]) =
  ((a * 16777216 + b * 65536 + c * 256 + d) / k =?
   (p0 * 16777216 + p1 * 65536 + p2 * 256 + p3) / k).
Proof.
  intros Hb <- Hk Hb'. unfold Contains, PIsValid, AddrFrom4, v4net. cbn [p_addr p_bits hasZone].
  rewrite (proj2 (Z.leb_le 0 bits)) by done. cbn [negb orb].
  by rewrite !be4, !Z.shiftr_div_pow2 by lia.
Qed.

(** A bit mask on a byte selects the same values as a division. *)
Ltac by_bytes x Hx :=
  apply Bool.eqb_prop;
  match goal with |- ?G = true =>
    let P := eval pattern x in G in
    match P with ?F _ => refine (byte_forall F x _ Hx); vm_compute; reflexivity end
  end.

Lemma land_e0 x : byte_ok x -> (Z.land x 0xf0 =? 0xe0) = (x / 16 =? 14).
Proof. intros Hx. by_bytes x Hx. Qed.
Lemma land_10 x : byte_ok x -> (Z.land x 0xf0 =? 0x10) = (x / 16 =? 1).
Proof. intros Hx. by_bytes x Hx. Qed.
Lemma land_c0_40 x : byte_ok x -> (Z.land x 0xc0 =? 0x40) = (x / 64 =? 1).
Proof. intros Hx. by_bytes x Hx. Qed.
Lemma land_c0_80 x : byte_ok x -> (Z.land x 0xc0 =? 0x80) = (x / 64 =? 2).
Proof. intros Hx. by_bytes x Hx. Qed.
Lemma land_fe x : byte_ok x -> (Z.land x 0xfe =? 0x12) = (x / 2 =? 9).
Proof. intros Hx. by_bytes x Hx. Qed.

(** Prefix membership of an address, byte by byte. *)
Section nets.
Context (x y z w : Z) (Hx : byte_ok x) (Hy : byte_ok y) (Hz : byte_ok z) (Hw : byte_ok w).

Ltac by_net n :=
  intros; rewrite Contains_v4net with (k := n) by (reflexivity || lia);
  unfold byte_ok in *; apply eq_true_iff_eq;
  rewrite ?andb_true_iff, !Z.eqb_eq; dlia.

Lemma net4 p : byte_ok p ->
  Contains (v4net p 0 0 0 4) (AddrFrom4 [x; y; z; w]) = (x / 16 =? p / 16).
Proof. by_net 268435456. Qed.
Lemma net8 p : byte_ok p -> Contains (v4net p 0 0 0 8) (AddrFrom4 [x; y; z; w]) = (x =? p).
Proof. by_net 16777216. Qed.
Lemma net10 p q : byte_ok p -> byte_ok q ->
  Contains (v4net p q 0 0 10) (AddrFrom4 [x; y; z; w]) = (x =? p) && (y / 64 =? q / 64).
Proof. by_net 4194304. Qed.
Lemma net12 p q : byte_ok p -> byte_ok q ->
  Contains (v4net p q 0 0 12) (AddrFrom4 [x; y; z; w]) = (x =? p) && (y / 16 =? q / 16).
Proof. by_net 1048576. Qed.
Lemma net15 p q : byte_ok p -> byte_ok q ->
  Contains (v4net p q 0 0 15) (AddrFrom4 [x; y; z; w]) = (x =? p) && (y / 2 =? q / 2).
Proof. by_net 131072. Qed.
Lemma net16 p q : byte_ok p -> byte_ok q ->
  Contains (v4net p q 0 0 16) (AddrFrom4 [x; y; z; w]) = (x =? p) && (y =? q).
Proof. by_net 65536. Qed.
Lemma net24 p q r : byte_ok p -> byte_ok q -> byte_ok r ->
  Contains (v4net p q r 0 24) (AddrFrom4 [x; y; z; w]) = (x =? p) && (y =? q) && (z =? r).
Proof. by_net 256. Qed.
Lemma net32 p q r s : byte_ok p -> byte_ok q -> byte_ok r -> byte_ok s ->
  Contains (v4net p q r s 32) (AddrFrom4 [x; y; z; w]) =
  (x =? p) && (y =? q) && (z =? r) && (w =? s).
Proof. by_net 1. Qed.
End nets.

Ltac v4_nets :=
  rewrite ?net4, ?net8, ?net10, ?net12, ?net15, ?net16, ?net24, ?net32
    by (assumption || (unfold byte_ok; lia)).

Definition invalid_nets : list Prefix :=
  [v4net 0 0 0 0 8; v4net 127 0 0 0 8; v4net 224 0 0 0 4; v4net 255 255 255 255 32].
Definition private_nets : list Prefix :=
  [v4net 10 0 0 0 8; v4net 100 64 0 0 10; v4net 172 16 0 0 12; v4net 192 0 2 0 24;
   v4net 192 168 0 0 16; v4net 198 18 0 0 15; v4net 198 51 100 0 24; v4net 203 0 113 0 24].

Lemma bytes4_eq a b c d a' b' c' d' :
  bool_decide ([a; b; c; d] = [a'; b'; c'; d']) = (a =? a') && (b =? b') && (c =? c') && (d =? d').
Proof.
  destruct (bool_decide_reflect ([a; b; c; d] = [a'; b'; c'; d'])) as [E|E]; symmetry.
  - injection E as -> -> -> ->. by rewrite !Z.eqb_refl.
  - apply not_true_iff_false. intros H. bool_prop. apply E. by destruct H as [[[-> ->] ->] ->].
Qed.

Lemma bytes4_split a : bytes_ok a -> length a = 4%nat ->
  exists x y z w, a = [x; y; z; w] /\ byte_ok x /\ byte_ok y /\ byte_ok z /\ byte_ok w.
Proof.
  intros Ha Hl. explode Hl. bytes_inv. unfold byte_ok.
  eexists _, _, _, _. split; [reflexivity|lia].
Qed.

Lemma ClassifyIPv4_ranges a :
  bytes_ok a -> length a = 4%nat ->
  ClassifyIPv4 a =
    if in_any invalid_nets (AddrFrom4 a) then IPv4Invalid
    else if Contains (v4net 169 254 0 0 16) (AddrFrom4 a) then IPv4LinkLocal
    else IPv4Valid.
Proof.
  intros Ha Hl. destruct (bytes4_split a Ha Hl) as (x & y & z & w & -> & Hx & Hy & Hz & Hw).
  unfold ClassifyIPv4, in_any, invalid_nets. cbn [existsb lookup_total list_lookup_total].
  rewrite land_e0, bytes4_eq by done. v4_nets.
  unfold byte_ok in *. repeat case_if; try reflexivity; exfalso; bool_prop; dlia.
Qed.

Lemma IsPrivateIPv4_ranges a :
  bytes_ok a -> length a = 4%nat ->
  IsPrivateIPv4 a = in_any private_nets (AddrFrom4 a).
Proof.
  intros Ha Hl. destruct (bytes4_split a Ha Hl) as (x & y & z & w & -> & Hx & Hy & Hz & Hw).
  unfold IsPrivateIPv4, in_any, private_nets. cbn [existsb lookup_total list_lookup_total].
  rewrite land_c0_40, land_10, land_fe by done. v4_nets.
  change (64 / 64) with 1. change (16 / 16) with 1. change (18 / 2) with 9.
  repeat (match goal with |- (if ?c then true else _) = ?c || _ => destruct c; [reflexivity|] end;
          cbn [orb]).
  done.
Qed.

Lemma Embed_invalid prefix n v4 :
  ValidRFC6052PrefixLen n = false -> length prefix = 16%nat -> -8 < n < 136 ->
  Embed prefix n v4 = Ok (inr ErrInvalidPrefixLen).
Proof.
  intros Hn Hp Hr. apply valid_len_false in Hn as (?&?&?&?&?&?).
  assert (0 <= Z.quot n 8 <= 16).
  { destruct (decide (0 <= n)); [rewrite Z.quot_div_nonneg by lia; dlia|].
    rewrite <- (Z.opp_involutive n), Z.quot_opp_l by lia.
    rewrite Z.quot_div_nonneg by lia. dlia. }
  assert (len prefix = 16) by (unfold len; lia).
  unfold Embed. set (q := Z.quot n 8) in *. clearbody q. rewrite (sub_ok prefix) by lia. cbn [mbind outcome_bind].
  unfold copy_to, len. rewrite length_replicate.
  rewrite !(proj2 (Z.leb_le _ _)) by lia. cbn [andb mbind outcome_bind].
  by rewrite !(proj2 (Z.eqb_neq _ _)) by lia.
Qed.

Lemma Extract_total v6 n : length v6 = 16%nat -> exists r, Extract v6 n = Ok r.
Proof.
  intros Hl. explode Hl. unfold Extract. repeat (case_if; [exec; try case_if; eauto|]). eauto.
Qed.

(** ** Properties *)

(** C37: for every prefix length a [netip.Prefix] can have, [Embed] does not
    panic; it succeeds exactly on the RFC 6052 lengths, keeps the prefix bytes,
    and [Extract] recovers the embedded IPv4 address. *)
Theorem embed_extract_roundtrip (prefix v4 : list Z) (n : Z)
    (Hp : length prefix = 16%nat) (Hv : length v4 = 4%nat) (Hn : -1 <= n <= 128) :
  if ValidRFC6052PrefixLen n
  then exists v6, Embed prefix n v4 = Ok (inl v6) /\ length v6 = 16%nat /\
       take (Z.to_nat (n / 8)) v6 = take (Z.to_nat (n / 8)) prefix /\
       Extract v6 n = Ok (inl v4)
  else Embed prefix n v4 = Ok (inr ErrInvalidPrefixLen).
Proof.
  destruct (ValidRFC6052PrefixLen n) eqn:E.
  - by apply Extract_Embed_ok.
  - apply Embed_invalid; [done|done|lia].
Qed.

Lemma embed_extract_roundtrip_witness :
  exists v6, Embed [0x20; 1; 0xd; 0xb8; 1; 0x22; 3; 0x44; 0; 0; 0; 0; 0; 0; 0; 0] 40 [192; 0; 2; 33] = Ok (inl v6) /\
       length v6 = 16%nat /\
       take (Z.to_nat (40 / 8)) v6 = take (Z.to_nat (40 / 8)) [0x20; 1; 0xd; 0xb8; 1; 0x22; 3; 0x44; 0; 0; 0; 0; 0; 0; 0; 0] /\
       Extract v6 40 = Ok (inl [192; 0; 2; 33]).
Proof.
  apply (embed_extract_roundtrip
    [0x20; 1; 0xd; 0xb8; 1; 0x22; 3; 0x44; 0; 0; 0; 0; 0; 0; 0; 0] [192; 0; 2; 33] 40); [reflexivity|reflexivity|lia].
Defined.

(** An address [Extract] accepts is the RFC 6052 embedding of the IPv4
    address it returns: embedding that address again under the same prefix
    gives back all 128 bits. *)
Theorem extract_embed_roundtrip (v6 v4 : list Z) (n : Z)
    (Hl : length v6 = 16%nat) (H : Extract v6 n = Ok (inl v4)) :
  ValidRFC6052PrefixLen n = true /\ length v4 = 4%nat /\ Embed v6 n v4 = Ok (inl v6).
Proof. by apply Embed_Extract_ok. Qed.

Lemma extract_embed_roundtrip_witness :
  Embed [0x20; 1; 0xd; 0xb8; 1; 0x22; 0xc0; 0; 0; 2; 33; 0; 0; 0; 0; 0] 48 [192; 0; 2; 33] =
  Ok (inl [0x20; 1; 0xd; 0xb8; 1; 0x22; 0xc0; 0; 0; 2; 33; 0; 0; 0; 0; 0]).
Proof.
  apply (extract_embed_roundtrip
    [0x20; 1; 0xd; 0xb8; 1; 0x22; 0xc0; 0; 0; 2; 33; 0; 0; 0; 0; 0] [192; 0; 2; 33] 48); reflexivity.
Defined.

(** The byte tests of [ClassifyIPv4] and [IsPrivateIPv4] decide membership
    in the documented prefixes: 0/8, 127/8, 224/4 and 255.255.255.255 are
    invalid, 169.254/16 is link-local, and the private ranges are the eight of
    RFC 6052's list. *)
Theorem classification_is_prefix_membership (a : list Z)
    (Ha : bytes_ok a) (Hl : length a = 4%nat) :
  ClassifyIPv4 a =
    (if in_any invalid_nets (AddrFrom4 a) then IPv4Invalid
     else if Contains (v4net 169 254 0 0 16) (AddrFrom4 a) then IPv4LinkLocal
     else IPv4Valid) /\
  IsPrivateIPv4 a = in_any private_nets (AddrFrom4 a).
Proof. split; [by apply ClassifyIPv4_ranges|by apply IsPrivateIPv4_ranges]. Qed.

Lemma classification_is_prefix_membership_witness :
  ClassifyIPv4 [100; 127; 255; 1] = IPv4Valid /\ IsPrivateIPv4 [100; 127; 255; 1] = true.
Proof.
  destruct (classification_is_prefix_membership [100; 127; 255; 1]) as [H1 H2];
    [solve_bytes|reflexivity|].
  rewrite H1, H2. split; reflexivity.
Defined.
