(* ===== verification/Checksum.v ===== *)
(** * Internet checksums: [src/internal/xlate/checksum.go]

    The accumulators are Go [uint64]s: every addition wraps at 2^64.  The
    reference semantics is RFC 1071: the sum of the big-endian 16-bit words of
    the data, a trailing odd byte padded with a zero byte ([wsum]), in one's
    complement arithmetic, i.e. modulo 65535 with the sum zero kept apart from
    65535. *)

From stdpp Require Import base tactics list numbers option.
From Stdlib Require Import ZArith Lia.
From S2P Require Import Prelude.

Open Scope Z_scope.

(** The three loops of [sum16]: eight bytes at a time, then two, then the odd
    one.  The loop index of the source is the part of [b] already consumed. *)
Fixpoint sum16_8 (b : list Z) (acc : Z) : list Z * Z :=
  match b with
  | b0 :: b1 :: b2 :: b3 :: b4 :: b5 :: b6 :: b7 :: rest =>
      sum16_8 rest (u64 (acc + u64 (be [b0; b1; b2; b3] + be [b4; b5; b6; b7])))
  | _ => (b, acc)
  end.

Fixpoint sum16_2 (b : list Z) (acc : Z) : list Z * Z :=
  match b with
  | b0 :: b1 :: rest => sum16_2 rest (u64 (acc + be [b0; b1]))
  | _ => (b, acc)
  end.

Definition sum16 (b : list Z) (acc : Z) : Z :=
  let '(b, acc) := sum16_8 b acc in
  let '(b, acc) := sum16_2 b acc in
  match b with
  | x :: _ => u64 (acc + Z.shiftl x 8)
  | [] => acc
  end.

Definition fold (acc : Z) : Z :=
  let acc := u64 (Z.shiftr acc 32 + Z.land acc 0xffffffff) in
  let acc := u64 (Z.shiftr acc 32 + Z.land acc 0xffffffff) in
  let acc := u64 (Z.shiftr acc 16 + Z.land acc 0xffff) in
  let acc := u64 (Z.shiftr acc 16 + Z.land acc 0xffff) in
  u16 acc.

Definition checksum (b : list Z) (extra : Z) : Z := not16 (fold (sum16 b extra)).

Definition verify (b : list Z) (extra : Z) : bool := fold (sum16 b extra) =? 0xffff.

(** [src[:4]] and [src[:16]] are slices of the arguments. *)
Definition pseudo4 (src dst : list Z) (length : Z) (proto : Z) : outcome Z :=
  s ← sub src 0 4; d ← sub dst 0 4;
  Ok (u64 (u64 (u64 (sum16 s 0 + sum16 d 0) + u64 length) + proto)).

Definition pseudo6 (src dst : list Z) (length : Z) (nextHeader : Z) : outcome Z :=
  s ← sub src 0 16; d ← sub dst 0 16;
  Ok (u64 (u64 (u64 (u64 (sum16 s 0 + sum16 d 0) + Z.shiftr (u32 length) 16) + u16 length) + nextHeader)).

Definition adjust (old remove add : Z) : Z :=
  not16 (fold (u64 (u64 (not16 old + not16 (fold remove)) + add))).

(** ** Reference semantics *)

Fixpoint wsum (b : list Z) : Z :=
  match b with
  | [] => 0
  | [x] => x * 256
  | x :: y :: rest => x * 256 + y + wsum rest
  end.

(** Congruence modulo 65535, the equality of one's complement sums. *)
Definition eqm (a b : Z) : Prop := (65535 | a - b).
Infix "≡₁" := eqm (at level 70) : clatto_scope.
Local Open Scope clatto_scope.

(** An equation that holds up to a multiple of 65535. *)
Lemma eqm_intro k a b : a = b + k * 65535 -> a ≡₁ b.
Proof. intros ->. exists k. lia. Qed.

Lemma eqm_elim a b : a ≡₁ b -> exists k, a = b + k * 65535.
Proof. intros [k H]. exists k. lia. Qed.

Lemma eqm_eq a b : a = b -> a ≡₁ b.
Proof. intros ->. exists 0. lia. Qed.

Lemma eqm_mod a b : a ≡₁ b <-> a mod 65535 = b mod 65535.
Proof.
  split.
  - intros [k ->]%eqm_elim. apply Z.mod_add. lia.
  - intros H. apply eqm_intro with (k := a / 65535 - b / 65535). dlia.
Qed.

(** Prove a congruence from congruences in the context: the quotients are
    linear unknowns. *)
Ltac eqm_lia :=
  repeat match goal with H : _ ≡₁ _ |- _ =>
    let k := fresh "k" in apply eqm_elim in H as [k H] end;
  try apply eqm_mod; dlia.

#[export] Instance eqm_equiv : Equivalence eqm.
Proof. split; repeat intro; eqm_lia. Qed.

#[export] Instance eqm_add : Proper (eqm ==> eqm ==> eqm) Z.add.
Proof. repeat intro. eqm_lia. Qed.

#[export] Instance eqm_sub : Proper (eqm ==> eqm ==> eqm) Z.sub.
Proof. repeat intro. eqm_lia. Qed.

#[export] Instance eqm_opp : Proper (eqm ==> eqm) Z.opp.
Proof. repeat intro. eqm_lia. Qed.

Section list_ind.
(** Induction two bytes at a time. *)
Lemma list_pair_ind {A} (P : list A -> Prop) :
  P [] -> (forall x, P [x]) -> (forall x y l, P l -> P (x :: y :: l)) -> forall l, P l.
Proof.
  intros H0 H1 H2. fix IH 1.
  intros [|x [|y l]]; [exact H0 | exact (H1 x) | exact (H2 x y l (IH l))].
Qed.
End list_ind.

Lemma wsum_nonneg b : bytes_ok b -> 0 <= wsum b.
Proof.
  induction b as [|x|x y l IH] using list_pair_ind; simpl; intros H; bytes_inv; [lia..|].
  specialize (IH ltac:(assumption)). lia.
Qed.

Lemma wsum_app b1 b2 : Nat.Even (length b1) -> wsum (b1 ++ b2) = wsum b1 + wsum b2.
Proof.
  induction b1 as [|x|x y l IH] using list_pair_ind; intros [k Hk]; simpl in *; [done|lia|].
  rewrite IH; [lia|]. exists (k - 1)%nat. lia.
Qed.

Lemma wsum_zero b : bytes_ok b -> wsum b = 0 -> Forall (eq 0) b.
Proof.
  induction b as [|x|x y l IH] using list_pair_ind; simpl; intros H E; bytes_inv; [done|..].
  - constructor; [lia|done].
  - pose proof (wsum_nonneg l ltac:(assumption)).
    constructor; [lia|]. constructor; [lia|]. apply IH; [done|lia].
Qed.

(** ** The unrolled loops compute the one's complement sum *)

(** What a summation loop promises for the bytes [b] it consumed from [acc] to
    [acc']: the right congruence class, and bounds that exclude overflow and
    pin down the sum zero. *)
Definition summed (b : list Z) (acc acc' : Z) : Prop :=
  acc' ≡₁ acc + wsum b /\ acc + wsum b <= acc' <= acc + 65536 * wsum b /\
  acc' <= acc + len b * 2 ^ 30.

Lemma summed_app b1 b2 acc acc1 acc2 :
  Nat.Even (length b1) -> summed b1 acc acc1 -> summed b2 acc1 acc2 ->
  summed (b1 ++ b2) acc acc2.
Proof.
  intros He (H1 & H2 & H3) (H4 & H5 & H6). unfold summed.
  rewrite wsum_app, len_app by done. split; [eqm_lia|lia].
Qed.

Lemma summed_nil acc : summed [] acc acc.
Proof. unfold summed, len. simpl. split; [|lia]. apply eqm_eq. lia. Qed.

Lemma list_eight_ind {A} (P : list A -> Prop) :
  (forall l, (length l < 8)%nat -> P l) ->
  (forall a b c d e f g h l, P l -> P (a :: b :: c :: d :: e :: f :: g :: h :: l)) ->
  forall l, P l.
Proof.
  intros H0 H1. fix IH 1.
  intros [|a [|b [|c [|d [|e [|f [|g [|h l]]]]]]]]; [apply H0; simpl; lia ..|].
  exact (H1 a b c d e f g h l (IH l)).
Qed.

Lemma sum16_8_short b acc : (length b < 8)%nat -> sum16_8 b acc = (b, acc).
Proof. do 8 (destruct b as [|? b]; [done|]). simpl. lia. Qed.


Lemma be2 a b : be [a; b] = a * 256 + b.
Proof. unfold be. simpl. lia. Qed.

Lemma summed_8 a b c d e f g h acc :
  bytes_ok [a; b; c; d; e; f; g; h] -> 0 <= acc -> acc + 8 * 2 ^ 30 < 2 ^ 64 ->
  summed [a; b; c; d; e; f; g; h] acc
    (u64 (acc + u64 (be [a; b; c; d] + be [e; f; g; h]))).
Proof.
  intros H H0 H1. bytes_inv. rewrite !be4, !u64_small by (rewrite ?u64_small; lia).
  unfold summed, len. simpl wsum. simpl length. change (Z.of_nat 8) with 8.
  split; [|lia].
  apply eqm_intro with (k := a * 256 + b + e * 256 + f). lia.
Qed.

Lemma sum16_8_spec b acc :
  bytes_ok b -> 0 <= acc -> acc + len b * 2 ^ 30 < 2 ^ 64 ->
  exists b1 b2, b = b1 ++ b2 /\ Nat.Even (length b1) /\
    (sum16_8 b acc).1 = b2 /\ summed b1 acc (sum16_8 b acc).2.
Proof.
  revert acc. induction b as [b Hs|a b c d e f g h l IH] using list_eight_ind; intros acc H H0 H1.
  - rewrite sum16_8_short by done. exists [], b.
    split; [done|]. split; [by exists 0%nat|]. split; [done|apply summed_nil].
  - assert (bytes_ok [a; b; c; d; e; f; g; h] /\ bytes_ok l) as [Ha Hl]
      by (apply (Forall_app byte_ok [a; b; c; d; e; f; g; h] l), H).
    unfold len in H1. simpl length in H1.
    pose proof (summed_8 a b c d e f g h acc Ha H0 ltac:(lia)) as Hsum.
    cbn [sum16_8]. set (acc1 := u64 _) in *.
    destruct (IH acc1 Hl) as (b1 & b2 & -> & He & Hr & Hs).
    { unfold acc1, u64. dlia. }
    { destruct Hsum as (_ & _ & Hs). unfold len in *. simpl in Hs |- *. lia. }
    exists ([a; b; c; d; e; f; g; h] ++ b1), b2. split; [done|]. split; [|split; [done|]].
    + destruct He as [k Hk]. exists (4 + k)%nat. simpl. lia.
    + apply (summed_app _ b1 acc acc1); [by exists 4%nat|done|done].
Qed.

Lemma sum16_2_spec b acc :
  bytes_ok b -> 0 <= acc -> acc + len b * 2 ^ 30 < 2 ^ 64 ->
  exists b1 b2, b = b1 ++ b2 /\ Nat.Even (length b1) /\ (length b2 < 2)%nat /\
    (sum16_2 b acc).1 = b2 /\ summed b1 acc (sum16_2 b acc).2.
Proof.
  revert acc. induction b as [|x|x y l IH] using list_pair_ind; intros acc H H0 H1.
  - exists [], []. repeat split; simpl; try apply summed_nil; try lia. by exists 0%nat.
  - exists [], [x]. repeat split; simpl; try apply summed_nil; try lia. by exists 0%nat.
  - bytes_inv. unfold len in H1. simpl length in H1.
    assert (summed [x; y] acc (u64 (acc + be [x; y]))) as Hsum.
    { rewrite be2, u64_small by lia. unfold summed, len. simpl. split; [|lia].
      apply eqm_eq. lia. }
    cbn [sum16_2]. set (acc1 := u64 _) in *.
    destruct (IH acc1 H) as (b1 & b2 & -> & He & Hlt & Hr & Hs).
    { unfold acc1, u64. dlia. }
    { destruct Hsum as (_ & _ & Hs). unfold len in *. simpl in Hs |- *. lia. }
    exists ([x; y] ++ b1), b2. split; [done|]. split; [|split; [done|split; [done|]]].
    + destruct He as [k Hk]. exists (1 + k)%nat. simpl. lia.
    + apply (summed_app _ b1 acc acc1); [by exists 1%nat|done|done].
Qed.

(** [sum16] adds the RFC 1071 sum of [b] to the accumulator, in one's complement
    arithmetic and without 64-bit overflow. *)
Lemma sum16_summed b acc :
  bytes_ok b -> 0 <= acc -> acc + len b * 2 ^ 30 < 2 ^ 64 -> summed b acc (sum16 b acc).
Proof.
  intros Hb H0 H1. unfold sum16.
  destruct (sum16_8_spec b acc Hb H0 H1) as (b1 & b2 & -> & He1 & Hr1 & Hs1).
  destruct (sum16_8 (b1 ++ b2) acc) as [r1 acc1]. simpl in Hr1, Hs1. subst r1.
  bytes_inv. pose proof (wsum_nonneg b1 Hb). rewrite len_app in H1.
  destruct (sum16_2_spec b2 acc1) as (b3 & b4 & -> & He2 & Hlt & Hr2 & Hs2);
    [done|destruct Hs1; lia|destruct Hs1; lia|].
  destruct (sum16_2 (b3 ++ b4) acc1) as [r2 acc2]. simpl in Hr2, Hs2. subst r2.
  bytes_inv. apply (summed_app _ _ acc acc1 _ He1 Hs1), (summed_app _ _ acc1 acc2 _ He2 Hs2).
  pose proof (wsum_nonneg b3 ltac:(done)). rewrite len_app in H1.
  destruct Hs1 as (_ & ? & ?), Hs2 as (_ & ? & ?).
  destruct b4 as [|x [|]]; [apply summed_nil| |simpl in Hlt; lia].
  bytes_inv. rewrite len_one in H1. rewrite Z.shiftl_mul_pow2, u64_small by lia.
  unfold summed. rewrite len_one. simpl. split; [done|lia].
Qed.

(** ** Folding *)

(** Adding the part above a power of 2^16 to the part below keeps the class. *)
Lemma carry_step P q acc :
  P = 65535 * q + 1 -> 0 < q -> 0 <= acc ->
  0 <= acc / P + acc mod P /\ acc / P + acc mod P ≡₁ acc /\ (acc / P + acc mod P = 0 <-> acc = 0).
Proof.
  intros HP Hq Ha. pose proof (Z.div_mod acc P ltac:(lia)).
  pose proof (Z.mod_pos_bound acc P ltac:(lia)). pose proof (Z.div_pos acc P ltac:(lia) ltac:(lia)).
  split; [lia|]. split; [|nia].
  symmetry. apply eqm_intro with (k := acc / P * q). nia.
Qed.

Lemma carry_bound P acc m : 0 < P -> 0 <= acc < m * P -> acc / P + acc mod P <= m + P - 2.
Proof.
  intros HP Ha. pose proof (Z.mod_pos_bound acc P ltac:(lia)).
  enough (acc / P < m) by lia. apply Z.div_lt_upper_bound; lia.
Qed.

(** Once the carry is at most one, the second pass absorbs it. *)
Lemma carry_last P acc : 1 < P -> 0 <= acc <= 2 * P - 2 -> acc / P + acc mod P <= P - 1.
Proof.
  intros HP Ha. destruct (decide (acc < P)).
  - rewrite Z.div_small, Z.mod_small by lia. lia.
  - replace acc with (acc - P + 1 * P) by lia.
    rewrite Z.div_add, Z.mod_add, Z.div_small, Z.mod_small by lia. lia.
Qed.

Lemma fold_spec acc :
  0 <= acc < 2 ^ 64 ->
  0 <= fold acc <= 65535 /\ fold acc ≡₁ acc /\ (fold acc = 0 <-> acc = 0).
Proof.
  intros H. unfold fold.
  change 0xffffffff with (Z.ones 32). change 0xffff with (Z.ones 16).
  rewrite !Z.land_ones, !Z.shiftr_div_pow2 by lia.
  change (2 ^ 32) with 4294967296. change (2 ^ 16) with 65536.
  destruct (carry_step 4294967296 65537 acc) as (B1 & E1 & Z1); [lia..|].
  pose proof (carry_bound 4294967296 acc 4294967296).
  rewrite (u64_small (acc / _ + _)) by lia. set (a1 := acc / _ + _) in *. clearbody a1.
  destruct (carry_step 4294967296 65537 a1) as (B2 & E2 & Z2); [lia..|].
  pose proof (carry_last 4294967296 a1).
  rewrite (u64_small (a1 / _ + _)) by lia. set (a2 := a1 / _ + _) in *. clearbody a2.
  destruct (carry_step 65536 1 a2) as (B3 & E3 & Z3); [lia..|].
  pose proof (carry_bound 65536 a2 65536).
  rewrite (u64_small (a2 / _ + _)) by lia. set (a3 := a2 / _ + _) in *. clearbody a3.
  destruct (carry_step 65536 1 a3) as (B4 & E4 & Z4); [lia..|].
  pose proof (carry_last 65536 a3).
  rewrite (u64_small (a3 / _ + _)), u16_small by lia.
  change (Z.ones 16) with 65535. split; [lia|]. split; [by rewrite E4, E3, E2, E1|lia].
Qed.

(** Two 16-bit sums in the same class are equal, unless they are 0 and 65535. *)
Lemma eqm_u16 a b : 0 < a <= 65535 -> 0 < b <= 65535 -> a ≡₁ b -> a = b.
Proof. intros Ha Hb E. eqm_lia. Qed.

(** The closed form of [fold]: zero for zero, else the representative of the
    class in 1..65535. *)
Lemma fold_closed acc :
  0 <= acc < 2 ^ 64 -> fold acc = if acc =? 0 then 0 else (acc - 1) mod 65535 + 1.
Proof.
  intros H. destruct (fold_spec acc H) as (H1 & H2 & H3).
  destruct (Z.eqb_spec acc 0) as [->|Hn]; [tauto|].
  apply eqm_u16; [lia|dlia|]. rewrite H2. eqm_lia.
Qed.

(** ** Bounds under which the 64-bit accumulator cannot overflow

    A sum of at most 2^20 bytes onto an accumulator below 2^40.  Packets are at
    most 65535 bytes and pseudo-header sums are below 2^37. *)
Definition small_acc (a : Z) : Prop := 0 <= a < 2 ^ 40.
Definition small_len (b : list Z) : Prop := len b < 2 ^ 20.

Lemma sum16_spec b acc :
  bytes_ok b -> small_len b -> small_acc acc ->
  summed b acc (sum16 b acc) /\ 0 <= sum16 b acc < 2 ^ 52.
Proof.
  unfold small_len, small_acc. intros Hb Hl Ha. pose proof (len_nonneg b).
  assert (summed b acc (sum16 b acc)) as Hs by (apply sum16_summed; [done|lia|lia]).
  split; [done|]. destruct Hs as (_ & H1 & H2). pose proof (wsum_nonneg b Hb). lia.
Qed.

(** [verify] accepts exactly the data whose one's complement sum is -0. *)
Lemma verify_spec b acc :
  bytes_ok b -> small_len b -> small_acc acc ->
  verify b acc = true <-> acc + wsum b ≡₁ 0 /\ 0 < acc + wsum b.
Proof.
  intros Hb Hl Ha. destruct (sum16_spec b acc Hb Hl Ha) as [(H1 & H2 & _) H3].
  destruct (fold_spec (sum16 b acc) ltac:(lia)) as (H4 & H5 & H6).
  unfold verify. rewrite Z.eqb_eq. unfold small_acc in Ha. pose proof (wsum_nonneg b Hb).
  pose proof (transitivity H5 H1) as H7. split.
  - intros E. rewrite E in *. split; [eqm_lia|lia].
  - intros [E Hp]. apply eqm_u16; [lia|lia|]. rewrite H7, E. by apply eqm_intro with (k := -1).
Qed.

(** [checksum] is the value that brings the sum to -0. *)
Lemma checksum_spec b acc :
  bytes_ok b -> small_len b -> small_acc acc ->
  0 <= checksum b acc < 65536 /\ acc + wsum b + checksum b acc ≡₁ 0 /\
  (acc + wsum b = 0 -> checksum b acc = 65535).
Proof.
  intros Hb Hl Ha. destruct (sum16_spec b acc Hb Hl Ha) as [(H1 & H2 & _) H3].
  destruct (fold_spec (sum16 b acc) ltac:(lia)) as (H4 & H5 & H6).
  unfold checksum. rewrite not16_eq by lia. pose proof (transitivity H5 H1) as H7.
  pose proof (wsum_nonneg b Hb). unfold small_acc in Ha.
  split; [lia|]. split; [eqm_lia|]. lia.
Qed.

(** [adjust] replaces the contribution [remove] by [add]. *)
Lemma adjust_spec old remove add :
  0 <= old < 65536 -> 0 <= remove < 2 ^ 64 -> 0 <= add < 2 ^ 52 ->
  0 <= adjust old remove add < 65536 /\
  adjust old remove add + add ≡₁ old + remove.
Proof.
  intros Ho Hr Ha. unfold adjust.
  destruct (fold_spec remove Hr) as (H1 & H2 & _).
  rewrite !(not16_eq old), !(not16_eq (fold remove)) by lia.
  rewrite (u64_small (65535 - old + _)), u64_small by (rewrite ?u64_small; lia).
  destruct (fold_spec (65535 - old + (65535 - fold remove) + add) ltac:(lia)) as (H3 & H4 & _).
  rewrite not16_eq by lia. split; [lia|]. eqm_lia.
Qed.

(** ** Pseudo-headers *)

Lemma sum16_take n l :
  bytes_ok l -> (n <= 16)%nat ->
  sum16 (take n l) 0 ≡₁ wsum (take n l) /\ 0 <= sum16 (take n l) 0 <= 2 ^ 35.
Proof.
  intros Hl Hn. pose proof (bytes_ok_take n l Hl) as Ht.
  assert (len (take n l) <= 16) by (unfold len; rewrite length_take; lia).
  destruct (sum16_summed (take n l) 0 Ht) as (H1 & H2 & H3); [lia..|].
  pose proof (wsum_nonneg _ Ht). split; [by rewrite H1|lia].
Qed.

Lemma pseudo4_spec src dst L proto :
  bytes_ok src -> bytes_ok dst -> 4 <= len src -> 4 <= len dst ->
  0 <= L < 2 ^ 32 -> byte_ok proto ->
  exists v, pseudo4 src dst L proto = Ok v /\ small_acc v /\
    v ≡₁ wsum (take 4 src) + wsum (take 4 dst) + L + proto /\ L + proto <= v.
Proof.
  intros Hs Hd Ls Ld HL Hp. unfold pseudo4, byte_ok in *.
  rewrite !sub_ok by lia. cbn [mbind outcome_bind]. fold_consts. rewrite !drop_0.
  destruct (sum16_take 4 src Hs ltac:(lia)) as [E1 B1], (sum16_take 4 dst Hd ltac:(lia)) as [E2 B2].
  rewrite (u64_small (sum16 _ _ + _)), (u64_small L), (u64_small (_ + _ + L)), u64_small by lia.
  eexists. split; [done|]. unfold small_acc. split; [lia|]. split; [eqm_lia|lia].
Qed.

Lemma pseudo6_spec src dst L nh :
  bytes_ok src -> bytes_ok dst -> 16 <= len src -> 16 <= len dst ->
  0 <= L < 2 ^ 32 -> byte_ok nh ->
  exists v, pseudo6 src dst L nh = Ok v /\ small_acc v /\
    v ≡₁ wsum (take 16 src) + wsum (take 16 dst) + L + nh /\ nh <= v.
Proof.
  intros Hs Hd Ls Ld HL Hp. unfold pseudo6, byte_ok in *.
  rewrite !sub_ok by lia. cbn [mbind outcome_bind]. fold_consts. rewrite !drop_0.
  destruct (sum16_take 16 src Hs ltac:(lia)) as [E1 B1], (sum16_take 16 dst Hd ltac:(lia)) as [E2 B2].
  rewrite (u32_small L) by lia. unfold u16. rewrite Z.shiftr_div_pow2 by lia.
  change (2 ^ 16) with 65536.
  destruct (carry_step 65536 1 L) as (B3 & E3 & _); [lia..|].
  assert (0 <= L / 65536 < 65536 /\ 0 <= L mod 65536 < 65536) as (B4 & B5) by dlia.
  set (hi := L / 65536) in *. set (lo := L mod 65536) in *. clearbody hi lo.
  rewrite (u64_small (sum16 _ _ + _)), (u64_small (_ + _ + hi)), (u64_small (_ + _ + _ + lo)), u64_small by lia.
  eexists. split; [done|]. unfold small_acc. split; [lia|]. split; [eqm_lia|lia].
Qed.

(** ** Replacing bytes *)

Lemma wsum_splice l i src :
  Nat.Even i -> Nat.Even (length src) -> (i + length src <= length l)%nat ->
  wsum (splice l i src) + wsum (take (length src) (drop i l)) = wsum l + wsum src.
Proof.
  intros Hi Hs Hl. unfold splice.
  rewrite <- (take_drop i l) at 4. rewrite <- (take_drop (length src) (drop i l)) at 2.
  rewrite drop_drop.
  rewrite !wsum_app; rewrite ?length_take, ?length_drop; try lia; try done.
  all: rewrite ?Nat.min_l by lia; done.
Qed.

Lemma wsum_head x y l : wsum (y :: l) + x * 256 = wsum (x :: l) + y * 256.
Proof. destruct l; simpl; lia. Qed.

Lemma wsum_be2 v : 0 <= v < 65536 -> wsum (be_bytes 2 v) = v.
Proof. intros H. unfold be_bytes. simpl. dlia. Qed.

(** ** The RFC 1071 reference: add the words one by one, end-around carry *)

Definition ocadd (a b : Z) : Z := let s := a + b in if 65535 <? s then s - 65535 else s.

Fixpoint ocsum (b : list Z) (acc : Z) : Z :=
  match b with
  | [] => acc
  | [x] => ocadd acc (x * 256)
  | x :: y :: rest => ocsum rest (ocadd acc (x * 256 + y))
  end.

Lemma ocadd_spec a b : 0 <= a <= 65535 -> 0 <= b <= 65535 ->
  0 <= ocadd a b <= 65535 /\ ocadd a b ≡₁ a + b /\ (ocadd a b = 0 <-> a + b = 0).
Proof.
  intros Ha Hb. unfold ocadd. cbv zeta. case_if; bool_prop.
  - split; [lia|]. split; [|lia]. by apply eqm_intro with (k := -1); lia.
  - split; [lia|]. split; [done|lia].
Qed.

Lemma ocsum_spec b acc : bytes_ok b -> 0 <= acc <= 65535 ->
  0 <= ocsum b acc <= 65535 /\ ocsum b acc ≡₁ acc + wsum b /\
  (ocsum b acc = 0 <-> acc + wsum b = 0).
Proof.
  revert acc. induction b as [|x|x y l IH] using list_pair_ind; intros acc Hb Ha; bytes_inv; cbn [ocsum wsum].
  - split; [lia|]. split; [apply eqm_eq; lia|lia].
  - apply ocadd_spec; lia.
  - destruct (ocadd_spec acc (x * 256 + y)) as (H1 & H2 & H3); [lia..|].
    destruct (IH (ocadd acc (x * 256 + y)) Hb ltac:(lia)) as (H4 & H5 & H6).
    pose proof (wsum_nonneg l Hb).
    split; [done|]. split; [|lia]. rewrite H5, H2. apply eqm_eq. lia.
Qed.

Lemma verify_checksum (b : list Z) (extra : Z) (i : nat) :
  bytes_ok b -> small_len b -> small_acc extra -> Nat.Even i -> (i + 2 <= length b)%nat ->
  take 2 (drop i b) = [0; 0] ->
  verify (splice b i (be_bytes 2 (checksum b extra))) extra = true.
Proof.
  intros Hb Hl He Hi Hr Hz.
  destruct (checksum_spec b extra Hb Hl He) as (H1 & H2 & H3).
  assert (length (splice b i (be_bytes 2 (checksum b extra))) = length b) as Hlen
    by (apply length_splice; rewrite length_be_bytes; lia).
  pose proof (wsum_splice b i (be_bytes 2 (checksum b extra)) Hi) as Hw.
  rewrite length_be_bytes in Hw. rewrite Hz, wsum_be2 in Hw by lia. cbn [wsum] in Hw.
  specialize (Hw ltac:(by exists 1%nat) Hr). pose proof (wsum_nonneg b Hb). unfold small_acc in He.
  apply verify_spec; [eauto with clatto|by unfold small_len, len in *; rewrite Hlen|done|].
  split; [eqm_lia|]. lia.
Qed.

(** ** Properties *)

(** C36: summing eight bytes at a time into a 64-bit accumulator and folding it
    down at the end gives the same 16-bit value as the word-by-word one's
    complement sum of RFC 1071, for any data of less than a megabyte. *)
Theorem fold_sum16_is_rfc1071 (b : list Z) (Hb : bytes_ok b) (Hl : small_len b) :
  fold (sum16 b 0) = ocsum b 0.
Proof.
  destruct (sum16_spec b 0 Hb Hl) as [(H1 & H2 & _) H3]; [unfold small_acc; lia|].
  destruct (fold_spec (sum16 b 0) ltac:(lia)) as (H4 & H5 & H6).
  destruct (ocsum_spec b 0 Hb ltac:(lia)) as (H7 & H8 & H9).
  pose proof (wsum_nonneg b Hb).
  destruct (decide (wsum b = 0)) as [E|E]; [lia|].
  apply eqm_u16; [lia|lia|]. rewrite H5, H1. by symmetry.
Qed.

Lemma fold_sum16_is_rfc1071_witness :
  fold (sum16 [0x45; 0; 0x12; 0xff; 1; 2; 3; 4; 0xfe; 0xed; 7] 0) = 0x61f3.
Proof.
  rewrite (fold_sum16_is_rfc1071 [0x45; 0; 0x12; 0xff; 1; 2; 3; 4; 0xfe; 0xed; 7]).
  - reflexivity.
  - solve_bytes.
  - unfold small_len, len. simpl. lia.
Defined.

(** Writing [checksum] into a zeroed, even-aligned checksum field makes
    [verify] accept the data with the same pseudo-header sum. *)
Theorem checksum_verify (b : list Z) (extra : Z) (i : nat)
    (Hb : bytes_ok b) (Hl : small_len b) (He : small_acc extra)
    (Hi : Nat.Even i) (Hr : (i + 2 <= length b)%nat) (Hz : take 2 (drop i b) = [0; 0]) :
  verify (splice b i (be_bytes 2 (checksum b extra))) extra = true.
Proof. by apply verify_checksum. Qed.

Lemma checksum_verify_witness :
  verify (splice [8; 0; 0; 0; 1; 2; 3] 2 (be_bytes 2 (checksum [8; 0; 0; 0; 1; 2; 3] 77))) 77 = true.
Proof.
  apply (checksum_verify [8; 0; 0; 0; 1; 2; 3] 77 2).
  - solve_bytes.
  - unfold small_len, len. simpl. lia.
  - unfold small_acc. lia.
  - by exists 1%nat.
  - simpl. lia.
  - reflexivity.
Defined.
