(* ===== verification/Events.v ===== *)
(** * Packet events and observers: [src/internal/xlate/events.go]

    The closed sets of event kinds and reasons, their names, the [Event]
    record, and what an [Observer] is told ([obs]).  The translator's model
    keeps the sequence of calls to its observer as a list of [obs]. *)

From stdpp Require Import base tactics list numbers option strings.
From Stdlib Require Import ZArith Lia.
From S2P Require Import Prelude Netip.

Open Scope Z_scope.

Inductive Kind := KindDrop | KindReject | KindICMP | KindSelf | KindDynamic.

#[export] Instance Kind_eq_dec : EqDecision Kind.
Proof. solve_decision. Defined.

(** The [iota] value of a kind. *)
Definition kind_index (k : Kind) : nat :=
  match k with
  | KindDrop => 0 | KindReject => 1 | KindICMP => 2 | KindSelf => 3 | KindDynamic => 4
  end.

Definition kindNames : list string := ["drop"; "reject"; "icmp"; "self"; "dynamic"]%string.

Definition kind_String (k : Kind) : string :=
  match kindNames !! kind_index k with Some s => s | None => "unknown" end.

Definition NumKinds : nat := 5.

Inductive Reason :=
  | ReasonNone
  | ReasonUnknownIPVersion
  | ReasonIPHeaderLength
  | ReasonIPHeaderInvalid
  | ReasonICMPFragmented
  | ReasonICMPHeaderLength
  | ReasonIPv6OnlyProto
  | ReasonIPv4OnlyProto
  | ReasonFragmentMisaligned
  | ReasonFragmentTooLong
  | ReasonICMPChecksumInvalid
  | ReasonSelfUnknownProto
  | ReasonEchoRequest
  | ReasonSelfUnknownICMPType
  | ReasonTimeExceeded
  | ReasonDestinationUnmappable
  | ReasonSourceUnmappable
  | ReasonPacketTooBig
  | ReasonUDPHeaderLength
  | ReasonUDPZeroChecksum
  | ReasonTCPHeaderLength
  | ReasonEmbeddedTooShort
  | ReasonEmbeddedParseFailed
  | ReasonICMPErrorOfICMPError
  | ReasonEmbeddedUnmappable
  | ReasonEmbeddedUntranslatable
  | ReasonUnknownUnreachableCode
  | ReasonParamProblemInvalidCode
  | ReasonParamProblemInvalidPointer
  | ReasonParamProblemUntranslatable
  | ReasonUnknownICMPType
  | ReasonSynthesisedSource
  | ReasonExtHeaderLength
  | ReasonFragHeaderLength
  | ReasonRoutingHeaderSegmentsLeft
  | ReasonNoMTUInPacketTooBig
  | ReasonDynamicAssigned
  | ReasonDynamicReactivated
  | ReasonDynamicReassigned
  | ReasonDynamicDormant
  | ReasonDynamicReleased
  | ReasonDynamicExhausted.

#[export] Instance Reason_eq_dec : EqDecision Reason.
Proof. solve_decision. Defined.

(** All reasons in [iota] order. *)
Definition all_reasons : list Reason :=
  [ReasonNone; ReasonUnknownIPVersion; ReasonIPHeaderLength; ReasonIPHeaderInvalid;
   ReasonICMPFragmented; ReasonICMPHeaderLength; ReasonIPv6OnlyProto; ReasonIPv4OnlyProto;
   ReasonFragmentMisaligned; ReasonFragmentTooLong; ReasonICMPChecksumInvalid;
   ReasonSelfUnknownProto; ReasonEchoRequest; ReasonSelfUnknownICMPType; ReasonTimeExceeded;
   ReasonDestinationUnmappable; ReasonSourceUnmappable; ReasonPacketTooBig;
   ReasonUDPHeaderLength; ReasonUDPZeroChecksum; ReasonTCPHeaderLength;
   ReasonEmbeddedTooShort; ReasonEmbeddedParseFailed; ReasonICMPErrorOfICMPError;
   ReasonEmbeddedUnmappable; ReasonEmbeddedUntranslatable; ReasonUnknownUnreachableCode;
   ReasonParamProblemInvalidCode; ReasonParamProblemInvalidPointer;
   ReasonParamProblemUntranslatable; ReasonUnknownICMPType; ReasonSynthesisedSource;
   ReasonExtHeaderLength; ReasonFragHeaderLength; ReasonRoutingHeaderSegmentsLeft;
   ReasonNoMTUInPacketTooBig; ReasonDynamicAssigned; ReasonDynamicReactivated;
   ReasonDynamicReassigned; ReasonDynamicDormant; ReasonDynamicReleased;
   ReasonDynamicExhausted].

(** The position of a reason among the constants. *)
Definition reason_index (r : Reason) : nat :=
  match list_find (eq r) all_reasons with Some (i, _) => i | None => length all_reasons end.

Definition NumReasons : nat := length all_reasons.

Definition reasonNames : list string :=
  ["none"; "unknown_ip_version"; "ip_header_length"; "ip_header_invalid"; "icmp_fragmented";
   "icmp_header_length"; "ipv6_only_protocol"; "ipv4_only_protocol"; "fragment_misaligned";
   "fragment_too_long"; "icmp_checksum_invalid"; "self_unknown_protocol"; "echo_request";
   "self_unknown_icmp_type"; "time_exceeded"; "destination_unmappable"; "source_unmappable";
   "packet_too_big"; "udp_header_length"; "udp_zero_checksum"; "tcp_header_length";
   "embedded_too_short"; "embedded_parse_failed"; "icmp_error_of_icmp_error";
   "embedded_unmappable"; "embedded_untranslatable"; "unknown_unreachable_code";
   "param_problem_invalid_code"; "param_problem_invalid_pointer";
   "param_problem_untranslatable"; "unknown_icmp_type"; "synthesised_source";
   "extension_header_length"; "fragment_header_length"; "routing_header_segments_left";
   "no_mtu_in_packet_too_big"; "dynamic_assigned"; "dynamic_reactivated";
   "dynamic_reassigned"; "dynamic_dormant"; "dynamic_released"; "dynamic_exhausted"]%string.

Definition reason_String (r : Reason) : string :=
  match reasonNames !! reason_index r with Some s => s | None => "unknown" end.

Record Event := mkEvent {
  e_Kind : Kind;
  e_Reason : Reason;
  e_Family : Z;
  e_Proto : Z;
  e_Length : Z;
  e_Src : Addr;
  e_Dst : Addr;
}.

(** A call to an observer. *)
Inductive obs :=
  | OTranslated (family n : Z)
  | OEvent (e : Event).

(** ** Properties *)

Lemma reason_names_all :
  (reason_String <$> all_reasons) = reasonNames /\ bool_decide (NoDup reasonNames) = true.
Proof. split; vm_compute; reflexivity. Qed.

Lemma all_reasons_complete r : r ∈ all_reasons.
Proof. destruct r; apply (bool_decide_unpack _); vm_compute; exact I. Qed.

(** The name table has exactly one name per reason, in the order of the
    constants, and no two reasons share a name, so the per-reason counters an
    observer pre-allocates by name never collide. *)
Theorem reason_names_complete :
  length reasonNames = NumReasons /\
  (forall r, reasonNames !! reason_index r = Some (reason_String r)) /\
  (forall r1 r2, reason_String r1 = reason_String r2 -> r1 = r2).
Proof.
  destruct reason_names_all as [Hmap Hnd%bool_decide_eq_true_1].
  split; [reflexivity|]. split; [by intros []|].
  rewrite <- Hmap in Hnd. intros r1 r2 E.
  destruct (proj1 (list_elem_of_lookup _ _) (all_reasons_complete r1)) as [i Hi].
  destruct (proj1 (list_elem_of_lookup _ _) (all_reasons_complete r2)) as [j Hj].
  enough (i = j) as -> by congruence.
  apply (NoDup_lookup _ _ _ (reason_String r1) Hnd); rewrite list_lookup_fmap.
  - by rewrite Hi.
  - by rewrite Hj, E.
Qed.
