(* ===== verification/Packet.v ===== *)
(** * Parsed views over a packet: [src/internal/xlate/packet.go]

    The packet buffer is one list of bytes that the translator rewrites in
    place; every slice of [pkt] ([raw], [ip], [data], [frag], [icmp]) is an
    offset and a length into that buffer ([slice]), so slices alias the way
    Go's do: a write through one is seen through the others. *)

From stdpp Require Import base tactics list numbers option strings.
From Stdlib Require Import ZArith Lia.
From S2P Require Import Prelude Netip Netutil Checksum Events.

Open Scope Z_scope.

(** ** Constants of the package ([translator.go]) *)

Definition ipv4HdrLen : Z := 20.
Definition ipv6HdrLen : Z := 40.
Definition fragHdrLen : Z := 8.
Definition icmpHdrLen : Z := 8.
Definition mtuAdj : Z := 20.
Definition mtuMin : Z := 1280.
Definition icmp4MaxLen : Z := 576.
Definition ip4FlagDF : Z := 0x4000.
Definition ip4FlagMF : Z := 0x2000.
Definition ip4OffMask : Z := 0x1fff.
Definition ip6FragMF : Z := 0x0001.
Definition ip6FragMask : Z := 0xfff8.
Definition protoICMP : Z := 1.
Definition protoTCP : Z := 6.
Definition protoUDP : Z := 17.
Definition protoFrag : Z := 44.
Definition protoICMPv6 : Z := 58.

(** ** Slices of the packet buffer *)

Record slice := Slc { s_off : Z; s_len : Z }.

(** The bytes a slice shows. *)
Definition view (buf : list Z) (s : slice) : list Z :=
  take (Z.to_nat (s_len s)) (drop (Z.to_nat (s_off s)) buf).

(** [s[i:j]] *)
Definition subslice (s : slice) (i j : Z) : outcome slice :=
  if (0 <=? i) && (i <=? j) && (j <=? s_len s) then Ok (Slc (s_off s + i) (j - i)) else Panic.

(** Writing through a slice writes the buffer. *)
Definition write (buf : list Z) (s : slice) (i : Z) (src : list Z) : outcome (list Z) :=
  if (0 <=? i) && (i + len src <=? s_len s)
  then Ok (splice buf (Z.to_nat (s_off s + i)) src) else Panic.

Definition nil_slice : slice := Slc 0 0.

Record pkt := Pkt {
  p_raw : slice;
  p_ip : option slice;
  p_hdrLen : Z;
  p_data : slice;
  p_proto : Z;
  p_frag : option slice;
  p_icmp : option slice;
}.

(** [&pkt{raw: raw}] *)
Definition new_pkt (raw : slice) : pkt := Pkt raw None 0 nil_slice 0 None None.

(** A nil slice shows no bytes. *)
Definition oview (buf : list Z) (o : option slice) : list Z :=
  match o with Some s => view buf s | None => [] end.

Definition set_ip (p : pkt) (s : slice) (hl : Z) : pkt :=
  Pkt (p_raw p) (Some s) hl (p_data p) (p_proto p) (p_frag p) (p_icmp p).
Definition set_data (p : pkt) (d : slice) : pkt :=
  Pkt (p_raw p) (p_ip p) (p_hdrLen p) d (p_proto p) (p_frag p) (p_icmp p).
Definition set_proto (p : pkt) (x : Z) : pkt :=
  Pkt (p_raw p) (p_ip p) (p_hdrLen p) (p_data p) x (p_frag p) (p_icmp p).
Definition set_hdrLen (p : pkt) (x : Z) : pkt :=
  Pkt (p_raw p) (p_ip p) x (p_data p) (p_proto p) (p_frag p) (p_icmp p).
Definition set_frag (p : pkt) (s : slice) : pkt :=
  Pkt (p_raw p) (p_ip p) (p_hdrLen p) (p_data p) (p_proto p) (Some s) (p_icmp p).
Definition set_icmp (p : pkt) (s : slice) : pkt :=
  Pkt (p_raw p) (p_ip p) (p_hdrLen p) (p_data p) (p_proto p) (p_frag p) (Some s).

(** ** Header accessors *)

Definition family (buf : list Z) (p : pkt) : outcome Z :=
  b ← at_ (view buf (p_raw p)) 0; Ok (Z.shiftr b 4).

Definition ip4TotalLen (h : list Z) : outcome Z := u16_at h 2.
Definition ip4Ident (h : list Z) : outcome Z := u16_at h 4.
Definition ip4FlagsOff (h : list Z) : outcome Z := u16_at h 6.
Definition ip6VerTcFl (h : list Z) : outcome Z := u32_at h 0.
Definition ip6PayloadLen (h : list Z) : outcome Z := u16_at h 4.
Definition icmpWord (h : list Z) : outcome Z := u32_at h 4.
Definition fragOffFlags (h : list Z) : outcome Z := u16_at h 2.
Definition fragIdent (h : list Z) : outcome Z := u32_at h 4.

(** [pkt.event] *)
Definition pkt_event (buf : list Z) (p : pkt) (kind : Kind) (reason : Reason) : outcome Event :=
  fam ← family buf p;
  match p_ip p with
  | None => Ok (mkEvent kind reason fam (p_proto p) (s_len (p_raw p)) AddrZero AddrZero)
  | Some _ =>
      let ip := oview buf (p_ip p) in
      if fam =? 4 then
        src ← sub ip 12 16; dst ← sub ip 16 20;
        Ok (mkEvent kind reason fam (p_proto p) (p_hdrLen p + s_len (p_data p))
              (AddrFrom4 src) (AddrFrom4 dst))
      else if fam =? 6 then
        src ← sub ip 8 24; dst ← sub ip 24 40;
        Ok (mkEvent kind reason fam (p_proto p) (ipv6HdrLen + p_hdrLen p + s_len (p_data p))
              (AddrFrom16 src) (AddrFrom16 dst))
      else Ok (mkEvent kind reason fam (p_proto p) 0 AddrZero AddrZero)
  end.

(** ** parseIPv4 *)

Definition parseIPv4 (buf : list Z) (p : pkt) : outcome (pkt * Reason) :=
  let raw := view buf (p_raw p) in
  if len raw <? ipv4HdrLen then Ok (p, ReasonIPHeaderLength) else
  b0 ← at_ raw 0;
  let ihl := Z.land b0 0x0f * 4 in
  total ← ip4TotalLen raw;
  src ← sub raw 12 16;
  dst ← sub raw 16 20;
  if negb (Z.shiftr b0 4 =? 4) || (ihl <? ipv4HdrLen) || (len raw <? ihl) || (total <? ihl) ||
     bool_decide (ClassifyIPv4 src = IPv4Invalid) ||
     bool_decide (ClassifyIPv4 dst = IPv4Invalid)
  then
    ip ← subslice (p_raw p) 0 ipv4HdrLen;
    Ok (set_ip p ip ipv4HdrLen, ReasonIPHeaderInvalid)
  else
  ip ← subslice (p_raw p) 0 ihl;
  let p := set_ip p ip ihl in
  let end_ := len raw in
  let end_ := if total <? end_ then total else end_ in
  data ← subslice (p_raw p) ihl end_;
  proto ← at_ raw 9;
  let p := set_proto (set_data p data) proto in
  if proto =? protoICMP then
    fo ← ip4FlagsOff raw;
    if negb (Z.land fo (Z.lor ip4OffMask ip4FlagMF) =? 0) then Ok (p, ReasonICMPFragmented)
    else if s_len data <? icmpHdrLen then Ok (p, ReasonICMPHeaderLength)
    else icmp ← subslice data 0 icmpHdrLen; Ok (set_icmp p icmp, ReasonNone)
  else if bool_decide (proto ∈ [0; 43; 44; 58; 60]) then Ok (p, ReasonIPv6OnlyProto)
  else
    fo ← ip4FlagsOff raw;
    if negb (Z.land fo ip4FlagMF =? 0) && negb (Z.land (s_len data) 7 =? 0)
    then Ok (p, ReasonFragmentMisaligned)
    else if 65535 <? Z.land fo ip4OffMask * 8 + s_len data
    then Ok (p, ReasonFragmentTooLong)
    else Ok (p, ReasonNone).

(** ** parseIPv6 *)

Definition is_ext (proto : Z) : bool := (proto =? 0) || (proto =? 43) || (proto =? 60).

(** The loop over hop-by-hop, routing and destination option headers: it ends
    with the remaining data and the segments-left bookkeeping, or with the
    packet whose extension header was truncated. *)
Inductive ext_result :=
  | ExtDone (p : pkt) (data : slice) (segLeft segPtr : Z)
  | ExtShort (p : pkt).

Fixpoint ext_loop (fuel : nat) (buf : list Z) (p : pkt) (data : slice) (segLeft segPtr : Z)
  : outcome ext_result :=
  match fuel with
  | O => Stuck
  | S fuel =>
      if negb (is_ext (p_proto p)) then Ok (ExtDone p data segLeft segPtr) else
      let d := view buf data in
      if len d <? 2 then Ok (ExtShort (set_data p data)) else
      d1 ← at_ d 1;
      let hl := (d1 + 1) * 8 in
      if len d <? hl then Ok (ExtShort (set_data p data)) else
      segLeft ← (if p_proto p =? 43 then at_ d 3 else Ok segLeft);
      let segPtr := if segLeft =? 0 then segPtr + hl else segPtr in
      d0 ← at_ d 0;
      data ← subslice data hl (s_len data);
      ext_loop fuel buf (set_hdrLen (set_proto p d0) (p_hdrLen p + hl)) data segLeft segPtr
  end.

(** Each round of the loop consumes at least eight bytes of [data]. *)
Definition ext_fuel (data : slice) : nat := S (Z.to_nat (s_len data)).

(** The fragment header step: the packet and the data after it, or the reason
    for refusing the packet. *)
Definition parse_frag (buf : list Z) (p : pkt) (data : slice) : outcome (pkt * slice * Reason) :=
  if p_proto p =? protoFrag then
    if s_len data <? fragHdrLen then Ok (set_data p data, data, ReasonFragHeaderLength) else
    frag ← subslice data 0 fragHdrLen;
    nh ← at_ (view buf frag) 0;
    data ← subslice data fragHdrLen (s_len data);
    let p := set_hdrLen (set_proto (set_frag p frag) nh) (p_hdrLen p + fragHdrLen) in
    of_ ← fragOffFlags (view buf frag);
    if negb (Z.land of_ ip6FragMF =? 0) && negb (Z.land (s_len data) 7 =? 0)
    then Ok (set_data p data, data, ReasonFragmentMisaligned)
    else if 65535 <? Z.land of_ ip6FragMask + s_len data
    then Ok (set_data p data, data, ReasonFragmentTooLong)
    else Ok (p, data, ReasonNone)
  else Ok (p, data, ReasonNone).

(** The upper-layer protocol step. *)
Definition parse_upper6 (buf : list Z) (p : pkt) (data : slice) : outcome (pkt * Reason) :=
  if p_proto p =? protoICMPv6 then
    fragmented ← (match p_frag p with
                  | None => Ok false
                  | Some f => of_ ← fragOffFlags (view buf f);
                              Ok (negb (Z.land of_ (Z.lor ip6FragMask ip6FragMF) =? 0))
                  end);
    if (fragmented : bool) then Ok (p, ReasonICMPFragmented)
    else if s_len data <? icmpHdrLen then Ok (p, ReasonICMPHeaderLength)
    else icmp ← subslice data 0 icmpHdrLen; Ok (set_icmp p icmp, ReasonNone)
  else if p_proto p =? protoICMP then Ok (p, ReasonIPv4OnlyProto)
  else Ok (p, ReasonNone).

(** The results are the packet, the reason, the pointer for a Parameter
    Problem message, and whether the failure must go unreported. *)
Definition parseIPv6 (buf : list Z) (p : pkt) : outcome (pkt * Reason * Z * bool) :=
  let raw := view buf (p_raw p) in
  if len raw <? ipv6HdrLen then Ok (p, ReasonIPHeaderLength, 0, false) else
  ip ← subslice (p_raw p) 0 ipv6HdrLen;
  let p := set_ip p ip (p_hdrLen p) in
  b0 ← at_ raw 0;
  src ← sub raw 8 24;
  dst ← sub raw 24 40;
  if negb (Z.shiftr b0 4 =? 6) || negb (ValidIPv6 src) || negb (ValidIPv6 dst) then
    b8 ← at_ raw 8; b24 ← at_ raw 24;
    if (b8 =? 0xff) || (b24 =? 0xff) then Ok (p, ReasonIPHeaderInvalid, 0, true)
    else Ok (p, ReasonIPHeaderInvalid, 0, false)
  else
  proto ← at_ raw 6;
  let p := set_proto p proto in
  data ← subslice (p_raw p) ipv6HdrLen (s_len (p_raw p));
  pl ← ip6PayloadLen raw;
  data ← (if pl <? s_len data then subslice data 0 pl else Ok data);
  r ← ext_loop (ext_fuel data) buf p data 0 ipv6HdrLen;
  match r with
  | ExtShort p => Ok (p, ReasonExtHeaderLength, 0, false)
  | ExtDone p data segLeft segPtr =>
      '(p, data, reason) ← parse_frag buf p data;
      if bool_decide (reason <> ReasonNone) then Ok (p, reason, 0, false) else
      let p := set_data p data in
      '(p, reason) ← parse_upper6 buf p data;
      if bool_decide (reason <> ReasonNone) then Ok (p, reason, 0, false) else
      if negb (segLeft =? 0) then Ok (p, ReasonRoutingHeaderSegmentsLeft, segPtr + 4, false)
      else Ok (p, ReasonNone, 0, false)
  end.

(** ** estMTU *)

Fixpoint plateau (ms : list Z) (tooBig : Z) : Z :=
  match ms with
  | [] => 68
  | m :: ms => if m <? tooBig then m else plateau ms tooBig
  end.

Definition estMTU (tooBig : Z) : Z :=
  plateau [65535; 32000; 17914; 8166; 4352; 2002; 1492; 1006; 508; 296] tooBig.

(** ** Lemmas on slices and views *)

Definition slice_ok (buf : list Z) (s : slice) : Prop :=
  0 <= s_off s /\ 0 <= s_len s /\ s_off s + s_len s <= len buf.

(** The 16- and 32-bit words a bounds-checked read returns when it succeeds. *)
Definition w16 (l : list Z) (i : Z) : Z := be (take 2 (drop (Z.to_nat i) l)).
Definition w32 (l : list Z) (i : Z) : Z := be (take 4 (drop (Z.to_nat i) l)).

Lemma u16_at_w l i : 0 <= i -> i + 2 <= len l -> u16_at l i = Ok (w16 l i).
Proof. apply u16_at_ok. Qed.
Lemma u32_at_w l i : 0 <= i -> i + 4 <= len l -> u32_at l i = Ok (w32 l i).
Proof. apply u32_at_ok. Qed.

Lemma w16_range l i : bytes_ok l -> 0 <= w16 l i < 65536.
Proof.
  intros H. unfold w16. pose proof (be_range (take 2 (drop (Z.to_nat i) l))) as B.
  destruct B as [B1 B2]; [eauto with clatto|]. split; [done|]. eapply Z.lt_le_trans; [exact B2|].
  change 65536 with (256 ^ 2). apply Z.pow_le_mono_r; [lia|]. unfold len. rewrite length_take. lia.
Qed.

Lemma w32_range l i : bytes_ok l -> 0 <= w32 l i < 4294967296.
Proof.
  intros H. unfold w32. pose proof (be_range (take 4 (drop (Z.to_nat i) l))) as B.
  destruct B as [B1 B2]; [eauto with clatto|]. split; [done|]. eapply Z.lt_le_trans; [exact B2|].
  change 4294967296 with (256 ^ 4). apply Z.pow_le_mono_r; [lia|]. unfold len. rewrite length_take. lia.
Qed.

Lemma w16_take n l i : 0 <= i -> i + 2 <= Z.of_nat n -> w16 (take n l) i = w16 l i.
Proof.
  intros. unfold w16. rewrite skipn_firstn_comm, take_take. by rewrite Nat.min_l by lia.
Qed.

Section views.
Context (buf : list Z).

Lemma len_view s : slice_ok buf s -> len (view buf s) = s_len s.
Proof. intros (H1 & H2 & H3). unfold view, len in *. rewrite length_take, length_drop. lia. Qed.

Lemma bytes_ok_view s : bytes_ok buf -> bytes_ok (view buf s).
Proof. intros. unfold view. eauto with clatto. Qed.

Lemma bytes_ok_oview o : bytes_ok buf -> bytes_ok (oview buf o).
Proof. intros. destruct o; [by apply bytes_ok_view|constructor]. Qed.

Lemma subslice_ok s i j : 0 <= i <= j -> j <= s_len s -> subslice s i j = Ok (Slc (s_off s + i) (j - i)).
Proof. intros. unfold subslice. by rewrite !(proj2 (Z.leb_le _ _)) by lia. Qed.

Lemma slice_ok_sub s i j :
  slice_ok buf s -> 0 <= i <= j -> j <= s_len s -> slice_ok buf (Slc (s_off s + i) (j - i)).
Proof. unfold slice_ok. simpl. lia. Qed.

(** Slicing the bytes of a slice shows the sub-slice. *)
Lemma sub_view s i j :
  slice_ok buf s -> 0 <= i <= j -> j <= s_len s ->
  sub (view buf s) i j = Ok (view buf (Slc (s_off s + i) (j - i))).
Proof.
  intros Hs Hi Hj. rewrite sub_ok by (rewrite ?len_view; done || lia). f_equal.
  destruct Hs as (H1 & H2 & H3). unfold view. simpl.
  rewrite Z2Nat.inj_add by lia. rewrite <- drop_drop.
  rewrite skipn_firstn_comm, take_take. f_equal. lia.
Qed.

Lemma view_lookup s i :
  slice_ok buf s -> 0 <= i < s_len s -> view buf s !!! Z.to_nat i = buf !!! Z.to_nat (s_off s + i).
Proof.
  intros (H1 & H2 & H3) Hi. unfold view.
  rewrite !list_lookup_total_alt, lookup_take_lt by lia.
  rewrite lookup_drop. f_equal. f_equal. lia.
Qed.

Lemma w16_view s i : slice_ok buf s -> 0 <= i -> i + 2 <= s_len s ->
  w16 (view buf s) i = w16 buf (s_off s + i).
Proof.
  intros (H1 & H2 & H3) Hi Hl. unfold w16, view.
  rewrite skipn_firstn_comm, take_take, drop_drop, Z2Nat.inj_add by lia.
  by rewrite Nat.min_l by lia.
Qed.
End views.
#[export] Hint Resolve bytes_ok_view bytes_ok_oview : clatto.

(** ** What the parsers establish *)

(** Enough structure to report an event about a packet of family [fam]. *)
Record ev_ok (buf : list Z) (fam : Z) (p : pkt) : Prop := {
  ev_raw : slice_ok buf (p_raw p);
  ev_ne : 0 < s_len (p_raw p);
  ev_fam : Z.shiftr (view buf (p_raw p) !!! 0%nat) 4 = fam;
  ev_ip : match p_ip p with
          | None => True
          | Some s => slice_ok buf s /\ (if fam =? 4 then 20 else 40) <= s_len s
          end;
}.

(** A packet [parseIPv4] accepted: the header and the data are consecutive
    slices inside the packet and the total length covers them. *)
Record wf4 (buf : list Z) (p : pkt) : Prop := {
  wf4_raw : slice_ok buf (p_raw p);
  wf4_ver : Z.shiftr (view buf (p_raw p) !!! 0%nat) 4 = 4;
  wf4_hl : 20 <= p_hdrLen p <= 60;
  wf4_ip : p_ip p = Some (Slc (s_off (p_raw p)) (p_hdrLen p));
  wf4_off : s_off (p_data p) = s_off (p_raw p) + p_hdrLen p;
  wf4_dlen : 0 <= s_len (p_data p) /\ p_hdrLen p + s_len (p_data p) <= s_len (p_raw p);
  wf4_total : p_hdrLen p + s_len (p_data p) <= w16 (oview buf (p_ip p)) 2;
  wf4_proto : byte_ok (p_proto p);
  wf4_frag : p_frag p = None;
  wf4_icmp : if p_proto p =? protoICMP
             then p_icmp p = Some (Slc (s_off (p_data p)) 8) /\ 8 <= s_len (p_data p) /\
                  Z.land (w16 (oview buf (p_ip p)) 6) (Z.lor ip4OffMask ip4FlagMF) = 0
             else p_icmp p = None;
  wf4_end : Z.land (w16 (oview buf (p_ip p)) 6) ip4OffMask * 8 + s_len (p_data p) <= 65535;
}.

(** A packet [parseIPv6] accepted, or rejected only for its routing header. *)
Record wf6 (buf : list Z) (p : pkt) : Prop := {
  wf6_raw : slice_ok buf (p_raw p);
  wf6_ver : Z.shiftr (view buf (p_raw p) !!! 0%nat) 4 = 6;
  wf6_ip : p_ip p = Some (Slc (s_off (p_raw p)) 40);
  wf6_hl : 0 <= p_hdrLen p;
  wf6_off : s_off (p_data p) = s_off (p_raw p) + 40 + p_hdrLen p;
  wf6_dlen : 0 <= s_len (p_data p) /\ 40 + p_hdrLen p + s_len (p_data p) <= s_len (p_raw p);
  wf6_pl : p_hdrLen p + s_len (p_data p) <= w16 (oview buf (p_ip p)) 4;
  wf6_proto : byte_ok (p_proto p);
  wf6_frag : match p_frag p with
             | None => True
             | Some f => slice_ok buf f /\ s_len f = 8 /\ 8 <= p_hdrLen p /\
                         s_off f + 8 = s_off (p_data p) /\
                         Z.land (w16 (view buf f) 2) ip6FragMask + s_len (p_data p) <= 65535
             end;
  wf6_icmp : if p_proto p =? protoICMPv6
             then p_icmp p = Some (Slc (s_off (p_data p)) 8) /\ 8 <= s_len (p_data p) /\
                  match p_frag p with
                  | None => True
                  | Some f => Z.land (w16 (view buf f) 2) (Z.lor ip6FragMask ip6FragMF) = 0
                  end
             else p_icmp p = None;
}.

Lemma owp_u16_at l i Q : 0 <= i -> i + 2 <= len l -> Q (w16 l i) -> owp (u16_at l i) Q.
Proof. intros. by rewrite u16_at_w. Qed.
Lemma owp_u32_at l i Q : 0 <= i -> i + 4 <= len l -> Q (w32 l i) -> owp (u32_at l i) Q.
Proof. intros. by rewrite u32_at_w. Qed.
Lemma owp_subslice s i j Q :
  0 <= i <= j -> j <= s_len s -> Q (Slc (s_off s + i) (j - i)) -> owp (subslice s i j) Q.
Proof. intros. by rewrite subslice_ok. Qed.

(** Symbolic execution of bounds-checked code: run the head access, leaving its
    bounds to [lia]. *)
Ltac psimpl :=
  cbv beta zeta;
  cbn [p_raw p_ip p_hdrLen p_data p_proto p_frag p_icmp set_ip set_data set_proto set_hdrLen
       set_frag set_icmp new_pkt s_off s_len oview fst snd].
Ltac blia := cbn [s_off s_len]; solve [lia | bool_prop; lia].
Ltac ostep :=
  psimpl;
  lazymatch goal with
  | |- owp (_ ≫= _) _ => apply owp_bind; ostep
  | |- owp (Ok _) _ => apply owp_ok
  | |- owp (at_ _ _) _ => apply owp_at; [try blia|]
  | |- owp (u16_at _ _) _ => apply owp_u16_at; [try blia..|]
  | |- owp (u32_at _ _) _ => apply owp_u32_at; [try blia..|]
  | |- owp (subslice _ _ _) _ => apply owp_subslice; [try blia..|]
  | |- owp (sub _ _ _) _ => apply owp_sub; [try blia..|]
  | |- owp (from _ _) _ => apply owp_from; [try blia|]
  | |- owp (put _ _ _) _ => apply owp_put; [try blia..|]
  | |- owp (set_at _ _ _) _ => apply owp_set_at; [try blia|]
  | |- owp (copy_to _ _ _ _) _ => apply owp_copy_to; [try blia..|]
  | |- owp (if ?b then _ else _) _ => let E := fresh "E" in destruct b eqn:E
  end.

Lemma land_lor_0 a b c : Z.land a (Z.lor b c) = 0 -> Z.land a b = 0 /\ Z.land a c = 0.
Proof. rewrite Z.land_lor_distr_r. apply Z.lor_eq_0_iff. Qed.

Lemma land15_range b : byte_ok b -> 0 <= Z.land b 15 <= 15.
Proof.
  intros Hb. pose proof (byte_forall (fun b => (0 <=? Z.land b 15) && (Z.land b 15 <=? 15)) b) as H.
  specialize (H ltac:(vm_compute; reflexivity) Hb). cbv beta in H. bool_prop. lia.
Qed.

(** A rejected packet still has what an event needs. *)
Ltac rejected Hev := ostep; psimpl; split; [done|]; split; [intros Hne _; by apply Hev|done].

Lemma parseIPv4_spec buf s :
  bytes_ok buf -> slice_ok buf s ->
  owp (parseIPv4 buf (new_pkt s)) (fun '(p, r) =>
    p_raw p = s /\ (0 < s_len s -> Z.shiftr (view buf s !!! 0%nat) 4 = 4 -> ev_ok buf 4 p) /\
    (r = ReasonNone -> wf4 buf p)).
Proof.
  intros Hb Hs. unfold parseIPv4. cbn [p_raw new_pkt].
  pose proof (len_view buf s Hs) as Hlen. set (raw := view buf s) in *.
  assert (bytes_ok raw) as Hraw by (subst raw; eauto with clatto).
  unfold ipv4HdrLen, ip4TotalLen, ip4FlagsOff, icmpHdrLen.
  ostep; bool_prop.
  { apply owp_ok. split; [done|]. split; [|done]. intros. by split. }
  do 4 ostep. fold_consts.
  pose proof (land15_range (raw !!! 0%nat) ltac:(eauto with clatto)) as Hihl.
  set (ihl := Z.land (raw !!! 0%nat) 15 * 4) in *.
  pose proof (w16_range raw 2 Hraw) as Htot.
  ostep.
  { do 2 ostep. split; [done|]. split; [|done].
    intros. split; simpl; try done. split; [|lia]. apply slice_ok_sub; done || lia. }
  bool_prop. destruct_and!. rewrite bool_decide_eq_false in *.
  ostep. set (end_ := if w16 raw 2 <? len raw then w16 raw 2 else len raw).
  assert (ihl <= end_ <= len raw /\ end_ <= w16 raw 2) as [He1 He2]
    by (subst end_; case_if; bool_prop; lia).
  do 2 ostep. fold_consts. set (proto := raw !!! 9%nat).
  assert (byte_ok proto) as Hproto by (subst proto; eauto with clatto).
  assert (forall ic, 0 < s_len s -> ev_ok buf 4 (Pkt s (Some (Slc (s_off s + 0) (ihl - 0))) ihl
            (Slc (s_off s + ihl) (end_ - ihl)) proto None ic)) as Hev.
  { intros. split; simpl; try done. split; [|lia]. apply slice_ok_sub; done || lia. }
  assert (view buf (Slc (s_off s + 0) (ihl - 0)) = take (Z.to_nat ihl) raw) as Hip.
  { unfold view, raw, view. simpl. rewrite take_take. f_equal; [lia|]. f_equal. lia. }
  assert (w16 (view buf (Slc (s_off s + 0) (ihl - 0))) 2 = w16 raw 2 /\
          w16 (view buf (Slc (s_off s + 0) (ihl - 0))) 6 = w16 raw 6) as [Hw2 Hw6].
  { rewrite Hip. split; apply w16_take; lia. }
  ostep; bool_prop.
  - ostep. ostep; [by rejected Hev|]. ostep; [by rejected Hev|]. do 2 ostep. psimpl.
    split; [done|]. split; [intros Hne _; by apply Hev|]. intros _. bool_prop.
    split; simpl; rewrite ?Hw2, ?Hw6, ?E0; try done; try lia.
    + by rewrite Z.add_0_r, Z.sub_0_r.
    + rewrite Z.add_0_r. split; [done|]. split; [lia|done].
    + apply land_lor_0 in E1 as [-> _]. lia.
  - ostep; [by rejected Hev|]. ostep. ostep; [by rejected Hev|]. ostep; [by rejected Hev|]. ostep. psimpl.
    split; [done|]. split; [intros Hne _; by apply Hev|]. intros _. bool_prop.
    split; simpl; rewrite ?Hw2, ?Hw6, ?(proj2 (Z.eqb_neq _ _) E0); try done; try lia.
    by rewrite Z.add_0_r, Z.sub_0_r.
Qed.

(** *** parseIPv6 *)

(** What holds of a packet and its remaining data while extension headers are
    being consumed: [data] is what follows [hdrLen] bytes of them. *)
Record ext_inv (buf : list Z) (raw : slice) (pl : Z) (p : pkt) (data : slice) : Prop := {
  xi_raw : p_raw p = raw;
  xi_ip : p_ip p = Some (Slc (s_off raw) 40);
  xi_frag : p_frag p = None;
  xi_icmp : p_icmp p = None;
  xi_hl : 0 <= p_hdrLen p;
  xi_off : s_off data = s_off raw + 40 + p_hdrLen p;
  xi_len : 0 <= s_len data /\ 40 + p_hdrLen p + s_len data <= s_len raw;
  xi_pl : p_hdrLen p + s_len data <= pl;
  xi_proto : byte_ok (p_proto p);
}.

Lemma ext_inv_slice buf raw pl p data :
  slice_ok buf raw -> ext_inv buf raw pl p data -> slice_ok buf data.
Proof. intros (?&?&?) [????? Hoff Hlen ??]. unfold slice_ok. lia. Qed.

Lemma ext_loop_spec buf raw pl fuel p data segLeft segPtr :
  bytes_ok buf -> slice_ok buf raw -> ext_inv buf raw pl p data ->
  (Z.to_nat (s_len data) < fuel)%nat ->
  owp (ext_loop fuel buf p data segLeft segPtr) (fun r =>
    match r with
    | ExtDone p' data' _ _ => ext_inv buf raw pl p' data' /\ is_ext (p_proto p') = false
    | ExtShort p' => p_raw p' = raw /\ p_ip p' = Some (Slc (s_off raw) 40)
    end).
Proof.
  intros Hb Hr. revert p data segLeft segPtr.
  induction fuel as [|fuel IH]; intros p data segLeft segPtr Hi Hf; [lia|].
  pose proof (ext_inv_slice _ _ _ _ _ Hr Hi) as Hd. pose proof (len_view buf data Hd) as Hlen.
  assert (bytes_ok (view buf data)) as Hbd by eauto with clatto.
  cbn [ext_loop]. ostep; [ostep; split; [done|by bool_prop]|].
  ostep; [ostep; destruct Hi; done|]. bool_prop. ostep. fold_consts.
  pose proof (bytes_ok_lookup _ 1 Hbd) as H1. unfold byte_ok in H1.
  ostep; [ostep; destruct Hi; done|]. bool_prop.
  apply owp_bind. apply owp_mono with (Q := fun _ => True).
  { destruct (p_proto p =? 43); [by ostep|done]. }
  intros sl _. do 2 ostep. apply IH; [|psimpl; lia].
  destruct Hi. split; psimpl; try done; try lia. apply (bytes_ok_lookup _ _ Hbd).
Qed.

(** The fragment header condition of [wf6], for data not yet stored. *)
Definition frag_ok (buf : list Z) (p : pkt) (data : slice) : Prop :=
  match p_frag p with
  | None => True
  | Some f => slice_ok buf f /\ s_len f = 8 /\ 8 <= p_hdrLen p /\ s_off f + 8 = s_off data /\
              Z.land (w16 (view buf f) 2) ip6FragMask + s_len data <= 65535
  end.

Record frag_inv (buf : list Z) (raw : slice) (pl : Z) (p : pkt) (data : slice) : Prop := {
  fi_raw : p_raw p = raw;
  fi_ip : p_ip p = Some (Slc (s_off raw) 40);
  fi_icmp : p_icmp p = None;
  fi_hl : 0 <= p_hdrLen p;
  fi_off : s_off data = s_off raw + 40 + p_hdrLen p;
  fi_len : 0 <= s_len data /\ 40 + p_hdrLen p + s_len data <= s_len raw;
  fi_pl : p_hdrLen p + s_len data <= pl;
  fi_proto : byte_ok (p_proto p);
  fi_frag : frag_ok buf p data;
}.

Lemma parse_frag_spec buf raw pl p data :
  bytes_ok buf -> slice_ok buf raw -> ext_inv buf raw pl p data ->
  owp (parse_frag buf p data) (fun '(p', data', reason) =>
    p_raw p' = raw /\ p_ip p' = Some (Slc (s_off raw) 40) /\
    reason <> ReasonRoutingHeaderSegmentsLeft /\
    (reason = ReasonNone -> frag_inv buf raw pl p' data')).
Proof.
  intros Hb Hr Hi. pose proof (ext_inv_slice _ _ _ _ _ Hr Hi) as Hd.
  destruct Hi as [Hraw Hip Hfr Hic Hhl Hoff Hlen Hpl Hpr].
  unfold parse_frag, fragHdrLen, fragOffFlags. ostep; bool_prop.
  2: { ostep. do 3 (split; [done|]). intros _. split; try done. unfold frag_ok. by rewrite Hfr. }
  ostep; bool_prop; [by ostep|]. ostep.
  assert (slice_ok buf (Slc (s_off data + 0) (8 - 0))) as Hf by (apply slice_ok_sub; done || lia).
  pose proof (len_view buf _ Hf) as Hfl. cbn [s_len] in Hfl.
  do 2 ostep. psimpl. ostep.
  ostep; [by ostep; psimpl|]. ostep; [by ostep; psimpl|]. ostep. psimpl.
  do 3 (split; [done|]). intros _. bool_prop. split; psimpl; try done; try lia.
  - apply bytes_ok_lookup. eauto with clatto.
  - unfold frag_ok. psimpl. split; [done|]. lia.
Qed.

Lemma parse_upper6_spec buf raw pl p data :
  bytes_ok buf -> frag_inv buf raw pl p data -> p_data p = data ->
  owp (parse_upper6 buf p data) (fun '(p', reason) =>
    p_raw p' = raw /\ p_ip p' = Some (Slc (s_off raw) 40) /\
    reason <> ReasonRoutingHeaderSegmentsLeft /\
    (reason = ReasonNone -> frag_inv buf raw pl (Pkt (p_raw p') (p_ip p') (p_hdrLen p') (p_data p')
        (p_proto p') (p_frag p') None) (p_data p') /\
      (if p_proto p' =? protoICMPv6
       then p_icmp p' = Some (Slc (s_off (p_data p')) 8) /\ 8 <= s_len (p_data p') /\
            match p_frag p' with
            | None => True
            | Some f => Z.land (w16 (view buf f) 2) (Z.lor ip6FragMask ip6FragMF) = 0
            end
       else p_icmp p' = None))).
Proof.
  intros Hb Hi <-. destruct Hi as [Hraw Hip Hic Hhl Hoff Hlen Hpl Hpr Hfr].
  unfold parse_upper6, icmpHdrLen, fragOffFlags. unfold frag_ok in Hfr.
  ostep.
  - apply owp_bind. apply owp_mono with (Q := fun b => b = false -> match p_frag p with
      | None => True | Some f => Z.land (w16 (view buf f) 2) (Z.lor ip6FragMask ip6FragMF) = 0 end).
    { destruct (p_frag p) as [f|]; [|by ostep]. destruct Hfr as (Hf & Hfl & _).
      pose proof (len_view buf f Hf). ostep. ostep. intros. by bool_prop. }
    intros b Hb'. ostep; [by ostep|]. ostep; [by ostep|]. do 2 ostep. psimpl. bool_prop.
    do 3 (split; [done|]). intros _. split; [by split; psimpl|].
    rewrite (proj2 (Z.eqb_eq _ _) E), Z.add_0_r. split; [done|]. split; [lia|by apply Hb'].
  - ostep; [by ostep|]. ostep. do 3 (split; [done|]). intros _.
    split; [by split; psimpl|]. by rewrite E.
Qed.

Lemma parseIPv6_spec buf s :
  bytes_ok buf -> slice_ok buf s ->
  owp (parseIPv6 buf (new_pkt s)) (fun '(p, r, _, _) =>
    p_raw p = s /\ (0 < s_len s -> Z.shiftr (view buf s !!! 0%nat) 4 = 6 -> ev_ok buf 6 p) /\
    (r = ReasonNone \/ r = ReasonRoutingHeaderSegmentsLeft -> wf6 buf p)).
Proof.
  intros Hb Hs. unfold parseIPv6. cbn [p_raw new_pkt].
  pose proof (len_view buf s Hs) as Hlen. set (raw := view buf s) in *.
  assert (bytes_ok raw) as Hraw by (subst raw; eauto with clatto).
  unfold ipv6HdrLen, ip6PayloadLen.
  ostep; bool_prop.
  { ostep. split; [done|]. split; [|by intros [|]]. intros. by split. }
  assert (forall p, p_raw p = s -> p_ip p = Some (Slc (s_off s) 40) ->
            0 < s_len s -> Z.shiftr (raw !!! 0%nat) 4 = 6 -> ev_ok buf 6 p) as Hev.
  { intros p H1 H2 Hne Hv. split; rewrite ?H1, ?H2; try done.
    split; [|simpl; lia]. destruct Hs as (?&?&?). unfold slice_ok. simpl. lia. }
  ostep. rewrite Z.add_0_r. change (40 - 0) with 40. do 3 ostep. fold_consts. ostep.
  { do 2 ostep. ostep; ostep; (split; [done|]; split; [by apply Hev|by intros [|]]). }
  bool_prop. destruct_and!. do 3 ostep. fold_consts.
  pose proof (w16_range raw 4 Hraw) as Hplr. set (pl := w16 raw 4) in *.
  apply owp_bind. apply owp_mono with (Q := fun d => s_off d = s_off s + 40 /\ 0 <= s_len d /\
      s_len d <= s_len s - 40 /\ s_len d <= pl).
  { ostep; [ostep|ostep]; bool_prop; simpl; lia. }
  intros data (Ho & Hl1 & Hl2 & Hl3).
  apply owp_bind. eapply owp_mono.
  { apply (ext_loop_spec buf s pl); [done|done| |unfold ext_fuel; lia].
    split; psimpl; try done; try lia. apply (bytes_ok_lookup _ _ Hraw). }
  intros [p d sl sp|p]; cbv beta iota.
  2: { intros [H4 H5]. ostep. split; [done|]. split; [by apply Hev|by intros [|]]. }
  intros [Hi Hne']. apply owp_bind. eapply owp_mono; [by apply (parse_frag_spec buf s pl)|].
  intros [[p1 d1] r1] (R1 & I1 & N1 & F1). ostep; [rewrite bool_decide_eq_true in *|rewrite bool_decide_eq_false in *].
  { ostep. split; [done|]. split; [by apply Hev|]. by intros [|]. }
  specialize (F1 ltac:(by apply dec_stable)).
  apply owp_bind. eapply owp_mono.
  { apply (parse_upper6_spec buf s pl); [done| |done].
    destruct F1 as [????????F1]. split; psimpl; done. }
  psimpl. intros [p2 r2] (R2 & I2 & N2 & F2).
  ostep; [rewrite bool_decide_eq_true in *|rewrite bool_decide_eq_false in *].
  { ostep. split; [done|]. split; [by apply Hev|]. by intros [|]. }
  specialize (F2 ltac:(by apply dec_stable)) as [F2 F3].
  assert (wf6 buf p2).
  { destruct F2 as [F21 F22 F23 F24 F25 F26 F27 F28 F29]. cbn in *. split; rewrite ?R2; try done.
    rewrite I2. cbn [oview]. rewrite (w16_view buf (Slc (s_off s) 40)); simpl; try lia.
    - subst pl. unfold raw in F27. rewrite w16_view in F27 by (done || lia). done.
    - destruct Hs as (?&?&?). unfold slice_ok. simpl. lia. }
  ostep; ostep; (split; [done|]; split; [by apply Hev|done]).
Qed.

(** Only a multicast address makes the parser's failure go unreported. *)
Lemma parseIPv6_silent buf p q r seg : parseIPv6 buf p = Ok (q, r, seg, true) -> r = ReasonIPHeaderInvalid.
Proof.
  unfold parseIPv6. intros H. cbv zeta in H.
  repeat match type of H with
  | (if ?b then _ else _) = _ => destruct b
  | mbind _ ?x = _ => destruct x; cbn [mbind outcome_bind] in H
  | (let '(_, _) := ?x in _) = _ => destruct x
  | match ?x with ExtDone _ _ _ _ => _ | ExtShort _ => _ end = _ => destruct x
  end; by simplify_eq/=.
Qed.
