(* ===== verification/Layout.v ===== *)
(** * Packet layouts: what the output functions are meant to write

    Reference descriptions of IPv4, IPv6, fragment and ICMP headers as
    concatenations of their fields, the predicate that a whole packet is well
    formed, and the symbolic execution tactic that shows the byte-by-byte
    writes of the source produce exactly these layouts, whatever the buffer
    held before. *)

From stdpp Require Import base tactics list numbers option strings.
From Stdlib Require Import ZArith Lia.
From S2P Require Import Prelude Netip Checksum Events Packet.

Open Scope Z_scope.

Definition ip4_header (tos total id fo ttl proto ck : Z) (src dst : list Z) : list Z :=
  [0x45; tos] ++ be_bytes 2 total ++ be_bytes 2 id ++ be_bytes 2 fo ++ [ttl; proto] ++
  be_bytes 2 ck ++ src ++ dst.

(** The header with its checksum filled in. *)
Definition ip4_header_ck (tos total id fo ttl proto : Z) (src dst : list Z) : list Z :=
  ip4_header tos total id fo ttl proto
    (checksum (ip4_header tos total id fo ttl proto 0 src dst) 0) src dst.

Definition ip6_header (tc pl nh hop : Z) (src dst : list Z) : list Z :=
  be_bytes 4 (Z.lor (Z.shiftl 6 28) (Z.shiftl tc 20)) ++ be_bytes 2 pl ++ [nh; hop] ++ src ++ dst.

Definition frag_header (nh flags ident : Z) : list Z :=
  [nh; 0] ++ be_bytes 2 flags ++ be_bytes 4 ident.

Definition icmp_msg (typ code ck word : Z) (payload : list Z) : list Z :=
  [typ; code] ++ be_bytes 2 ck ++ be_bytes 4 word ++ payload.

(** The message with its checksum filled in, for pseudo-header sum [ps]. *)
Definition icmp_msg_ck (typ code word ps : Z) (payload : list Z) : list Z :=
  icmp_msg typ code (checksum (icmp_msg typ code 0 word payload) ps) word payload.

(** ** Well-formed packets *)

Record good4 (b : list Z) : Prop := {
  g4_bytes : bytes_ok b;
  g4_len : 20 <= len b < 65536;
  g4_ver : b !!! 0%nat = 0x45;
  g4_total : w16 b 2 = len b;
  g4_ck : verify (take 20 b) 0 = true;
}.

Record good6 (b : list Z) : Prop := {
  g6_bytes : bytes_ok b;
  g6_len : 40 <= len b;
  g6_ver : Z.shiftr (b !!! 0%nat) 4 = 6;
  g6_pl : w16 b 4 = len b - 40;
}.

(** ** Symbolic execution over buffers with an explicit head *)

Lemma split_at (l : list Z) (n : nat) :
  (n <= length l)%nat -> exists l1 l2, l = l1 ++ l2 /\ length l1 = n.
Proof. intros. exists (take n l), (drop n l). rewrite take_drop, length_take. split; [done|lia]. Qed.

Ltac slia := unfold len in *; cbn [length]; rewrite ?length_app; cbn [length]; lia.

(** Run the head access and normalise the explicit part of the lists. *)
Ltac fnorm :=
  fold_consts; cbn [splice take drop app length Nat.add]; rewrite ?take_0, ?drop_0, ?app_nil_r.
Ltac fstep :=
  cbv beta zeta;
  lazymatch goal with
  | |- owp (_ ≫= _) _ => apply owp_bind; fstep
  | |- owp (Ok _) _ => apply owp_ok
  | |- owp (at_ _ _) _ => apply owp_at; [slia|]
  | |- owp (sub _ _ _) _ => apply owp_sub; [slia|slia|]
  | |- owp (from _ _) _ => apply owp_from; [slia|]
  | |- owp (put _ _ _) _ => apply owp_put; [slia|slia|]
  | |- owp (set_at _ _ _) _ => apply owp_set_at; [slia|]
  | |- owp (copy_to _ _ _ _) _ => apply owp_copy_to; [slia|slia|]
  end; fnorm.

(** A computation is known to return [a] when [eq a] is a postcondition of it. *)
Lemma owp_is {A} (o : outcome A) (a : A) : owp o (eq a) -> o = Ok a.
Proof. intros (x & -> & <-)%owp_run. done. Qed.

(** ** Facts about the layouts *)

Section layouts.
Context (src dst : list Z).

Lemma length_ip4_header tos total id fo ttl proto ck :
  length src = 4%nat -> length dst = 4%nat ->
  length (ip4_header tos total id fo ttl proto ck src dst) = 20%nat.
Proof. intros. unfold ip4_header. rewrite !length_app, !length_be_bytes. simpl. lia. Qed.

Lemma length_ip6_header tc pl nh hop :
  length src = 16%nat -> length dst = 16%nat ->
  length (ip6_header tc pl nh hop src dst) = 40%nat.
Proof. intros. unfold ip6_header. rewrite !length_app, !length_be_bytes. simpl. lia. Qed.

Lemma length_icmp_msg typ code ck word payload :
  length (icmp_msg typ code ck word payload) = (8 + length payload)%nat.
Proof. unfold icmp_msg. rewrite !length_app, !length_be_bytes. simpl. lia. Qed.

Lemma length_frag_header nh flags ident : length (frag_header nh flags ident) = 8%nat.
Proof. unfold frag_header. rewrite !length_app, !length_be_bytes. simpl. lia. Qed.

Lemma len_ip4_header_ck tos total id fo ttl proto :
  length src = 4%nat -> length dst = 4%nat -> len (ip4_header_ck tos total id fo ttl proto src dst) = 20.
Proof. intros. by apply (len_of _ 20), length_ip4_header. Qed.

Lemma len_ip6_header tc pl nh hop :
  length src = 16%nat -> length dst = 16%nat -> len (ip6_header tc pl nh hop src dst) = 40.
Proof. intros. by apply (len_of _ 40), length_ip6_header. Qed.

Lemma len_icmp_msg_ck typ code word ps payload : len (icmp_msg_ck typ code word ps payload) = 8 + len payload.
Proof. unfold icmp_msg_ck, len. rewrite length_icmp_msg. lia. Qed.

Lemma bytes_ok_two a b : byte_ok a -> byte_ok b -> bytes_ok [a; b].
Proof. intros. apply Forall_cons. split; [done|]. by apply Forall_singleton. Qed.

Lemma bytes_ok_ip4_header tos total id fo ttl proto ck :
  bytes_ok src -> bytes_ok dst -> byte_ok tos -> byte_ok ttl -> byte_ok proto ->
  bytes_ok (ip4_header tos total id fo ttl proto ck src dst).
Proof.
  intros. unfold ip4_header. apply bytes_ok_app; [apply bytes_ok_two; [by split|done]|].
  repeat (apply bytes_ok_app; [auto using be_bytes_ok, bytes_ok_two|]); done.
Qed.

Lemma bytes_ok_ip6_header tc pl nh hop :
  bytes_ok src -> bytes_ok dst -> byte_ok nh -> byte_ok hop ->
  bytes_ok (ip6_header tc pl nh hop src dst).
Proof.
  intros. unfold ip6_header.
  repeat (apply bytes_ok_app; [auto using be_bytes_ok, bytes_ok_two|]); done.
Qed.

Lemma bytes_ok_icmp_msg typ code ck word payload :
  byte_ok typ -> byte_ok code -> bytes_ok payload -> bytes_ok (icmp_msg typ code ck word payload).
Proof.
  intros. unfold icmp_msg.
  repeat (apply bytes_ok_app; [auto using be_bytes_ok, bytes_ok_two|]); done.
Qed.

Lemma bytes_ok_frag_header nh flags ident : byte_ok nh -> bytes_ok (frag_header nh flags ident).
Proof.
  intros. unfold frag_header. apply bytes_ok_app; [apply bytes_ok_two; [done|by split]|].
  apply bytes_ok_app; apply be_bytes_ok.
Qed.

(** The filled-in header checksum verifies. *)
Lemma ip4_header_verifies tos total id fo ttl proto :
  bytes_ok src -> bytes_ok dst -> length src = 4%nat -> length dst = 4%nat ->
  byte_ok tos -> byte_ok ttl -> byte_ok proto ->
  verify (ip4_header_ck tos total id fo ttl proto src dst) 0 = true.
Proof.
  intros Hs Hd Ls Ld Ht Htl Hp. unfold ip4_header_ck.
  set (h0 := ip4_header tos total id fo ttl proto 0 src dst).
  assert (length h0 = 20%nat) as Hlen by by apply length_ip4_header.
  replace (ip4_header _ _ _ _ _ _ _ _ _) with (splice h0 10 (be_bytes 2 (checksum h0 0))) by done.
  apply verify_checksum; [by apply bytes_ok_ip4_header|unfold small_len, len; lia|
    by split|by exists 5%nat|lia|done].
Qed.

(** A filled-in ICMP checksum verifies. *)
Lemma icmp_msg_verifies typ code word ps payload :
  bytes_ok payload -> byte_ok typ -> byte_ok code -> len payload < 2 ^ 19 -> small_acc ps ->
  verify (icmp_msg_ck typ code word ps payload) ps = true.
Proof.
  intros Hp Ht Hc Hl Hps. unfold icmp_msg_ck.
  set (m0 := icmp_msg typ code 0 word payload).
  assert (length m0 = 8 + length payload)%nat as Hlen by by apply length_icmp_msg.
  replace (icmp_msg _ _ _ _ _) with (splice m0 2 (be_bytes 2 (checksum m0 ps))) by done.
  apply verify_checksum; [by apply bytes_ok_icmp_msg|unfold small_len, len in *; lia|
    done|by exists 1%nat|lia|done].
Qed.
End layouts.

Lemma w16_be_bytes v l : 0 <= v < 65536 -> be (take 2 (be_bytes 2 v ++ l)) = v.
Proof.
  intros Hv. rewrite <- (length_be_bytes 2 v) at 1. rewrite take_app_length, be_be_bytes.
  apply Z.mod_small. done.
Qed.

Lemma good4_layout tos total id fo ttl proto src dst rest :
  bytes_ok src -> bytes_ok dst -> length src = 4%nat -> length dst = 4%nat ->
  byte_ok tos -> byte_ok ttl -> byte_ok proto -> bytes_ok rest ->
  total = 20 + len rest -> total < 65536 ->
  good4 (ip4_header_ck tos total id fo ttl proto src dst ++ rest).
Proof.
  intros Hs Hd Ls Ld Ht Htl Hp Hr -> Hl.
  assert (length (ip4_header_ck tos (20 + len rest) id fo ttl proto src dst) = 20%nat) as Hh
    by by apply length_ip4_header.
  pose proof (len_nonneg rest). rename Hh into Hhl. split.
  - apply bytes_ok_app; [|done]. by apply bytes_ok_ip4_header.
  - rewrite len_app. apply len_of in Hhl as ->. lia.
  - done.
  - rewrite len_app. pose proof (len_of _ _ Hhl) as ->.
    unfold ip4_header_ck, ip4_header, w16. rewrite <- !app_assoc. cbn [app]. fold_consts. cbn [drop].
    apply w16_be_bytes. lia.
  - rewrite <- Hhl, take_app_length. by apply ip4_header_verifies.
Qed.

Lemma good6_layout tc pl nh hop src dst rest :
  bytes_ok src -> bytes_ok dst -> length src = 16%nat -> length dst = 16%nat ->
  byte_ok tc -> byte_ok nh -> byte_ok hop -> bytes_ok rest ->
  pl = len rest -> pl < 65536 ->
  good6 (ip6_header tc pl nh hop src dst ++ rest).
Proof.
  intros Hs Hd Ls Ld Ht Hn Hh Hr -> Hl.
  assert (length (ip6_header tc (len rest) nh hop src dst) = 40%nat) as Hhl
    by by apply length_ip6_header.
  pose proof (len_nonneg rest). split.
  - apply bytes_ok_app; [|done]. by apply bytes_ok_ip6_header.
  - rewrite len_app. apply len_of in Hhl as ->. lia.
  - change (Z.shiftr ((Z.lor (Z.shiftl 6 28) (Z.shiftl tc 20) / 256 / 256 / 256) mod 256) 4 = 6).
    apply Z.eqb_eq.
    refine (byte_forall (fun tc => Z.shiftr ((Z.lor (Z.shiftl 6 28) (Z.shiftl tc 20) / 256 / 256 / 256) mod 256) 4 =? 6) tc _ Ht).
    vm_compute. reflexivity.
  - rewrite len_app. pose proof (len_of _ _ Hhl) as ->.
    unfold ip6_header, w16. rewrite <- !app_assoc.
    rewrite drop_app_ge by (rewrite length_be_bytes; fold_consts; lia). rewrite length_be_bytes.
    fold_consts. cbn [Nat.sub drop]. rewrite drop_0, w16_be_bytes by lia. lia.
Qed.
