(* ===== verification/Translator.v ===== *)
(** * The translator's interfaces, state and helpers: [src/internal/xlate/translator.go]

    [Mapper] and [Emitter] are the Go interfaces of the same name, as type
    classes over the state of whatever implements them; [MapperLaws] and
    [EmitterLaws] are what the translator relies on, and what the address table
    and the tun engine's emitter discharge.  The translator runs in the state
    monad over [world]: the packet buffer it rewrites in place, the mapper's and
    the emitter's state, the calls made to its observer, and the position in the
    stream of random numbers. *)

From stdpp Require Import base tactics list numbers option strings.
From Stdlib Require Import ZArith Lia.
From S2P Require Import Prelude Netip Netutil Checksum Events Packet.

Open Scope Z_scope.

(** Errors returned by a Mapper. *)
Inductive MapErr := ErrReject | ErrDrop.

#[export] Instance MapErr_eq_dec : EqDecision MapErr.
Proof. solve_decision. Defined.

Class Mapper (MS : Type) := {
  MapIPv4ToIPv6 : Addr -> MS -> outcome ((Addr + MapErr) * MS);
  MapIPv6ToIPv4 : Addr -> bool -> MS -> outcome ((Addr + MapErr) * MS);
}.

(** A mapper does not panic on the addresses found in packets and keeps its
    invariant. *)
Class MapperLaws (MS : Type) `{Mapper MS} := {
  mapper_inv : MS -> Prop;
  map4_safe : forall v s, 0 <= v < 2 ^ 32 -> mapper_inv s ->
    owp (MapIPv4ToIPv6 (Addr4 v) s) (fun '(_, s') => mapper_inv s');
  map6_safe : forall v allocate s, 0 <= v < 2 ^ 128 -> mapper_inv s ->
    owp (MapIPv6ToIPv4 (Addr6 v "") allocate s) (fun '(_, s') => mapper_inv s');
}.

(** [em_packet n] is [Packet(n)]: a buffer, whose bytes are whatever it held
    before, or nil.  The buffer stays aliased by the emitter: [em_fill] is the
    effect of the translator's writes to the buffer it was handed last, and
    [em_out] is what the emitter has been given so far. *)
Class Emitter (ES : Type) := {
  em_packet : Z -> ES -> option (list Z) * ES;
  em_fill : list Z -> ES -> ES;
  em_out : ES -> list (list Z);
}.

Class EmitterLaws (ES : Type) `{Emitter ES} := {
  em_inv : ES -> Prop;
  em_packet_spec : forall n e, 0 <= n -> em_inv e ->
    match em_packet n e with
    | (Some b, e') => len b = n /\ forall c, len c = n ->
        em_inv (em_fill c e') /\ em_out (em_fill c e') = em_out e ++ [c]
    | (None, e') => em_inv e' /\ em_out e' = em_out e
    end;
}.

Inductive UDPChecksumMode := UDPChecksumDrop | UDPChecksumCalc | UDPChecksumForward.

#[export] Instance UDPChecksumMode_eq_dec : EqDecision UDPChecksumMode.
Proof. solve_decision. Defined.

Definition udp_mode_String (m : UDPChecksumMode) : string :=
  match m with
  | UDPChecksumDrop => "drop"
  | UDPChecksumCalc => "calc"
  | UDPChecksumForward => "forward"
  end.

Record Config := mkConfig {
  LocalAddr4 : Addr;
  LocalAddr6 : Addr;
  MTU : Z;
  OfflinkMTU : Z;
  UDPChecksum : UDPChecksumMode;
}.

(** The mapper and the observer are part of [world]. *)
Record Translator := mkTranslator {
  t_cfg : Config;
  t_local4 : list Z;
  t_local6 : list Z;
}.

(** [New] panics when [LocalAddr4] is not an IPv4 address. *)
Definition New (cfg : Config) : outcome Translator :=
  let cfg := if OfflinkMTU cfg <? mtuMin
             then mkConfig (LocalAddr4 cfg) (LocalAddr6 cfg) (MTU cfg) mtuMin (UDPChecksum cfg)
             else cfg in
  l4 ← As4 (LocalAddr4 cfg);
  Ok (mkTranslator cfg l4 (As16 (LocalAddr6 cfg))).

Record world (MS ES : Type) := World {
  w_buf : list Z;
  w_map : MS;
  w_em : ES;
  w_obs : list obs;
  w_rand : nat;
}.
Arguments World {MS ES} _ _ _ _ _.
Arguments w_buf {MS ES} _.
Arguments w_map {MS ES} _.
Arguments w_em {MS ES} _.
Arguments w_obs {MS ES} _.
Arguments w_rand {MS ES} _.

Section helpers.
Context {MS ES : Type} `{Mapper MS} `{Emitter ES}.
(** The [k]-th value [rand.Uint32] returns. *)
Context (rand32 : nat -> Z).

Local Abbreviation W := (world MS ES).

Definition set_buf (b : list Z) (w : W) : W := World b (w_map w) (w_em w) (w_obs w) (w_rand w).
Definition set_map (m : MS) (w : W) : W := World (w_buf w) m (w_em w) (w_obs w) (w_rand w).
Definition set_em (e : ES) (w : W) : W := World (w_buf w) (w_map w) e (w_obs w) (w_rand w).
Definition add_obs (o : obs) (w : W) : W :=
  World (w_buf w) (w_map w) (w_em w) (w_obs w ++ [o]) (w_rand w).

(** [t.obs.Event(p.event(kind, reason))] *)
Definition event (p : pkt) (kind : Kind) (reason : Reason) : M W unit :=
  buf ← gets w_buf;
  e ← lift (pkt_event buf p kind reason);
  modify (add_obs (OEvent e)).

(** [t.obs.Translated(family, n)] *)
Definition translated (fam n : Z) : M W unit := modify (add_obs (OTranslated fam n)).

(** A write through a slice of the packet buffer; nil slices cannot be written. *)
Definition owrite (o : option slice) (i : Z) (src : list Z) : M W unit :=
  match o with
  | None => lift Panic
  | Some s => buf ← gets w_buf; buf' ← lift (write buf s i src); modify (set_buf buf')
  end.

(** Calls through the interfaces. *)
Definition call_packet (n : Z) : M W (option (list Z)) := fun w =>
  let '(r, e) := em_packet n (w_em w) in Ok (r, set_em e w).
Definition call_map4 (a : Addr) : M W (Addr + MapErr) := fun w =>
  '(r, m) ← MapIPv4ToIPv6 a (w_map w); Ok (r, set_map m w).
Definition call_map6 (a : Addr) (allocate : bool) : M W (Addr + MapErr) := fun w =>
  '(r, m) ← MapIPv6ToIPv4 a allocate (w_map w); Ok (r, set_map m w).

(** [b := out.Packet(n)] followed by the writes [fill] makes to [b]; the
    result says whether a buffer was handed out. *)
Definition emit (n : Z) (fill : list Z -> M W (list Z)) : M W bool :=
  r ← call_packet n;
  match r with
  | None => mret false
  | Some b => c ← fill b; modify (fun w => set_em (em_fill c (w_em w)) w);; mret true
  end.

Definition map4to6 (a : list Z) : M W (list Z + MapErr) :=
  a4 ← lift (sub a 0 4);
  r ← call_map4 (AddrFrom4 a4);
  match r with
  | inr err => mret (inr err)
  | inl r => if negb (Is6 r) then mret (inr ErrDrop) else mret (inl (As16 r))
  end.

Definition map6to4 (a : list Z) (allocate : bool) : M W (list Z + MapErr) :=
  a16 ← lift (sub a 0 16);
  r ← call_map6 (AddrFrom16 a16) allocate;
  match r with
  | inr err => mret (inr err)
  | inl r => if negb (Is4 r) then mret (inr ErrDrop)
             else r4 ← lift (As4 r); mret (inl r4)
  end.

Definition randomIdent : M W Z :=
  fun w => Ok (u16 (rand32 (w_rand w)),
               World (w_buf w) (w_map w) (w_em w) (w_obs w) (S (w_rand w))).
End helpers.
