(* ===== verification/TranslatorFacts.v ===== *)
(** * Reasoning about the translator's world

    The invariant [winv] of the state the translator runs in, the relation
    [evolves G k] between the states before and after a piece of it (only
    packets satisfying [G] were emitted, the first [k] bytes of the packet
    buffer are untouched), and one rule per helper of [Translator], proved
    against the laws of the mapper and the emitter. *)

From stdpp Require Import base tactics list numbers option strings.
From Stdlib Require Import ZArith Lia.
From S2P Require Import Prelude Netip Netutil Checksum Events Packet Layout Translator.

Open Scope Z_scope.

(** Reporting an event about a parsed packet cannot panic. *)
Lemma pkt_event_spec buf fam p k r :
  fam = 4 \/ fam = 6 -> ev_ok buf fam p ->
  owp (pkt_event buf p k r) (fun e => e_Kind e = k /\ e_Reason e = r /\ e_Family e = fam).
Proof.
  intros Hf [Hraw Hne Hfam Hip]. unfold pkt_event, family.
  pose proof (len_view buf _ Hraw) as Hl. apply owp_bind. do 2 ostep. fold_consts. rewrite Hfam.
  destruct (p_ip p) as [s|]; [|by ostep]. destruct Hip as [Hs Hsl].
  pose proof (len_view buf s Hs) as Hls. cbn [oview].
  destruct Hf as [-> | ->]; cbn [Z.eqb Pos.eqb] in *; do 3 ostep; done.
Qed.

(** Writing through a slice, seen through it and through earlier slices. *)
Section writes.
Context (buf : list Z) (s : slice) (i : Z) (src : list Z).
Hypothesis Hs : slice_ok buf s.
Hypothesis Hi : 0 <= i /\ i + len src <= s_len s.

Lemma write_ok : write buf s i src = Ok (splice buf (Z.to_nat (s_off s + i)) src).
Proof. unfold write. by rewrite !(proj2 (Z.leb_le _ _)) by lia. Qed.

Lemma write_length : length (splice buf (Z.to_nat (s_off s + i)) src) = length buf.
Proof. apply length_splice. destruct Hs as (?&?&?). unfold len in *. lia. Qed.

Lemma write_view :
  view (splice buf (Z.to_nat (s_off s + i)) src) s = splice (view buf s) (Z.to_nat i) src.
Proof.
  destruct Hs as (H1 & H2 & H3). unfold len in *.
  destruct (split_range buf (Z.to_nat (s_off s)) (Z.to_nat (s_len s))) as (A & V & D & -> & HA & HV);
    [lia|].
  destruct (split_range V (Z.to_nat i) (length src)) as (V1 & X & V2 & -> & HV1 & HX); [lia|].
  unfold view. rewrite Z2Nat.inj_add by lia.
  assert (splice (A ++ (V1 ++ X ++ V2) ++ D) (Z.to_nat (s_off s) + Z.to_nat i) src =
          A ++ (V1 ++ src ++ V2) ++ D) as ->.
  { rewrite <- HA, <- HV1, <- length_app, <- !app_assoc, !(app_assoc A V1).
    by apply splice_app. }
  rewrite <- HA, !drop_app_length. rewrite !length_app in HV.
  rewrite !take_app_length' by (rewrite !length_app; lia).
  rewrite <- HV1. symmetry. by apply splice_app.
Qed.

(** What lies before the written bytes is unchanged. *)
Lemma write_take k : 0 <= k <= s_off s + i ->
  take (Z.to_nat k) (splice buf (Z.to_nat (s_off s + i)) src) = take (Z.to_nat k) buf.
Proof.
  intros Hk. destruct Hs as (H1 & H2 & H3). unfold splice, len in *.
  rewrite take_app_le by (rewrite length_take; lia). rewrite take_take. f_equal. lia.
Qed.
End writes.

(** A slice inside an unchanged prefix shows the same bytes. *)
Lemma view_take_eq buf buf' k s :
  take (Z.to_nat k) buf' = take (Z.to_nat k) buf -> 0 <= s_off s -> 0 <= s_len s ->
  s_off s + s_len s <= k -> view buf' s = view buf s.
Proof.
  intros E Ho Hl Hk. unfold view.
  assert (forall b : list Z, take (Z.to_nat (s_len s)) (drop (Z.to_nat (s_off s)) b) =
            take (Z.to_nat (s_len s)) (drop (Z.to_nat (s_off s)) (take (Z.to_nat k) b))) as Hc.
  { intros b. rewrite skipn_firstn_comm, take_take. f_equal. lia. }
  by rewrite (Hc buf'), E, <- Hc.
Qed.

(** ** Addresses *)

Lemma As4_shape a : Is4 a = true -> exists l, As4 a = Ok l /\ length l = 4%nat /\ bytes_ok l.
Proof. destruct a; try done. intros _. eexists. split; [done|]. split; [apply length_be_bytes|apply be_bytes_ok]. Qed.

(** ** The invariant of the world, and how a run of the translator changes it *)

Section world_facts.
Context {MS ES : Type} {HM : Mapper MS} {HML : MapperLaws MS} {HE : Emitter ES} {HEL : EmitterLaws ES}.
Local Abbreviation W := (world MS ES).
Implicit Types w : W.

Record winv w : Prop := {
  wi_bytes : bytes_ok (w_buf w);
  wi_map : mapper_inv (w_map w);
  wi_em : em_inv (w_em w);
}.

(** From [w] to [w'] exactly the packets [outs] were emitted and the
    observations [os] reported, and the first [k] bytes of the buffer were kept. *)
Record evolves (k : Z) (outs : list (list Z)) (os : list obs) w w' : Prop := {
  evo_inv : winv w';
  evo_len : length (w_buf w') = length (w_buf w);
  evo_take : take (Z.to_nat k) (w_buf w') = take (Z.to_nat k) (w_buf w);
  evo_out : em_out (w_em w') = em_out (w_em w) ++ outs;
  evo_obs : w_obs w' = w_obs w ++ os;
}.

Lemma evolves_refl k w : winv w -> evolves k [] [] w w.
Proof. intros. split; by rewrite ?app_nil_r. Qed.

Lemma evolves_trans k o1 s1 o2 s2 w1 w2 w3 :
  evolves k o1 s1 w1 w2 -> evolves k o2 s2 w2 w3 -> evolves k (o1 ++ o2) (s1 ++ s2) w1 w3.
Proof.
  intros [A1 A2 A3 A4 A5] [B1 B2 B3 B4 B5].
  split; rewrite ?B2, ?B3, ?B4, ?B5, ?A4, ?A5, <- ?app_assoc; done.
Qed.

Lemma evolves_le k k' o s w w' : evolves k o s w w' -> 0 <= k' <= k -> evolves k' o s w w'.
Proof.
  intros [A1 A2 A3 A4 A5] Hk. split; try done.
  rewrite <- (Nat.min_l (Z.to_nat k') (Z.to_nat k)) by lia. by rewrite <- !take_take, A3.
Qed.

(** What a slice inside the kept prefix shows is kept. *)
Lemma evolves_view k o s w w' sl :
  evolves k o s w w' -> 0 <= s_off sl -> 0 <= s_len sl -> s_off sl + s_len sl <= k ->
  view (w_buf w') sl = view (w_buf w) sl.
Proof. intros [A1 A2 A3 A4 A5]. by apply view_take_eq. Qed.

Lemma evolves_lookup k o s w w' i :
  evolves k o s w w' -> 0 <= i < k -> w_buf w' !!! Z.to_nat i = w_buf w !!! Z.to_nat i.
Proof.
  intros [A1 A2 A3 A4 A5] Hi. rewrite !list_lookup_total_alt. f_equal.
  rewrite <- (lookup_take_lt (w_buf w) (Z.to_nat k)), <- (lookup_take_lt (w_buf w') (Z.to_nat k)) by lia.
  by rewrite A3.
Qed.

Lemma evolves_slice k o s w w' sl :
  evolves k o s w w' -> slice_ok (w_buf w) sl -> slice_ok (w_buf w') sl.
Proof. intros E. unfold slice_ok, len. by rewrite (evo_len _ _ _ _ _ E). Qed.

(** What the emitter takes of the packets [l], in order, and its state
    afterwards: it is asked for a buffer for each of them until it refuses one. *)
Fixpoint offer (l : list (list Z)) (e : ES) : list (list Z) * ES :=
  match l with
  | [] => ([], e)
  | c :: l =>
      match em_packet (len c) e with
      | (Some _, e) => let '(o, e) := offer l (em_fill c e) in (c :: o, e)
      | (None, e) => ([], e)
      end
  end.

Definition accepted (l : list (list Z)) (e : ES) : list (list Z) := (offer l e).1.

Lemma offer_prefix l e : accepted l e `prefix_of` l.
Proof.
  revert e. induction l as [|c l IH]; intros e; [done|]. unfold accepted. cbn [offer].
  destruct (em_packet (len c) e) as [[b|] e1]; [|apply prefix_nil].
  specialize (IH (em_fill c e1)). unfold accepted in IH. destruct (offer l _) as [o e2]. by apply prefix_cons.
Qed.

Lemma accepted_Forall (P : list Z -> Prop) l e : Forall P l -> Forall P (accepted l e).
Proof. rewrite !Forall_forall. intros F x Hx. eapply F, elem_of_prefix; [exact Hx|apply offer_prefix]. Qed.

Lemma offer_cons c l e e' :
  offer [c] e = ([c], e') -> offer (c :: l) e = (c :: (offer l e').1, (offer l e').2).
Proof.
  cbn [offer]. destruct (em_packet (len c) e) as [[b|] e1]; [|done]. intros [= <-].
  by destruct (offer l _).
Qed.

Lemma offer_cons_refused c l e e' : offer [c] e = ([], e') -> offer (c :: l) e = ([], e').
Proof. cbn [offer]. by destruct (em_packet (len c) e) as [[b|] e1]. Qed.

(** *** Rules for the helpers *)

Lemma wp_event fam p k r (Q : unit -> W -> Prop) w :
  fam = 4 \/ fam = 6 -> ev_ok (w_buf w) fam p ->
  (forall e, e_Kind e = k -> e_Reason e = r -> e_Family e = fam -> Q tt (add_obs (OEvent e) w)) ->
  wp (event p k r) Q w.
Proof.
  intros Hf Hev HQ. unfold event. apply wp_bind, wp_gets, wp_bind, wp_lift.
  eapply owp_mono; [by apply pkt_event_spec|]. intros e (E1 & E2 & E3). by apply HQ.
Qed.

Lemma evolves_event k e w : winv w -> evolves k [] [OEvent e] w (add_obs (OEvent e) w).
Proof. intros [A1 A2 A3]. split; rewrite ?app_nil_r; done. Qed.

Lemma evolves_translated k fam n w :
  winv w -> evolves k [] [OTranslated fam n] w (add_obs (OTranslated fam n) w).
Proof. intros [A1 A2 A3]. split; rewrite ?app_nil_r; done. Qed.

Definition set_rand (r : nat) w : W := World (w_buf w) (w_map w) (w_em w) (w_obs w) r.

(** Asking for a buffer of [n] bytes and filling it: the bytes emitted do not
    depend on what the buffer held. *)
Lemma wp_emit n fill c r (Q : bool -> W -> Prop) w :
  0 <= n -> winv w -> len c = n ->
  (forall b w1, len b = n -> w_rand w1 = w_rand w -> fill b w1 = Ok (c, set_rand r w1)) ->
  (forall w', evolves (len (w_buf w)) [c] [] w w' -> w_buf w' = w_buf w ->
     offer [c] (w_em w) = ([c], w_em w') -> Q true w') ->
  (forall w', evolves (len (w_buf w)) [] [] w w' -> w_buf w' = w_buf w ->
     offer [c] (w_em w) = ([], w_em w') -> Q false w') ->
  wp (emit n fill) Q w.
Proof.
  intros Hn [A1 A2 A3] Hc Hf H1 H2. unfold emit. apply wp_bind. unfold wp at 1, call_packet.
  pose proof (em_packet_spec n (w_em w) Hn A3) as Hp.
  destruct (em_packet n (w_em w)) as [[b|] e] eqn:Ep.
  - destruct Hp as [Hb Hp]. destruct (Hp c Hc) as [I O].
    apply wp_bind. unfold wp at 1. rewrite Hf by done.
    apply wp_bind, wp_modify, wp_ret, H1; [|done|by cbn [offer]; rewrite Hc, Ep].
    split; simpl; rewrite ?app_nil_r; done.
  - destruct Hp as [I O]. apply wp_ret, H2; [|done|by cbn [offer]; rewrite Hc, Ep].
    split; simpl; rewrite ?app_nil_r; done.
Qed.

Lemma wp_emit_pure n fill c (Q : bool -> W -> Prop) w :
  0 <= n -> winv w -> len c = n ->
  (forall b, len b = n -> fill b = Ok c) ->
  (forall w', evolves (len (w_buf w)) [c] [] w w' -> w_buf w' = w_buf w ->
     offer [c] (w_em w) = ([c], w_em w') -> Q true w') ->
  (forall w', evolves (len (w_buf w)) [] [] w w' -> w_buf w' = w_buf w ->
     offer [c] (w_em w) = ([], w_em w') -> Q false w') ->
  wp (emit n (fun b => lift (fill b))) Q w.
Proof.
  intros Hn Hw Hc Hf H1 H2. apply (wp_emit n _ c (w_rand w)); try done. intros b w1 Hb Hr.
  unfold lift, set_rand. rewrite Hf by done. rewrite <- Hr. by destruct w1.
Qed.

(** The mapper, in state [m], turns the address bytes [a] into [r] and moves to
    state [m']. *)
Definition mapped4 (m m' : MS) (a r : list Z) : Prop :=
  exists A, MapIPv4ToIPv6 (AddrFrom4 a) m = Ok (inl A, m') /\ Is6 A = true /\ r = As16 A.
Definition mapped6 (allocate : bool) (m m' : MS) (a r : list Z) : Prop :=
  exists A, MapIPv6ToIPv4 (AddrFrom16 a) allocate m = Ok (inl A, m') /\ Is4 A = true /\ As4 A = Ok r.

(** The mapper has no address of the other family for [a]: it says so with
    [err], or gives an address of the wrong family, which counts as [ErrDrop]. *)
Definition unmapped4 (err : MapErr) (m m' : MS) (a : list Z) : Prop :=
  exists r, MapIPv4ToIPv6 (AddrFrom4 a) m = Ok (r, m') /\
    match r with inl A => Is6 A = false /\ err = ErrDrop | inr e => err = e end.
Definition unmapped6 (err : MapErr) (allocate : bool) (m m' : MS) (a : list Z) : Prop :=
  exists r, MapIPv6ToIPv4 (AddrFrom16 a) allocate m = Ok (r, m') /\
    match r with inl A => Is4 A = false /\ err = ErrDrop | inr e => err = e end.

Lemma mapped4_ok m m' a r : mapped4 m m' a r -> bytes_ok r /\ length r = 16%nat.
Proof. intros (A & _ & _ & ->). eauto with clatto. Qed.
Lemma mapped6_ok al m m' a r : mapped6 al m m' a r -> bytes_ok r /\ length r = 4%nat.
Proof. intros (A & _ & _ & E). eauto with clatto. Qed.

(** Looking an address up gives the bytes of an address of the other family,
    and changes nothing but the mapper's state. *)
Lemma wp_map4to6 k a (Q : list Z + MapErr -> W -> Prop) w :
  winv w -> bytes_ok a -> length a = 4%nat ->
  (forall r w', evolves k [] [] w w' -> w_buf w' = w_buf w -> w_em w' = w_em w ->
     match r with inl l => mapped4 (w_map w) (w_map w') a l
                | inr err => unmapped4 err (w_map w) (w_map w') a end -> Q r w') ->
  wp (map4to6 a) Q w.
Proof.
  intros [A1 A2 A3] Ha Hl HQ. unfold map4to6. apply wp_bind, wp_lift.
  pose proof (len_of _ _ Hl). apply owp_sub; [lia|lia|]. fold_consts. rewrite drop_0, take_ge by lia.
  apply wp_bind. unfold wp at 1, call_map4, AddrFrom4.
  pose proof (be_range a Ha) as Hr. unfold len in Hr. rewrite Hl in Hr.
  pose proof (map4_safe (be a) (w_map w) Hr A2) as Hm.
  destruct (MapIPv4ToIPv6 (Addr4 (be a)) (w_map w)) as [[[r|e] m]| |] eqn:E; try done; cbn in Hm |- *.
  - assert (evolves k [] [] w (set_map m w)) by (split; rewrite ?app_nil_r; done).
    case_if; apply wp_ret, HQ; try done; bool_prop; [by exists (inl r)|by exists r].
  - apply wp_ret, HQ; try done; [split; rewrite ?app_nil_r; done|by exists (inr e)].
Qed.

Lemma wp_map6to4 k a allocate (Q : list Z + MapErr -> W -> Prop) w :
  winv w -> bytes_ok a -> length a = 16%nat ->
  (forall r w', evolves k [] [] w w' -> w_buf w' = w_buf w -> w_em w' = w_em w ->
     match r with inl l => mapped6 allocate (w_map w) (w_map w') a l
                | inr err => unmapped6 err allocate (w_map w) (w_map w') a end -> Q r w') ->
  wp (map6to4 a allocate) Q w.
Proof.
  intros [A1 A2 A3] Ha Hl HQ. unfold map6to4. apply wp_bind, wp_lift.
  pose proof (len_of _ _ Hl). apply owp_sub; [lia|lia|]. fold_consts. rewrite drop_0, take_ge by lia.
  apply wp_bind. unfold wp at 1, call_map6, AddrFrom16.
  pose proof (be_range a Ha) as Hr. unfold len in Hr. rewrite Hl in Hr.
  pose proof (map6_safe (be a) allocate (w_map w) Hr A2) as Hm.
  destruct (MapIPv6ToIPv4 (Addr6 (be a) "") allocate (w_map w)) as [[[r|e] m]| |] eqn:E; try done; cbn in Hm |- *.
  - assert (evolves k [] [] w (set_map m w)) by (split; rewrite ?app_nil_r; done).
    case_if; bool_prop; [by apply wp_ret, HQ; try done; exists (inl r)|]. destruct (As4_shape r) as (l & El & ? & ?); [done|].
    rewrite El. apply wp_ret, HQ; try done. by exists r.
  - apply wp_ret, HQ; try done; [split; rewrite ?app_nil_r; done|by exists (inr e)].
Qed.

(** Writing through a slice. *)
Lemma wp_owrite k s i src (Q : unit -> W -> Prop) w :
  winv w -> slice_ok (w_buf w) s -> 0 <= i -> i + len src <= s_len s -> bytes_ok src ->
  0 <= k <= s_off s + i ->
  (forall w', evolves k [] [] w w' ->
     w' = set_buf (splice (w_buf w) (Z.to_nat (s_off s + i)) src) w -> Q tt w') ->
  wp (owrite (Some s) i src) Q w.
Proof.
  intros [A1 A2 A3] Hs Hi Hl Hb Hk HQ. unfold owrite. apply wp_bind, wp_gets, wp_bind, wp_lift.
  rewrite write_ok by done. apply owp_ok, wp_modify, HQ; [|done].
  split; simpl; rewrite ?app_nil_r; try done.
  - split; simpl; eauto with clatto.
  - by apply write_length.
  - by apply write_take.
Qed.

Lemma evolves_zero k o s w w' : 0 <= k -> evolves k o s w w' -> evolves 0 o s w w'.
Proof. intros Hk E. apply (evolves_le k); [done|lia]. Qed.

(** *** Emission *)

(** [m] runs to the end and emits only packets that satisfy [G]. *)
Definition emits (G : list Z -> Prop) (m : M W unit) w : Prop :=
  wp m (fun _ w' => exists outs os, evolves 0 outs os w w' /\ Forall G outs) w.

Lemma emits_skip G w : winv w -> emits G skip w.
Proof. intros Hw. exists [], []. split; [by apply evolves_refl|done]. Qed.

Lemma emits_mono (G G' : list Z -> Prop) m w : emits G m w -> (forall b, G b -> G' b) -> emits G' m w.
Proof.
  intros Hm HG. eapply wp_mono; [exact Hm|]. intros _ w' (outs & os & E & F).
  exists outs, os. split; [done|]. eapply Forall_impl; [exact F|done].
Qed.

(** [m] offers the packets [l] to the emitter, and does nothing else. *)
Definition sends (l : list (list Z)) (m : M W unit) w : Prop :=
  wp m (fun _ w' => evolves 0 (accepted l (w_em w)) [] w w') w.

Lemma sends_skip w : winv w -> sends [] skip w.
Proof. intros Hw. by apply evolves_refl. Qed.

Lemma sends_emits (G : list Z -> Prop) l m w : sends l m w -> Forall G l -> emits G m w.
Proof.
  intros Hm F. eapply wp_mono; [exact Hm|]. cbv beta. intros _ w' E. eexists _, []. split; [exact E|].
  by apply accepted_Forall.
Qed.

(** Running the rest after an evolution that emitted nothing. *)
Lemma emits_from G k os m w w' :
  0 <= k -> evolves k [] os w w' -> emits G m w' ->
  wp m (fun _ w'' => exists outs os, evolves 0 outs os w w'' /\ Forall G outs) w'.
Proof.
  intros Hk E Hm. eapply wp_mono; [exact Hm|]. intros _ w'' (outs & os' & E' & F).
  exists outs, (os ++ os'). split; [|done].
  apply (evolves_trans 0 [] os outs os' _ _ _ (evolves_zero _ _ _ _ _ Hk E) E').
Qed.

Lemma emits_event G fam p k r w :
  winv w -> fam = 4 \/ fam = 6 -> ev_ok (w_buf w) fam p -> emits G (event p k r) w.
Proof.
  intros Hw Hf Hev. apply (wp_event fam); try done. intros e _ _ _.
  exists [], [OEvent e]. split; [by apply evolves_event|done].
Qed.

Lemma emits_event_bind G fam p k r m w :
  winv w -> fam = 4 \/ fam = 6 -> ev_ok (w_buf w) fam p ->
  (forall w', winv w' -> w_buf w' = w_buf w -> evolves 0 [] (drop (length (w_obs w)) (w_obs w')) w w' -> emits G m w') ->
  emits G (event p k r;; m) w.
Proof.
  intros Hw Hf Hev Hm. apply wp_bind, (wp_event fam); try done. intros e _ _ _.
  pose proof (evolves_event 0 e w Hw) as E. apply (emits_from G 0 [OEvent e]); [done|done|].
  apply Hm; [apply E|done|]. cbn. by rewrite drop_app_length.
Qed.

(** Looking addresses up emits nothing. *)
Lemma emits_map4 G a (f : list Z + MapErr -> M W unit) w :
  winv w -> bytes_ok a -> length a = 4%nat ->
  (forall r w', winv w' -> w_buf w' = w_buf w ->
     match r with inl l => mapped4 (w_map w) (w_map w') a l
                | inr err => unmapped4 err (w_map w) (w_map w') a end -> emits G (f r) w') ->
  emits G (map4to6 a ≫= f) w.
Proof.
  intros Hw Ha Hl Hf. apply wp_bind, (wp_map4to6 0); [done..|]. intros r w' E Hb _ Hm.
  apply (emits_from G 0 []); [done|done|]. apply Hf; [apply E|done|done].
Qed.

Lemma emits_map6 G a al (f : list Z + MapErr -> M W unit) w :
  winv w -> bytes_ok a -> length a = 16%nat ->
  (forall r w', winv w' -> w_buf w' = w_buf w ->
     match r with inl l => mapped6 al (w_map w) (w_map w') a l
                | inr err => unmapped6 err al (w_map w) (w_map w') a end -> emits G (f r) w') ->
  emits G (map6to4 a al ≫= f) w.
Proof.
  intros Hw Ha Hl Hf. apply wp_bind, (wp_map6to4 0); [done..|]. intros r w' E Hb _ Hm.
  apply (emits_from G 0 []); [done|done|]. apply Hf; [apply E|done|done].
Qed.

(** The source of a translated error: the mapped address, or the translator's
    own with an event. *)
Lemma wp_source fam p kind reason (n : nat) l (r : list Z + MapErr) w :
  winv w -> fam = 4 \/ fam = 6 -> ev_ok (w_buf w) fam p -> bytes_ok l -> length l = n ->
  match r with inl a => bytes_ok a /\ length a = n | inr _ => True end ->
  wp (match r with inl a => mret a | inr _ => event p kind reason;; mret l end)
    (fun a w' => bytes_ok a /\ length a = n /\ w_buf w' = w_buf w /\ exists os, evolves 0 [] os w w') w.
Proof.
  intros Hw Hf Hev Hb Hl Hr. destruct r as [a|].
  - destruct Hr. apply wp_ret. do 3 (split; [done|]). exists []. by apply evolves_refl.
  - apply wp_bind, (wp_event fam); [done|done|]. intros e _ _ _. apply wp_ret.
    do 3 (split; [done|]). exists [OEvent e]. by apply evolves_event.
Qed.
End world_facts.

(** ** A translator as [New] makes it from a validated configuration *)

Record tr_ok (t : Translator) : Prop := {
  tr_len4 : length (t_local4 t) = 4%nat;
  tr_bytes4 : bytes_ok (t_local4 t);
  tr_len6 : length (t_local6 t) = 16%nat;
  tr_bytes6 : bytes_ok (t_local6 t);
  tr_mtu : mtuMin <= MTU (t_cfg t) <= 65535;
  tr_offlink : mtuMin <= OfflinkMTU (t_cfg t);
}.

(** [config.Resolve] rejects an MTU outside 1280..65535. *)
Lemma New_spec cfg :
  Is4 (LocalAddr4 cfg) = true -> mtuMin <= MTU cfg <= 65535 -> owp (New cfg) tr_ok.
Proof.
  intros H4 Hm. destruct (As4_shape _ H4) as (l & E & Hl & Hb). unfold New. cbv zeta.
  case_if; cbn [LocalAddr4]; rewrite E; bool_prop; split; simpl; eauto with clatto; lia.
Qed.
