(* ===== verification/Xlate4.v ===== *)
(** * IPv4 to IPv6: [src/internal/xlate/xlate4.go]

    One definition per function of the file.  A Go function that fills a slice
    handed to it ([header4to6]) takes the bytes of the slice and returns the new
    ones; [sendICMPv4] and the translation functions write those back into the
    buffer the slice belongs to. *)

From stdpp Require Import base tactics list numbers option strings.
From Stdlib Require Import ZArith Lia.
From S2P Require Import Prelude Netip Netutil Checksum Events Packet Translator.

Open Scope Z_scope.

(** The writes [sendICMPv4] makes to the buffer [b] of [n] bytes. *)
Definition icmp4_fill (n tos : Z) (src dst : list Z) (typ code word : Z) (payload : list Z)
    (b : list Z) : outcome (list Z) :=
  h ← sub b 0 ipv4HdrLen;
  h ← set_at h 0 0x45;
  h ← set_at h 1 tos;
  h ← put16 h 2 (u16 n);
  h ← put16 h 4 0;
  h ← put16 h 6 0;
  h ← set_at h 8 64;
  h ← set_at h 9 protoICMP;
  h ← set_at h 10 0;
  h ← set_at h 11 0;
  s ← sub src 0 4; h ← copy_to h 12 16 s;
  d ← sub dst 0 4; h ← copy_to h 16 20 d;
  h ← put16 h 10 (checksum h 0);
  b ← put b 0 h;
  ic ← sub b ipv4HdrLen (ipv4HdrLen + icmpHdrLen);
  ic ← set_at ic 0 typ;
  ic ← set_at ic 1 code;
  ic ← set_at ic 2 0;
  ic ← set_at ic 3 0;
  ic ← put32 ic 4 word;
  b ← put b ipv4HdrLen ic;
  b ← copy_to b (ipv4HdrLen + icmpHdrLen) (len b) payload;
  rest ← from b ipv4HdrLen;
  ic ← put16 ic 2 (checksum rest 0);
  put b ipv4HdrLen ic.

(** [header4to6] on the 40 bytes [h], reading the header of [p] from [buf]. *)
Definition header4to6 (buf : list Z) (p : pkt) (h : list Z) (payloadLen : Z) (src6 dst6 : list Z)
    : outcome (list Z) :=
  let ip := oview buf (p_ip p) in
  tos ← at_ ip 1;
  h ← put32 h 0 (Z.lor (Z.shiftl 6 28) (Z.shiftl tos 20));
  h ← put16 h 4 (u16 payloadLen);
  h ← set_at h 6 (if p_proto p =? protoICMP then protoICMPv6 else p_proto p);
  ttl ← at_ ip 8;
  h ← set_at h 7 ttl;
  h ← copy_to h 8 24 src6;
  copy_to h 24 40 dst6.

(** [h[i]--] on a byte. *)
Definition decr (h : list Z) (i : Z) : outcome (list Z) :=
  v ← at_ h i; set_at h i (u8 (v - 1)).

Definition ptrTable4to6 : list Z :=
  [0; 1; 4; 4; -1; -1; -1; -1; 7; 6; -1; -1; 8; 8; 8; 8; 24; 24; 24; 24].

(** The switch on type and code of [xlate4to6ICMPError]: the translated type,
    code and word, or the reason for dropping the message.  [word] is
    [icmpWord(p.icmp)] and [emTotal] is [ip4TotalLen(em.ip)]. *)
Definition icmp_switch4 (mtu_cfg typ code word emTotal : Z) : (Z * Z * Z) + Reason :=
  if typ =? 3 then
    if bool_decide (code ∈ [0; 1; 5; 6; 7; 8; 11; 12]) then inl (1, 0, 0)
    else if code =? 2 then inl (4, 1, 6)
    else if code =? 3 then inl (1, 4, 0)
    else if code =? 4 then
      let mtu := Z.land word 0xffff in
      let mtu := if mtu <? 68 then estMTU emTotal else mtu in
      let mtu := mtu + mtuAdj in
      let mtu := if mtu_cfg <? mtu then mtu_cfg else mtu in
      let mtu := if mtu <? mtuMin then mtuMin else mtu in
      inl (2, 0, u32 mtu)
    else if bool_decide (code ∈ [9; 10; 13; 15]) then inl (1, 1, 0)
    else inr ReasonUnknownUnreachableCode
  else if typ =? 11 then inl (3, code, 0)
  else if typ =? 12 then
    if negb (code =? 0) && negb (code =? 2) then inr ReasonParamProblemInvalidCode
    else
      let ptr := Z.shiftr word 24 in
      if len ptrTable4to6 <=? ptr then inr ReasonParamProblemInvalidPointer
      else
        let np := ptrTable4to6 !!! Z.to_nat ptr in
        if np <? 0 then inr ReasonParamProblemUntranslatable
        else inl (4, 0, u32 np)
  else inr ReasonUnknownICMPType.

Section xlate4.
Context {MS ES : Type} `{Mapper MS} `{Emitter ES}.
Local Abbreviation W := (world MS ES).

Definition sendICMPv4 (tos : Z) (src dst : list Z) (typ code word : Z) (payload : list Z)
    : M W unit :=
  let n := ipv4HdrLen + icmpHdrLen + len payload in
  emit n (fun b => lift (icmp4_fill n tos src dst typ code word payload b));; skip.

Definition sendICMPv4Error (t : Translator) (typ code word : Z) (orig : pkt) : M W unit :=
  buf ← gets w_buf;
  not_echo ← lift (if p_proto orig =? protoICMP
                   then ty ← at_ (oview buf (p_icmp orig)) 0; Ok (negb (ty =? 8))
                   else Ok false);
  if (not_echo : bool) then skip else
  let n := p_hdrLen orig + s_len (p_data orig) in
  let max := icmp4MaxLen - ipv4HdrLen - icmpHdrLen in
  let n := if max <? n then max else n in
  dst ← lift (sub (oview buf (p_ip orig)) 12 16);
  payload ← lift (sub (view buf (p_raw orig)) 0 n);
  sendICMPv4 0 (t_local4 t) dst typ code word payload.

Definition hostICMPv4 (p : pkt) : M W unit :=
  buf ← gets w_buf;
  ty ← lift (at_ (oview buf (p_icmp p)) 0);
  if ty =? 8 then
    event p KindSelf ReasonEchoRequest;;
    tos ← lift (at_ (oview buf (p_ip p)) 1);
    src ← lift (sub (oview buf (p_ip p)) 16 20);
    dst ← lift (sub (oview buf (p_ip p)) 12 16);
    code ← lift (at_ (oview buf (p_icmp p)) 1);
    word ← lift (icmpWord (oview buf (p_icmp p)));
    payload ← lift (from (view buf (p_data p)) icmpHdrLen);
    sendICMPv4 tos src dst 0 code word payload
  else event p KindSelf ReasonSelfUnknownICMPType.

(** The rewriting of the transport header is in place: it changes the packet
    buffer through the slices [icmp] and [data] of [p]. *)
Definition payload4to6 (t : Translator) (p : pkt) (h : list Z) : M W Reason :=
  buf ← gets w_buf;
  let ip := oview buf (p_ip p) in
  let data := view buf (p_data p) in
  fo ← lift (ip4FlagsOff ip);
  if negb (Z.land fo ip4OffMask =? 0) then mret ReasonNone else
  if p_proto p =? protoICMP then
    s ← lift (sub h 8 24); d ← lift (sub h 24 40);
    total ← lift (ip4TotalLen ip);
    ps ← lift (pseudo6 s d (total - p_hdrLen p) protoICMPv6);
    old ← lift (u16_at (oview buf (p_icmp p)) 2);
    ty ← lift (at_ (oview buf (p_icmp p)) 0);
    delta ← (if ty =? 8
             then owrite (p_icmp p) 0 [128];; mret (Z.shiftl (128 - 8) 8)
             else owrite (p_icmp p) 0 [129];; mret (Z.shiftl (129 - 0) 8));
    owrite (p_icmp p) 2 (be_bytes 2 (not16 (fold (u64 (u64 (not16 old + ps) + delta)))));;
    mret ReasonNone
  else
  let adjust_at (ckOff : Z) : M W Reason :=
    old ← lift (u16_at data ckOff);
    addrs4 ← lift (sub ip 12 20);
    addrs6 ← lift (sub h 8 40);
    let ck := adjust old (sum16 addrs4 0) (sum16 addrs6 0) in
    let ck := if (p_proto p =? protoUDP) && (ck =? 0) then 0xffff else ck in
    owrite (Some (p_data p)) ckOff (be_bytes 2 ck);;
    mret ReasonNone in
  if p_proto p =? protoUDP then
    if s_len (p_data p) <? 8 then mret ReasonUDPHeaderLength else
    ck0 ← lift (u16_at data 6);
    if ck0 =? 0 then
      match UDPChecksum (t_cfg t) with
      | UDPChecksumForward => mret ReasonNone
      | UDPChecksumCalc =>
          s ← lift (sub h 8 24); d ← lift (sub h 24 40);
          ps ← lift (pseudo6 s d (s_len (p_data p)) protoUDP);
          let ck := checksum data ps in
          let ck := if ck =? 0 then 0xffff else ck in
          owrite (Some (p_data p)) 6 (be_bytes 2 ck);;
          mret ReasonNone
      | UDPChecksumDrop => mret ReasonUDPZeroChecksum
      end
    else adjust_at 6
  else if p_proto p =? protoTCP then
    if s_len (p_data p) <? 20 then mret ReasonTCPHeaderLength else adjust_at 16
  else mret ReasonNone.

(** One output fragment: the writes to the buffer [b]. *)
Definition frag_fill (h fh d : list Z) (b : list Z) : outcome (list Z) :=
  b ← copy_to b 0 (len b) h;
  b ← copy_to b ipv6HdrLen (len b) fh;
  copy_to b (ipv6HdrLen + fragHdrLen) (len b) d.

(** The fragmentation loop.  The result says whether it ran to the end; when
    the emitter refuses a buffer the function returns at once. *)
Fixpoint frag_loop (fuel : nat) (h fh : list Z) (data : slice) (off fragSize : Z) (origMF : bool)
    : M W bool :=
  match fuel with
  | O => lift Stuck
  | S fuel =>
      if negb (0 <? s_len data) then mret true else
      let n := if s_len data <? fragSize then s_len data else fragSize in
      h ← lift (put16 h 4 (u16 (fragHdrLen + n)));
      let flags := u16 off in
      let flags := if (n <? s_len data) || origMF then Z.lor flags ip6FragMF else flags in
      fh ← lift (put16 fh 2 flags);
      buf ← gets w_buf;
      ok ← emit (ipv6HdrLen + fragHdrLen + n)
             (fun b => d ← lift (sub (view buf data) 0 n); lift (frag_fill h fh d b));
      if negb ok then mret false else
      data ← lift (subslice data n (s_len data));
      frag_loop fuel h fh data (off + n) fragSize origMF
  end.

(** With a positive fragment size every round consumes data. *)
Definition frag_fuel (data : slice) : nat := S (Z.to_nat (s_len data)).

Definition xlate4to6Data (t : Translator) (p : pkt) : M W unit :=
  buf ← gets w_buf;
  let ip := oview buf (p_ip p) in
  let fragSize := OfflinkMTU (t_cfg t) in
  let fragSize := if MTU (t_cfg t) <? fragSize then MTU (t_cfg t) else fragSize in
  let fragSize := fragSize - ipv6HdrLen in
  dst ← lift (sub ip 16 20);
  dst6 ← map4to6 dst;
  match dst6 with
  | inr ErrReject =>
      event p KindReject ReasonDestinationUnmappable;; sendICMPv4Error t 3 1 0 p
  | inr ErrDrop => event p KindDrop ReasonDestinationUnmappable
  | inl dst6 =>
  src ← lift (sub ip 12 16);
  src6 ← map4to6 src;
  match src6 with
  | inr ErrReject =>
      event p KindReject ReasonSourceUnmappable;; sendICMPv4Error t 3 10 0 p
  | inr ErrDrop => event p KindDrop ReasonSourceUnmappable
  | inl src6 =>
  fo ← lift (ip4FlagsOff ip);
  let unfragmented := Z.land fo (Z.lor ip4OffMask ip4FlagMF) =? 0 in
  let df := negb (Z.land fo ip4FlagDF =? 0) in
  if unfragmented && df && (MTU (t_cfg t) - mtuAdj <? p_hdrLen p + s_len (p_data p)) then
    event p KindICMP ReasonPacketTooBig;;
    sendICMPv4Error t 3 4 (u32 (MTU (t_cfg t) - mtuAdj)) p
  else
  let noFragHdr := unfragmented && (df || (s_len (p_data p) <=? fragSize)) in
  h ← lift (header4to6 buf p (replicate 40 0) (s_len (p_data p)) src6 dst6);
  h ← lift (decr h 7);
  r ← payload4to6 t p h;
  if bool_decide (r <> ReasonNone) then event p KindDrop r else
  buf ← gets w_buf;
  let total := p_hdrLen p + s_len (p_data p) in
  if (noFragHdr : bool) then
    ok ← emit (ipv6HdrLen + s_len (p_data p)) (fun b => lift (
           b ← copy_to b 0 (len b) h;
           copy_to b ipv6HdrLen (len b) (view buf (p_data p))));
    if (ok : bool) then translated 4 total else skip
  else
  h6 ← lift (at_ h 6);
  fh ← lift (set_at (replicate 8 0) 0 h6);
  h ← lift (set_at h 6 protoFrag);
  ident ← lift (ip4Ident ip);
  fh ← lift (put32 fh 4 ident);
  let off := Z.land fo ip4OffMask * 8 in
  let fragSize := Z.ldiff (fragSize - fragHdrLen) 7 in
  let origMF := negb (Z.land fo ip4FlagMF =? 0) in
  done ← frag_loop (frag_fuel (p_data p)) h fh (p_data p) off fragSize origMF;
  if (done : bool) then translated 4 total else skip
  end end.

(** The writes [xlate4to6ICMPError] makes to its output buffer of [n] bytes. *)
Definition icmp_err6_fill (buf : list Z) (p : pkt) (n : Z) (src6 dst6 : list Z)
    (otype ocode oword : Z) (inner emdata b : list Z) : outcome (list Z) :=
  h ← sub b 0 ipv6HdrLen;
  h ← header4to6 buf p h (n - ipv6HdrLen) src6 dst6;
  h ← decr h 7;
  b ← put b 0 h;
  ic ← sub b ipv6HdrLen (ipv6HdrLen + icmpHdrLen);
  ic ← set_at ic 0 otype; ic ← set_at ic 1 ocode; ic ← set_at ic 2 0; ic ← set_at ic 3 0;
  ic ← put32 ic 4 oword;
  b ← put b ipv6HdrLen ic;
  b ← copy_to b (ipv6HdrLen + icmpHdrLen) (len b) inner;
  b ← copy_to b (ipv6HdrLen + icmpHdrLen + ipv6HdrLen) (len b) emdata;
  rest ← from b ipv6HdrLen;
  s ← sub h 8 24; d ← sub h 24 40;
  ps ← pseudo6 s d (n - ipv6HdrLen) protoICMPv6;
  ic ← put16 ic 2 (checksum rest ps);
  put b ipv6HdrLen ic.

(** The RFC 4884 length of the embedded datagram, and the slice it selects;
    [None] when the message is too short for it. *)
Definition embedded4 (buf : list Z) (p : pkt) (typ : Z) : outcome (option slice) :=
  em ← subslice (p_data p) icmpHdrLen (s_len (p_data p));
  if (typ =? 3) || (typ =? 11) || (typ =? 12) then
    word ← icmpWord (oview buf (p_icmp p));
    let emLen := Z.land (Z.shiftr word 14) 0x3fc in
    if negb (emLen =? 0) then
      if s_len em <? emLen then Ok None
      else em ← subslice em 0 emLen; Ok (Some em)
    else Ok (Some em)
  else Ok (Some em).

Definition xlate4to6ICMPError (t : Translator) (p : pkt) : M W unit :=
  buf ← gets w_buf;
  let ip := oview buf (p_ip p) in
  let icmp := oview buf (p_icmp p) in
  typ ← lift (at_ icmp 0);
  code ← lift (at_ icmp 1);
  em ← lift (embedded4 buf p typ);
  match em with
  | None => event p KindDrop ReasonEmbeddedTooShort
  | Some em =>
  '(em, r) ← lift (parseIPv4 buf (new_pkt em));
  if bool_decide (r <> ReasonNone) then event p KindDrop ReasonEmbeddedParseFailed else
  not_echo ← lift (if p_proto em =? protoICMP
                   then ty ← at_ (oview buf (p_icmp em)) 0; Ok (negb (ty =? 8))
                   else Ok false);
  if (not_echo : bool) then event p KindDrop ReasonICMPErrorOfICMPError else
  let max := mtuMin - 2 * ipv6HdrLen - icmpHdrLen in
  emdata ← lift (if max <? s_len (p_data em) then subslice (p_data em) 0 max else Ok (p_data em));
  let em := set_data em emdata in
  let emip := oview buf (p_ip em) in
  a ← lift (sub emip 12 16);
  emSrc ← map4to6 a;
  a ← lift (sub emip 16 20);
  emDst ← map4to6 a;
  match emSrc, emDst with
  | inl emSrc, inl emDst =>
  emTotal ← lift (ip4TotalLen emip);
  inner ← lift (header4to6 buf em (replicate 40 0) (emTotal - p_hdrLen em) emSrc emDst);
  word ← lift (icmpWord icmp);
  match icmp_switch4 (MTU (t_cfg t)) typ code word emTotal with
  | inr reason => event p KindDrop reason
  | inl (otype, ocode, oword) =>
  r ← payload4to6 t em inner;
  if bool_decide (r <> ReasonNone) then event p KindDrop ReasonEmbeddedUntranslatable else
  a ← lift (sub ip 12 16);
  src6 ← map4to6 a;
  src6 ← (match src6 with
          | inl a => mret a
          | inr _ => event p KindICMP ReasonSynthesisedSource;; mret (t_local6 t)
          end);
  a ← lift (sub ip 16 20);
  dst6 ← map4to6 a;
  match dst6 with
  | inr _ => event p KindDrop ReasonDestinationUnmappable
  | inl dst6 =>
  let n := ipv6HdrLen + icmpHdrLen + ipv6HdrLen + s_len (p_data em) in
  buf ← gets w_buf;
  ok ← emit n (fun b => lift (icmp_err6_fill buf p n src6 dst6 otype ocode oword inner
                                (view buf (p_data em)) b));
  if (ok : bool) then translated 4 (p_hdrLen p + s_len (p_data p)) else skip
  end
  end
  | _, _ => event p KindDrop ReasonEmbeddedUnmappable
  end end.

Definition handleIPv4 (t : Translator) (raw : slice) : M W unit :=
  buf ← gets w_buf;
  '(p, r) ← lift (parseIPv4 buf (new_pkt raw));
  if bool_decide (r <> ReasonNone) then event p KindDrop r else
  let ip := oview buf (p_ip p) in
  ttl ← lift (at_ ip 8);
  total ← lift (ip4TotalLen ip);
  if (ttl =? 0) || negb (verify ip 0) || negb (p_hdrLen p + s_len (p_data p) =? total)
  then event p KindDrop ReasonIPHeaderInvalid else
  if bool_decide (p_icmp p <> None) && negb (verify (view buf (p_data p)) 0)
  then event p KindDrop ReasonICMPChecksumInvalid else
  dst ← lift (sub ip 16 20);
  if bool_decide (dst = t_local4 t) then
    if p_proto p =? protoICMP then hostICMPv4 p
    else event p KindReject ReasonSelfUnknownProto;; sendICMPv4Error t 3 2 0 p
  else
  if ttl =? 1 then
    event p KindICMP ReasonTimeExceeded;; sendICMPv4Error t 11 0 0 p
  else
  data ← lift (if negb (p_proto p =? protoICMP) then Ok true
               else ty ← at_ (oview buf (p_icmp p)) 0; Ok ((ty =? 8) || (ty =? 0)));
  if (data : bool) then xlate4to6Data t p else xlate4to6ICMPError t p.
End xlate4.
