(* ===== verification/Xlate6.v ===== *)
(** * IPv6 to IPv4: [src/internal/xlate/xlate6.go]

    The counterpart of [Xlate4]; [header6to4] draws the identification of
    unfragmented packets from the random stream. *)

From stdpp Require Import base tactics list numbers option strings.
From Stdlib Require Import ZArith Lia.
From S2P Require Import Prelude Netip Netutil Checksum Events Packet Translator Xlate4.

Open Scope Z_scope.

(** The writes [sendICMPv6] makes to the buffer [b] of [n] bytes. *)
Definition icmp6_fill (n tc : Z) (src dst : list Z) (typ code word : Z) (payload : list Z)
    (b : list Z) : outcome (list Z) :=
  h ← sub b 0 ipv6HdrLen;
  h ← put32 h 0 (Z.lor (Z.shiftl 6 28) (Z.shiftl tc 20));
  h ← put16 h 4 (u16 (icmpHdrLen + len payload));
  h ← set_at h 6 protoICMPv6;
  h ← set_at h 7 64;
  s ← sub src 0 16; h ← copy_to h 8 24 s;
  d ← sub dst 0 16; h ← copy_to h 24 40 d;
  b ← put b 0 h;
  ic ← sub b ipv6HdrLen (ipv6HdrLen + icmpHdrLen);
  ic ← set_at ic 0 typ;
  ic ← set_at ic 1 code;
  ic ← set_at ic 2 0;
  ic ← set_at ic 3 0;
  ic ← put32 ic 4 word;
  b ← put b ipv6HdrLen ic;
  b ← copy_to b (ipv6HdrLen + icmpHdrLen) (len b) payload;
  rest ← from b ipv6HdrLen;
  s ← sub h 8 24; d ← sub h 24 40;
  ps ← pseudo6 s d (n - ipv6HdrLen) protoICMPv6;
  ic ← put16 ic 2 (checksum rest ps);
  put b ipv6HdrLen ic.

Definition ptrTable6to4 : list Z := [0; 1; -1; -1; 2; 2; 9; 8].

(** The switch on type and code of [xlate6to4ICMPError]. *)
Definition icmp_switch6 (mtu_cfg typ code word : Z) : (Z * Z * Z) + Reason :=
  if typ =? 1 then
    if bool_decide (code ∈ [0; 2; 3]) then inl (3, 1, 0)
    else if code =? 1 then inl (3, 10, 0)
    else if code =? 4 then inl (3, 3, 0)
    else inr ReasonUnknownUnreachableCode
  else if typ =? 2 then
    let mtu := word in
    if mtu <? 68 then inr ReasonNoMTUInPacketTooBig else
    let mtu := if mtu_cfg <? mtu then mtu_cfg else mtu in
    inl (3, 4, u32 (mtu - mtuAdj))
  else if typ =? 3 then inl (11, code, 0)
  else if typ =? 4 then
    if code =? 0 then
      let ptr := word in
      if 39 <? ptr then inr ReasonParamProblemInvalidPointer else
      let np := if 23 <? ptr then 16
                else if 7 <? ptr then 12
                else ptrTable6to4 !!! Z.to_nat ptr in
      if np <? 0 then inr ReasonParamProblemUntranslatable
      else inl (12, 0, u32 (Z.shiftl (u32 np) 24))
    else if code =? 1 then inl (3, 2, 0)
    else inr ReasonParamProblemInvalidCode
  else inr ReasonUnknownICMPType.

(** The RFC 4884 length of the embedded datagram, in 64-bit words. *)
Definition embedded6 (buf : list Z) (p : pkt) (typ : Z) : outcome (option slice) :=
  em ← subslice (p_data p) icmpHdrLen (s_len (p_data p));
  if (typ =? 1) || (typ =? 3) then
    word ← icmpWord (oview buf (p_icmp p));
    let emLen := Z.land (Z.shiftr word 21) 0x7f8 in
    if negb (emLen =? 0) then
      if s_len em <? emLen then Ok None
      else em ← subslice em 0 emLen; Ok (Some em)
    else Ok (Some em)
  else Ok (Some em).

Section xlate6.
Context {MS ES : Type} `{Mapper MS} `{Emitter ES}.
Context (rand32 : nat -> Z).
Local Abbreviation W := (world MS ES).

Definition sendICMPv6 (tc : Z) (src dst : list Z) (typ code word : Z) (payload : list Z)
    : M W unit :=
  let n := ipv6HdrLen + icmpHdrLen + len payload in
  emit n (fun b => lift (icmp6_fill n tc src dst typ code word payload b));; skip.

Definition sendICMPv6Error (t : Translator) (typ code word : Z) (orig : pkt) : M W unit :=
  buf ← gets w_buf;
  not_echo ← lift (if p_proto orig =? protoICMPv6
                   then ty ← at_ (oview buf (p_icmp orig)) 0; Ok (negb (ty =? 128))
                   else Ok false);
  if (not_echo : bool) then skip else
  let n := ipv6HdrLen + p_hdrLen orig + s_len (p_data orig) in
  let max := mtuMin - ipv6HdrLen - icmpHdrLen in
  let n := if max <? n then max else n in
  dst ← lift (sub (oview buf (p_ip orig)) 8 24);
  payload ← lift (sub (view buf (p_raw orig)) 0 n);
  sendICMPv6 0 (t_local6 t) dst typ code word payload.

Definition hostICMPv6 (p : pkt) : M W unit :=
  buf ← gets w_buf;
  ty ← lift (at_ (oview buf (p_icmp p)) 0);
  if ty =? 128 then
    event p KindSelf ReasonEchoRequest;;
    vtf ← lift (ip6VerTcFl (oview buf (p_ip p)));
    src ← lift (sub (oview buf (p_ip p)) 24 40);
    dst ← lift (sub (oview buf (p_ip p)) 8 24);
    code ← lift (at_ (oview buf (p_icmp p)) 1);
    word ← lift (icmpWord (oview buf (p_icmp p)));
    payload ← lift (from (view buf (p_data p)) icmpHdrLen);
    sendICMPv6 (u8 (Z.shiftr vtf 20)) src dst 129 code word payload
  else event p KindSelf ReasonSelfUnknownICMPType.

Definition header6to4 (buf : list Z) (p : pkt) (h : list Z) (payloadLen : Z) (src4 dst4 : list Z)
    : M W (list Z) :=
  let ip := oview buf (p_ip p) in
  h ← lift (set_at h 0 0x45);
  vtf ← lift (ip6VerTcFl ip);
  h ← lift (set_at h 1 (u8 (Z.shiftr vtf 20)));
  h ← lift (put16 h 2 (u16 (ipv4HdrLen + payloadLen)));
  h ← (match p_frag p with
       | Some f =>
           id ← lift (fragIdent (view buf f));
           h ← lift (put16 h 4 (u16 id));
           of_ ← lift (fragOffFlags (view buf f));
           let fo := Z.shiftr of_ 3 in
           let fo := if negb (Z.land of_ ip6FragMF =? 0) then Z.lor fo ip4FlagMF else fo in
           lift (put16 h 6 fo)
       | None =>
           if p_hdrLen p + payloadLen <=? mtuMin then
             id ← randomIdent rand32;
             h ← lift (put16 h 4 id);
             lift (put16 h 6 0)
           else
             h ← lift (put16 h 4 0);
             lift (put16 h 6 ip4FlagDF)
       end);
  hop ← lift (at_ ip 7);
  h ← lift (set_at h 8 hop);
  h ← lift (set_at h 9 (if p_proto p =? protoICMPv6 then protoICMP else p_proto p));
  h ← lift (set_at h 10 0);
  h ← lift (set_at h 11 0);
  h ← lift (copy_to h 12 16 src4);
  lift (copy_to h 16 20 dst4).

Definition payload6to4 (t : Translator) (p : pkt) (h : list Z) : M W Reason :=
  buf ← gets w_buf;
  let ip := oview buf (p_ip p) in
  let data := view buf (p_data p) in
  later ← lift (match p_frag p with
                | None => Ok false
                | Some f => of_ ← fragOffFlags (view buf f);
                            Ok (negb (Z.land of_ ip6FragMask =? 0))
                end);
  if (later : bool) then mret ReasonNone else
  if p_proto p =? protoICMPv6 then
    s ← lift (sub ip 8 24); d ← lift (sub ip 24 40);
    pl ← lift (ip6PayloadLen ip);
    ps ← lift (pseudo6 s d (pl - p_hdrLen p) protoICMPv6);
    old ← lift (u16_at (oview buf (p_icmp p)) 2);
    ty ← lift (at_ (oview buf (p_icmp p)) 0);
    delta ← (if ty =? 128
             then owrite (p_icmp p) 0 [8];; mret (Z.shiftl (128 - 8) 8)
             else owrite (p_icmp p) 0 [0];; mret (Z.shiftl (129 - 0) 8));
    owrite (p_icmp p) 2
      (be_bytes 2 (not16 (fold (u64 (u64 (not16 old + not16 (fold ps)) + not16 delta)))));;
    mret ReasonNone
  else
  let adjust_at (ckOff : Z) : M W Reason :=
    old ← lift (u16_at data ckOff);
    addrs6 ← lift (sub ip 8 40);
    addrs4 ← lift (sub h 12 20);
    let ck := adjust old (sum16 addrs6 0) (sum16 addrs4 0) in
    let ck := if (p_proto p =? protoUDP) && (ck =? 0) then 0xffff else ck in
    owrite (Some (p_data p)) ckOff (be_bytes 2 ck);;
    mret ReasonNone in
  if p_proto p =? protoUDP then
    if s_len (p_data p) <? 8 then mret ReasonUDPHeaderLength else
    ck0 ← lift (u16_at data 6);
    if ck0 =? 0 then
      match UDPChecksum (t_cfg t) with
      | UDPChecksumForward => mret ReasonNone
      | UDPChecksumCalc =>
          s ← lift (sub h 12 16); d ← lift (sub h 16 20);
          ps ← lift (pseudo4 s d (s_len (p_data p)) protoUDP);
          let ck := checksum data ps in
          let ck := if ck =? 0 then 0xffff else ck in
          owrite (Some (p_data p)) 6 (be_bytes 2 ck);;
          mret ReasonNone
      | UDPChecksumDrop => mret ReasonUDPZeroChecksum
      end
    else adjust_at 6
  else if p_proto p =? protoTCP then
    if s_len (p_data p) <? 20 then mret ReasonTCPHeaderLength else adjust_at 16
  else mret ReasonNone.

Definition xlate6to4Data (t : Translator) (p : pkt) : M W unit :=
  buf ← gets w_buf;
  let ip := oview buf (p_ip p) in
  dst ← lift (sub ip 24 40);
  dst4 ← map6to4 dst false;
  match dst4 with
  | inr ErrReject =>
      event p KindReject ReasonDestinationUnmappable;; sendICMPv6Error t 1 0 0 p
  | inr ErrDrop => event p KindDrop ReasonDestinationUnmappable
  | inl dst4 =>
  src ← lift (sub ip 8 24);
  src4 ← map6to4 src true;
  match src4 with
  | inr ErrReject =>
      event p KindReject ReasonSourceUnmappable;; sendICMPv6Error t 1 5 0 p
  | inr ErrDrop => event p KindDrop ReasonSourceUnmappable
  | inl src4 =>
  let total := ipv6HdrLen + p_hdrLen p + s_len (p_data p) in
  if MTU (t_cfg t) <? total then
    event p KindICMP ReasonPacketTooBig;;
    sendICMPv6Error t 2 0 (u32 (MTU (t_cfg t))) p
  else
  h ← header6to4 buf p (replicate 20 0) (s_len (p_data p)) src4 dst4;
  h ← lift (decr h 8);
  r ← payload6to4 t p h;
  if bool_decide (r <> ReasonNone) then event p KindDrop r else
  h ← lift (put16 h 10 (checksum h 0));
  buf ← gets w_buf;
  ok ← emit (ipv4HdrLen + s_len (p_data p)) (fun b => lift (
         b ← copy_to b 0 (len b) h;
         copy_to b ipv4HdrLen (len b) (view buf (p_data p))));
  if (ok : bool) then translated 6 total else skip
  end end.

(** The writes [xlate6to4ICMPError] makes to its output buffer of [n] bytes. *)
Definition icmp_err4_fill (buf : list Z) (p : pkt) (n : Z) (src4 dst4 : list Z)
    (otype ocode oword : Z) (inner emdata b : list Z) : M W (list Z) :=
  h ← lift (sub b 0 ipv4HdrLen);
  h ← header6to4 buf p h (n - ipv4HdrLen) src4 dst4;
  lift (
    h ← decr h 8;
    h ← put16 h 10 (checksum h 0);
    b ← put b 0 h;
    ic ← sub b ipv4HdrLen (ipv4HdrLen + icmpHdrLen);
    ic ← set_at ic 0 otype; ic ← set_at ic 1 ocode; ic ← set_at ic 2 0; ic ← set_at ic 3 0;
    ic ← put32 ic 4 oword;
    b ← put b ipv4HdrLen ic;
    b ← copy_to b (ipv4HdrLen + icmpHdrLen) (len b) inner;
    b ← copy_to b (ipv4HdrLen + icmpHdrLen + ipv4HdrLen) (len b) emdata;
    rest ← from b ipv4HdrLen;
    ic ← put16 ic 2 (checksum rest 0);
    put b ipv4HdrLen ic).

Definition xlate6to4ICMPError (t : Translator) (p : pkt) : M W unit :=
  buf ← gets w_buf;
  let ip := oview buf (p_ip p) in
  let icmp := oview buf (p_icmp p) in
  typ ← lift (at_ icmp 0);
  code ← lift (at_ icmp 1);
  em ← lift (embedded6 buf p typ);
  match em with
  | None => event p KindDrop ReasonEmbeddedTooShort
  | Some em =>
  '(em, r, _, _) ← lift (parseIPv6 buf (new_pkt em));
  if bool_decide (r <> ReasonNone) then event p KindDrop ReasonEmbeddedParseFailed else
  not_echo ← lift (if p_proto em =? protoICMPv6
                   then ty ← at_ (oview buf (p_icmp em)) 0; Ok (negb (ty =? 128))
                   else Ok false);
  if (not_echo : bool) then event p KindDrop ReasonICMPErrorOfICMPError else
  let max := icmp4MaxLen - 2 * ipv4HdrLen - icmpHdrLen in
  emdata ← lift (if max <? s_len (p_data em) then subslice (p_data em) 0 max else Ok (p_data em));
  let em := set_data em emdata in
  word ← lift (icmpWord icmp);
  match icmp_switch6 (MTU (t_cfg t)) typ code word with
  | inr reason => event p KindDrop reason
  | inl (otype, ocode, oword) =>
  let emip := oview buf (p_ip em) in
  a ← lift (sub emip 8 24);
  emSrc ← map6to4 a false;
  a ← lift (sub emip 24 40);
  emDst ← map6to4 a false;
  match emSrc, emDst with
  | inl emSrc, inl emDst =>
  empl ← lift (ip6PayloadLen emip);
  inner ← header6to4 buf em (replicate 20 0) (empl - p_hdrLen em) emSrc emDst;
  r ← payload6to4 t em inner;
  if bool_decide (r <> ReasonNone) then event p KindDrop ReasonEmbeddedUntranslatable else
  inner ← lift (put16 inner 10 (checksum inner 0));
  a ← lift (sub ip 8 24);
  src4 ← map6to4 a false;
  src4 ← (match src4 with
          | inl a => mret a
          | inr _ => event p KindICMP ReasonSynthesisedSource;; mret (t_local4 t)
          end);
  a ← lift (sub ip 24 40);
  dst4 ← map6to4 a false;
  match dst4 with
  | inr _ => event p KindDrop ReasonDestinationUnmappable
  | inl dst4 =>
  let n := ipv4HdrLen + icmpHdrLen + ipv4HdrLen + s_len (p_data em) in
  buf ← gets w_buf;
  ok ← emit n (fun b => icmp_err4_fill buf p n src4 dst4 otype ocode oword inner
                          (view buf (p_data em)) b);
  if (ok : bool) then translated 6 (ipv6HdrLen + p_hdrLen p + s_len (p_data p)) else skip
  end
  | _, _ => event p KindDrop ReasonEmbeddedUnmappable
  end end end.

Definition handleIPv6 (t : Translator) (raw : slice) : M W unit :=
  buf ← gets w_buf;
  '(p, r, segPtr, silent) ← lift (parseIPv6 buf (new_pkt raw));
  if bool_decide (r <> ReasonNone) then
    if (silent : bool) then skip
    else if bool_decide (r = ReasonRoutingHeaderSegmentsLeft) then
      event p KindReject r;; sendICMPv6Error t 4 0 (u32 segPtr) p
    else event p KindDrop r
  else
  let ip := oview buf (p_ip p) in
  hop ← lift (at_ ip 7);
  pl ← lift (ip6PayloadLen ip);
  if (hop =? 0) || negb (p_hdrLen p + s_len (p_data p) =? pl)
  then event p KindDrop ReasonIPHeaderInvalid else
  bad ← lift (if bool_decide (p_icmp p <> None) then
                s ← sub ip 8 24; d ← sub ip 24 40;
                ps ← pseudo6 s d (s_len (p_data p)) protoICMPv6;
                Ok (negb (verify (view buf (p_data p)) ps))
              else Ok false);
  if (bad : bool) then event p KindDrop ReasonICMPChecksumInvalid else
  dst ← lift (sub ip 24 40);
  if bool_decide (dst = t_local6 t) then
    if p_proto p =? protoICMPv6 then hostICMPv6 p
    else event p KindReject ReasonSelfUnknownProto;; sendICMPv6Error t 4 1 6 p
  else
  if hop =? 1 then
    event p KindICMP ReasonTimeExceeded;; sendICMPv6Error t 3 0 0 p
  else
  data ← lift (if negb (p_proto p =? protoICMPv6) then Ok true
               else ty ← at_ (oview buf (p_icmp p)) 0; Ok ((ty =? 128) || (ty =? 129)));
  if (data : bool) then xlate6to4Data t p else xlate6to4ICMPError t p.

(** ** [Translate] ([translator.go]): the packet occupies the whole buffer *)

Definition Translate (t : Translator) : M W unit :=
  pkt ← gets w_buf;
  if len pkt =? 0 then skip else
  b0 ← lift (at_ pkt 0);
  if Z.shiftr b0 4 =? 4 then handleIPv4 t (Slc 0 (len pkt))
  else if Z.shiftr b0 4 =? 6 then handleIPv6 t (Slc 0 (len pkt))
  else modify (add_obs (OEvent (mkEvent KindDrop ReasonUnknownIPVersion 0 0 (len pkt)
                                  AddrZero AddrZero))).
End xlate6.
