(* ===== verification/Fills.v ===== *)
(** * The bytes the output functions write

    Every function that fills an output buffer byte by byte produces exactly a
    layout of [Layout], for any previous contents of the buffer. *)

From stdpp Require Import base tactics list numbers option strings.
From Stdlib Require Import ZArith Lia.
From S2P Require Import Prelude Netip Netutil Checksum Events Packet Layout Translator TranslatorFacts Xlate4 Xlate6.

Open Scope Z_scope.

Ltac unfold_consts :=
  unfold put16, put32, ipv4HdrLen, ipv6HdrLen, icmpHdrLen, fragHdrLen, protoICMP, protoICMPv6,
    protoFrag in *.

(** Explode the head of a buffer of known minimal length. *)
Ltac head_of b n H :=
  let b1 := fresh "b" in let b2 := fresh "rest" in let Hb := fresh "Hb" in
  destruct (split_at b n) as (b1 & b2 & -> & Hb); [unfold len in *; lia|];
  rewrite len_app in H; rewrite (len_of _ _ Hb) in H; fold_consts_in H; explode Hb; cbn [app].

Lemma icmp4_fill_ok n tos src dst typ code word payload b :
  len b = n -> n = 28 + len payload -> length src = 4%nat -> length dst = 4%nat ->
  icmp4_fill n tos src dst typ code word payload b =
  Ok (ip4_header_ck tos (u16 n) 0 0 64 1 src dst ++ icmp_msg_ck typ code word 0 payload).
Proof.
  intros Hb Hn Hs Hd. pose proof (len_nonneg payload).
  head_of b 28%nat Hb. explode Hs. explode Hd.
  apply owp_is.
  unfold icmp4_fill. unfold_consts. unfold be_bytes. cbn [app].
  change (20 + 8) with 28.
  do 24 fstep. rewrite take_ge by slia. rewrite drop_ge by slia. rewrite app_nil_r. do 3 fstep.
  reflexivity.
Qed.

Lemma icmp6_fill_ok n tc src dst typ code word payload ps b :
  len b = n -> n = 48 + len payload -> length src = 16%nat -> length dst = 16%nat ->
  pseudo6 src dst (8 + len payload) 58 = Ok ps ->
  icmp6_fill n tc src dst typ code word payload b =
  Ok (ip6_header tc (u16 (8 + len payload)) 58 64 src dst ++ icmp_msg_ck typ code word ps payload).
Proof.
  intros Hb Hn Hs Hd Hps. pose proof (len_nonneg payload).
  replace (8 + len payload) with (n - 40) in Hps by lia.
  head_of b 48%nat Hb. explode Hs. explode Hd. apply owp_is.
  unfold icmp6_fill. unfold_consts. unfold be_bytes. cbn [app]. change (40 + 8) with 48.
  do 18 fstep. rewrite take_ge by slia. rewrite drop_ge by slia. rewrite app_nil_r. do 3 fstep.
  rewrite Hps. do 3 fstep. reflexivity.
Qed.

(** [header4to6] reads the type of service and the TTL of [p]'s header. *)
Lemma header4to6_ok buf p h pl src6 dst6 :
  length h = 40%nat -> 20 <= len (oview buf (p_ip p)) -> length src6 = 16%nat -> length dst6 = 16%nat ->
  header4to6 buf p h pl src6 dst6 =
  Ok (ip6_header (oview buf (p_ip p) !!! 1%nat) (u16 pl)
        (if p_proto p =? protoICMP then protoICMPv6 else p_proto p)
        (oview buf (p_ip p) !!! 8%nat) src6 dst6).
Proof.
  intros Hh Hip Hs Hd. explode Hh. explode Hs. explode Hd. apply owp_is.
  unfold header4to6. unfold_consts. unfold be_bytes. cbn [app].
  set (ip := oview buf (p_ip p)) in *. clearbody ip.
  do 7 fstep. fstep. reflexivity.
Qed.

Lemma decr_ip6_header tc pl nh hop src dst :
  decr (ip6_header tc pl nh hop src dst) 7 = Ok (ip6_header tc pl nh (u8 (hop - 1)) src dst).
Proof.
  apply owp_is. unfold decr, ip6_header, be_bytes. cbn [app]. do 2 fstep. reflexivity.
Qed.

Lemma decr_ip4_header tos total id fo ttl proto ck src dst :
  decr (ip4_header tos total id fo ttl proto ck src dst) 8 =
  Ok (ip4_header tos total id fo (u8 (ttl - 1)) proto ck src dst).
Proof.
  apply owp_is. unfold decr, ip4_header, be_bytes. cbn [app]. do 2 fstep. reflexivity.
Qed.

(** [copy(b[i:], src)] with room for all of [src]. *)
Lemma copy_at pre mid post i src :
  len pre = i -> length src = length mid ->
  copy_to (pre ++ mid ++ post) i (len (pre ++ mid ++ post)) src = Ok (pre ++ src ++ post).
Proof.
  intros <- Hm. apply owp_is. pose proof (len_nonneg pre). apply owp_copy_to.
  - unfold len. rewrite !length_app. lia.
  - lia.
  - rewrite take_ge by (unfold len; rewrite !length_app; lia). unfold len. rewrite Nat2Z.id.
    by rewrite splice_app.
Qed.

(** Two or three consecutive copies that fill a buffer. *)
Lemma fill_two b h d i :
  len h = i -> len b = i + len d ->
  (b ← copy_to b 0 (len b) h; copy_to b i (len b) d) = Ok (h ++ d).
Proof.
  intros Hh Hb. destruct (split_at b (length h)) as (b1 & b2 & -> & H1); [unfold len in *; lia|].
  rewrite len_app in Hb. pose proof (copy_at [] b1 b2 0 h) as E. cbn [app] in E.
  rewrite E by done. cbn [mbind outcome_bind].
  pose proof (copy_at h b2 [] i d) as E2. rewrite !app_nil_r in E2. apply E2; [done|].
  unfold len in *. lia.
Qed.

Lemma frag_fill_ok h fh d b :
  length h = 40%nat -> length fh = 8%nat -> len b = 48 + len d ->
  frag_fill h fh d b = Ok (h ++ fh ++ d).
Proof.
  intros Hh Hf Hb. destruct (split_range b 40 8) as (b1 & b2 & b3 & -> & H1 & H2); [unfold len in *; lia|].
  rewrite !len_app in Hb. unfold frag_fill. unfold_consts.
  pose proof (copy_at [] b1 (b2 ++ b3) 0 h) as E. cbn [app] in E. rewrite E by (done || lia).
  cbn [mbind outcome_bind]. rewrite copy_at by (unfold len; lia). cbn [mbind outcome_bind].
  pose proof (copy_at (h ++ fh) b3 [] 48 d) as E3. rewrite !app_nil_r, <- !app_assoc in E3.
  apply E3; [|unfold len in *; lia]. unfold len. rewrite length_app. lia.
Qed.

Lemma icmp_err6_fill_ok buf p n src6 dst6 otype ocode oword inner emdata ps b :
  len b = n -> n = 88 + len emdata -> length inner = 40%nat ->
  20 <= len (oview buf (p_ip p)) -> length src6 = 16%nat -> length dst6 = 16%nat ->
  pseudo6 src6 dst6 (48 + len emdata) 58 = Ok ps ->
  icmp_err6_fill buf p n src6 dst6 otype ocode oword inner emdata b =
  Ok (ip6_header (oview buf (p_ip p) !!! 1%nat) (u16 (48 + len emdata))
        (if p_proto p =? protoICMP then protoICMPv6 else p_proto p)
        (u8 (oview buf (p_ip p) !!! 8%nat - 1)) src6 dst6 ++
      icmp_msg_ck otype ocode oword ps (inner ++ emdata)).
Proof.
  intros Hb Hn Hi Hip Hs Hd Hps. pose proof (len_nonneg emdata).
  replace (48 + len emdata) with (n - 40) in Hps |- * by lia.
  head_of b 48%nat Hb.
  destruct (split_at rest 40) as (r1 & r2 & -> & Hr1); [unfold len in *; lia|].
  rewrite len_app in Hb.
  apply owp_is. unfold icmp_err6_fill. unfold_consts. change (40 + 8) with 48. change (48 + 40) with 88.
  fstep. rewrite header4to6_ok by (done || lia). fstep. rewrite decr_ip6_header. fstep.
  set (tos := oview buf (p_ip p) !!! 1%nat). set (ttl := oview buf (p_ip p) !!! 8%nat).
  explode Hs. explode Hd. unfold ip6_header, be_bytes. cbn [app].
  do 9 fstep. rewrite take_ge by slia. rewrite drop_app_length' by (unfold len in *; lia).
  fstep. rewrite take_app_length' by done. rewrite take_ge by slia. rewrite drop_ge by slia.
  rewrite app_nil_r. do 3 fstep. rewrite Hps. do 3 fstep. reflexivity.
Qed.

(** ** IPv6 to IPv4 *)

(** The fragmentation fields [header6to4] chooses: those of the fragment header,
    a random identification below the IPv6 minimum MTU, else don't fragment. *)
Definition v4_id (rand32 : nat -> Z) (k : nat) (buf : list Z) (p : pkt) (pl : Z) : Z :=
  match p_frag p with
  | Some f => u16 (w32 (view buf f) 4)
  | None => if p_hdrLen p + pl <=? mtuMin then u16 (rand32 k) else 0
  end.

Definition v4_fo (buf : list Z) (p : pkt) (pl : Z) : Z :=
  match p_frag p with
  | Some f =>
      let of_ := w16 (view buf f) 2 in
      let fo := Z.shiftr of_ 3 in
      if negb (Z.land of_ ip6FragMF =? 0) then Z.lor fo ip4FlagMF else fo
  | None => if p_hdrLen p + pl <=? mtuMin then 0 else ip4FlagDF
  end.

(** The random numbers used so far. *)
Definition v4_rand (k : nat) (p : pkt) (pl : Z) : nat :=
  match p_frag p with
  | Some _ => k
  | None => if p_hdrLen p + pl <=? mtuMin then S k else k
  end.

Definition v4_header (rand32 : nat -> Z) (k : nat) (buf : list Z) (p : pkt) (pl ttl ck : Z)
    (src dst : list Z) : list Z :=
  ip4_header (u8 (Z.shiftr (w32 (oview buf (p_ip p)) 0) 20)) (u16 (20 + pl))
    (v4_id rand32 k buf p pl) (v4_fo buf p pl) ttl
    (if p_proto p =? protoICMPv6 then protoICMP else p_proto p) ck src dst.

Definition v4_header_ck (rand32 : nat -> Z) (k : nat) (buf : list Z) (p : pkt) (pl ttl : Z)
    (src dst : list Z) : list Z :=
  ip4_header_ck (u8 (Z.shiftr (w32 (oview buf (p_ip p)) 0) 20)) (u16 (20 + pl))
    (v4_id rand32 k buf p pl) (v4_fo buf p pl) ttl
    (if p_proto p =? protoICMPv6 then protoICMP else p_proto p) src dst.

Lemma put_header_checksum tos total id fo ttl proto src dst ck :
  put16 (ip4_header tos total id fo ttl proto 0 src dst) 10 ck =
  Ok (ip4_header tos total id fo ttl proto ck src dst).
Proof.
  apply owp_is. unfold ip4_header, put16, be_bytes. cbn [app]. fstep. reflexivity.
Qed.

(** [fstep] for computations with state. *)
Ltac wstep :=
  cbv beta zeta;
  lazymatch goal with
  | |- wp (_ ≫= _) _ _ => apply wp_bind; wstep
  | |- wp (lift _) _ _ => apply wp_lift; wstep
  | |- wp (mret _) _ _ => apply wp_ret
  | |- owp (u16_at _ _) _ => apply owp_u16_at; [lia|slia|]
  | |- owp (u32_at _ _) _ => apply owp_u32_at; [lia|slia|]
  | |- owp _ _ => fstep
  | |- _ => idtac
  end.

Lemma wp_is {S A} (m : M S A) a (s s' : S) : wp m (fun a' s1 => (a', s1) = (a, s')) s -> m s = Ok (a, s').
Proof. intros (? & ? & -> & [= -> ->])%wp_run. done. Qed.

Section fill6.
Context {MS ES : Type} {HM : Mapper MS} {HE : Emitter ES}.
Context (rand32 : nat -> Z).
Local Abbreviation W := (world MS ES).
Implicit Types w : W.

Lemma set_rand_same w : set_rand (w_rand w) w = w.
Proof. by destruct w. Qed.

Lemma header6to4_ok buf p h pl src4 dst4 w :
  length h = 20%nat -> 40 <= len (oview buf (p_ip p)) -> length src4 = 4%nat -> length dst4 = 4%nat ->
  match p_frag p with Some f => len (view buf f) = 8 | None => True end ->
  header6to4 rand32 buf p h pl src4 dst4 w =
  Ok (v4_header rand32 (w_rand w) buf p pl (oview buf (p_ip p) !!! 7%nat) 0 src4 dst4,
      set_rand (v4_rand (w_rand w) p pl) w).
Proof.
  intros Hh Hip Hs Hd Hf. explode Hh. explode Hs. explode Hd.
  apply wp_is.
  unfold header6to4, v4_header, v4_id, v4_fo, v4_rand, ip6VerTcFl, fragIdent, fragOffFlags, randomIdent.
  unfold_consts. set (ip := oview buf (p_ip p)) in *. clearbody ip. unfold be_bytes. cbn [app].
  do 4 wstep. apply wp_bind.
  destruct (p_frag p) as [f|]; [|case_if].
  - do 4 wstep. do 6 wstep. cbv zeta. rewrite set_rand_same. reflexivity.
  - wstep. unfold wp at 1. do 2 wstep. do 6 wstep. reflexivity.
  - do 2 wstep. do 6 wstep. rewrite set_rand_same. reflexivity.
Qed.

Lemma icmp_err4_fill_ok buf p n src4 dst4 otype ocode oword inner emdata b w :
  len b = n -> n = 48 + len emdata -> length inner = 20%nat ->
  40 <= len (oview buf (p_ip p)) -> length src4 = 4%nat -> length dst4 = 4%nat ->
  match p_frag p with Some f => len (view buf f) = 8 | None => True end ->
  icmp_err4_fill rand32 buf p n src4 dst4 otype ocode oword inner emdata b w =
  Ok (v4_header_ck rand32 (w_rand w) buf p (n - 20) (u8 (oview buf (p_ip p) !!! 7%nat - 1)) src4 dst4 ++
      icmp_msg_ck otype ocode oword 0 (inner ++ emdata),
      set_rand (v4_rand (w_rand w) p (n - 20)) w).
Proof.
  intros Hb Hn Hi Hip Hs Hd Hf. pose proof (len_nonneg emdata).
  head_of b 28%nat Hb.
  destruct (split_at rest 20) as (r1 & r2 & -> & Hr1); [unfold len in *; lia|].
  rewrite len_app in Hb. apply wp_is. unfold icmp_err4_fill. unfold_consts.
  change (20 + 8) with 28. change (28 + 20) with 48.
  wstep. apply wp_bind. unfold wp at 1. rewrite header6to4_ok by done.
  apply wp_lift. unfold v4_header, v4_header_ck, ip4_header_ck.
  set (tos := u8 _). set (id := v4_id _ _ _ _ _). set (fo := v4_fo _ _ _).
  set (pr := if _ =? _ then _ else _). clearbody tos id fo pr.
  rewrite decr_ip4_header. fstep. change (put ?h 10 (be_bytes 2 ?c)) with (put16 h 10 c). rewrite put_header_checksum. fstep.
  set (ck := checksum _ _). clearbody ck.
  explode Hs. explode Hd. unfold ip4_header, be_bytes. cbn [app].
  do 9 fstep. rewrite take_ge by slia. rewrite drop_app_length' by (unfold len in *; lia).
  fstep. rewrite take_app_length' by done. rewrite take_ge by slia. rewrite drop_ge by slia.
  rewrite app_nil_r. do 3 fstep. reflexivity.
Qed.
End fill6.

(** Emitting a header of [hl] bytes and the data of a slice as one packet. *)
Section emit_packet.
Context {MS ES : Type} {HM : Mapper MS} {HML : MapperLaws MS} {HE : Emitter ES} {HEL : EmitterLaws ES}.
Implicit Types w : world MS ES.

Lemma emit_whole fam total hl h data w :
  winv w -> slice_ok (w_buf w) data -> len h = hl ->
  wp (ok ← emit (hl + s_len data) (fun b => lift (
             b ← copy_to b 0 (len b) h; copy_to b hl (len b) (view (w_buf w) data)));
      if (ok : bool) then translated fam total else skip)
    (fun _ w' => exists o s, evolves 0 o s w w' /\ o = accepted [h ++ view (w_buf w) data] (w_em w) /\
       s = if bool_decide (o = [h ++ view (w_buf w) data]) then [OTranslated fam total] else []) w.
Proof.
  intros Hw Hs Hh. pose proof (len_view _ _ Hs) as Hl. pose proof (len_nonneg h).
  destruct Hs as (S1 & S2 & S3).
  apply wp_bind. eapply (wp_emit_pure _ _ (h ++ view (w_buf w) data)); [lia|done|rewrite len_app; lia|..].
  - intros b Hb. apply fill_two; [done|lia].
  - intros w' E _ Ho. pose proof (evolves_zero _ _ _ _ _ (len_nonneg _) E) as E'.
    apply wp_modify. eexists _, _.
    split; [exact (evolves_trans 0 _ _ _ _ _ _ _ E' (evolves_translated 0 fam total w' (evo_inv _ _ _ _ _ E)))|].
    unfold accepted. rewrite Ho. split; [done|]. by rewrite bool_decide_eq_true_2 by done.
  - intros w' E _ Ho. apply wp_skip. exists [], [].
    split; [exact (evolves_zero _ _ _ _ _ (len_nonneg _) E)|]. unfold accepted. rewrite Ho. done.
Qed.
End emit_packet.
