(* ===== verification/Transport.v ===== *)
(** * Incremental checksum updates and in-place writes

    What the checksum arithmetic of [payload4to6] and [payload6to4] amounts to,
    in one's complement sums, and the rule for writing to a slice of the packet
    buffer, in terms of what the slice shows before and after. *)

From stdpp Require Import base tactics list numbers option strings.
From Stdlib Require Import ZArith Lia.
From S2P Require Import Prelude Netip Netutil Checksum Events Packet Layout Translator TranslatorFacts.

Open Scope Z_scope.
Local Open Scope clatto_scope.

Lemma len_be_bytes n v : len (be_bytes n v) = Z.of_nat n.
Proof. unfold len. by rewrite length_be_bytes. Qed.

(** ** Sums *)

Lemma wsum_pair a b : wsum [a; b] = be [a; b].
Proof. unfold be. simpl. lia. Qed.

Lemma wsum_field d i :
  (i + 2 <= length d)%nat -> wsum (take 2 (drop i d)) = w16 d (Z.of_nat i).
Proof.
  intros Hi. unfold w16. rewrite Nat2Z.id.
  assert (length (take 2 (drop i d)) = 2%nat) as Hl by (rewrite length_take, length_drop; lia).
  destruct (take 2 (drop i d)) as [|a [|b [|]]]; try done. apply wsum_pair.
Qed.

(** Replacing a 16-bit field replaces its value in the sum. *)
Lemma wsum_set16 d i ck :
  Nat.Even i -> (i + 2 <= length d)%nat -> 0 <= ck < 65536 ->
  wsum (splice d i (be_bytes 2 ck)) + w16 d (Z.of_nat i) = wsum d + ck.
Proof.
  intros He Hi Hc. pose proof (wsum_splice d i (be_bytes 2 ck) He) as E.
  rewrite length_be_bytes, wsum_field, wsum_be2 in E by done.
  apply E; [by exists 1%nat|done].
Qed.

(** Replacing the first byte. *)
Lemma wsum_set8 d x :
  (1 <= length d)%nat -> wsum (splice d 0 [x]) = wsum d + (x - d !!! 0%nat) * 256.
Proof.
  intros Hd. destruct d as [|y d]; [simpl in Hd; lia|].
  pose proof (wsum_head y x d). unfold splice. cbn [take app drop length Nat.add].
  rewrite drop_0. change ((y :: d) !!! 0%nat) with y. lia.
Qed.

(** Six and forty bytes of addresses. *)
Lemma sum16_short b :
  bytes_ok b -> len b <= 64 -> sum16 b 0 ≡₁ wsum b /\ 0 <= sum16 b 0 < 2 ^ 52.
Proof.
  intros Hb Hl. destruct (sum16_spec b 0 Hb) as [(E & _ & _) R]; [unfold small_len; lia|by split|].
  split; [by rewrite E|done].
Qed.

(** The incremental update of a TCP or UDP checksum ([force] says UDP, where zero
    means no checksum and is sent as 0xffff). *)
Lemma adjust_update (force : bool) old a b :
  0 <= old < 65536 -> bytes_ok a -> bytes_ok b -> len a <= 64 -> len b <= 64 ->
  let c := adjust old (sum16 a 0) (sum16 b 0) in
  let ck := if force && (c =? 0) then 0xffff else c in
  0 <= ck < 65536 /\ ck + wsum b ≡₁ old + wsum a /\ (force = true -> ck <> 0).
Proof.
  intros Ho Ha Hb La Lb c ck.
  destruct (sum16_short a Ha La) as [Ea Ra], (sum16_short b Hb Lb) as [Eb Rb].
  destruct (adjust_spec old (sum16 a 0) (sum16 b 0)) as [Rc Ec]; [lia..|]. fold c in Rc, Ec.
  clearbody c. subst ck. destruct force; cbn [andb]; [case_if; bool_prop|].
  - subst c. split; [lia|]. split; [eqm_lia|lia].
  - split; [lia|]. split; [eqm_lia|lia].
  - split; [lia|]. split; [eqm_lia|done].
Qed.

(** ICMP to ICMPv6: the pseudo-header and the change of type are added. *)
Lemma icmp_update_add old ps delta :
  0 <= old < 65536 -> small_acc ps -> 0 <= delta < 65536 ->
  let ck := not16 (fold (u64 (u64 (not16 old + ps) + delta))) in
  0 <= ck < 65536 /\ ck + ps + delta ≡₁ old.
Proof.
  intros Ho Hp Hd ck. subst ck. unfold small_acc in Hp. rewrite (not16_eq old) by lia.
  rewrite (u64_small (_ + ps)), u64_small by lia.
  destruct (fold_spec (65535 - old + ps + delta)) as (R & E & _); [lia|].
  rewrite not16_eq by lia. split; [lia|eqm_lia].
Qed.

(** ICMPv6 to ICMP: they are removed. *)
Lemma icmp_update_sub old ps delta :
  0 <= old < 65536 -> small_acc ps -> 0 <= delta < 65536 ->
  let ck := not16 (fold (u64 (u64 (not16 old + not16 (fold ps)) + not16 delta))) in
  0 <= ck < 65536 /\ ck ≡₁ old + ps + delta.
Proof.
  intros Ho Hp Hd ck. subst ck. unfold small_acc in Hp.
  destruct (fold_spec ps) as (R1 & E1 & _); [lia|].
  rewrite (not16_eq old), (not16_eq (fold ps)), (not16_eq delta) by lia.
  rewrite (u64_small (65535 - old + _)), u64_small by lia.
  destruct (fold_spec (65535 - old + (65535 - fold ps) + (65535 - delta))) as (R & E & _); [lia|].
  rewrite not16_eq by lia. split; [lia|eqm_lia].
Qed.

(** A computed UDP checksum, never zero. *)
Lemma calc_update d ps i :
  bytes_ok d -> small_len d -> small_acc ps -> Nat.Even i -> (i + 2 <= length d)%nat ->
  w16 d (Z.of_nat i) = 0 ->
  let c := checksum d ps in
  let ck := if c =? 0 then 0xffff else c in
  0 < ck < 65536 /\ ps + wsum (splice d i (be_bytes 2 ck)) ≡₁ 0.
Proof.
  intros Hd Hl Hp He Hi Hz c ck. destruct (checksum_spec d ps Hd Hl Hp) as (R & E & _).
  fold c in R, E. clearbody c.
  assert (0 < ck < 65536 /\ ck ≡₁ c) as [R' E'].
  { subst ck. case_if; bool_prop; [subst c|]; (split; [lia|]); eqm_lia. }
  pose proof (wsum_set16 d i ck He Hi ltac:(lia)) as Hs. split; [done|]. eqm_lia.
Qed.

(** ** Writing to a slice *)

Section slices.
Context {MS ES : Type} {HM : Mapper MS} {HML : MapperLaws MS} {HE : Emitter ES} {HEL : EmitterLaws ES}.
Local Abbreviation W := (world MS ES).
Implicit Types w : W.

(** From [w] to [w'] only the bytes of [s] changed, and they are now [d]. *)
Record wrote (s : slice) (d : list Z) w w' : Prop := {
  wr_evo : evolves (s_off s) [] [] w w';
  wr_same : w' = set_buf (w_buf w') w;
  wr_view : view (w_buf w') s = d;
}.

Lemma wrote_refl s w : winv w -> wrote s (view (w_buf w) s) w w.
Proof. intros. split; [by apply evolves_refl|by destruct w|done]. Qed.

Lemma wrote_trans s d1 d2 w1 w2 w3 : wrote s d1 w1 w2 -> wrote s d2 w2 w3 -> wrote s d2 w1 w3.
Proof.
  intros [A1 A2 A3] [B1 B2 B3]. split; [|by rewrite B2, A2|done].
  apply (evolves_trans _ [] [] [] [] _ _ _ A1 B1).
Qed.

(** A write through a slice that starts where [s] does. *)
Lemma wp_write s s0 i src (Q : unit -> W -> Prop) w :
  winv w -> slice_ok (w_buf w) s -> s_off s0 = s_off s -> s_len s0 <= s_len s ->
  0 <= i -> i + len src <= s_len s0 -> bytes_ok src ->
  (forall w', wrote s (splice (view (w_buf w) s) (Z.to_nat i) src) w w' -> Q tt w') ->
  wp (owrite (Some s0) i src) Q w.
Proof.
  intros Hw Hs Ho Hl Hi Hn Hb HQ. pose proof (len_nonneg src). destruct Hs as (S1 & S2 & S3).
  apply (wp_owrite (s_off s)); try done; try lia.
  { unfold slice_ok. lia. }
  intros w' E ->. apply HQ. split; [done|by destruct w|]. cbn. rewrite Ho. apply write_view; [|lia].
  unfold slice_ok. lia.
Qed.
End slices.

(** ** What rewriting a transport header does

    [d] and [d'] are the transport data before and after; [old] and [new] are the
    one's complement sums of the addresses in the pseudo-headers. *)
Definition refit (d d' : list Z) (i : nat) (old new : Z) : Prop :=
  exists ck, 0 <= ck < 65536 /\ d' = splice d i (be_bytes 2 ck) /\ wsum d' + new ≡₁ wsum d + old.

Lemma refit_adjust (force : bool) d i a b :
  bytes_ok d -> Nat.Even i -> (i + 2 <= length d)%nat ->
  bytes_ok a -> bytes_ok b -> len a <= 64 -> len b <= 64 ->
  let c := adjust (w16 d (Z.of_nat i)) (sum16 a 0) (sum16 b 0) in
  let ck := if force && (c =? 0) then 0xffff else c in
  refit d (splice d i (be_bytes 2 ck)) i (wsum a) (wsum b) /\ (force = true -> ck <> 0).
Proof.
  intros Hd He Hi Ha Hb La Lb c ck.
  destruct (adjust_update force (w16 d (Z.of_nat i)) a b) as (R & E & N); try done.
  { by apply w16_range. }
  fold c ck in R, E, N. clearbody ck. clear c.
  pose proof (wsum_set16 d i ck He Hi R) as Hs. split; [|done]. exists ck. split; [done|]. split; [done|].
  eqm_lia.
Qed.

(** The same for an ICMP message, whose type becomes [ty]. *)
Definition retype (d d' : list Z) (ty : Z) (old new : Z) : Prop :=
  exists ck, 0 <= ck < 65536 /\ d' = splice (splice d 0 [ty]) 2 (be_bytes 2 ck) /\
    wsum d' + new ≡₁ wsum d + old.

Lemma retype_sum d ty ck :
  (4 <= length d)%nat -> 0 <= ck < 65536 ->
  wsum (splice (splice d 0 [ty]) 2 (be_bytes 2 ck)) + w16 d 2 = wsum d + (ty - d !!! 0%nat) * 256 + ck.
Proof.
  intros Hd Hc. rewrite <- wsum_set8 by lia.
  assert (length (splice d 0 [ty]) = length d) as Hl by (apply length_splice; simpl; lia).
  replace (w16 d 2) with (w16 (splice d 0 [ty]) (Z.of_nat 2)).
  - apply wsum_set16; [by exists 1%nat|lia|done].
  - destruct d as [|x [|y d]]; [simpl in Hd; lia..|]. done.
Qed.

Section slice_updates.
Context {MS ES : Type} {HM : Mapper MS} {HML : MapperLaws MS} {HE : Emitter ES} {HEL : EmitterLaws ES}.
Local Abbreviation W := (world MS ES).
Context (w : W) (s : slice).
Hypothesis Hw : winv w.
Hypothesis Hs : slice_ok (w_buf w) s.
Local Abbreviation d := (view (w_buf w) s).

Lemma update_bytes : bytes_ok d.
Proof. destruct Hw. eauto with clatto. Qed.

Lemma update_len : (Z.to_nat (s_len s) = length d)%nat.
Proof. pose proof (len_view _ _ Hs) as E. unfold len in E. lia. Qed.

(** Writing an adjusted checksum. *)
Lemma wp_refit (force : bool) i a b :
  0 <= i -> Nat.Even (Z.to_nat i) -> i + 2 <= s_len s ->
  bytes_ok a -> bytes_ok b -> len a <= 64 -> len b <= 64 ->
  wp (let ck := adjust (w16 d i) (sum16 a 0) (sum16 b 0) in
      let ck := if force && (ck =? 0) then 0xffff else ck in
      (owrite (Some s) i (be_bytes 2 ck);; mret ReasonNone : M W Reason))
    (fun (r : Reason) w' => r = ReasonNone /\ exists d', wrote s d' w w' /\ refit d d' (Z.to_nat i) (wsum a) (wsum b) /\
       (force = true -> w16 d' i <> 0)) w.
Proof.
  intros Hi He Hl Ha Hb La Lb. pose proof update_len as Hd. cbv zeta.
  destruct (refit_adjust force d (Z.to_nat i) a b) as [R N]; try done; [apply update_bytes|lia|].
  rewrite Z2Nat.id in R, N by done. match goal with |- context [be_bytes 2 ?c] => set (ck := c) in * end.
  destruct R as (ck' & R1 & R2 & R3).
  assert (0 <= ck < 65536) as Rk.
  { subst ck. case_if; [lia|]. unfold adjust. apply not16_range. }
  apply wp_bind, (wp_write s); rewrite ?len_be_bytes; try (done || lia || apply be_bytes_ok).
  intros w' W'. apply wp_ret. split; [done|]. eexists. split; [exact W'|]. split; [by exists ck'|].
  intros Hf. specialize (N Hf). rewrite <- (Z2Nat.id i) by done.
  unfold w16 at 1. rewrite Z2Nat.id by done. unfold splice.
  rewrite drop_app_length' by (rewrite length_take; lia). by rewrite w16_be_bytes.
Qed.

(** Writing a computed UDP checksum. *)
Lemma wp_calc ps :
  8 <= s_len s -> s_len s <= 65535 -> small_acc ps -> w16 d 6 = 0 ->
  wp (let ck := checksum d ps in
      let ck := if ck =? 0 then 0xffff else ck in
      (owrite (Some s) 6 (be_bytes 2 ck);; mret ReasonNone : M W Reason))
    (fun (r : Reason) w' => r = ReasonNone /\ exists d', wrote s d' w w' /\ w16 d' 6 <> 0 /\ exists ck, 0 <= ck < 65536 /\
       d' = splice d 6 (be_bytes 2 ck) /\ ps + wsum d' ≡₁ 0) w.
Proof.
  intros Hl Hm Hp Hz. pose proof update_len as Hd. cbv zeta.
  destruct (calc_update d ps 6) as [R E]; try done; [apply update_bytes|unfold small_len, len; lia|by exists 3%nat|lia|].
  match goal with |- context [be_bytes 2 ?c] => set (ck := c) in * end. clearbody ck.
  apply wp_bind, (wp_write s); rewrite ?len_be_bytes; try (done || lia || apply be_bytes_ok).
  intros w' W'. apply wp_ret. split; [done|]. eexists. split; [exact W'|]. fold_consts. split; [|exists ck; split; [lia|done]].
  unfold w16, splice. rewrite drop_app_length' by (rewrite length_take; fold_consts; lia).
  rewrite w16_be_bytes; lia.
Qed.

(** Writing an ICMP type and checksum. *)
Lemma wp_retype (Q : Reason -> W -> Prop) ty (delta : Z) (ck : Z -> Z) :
  8 <= s_len s -> byte_ok ty ->
  (forall w', wrote s (splice (splice d 0 [ty]) 2 (be_bytes 2 (ck delta))) w w' -> Q ReasonNone w') ->
  wp (dl ← (owrite (Some (Slc (s_off s) 8)) 0 [ty];; mret delta);
      owrite (Some (Slc (s_off s) 8)) 2 (be_bytes 2 (ck dl));; mret ReasonNone) Q w.
Proof.
  intros Hl Ht HQ. apply wp_bind, wp_bind, (wp_write s); try (done || simpl; lia); [by apply Forall_singleton|].
  intros w1 W1. apply wp_ret, wp_bind, (wp_write s); rewrite ?len_be_bytes; try (done || simpl; lia).
  - apply (evo_inv _ _ _ _ _ (wr_evo _ _ _ _ W1)).
  - by apply (evolves_slice _ _ _ _ _ _ (wr_evo _ _ _ _ W1)).
  - apply be_bytes_ok.
  - intros w2 W2. apply wp_ret, HQ. rewrite (wr_view _ _ _ _ W1) in W2. exact (wrote_trans _ _ _ _ _ _ W1 W2).
Qed.
End slice_updates.
