(* ===== verification/Xlate4Facts.v ===== *)
(** * IPv4 to IPv6: lemmas about the functions of [Xlate4] *)

From stdpp Require Import base tactics list numbers option strings.
From Stdlib Require Import ZArith Lia.
From S2P Require Import Prelude Netip Netutil Checksum Events Packet Layout Translator TranslatorFacts Xlate4 Xlate6 Fills Transport.

Open Scope Z_scope.
Local Open Scope clatto_scope.

(** ** Parsed packets *)

Section wf4_facts.
Context (buf : list Z) (p : pkt) (Hb : bytes_ok buf) (Hp : wf4 buf p).

Lemma wf4_ip_ok : slice_ok buf (Slc (s_off (p_raw p)) (p_hdrLen p)).
Proof. destruct Hp as [(?&?&?) ? ? ? ? ? ?]. unfold slice_ok. simpl. lia. Qed.

Lemma wf4_data_ok : slice_ok buf (p_data p).
Proof. destruct Hp as [(?&?&?) ? ? ? ? ? ?]. unfold slice_ok. simpl. lia. Qed.

Lemma wf4_ip_len : len (oview buf (p_ip p)) = p_hdrLen p.
Proof. rewrite (wf4_ip _ _ Hp). cbn [oview]. rewrite len_view; [done|apply wf4_ip_ok]. Qed.

Lemma wf4_ip_bytes : bytes_ok (oview buf (p_ip p)).
Proof. eauto with clatto. Qed.

Lemma wf4_ev : ev_ok buf 4 p.
Proof.
  pose proof wf4_ip_ok. destruct Hp as [(?&?&?) ? ? Hip ? ? ?]. split; try done; try lia.
  rewrite Hip. simpl. split; [done|lia].
Qed.

Lemma wf4_off_range : 0 <= Z.land (w16 (oview buf (p_ip p)) 6) ip4OffMask.
Proof. apply Z.land_nonneg. left. apply w16_range, wf4_ip_bytes. Qed.

Lemma wf4_data_max : s_len (p_data p) <= 65535.
Proof. pose proof (wf4_end _ _ Hp). pose proof wf4_off_range. lia. Qed.

(** Cutting the data keeps the packet well formed. *)
Lemma wf4_cut n : 8 <= n <= s_len (p_data p) -> wf4 buf (set_data p (Slc (s_off (p_data p)) n)).
Proof.
  intros Hn. destruct Hp. split; psimpl; try done; try lia.
  destruct (p_proto p =? protoICMP); [|done]. intuition lia.
Qed.
End wf4_facts.

Section wf4_moves.
Context {MS ES : Type} {HM : Mapper MS} {HML : MapperLaws MS} {HE : Emitter ES} {HEL : EmitterLaws ES}.
Local Abbreviation W := (world MS ES).
Implicit Types w : W.

(** Changes to the data, or past it, leave the headers as they were parsed. *)
Lemma wf4_evolves_ip p k o s w w' :
  wf4 (w_buf w) p -> s_off (p_raw p) + p_hdrLen p <= k -> evolves k o s w w' ->
  oview (w_buf w') (p_ip p) = oview (w_buf w) (p_ip p).
Proof.
  intros Hp Hk E. pose proof (wf4_ip_ok _ _ Hp) as (S1 & S2 & _).
  rewrite (wf4_ip _ _ Hp). cbn [oview]. by apply (evolves_view _ _ _ _ _ _ E).
Qed.

Lemma wf4_evolves p k o s w w' :
  wf4 (w_buf w) p -> s_off (p_raw p) + p_hdrLen p <= k -> evolves k o s w w' -> wf4 (w_buf w') p.
Proof.
  intros Hp Hk E. pose proof (wf4_evolves_ip _ _ _ _ _ _ Hp Hk E) as Hip.
  pose proof (wf4_ip_ok _ _ Hp) as Hs. pose proof (evolves_slice _ _ _ _ _ _ E (wf4_raw _ _ Hp)) as Hr.
  destruct Hp as [R V HL I O D T P F C N]. split; rewrite ?Hip; try done.
  etransitivity; [|exact V]. f_equal. change 0%nat with (Z.to_nat 0). rewrite !view_lookup by (done || lia).
  destruct R as (R1 & R2 & R3). apply (evolves_lookup _ _ _ _ _ _ E). lia.
Qed.
End wf4_moves.

(** ** The transport header *)

(** What [payload4to6] does to the data [d] when it succeeds: nothing to a
    non-first fragment or an unknown protocol, else the checksum is made right
    for the new pseudo-header, and an ICMP type is translated. *)
Definition payload_ok4 (mode : UDPChecksumMode) (ip src6 dst6 : list Z) (p : pkt) (d d' : list Z) : Prop :=
  let a4 := wsum (take 8 (drop 12 ip)) in
  let a6 := wsum (src6 ++ dst6) in
  if negb (Z.land (w16 ip 6) ip4OffMask =? 0) then d' = d
  else if p_proto p =? protoICMP then
    retype d d' (if d !!! 0%nat =? 8 then 128 else 129) 0
      (a6 + (w16 ip 2 - p_hdrLen p) + protoICMPv6)
  else if p_proto p =? protoUDP then
    8 <= len d /\
    if w16 d 6 =? 0 then
      match mode with
      | UDPChecksumForward => d' = d
      | UDPChecksumCalc => w16 d' 6 <> 0 /\ exists ck, 0 <= ck < 65536 /\
          d' = splice d 6 (be_bytes 2 ck) /\ a6 + len d + protoUDP + wsum d' ≡₁ 0
      | UDPChecksumDrop => False
      end
    else refit d d' 6 a4 a6 /\ w16 d' 6 <> 0
  else if p_proto p =? protoTCP then 20 <= len d /\ refit d d' 16 a4 a6
  else d' = d.

(** When [payload4to6] refuses the data, and why. *)
Definition reject4 (mode : UDPChecksumMode) (ip : list Z) (p : pkt) (d : list Z) : Reason :=
  if negb (Z.land (w16 ip 6) ip4OffMask =? 0) then ReasonNone
  else if p_proto p =? protoUDP then
    if len d <? 8 then ReasonUDPHeaderLength
    else if (w16 d 6 =? 0) && bool_decide (mode = UDPChecksumDrop) then ReasonUDPZeroChecksum
    else ReasonNone
  else if p_proto p =? protoTCP then
    if len d <? 20 then ReasonTCPHeaderLength else ReasonNone
  else ReasonNone.

(** A shorter slice at the same place shows a prefix. *)
Lemma view_prefix buf s n : 0 <= n <= s_len s -> view buf (Slc (s_off s) n) = take (Z.to_nat n) (view buf s).
Proof. intros Hn. unfold view. cbn [s_off s_len]. rewrite take_take. f_equal. lia. Qed.

Section payload4.
Context {MS ES : Type} {HM : Mapper MS} {HML : MapperLaws MS} {HE : Emitter ES} {HEL : EmitterLaws ES}.
Local Abbreviation W := (world MS ES).
Implicit Types w : W.

Lemma addr_sum6 h : length h = 40%nat ->
  wsum (take 16 (drop 8 h)) + wsum (take 16 (drop 24 h)) = wsum (take 32 (drop 8 h)).
Proof. intros Hl. explode Hl. simpl. lia. Qed.

Lemma payload4to6_spec t p h src6 dst6 w :
  winv w -> wf4 (w_buf w) p -> length h = 40%nat -> bytes_ok h ->
  take 32 (drop 8 h) = src6 ++ dst6 ->
  (p_proto p = protoICMP -> view (w_buf w) (p_data p) !!! 0%nat = 8 \/ view (w_buf w) (p_data p) !!! 0%nat = 0) ->
  wp (payload4to6 t p h) (fun r w' => exists d', wrote (p_data p) d' w w' /\
    r = reject4 (UDPChecksum (t_cfg t)) (oview (w_buf w) (p_ip p)) p (view (w_buf w) (p_data p)) /\
    (r = ReasonNone -> payload_ok4 (UDPChecksum (t_cfg t)) (oview (w_buf w) (p_ip p)) src6 dst6 p
                         (view (w_buf w) (p_data p)) d')) w.
Proof.
  intros Hw Hp Hh Hhb Hadr Hty. pose proof (wi_bytes w Hw) as Hb.
  pose proof (wf4_ip_len _ _ Hp) as Hil. pose proof (wf4_ip_bytes _ p Hb) as Hib.
  pose proof (wf4_data_ok _ _ Hp) as Hds. pose proof (len_view _ _ Hds) as Hdl.
  pose proof (wf4_data_max _ _ Hb Hp) as Hdm.
  pose proof (wrote_refl (p_data p) w Hw) as Hsame. pose proof (len_of _ _ Hh) as Hhl.
  pose proof (w16_range _ 2 Hib) as Htot.
  destruct Hp as [R V HL I O D T P F C N].
  unfold payload4to6, payload_ok4, reject4, ip4FlagsOff, ip4TotalLen. rewrite <- Hadr. apply wp_bind, wp_gets. cbv zeta.
  set (ip := oview (w_buf w) (p_ip p)) in *.
  wstep. case_if; [by apply wp_ret; eexists|].
  destruct (p_proto p =? protoICMP) eqn:Ep.
  { destruct C as (C1 & C2 & C3). apply Z.eqb_eq in Ep. specialize (Hty Ep).
    do 3 wstep.
    destruct (pseudo6_spec (take 16 (drop 8 h)) (take 16 (drop 24 h)) (w16 ip 2 - p_hdrLen p) 58)
      as (ps & Eps & Sps & Qps & _).
    1-6: try (unfold byte_ok); eauto with clatto; unfold len; rewrite ?length_take, ?length_drop; lia.
    fold_consts. unfold protoICMPv6 in *. rewrite Eps. wstep. rewrite C1. cbn [oview].
    rewrite (view_prefix _ _ 8) by lia.
    set (d := view (w_buf w) (p_data p)) in *. fold_consts.
    assert (length (take 8 d) = 8%nat) as H8 by (rewrite length_take; unfold len in *; lia).
    do 2 wstep. rewrite lookup_total_take_lt by lia. rewrite w16_take by lia.
    set (ty := d !!! 0%nat) in *. set (ty' := if ty =? 8 then 128 else 129).
    set (delta := (ty' - ty) * 256).
    assert (0 <= delta < 65536) as Hdelta by (subst delta ty'; destruct Hty as [-> | ->]; simpl; lia).
    destruct (icmp_update_add (w16 d 2) ps delta) as [Rk Ek]; [apply w16_range; eauto with clatto|done|done|].
    assert (Hsum := retype_sum d ty' _ ltac:(unfold len in *; lia) Rk). fold ty delta in Hsum.
    assert (retype d (splice (splice d 0 [ty']) 2 (be_bytes 2
      (not16 (fold (u64 (u64 (not16 (w16 d 2) + ps) + delta)))))) ty' 0
      (wsum (take 32 (drop 8 h)) + (w16 ip 2 - p_hdrLen p) + 58)) as Hre.
    { eexists. split; [exact Rk|]. split; [done|]. rewrite <- addr_sum6 by done.
      rewrite !take_take in Qps. cbn [Nat.min] in Qps. eqm_lia. }
    subst delta ty'. destruct (ty =? 8) eqn:E8.
    all: apply (wp_retype w (p_data p) Hw Hds); [done|by split|]; intros w' W'; eexists;
      split; [exact W'|]; rewrite Ep; split; [done|intros _]; destruct Hty as [Hty | Hty]; rewrite Hty in *; done. }
  destruct (p_proto p =? protoUDP) eqn:Eu.
  { rewrite Hdl. case_if; [by apply wp_ret; eexists|]. bool_prop. wstep.
    assert (8 <= len (view (w_buf w) (p_data p))) as H8 by lia.
    case_if; [destruct (UDPChecksum (t_cfg t))|].
    - by apply wp_ret; eexists.
    - do 2 wstep.
      destruct (pseudo6_spec (take 16 (drop 8 h)) (take 16 (drop 24 h)) (s_len (p_data p)) 17)
        as (ps & Eps & Sps & Qps & _).
      1-6: try (unfold byte_ok); eauto with clatto; unfold len; rewrite ?length_take, ?length_drop; lia.
      fold_consts. unfold protoUDP in *. rewrite Eps. wstep. bool_prop.
      eapply wp_mono; [by apply wp_calc|]. intros r w' (-> & d' & H1 & H2 & ck & H3 & H4 & H5).
      exists d'. split; [done|]. split; [done|]. intros _. split; [done|]. split; [done|]. exists ck.
      do 2 (split; [done|]). rewrite <- addr_sum6 by done.
      rewrite !take_take in Qps. cbn [Nat.min] in Qps. eqm_lia.
    - by apply wp_ret; eexists.
    - do 3 wstep. fold_consts. change (40 - 8) with 32. change (20 - 12) with 8. fold_consts.
      eapply wp_mono; [apply (wp_refit w (p_data p) Hw Hds true 6); eauto with clatto; try lia|].
      { by exists 3%nat. }
      1-2: unfold len; rewrite length_take; lia.
      intros r w' (-> & d' & H1 & H2 & H3). exists d'. split; [done|]. split; [done|]. intros _. split; [done|]. by split; [|apply H3]. }
  destruct (p_proto p =? protoTCP) eqn:Et.
  { rewrite Hdl. case_if; [by apply wp_ret; eexists|]. bool_prop. do 3 wstep.
    fold_consts. change (40 - 8) with 32. change (20 - 12) with 8. fold_consts.
    eapply wp_mono; [apply (wp_refit w (p_data p) Hw Hds false 16); eauto with clatto; try lia|].
    { by exists 8%nat. }
    1-2: unfold len; rewrite length_take; lia.
    intros r w' (-> & d' & H1 & H2 & H3). exists d'. split; [done|]. split; [done|]. intros _. split; [lia|done]. }
  by apply wp_ret; eexists.
Qed.
End payload4.

(** ** Packets sent back to the IPv4 sender *)

(** An ICMP error from the translator about the packet [raw]: addressed to the
    sender, quoting the first [n] bytes. *)
Definition icmp_error4 (t : Translator) (raw : list Z) (typ code word n : Z) : list Z :=
  ip4_header_ck 0 (28 + n) 0 0 64 1 (t_local4 t) (take 4 (drop 12 raw)) ++
  icmp_msg_ck typ code word 0 (take (Z.to_nat n) raw).

(** An echo reply to the packet [raw] with header [ip] and ICMP message [d]. *)
Definition echo_reply4 (ip d : list Z) : list Z :=
  ip4_header_ck (ip !!! 1%nat) (20 + len d) 0 0 64 1 (take 4 (drop 16 ip)) (take 4 (drop 12 ip)) ++
  icmp_msg_ck 0 (d !!! 1%nat) (w32 d 4) 0 (drop 8 d).

(** What the translator may send back for the IPv4 packet [p] in [buf]: an
    error, unless [p] is an ICMP message other than an echo request, or the
    reply to an echo request. *)
Inductive reply4 (t : Translator) (buf : list Z) (p : pkt) : list Z -> Prop :=
  | reply4_error typ code word n :
      (p_proto p = protoICMP -> view buf (p_data p) !!! 0%nat = 8) ->
      byte_ok typ -> byte_ok code -> 20 <= n <= 548 -> n <= s_len (p_raw p) ->
      reply4 t buf p (icmp_error4 t (view buf (p_raw p)) typ code word n)
  | reply4_echo :
      p_proto p = protoICMP -> view buf (p_data p) !!! 0%nat = 8 ->
      reply4 t buf p (echo_reply4 (oview buf (p_ip p)) (view buf (p_data p))).

(** The error the translator offers to send back for [p]: none about an ICMP
    message other than an echo request, else one that quotes as much as fits in
    576 bytes. *)
Definition not_echo4 (buf : list Z) (p : pkt) : bool :=
  (p_proto p =? protoICMP) && negb (view buf (p_data p) !!! 0%nat =? 8).
Definition errors4 (t : Translator) (buf : list Z) (p : pkt) (typ code word : Z) : list (list Z) :=
  if not_echo4 buf p then []
  else [icmp_error4 t (view buf (p_raw p)) typ code word (Z.min 548 (p_hdrLen p + s_len (p_data p)))].

Lemma not_echo4_spec buf p :
  wf4 buf p ->
  owp (if p_proto p =? protoICMP then ty ← at_ (oview buf (p_icmp p)) 0; Ok (negb (ty =? 8)) else Ok false)
    (fun b => b = not_echo4 buf p).
Proof.
  intros Hp. pose proof (wf4_icmp _ _ Hp) as Hic. unfold not_echo4.
  destruct (p_proto p =? protoICMP) eqn:Ep; [|by apply owp_ok].
  destruct Hic as (Hic & H8 & _). rewrite Hic. cbn [oview]. rewrite view_prefix by lia.
  pose proof (len_view _ _ (wf4_data_ok _ _ Hp)) as Hd. fold_consts.
  assert (length (take 8 (view buf (p_data p))) = 8%nat) by (rewrite length_take; unfold len in *; lia).
  do 2 wstep. by rewrite lookup_total_take_lt by lia.
Qed.

Lemma not_echo4_false buf p :
  not_echo4 buf p = false -> p_proto p = protoICMP -> view buf (p_data p) !!! 0%nat = 8.
Proof. unfold not_echo4. intros E Hp. rewrite Hp, Z.eqb_refl in E. by apply negb_false_iff, Z.eqb_eq in E. Qed.

Lemma errors4_reply t buf p typ code word :
  wf4 buf p -> byte_ok typ -> byte_ok code -> Forall (reply4 t buf p) (errors4 t buf p typ code word).
Proof.
  intros Hp Hty Hco. pose proof (wf4_hl _ _ Hp). pose proof (wf4_dlen _ _ Hp).
  unfold errors4. destruct (not_echo4 buf p) eqn:E; [done|].
  apply Forall_singleton, reply4_error; [by apply not_echo4_false|done|done|lia|lia].
Qed.

Section send4.
Context {MS ES : Type} {HM : Mapper MS} {HML : MapperLaws MS} {HE : Emitter ES} {HEL : EmitterLaws ES}.
Local Abbreviation W := (world MS ES).
Implicit Types w : W.

Lemma icmp4_fill_len tos src dst typ code word payload :
  length src = 4%nat -> length dst = 4%nat ->
  len (ip4_header_ck tos (28 + len payload) 0 0 64 1 src dst ++ icmp_msg_ck typ code word 0 payload)
  = 28 + len payload.
Proof.
  intros. rewrite len_app, len_ip4_header_ck, len_icmp_msg_ck by done. lia.
Qed.

Lemma sends_sendICMPv4 tos src dst typ code word payload w :
  winv w -> 28 + len payload < 65536 -> length src = 4%nat -> length dst = 4%nat ->
  sends [ip4_header_ck tos (28 + len payload) 0 0 64 1 src dst ++ icmp_msg_ck typ code word 0 payload]
    (sendICMPv4 tos src dst typ code word payload) w.
Proof.
  intros Hw Hl Hs Hd. pose proof (len_nonneg payload). unfold sendICMPv4, sends.
  unfold ipv4HdrLen, icmpHdrLen. change (20 + 8) with 28.
  pose proof (icmp4_fill_len tos src dst typ code word payload Hs Hd) as Hc.
  apply wp_bind. eapply wp_emit_pure; [lia|done|exact Hc|..].
  - intros b Hb. rewrite icmp4_fill_ok by done. by rewrite u16_small by lia.
  - intros w' E _ Ho. apply wp_skip. unfold accepted. rewrite Ho.
    exact (evolves_zero _ _ _ _ _ (len_nonneg _) E).
  - intros w' E _ Ho. apply wp_skip. unfold accepted. rewrite Ho.
    exact (evolves_zero _ _ _ _ _ (len_nonneg _) E).
Qed.

Lemma ip_prefix buf p i n :
  wf4 buf p -> (i + n <= Z.to_nat (p_hdrLen p))%nat ->
  take n (drop i (oview buf (p_ip p))) = take n (drop i (view buf (p_raw p))).
Proof.
  intros Hp Hn. rewrite (wf4_ip _ _ Hp). cbn [oview]. rewrite view_prefix.
  - rewrite skipn_firstn_comm, take_take. f_equal. lia.
  - destruct Hp as [? ? HL ? ? D ?]. lia.
Qed.

Lemma sends_sendICMPv4Error t typ code word p w :
  winv w -> tr_ok t -> wf4 (w_buf w) p ->
  sends (errors4 t (w_buf w) p typ code word) (sendICMPv4Error t typ code word p) w.
Proof.
  intros Hw Ht Hp. pose proof (wf4_ip_len _ _ Hp) as Hil. pose proof (wf4_hl _ _ Hp) as Hhl.
  pose proof (wf4_dlen _ _ Hp) as Hdl. pose proof (len_view _ _ (wf4_raw _ _ Hp)) as Hrl.
  unfold sendICMPv4Error. apply wp_bind, wp_gets. apply wp_bind, wp_lift.
  eapply owp_mono; [by apply not_echo4_spec|]. unfold errors4.
  intros b ->. destruct (not_echo4 (w_buf w) p); [by apply sends_skip|].
  unfold icmp4MaxLen, ipv4HdrLen, icmpHdrLen. change (576 - 20 - 8) with 548. cbv zeta.
  replace (Z.min 548 (p_hdrLen p + s_len (p_data p)))
    with (if 548 <? p_hdrLen p + s_len (p_data p) then 548 else p_hdrLen p + s_len (p_data p))
    by (case_if; bool_prop; lia).
  set (n := if _ <? _ then _ else _).
  assert (20 <= n <= 548 /\ n <= s_len (p_raw p)) as [Hn Hn'] by (subst n; case_if; bool_prop; lia).
  clearbody n. do 2 wstep. change (16 - 12) with 4. rewrite Z.sub_0_r. fold_consts. rewrite ?drop_0.
  rewrite (ip_prefix _ _ 12 4) by (done || lia).
  assert (len (take (Z.to_nat n) (view (w_buf w) (p_raw p))) = n) as Hpl
    by (unfold len in *; rewrite length_take; lia).
  unfold icmp_error4. replace (28 + n) with (28 + len (take (Z.to_nat n) (view (w_buf w) (p_raw p)))) by lia.
  apply sends_sendICMPv4; try done; try lia; try apply Ht.
  rewrite length_take, length_drop. unfold len in *. lia.
Qed.

Lemma emits_hostICMPv4 t p w :
  winv w -> tr_ok t -> wf4 (w_buf w) p -> p_proto p = protoICMP ->
  p_hdrLen p + s_len (p_data p) < 65536 ->
  emits (reply4 t (w_buf w) p) (hostICMPv4 p) w.
Proof.
  intros Hw Ht Hp Hpr Hl. pose proof (wf4_ip_len _ _ Hp) as Hil. pose proof (wf4_hl _ _ Hp) as Hhl.
  pose proof (len_view _ _ (wf4_data_ok _ _ Hp)) as Hd. pose proof (wf4_ev _ _ Hp) as Hev.
  pose proof (wf4_icmp _ _ Hp) as Hic. rewrite Hpr in Hic. destruct Hic as (Hic & H8 & _).
  unfold hostICMPv4, icmpWord, icmpHdrLen. apply wp_bind, wp_gets. rewrite Hic. cbn [oview].
  rewrite view_prefix by lia. fold_consts.
  assert (length (take 8 (view (w_buf w) (p_data p))) = 8%nat) as Ht8 by (rewrite length_take; unfold len in *; lia).
  wstep. rewrite lookup_total_take_lt by lia. case_if; [|apply (emits_event _ 4); auto].
  apply (emits_event_bind _ 4); [done|auto|done|]. intros w' Hw' _ _. unfold emits.
  do 6 wstep. change (16 - 12) with 4. change (20 - 16) with 4. fold_consts. bool_prop.
  rewrite lookup_total_take_lt by lia.
  replace (w32 (take 8 (view (w_buf w) (p_data p))) 4) with (w32 (view (w_buf w) (p_data p)) 4).
  2: { unfold w32. rewrite skipn_firstn_comm, take_take. done. }
  assert (28 + len (drop 8 (view (w_buf w) (p_data p))) = 20 + s_len (p_data p)) as Hpl
    by (unfold len in *; rewrite length_drop; lia).
  eapply sends_emits; [apply sends_sendICMPv4; try done; try lia|].
  1-2: rewrite length_take, length_drop; unfold len in *; lia.
  rewrite Hpl, <- Hd. by apply Forall_singleton, reply4_echo.
Qed.
End send4.
