(* ===== verification/Fragments.v ===== *)
(** * Fragmentation of translated packets

    The loop of [xlate4to6Data] that splits the data over IPv6 fragments, against
    a reference that cuts a list: the loop emits exactly the fragments of the
    reference, and these reassemble to the data. *)

From stdpp Require Import base tactics list numbers option strings.
From Stdlib Require Import ZArith Lia.
From S2P Require Import Prelude Netip Netutil Checksum Events Packet Layout Translator TranslatorFacts Xlate4 Xlate6 Fills Transport.

Open Scope Z_scope.

(** ** The reference *)

(** The offset-and-flags word and the data of each fragment, for fragments of at
    most [fs] bytes; [mf] says that more fragments follow the whole of [d]. *)
Fixpoint fragments (fuel : nat) (fs off : Z) (mf : bool) (d : list Z) : list (Z * list Z) :=
  match fuel, d with
  | S fuel, _ :: _ =>
      let c := take (Z.to_nat fs) d in
      let rest := drop (Z.to_nat fs) d in
      ((if bool_decide (rest <> []) || mf then Z.lor off 1 else off), c)
      :: fragments fuel fs (off + len c) mf rest
  | _, _ => []
  end.

(** The whole packet that carries a fragment. *)
Definition frag_packet (tc hop : Z) (src dst : list Z) (nh ident : Z) (f : Z * list Z) : list Z :=
  ip6_header tc (8 + len f.2) protoFrag hop src dst ++ frag_header nh f.1 ident ++ f.2.

(** A receiver's view: the fragments cover [d] from offset [off] without gaps,
    every fragment but the last is a multiple of eight bytes long and has the
    more-fragments flag, which the last one has when [mf]. *)
Fixpoint reassembles (off : Z) (mf : bool) (fl : list (Z * list Z)) (d : list Z) : Prop :=
  match fl with
  | [] => d = []
  | (flags, c) :: rest =>
      c <> [] /\ Z.land flags ip6FragMask = off /\
      (Z.land flags ip6FragMF = 1 <-> rest <> [] \/ mf = true) /\
      (rest <> [] -> (8 | len c)) /\
      exists d', d = c ++ d' /\ reassembles (off + len c) mf rest d'
  end.

(** ** The reference reassembles *)

Lemma aligned_low off : 0 <= off -> (8 | off) -> Z.land off 7 = 0.
Proof.
  intros H [k ->]. change 7 with (Z.ones 3). rewrite Z.land_ones by lia. apply Z.mod_mul. lia.
Qed.

Lemma flags_offset off b :
  0 <= off < 65536 -> (8 | off) ->
  let f := if (b : bool) then Z.lor off 1 else off in
  Z.land f ip6FragMask = off /\ (Z.land f ip6FragMF = 1 <-> b = true).
Proof.
  intros Hr Ha f. unfold ip6FragMask, ip6FragMF.
  assert (Z.land off 0xfff8 = off) as E1.
  { change 0xfff8 with (Z.ldiff (Z.ones 16) 7). apply Z.bits_inj'. intros i Hi.
    rewrite Z.land_spec, Z.ldiff_spec, Z.testbit_ones by lia.
    pose proof (aligned_low off ltac:(lia) Ha) as L.
    assert (Z.testbit (Z.land off 7) i = false) as L' by (rewrite L; apply Z.bits_0).
    rewrite Z.land_spec in L'.
    destruct (Z.testbit off i) eqn:E; [|done]. cbn [andb] in *. rewrite L'. cbn [negb andb].
    destruct (Z.ltb_spec i 16); [by rewrite (proj2 (Z.leb_le 0 i)) by done|].
    rewrite Z.bits_above_log2 in E; [done|lia|].
    destruct (Z.eq_dec off 0) as [->|]; [simpl; lia|]. apply Z.log2_lt_pow2; [lia|].
    apply Z.lt_le_trans with (2 ^ 16); [lia|]. apply Z.pow_le_mono_r; lia. }
  assert (Z.land off 1 = 0) as E2.
  { change 1 with (Z.ones 1) at 1. rewrite Z.land_ones by lia. destruct Ha as [k ->].
    change (2 ^ 1) with 2. replace (k * 8) with (k * 4 * 2) by lia. apply Z.mod_mul. lia. }
  subst f. destruct b.
  - rewrite !Z.land_lor_distr_l, E1, E2. split; [apply Z.lor_0_r|done].
  - rewrite E1, E2. split; [done|]. split; [lia|done].
Qed.

Lemma fragments_reassemble fuel fs off mf d :
  (length d < fuel)%nat -> 0 < fs -> (8 | fs) -> 0 <= off -> (8 | off) -> off + len d < 65536 ->
  reassembles off mf (fragments fuel fs off mf d) d.
Proof.
  revert off d. induction fuel as [|fuel IH]; intros off d Hf Hfs Ha Ho Hoa Hl; [lia|].
  destruct d as [|x d]; [done|]. cbn [fragments reassembles]. set (l := x :: d) in *.
  assert (length l = S (length d)) as Hll by done.
  set (c := take (Z.to_nat fs) l). set (rest := drop (Z.to_nat fs) l).
  assert (len c <= fs /\ len c + len rest = len l /\ (rest <> [] -> len c = fs) /\ 0 < len c) as (C1 & C2 & C3 & C4).
  { subst c rest. unfold len. rewrite length_take, length_drop. split; [lia|]. split; [lia|]. split; [|lia].
    intros Hne. destruct (decide (length l <= Z.to_nat fs)%nat); [by rewrite drop_ge in Hne|]. lia. }
  split; [intros E; rewrite E in C4; done|].
  destruct (flags_offset off (bool_decide (rest <> []) || mf)) as [F1 F2]; [pose proof (len_nonneg l); lia|done|].
  split; [exact F1|].
  assert (fragments fuel fs (off + len c) mf rest <> [] <-> rest <> []) as Hne.
  { destruct fuel; [simpl in *; destruct rest; [done|]; exfalso; unfold len in *; simpl in *; lia|].
    destruct rest; done. }
  split.
  { rewrite Hne, F2, orb_true_iff, bool_decide_eq_true. done. }
  split; [intros H%Hne; by rewrite C3|].
  exists rest. split; [symmetry; apply take_drop|].
  destruct (decide (rest = [])) as [E|E].
  - rewrite E. by destruct fuel.
  - pose proof (len_nonneg rest). rewrite C3 by done. apply IH; try done; try lia.
    + unfold len in *. lia.
    + by apply Z.divide_add_r.
    + rewrite C3 in C2 by done. lia.
Qed.

Lemma fragments_size fuel fs off mf d f :
  0 <= fs -> f ∈ fragments fuel fs off mf d -> len f.2 <= fs.
Proof.
  intros Hfs. revert off d. induction fuel as [|fuel IH]; intros off d; [intros H; inversion H|].
  destruct d as [|x d]; [intros H; inversion H|]. cbn [fragments].
  intros [->|H]%elem_of_cons; [|by eapply IH]. unfold len. cbn [snd]. rewrite length_take. lia.
Qed.

Lemma fragments_bytes fuel fs off mf d f :
  bytes_ok d -> f ∈ fragments fuel fs off mf d -> bytes_ok f.2.
Proof.
  revert off d. induction fuel as [|fuel IH]; intros off d Hd; [intros H; inversion H|].
  destruct d as [|x d]; [intros H; inversion H|]. cbn [fragments].
  intros [->|H]%elem_of_cons; [cbn [snd]; eauto with clatto|]. eapply IH; [|exact H]. eauto with clatto.
Qed.

(** ** The loop emits the fragments of the reference *)

Section loop.
Context {MS ES : Type} {HM : Mapper MS} {HML : MapperLaws MS} {HE : Emitter ES} {HEL : EmitterLaws ES}.
Local Abbreviation W := (world MS ES).
Implicit Types w : W.
Context (tc hop nh ident : Z) (src dst : list Z) (fs : Z) (mf : bool).
Hypothesis Hsrc : length src = 16%nat.
Hypothesis Hdst : length dst = 16%nat.
Hypothesis Hfs : 0 < fs.

Lemma put_payload_len pl pl' :
  put16 (ip6_header tc pl protoFrag hop src dst) 4 pl' = Ok (ip6_header tc pl' protoFrag hop src dst).
Proof. apply owp_is. unfold ip6_header, put16, be_bytes. cbn [app]. fstep. reflexivity. Qed.

Lemma put_frag_flags fl fl' : put16 (frag_header nh fl ident) 2 fl' = Ok (frag_header nh fl' ident).
Proof. apply owp_is. unfold frag_header, put16, be_bytes. cbn [app]. fstep. reflexivity. Qed.

Lemma frag_loop_spec fuel pl fl data off w :
  winv w -> slice_ok (w_buf w) data -> (Z.to_nat (s_len data) < fuel)%nat ->
  0 <= off -> off + s_len data < 65536 -> s_len data < 65528 ->
  wp (frag_loop fuel (ip6_header tc pl protoFrag hop src dst) (frag_header nh fl ident) data off fs mf)
    (fun ok w' => exists outs, evolves (len (w_buf w)) outs [] w w' /\ w_buf w' = w_buf w /\
       let all := map (frag_packet tc hop src dst nh ident) (fragments fuel fs off mf (view (w_buf w) data)) in
       outs = accepted all (w_em w) /\ (ok = true <-> outs = all)) w.
Proof.
  revert pl fl data off w. induction fuel as [|fuel IH]; intros pl fl data off w Hw Hd Hf Ho Hl Hl'; [lia|].
  cbn [frag_loop fragments]. pose proof (len_view _ _ Hd) as Hlen.
  case_if; bool_prop.
  { apply wp_ret. exists []. split; [by apply evolves_refl|]. split; [done|].
    destruct (view (w_buf w) data); [done|]. unfold len in Hlen. simpl in Hlen. lia. }
  set (n := if _ <? _ then _ else _).
  assert (0 < n <= fs /\ n <= s_len data /\ (n < s_len data -> n = fs)) as (N1 & N2 & N3)
    by (subst n; case_if; bool_prop; lia).
  destruct (view (w_buf w) data) as [|x l] eqn:Ev; [unfold len in Hlen; simpl in Hlen; lia|].
  rewrite <- Ev in *. set (d := view (w_buf w) data) in *. clearbody n.
  assert (take (Z.to_nat fs) d = take (Z.to_nat n) d /\ drop (Z.to_nat fs) d = drop (Z.to_nat n) d) as [-> ->].
  { destruct (Z.lt_ge_cases n (s_len data)); [by rewrite N3|].
    rewrite !take_ge, !drop_ge by (unfold len in *; lia). done. }
  unfold fragHdrLen, ipv6HdrLen. change (40 + 8) with 48.
  apply wp_bind, wp_lift. rewrite put_payload_len. apply owp_ok. cbv zeta.
  apply wp_bind, wp_lift. rewrite put_frag_flags. apply owp_ok. rewrite !u16_small by lia.
  assert (len (take (Z.to_nat n) d) = n) as Ec by (unfold len in *; rewrite length_take; lia).
  assert ((n <? s_len data) = bool_decide (drop (Z.to_nat n) d <> [])) as ->.
  { destruct (Z.ltb_spec n (s_len data)); symmetry; [apply bool_decide_eq_true|apply bool_decide_eq_false].
    - intros E0%(f_equal length). rewrite length_drop in E0. unfold len in *. simpl in E0. lia.
    - intros E0. apply E0, drop_ge. unfold len in *. lia. }
  set (flags := if _ || mf then _ else _).
  change (Z.lor off ip6FragMF) with (Z.lor off 1) in flags. fold flags.
  set (f := (flags, take (Z.to_nat n) d)).
  assert (len (frag_packet tc hop src dst nh ident f) = 48 + n) as Hfl.
  { unfold frag_packet. rewrite !len_app, len_ip6_header by done.
    unfold f. cbn [fst snd]. rewrite Ec, (len_of _ _ (length_frag_header nh flags ident)). lia. }
  apply wp_bind, wp_gets, wp_bind.
  eapply (wp_emit _ _ (frag_packet tc hop src dst nh ident f) (w_rand w)); [lia|done|exact Hfl|..].
  { intros b w1 Hb Hr. apply wp_is. fold d. wstep. rewrite Z.sub_0_r. fold d. apply wp_lift.
    rewrite frag_fill_ok by (rewrite ?length_ip6_header, ?length_frag_header, ?Ec; done).
    apply owp_ok. unfold frag_packet, f. cbn [fst snd]. rewrite Ec, <- Hr, set_rand_same. done. }
  - intros w' Ev' Hbuf Hof. cbn [negb]. apply wp_bind, wp_lift.
    rewrite subslice_ok by lia. apply owp_ok.
    eapply wp_mono; [apply IH|].
    + apply Ev'.
    + rewrite Hbuf. apply slice_ok_sub; done || lia.
    + cbn [s_len]. lia.
    + lia.
    + cbn [s_len]. lia.
    + cbn [s_len]. lia.
    + rewrite Hbuf. intros ok w'' (outs & E' & Hbuf' & Hout). exists ([frag_packet tc hop src dst nh ident f] ++ outs).
      split; [exact (evolves_trans _ _ [] _ [] _ _ _ Ev' E')|]. split; [by rewrite Hbuf'|].
      cbv zeta in Hout |- *. cbn [map]. rewrite Ec.
      assert (view (w_buf w) (Slc (s_off data + n) (s_len data - n)) = drop (Z.to_nat n) d) as Hv.
      { pose proof (sub_view (w_buf w) data n (s_len data) Hd ltac:(lia) ltac:(lia)) as Hs.
        rewrite sub_ok in Hs by (fold d; lia). injection Hs as <-. fold d. apply take_ge.
        rewrite length_drop. unfold len in *. lia. }
      rewrite Hv in Hout. destruct Hout as [-> Hok]. fold f. unfold accepted in *.
      rewrite (offer_cons _ _ _ _ Hof). split; [done|]. rewrite Hok. cbn [app].
      split; [by intros ->|by intros [= ->]].
  - intros w' Ev' Hbuf Hof. cbn [negb]. apply wp_ret. exists []. split; [exact Ev'|]. split; [done|].
    cbv zeta. cbn [map]. fold f. unfold accepted. by rewrite (offer_cons_refused _ _ _ _ Hof).
Qed.
End loop.
