(* ===== verification/Xlate4Data.v ===== *)
(** * Translating IPv4 data packets: [xlate4to6Data]

    Every outcome of the function: an error sent back to the sender, a drop, or
    the translated packet, whole or in fragments, with the addresses the mapper
    gave and the transport checksum made right for them. *)

From stdpp Require Import base tactics list numbers option strings.
From Stdlib Require Import ZArith Lia.
From S2P Require Import Prelude Netip Netutil Checksum Events Packet Layout Translator TranslatorFacts Xlate4 Xlate6 Fills Transport Xlate4Facts Fragments.

Open Scope Z_scope.
Local Open Scope clatto_scope.

(** ** The translated packets *)

(** The size available for data in an unfragmented and in a fragment packet. *)
Definition frag_room (t : Translator) : Z := Z.min (OfflinkMTU (t_cfg t)) (MTU (t_cfg t)) - 40.
Definition frag_step (t : Translator) : Z := Z.ldiff (frag_room t - 8) 7.

Definition unfragmented (ip : list Z) : bool := Z.land (w16 ip 6) (Z.lor ip4OffMask ip4FlagMF) =? 0.
Definition df (ip : list Z) : bool := negb (Z.land (w16 ip 6) ip4FlagDF =? 0).

(** An unfragmented packet with DF too large for the IPv6 side. *)
Definition too_big4 (t : Translator) (ip : list Z) (p : pkt) : bool :=
  unfragmented ip && df ip && (MTU (t_cfg t) - mtuAdj <? p_hdrLen p + s_len (p_data p)).

Definition next_header (p : pkt) : Z := if p_proto p =? protoICMP then protoICMPv6 else p_proto p.

(** The packets that carry the data [d] for the IPv4 header [ip]. *)
Definition out4 (t : Translator) (ip : list Z) (p : pkt) (src6 dst6 d : list Z) : list (list Z) :=
  let hop := u8 (ip !!! 8%nat - 1) in
  if unfragmented ip && (df ip || (len d <=? frag_room t)) then
    [ip6_header (ip !!! 1%nat) (len d) (next_header p) hop src6 dst6 ++ d]
  else
    map (frag_packet (ip !!! 1%nat) hop src6 dst6 (next_header p) (w16 ip 4))
      (fragments (S (length d)) (frag_step t) (Z.land (w16 ip 6) ip4OffMask * 8)
         (negb (Z.land (w16 ip 6) ip4FlagMF =? 0)) d).

Lemma ip6_header_addrs tc pl nh hop src dst :
  length src = 16%nat -> length dst = 16%nat ->
  take 32 (drop 8 (ip6_header tc pl nh hop src dst)) = src ++ dst.
Proof.
  intros. unfold ip6_header, be_bytes. cbn [app drop]. rewrite drop_0. apply take_ge.
  rewrite length_app. lia.
Qed.

Lemma frag_step_ok t : tr_ok t -> 0 < frag_step t <= frag_room t - 8 /\ (8 | frag_step t).
Proof.
  intros Ht. destruct (tr_mtu t Ht) as [Hm _]. pose proof (tr_offlink t Ht) as Ho. unfold mtuMin in *.
  unfold frag_step, frag_room. set (x := Z.min _ _ - 40 - 8).
  assert (1232 <= x) as Hx by (subst x; lia). clearbody x.
  change 7 with (Z.ones 3). rewrite Z.ldiff_ones_r by lia.
  rewrite Z.shiftl_mul_pow2, Z.shiftr_div_pow2 by lia. change (2 ^ 3) with 8.
  split; [dlia|]. by exists (x / 8).
Qed.

(** Everything [out4] describes is a well-formed IPv6 packet that fits the MTU. *)
Lemma out4_good t ip p src6 dst6 d :
  tr_ok t -> bytes_ok ip -> byte_ok (p_proto p) ->
  bytes_ok src6 -> bytes_ok dst6 -> length src6 = 16%nat -> length dst6 = 16%nat -> bytes_ok d ->
  20 <= p_hdrLen p -> p_hdrLen p + len d <= 65535 ->
  (unfragmented ip && df ip = true -> p_hdrLen p + len d <= MTU (t_cfg t) - 20) ->
  Forall (fun b => good6 b /\ len b <= MTU (t_cfg t)) (out4 t ip p src6 dst6 d).
Proof.
  intros Ht Hip Hpr Hs Hd Ls Ld Hdb Hh Hl Hdf. unfold out4.
  assert (byte_ok (next_header p)) as Hnh by (unfold next_header; case_if; [by split|done]).
  pose proof (bytes_ok_lookup ip 1 Hip) as Htos.
  case_if.
  - apply Forall_singleton. split; [apply good6_layout; auto with clatto; lia|].
    rewrite len_app, len_ip6_header by done.
    apply andb_true_iff in E as [E1 E2]. rewrite E1 in Hdf. unfold frag_room in E2. cbn [andb] in Hdf.
    destruct (df ip); [lia|]. cbn [orb] in E2. bool_prop. lia.
  - destruct (frag_step_ok t Ht) as [Hst _]. apply Forall_map, Forall_forall. intros f Hf.
    pose proof (fragments_size _ (frag_step t) _ _ _ _ ltac:(lia) Hf) as Hfl.
    pose proof (fragments_bytes _ _ _ _ _ _ Hdb Hf) as Hfb. unfold frag_packet.
    assert (len f.2 < 65528).
    { assert (frag_room t <= 65495); [|lia]. unfold frag_room. pose proof (tr_mtu t Ht). lia. }
    assert (len (frag_header (next_header p) f.1 (w16 ip 4) ++ f.2) = 8 + len f.2) as Hlen.
    { rewrite len_app. f_equal. }
    split.
    + apply good6_layout; auto using bytes_ok_app, bytes_ok_frag_header with clatto; try done; try lia.
    + rewrite len_app, len_ip6_header, Hlen by done. unfold frag_room in Hst. lia.
Qed.

(** An unmappable address: reported as a rejection and answered, or dropped. *)
Definition unmappable_kind (err : MapErr) : Kind :=
  match err with ErrReject => KindReject | ErrDrop => KindDrop end.
Definition unmappable_error {A} (err : MapErr) (l : list A) : list A :=
  match err with ErrReject => l | ErrDrop => [] end.

Section data4.
Context {MS ES : Type} {HM : Mapper MS} {HML : MapperLaws MS} {HE : Emitter ES} {HEL : EmitterLaws ES}.
Local Abbreviation W := (world MS ES).
Implicit Types w : W.

(** Why [xlate4to6Data] refuses the packet [p]: the kind and reason of the event
    it reports, and the error it offers to send back. *)
Inductive refused4 (t : Translator) w (p : pkt) : Kind -> Reason -> list (list Z) -> Prop :=
  | refused4_dst m1 err :
      unmapped4 err (w_map w) m1 (take 4 (drop 16 (oview (w_buf w) (p_ip p)))) ->
      refused4 t w p (unmappable_kind err) ReasonDestinationUnmappable
        (unmappable_error err (errors4 t (w_buf w) p 3 1 0))
  | refused4_src m1 m2 dst6 err :
      mapped4 (w_map w) m1 (take 4 (drop 16 (oview (w_buf w) (p_ip p)))) dst6 ->
      unmapped4 err m1 m2 (take 4 (drop 12 (oview (w_buf w) (p_ip p)))) ->
      refused4 t w p (unmappable_kind err) ReasonSourceUnmappable
        (unmappable_error err (errors4 t (w_buf w) p 3 10 0))
  | refused4_size m1 m2 dst6 src6 :
      mapped4 (w_map w) m1 (take 4 (drop 16 (oview (w_buf w) (p_ip p)))) dst6 ->
      mapped4 m1 m2 (take 4 (drop 12 (oview (w_buf w) (p_ip p)))) src6 ->
      too_big4 t (oview (w_buf w) (p_ip p)) p = true ->
      refused4 t w p KindICMP ReasonPacketTooBig
        (errors4 t (w_buf w) p 3 4 (u32 (MTU (t_cfg t) - mtuAdj)))
  | refused4_payload m1 m2 dst6 src6 r :
      mapped4 (w_map w) m1 (take 4 (drop 16 (oview (w_buf w) (p_ip p)))) dst6 ->
      mapped4 m1 m2 (take 4 (drop 12 (oview (w_buf w) (p_ip p)))) src6 ->
      too_big4 t (oview (w_buf w) (p_ip p)) p = false ->
      reject4 (UDPChecksum (t_cfg t)) (oview (w_buf w) (p_ip p)) p (view (w_buf w) (p_data p)) = r ->
      r <> ReasonNone ->
      refused4 t w p KindDrop r [].

(** The translation of [p]: the addresses come from the mapper, the data is
    that of [p] with its transport header rewritten. *)
Inductive translated4 (t : Translator) w (p : pkt) : list (list Z) -> Prop :=
  | Translated4 m1 m2 src6 dst6 d :
      mapped4 (w_map w) m1 (take 4 (drop 16 (oview (w_buf w) (p_ip p)))) dst6 ->
      mapped4 m1 m2 (take 4 (drop 12 (oview (w_buf w) (p_ip p)))) src6 ->
      too_big4 t (oview (w_buf w) (p_ip p)) p = false ->
      len d = s_len (p_data p) -> bytes_ok d ->
      payload_ok4 (UDPChecksum (t_cfg t)) (oview (w_buf w) (p_ip p)) src6 dst6 p
        (view (w_buf w) (p_data p)) d ->
      translated4 t w p (out4 t (oview (w_buf w) (p_ip p)) p src6 dst6 d).

(** How a call ends.  The packet is refused, with one event, and the error the
    refusal calls for is offered to the emitter; or the translation is offered to
    the emitter, and counted if the emitter took all of it: when the emitter
    refuses a buffer the rest of the fragments are not offered. *)
Inductive data_result4 (t : Translator) w (p : pkt) : list (list Z) -> list obs -> Prop :=
  | data4_refused kind reason replies e :
      refused4 t w p kind reason replies ->
      e_Kind e = kind -> e_Reason e = reason -> e_Family e = 4 ->
      data_result4 t w p (accepted replies (w_em w)) [OEvent e]
  | data4_translated all outs os :
      translated4 t w p all -> outs = accepted all (w_em w) ->
      os = (if bool_decide (outs = all) then [OTranslated 4 (p_hdrLen p + s_len (p_data p))] else []) ->
      data_result4 t w p outs os.

(** A wp over [evolves] that starts later in the run. *)
Lemma evolves_from k o1 s1 w w1 (m : M W unit) (R : list (list Z) -> list obs -> Prop) :
  0 <= k -> evolves k o1 s1 w w1 ->
  wp m (fun _ w' => exists o s, evolves 0 o s w1 w' /\ R (o1 ++ o) (s1 ++ s)) w1 ->
  wp m (fun _ w' => exists o s, evolves 0 o s w w' /\ R o s) w1.
Proof.
  intros Hk E Hm. eapply wp_mono; [exact Hm|]. intros _ w' (o & s & E' & HR).
  eexists _, _. split; [|exact HR]. exact (evolves_trans 0 _ _ _ _ _ _ _ (evolves_zero _ _ _ _ _ Hk E) E').
Qed.

(** Refusing with an event, and with an event and an error. *)
Lemma refuse_event t p kind reason w0 w :
  winv w -> wf4 (w_buf w) p -> evolves 0 [] [] w0 w -> refused4 t w0 p kind reason [] ->
  wp (event p kind reason)
    (fun _ w' => exists o s, evolves 0 o s w0 w' /\ data_result4 t w0 p o s) w.
Proof.
  intros Hw Hp E Hr. apply (wp_event 4); [auto|by apply wf4_ev|]. intros e Hk He Hf.
  exists [], [OEvent e]. split; [exact (evolves_trans 0 [] [] [] _ _ _ _ E (evolves_event 0 e w Hw))|].
  by apply (data4_refused t w0 p _ _ _ e Hr).
Qed.

Lemma refuse_error t p kind reason typ code word w0 w :
  winv w -> tr_ok t -> wf4 (w_buf w) p -> evolves 0 [] [] w0 w -> w_buf w = w_buf w0 -> w_em w = w_em w0 ->
  refused4 t w0 p kind reason (errors4 t (w_buf w0) p typ code word) ->
  wp (event p kind reason;; sendICMPv4Error t typ code word p)
    (fun _ w' => exists o s, evolves 0 o s w0 w' /\ data_result4 t w0 p o s) w.
Proof.
  intros Hw Ht Hp E Hb Hm Hr. apply wp_bind, (wp_event 4); [auto|by apply wf4_ev|]. intros e Hk He Hf.
  pose proof (evolves_trans 0 [] [] [] _ _ _ _ E (evolves_event 0 e w Hw)) as E1.
  assert (Hs := sends_sendICMPv4Error t typ code word p (add_obs (OEvent e) w) (evo_inv _ _ _ _ _ E1) Ht Hp).
  eapply wp_mono; [exact Hs|]. cbv beta. cbn [add_obs w_buf w_em]. rewrite Hb, Hm. intros _ w' E'.
  eexists _, _. split; [exact (evolves_trans 0 _ _ _ _ _ _ _ E1 E')|].
  by apply (data4_refused t w0 p _ _ _ e Hr).
Qed.

(** Emitting the translated packet in fragments. *)
Lemma emit4_frags total tc pl nh hop src dst ident data off fs mf w :
  winv w -> slice_ok (w_buf w) data -> length src = 16%nat -> length dst = 16%nat -> 0 < fs ->
  0 <= off -> off + s_len data < 65536 -> s_len data < 65528 -> 0 <= ident < 65536 ->
  let h := ip6_header tc pl nh hop src dst in
  wp (h6 ← lift (at_ h 6);
      fh ← lift (set_at (replicate 8 0) 0 h6);
      h ← lift (set_at h 6 protoFrag);
      ident ← lift (Ok ident);
      fh ← lift (put32 fh 4 ident);
      done ← frag_loop (frag_fuel data) h fh data off fs mf;
      if (done : bool) then translated 4 total else skip)
    (fun _ w' => exists o s, evolves 0 o s w w' /\
       let all := map (frag_packet tc hop src dst nh ident)
                    (fragments (frag_fuel data) fs off mf (view (w_buf w) data)) in
       o = accepted all (w_em w) /\ s = if bool_decide (o = all) then [OTranslated 4 total] else []) w.
Proof.
  intros Hw Hs Hsl Hdl Hfs Ho Hol Hl Hid h. destruct Hs as (S1 & S2 & S3).
  apply wp_bind, wp_lift. apply (owp_eq _ nh).
  { apply owp_is. unfold h, ip6_header, be_bytes. cbn [app]. fstep. done. }
  apply wp_bind, wp_lift. apply (owp_eq _ [nh; 0; 0; 0; 0; 0; 0; 0]).
  { apply owp_is. cbn [replicate]. fstep. done. }
  apply wp_bind, wp_lift. apply (owp_eq _ (ip6_header tc pl protoFrag hop src dst)).
  { apply owp_is. unfold h, ip6_header, be_bytes. cbn [app]. fstep. done. }
  apply wp_bind, wp_lift, owp_ok.
  apply wp_bind, wp_lift. apply (owp_eq _ (frag_header nh 0 ident)).
  { apply owp_is. unfold frag_header, put32, be_bytes. cbn [app]. fstep. done. }
  apply wp_bind. eapply wp_mono.
  { apply frag_loop_spec; try done. unfold frag_fuel. lia. }
  intros ok w' (outs & E & Hbuf & Hout). pose proof (evolves_zero _ _ _ _ _ (len_nonneg _) E) as E'.
  cbv zeta in Hout |- *. destruct Hout as [Hacc Hok], ok.
  - apply wp_modify. eexists _, _.
    split; [exact (evolves_trans 0 _ _ _ _ _ _ _ E' (evolves_translated 0 4 total w' (evo_inv _ _ _ _ _ E)))|].
    rewrite app_nil_r. split; [done|]. by rewrite bool_decide_eq_true_2 by (by apply Hok).
  - apply wp_skip. exists outs, []. split; [done|]. split; [done|].
    rewrite bool_decide_eq_false_2; [done|]. by intros ?%Hok.
Qed.

Lemma xlate4to6Data_spec t p w :
  winv w -> tr_ok t -> wf4 (w_buf w) p ->
  (p_proto p = protoICMP -> view (w_buf w) (p_data p) !!! 0%nat = 8 \/ view (w_buf w) (p_data p) !!! 0%nat = 0) ->
  wp (xlate4to6Data t p)
    (fun _ w' => exists o s, evolves 0 o s w w' /\ data_result4 t w p o s) w.
Proof.
  intros Hw Ht Hp Hty. pose proof (wf4_ip_len _ _ Hp) as Hil. pose proof (wf4_hl _ _ Hp) as Hhl.
  pose proof (wi_bytes w Hw) as Hb. pose proof (wf4_ip_bytes _ p Hb) as Hib.
  unfold xlate4to6Data, ip4FlagsOff, ip4Ident, ipv6HdrLen, fragHdrLen. apply wp_bind, wp_gets. cbv zeta.
  wstep. change (20 - 16) with 4. fold_consts. set (ip := oview (w_buf w) (p_ip p)) in *.
  apply wp_bind, (wp_map4to6 (len (w_buf w))); [done|eauto with clatto|rewrite length_take, length_drop; unfold len in *; lia|].
  intros [dst6|err] w1 E1 B1 S1 M1.
  2: { pose proof (evolves_zero _ _ _ _ _ (len_nonneg _) E1) as E1'. pose proof (evo_inv _ _ _ _ _ E1) as Hw1.
    pose proof (refused4_dst t w p _ _ M1) as Hr.
    destruct err; [apply refuse_error|apply refuse_event]; try done; rewrite ?B1; done. }
  wstep. change (16 - 12) with 4. fold_consts.
  apply wp_bind, (wp_map4to6 (len (w_buf w))); [apply E1|eauto with clatto|rewrite length_take, length_drop; unfold len in *; lia|].
  intros [src6|err] w2 E2 B2 S2 M2; rewrite B1 in B2; rewrite S1 in S2.
  all: pose proof (evolves_trans _ _ _ _ _ _ _ _ E1 E2) as E12; cbn [app] in E12.
  all: pose proof (evolves_zero _ _ _ _ _ (len_nonneg _) E12) as E12'; pose proof (evo_inv _ _ _ _ _ E12) as Hw2.
  2: { pose proof (refused4_src t w p _ _ _ _ M1 M2) as Hr.
    destruct err; [apply refuse_error|apply refuse_event]; try done; rewrite ?B2; done. }
  wstep. change (Z.land (w16 ip 6) (Z.lor ip4OffMask ip4FlagMF) =? 0) with (unfragmented ip).
  change (negb (Z.land (w16 ip 6) ip4FlagDF =? 0)) with (df ip).
  change (_ && (MTU (t_cfg t) - mtuAdj <? _)) with (too_big4 t ip p).
  destruct (too_big4 t ip p) eqn:Etb.
  { apply refuse_error; try done; rewrite ?B2; try done. by apply (refused4_size t w p _ _ _ _ M1 M2). }
  destruct (mapped4_ok _ _ _ _ M1) as [Hdb Hdl], (mapped4_ok _ _ _ _ M2) as [Hsb Hsl].
  apply wp_bind, wp_lift. rewrite header4to6_ok by (done || (fold ip; lia)). apply owp_ok.
  apply wp_bind, wp_lift. rewrite decr_ip6_header. apply owp_ok.
  pose proof (wf4_data_max _ _ Hb Hp) as Hmax. fold ip (next_header p).
  set (h := ip6_header (ip !!! 1%nat) _ _ _ _ _).
  assert (bytes_ok h) as Hhb. { apply bytes_ok_ip6_header; eauto with clatto. unfold next_header. case_if; [by split|apply Hp]. }
  apply wp_bind. eapply wp_mono; [apply (payload4to6_spec t p h src6 dst6 w2)|]; rewrite ?B2; try done.
  { by apply length_ip6_header. }
  { by apply ip6_header_addrs. }
  intros r w3 (d' & [E3 S3 V3] & Hr & Hok). fold ip in Hr, Hok. cbv beta.
  assert (w_em w3 = w_em w) as Hem by (rewrite S3; exact S2).
  pose proof (evo_inv _ _ _ _ _ E3) as Hw3. pose proof (wf4_off _ _ Hp) as Hoff.
  pose proof (wf4_data_ok _ _ Hp) as Hds. pose proof Hds as (O1 & O2 & O3).
  pose proof (evolves_zero _ _ _ _ _ O1 E3) as E3'.
  pose proof (evolves_trans 0 _ _ _ _ _ _ _ E12' E3') as E13. cbn [app] in E13.
  assert (wf4 (w_buf w3) p) as Hp3.
  { eapply wf4_evolves; [|apply Z.eq_le_incl; symmetry; exact Hoff|exact E3]. by rewrite B2. }
  case_bool_decide as Hrn.
  { apply refuse_event; try done. by apply (refused4_payload t w p _ _ _ _ _ M1 M2). }
  specialize (Hok Hrn).
  assert (len d' = s_len (p_data p)) as Hdl'. { rewrite <- V3. apply len_view. by eapply evolves_slice; [exact E13|]. }
  assert (bytes_ok d') as Hdb'. { rewrite <- V3. destruct Hw3. eauto with clatto. }
  pose proof (Translated4 t w p _ _ _ _ _ M1 M2 Etb Hdl' Hdb' Hok) as Htr.
  assert ((if MTU (t_cfg t) <? OfflinkMTU (t_cfg t) then MTU (t_cfg t) else OfflinkMTU (t_cfg t)) - 40
          = frag_room t) as -> by (unfold frag_room; case_if; bool_prop; lia).
  pose proof (evolves_slice _ _ _ _ _ _ E13 Hds) as Hds3.
  apply wp_bind, wp_gets. unfold out4 in Htr. fold ip in Htr. rewrite Hdl' in Htr.
  destruct (unfragmented ip && (df ip || (s_len (p_data p) <=? frag_room t))).
  - apply (evolves_from 0 [] [] w w3); [done|done|].
    eapply wp_mono; [apply (emit_whole 4 _ 40); try done; by apply (len_of _ 40), length_ip6_header|].
    intros _ w' (o & s & E' & Hres). exists o, s. split; [done|]. cbn [app].
    rewrite V3 in Hres. unfold h in Hres. rewrite u16_small in Hres by lia.
    rewrite Hem in Hres. destruct Hres as [Ho Hs]. by apply (data4_translated t w p _ _ _ Htr).
  - apply (evolves_from 0 [] [] w w3); [done|done|].
    pose proof (w16_range ip 4 Hib) as Hid. rewrite u16_at_w by (fold ip; lia). fold ip.
    pose proof (wf4_end _ _ Hp) as Hend. pose proof (wf4_off_range _ p Hb) as Hor. fold ip in Hend, Hor.
    pose proof (wf4_total _ _ Hp) as Htot. pose proof (w16_range ip 2 Hib) as Htr2. fold ip in Htot.
    destruct (frag_step_ok t Ht) as [Hfs _].
    eapply wp_mono; [apply emit4_frags; try done; fold ip; try lia|].
    { unfold frag_step in Hfs. lia. }
    intros _ w' (o & s & E' & Hres). exists o, s. split; [done|]. cbn [app]. cbv zeta in Hres.
    rewrite V3 in Hres. unfold frag_fuel in Hres.
    replace (Z.to_nat (s_len (p_data p))) with (length d') in Hres by (unfold len in Hdl'; lia).
    rewrite Hem in Hres. destruct Hres as [Ho Hs]. by apply (data4_translated t w p _ _ _ Htr).
Qed.
End data4.
