(* ===== verification/Xlate4Icmp.v ===== *)
(** * Translating ICMPv4 errors and dispatching IPv4 packets

    [xlate4to6ICMPError] and [handleIPv4]. *)

From stdpp Require Import base tactics list numbers option strings.
From Stdlib Require Import ZArith Lia.
From S2P Require Import Prelude Netip Netutil Checksum Events Packet Layout Translator TranslatorFacts Xlate4 Xlate6 Fills Transport Xlate4Facts Fragments Xlate4Data.

Open Scope Z_scope.
Local Open Scope clatto_scope.

(** ** The type and code tables *)

(** The translated type, code and word fit their fields, and a Packet Too Big
    never announces less than the IPv6 minimum MTU nor more than our own. *)
Lemma icmp_switch4_range mtu typ code word emTotal ty co wo :
  mtuMin <= mtu <= 65535 -> byte_ok code ->
  icmp_switch4 mtu typ code word emTotal = inl (ty, co, wo) ->
  byte_ok ty /\ byte_ok co /\ 0 <= wo < 2 ^ 32 /\ (ty = 2 -> mtuMin <= wo <= mtu) /\ 1 <= ty <= 4.
Proof.
  unfold icmp_switch4, byte_ok, mtuMin, mtuAdj. intros Hm Hc.
  destruct (typ =? 3) eqn:E3.
  { destruct (bool_decide _); [intros [= <- <- <-]; lia|].
    destruct (code =? 2); [intros [= <- <- <-]; lia|]. destruct (code =? 3); [intros [= <- <- <-]; lia|].
    destruct (code =? 4); cbv zeta.
    - set (m := (if _ <? 68 then _ else _) + 20). intros [= <- <- <-].
      assert (1280 <= (if (if mtu <? m then mtu else m) <? 1280 then 1280 else if mtu <? m then mtu else m) <= mtu)
        by (repeat case_if; bool_prop; lia).
      rewrite u32_small by lia. lia.
    - destruct (bool_decide _); [intros [= <- <- <-]; lia|done]. }
  destruct (typ =? 11); [intros [= <- <- <-]; lia|].
  destruct (typ =? 12); [|done]. destruct (_ && _); [done|]. cbv zeta.
  destruct (len ptrTable4to6 <=? _); [done|]. set (np := ptrTable4to6 !!! _).
  assert (-1 <= np <= 24) as Hnp.
  { subst np. generalize (Z.to_nat (Z.shiftr word 24)). intros i.
    do 20 (destruct i as [|i]; [cbn; lia|]). by destruct i. }
  destruct (np <? 0) eqn:En; [done|]. bool_prop. intros [= <- <- <-]. rewrite u32_small by lia. lia.
Qed.

(** ** The translated message *)

(** The ICMPv6 error sent for the ICMPv4 error [p]: type, code and word from the
    table, the embedded packet with its header translated, and both checksums
    right for the new addresses. *)
Inductive icmp_out4 (t : Translator) (buf : list Z) (p : pkt) : list Z -> Prop :=
  | IcmpOut4 em src6 dst6 emSrc emDst d ty co wo ps :
      wf4 buf em ->
      (p_proto em = protoICMP -> view buf (p_data em) !!! 0%nat = 8) ->
      icmp_switch4 (MTU (t_cfg t)) (view buf (p_data p) !!! 0%nat) (view buf (p_data p) !!! 1%nat)
        (w32 (view buf (p_data p)) 4) (w16 (oview buf (p_ip em)) 2) = inl (ty, co, wo) ->
      bytes_ok src6 -> length src6 = 16%nat -> bytes_ok dst6 -> length dst6 = 16%nat ->
      bytes_ok emSrc -> length emSrc = 16%nat -> bytes_ok emDst -> length emDst = 16%nat ->
      len d = s_len (p_data em) -> bytes_ok d -> len d <= 1192 ->
      payload_ok4 (UDPChecksum (t_cfg t)) (oview buf (p_ip em)) emSrc emDst em (view buf (p_data em)) d ->
      pseudo6 src6 dst6 (48 + len d) protoICMPv6 = Ok ps ->
      icmp_out4 t buf p
        (ip6_header (oview buf (p_ip p) !!! 1%nat) (48 + len d) protoICMPv6
           (u8 (oview buf (p_ip p) !!! 8%nat - 1)) src6 dst6 ++
         icmp_msg_ck ty co wo ps
           (ip6_header (oview buf (p_ip em) !!! 1%nat) (u16 (w16 (oview buf (p_ip em)) 2 - p_hdrLen em))
              (next_header em) (oview buf (p_ip em) !!! 8%nat) emSrc emDst ++ d)).

Lemma next_header_ok buf p : wf4 buf p -> byte_ok (next_header p).
Proof. intros Hp. unfold next_header. case_if; [by split|apply Hp]. Qed.

(** It is a well-formed packet within the IPv6 minimum MTU. *)
Lemma icmp_out4_good t buf p b :
  tr_ok t -> bytes_ok buf -> icmp_out4 t buf p b -> good6 b /\ len b <= mtuMin.
Proof.
  intros Ht Hb [em src6 dst6 emSrc emDst d ty co wo ps Hem _ Hsw Sb Sl Db Dl ESb ESl EDb EDl Hdl Hdb Hd _ _].
  pose proof (wf4_data_ok _ _ Hem) as (_ & He & _).
  set (inner := ip6_header _ (u16 _) _ _ _ _).
  assert (len (icmp_msg_ck ty co wo ps (inner ++ d)) = 48 + len d) as Hl.
  { rewrite len_icmp_msg_ck, len_app. unfold inner. rewrite len_ip6_header by done. lia. }
  apply icmp_switch4_range in Hsw as (Hty & Hco & _); [|apply Ht|eauto with clatto].
  split.
  - apply good6_layout; try done; try lia; eauto with clatto.
    apply bytes_ok_icmp_msg; [done|done|]. apply bytes_ok_app; [|done].
    apply bytes_ok_ip6_header; eauto with clatto. by eapply next_header_ok.
  - rewrite len_app, Hl, len_ip6_header by done. unfold mtuMin. lia.
Qed.

Section icmp4.
Context {MS ES : Type} {HM : Mapper MS} {HML : MapperLaws MS} {HE : Emitter ES} {HEL : EmitterLaws ES}.
Local Abbreviation W := (world MS ES).
Implicit Types w : W.

(** The embedded packet lies inside the data, after the ICMP header. *)
Lemma embedded4_spec buf p typ :
  wf4 buf p -> p_proto p = protoICMP ->
  owp (embedded4 buf p typ) (fun o => match o with
    | None => True
    | Some em => slice_ok buf em /\ s_off em = s_off (p_data p) + 8
    end).
Proof.
  intros Hp Hpr. pose proof (wf4_data_ok _ _ Hp) as Hd. pose proof (wf4_icmp _ _ Hp) as Hic.
  rewrite Hpr in Hic. destruct Hic as (Hic & H8 & _).
  assert (len (oview buf (p_icmp p)) = 8) as Hl.
  { rewrite Hic. apply len_view. destruct Hd as (?&?&?). unfold slice_ok. simpl. lia. }
  unfold embedded4, icmpHdrLen, icmpWord. destruct Hd as (D1 & D2 & D3).
  do 2 ostep; [|ostep; unfold slice_ok; simpl; lia]. ostep. cbv zeta. ostep.
  - ostep; [by ostep|]. bool_prop. cbn [s_len] in *.
    assert (0 <= Z.land (Z.shiftr (w32 (oview buf (p_icmp p)) 4) 14) 1020) by (apply Z.land_nonneg; lia).
    ostep. ostep. unfold slice_ok. simpl. lia.
  - ostep. unfold slice_ok. simpl. lia.
Qed.

Lemma set_data_same q : set_data q (p_data q) = q.
Proof. by destruct q. Qed.

(** Cutting the embedded data to at most [max] bytes. *)
Lemma cut4_spec buf em max :
  wf4 buf em -> 8 <= max ->
  owp (if max <? s_len (p_data em) then subslice (p_data em) 0 max else Ok (p_data em)) (fun s =>
    wf4 buf (set_data em s) /\ s_off s = s_off (p_data em) /\ s_len s <= max /\
    view buf s !!! 0%nat = view buf (p_data em) !!! 0%nat).
Proof.
  intros Hem Hm. pose proof (wf4_data_ok _ _ Hem) as Hd. ostep; bool_prop.
  - ostep. rewrite Z.add_0_r, Z.sub_0_r. split; [apply wf4_cut; [done|lia]|]. split; [done|]. split; [simpl; lia|].
    rewrite view_prefix by lia. rewrite lookup_total_take_lt by lia. done.
  - ostep. rewrite set_data_same. done.
Qed.

Lemma emits_xlate4to6ICMPError t p w :
  winv w -> tr_ok t -> wf4 (w_buf w) p -> p_proto p = protoICMP ->
  emits (icmp_out4 t (w_buf w) p) (xlate4to6ICMPError t p) w.
Proof.
  intros Hw Ht Hp Hpr. pose proof (wi_bytes _ Hw) as Hb. pose proof (wf4_data_ok _ _ Hp) as Hds.
  pose proof (wf4_icmp _ _ Hp) as Hic. rewrite Hpr in Hic. destruct Hic as (Hic & H8 & _).
  pose proof (len_view _ _ Hds) as Hdl. pose proof (wf4_ev _ _ Hp) as Hev.
  pose proof (wf4_ip_len _ _ Hp) as Hil. pose proof (wf4_hl _ _ Hp) as Hhl.
  assert (oview (w_buf w) (p_icmp p) = take 8 (view (w_buf w) (p_data p))) as Hiv.
  { rewrite Hic. cbn [oview]. by rewrite view_prefix by lia. }
  assert (length (take 8 (view (w_buf w) (p_data p))) = 8%nat) as Hi8 by (rewrite length_take; unfold len in *; lia).
  unfold xlate4to6ICMPError, ip4TotalLen, icmpWord. apply wp_bind, wp_gets. cbv zeta. rewrite Hiv.
  do 2 wstep. rewrite !lookup_total_take_lt by lia.
  apply wp_bind, wp_lift. eapply owp_mono; [by apply embedded4_spec|].
  intros [s|] Hs; [|apply (emits_event _ 4); auto]. destruct Hs as [Hs Hso].
  apply wp_bind, wp_lift. eapply owp_mono; [by apply parseIPv4_spec|].
  intros [em r] (Hraw & _ & Hwf). case_bool_decide as Hrn; [apply (emits_event _ 4); auto|].
  specialize (Hwf Hrn). apply wp_bind, wp_lift. eapply owp_mono; [by apply not_echo4_spec|].
  intros [] Hech; [apply (emits_event _ 4); auto|]. assert (Hech' := not_echo4_false _ _ (eq_sym Hech)). clear Hech. rename Hech' into Hech.
  change (mtuMin - 2 * ipv6HdrLen - icmpHdrLen) with 1192.
  apply wp_bind, wp_lift. eapply owp_mono; [by apply cut4_spec|].
  intros emd (Hem & Hemo & Heml & Hem0). cbv zeta beta. set (em' := set_data em emd) in *.
  pose proof (wf4_ip_len _ _ Hem) as Heil. pose proof (wf4_hl _ _ Hem) as Hehl. cbn [p_hdrLen em' set_data] in Heil, Hehl.
  pose proof (wf4_ip_bytes _ em' Hb) as Heib. pose proof (wf4_ip_bytes _ p Hb) as Hib.
  change (p_ip em) with (p_ip em') in *. change (p_hdrLen em) with (p_hdrLen em').
  set (emip := oview (w_buf w) (p_ip em')) in *. set (ip := oview (w_buf w) (p_ip p)) in *.
  wstep. apply emits_map4; [done|eauto with clatto|rewrite length_take, length_drop; unfold len in *; lia|].
  intros emSrc w1 Hw1 B1 M1. unfold emits; wstep.
  apply emits_map4; [done|eauto with clatto|rewrite length_take, length_drop; unfold len in *; lia|].
  intros emDst w2 Hw2 B2 M2. rewrite B1 in B2.
  destruct emSrc as [emSrc|]; [|apply (emits_event _ 4); rewrite ?B2; auto].
  destruct emDst as [emDst|]; [|apply (emits_event _ 4); rewrite ?B2; auto].
  destruct (mapped4_ok _ _ _ _ M1) as [Esb Esl], (mapped4_ok _ _ _ _ M2) as [Edb Edl].
  unfold emits. wstep. apply wp_bind, wp_lift. rewrite header4to6_ok by (done || (fold emip; lia)). apply owp_ok.
  fold emip (next_header em'). wstep.
  replace (w32 (take 8 (view (w_buf w) (p_data p))) 4) with (w32 (view (w_buf w) (p_data p)) 4)
    by (unfold w32; rewrite skipn_firstn_comm, take_take; done).
  destruct (icmp_switch4 _ _ _ _ _) as [[[ty co] wo]|] eqn:Hsw; [|apply (emits_event _ 4); rewrite ?B2; auto].
  set (inner := ip6_header _ _ _ _ _ _).
  assert (length inner = 40%nat) as Hinl by by apply length_ip6_header.
  assert (bytes_ok inner) as Hinb.
  { apply bytes_ok_ip6_header; eauto with clatto. by eapply next_header_ok. }
  apply wp_bind. eapply wp_mono; [apply (payload4to6_spec t em' inner emSrc emDst w2)|]; rewrite ?B2; try done.
  { by apply ip6_header_addrs. }
  { intros Hicmp. left. cbn [p_data em' set_data]. rewrite Hem0. by apply Hech. }
  intros r3 w3 (d' & [E3 _ V3] & _ & Hok). fold emip in Hok.
  apply (emits_from _ (s_off (p_data em')) []); [apply (wf4_data_ok _ _ Hem)|exact E3|].
  pose proof (evo_inv _ _ _ _ _ E3) as Hw3. rewrite <- B2 in Hp, Hem.
  pose proof (wf4_off _ _ Hp) as Ho1. pose proof (wf4_off _ _ Hem) as Ho2.
  assert (s_off (p_raw p) + p_hdrLen p <= s_off (p_data em')) as Hk.
  { rewrite Ho2. change (p_raw em') with (p_raw em). change (p_hdrLen em') with (p_hdrLen em). rewrite Hraw. lia. }
  pose proof (wf4_evolves _ _ _ _ _ _ Hp Hk E3) as Hp3.
  pose proof (wf4_evolves_ip _ _ _ _ _ _ Hp Hk E3) as Hip3. rewrite B2 in Hip3. fold ip in Hip3.
  pose proof (wf4_ev _ _ Hp3) as Hev3.
  case_bool_decide as Hr3; [apply (emits_event _ 4); auto|]. specialize (Hok Hr3).
  assert (len d' = s_len (p_data em')) as Hdl'.
  { rewrite <- V3. apply len_view. eapply evolves_slice; [exact E3|]. by apply wf4_data_ok. }
  assert (bytes_ok d') as Hdb'. { rewrite <- V3. destruct Hw3. eauto with clatto. }
  unfold emits. wstep.
  apply emits_map4; [done|eauto with clatto|rewrite length_take, length_drop; unfold len in *; lia|].
  intros src6 w4 Hw4 B4 M4.
  apply wp_bind. eapply wp_mono; [apply (wp_source 4 _ _ _ 16); [done|auto|by rewrite B4|apply Ht|apply Ht|]|].
  { destruct src6; [by eapply mapped4_ok|done]. }
  clear src6 M4. intros src6 w5 (Sb & Sl & B5 & os5 & E5). rewrite B4 in B5.
  apply (emits_from _ 0 os5); [done|done|]. pose proof (evo_inv _ _ _ _ _ E5) as Hw5.
  unfold emits. wstep. apply emits_map4; [done|eauto with clatto|rewrite length_take, length_drop; unfold len in *; lia|].
  intros dst6 w6 Hw6 B6 M6. rewrite B5 in B6.
  destruct dst6 as [dst6|]; [|apply (emits_event _ 4); rewrite ?B6; auto].
  destruct (mapped4_ok _ _ _ _ M6) as [Db Dl]. unfold emits. cbv zeta. apply wp_bind, wp_gets. rewrite B6, V3.
  assert (len d' <= 1192) as Hd'. { rewrite Hdl'. exact Heml. }
  pose proof (len_nonneg d') as Hd0.
  destruct (pseudo6_spec src6 dst6 (48 + len d') 58) as (ps & Eps & _); try done.
  1-3: unfold len in *; lia.
  pose proof (IcmpOut4 t (w_buf w) p em' src6 dst6 emSrc emDst d' ty co wo ps) as Hout.
  rewrite B2 in Hem. fold emip ip inner in Hout.
  assert (Hgood := Hout Hem ltac:(intros Hicmp; cbn [p_data em' set_data]; rewrite Hem0; by apply Hech)
    Hsw Sb Sl Db Dl Esb Esl Edb Edl Hdl' Hdb' Hd' Hok Eps). clear Hout.
  unfold ipv6HdrLen, icmpHdrLen. change (40 + 8 + 40) with 88. rewrite <- Hdl'.
  set (out := _ ++ icmp_msg_ck _ _ _ _ _) in Hgood.
  assert (len out = 88 + len d') as Hol.
  { unfold out. rewrite !len_app, len_icmp_msg_ck, len_app, len_ip6_header by done.
    unfold inner. rewrite len_ip6_header by done. lia. }
  apply wp_bind. eapply (wp_emit_pure _ _ out); [lia|done|done|..].
  - intros b Hbl. rewrite (icmp_err6_fill_ok _ _ _ _ _ _ _ _ _ _ ps); try done; try (rewrite Hip3; lia).
    rewrite Hip3, Hpr, u16_small by lia. done.
  - intros w7 E7 _ _. apply wp_modify. eexists _, _.
    split; [|by apply Forall_singleton].
    exact (evolves_trans 0 _ _ [] _ _ _ _ (evolves_zero _ _ _ _ _ (len_nonneg _) E7)
             (evolves_translated 0 4 _ w7 (evo_inv _ _ _ _ _ E7))).
  - intros w7 E7 _ _. apply wp_skip. exists [], []. split; [|done].
    exact (evolves_zero _ _ _ _ _ (len_nonneg _) E7).
Qed.

(** ** Dispatch *)

(** What may be emitted for the IPv4 packet [p]. *)
Inductive answer4 (t : Translator) w (p : pkt) (b : list Z) : Prop :=
  | answer4_reply : reply4 t (w_buf w) p b -> answer4 t w p b
  | answer4_data all : translated4 t w p all -> b ∈ all -> answer4 t w p b
  | answer4_icmp : p_proto p = protoICMP -> icmp_out4 t (w_buf w) p b -> answer4 t w p b.

Lemma refused4_replies t w p kind reason replies :
  wf4 (w_buf w) p -> refused4 t w p kind reason replies -> Forall (reply4 t (w_buf w) p) replies.
Proof.
  intros Hp [m1 [] ?|m1 m2 d6 [] ? ?| |]; cbn [unmappable_error]; try constructor; by apply errors4_reply.
Qed.

Lemma data_result4_answers t w p outs os :
  wf4 (w_buf w) p -> data_result4 t w p outs os -> Forall (answer4 t w p) outs.
Proof.
  intros Hp [kind reason replies e Hr _ _ _|all o s Htr -> _]; apply accepted_Forall.
  - eapply Forall_impl; [by eapply refused4_replies|]. intros b. by apply answer4_reply.
  - apply Forall_forall. intros b Hb. by eapply answer4_data.
Qed.

Lemma emits_handleIPv4 t raw w :
  winv w -> tr_ok t -> slice_ok (w_buf w) raw -> 0 < s_len raw ->
  Z.shiftr (view (w_buf w) raw !!! 0%nat) 4 = 4 ->
  emits (fun b => exists p, parseIPv4 (w_buf w) (new_pkt raw) = Ok (p, ReasonNone) /\ answer4 t w p b)
    (handleIPv4 t raw) w.
Proof.
  intros Hw Ht Hs Hne Hver. pose proof (wi_bytes _ Hw) as Hb. unfold handleIPv4.
  apply wp_bind, wp_gets, wp_bind, wp_lift.
  pose proof (parseIPv4_spec _ _ Hb Hs) as Hspec. apply owp_run in Hspec as ([p r] & Hparse & Hraw & Hev & Hwf).
  rewrite Hparse. apply owp_ok. specialize (Hev Hne Hver).
  case_bool_decide as Hr; [apply (emits_event _ 4); auto|]. specialize (Hwf Hr). subst r. cbv zeta.
  pose proof (wf4_ip_len _ _ Hwf) as Hil. pose proof (wf4_hl _ _ Hwf) as Hhl.
  apply (emits_mono (answer4 t w p)); [|intros b Hans; by exists p].
  unfold ip4TotalLen, emits. do 2 wstep. set (ip := oview (w_buf w) (p_ip p)) in *.
  pose proof (w16_range ip 2 (wf4_ip_bytes _ p Hb)) as Htot.
  destruct (_ || _ || _) eqn:Einv; [apply (emits_event _ 4); auto|]. bool_prop. destruct_and!.
  case_if; [apply (emits_event _ 4); auto|]. wstep.
  assert (forall kind reason typ code word, byte_ok typ -> byte_ok code ->
    emits (answer4 t w p) (event p kind reason;; sendICMPv4Error t typ code word p) w) as Herr.
  { intros kind reason typ code word Hty Hco. apply (emits_event_bind _ 4); [done|auto|done|].
    intros w' Hw' B' _. eapply sends_emits; [apply sends_sendICMPv4Error; rewrite ?B'; done|].
    rewrite B'. eapply Forall_impl; [by apply errors4_reply|]. intros b. by apply answer4_reply. }
  destruct (bool_decide (_ = t_local4 t)).
  { destruct (p_proto p =? protoICMP) eqn:Ep; [|by apply Herr]. bool_prop.
    eapply emits_mono; [apply emits_hostICMPv4; try done; lia|]. intros b. by apply answer4_reply. }
  destruct (_ =? 1) eqn:Ettl; [by apply Herr|].
  apply wp_bind, wp_lift. apply owp_mono with (Q := fun b : bool =>
    if b then p_proto p = protoICMP -> view (w_buf w) (p_data p) !!! 0%nat = 8 \/ view (w_buf w) (p_data p) !!! 0%nat = 0
    else p_proto p = protoICMP).
  { destruct (p_proto p =? protoICMP) eqn:Ep; cbn [negb]; [|apply owp_ok; bool_prop; done].
    pose proof (wf4_icmp _ _ Hwf) as Hic. rewrite Ep in Hic. destruct Hic as (Hic & H8 & _).
    rewrite Hic. cbn [oview]. rewrite view_prefix by lia. fold_consts.
    pose proof (len_view _ _ (wf4_data_ok _ _ Hwf)) as Hd.
    assert (length (take 8 (view (w_buf w) (p_data p))) = 8%nat) by (rewrite length_take; unfold len in *; lia).
    do 2 wstep. rewrite lookup_total_take_lt by lia. bool_prop. case_if; [|done]. bool_prop. auto. }
  intros [] Hdata.
  - eapply wp_mono; [by apply xlate4to6Data_spec|]. intros _ w' (o & s & Ev & R).
    exists o, s. split; [done|]. by eapply data_result4_answers.
  - eapply emits_mono; [by apply emits_xlate4to6ICMPError|]. intros b. by apply answer4_icmp.
Qed.

(** Every answer is a well-formed packet. *)
Lemma answer4_good t w p b :
  winv w -> tr_ok t -> wf4 (w_buf w) p -> answer4 t w p b ->
  reply4 t (w_buf w) p b \/ (good6 b /\ len b <= MTU (t_cfg t)).
Proof.
  intros Hw Ht Hp [Hr|all Htr Hin|_ Ho]; [by left|right|right].
  - destruct Htr as [m1 m2 src6 dst6 d M1 M2 Hfit Hdl Hdb _].
    destruct (mapped4_ok _ _ _ _ M1), (mapped4_ok _ _ _ _ M2). pose proof (wi_bytes _ Hw) as Hb.
    pose proof (wf4_total _ _ Hp) as Htot. pose proof (wf4_ip_bytes _ p Hb) as Hib.
    pose proof (w16_range _ 2 Hib). pose proof (wf4_hl _ _ Hp).
    assert (Forall (fun b => good6 b /\ len b <= MTU (t_cfg t))
      (out4 t (oview (w_buf w) (p_ip p)) p src6 dst6 d)) as F.
    { apply out4_good; try done; try apply Hp; try lia. intros Hdf.
      unfold too_big4 in Hfit. rewrite Hdf in Hfit. cbn [andb] in Hfit. bool_prop. unfold mtuAdj in *. lia. }
    rewrite Forall_forall in F. by apply F.
  - pose proof (tr_mtu t Ht). destruct (icmp_out4_good t (w_buf w) p b) as [? ?]; try done; [apply Hw|].
    split; [done|]. lia.
Qed.
End icmp4.

Lemma ip4_header_dst tos total id fo ttl proto src dst rest :
  length src = 4%nat -> length dst = 4%nat ->
  take 4 (drop 16 (ip4_header_ck tos total id fo ttl proto src dst ++ rest)) = dst.
Proof. intros Hs Hd. explode Hs. explode Hd. done. Qed.

(** Replies are well-formed IPv4 packets, no longer than the minimum MTU's 576
    bytes or the echo request, and go to the sender. *)
Lemma reply4_good t buf p b :
  tr_ok t -> bytes_ok buf -> wf4 buf p -> reply4 t buf p b ->
  good4 b /\ len b <= Z.max 576 (s_len (p_raw p)) /\
  take 4 (drop 16 b) = take 4 (drop 12 (view buf (p_raw p))).
Proof.
  intros Ht Hb Hp Hr. pose proof (wf4_hl _ _ Hp) as Hhl. pose proof (wf4_dlen _ _ Hp) as Hdl.
  pose proof (len_view _ _ (wf4_raw _ _ Hp)) as Hrl.
  assert (bytes_ok (view buf (p_raw p))) as Hrb by eauto with clatto.
  pose proof (wf4_total _ _ Hp) as Htot. pose proof (wf4_ip_bytes _ p Hb) as Hib. pose proof (w16_range _ 2 Hib).
  destruct Hr as [typ code word n Hic Hty Hco Hn Hnl|Hpr H8].
  - unfold icmp_error4. set (q := take (Z.to_nat n) _).
    assert (len q = n) as Hq by (subst q; unfold len in *; rewrite length_take; lia).
    assert (length (take 4 (drop 12 (view buf (p_raw p)))) = 4%nat) as Hd4
      by (rewrite length_take, length_drop; unfold len in *; lia).
    split; [|split].
    + apply good4_layout; try apply Ht; eauto with clatto; try done; try (rewrite len_icmp_msg_ck; lia); try lia.
      apply bytes_ok_icmp_msg; [done..|]. subst q. eauto with clatto.
    + rewrite len_app, len_ip4_header_ck, len_icmp_msg_ck by (done || apply Ht). lia.
    + apply ip4_header_dst; [apply Ht|done].
  - pose proof (wf4_icmp _ _ Hp) as Hic. rewrite Hpr in Hic. destruct Hic as (_ & H8' & _).
    pose proof (len_view _ _ (wf4_data_ok _ _ Hp)) as Hd. pose proof (wf4_ip_len _ _ Hp) as Hil.
    unfold echo_reply4. rewrite Hd. rewrite <- (ip_prefix buf p 12 4) by (done || lia).
    assert (bytes_ok (view buf (p_data p))) as Hdb by eauto with clatto.
    assert (forall i, (i + 4 <= 20)%nat -> length (take 4 (drop i (oview buf (p_ip p)))) = 4%nat) as H4
      by (intros; rewrite length_take, length_drop; unfold len in *; lia).
    assert (len (drop 8 (view buf (p_data p))) = s_len (p_data p) - 8) as Hpl
      by (unfold len in *; rewrite length_drop; lia).
    split; [|split].
    + apply good4_layout; eauto with clatto; try done; try (rewrite len_icmp_msg_ck; lia); try (apply H4; lia); try lia.
      apply bytes_ok_icmp_msg; eauto with clatto. by split.
    + rewrite len_app, len_ip4_header_ck, len_icmp_msg_ck by (apply H4; lia). lia.
    + apply ip4_header_dst; apply H4; lia.
Qed.
