(* ===== verification/Xlate6Facts.v ===== *)
(** * IPv6 to IPv4: lemmas about the functions of [Xlate6] *)

From stdpp Require Import base tactics list numbers option strings.
From Stdlib Require Import ZArith Lia.
From S2P Require Import Prelude Netip Netutil Checksum Events Packet Layout Translator TranslatorFacts Xlate4 Xlate6 Fills Transport Xlate4Facts.

Open Scope Z_scope.
Local Open Scope clatto_scope.

(** ** Parsed packets *)

Section wf6_facts.
Context (buf : list Z) (p : pkt) (Hb : bytes_ok buf) (Hp : wf6 buf p).

Lemma wf6_ip_ok : slice_ok buf (Slc (s_off (p_raw p)) 40).
Proof. destruct Hp as [(?&?&?) ? ? ? ? ? ?]. unfold slice_ok. simpl. lia. Qed.

Lemma wf6_data_ok : slice_ok buf (p_data p).
Proof. destruct Hp as [(?&?&?) ? ? ? ? ? ?]. unfold slice_ok. simpl. lia. Qed.

Lemma wf6_ip_len : len (oview buf (p_ip p)) = 40.
Proof. rewrite (wf6_ip _ _ Hp). cbn [oview]. rewrite len_view; [done|apply wf6_ip_ok]. Qed.

Lemma wf6_ip_bytes : bytes_ok (oview buf (p_ip p)).
Proof. eauto with clatto. Qed.

Lemma wf6_ev : ev_ok buf 6 p.
Proof.
  pose proof wf6_ip_ok. destruct Hp as [(?&?&?) ? Hip ? ? ? ?]. split; try done; try lia.
  rewrite Hip. simpl. split; [done|lia].
Qed.

Lemma wf6_data_max : s_len (p_data p) <= 65535.
Proof. pose proof (wf6_pl _ _ Hp). pose proof (wf6_hl _ _ Hp). pose proof (w16_range _ 4 wf6_ip_bytes). lia. Qed.

Lemma wf6_frag_len : match p_frag p with Some f => len (view buf f) = 8 | None => True end.
Proof.
  pose proof (wf6_frag _ _ Hp) as Hf. destruct (p_frag p) as [f|]; [|done].
  destruct Hf as (Hf & Hl & _). by rewrite len_view.
Qed.

(** Cutting the data keeps the packet well formed. *)
Lemma wf6_cut n : 8 <= n <= s_len (p_data p) -> wf6 buf (set_data p (Slc (s_off (p_data p)) n)).
Proof.
  intros Hn. destruct Hp as [? ? ? ? ? ? ? ? Hfr ?]. split; psimpl; try done; try lia.
  - destruct (p_frag p); [|done]. intuition lia.
  - destruct (p_proto p =? protoICMPv6); [|done]. intuition lia.
Qed.
End wf6_facts.

Section wf6_moves.
Context {MS ES : Type} {HM : Mapper MS} {HML : MapperLaws MS} {HE : Emitter ES} {HEL : EmitterLaws ES}.
Local Abbreviation W := (world MS ES).
Implicit Types w : W.

(** Changes to the data, or past it, leave the headers as they were parsed. *)
Lemma wf6_evolves_ip p k o s w w' :
  wf6 (w_buf w) p -> s_off (p_raw p) + 40 + p_hdrLen p <= k -> evolves k o s w w' ->
  oview (w_buf w') (p_ip p) = oview (w_buf w) (p_ip p).
Proof.
  intros Hp Hk E. pose proof (wf6_ip_ok _ _ Hp) as (S1 & S2 & _). pose proof (wf6_hl _ _ Hp).
  rewrite (wf6_ip _ _ Hp). cbn [oview]. apply (evolves_view _ _ _ _ _ _ E); simpl in *; lia.
Qed.

Lemma wf6_evolves_frag p k o s w w' :
  wf6 (w_buf w) p -> s_off (p_raw p) + 40 + p_hdrLen p <= k -> evolves k o s w w' ->
  oview (w_buf w') (p_frag p) = oview (w_buf w) (p_frag p).
Proof.
  intros Hp Hk E. pose proof (wf6_frag _ _ Hp) as Hf. pose proof (wf6_off _ _ Hp).
  destruct (p_frag p) as [f|]; [|done]. destruct Hf as ((F1 & F2 & F3) & F4 & F5 & F6 & F7).
  cbn [oview]. apply (evolves_view _ _ _ _ _ _ E); lia.
Qed.

Lemma wf6_evolves p k o s w w' :
  wf6 (w_buf w) p -> s_off (p_raw p) + 40 + p_hdrLen p <= k -> evolves k o s w w' -> wf6 (w_buf w') p.
Proof.
  intros Hp Hk E. pose proof (wf6_evolves_ip _ _ _ _ _ _ Hp Hk E) as Hip.
  pose proof (wf6_evolves_frag _ _ _ _ _ _ Hp Hk E) as Hfv.
  pose proof (evolves_slice _ _ _ _ _ _ E (wf6_raw _ _ Hp)) as Hr.
  destruct Hp as [R V I HL O D T P F C]. split; rewrite ?Hip; try done.
  - etransitivity; [|exact V]. f_equal. change 0%nat with (Z.to_nat 0). rewrite !view_lookup by (done || lia).
    destruct R as (R1 & R2 & R3). apply (evolves_lookup _ _ _ _ _ _ E). lia.
  - destruct (p_frag p) as [f|]; [|done]. cbn [oview] in Hfv. rewrite Hfv.
    destruct F as (F1 & F2). split; [by eapply evolves_slice|done].
  - destruct (p_frag p) as [f|]; [|done]. cbn [oview] in Hfv. by rewrite Hfv.
Qed.
End wf6_moves.

(** ** The transport header *)

(** Whether the packet is a non-first fragment. *)
Definition later6 (buf : list Z) (p : pkt) : bool :=
  match p_frag p with
  | None => false
  | Some f => negb (Z.land (w16 (view buf f) 2) ip6FragMask =? 0)
  end.

(** What [payload6to4] does to the data [d] when it succeeds. *)
Definition payload_ok6 (mode : UDPChecksumMode) (buf src4 dst4 : list Z) (p : pkt) (d d' : list Z) : Prop :=
  let ip := oview buf (p_ip p) in
  let a6 := wsum (take 32 (drop 8 ip)) in
  let a4 := wsum (src4 ++ dst4) in
  if later6 buf p then d' = d
  else if p_proto p =? protoICMPv6 then
    retype d d' (if d !!! 0%nat =? 128 then 8 else 0) (a6 + (w16 ip 4 - p_hdrLen p) + protoICMPv6) 0
  else if p_proto p =? protoUDP then
    8 <= len d /\
    if w16 d 6 =? 0 then
      match mode with
      | UDPChecksumForward => d' = d
      | UDPChecksumCalc => w16 d' 6 <> 0 /\ exists ck, 0 <= ck < 65536 /\
          d' = splice d 6 (be_bytes 2 ck) /\ a4 + len d + protoUDP + wsum d' ≡₁ 0
      | UDPChecksumDrop => False
      end
    else refit d d' 6 a6 a4 /\ w16 d' 6 <> 0
  else if p_proto p =? protoTCP then 20 <= len d /\ refit d d' 16 a6 a4
  else d' = d.

Definition reject6 (mode : UDPChecksumMode) (buf : list Z) (p : pkt) (d : list Z) : Reason :=
  if later6 buf p then ReasonNone
  else if p_proto p =? protoUDP then
    if len d <? 8 then ReasonUDPHeaderLength
    else if (w16 d 6 =? 0) && bool_decide (mode = UDPChecksumDrop) then ReasonUDPZeroChecksum
    else ReasonNone
  else if p_proto p =? protoTCP then
    if len d <? 20 then ReasonTCPHeaderLength else ReasonNone
  else ReasonNone.

Section payload6.
Context {MS ES : Type} {HM : Mapper MS} {HML : MapperLaws MS} {HE : Emitter ES} {HEL : EmitterLaws ES}.
Local Abbreviation W := (world MS ES).
Implicit Types w : W.

Lemma addr_sum4 h : length h = 20%nat ->
  wsum (take 4 (drop 12 h)) + wsum (take 4 (drop 16 h)) = wsum (take 8 (drop 12 h)).
Proof. intros Hl. explode Hl. simpl. lia. Qed.

Lemma later6_spec buf p :
  wf6 buf p ->
  owp (match p_frag p with
       | None => Ok false
       | Some f => of_ ← fragOffFlags (view buf f); Ok (negb (Z.land of_ ip6FragMask =? 0))
       end) (eq (later6 buf p)).
Proof.
  intros Hp. pose proof (wf6_frag_len _ _ Hp) as Hf. unfold later6.
  destruct (p_frag p) as [f|]; [|by apply owp_ok]. unfold fragOffFlags. do 2 ostep. done.
Qed.

Lemma payload6to4_spec t p h src4 dst4 w :
  winv w -> wf6 (w_buf w) p -> length h = 20%nat -> bytes_ok h ->
  take 8 (drop 12 h) = src4 ++ dst4 ->
  (p_proto p = protoICMPv6 -> view (w_buf w) (p_data p) !!! 0%nat = 128 \/ view (w_buf w) (p_data p) !!! 0%nat = 129) ->
  wp (payload6to4 t p h) (fun r w' => exists d', wrote (p_data p) d' w w' /\
    r = reject6 (UDPChecksum (t_cfg t)) (w_buf w) p (view (w_buf w) (p_data p)) /\
    (r = ReasonNone -> payload_ok6 (UDPChecksum (t_cfg t)) (w_buf w) src4 dst4 p
                         (view (w_buf w) (p_data p)) d')) w.
Proof.
  intros Hw Hp Hh Hhb Hadr Hty. pose proof (wi_bytes w Hw) as Hb.
  pose proof (wf6_ip_len _ _ Hp) as Hil. pose proof (wf6_ip_bytes _ p Hb) as Hib.
  pose proof (wf6_data_ok _ _ Hp) as Hds. pose proof (len_view _ _ Hds) as Hdl.
  pose proof (wf6_data_max _ _ Hb Hp) as Hdm.
  pose proof (wrote_refl (p_data p) w Hw) as Hsame. pose proof (len_of _ _ Hh) as Hhl.
  pose proof (w16_range _ 4 Hib) as Htot. pose proof (later6_spec _ _ Hp) as Hlat.
  destruct Hp as [R V I HL O D T P F C].
  unfold payload6to4, payload_ok6, reject6, ip6PayloadLen. rewrite <- Hadr. apply wp_bind, wp_gets. cbv zeta.
  set (ip := oview (w_buf w) (p_ip p)) in *.
  apply wp_bind, wp_lift. eapply owp_mono; [exact Hlat|]. intros ? <-.
  case_if; [by apply wp_ret; eexists|].
  destruct (p_proto p =? protoICMPv6) eqn:Ep.
  { destruct C as (C1 & C2 & C3). apply Z.eqb_eq in Ep. specialize (Hty Ep).
    do 3 wstep. change (40 - 24) with 16. change (24 - 8) with 16.
    destruct (pseudo6_spec (take 16 (drop 8 ip)) (take 16 (drop 24 ip)) (w16 ip 4 - p_hdrLen p) 58)
      as (ps & Eps & Sps & Qps & _).
    1-6: try (unfold byte_ok); eauto with clatto; unfold len in *; rewrite ?length_take, ?length_drop; lia.
    fold_consts. unfold protoICMPv6 in *. rewrite Eps. wstep. rewrite C1. cbn [oview].
    rewrite (view_prefix _ _ 8) by lia.
    set (d := view (w_buf w) (p_data p)) in *. fold_consts.
    assert (length (take 8 d) = 8%nat) as H8 by (rewrite length_take; unfold len in *; lia).
    do 2 wstep. rewrite lookup_total_take_lt by lia. rewrite w16_take by lia.
    set (ty := d !!! 0%nat) in *. set (ty' := if ty =? 128 then 8 else 0).
    set (delta := (ty - ty') * 256).
    assert (0 <= delta < 65536) as Hdelta by (subst delta ty'; destruct Hty as [-> | ->]; simpl; lia).
    destruct (icmp_update_sub (w16 d 2) ps delta) as [Rk Ek]; [apply w16_range; eauto with clatto|done|done|].
    assert (Hsum := retype_sum d ty' _ ltac:(unfold len in *; lia) Rk). fold ty in Hsum.
    assert (retype d (splice (splice d 0 [ty']) 2 (be_bytes 2
      (not16 (fold (u64 (u64 (not16 (w16 d 2) + not16 (fold ps)) + not16 delta)))))) ty'
      (wsum (take 32 (drop 8 ip)) + (w16 ip 4 - p_hdrLen p) + 58) 0) as Hre.
    { eexists. split; [exact Rk|]. split; [done|]. rewrite <- addr_sum6 by (unfold len in *; lia).
      rewrite !take_take in Qps. cbn [Nat.min] in Qps. subst delta. eqm_lia. }
    subst delta ty'. destruct (ty =? 128) eqn:E8.
    all: apply (wp_retype w (p_data p) Hw Hds); [done|by split|]; intros w' W'; eexists;
      split; [exact W'|]; rewrite Ep; split; [done|intros _]; destruct Hty as [Hty | Hty]; rewrite Hty in *; done. }
  destruct (p_proto p =? protoUDP) eqn:Eu.
  { rewrite Hdl. case_if; [by apply wp_ret; eexists|]. bool_prop. wstep.
    assert (8 <= len (view (w_buf w) (p_data p))) as H8 by lia.
    case_if; [destruct (UDPChecksum (t_cfg t))|].
    - by apply wp_ret; eexists.
    - do 2 wstep.
      destruct (pseudo4_spec (take 4 (drop 12 h)) (take 4 (drop 16 h)) (s_len (p_data p)) 17)
        as (ps & Eps & Sps & Qps & _).
      1-6: try (unfold byte_ok); eauto with clatto; unfold len in *; rewrite ?length_take, ?length_drop; lia.
      change (20 - 16) with 4. change (16 - 12) with 4.
      fold_consts. unfold protoUDP in *. rewrite Eps. wstep. bool_prop.
      eapply wp_mono; [by apply wp_calc|]. intros r w' (-> & d' & H1 & H2 & ck & H3 & H4 & H5).
      exists d'. split; [done|]. split; [done|]. intros _. split; [done|]. split; [done|]. exists ck.
      do 2 (split; [done|]). rewrite <- addr_sum4 by done.
      rewrite !take_take in Qps. cbn [Nat.min] in Qps. eqm_lia.
    - by apply wp_ret; eexists.
    - do 3 wstep. fold_consts. change (40 - 8) with 32. change (20 - 12) with 8. fold_consts.
      eapply wp_mono; [apply (wp_refit w (p_data p) Hw Hds true 6); eauto with clatto; try lia|].
      { by exists 3%nat. }
      1-2: unfold len; rewrite length_take; lia.
      intros r w' (-> & d' & H1 & H2 & H3). exists d'. split; [done|]. split; [done|]. intros _. split; [done|]. by split; [|apply H3]. }
  destruct (p_proto p =? protoTCP) eqn:Et.
  { rewrite Hdl. case_if; [by apply wp_ret; eexists|]. bool_prop. do 3 wstep.
    fold_consts. change (40 - 8) with 32. change (20 - 12) with 8. fold_consts.
    eapply wp_mono; [apply (wp_refit w (p_data p) Hw Hds false 16); eauto with clatto; try lia|].
    { by exists 8%nat. }
    1-2: unfold len; rewrite length_take; lia.
    intros r w' (-> & d' & H1 & H2 & H3). exists d'. split; [done|]. split; [done|]. intros _. split; [lia|done]. }
  by apply wp_ret; eexists.
Qed.
End payload6.

(** ** Packets sent back to the IPv6 sender *)

(** An ICMPv6 error about the packet [raw], and the reply to the echo request
    [d] with header [ip]; [ps] is the sum of the pseudo-header. *)
Definition icmp_error6 (t : Translator) (raw : list Z) (typ code word n ps : Z) : list Z :=
  ip6_header 0 (8 + n) 58 64 (t_local6 t) (take 16 (drop 8 raw)) ++
  icmp_msg_ck typ code word ps (take (Z.to_nat n) raw).

Definition echo_reply6 (ip d : list Z) (ps : Z) : list Z :=
  ip6_header (u8 (Z.shiftr (w32 ip 0) 20)) (len d) 58 64 (take 16 (drop 24 ip)) (take 16 (drop 8 ip)) ++
  icmp_msg_ck 129 (d !!! 1%nat) (w32 d 4) ps (drop 8 d).

Inductive reply6 (t : Translator) (buf : list Z) (p : pkt) : list Z -> Prop :=
  | reply6_error typ code word n ps :
      (p_proto p = protoICMPv6 -> view buf (p_data p) !!! 0%nat = 128) ->
      byte_ok typ -> byte_ok code -> 40 <= n <= 1232 -> n <= s_len (p_raw p) ->
      pseudo6 (t_local6 t) (take 16 (drop 8 (view buf (p_raw p)))) (8 + n) protoICMPv6 = Ok ps ->
      reply6 t buf p (icmp_error6 t (view buf (p_raw p)) typ code word n ps)
  | reply6_echo ps :
      p_proto p = protoICMPv6 -> view buf (p_data p) !!! 0%nat = 128 ->
      pseudo6 (take 16 (drop 24 (oview buf (p_ip p)))) (take 16 (drop 8 (oview buf (p_ip p))))
        (s_len (p_data p)) protoICMPv6 = Ok ps ->
      reply6 t buf p (echo_reply6 (oview buf (p_ip p)) (view buf (p_data p)) ps).

(** The ICMPv6 header of a packet is the head of its data. *)
Lemma wf6_icmp_view buf p :
  wf6 buf p -> p_proto p = protoICMPv6 ->
  oview buf (p_icmp p) = take 8 (view buf (p_data p)) /\ length (take 8 (view buf (p_data p))) = 8%nat /\
  8 <= s_len (p_data p).
Proof.
  intros Hp Hpr. pose proof (wf6_icmp _ _ Hp) as Hic. rewrite Hpr in Hic. destruct Hic as (Hic & H8 & _).
  pose proof (len_view _ _ (wf6_data_ok _ _ Hp)) as Hd. rewrite Hic. cbn [oview].
  split; [by rewrite view_prefix by lia|]. split; [|done]. rewrite length_take. unfold len in *. lia.
Qed.

(** The error the translator offers to send back for [p]: none about an ICMPv6
    message other than an echo request, else one that quotes as much as fits in
    the minimum MTU. *)
Definition not_echo6 (buf : list Z) (p : pkt) : bool :=
  (p_proto p =? protoICMPv6) && negb (view buf (p_data p) !!! 0%nat =? 128).
Definition errors6 (t : Translator) (buf : list Z) (p : pkt) (typ code word : Z) : list (list Z) :=
  if not_echo6 buf p then [] else
  let n := Z.min 1232 (40 + p_hdrLen p + s_len (p_data p)) in
  match pseudo6 (t_local6 t) (take 16 (drop 8 (view buf (p_raw p)))) (8 + n) protoICMPv6 with
  | Ok ps => [icmp_error6 t (view buf (p_raw p)) typ code word n ps]
  | _ => []
  end.

Lemma not_echo6_spec buf p :
  wf6 buf p ->
  owp (if p_proto p =? protoICMPv6 then ty ← at_ (oview buf (p_icmp p)) 0; Ok (negb (ty =? 128)) else Ok false)
    (fun b => b = not_echo6 buf p).
Proof.
  intros Hp. unfold not_echo6. destruct (p_proto p =? protoICMPv6) eqn:Ep; [|by apply owp_ok].
  apply Z.eqb_eq in Ep. destruct (wf6_icmp_view _ _ Hp Ep) as (-> & H8 & _).
  do 2 wstep. by rewrite lookup_total_take_lt by lia.
Qed.

Lemma not_echo6_false buf p :
  not_echo6 buf p = false -> p_proto p = protoICMPv6 -> view buf (p_data p) !!! 0%nat = 128.
Proof. unfold not_echo6. intros E Hp. rewrite Hp, Z.eqb_refl in E. by apply negb_false_iff, Z.eqb_eq in E. Qed.

Lemma errors6_reply t buf p typ code word :
  wf6 buf p -> byte_ok typ -> byte_ok code -> Forall (reply6 t buf p) (errors6 t buf p typ code word).
Proof.
  intros Hp Hty Hco. pose proof (wf6_hl _ _ Hp). pose proof (wf6_dlen _ _ Hp).
  unfold errors6. destruct (not_echo6 buf p) eqn:E; [done|]. cbv zeta.
  destruct (pseudo6 _ _ _ _) as [ps| |] eqn:Eps; [|done..].
  apply Forall_singleton, reply6_error; [by apply not_echo6_false|done|done|lia|lia|done].
Qed.

Section send6.
Context {MS ES : Type} {HM : Mapper MS} {HML : MapperLaws MS} {HE : Emitter ES} {HEL : EmitterLaws ES}.
Local Abbreviation W := (world MS ES).
Implicit Types w : W.

Lemma sends_sendICMPv6 tc src dst typ code word payload ps w :
  winv w -> 8 + len payload < 65536 -> length src = 16%nat -> length dst = 16%nat ->
  pseudo6 src dst (8 + len payload) 58 = Ok ps ->
  sends [ip6_header tc (8 + len payload) 58 64 src dst ++ icmp_msg_ck typ code word ps payload]
    (sendICMPv6 tc src dst typ code word payload) w.
Proof.
  intros Hw Hl Hs Hd Eps. pose proof (len_nonneg payload). unfold sendICMPv6, sends.
  unfold ipv6HdrLen, icmpHdrLen. change (40 + 8) with 48.
  set (c := ip6_header _ _ _ _ _ _ ++ _).
  assert (len c = 48 + len payload) as Hc.
  { unfold c. rewrite len_app, len_ip6_header, len_icmp_msg_ck by done. lia. }
  apply wp_bind. eapply (wp_emit_pure _ _ c); [lia|done|exact Hc|..].
  - intros b Hb. rewrite (icmp6_fill_ok _ _ _ _ _ _ _ _ ps) by done. by rewrite u16_small by lia.
  - intros w' E _ Ho. apply wp_skip. unfold accepted. rewrite Ho.
    exact (evolves_zero _ _ _ _ _ (len_nonneg _) E).
  - intros w' E _ Ho. apply wp_skip. unfold accepted. rewrite Ho.
    exact (evolves_zero _ _ _ _ _ (len_nonneg _) E).
Qed.

(** The pseudo-header of a message that fits has a sum. *)
Lemma pseudo6_sum src dst n :
  bytes_ok src -> bytes_ok dst -> length src = 16%nat -> length dst = 16%nat -> 0 <= n < 65536 ->
  exists ps, pseudo6 src dst n 58 = Ok ps.
Proof.
  intros Hs Hd Hsl Hdl Hn. pose proof (len_of _ _ Hsl) as L1. pose proof (len_of _ _ Hdl) as L2. fold_consts.
  destruct (pseudo6_spec src dst n 58 Hs Hd ltac:(lia) ltac:(lia) ltac:(lia) ltac:(unfold byte_ok; lia)) as (ps & Eps & _).
  by exists ps.
Qed.

Lemma ip6_prefix buf p i n :
  wf6 buf p -> (i + n <= 40)%nat ->
  take n (drop i (oview buf (p_ip p))) = take n (drop i (view buf (p_raw p))).
Proof.
  intros Hp Hn. rewrite (wf6_ip _ _ Hp). cbn [oview]. rewrite view_prefix.
  - rewrite skipn_firstn_comm, take_take. f_equal. fold_consts. lia.
  - destruct Hp as [? ? ? HL ? D ?]. lia.
Qed.

Lemma sends_sendICMPv6Error t typ code word p w :
  winv w -> tr_ok t -> wf6 (w_buf w) p ->
  sends (errors6 t (w_buf w) p typ code word) (sendICMPv6Error t typ code word p) w.
Proof.
  intros Hw Ht Hp. pose proof (wf6_ip_len _ _ Hp) as Hil. pose proof (wf6_hl _ _ Hp) as Hhl.
  pose proof (wf6_dlen _ _ Hp) as Hdl. pose proof (len_view _ _ (wf6_raw _ _ Hp)) as Hrl.
  pose proof (wi_bytes _ Hw) as Hb.
  unfold sendICMPv6Error. apply wp_bind, wp_gets. apply wp_bind, wp_lift.
  eapply owp_mono; [by apply not_echo6_spec|]. unfold errors6.
  intros b ->. destruct (not_echo6 (w_buf w) p); [by apply sends_skip|].
  change (mtuMin - ipv6HdrLen - icmpHdrLen) with 1232. unfold ipv6HdrLen. cbv zeta.
  replace (Z.min 1232 (40 + p_hdrLen p + s_len (p_data p)))
    with (if 1232 <? 40 + p_hdrLen p + s_len (p_data p) then 1232 else 40 + p_hdrLen p + s_len (p_data p))
    by (case_if; bool_prop; lia).
  set (n := if _ <? _ then _ else _).
  assert (40 <= n <= 1232 /\ n <= s_len (p_raw p)) as [Hn Hn'] by (subst n; case_if; bool_prop; lia).
  clearbody n. do 2 wstep. change (24 - 8) with 16. rewrite Z.sub_0_r. fold_consts. rewrite ?drop_0.
  rewrite (ip6_prefix _ _ 8 16) by (done || lia).
  assert (len (take (Z.to_nat n) (view (w_buf w) (p_raw p))) = n) as Hpl
    by (unfold len in *; rewrite length_take; lia).
  assert (length (take 16 (drop 8 (view (w_buf w) (p_raw p)))) = 16%nat) as Hdl16
    by (rewrite length_take, length_drop; unfold len in *; lia).
  destruct (pseudo6_sum (t_local6 t) (take 16 (drop 8 (view (w_buf w) (p_raw p)))) (8 + n)) as (ps & Eps);
    try apply Ht; eauto with clatto; try lia.
  unfold protoICMPv6. rewrite Eps. unfold icmp_error6.
  replace (8 + n) with (8 + len (take (Z.to_nat n) (view (w_buf w) (p_raw p)))) by lia.
  apply sends_sendICMPv6; try done; try lia; try apply Ht. by rewrite Hpl.
Qed.

Lemma emits_hostICMPv6 t p w :
  winv w -> tr_ok t -> wf6 (w_buf w) p -> p_proto p = protoICMPv6 ->
  emits (reply6 t (w_buf w) p) (hostICMPv6 p) w.
Proof.
  intros Hw Ht Hp Hpr. pose proof (wf6_ip_len _ _ Hp) as Hil. pose proof (wi_bytes _ Hw) as Hb.
  pose proof (len_view _ _ (wf6_data_ok _ _ Hp)) as Hd. pose proof (wf6_ev _ _ Hp) as Hev.
  destruct (wf6_icmp_view _ _ Hp Hpr) as (Hiv & Ht8 & H8). pose proof (wf6_data_max _ _ Hb Hp) as Hmax.
  pose proof (wf6_ip_bytes _ p Hb) as Hib.
  unfold hostICMPv6, icmpWord, icmpHdrLen, ip6VerTcFl. apply wp_bind, wp_gets. rewrite Hiv.
  wstep. rewrite lookup_total_take_lt by lia. case_if; [|apply (emits_event _ 6); auto].
  apply (emits_event_bind _ 6); [done|auto|done|]. intros w' Hw' _ _. unfold emits.
  do 6 wstep. change (40 - 24) with 16. change (24 - 8) with 16. fold_consts. bool_prop.
  rewrite lookup_total_take_lt by lia.
  replace (w32 (take 8 (view (w_buf w) (p_data p))) 4) with (w32 (view (w_buf w) (p_data p)) 4).
  2: { unfold w32. rewrite skipn_firstn_comm, take_take. done. }
  assert (8 + len (drop 8 (view (w_buf w) (p_data p))) = s_len (p_data p)) as Hpl
    by (unfold len in *; rewrite length_drop; lia).
  set (src := take 16 (drop 24 _)). set (dst := take 16 (drop 8 _)).
  assert (length src = 16%nat /\ length dst = 16%nat) as [Hsl Hdl]
    by (subst src dst; rewrite !length_take, !length_drop; unfold len in *; lia).
  destruct (pseudo6_sum src dst (s_len (p_data p))) as (ps & Eps); try done; subst src dst; eauto with clatto; try lia.
  eapply sends_emits; [apply (sends_sendICMPv6 _ _ _ _ _ _ _ ps); try done; try lia; by rewrite Hpl|].
  rewrite Hpl, <- Hd. by apply Forall_singleton, reply6_echo.
Qed.
End send6.

Lemma ip6_header_dst tc pl nh hop src dst rest :
  length src = 16%nat -> length dst = 16%nat ->
  take 16 (drop 24 (ip6_header tc pl nh hop src dst ++ rest)) = dst.
Proof. intros Hs Hd. explode Hs. explode Hd. done. Qed.

(** Replies are well-formed IPv6 packets within the minimum MTU or the size of
    the echo request, and go to the sender. *)
Lemma reply6_good t buf p b :
  tr_ok t -> bytes_ok buf -> wf6 buf p -> reply6 t buf p b ->
  good6 b /\ len b <= Z.max mtuMin (s_len (p_raw p)) /\
  take 16 (drop 24 b) = take 16 (drop 8 (view buf (p_raw p))).
Proof.
  intros Ht Hb Hp Hr. pose proof (wf6_hl _ _ Hp) as Hhl. pose proof (wf6_dlen _ _ Hp) as Hdl.
  pose proof (len_view _ _ (wf6_raw _ _ Hp)) as Hrl. unfold mtuMin.
  assert (bytes_ok (view buf (p_raw p))) as Hrb by eauto with clatto.
  pose proof (wf6_ip_bytes _ p Hb) as Hib. pose proof (wf6_data_max _ _ Hb Hp) as Hmax.
  destruct Hr as [typ code word n ps Hic Hty Hco Hn Hnl Hps|ps Hpr H8 Hps].
  - unfold icmp_error6. set (q := take (Z.to_nat n) _).
    assert (len q = n) as Hq by (subst q; unfold len in *; rewrite length_take; lia).
    assert (length (take 16 (drop 8 (view buf (p_raw p)))) = 16%nat) as Hd4
      by (rewrite length_take, length_drop; unfold len in *; lia).
    split; [|split].
    + apply good6_layout; try apply Ht; eauto with clatto; try done; try (rewrite len_icmp_msg_ck; lia); try lia.
      apply bytes_ok_icmp_msg; [done..|]. subst q. eauto with clatto.
    + rewrite len_app, len_ip6_header, len_icmp_msg_ck by (done || apply Ht). lia.
    + apply ip6_header_dst; [apply Ht|done].
  - destruct (wf6_icmp_view _ _ Hp Hpr) as (_ & _ & H8').
    pose proof (len_view _ _ (wf6_data_ok _ _ Hp)) as Hd. pose proof (wf6_ip_len _ _ Hp) as Hil.
    unfold echo_reply6. rewrite Hd. rewrite <- (ip6_prefix buf p 8 16) by (done || lia).
    assert (bytes_ok (view buf (p_data p))) as Hdb by eauto with clatto.
    assert (forall i, (i + 16 <= 40)%nat -> length (take 16 (drop i (oview buf (p_ip p)))) = 16%nat) as H4
      by (intros; rewrite length_take, length_drop; unfold len in *; lia).
    assert (len (drop 8 (view buf (p_data p))) = s_len (p_data p) - 8) as Hpl
      by (unfold len in *; rewrite length_drop; lia).
    split; [|split].
    + apply good6_layout; eauto with clatto; try done; try (rewrite len_icmp_msg_ck; lia); try (apply H4; lia); try lia.
      apply bytes_ok_icmp_msg; eauto with clatto. by split.
    + rewrite len_app, len_ip6_header, len_icmp_msg_ck by (apply H4; lia). lia.
    + apply ip6_header_dst; apply H4; lia.
Qed.
