(* ===== verification/Xlate6Data.v ===== *)
(** * Translating IPv6 data packets: [xlate6to4Data] *)

From stdpp Require Import base tactics list numbers option strings.
From Stdlib Require Import ZArith Lia.
From S2P Require Import Prelude Netip Netutil Checksum Events Packet Layout Translator TranslatorFacts Xlate4 Xlate6 Fills Transport Xlate4Facts Fragments Xlate4Data Xlate6Facts.

Open Scope Z_scope.
Local Open Scope clatto_scope.

(** The IPv4 packet that carries the data [d] of the IPv6 packet [p]. *)
Definition out6 (rand32 : nat -> Z) (k : nat) (buf : list Z) (p : pkt) (src4 dst4 d : list Z) : list Z :=
  v4_header_ck rand32 k buf p (len d) (u8 (oview buf (p_ip p) !!! 7%nat - 1)) src4 dst4 ++ d.

Lemma v4_header_addrs rand32 k buf p pl ttl ck src dst :
  length src = 4%nat -> length dst = 4%nat ->
  take 8 (drop 12 (v4_header rand32 k buf p pl ttl ck src dst)) = src ++ dst.
Proof. intros Hs Hd. explode Hs. explode Hd. done. Qed.

Lemma v4_proto_ok buf p : wf6 buf p -> byte_ok (if p_proto p =? protoICMPv6 then protoICMP else p_proto p).
Proof. intros Hp. case_if; [by split|apply Hp]. Qed.

Lemma v4_header_bytes rand32 k buf p pl ttl ck src dst :
  wf6 buf p -> byte_ok ttl -> bytes_ok src -> bytes_ok dst ->
  bytes_ok (v4_header rand32 k buf p pl ttl ck src dst).
Proof. intros. apply bytes_ok_ip4_header; auto with clatto. by eapply v4_proto_ok. Qed.

(** The header checksum is filled in over the header with a zero checksum. *)
Lemma v4_header_fill rand32 k buf p pl ttl src dst :
  put16 (v4_header rand32 k buf p pl ttl 0 src dst) 10 (checksum (v4_header rand32 k buf p pl ttl 0 src dst) 0) =
  Ok (v4_header_ck rand32 k buf p pl ttl src dst).
Proof. apply put_header_checksum. Qed.

Lemma out6_good rand32 k buf p src4 dst4 d :
  wf6 buf p -> bytes_ok buf -> bytes_ok src4 -> bytes_ok dst4 -> length src4 = 4%nat -> length dst4 = 4%nat ->
  bytes_ok d -> 20 + len d < 65536 -> good4 (out6 rand32 k buf p src4 dst4 d) /\ len (out6 rand32 k buf p src4 dst4 d) = 20 + len d.
Proof.
  intros Hp Hb Hs Hd Ls Ld Hdb Hl. unfold out6, v4_header_ck. pose proof (len_nonneg d). split.
  - apply good4_layout; auto with clatto; try (rewrite u16_small; lia). by eapply v4_proto_ok.
  - by rewrite len_app, len_ip4_header_ck.
Qed.

Section data6.
Context {MS ES : Type} {HM : Mapper MS} {HML : MapperLaws MS} {HE : Emitter ES} {HEL : EmitterLaws ES}.
Context (rand32 : nat -> Z).
Local Abbreviation W := (world MS ES).
Implicit Types w : W.

Definition total6 (p : pkt) : Z := 40 + p_hdrLen p + s_len (p_data p).

(** Why [xlate6to4Data] refuses the packet [p]: the kind and reason of the event
    it reports, and the error it offers to send back. *)
Inductive refused6 (t : Translator) w (p : pkt) : Kind -> Reason -> list (list Z) -> Prop :=
  | refused6_dst m1 err :
      unmapped6 err false (w_map w) m1 (take 16 (drop 24 (oview (w_buf w) (p_ip p)))) ->
      refused6 t w p (unmappable_kind err) ReasonDestinationUnmappable
        (unmappable_error err (errors6 t (w_buf w) p 1 0 0))
  | refused6_src m1 m2 dst4 err :
      mapped6 false (w_map w) m1 (take 16 (drop 24 (oview (w_buf w) (p_ip p)))) dst4 ->
      unmapped6 err true m1 m2 (take 16 (drop 8 (oview (w_buf w) (p_ip p)))) ->
      refused6 t w p (unmappable_kind err) ReasonSourceUnmappable
        (unmappable_error err (errors6 t (w_buf w) p 1 5 0))
  | refused6_size m1 m2 dst4 src4 :
      mapped6 false (w_map w) m1 (take 16 (drop 24 (oview (w_buf w) (p_ip p)))) dst4 ->
      mapped6 true m1 m2 (take 16 (drop 8 (oview (w_buf w) (p_ip p)))) src4 ->
      MTU (t_cfg t) < total6 p ->
      refused6 t w p KindICMP ReasonPacketTooBig (errors6 t (w_buf w) p 2 0 (u32 (MTU (t_cfg t))))
  | refused6_payload m1 m2 dst4 src4 r :
      mapped6 false (w_map w) m1 (take 16 (drop 24 (oview (w_buf w) (p_ip p)))) dst4 ->
      mapped6 true m1 m2 (take 16 (drop 8 (oview (w_buf w) (p_ip p)))) src4 ->
      total6 p <= MTU (t_cfg t) ->
      reject6 (UDPChecksum (t_cfg t)) (w_buf w) p (view (w_buf w) (p_data p)) = r -> r <> ReasonNone ->
      refused6 t w p KindDrop r [].

Inductive translated6 (t : Translator) w (p : pkt) : list Z -> Prop :=
  | Translated6 k m1 m2 src4 dst4 d :
      mapped6 false (w_map w) m1 (take 16 (drop 24 (oview (w_buf w) (p_ip p)))) dst4 ->
      mapped6 true m1 m2 (take 16 (drop 8 (oview (w_buf w) (p_ip p)))) src4 ->
      total6 p <= MTU (t_cfg t) ->
      len d = s_len (p_data p) -> bytes_ok d ->
      payload_ok6 (UDPChecksum (t_cfg t)) (w_buf w) src4 dst4 p (view (w_buf w) (p_data p)) d ->
      translated6 t w p (out6 rand32 k (w_buf w) p src4 dst4 d).

Inductive data_result6 (t : Translator) w (p : pkt) : list (list Z) -> list obs -> Prop :=
  | data6_refused kind reason replies e :
      refused6 t w p kind reason replies ->
      e_Kind e = kind -> e_Reason e = reason -> e_Family e = 6 ->
      data_result6 t w p (accepted replies (w_em w)) [OEvent e]
  | data6_translated b outs os :
      translated6 t w p b -> outs = accepted [b] (w_em w) ->
      os = (if bool_decide (outs = [b]) then [OTranslated 6 (total6 p)] else []) ->
      data_result6 t w p outs os.

Lemma refuse_event6 t p kind reason w0 w :
  winv w -> wf6 (w_buf w) p -> evolves 0 [] [] w0 w -> refused6 t w0 p kind reason [] ->
  wp (event p kind reason)
    (fun _ w' => exists o s, evolves 0 o s w0 w' /\ data_result6 t w0 p o s) w.
Proof.
  intros Hw Hp E Hr. apply (wp_event 6); [auto|by apply wf6_ev|]. intros e Hk He Hf.
  exists [], [OEvent e]. split; [exact (evolves_trans 0 [] [] [] _ _ _ _ E (evolves_event 0 e w Hw))|].
  by apply (data6_refused t w0 p _ _ _ e Hr).
Qed.

Lemma refuse_error6 t p kind reason typ code word w0 w :
  winv w -> tr_ok t -> wf6 (w_buf w) p -> evolves 0 [] [] w0 w -> w_buf w = w_buf w0 -> w_em w = w_em w0 ->
  refused6 t w0 p kind reason (errors6 t (w_buf w0) p typ code word) ->
  wp (event p kind reason;; sendICMPv6Error t typ code word p)
    (fun _ w' => exists o s, evolves 0 o s w0 w' /\ data_result6 t w0 p o s) w.
Proof.
  intros Hw Ht Hp E Hb Hm Hr. apply wp_bind, (wp_event 6); [auto|by apply wf6_ev|]. intros e Hk He Hf.
  pose proof (evolves_trans 0 [] [] [] _ _ _ _ E (evolves_event 0 e w Hw)) as E1.
  assert (Hs := sends_sendICMPv6Error t typ code word p (add_obs (OEvent e) w) (evo_inv _ _ _ _ _ E1) Ht Hp).
  eapply wp_mono; [exact Hs|]. cbv beta. cbn [add_obs w_buf w_em]. rewrite Hb, Hm. intros _ w' E'.
  eexists _, _. split; [exact (evolves_trans 0 _ _ _ _ _ _ _ E1 E')|].
  by apply (data6_refused t w0 p _ _ _ e Hr).
Qed.

(** Drawing random numbers changes nothing else. *)
Lemma evolves_rand k r w : winv w -> evolves k [] [] w (set_rand r w).
Proof. intros [A1 A2 A3]. split; rewrite ?app_nil_r; done. Qed.

Lemma xlate6to4Data_spec t p w :
  winv w -> tr_ok t -> wf6 (w_buf w) p ->
  (p_proto p = protoICMPv6 -> view (w_buf w) (p_data p) !!! 0%nat = 128 \/ view (w_buf w) (p_data p) !!! 0%nat = 129) ->
  wp (xlate6to4Data rand32 t p)
    (fun _ w' => exists o s, evolves 0 o s w w' /\ data_result6 t w p o s) w.
Proof.
  intros Hw Ht Hp Hty. pose proof (wf6_ip_len _ _ Hp) as Hil. pose proof (wi_bytes w Hw) as Hb.
  pose proof (wf6_ip_bytes _ p Hb) as Hib.
  unfold xlate6to4Data, ipv6HdrLen, ipv4HdrLen. apply wp_bind, wp_gets. cbv zeta.
  wstep. change (40 - 24) with 16. fold_consts. set (ip := oview (w_buf w) (p_ip p)) in *.
  apply wp_bind, (wp_map6to4 (len (w_buf w))); [done|eauto with clatto|rewrite length_take, length_drop; unfold len in *; lia|].
  intros [dst4|err] w1 E1 B1 S1 M1.
  2: { pose proof (evolves_zero _ _ _ _ _ (len_nonneg _) E1) as E1'. pose proof (evo_inv _ _ _ _ _ E1) as Hw1.
    pose proof (refused6_dst t w p _ _ M1) as Hr.
    destruct err; [apply refuse_error6|apply refuse_event6]; try done; rewrite ?B1; done. }
  wstep. change (24 - 8) with 16. fold_consts.
  apply wp_bind, (wp_map6to4 (len (w_buf w))); [apply E1|eauto with clatto|rewrite length_take, length_drop; unfold len in *; lia|].
  intros [src4|err] w2 E2 B2 S2 M2; rewrite B1 in B2; rewrite S1 in S2.
  all: pose proof (evolves_trans _ _ _ _ _ _ _ _ E1 E2) as E12; cbn [app] in E12.
  all: pose proof (evolves_zero _ _ _ _ _ (len_nonneg _) E12) as E12'; pose proof (evo_inv _ _ _ _ _ E12) as Hw2.
  2: { pose proof (refused6_src t w p _ _ _ _ M1 M2) as Hr.
    destruct err; [apply refuse_error6|apply refuse_event6]; try done; rewrite ?B2; done. }
  change (40 + p_hdrLen p + s_len (p_data p)) with (total6 p).
  case_if; bool_prop.
  { apply refuse_error6; try done; rewrite ?B2; try done. by apply (refused6_size t w p _ _ _ _ M1 M2). }
  destruct (mapped6_ok _ _ _ _ _ M1) as [Hdb Hdl], (mapped6_ok _ _ _ _ _ M2) as [Hsb Hsl].
  pose proof (wf6_frag_len _ _ Hp) as Hfl.
  apply wp_bind. unfold wp at 1. rewrite header6to4_ok by (done || (fold ip; lia)). fold ip.
  apply wp_bind, wp_lift. unfold v4_header. rewrite decr_ip4_header. apply owp_ok.
  fold (v4_header rand32 (w_rand w2) (w_buf w) p (s_len (p_data p)) (u8 (ip !!! 7%nat - 1)) 0 src4 dst4).
  set (h := v4_header _ _ _ _ _ _ _ _ _). set (w2' := set_rand _ w2).
  pose proof (evolves_rand (s_off (p_data p)) (v4_rand (w_rand w2) p (s_len (p_data p))) w2 Hw2) as Er. fold w2' in Er.
  apply wp_bind. eapply wp_mono; [apply (payload6to4_spec t p h src4 dst4 w2')|];
    change (w_buf w2') with (w_buf w2); rewrite ?B2; try done; try apply Er.
  { by apply length_ip4_header. }
  { apply v4_header_bytes; auto with clatto. }
  { by apply v4_header_addrs. }
  intros r w3 (d' & [E3 S3 V3] & Hr & Hok). fold ip in Hr, Hok. cbv beta.
  assert (w_em w3 = w_em w) as Hem by (rewrite S3; exact S2).
  pose proof (evolves_trans _ _ _ _ _ _ _ _ Er E3) as E3r. cbn [app] in E3r.
  pose proof (evo_inv _ _ _ _ _ E3) as Hw3. pose proof (wf6_off _ _ Hp) as Hoff.
  pose proof (wf6_data_ok _ _ Hp) as Hds. pose proof Hds as (O1 & O2 & O3).
  pose proof (evolves_zero _ _ _ _ _ O1 E3r) as E3'.
  pose proof (evolves_trans 0 _ _ _ _ _ _ _ E12' E3') as E13. cbn [app] in E13.
  assert (wf6 (w_buf w3) p) as Hp3.
  { eapply wf6_evolves; [|apply Z.eq_le_incl; symmetry; exact Hoff|exact E3r]. by rewrite B2. }
  case_bool_decide as Hrn.
  { apply refuse_event6; try done. by apply (refused6_payload t w p _ _ _ _ _ M1 M2). }
  specialize (Hok Hrn).
  assert (len d' = s_len (p_data p)) as Hdl'. { rewrite <- V3. apply len_view. by eapply evolves_slice; [exact E13|]. }
  assert (bytes_ok d') as Hdb'. { rewrite <- V3. destruct Hw3. eauto with clatto. }
  pose proof (Translated6 t w p (w_rand w2) _ _ _ _ _ M1 M2 E Hdl' Hdb' Hok) as Htr.
  pose proof (evolves_slice _ _ _ _ _ _ E13 Hds) as Hds3.
  apply wp_bind, wp_lift. unfold h. rewrite v4_header_fill. apply owp_ok. cbv beta.
  apply wp_bind, wp_gets. apply (evolves_from 0 [] [] w w3); [done|done|].
  eapply wp_mono; [apply (emit_whole 6 _ 20); try done; by apply (len_of _ 20), length_ip4_header|].
  intros _ w' (o & s & E' & Hres). exists o, s. split; [done|]. cbn [app].
  rewrite V3 in Hres. unfold out6 in Htr. rewrite Hdl' in Htr. fold ip in Htr.
  rewrite Hem in Hres. destruct Hres as [Ho Hs]. by apply (data6_translated t w p _ _ _ Htr).
Qed.
End data6.
