(* ===== verification/Xlate6Icmp.v ===== *)
(** * Translating ICMPv6 errors, dispatching IPv6 packets, and [Translate] *)

From stdpp Require Import base tactics list numbers option strings.
From Stdlib Require Import ZArith Lia.
From S2P Require Import Prelude Netip Netutil Checksum Events Packet Layout Translator TranslatorFacts Xlate4 Xlate6 Fills Transport Xlate4Facts Fragments Xlate4Data Xlate4Icmp Xlate6Facts Xlate6Data.

Open Scope Z_scope.
Local Open Scope clatto_scope.

(** The translated type, code and word fit their fields; an announced MTU is the
    smaller of the reported one and our own, less the difference of the headers. *)
Lemma icmp_switch6_range mtu typ code word ty co wo :
  mtuMin <= mtu <= 65535 -> byte_ok code -> 0 <= word < 2 ^ 32 ->
  icmp_switch6 mtu typ code word = inl (ty, co, wo) ->
  byte_ok ty /\ byte_ok co /\ 0 <= wo < 2 ^ 32 /\
  (typ = 2 -> ty = 3 /\ co = 4 /\ wo = Z.min word mtu - mtuAdj) /\ (ty = 3 \/ ty = 11 \/ ty = 12).
Proof.
  unfold icmp_switch6, byte_ok, mtuMin, mtuAdj. intros Hm Hc Hw.
  destruct (typ =? 1) eqn:E1.
  { repeat case_if; intros H; simplify_eq; bool_prop; lia. }
  destruct (typ =? 2) eqn:E2.
  { cbv zeta. case_if; [done|]. intros [= <- <- <-]. bool_prop.
    assert ((if mtu <? word then mtu else word) = Z.min word mtu) as -> by (case_if; bool_prop; lia).
    rewrite u32_small by lia. lia. }
  destruct (typ =? 3) eqn:E3; [intros [= <- <- <-]; bool_prop; lia|].
  destruct (typ =? 4) eqn:E4; [|done]. bool_prop. destruct (code =? 0).
  - cbv zeta. case_if; [done|]. set (np := if 23 <? word then _ else _).
    destruct (np <? 0); [done|]. intros [= <- <- <-].
    assert (0 <= u32 (Z.shiftl (u32 np) 24) < 2 ^ 32) by (unfold u32; dlia). lia.
  - case_if; intros H; simplify_eq; lia.
Qed.

(** The ICMPv4 error sent for the ICMPv6 error [p]. *)
Inductive icmp_out6 (rand32 : nat -> Z) (t : Translator) (buf : list Z) (p : pkt) : list Z -> Prop :=
  | IcmpOut6 em k k' src4 dst4 emSrc emDst d ty co wo :
      wf6 buf em ->
      (p_proto em = protoICMPv6 -> view buf (p_data em) !!! 0%nat = 128) ->
      icmp_switch6 (MTU (t_cfg t)) (view buf (p_data p) !!! 0%nat) (view buf (p_data p) !!! 1%nat)
        (w32 (view buf (p_data p)) 4) = inl (ty, co, wo) ->
      bytes_ok src4 -> length src4 = 4%nat -> bytes_ok dst4 -> length dst4 = 4%nat ->
      bytes_ok emSrc -> length emSrc = 4%nat -> bytes_ok emDst -> length emDst = 4%nat ->
      len d = s_len (p_data em) -> bytes_ok d -> len d <= 528 ->
      payload_ok6 (UDPChecksum (t_cfg t)) buf emSrc emDst em (view buf (p_data em)) d ->
      icmp_out6 rand32 t buf p
        (v4_header_ck rand32 k buf p (28 + len d) (u8 (oview buf (p_ip p) !!! 7%nat - 1)) src4 dst4 ++
         icmp_msg_ck ty co wo 0
           (v4_header_ck rand32 k' buf em (w16 (oview buf (p_ip em)) 4 - p_hdrLen em)
              (oview buf (p_ip em) !!! 7%nat) emSrc emDst ++ d)).

Lemma len_v4_header_ck rand32 k buf p pl ttl src dst :
  length src = 4%nat -> length dst = 4%nat -> len (v4_header_ck rand32 k buf p pl ttl src dst) = 20.
Proof. apply len_ip4_header_ck. Qed.

Lemma v4_header_ck_bytes rand32 k buf p pl ttl src dst :
  wf6 buf p -> byte_ok ttl -> bytes_ok src -> bytes_ok dst ->
  bytes_ok (v4_header_ck rand32 k buf p pl ttl src dst).
Proof. intros. apply bytes_ok_ip4_header; auto with clatto. by eapply v4_proto_ok. Qed.

(** It is a well-formed packet of at most 576 bytes. *)
Lemma icmp_out6_good rand32 t buf p b :
  tr_ok t -> bytes_ok buf -> wf6 buf p -> icmp_out6 rand32 t buf p b -> good4 b /\ len b <= icmp4MaxLen.
Proof.
  intros Ht Hb Hp [em k k' src4 dst4 emSrc emDst d ty co wo Hem _ Hsw Sb Sl Db Dl ESb ESl EDb EDl Hdl Hdb Hd _].
  pose proof (wf6_data_ok _ _ Hem) as (_ & He & _). unfold icmp4MaxLen.
  set (inner := v4_header_ck _ _ _ em _ _ _ _).
  assert (len (icmp_msg_ck ty co wo 0 (inner ++ d)) = 28 + len d) as Hl.
  { rewrite len_icmp_msg_ck, len_app. unfold inner. rewrite len_v4_header_ck by done. lia. }
  apply icmp_switch6_range in Hsw as (Hty & Hco & _); [|apply Ht|eauto with clatto|].
  2: { apply w32_range. eauto with clatto. }
  split.
  - apply good4_layout; try done; eauto with clatto; try (rewrite u16_small; lia).
    + by eapply v4_proto_ok.
    + apply bytes_ok_icmp_msg; [done|done|]. apply bytes_ok_app; [|done].
      apply v4_header_ck_bytes; eauto with clatto.
  - rewrite len_app, Hl, len_v4_header_ck by done. lia.
Qed.

(** The embedded packet lies inside the data, after the ICMPv6 header. *)
Lemma embedded6_spec buf p typ :
  wf6 buf p -> p_proto p = protoICMPv6 ->
  owp (embedded6 buf p typ) (fun o => match o with
    | None => True
    | Some em => slice_ok buf em /\ s_off em = s_off (p_data p) + 8
    end).
Proof.
  intros Hp Hpr. pose proof (wf6_data_ok _ _ Hp) as (D1 & D2 & D3).
  destruct (wf6_icmp_view _ _ Hp Hpr) as (Hiv & Hl & H8). pose proof (len_of _ _ Hl) as Hl'.
  unfold embedded6, icmpHdrLen, icmpWord. rewrite Hiv.
  do 2 ostep; [|ostep; unfold slice_ok; simpl; lia]. ostep. cbv zeta. ostep.
  - ostep; [by ostep|]. bool_prop. cbn [s_len] in *.
    assert (0 <= Z.land (Z.shiftr (w32 (take 8 (view buf (p_data p))) 4) 21) 0x7f8) by (apply Z.land_nonneg; lia).
    ostep. ostep. unfold slice_ok. simpl. lia.
  - ostep. unfold slice_ok. simpl. lia.
Qed.

Lemma cut6_spec buf em max :
  wf6 buf em -> 8 <= max ->
  owp (if max <? s_len (p_data em) then subslice (p_data em) 0 max else Ok (p_data em)) (fun s =>
    wf6 buf (set_data em s) /\ s_off s = s_off (p_data em) /\ s_len s <= max /\
    view buf s !!! 0%nat = view buf (p_data em) !!! 0%nat).
Proof.
  intros Hem Hm. ostep; bool_prop.
  - ostep. rewrite Z.add_0_r, Z.sub_0_r. split; [apply wf6_cut; [done|lia]|]. split; [done|]. split; [simpl; lia|].
    rewrite view_prefix by lia. rewrite lookup_total_take_lt by lia. done.
  - ostep. by destruct em.
Qed.

(** The translated header depends only on the IPv6 and fragment headers. *)
Lemma v4_header_ck_views rand32 k buf buf' p pl ttl src dst :
  oview buf' (p_ip p) = oview buf (p_ip p) -> oview buf' (p_frag p) = oview buf (p_frag p) ->
  v4_header_ck rand32 k buf' p pl ttl src dst = v4_header_ck rand32 k buf p pl ttl src dst.
Proof.
  intros Hi Hf. unfold v4_header_ck, v4_id, v4_fo. rewrite Hi.
  destruct (p_frag p) as [f|]; [|done]. cbn [oview] in Hf. by rewrite Hf.
Qed.

Section icmp6.
Context {MS ES : Type} {HM : Mapper MS} {HML : MapperLaws MS} {HE : Emitter ES} {HEL : EmitterLaws ES}.
Context (rand32 : nat -> Z).
Local Abbreviation W := (world MS ES).
Implicit Types w : W.

Lemma emits_xlate6to4ICMPError t p w :
  winv w -> tr_ok t -> wf6 (w_buf w) p -> p_proto p = protoICMPv6 ->
  emits (icmp_out6 rand32 t (w_buf w) p) (xlate6to4ICMPError rand32 t p) w.
Proof.
  intros Hw Ht Hp Hpr. pose proof (wi_bytes _ Hw) as Hb. pose proof (wf6_data_ok _ _ Hp) as Hds.
  destruct (wf6_icmp_view _ _ Hp Hpr) as (Hiv & Hi8 & H8).
  pose proof (len_view _ _ Hds) as Hdl. pose proof (wf6_ev _ _ Hp) as Hev.
  pose proof (wf6_ip_len _ _ Hp) as Hil. pose proof (wf6_hl _ _ Hp) as Hhl.
  unfold xlate6to4ICMPError, ip6PayloadLen, icmpWord. apply wp_bind, wp_gets. cbv zeta. rewrite Hiv.
  do 2 wstep. rewrite !lookup_total_take_lt by lia.
  apply wp_bind, wp_lift. eapply owp_mono; [by apply embedded6_spec|].
  intros [s|] Hs; [|apply (emits_event _ 6); auto]. destruct Hs as [Hs Hso].
  apply wp_bind, wp_lift. eapply owp_mono; [by apply parseIPv6_spec|].
  intros [[[em r] seg] sil] (Hraw & _ & Hwf). case_bool_decide as Hrn; [apply (emits_event _ 6); auto|].
  specialize (Hwf (or_introl Hrn)). apply wp_bind, wp_lift. eapply owp_mono; [by apply not_echo6_spec|].
  intros [] Hech; [apply (emits_event _ 6); auto|]. assert (Hech' := not_echo6_false _ _ (eq_sym Hech)). clear Hech. rename Hech' into Hech.
  change (icmp4MaxLen - 2 * ipv4HdrLen - icmpHdrLen) with 528.
  apply wp_bind, wp_lift. eapply owp_mono; [by apply cut6_spec|].
  intros emd (Hem & Hemo & Heml & Hem0). cbv zeta beta. set (em' := set_data em emd) in *.
  pose proof (wf6_ip_len _ _ Hem) as Heil. pose proof (wf6_hl _ _ Hem) as Hehl.
  pose proof (wf6_ip_bytes _ em' Hb) as Heib. pose proof (wf6_ip_bytes _ p Hb) as Hib.
  change (p_ip em) with (p_ip em') in *. change (p_hdrLen em) with (p_hdrLen em').
  set (emip := oview (w_buf w) (p_ip em')) in *. set (ip := oview (w_buf w) (p_ip p)) in *.
  wstep. replace (w32 (take 8 (view (w_buf w) (p_data p))) 4) with (w32 (view (w_buf w) (p_data p)) 4)
    by (unfold w32; rewrite skipn_firstn_comm, take_take; done).
  destruct (icmp_switch6 _ _ _ _) as [[[ty co] wo]|] eqn:Hsw; [|apply (emits_event _ 6); auto].
  wstep. apply emits_map6; [done|eauto with clatto|rewrite length_take, length_drop; unfold len in *; lia|].
  intros emSrc w1 Hw1 B1 M1. unfold emits. wstep.
  apply emits_map6; [done|eauto with clatto|rewrite length_take, length_drop; unfold len in *; lia|].
  intros emDst w2 Hw2 B2 M2. rewrite B1 in B2.
  destruct emSrc as [emSrc|]; [|apply (emits_event _ 6); rewrite ?B2; auto].
  destruct emDst as [emDst|]; [|apply (emits_event _ 6); rewrite ?B2; auto].
  destruct (mapped6_ok _ _ _ _ _ M1) as [Esb Esl], (mapped6_ok _ _ _ _ _ M2) as [Edb Edl].
  unfold emits. wstep. apply wp_bind. unfold wp at 1.
  rewrite header6to4_ok by (done || (fold emip; lia) || by apply wf6_frag_len). fold emip.
  set (inner := v4_header _ _ _ _ _ _ _ _ _). set (w2' := set_rand _ w2).
  pose proof (evolves_rand (s_off (p_data em')) (v4_rand (w_rand w2) em' (w16 emip 4 - p_hdrLen em')) w2 Hw2) as Er.
  fold w2' in Er.
  apply wp_bind. eapply wp_mono; [apply (payload6to4_spec t em' inner emSrc emDst w2')|];
    change (w_buf w2') with (w_buf w2); rewrite ?B2; try done; try apply Er.
  { by apply length_ip4_header. }
  { apply v4_header_bytes; eauto with clatto. }
  { by apply v4_header_addrs. }
  { intros Hicmp. left. cbn [p_data em' set_data]. rewrite Hem0. by apply Hech. }
  intros r3 w3 (d' & [E3 _ V3] & _ & Hok).
  pose proof (evolves_trans _ _ _ _ _ _ _ _ Er E3) as E3r. cbn [app] in E3r. clear E3 Er.
  apply (emits_from _ (s_off (p_data em')) []); [apply (wf6_data_ok _ _ Hem)|exact E3r|].
  pose proof (evo_inv _ _ _ _ _ E3r) as Hw3. rewrite <- B2 in Hp, Hem.
  pose proof (wf6_off _ _ Hp) as Ho1. pose proof (wf6_off _ _ Hem) as Ho2.
  assert (s_off (p_raw p) + 40 + p_hdrLen p <= s_off (p_data em')) as Hk.
  { rewrite Ho2. change (p_raw em') with (p_raw em). change (p_hdrLen em') with (p_hdrLen em) in *. rewrite Hraw. lia. }
  pose proof (wf6_evolves _ _ _ _ _ _ Hp Hk E3r) as Hp3.
  pose proof (wf6_evolves_ip _ _ _ _ _ _ Hp Hk E3r) as Hip3. rewrite B2 in Hip3.
  pose proof (wf6_evolves_frag _ _ _ _ _ _ Hp Hk E3r) as Hfr3. rewrite B2 in Hfr3.
  pose proof (wf6_ev _ _ Hp3) as Hev3.
  case_bool_decide as Hr3; [apply (emits_event _ 6); auto|]. specialize (Hok Hr3).
  assert (len d' = s_len (p_data em')) as Hdl'.
  { rewrite <- V3. apply len_view. eapply evolves_slice; [exact E3r|]. by apply wf6_data_ok. }
  assert (bytes_ok d') as Hdb'. { rewrite <- V3. destruct Hw3. eauto with clatto. }
  unfold emits. apply wp_bind, wp_lift. unfold inner. rewrite v4_header_fill. apply owp_ok. cbv beta. clear inner.
  set (inner := v4_header_ck _ _ _ _ _ _ _ _). wstep.
  apply emits_map6; [done|eauto with clatto|rewrite length_take, length_drop; unfold len in *; lia|].
  intros src4 w4 Hw4 B4 M4.
  apply wp_bind. eapply wp_mono; [apply (wp_source 6 _ _ _ 4); [done|auto|by rewrite B4|apply Ht|apply Ht|]|].
  { destruct src4; [by eapply mapped6_ok|done]. }
  clear src4 M4. intros src4 w5 (Sb & Sl & B5 & os5 & E5). rewrite B4 in B5.
  apply (emits_from _ 0 os5); [done|done|]. pose proof (evo_inv _ _ _ _ _ E5) as Hw5.
  unfold emits. wstep. apply emits_map6; [done|eauto with clatto|rewrite length_take, length_drop; unfold len in *; lia|].
  intros dst4 w6 Hw6 B6 M6. rewrite B5 in B6.
  destruct dst4 as [dst4|]; [|apply (emits_event _ 6); rewrite ?B6; auto].
  destruct (mapped6_ok _ _ _ _ _ M6) as [Db Dl]. unfold emits. cbv zeta. apply wp_bind, wp_gets. rewrite B6, V3.
  assert (len d' <= 528) as Hd'. { rewrite Hdl'. exact Heml. }
  pose proof (len_nonneg d') as Hd0. rewrite B2 in Hem.
  assert (Hgood := IcmpOut6 rand32 t (w_buf w) p em' (w_rand w6) (w_rand w2) src4 dst4 emSrc emDst d' ty co wo
    Hem ltac:(intros Hicmp; cbn [p_data em' set_data]; rewrite Hem0; by apply Hech)
    Hsw Sb Sl Db Dl Esb Esl Edb Edl Hdl' Hdb' Hd' Hok).
  fold emip ip inner in Hgood.
  unfold ipv4HdrLen, icmpHdrLen. change (20 + 8 + 20) with 48. rewrite <- Hdl'.
  set (out := _ ++ icmp_msg_ck _ _ _ _ _) in Hgood.
  assert (len out = 48 + len d') as Hol.
  { unfold out. rewrite !len_app, len_icmp_msg_ck, len_app, len_v4_header_ck by done.
    unfold inner. rewrite len_v4_header_ck by done. lia. }
  apply wp_bind. eapply (wp_emit _ _ out (v4_rand (w_rand w6) p (48 + len d' - 20))); [lia|done|done|..].
  - intros b w7 Hbl Hr7. rewrite icmp_err4_fill_ok; try done.
    + rewrite Hr7. do 2 f_equal. rewrite (v4_header_ck_views _ _ (w_buf w)) by done.
      unfold out. rewrite Hip3. fold ip. do 2 f_equal. lia.
    + by apply length_ip4_header.
    + rewrite Hip3. fold ip. lia.
    + by apply wf6_frag_len.
  - intros w7 E7 _ _. apply wp_modify. eexists _, _.
    split; [|by apply Forall_singleton].
    exact (evolves_trans 0 _ _ [] _ _ _ _ (evolves_zero _ _ _ _ _ (len_nonneg _) E7)
             (evolves_translated 0 6 _ w7 (evo_inv _ _ _ _ _ E7))).
  - intros w7 E7 _ _. apply wp_skip. exists [], []. split; [|done].
    exact (evolves_zero _ _ _ _ _ (len_nonneg _) E7).
Qed.

(** ** Dispatch *)

Inductive answer6 (t : Translator) w (p : pkt) (b : list Z) : Prop :=
  | answer6_reply : reply6 t (w_buf w) p b -> answer6 t w p b
  | answer6_data : translated6 rand32 t w p b -> answer6 t w p b
  | answer6_icmp : p_proto p = protoICMPv6 -> icmp_out6 rand32 t (w_buf w) p b -> answer6 t w p b.

Lemma refused6_replies t w p kind reason replies :
  wf6 (w_buf w) p -> refused6 t w p kind reason replies -> Forall (reply6 t (w_buf w) p) replies.
Proof.
  intros Hp [m1 [] ?|m1 m2 d4 [] ? ?| |]; cbn [unmappable_error]; try constructor; by apply errors6_reply.
Qed.

Lemma data_result6_answers t w p outs os :
  wf6 (w_buf w) p -> data_result6 rand32 t w p outs os -> Forall (answer6 t w p) outs.
Proof.
  intros Hp [kind reason replies e Hr _ _ _|b o s Htr -> _]; apply accepted_Forall.
  - eapply Forall_impl; [by eapply refused6_replies|]. intros b. by apply answer6_reply.
  - apply Forall_singleton. by apply answer6_data.
Qed.

(** A packet [parseIPv6] accepted, or refused for its routing header. *)
Definition parsed6 (buf : list Z) (raw : slice) (p : pkt) : Prop :=
  exists r seg sil, parseIPv6 buf (new_pkt raw) = Ok (p, r, seg, sil) /\
    (r = ReasonNone \/ r = ReasonRoutingHeaderSegmentsLeft).

Lemma emits_error6 t p kind reason typ code word w :
  winv w -> tr_ok t -> wf6 (w_buf w) p -> byte_ok typ -> byte_ok code ->
  emits (answer6 t w p) (event p kind reason;; sendICMPv6Error t typ code word p) w.
Proof.
  intros Hw Ht Hp Hty Hco. apply (emits_event_bind _ 6); [done|auto|by apply wf6_ev|].
  intros w' Hw' B' _. eapply sends_emits; [apply sends_sendICMPv6Error; rewrite ?B'; done|].
  rewrite B'. eapply Forall_impl; [by apply errors6_reply|]. intros b. by apply answer6_reply.
Qed.

Lemma emits_handleIPv6 t raw w :
  winv w -> tr_ok t -> slice_ok (w_buf w) raw -> 0 < s_len raw ->
  Z.shiftr (view (w_buf w) raw !!! 0%nat) 4 = 6 ->
  emits (fun b => exists p, parsed6 (w_buf w) raw p /\ answer6 t w p b) (handleIPv6 rand32 t raw) w.
Proof.
  intros Hw Ht Hs Hne Hver. pose proof (wi_bytes _ Hw) as Hb. unfold handleIPv6.
  apply wp_bind, wp_gets, wp_bind, wp_lift.
  pose proof (parseIPv6_spec _ _ Hb Hs) as Hspec.
  apply owp_run in Hspec as ([[[p r] seg] sil] & Hparse & Hraw & Hev & Hwf).
  rewrite Hparse. apply owp_ok. specialize (Hev Hne Hver).
  destruct (bool_decide (r <> ReasonNone)) eqn:Hr; [apply bool_decide_eq_true in Hr|apply bool_decide_eq_false, dec_stable in Hr].
  { destruct sil; [by apply emits_skip|]. case_bool_decide as Hseg; [|apply (emits_event _ 6); auto].
    specialize (Hwf (or_intror Hseg)). apply (emits_mono (answer6 t w p)); [by apply emits_error6|].
    intros b Hans. exists p. split; [|done]. exists r, seg, false. auto. }
  specialize (Hwf (or_introl Hr)). cbv zeta. pose proof (wf6_ip_len _ _ Hwf) as Hil.
  apply (emits_mono (answer6 t w p)); [|intros b Hans; exists p; split; [exists r, seg, sil; auto|done]].
  unfold ip6PayloadLen, emits. do 2 wstep. set (ip := oview (w_buf w) (p_ip p)) in *.
  pose proof (wf6_ip_bytes _ p Hb) as Hib. fold ip in Hib.
  destruct (_ || _) eqn:Einv; [apply (emits_event _ 6); auto|]. clear Einv.
  apply wp_bind, wp_lift. apply owp_mono with (Q := fun _ => True).
  { destruct (bool_decide _); [|by apply owp_ok]. do 2 wstep.
    pose proof (wf6_data_max _ _ Hb Hwf). pose proof (wf6_dlen _ _ Hwf).
    destruct (pseudo6_spec (take 16 (drop 8 ip)) (take 16 (drop 24 ip)) (s_len (p_data p)) 58) as (ps & Eps & _).
    1-6: try (unfold byte_ok); eauto with clatto; unfold len in *; rewrite ?length_take, ?length_drop; lia.
    change (40 - 24) with 16. change (24 - 8) with 16. fold_consts. unfold protoICMPv6. rewrite Eps. by wstep. }
  intros bad _. destruct bad; [apply (emits_event _ 6); auto|]. wstep.
  destruct (bool_decide (_ = t_local6 t)).
  { destruct (p_proto p =? protoICMPv6) eqn:Ep; [|by apply emits_error6]. bool_prop.
    eapply emits_mono; [by apply emits_hostICMPv6|]. intros b. by apply answer6_reply. }
  destruct (_ =? 1) eqn:Ettl; [by apply emits_error6|].
  apply wp_bind, wp_lift. apply owp_mono with (Q := fun b : bool =>
    if b then p_proto p = protoICMPv6 -> view (w_buf w) (p_data p) !!! 0%nat = 128 \/ view (w_buf w) (p_data p) !!! 0%nat = 129
    else p_proto p = protoICMPv6).
  { destruct (p_proto p =? protoICMPv6) eqn:Ep; cbn [negb]; [|apply owp_ok; bool_prop; done]. bool_prop.
    destruct (wf6_icmp_view _ _ Hwf Ep) as (-> & Hl & _).
    do 2 wstep. rewrite lookup_total_take_lt by lia. case_if; [|done]. bool_prop. auto. }
  intros [] Hdata.
  - eapply wp_mono; [by apply xlate6to4Data_spec|]. intros _ w' (o & s & E & R).
    exists o, s. split; [done|]. by eapply data_result6_answers.
  - eapply emits_mono; [by apply emits_xlate6to4ICMPError|]. intros b. by apply answer6_icmp.
Qed.

(** A packet the parser refuses is answered only for its routing header, and
    with one message. *)
Definition refusal6 (t : Translator) (buf : list Z) (p : pkt) (r : Reason) (seg : Z) : list (list Z) :=
  if bool_decide (r = ReasonRoutingHeaderSegmentsLeft) then errors6 t buf p 4 0 (u32 seg) else [].

Lemma handleIPv6_refused t raw w p r seg sil :
  winv w -> tr_ok t -> slice_ok (w_buf w) raw -> 0 < s_len raw ->
  Z.shiftr (view (w_buf w) raw !!! 0%nat) 4 = 6 ->
  parseIPv6 (w_buf w) (new_pkt raw) = Ok (p, r, seg, sil) -> r <> ReasonNone ->
  wp (handleIPv6 rand32 t raw)
    (fun _ w' => exists os, evolves 0 (accepted (refusal6 t (w_buf w) p r seg) (w_em w)) os w w') w.
Proof.
  intros Hw Ht Hs Hne Hver Hparse Hr. unfold handleIPv6, refusal6.
  pose proof (parseIPv6_spec _ _ (wi_bytes _ Hw) Hs) as Hspec. rewrite Hparse in Hspec.
  destruct Hspec as (Hraw & Hev & Hwf). specialize (Hev Hne Hver).
  apply wp_bind, wp_gets, wp_bind, wp_lift. rewrite Hparse. apply owp_ok. rewrite bool_decide_eq_true_2 by done.
  destruct sil.
  { apply parseIPv6_silent in Hparse as ->. apply wp_skip. exists []. by apply evolves_refl. }
  case_bool_decide as Hseg.
  - apply wp_bind, (wp_event 6); [auto|done|]. intros e _ _ _. pose proof (evolves_event 0 e w Hw) as E.
    eapply wp_mono; [apply (sends_sendICMPv6Error _ _ _ _ _ (add_obs (OEvent e) w)); [apply E|done|apply Hwf; auto]|].
    cbv beta. intros _ w' E'. exists [OEvent e]. exact (evolves_trans 0 [] _ _ [] _ _ _ E E').
  - apply (wp_event 6); [auto|done|]. intros e _ _ _. exists [OEvent e]. by apply evolves_event.
Qed.

Lemma answer6_good t w p b :
  winv w -> tr_ok t -> wf6 (w_buf w) p -> answer6 t w p b ->
  reply6 t (w_buf w) p b \/ (good4 b /\ len b <= MTU (t_cfg t) - mtuAdj).
Proof.
  intros Hw Ht Hp [Hr|Htr|_ Ho]; [by left|right|right].
  - destruct Htr as [k m1 m2 src4 dst4 d M1 M2 Hfit Hdl Hdb _].
    destruct (mapped6_ok _ _ _ _ _ M1), (mapped6_ok _ _ _ _ _ M2). pose proof (wi_bytes _ Hw) as Hb.
    pose proof (wf6_hl _ _ Hp). pose proof (tr_mtu t Ht). unfold total6, mtuAdj in *.
    destruct (out6_good rand32 k (w_buf w) p src4 dst4 d) as [? ->]; try done; [lia|]. split; [done|lia].
  - pose proof (tr_mtu t Ht). unfold mtuMin, mtuAdj in *.
    destruct (icmp_out6_good rand32 t (w_buf w) p b) as [? Hl]; try done; [apply Hw|].
    unfold icmp4MaxLen in Hl. split; [done|]. lia.
Qed.

(** ** [Translate] *)

Definition whole (buf : list Z) : slice := Slc 0 (len buf).

(** Everything one call of [Translate] may emit for the packet in the buffer. *)
Inductive answers (t : Translator) w (b : list Z) : Prop :=
  | answers4 p : parseIPv4 (w_buf w) (new_pkt (whole (w_buf w))) = Ok (p, ReasonNone) ->
      answer4 t w p b -> answers t w b
  | answers6 p : parsed6 (w_buf w) (whole (w_buf w)) p -> answer6 t w p b -> answers t w b.

Lemma whole_ok buf : slice_ok buf (whole buf).
Proof. pose proof (len_nonneg buf). unfold slice_ok, whole. simpl. lia. Qed.

Lemma view_whole buf : view buf (whole buf) = buf.
Proof. unfold view, whole. cbn [s_off s_len]. fold_consts. rewrite drop_0. apply take_ge. unfold len. lia. Qed.

Lemma emits_Translate t w : winv w -> tr_ok t -> emits (answers t w) (Translate rand32 t) w.
Proof.
  intros Hw Ht. unfold Translate. apply wp_bind, wp_gets. case_if; [by apply emits_skip|]. bool_prop.
  pose proof (len_nonneg (w_buf w)). wstep. pose proof (whole_ok (w_buf w)) as Hs.
  pose proof (view_whole (w_buf w)) as Hv. fold_consts.
  change (Slc 0 (len (w_buf w))) with (whole (w_buf w)).
  case_if; bool_prop.
  { eapply emits_mono; [apply emits_handleIPv4; try done; [simpl; lia|by rewrite Hv]|].
    intros b (p & Hp & Ha). by eapply answers4. }
  case_if; bool_prop.
  { eapply emits_mono; [apply emits_handleIPv6; try done; [simpl; lia|by rewrite Hv]|].
    intros b (p & Hp & Ha). by eapply answers6. }
  apply wp_modify. eexists [], _. split; [by apply evolves_event|done].
Qed.
End icmp6.
