(* ===== verification/Mapped.v ===== *)
(** * Data packets whose addresses the mapper knows

    They are translated unless they are too big or their transport header is not
    acceptable, to exactly the packets of [out4] or the packet of [out6]. *)

From stdpp Require Import base tactics list numbers option strings.
From Stdlib Require Import ZArith Lia.
From S2P Require Import Prelude Netip Netutil Checksum Events Packet Layout Translator TranslatorFacts Xlate4 Xlate6 Fills Transport Xlate4Facts Fragments Xlate4Data Xlate6Facts Xlate6Data.

Open Scope Z_scope.

(** ** A mapper gives one answer *)

Section determinism.
Context {MS : Type} {HM : Mapper MS}.

Lemma mapped4_det m m1 m2 a r1 r2 : mapped4 m m1 a r1 -> mapped4 m m2 a r2 -> m1 = m2 /\ r1 = r2.
Proof. intros (A1 & E1 & _ & ->) (A2 & E2 & _ & ->). rewrite E1 in E2. by simplify_eq. Qed.

Lemma mapped4_unmapped m m1 m2 a r err : mapped4 m m1 a r -> unmapped4 err m m2 a -> False.
Proof. intros (A1 & E1 & H6 & ->) (r2 & E2 & H). rewrite E1 in E2. simplify_eq. destruct H as [H _]. by rewrite H6 in H. Qed.

Lemma mapped6_det al m m1 m2 a r1 r2 : mapped6 al m m1 a r1 -> mapped6 al m m2 a r2 -> m1 = m2 /\ r1 = r2.
Proof. intros (A1 & E1 & _ & F1) (A2 & E2 & _ & F2). rewrite E1 in E2. simplify_eq. split; [done|congruence]. Qed.

Lemma mapped6_unmapped al m m1 m2 a r err : mapped6 al m m1 a r -> unmapped6 err al m m2 a -> False.
Proof. intros (A1 & E1 & H6 & _) (r2 & E2 & H). rewrite E1 in E2. simplify_eq. destruct H as [H _]. by rewrite H6 in H. Qed.
End determinism.

Section mapped.
Context {MS ES : Type} {HM : Mapper MS} {HML : MapperLaws MS} {HE : Emitter ES} {HEL : EmitterLaws ES}.
Implicit Types w : world MS ES.

(** IPv4 to IPv6. *)
Lemma mapped_translated4 t p w m1 m2 src6 dst6 :
  winv w -> tr_ok t -> wf4 (w_buf w) p ->
  (p_proto p = protoICMP -> view (w_buf w) (p_data p) !!! 0%nat = 8 \/ view (w_buf w) (p_data p) !!! 0%nat = 0) ->
  mapped4 (w_map w) m1 (take 4 (drop 16 (oview (w_buf w) (p_ip p)))) dst6 ->
  mapped4 m1 m2 (take 4 (drop 12 (oview (w_buf w) (p_ip p)))) src6 ->
  too_big4 t (oview (w_buf w) (p_ip p)) p = false ->
  reject4 (UDPChecksum (t_cfg t)) (oview (w_buf w) (p_ip p)) p (view (w_buf w) (p_data p)) = ReasonNone ->
  wp (xlate4to6Data t p) (fun _ w' => exists outs os d, evolves 0 outs os w w' /\
    len d = s_len (p_data p) /\ bytes_ok d /\
    payload_ok4 (UDPChecksum (t_cfg t)) (oview (w_buf w) (p_ip p)) src6 dst6 p (view (w_buf w) (p_data p)) d /\
    let all := out4 t (oview (w_buf w) (p_ip p)) p src6 dst6 d in
    outs = accepted all (w_em w) /\
    os = if bool_decide (outs = all) then [OTranslated 4 (p_hdrLen p + s_len (p_data p))] else []) w.
Proof.
  intros Hw Ht Hp Hty Hdst Hsrc Hfit Hrej.
  eapply wp_mono; [exact (xlate4to6Data_spec t p w Hw Ht Hp Hty)|]. intros _ w' (o & s & E & R).
  assert (Htr : forall all, translated4 t w p all -> exists d,
    len d = s_len (p_data p) /\ bytes_ok d /\ all = out4 t (oview (w_buf w) (p_ip p)) p src6 dst6 d /\
    payload_ok4 (UDPChecksum (t_cfg t)) (oview (w_buf w) (p_ip p)) src6 dst6 p (view (w_buf w) (p_data p)) d).
  { intros all [n1 n2 s6 d6 d M1 M2 _ Hl Hb Hok].
    destruct (mapped4_det _ _ _ _ _ _ Hdst M1) as [<- <-]. destruct (mapped4_det _ _ _ _ _ _ Hsrc M2) as [<- <-].
    by exists d. }
  destruct R as [kind reason replies e Href _ _ _|all o s Hall Ho Hs].
  - exfalso. destruct Href as [n1 err M1|n1 n2 d6 err M1 M2|? ? ? ? _ _ Hbig|? ? ? ? r _ _ _ Hbad]; try congruence.
    + exact (mapped4_unmapped _ _ _ _ _ _ Hdst M1).
    + destruct (mapped4_det _ _ _ _ _ _ Hdst M1) as [<- _]. exact (mapped4_unmapped _ _ _ _ _ _ Hsrc M2).
  - destruct (Htr all Hall) as (d & Hl & Hb & -> & Hok). exists o, s, d. by split_and!.
Qed.

(** IPv6 to IPv4; [k] random numbers were drawn before. *)
Lemma mapped_translated6 rand32 t p w m1 m2 src4 dst4 :
  winv w -> tr_ok t -> wf6 (w_buf w) p ->
  (p_proto p = protoICMPv6 -> view (w_buf w) (p_data p) !!! 0%nat = 128 \/ view (w_buf w) (p_data p) !!! 0%nat = 129) ->
  mapped6 false (w_map w) m1 (take 16 (drop 24 (oview (w_buf w) (p_ip p)))) dst4 ->
  mapped6 true m1 m2 (take 16 (drop 8 (oview (w_buf w) (p_ip p)))) src4 ->
  total6 p <= MTU (t_cfg t) ->
  reject6 (UDPChecksum (t_cfg t)) (w_buf w) p (view (w_buf w) (p_data p)) = ReasonNone ->
  wp (xlate6to4Data rand32 t p) (fun _ w' => exists outs os d k, evolves 0 outs os w w' /\
    len d = s_len (p_data p) /\ bytes_ok d /\
    payload_ok6 (UDPChecksum (t_cfg t)) (w_buf w) src4 dst4 p (view (w_buf w) (p_data p)) d /\
    let b := out6 rand32 k (w_buf w) p src4 dst4 d in
    outs = accepted [b] (w_em w) /\
    os = if bool_decide (outs = [b]) then [OTranslated 6 (total6 p)] else []) w.
Proof.
  intros Hw Ht Hp Hty Hdst Hsrc Hfit Hrej.
  eapply wp_mono; [exact (xlate6to4Data_spec rand32 t p w Hw Ht Hp Hty)|]. intros _ w' (o & s & E & R).
  assert (Htr : forall b, translated6 rand32 t w p b -> exists d k,
    len d = s_len (p_data p) /\ bytes_ok d /\ b = out6 rand32 k (w_buf w) p src4 dst4 d /\
    payload_ok6 (UDPChecksum (t_cfg t)) (w_buf w) src4 dst4 p (view (w_buf w) (p_data p)) d).
  { intros b [k n1 n2 s4 d4 d M1 M2 _ Hl Hb Hok].
    destruct (mapped6_det _ _ _ _ _ _ _ Hdst M1) as [<- <-]. destruct (mapped6_det _ _ _ _ _ _ _ Hsrc M2) as [<- <-].
    by exists d, k. }
  destruct R as [kind reason replies e Href _ _ _|b o s Hall Ho Hs].
  - exfalso. destruct Href as [n1 err M1|n1 n2 d6 err M1 M2|? ? ? ? _ _ Hbig|? ? ? ? r _ _ _ Hbad]; try congruence; try lia.
    + exact (mapped6_unmapped _ _ _ _ _ _ _ Hdst M1).
    + destruct (mapped6_det _ _ _ _ _ _ _ Hdst M1) as [<- _]. exact (mapped6_unmapped _ _ _ _ _ _ _ Hsrc M2).
  - destruct (Htr b Hall) as (d & k & Hl & Hb & -> & Hok). exists o, s, d, k. by split_and!.
Qed.
End mapped.
