(* ===== verification/Plain.v ===== *)
(** * Packets without options, fragments or ICMP

    What the parsers make of them, and the way of such a packet through [Translate]:
    when it is not for the translator itself and its TTL lasts, it is handed to
    [xlate4to6Data] or [xlate6to4Data]. *)

From stdpp Require Import base tactics list numbers option strings.
From Stdlib Require Import ZArith Lia.
From S2P Require Import Prelude Netip Netutil Checksum Events Packet Layout Translator TranslatorFacts Xlate4 Xlate6 Fills Transport Xlate4Facts Fragments Xlate4Data Xlate4Icmp Xlate6Facts Xlate6Data Xlate6Icmp.

Open Scope Z_scope.
Local Open Scope clatto_scope.

(** The parsed packets. *)
Definition plain4 (buf : list Z) : pkt :=
  Pkt (whole buf) (Some (Slc 0 20)) 20 (Slc 20 (len buf - 20)) (buf !!! 9%nat) None None.
Definition plain6 (buf : list Z) : pkt :=
  Pkt (whole buf) (Some (Slc 0 40)) 0 (Slc 40 (len buf - 40)) (buf !!! 6%nat) None None.

(** Neither ICMP nor a header that only one of the protocols has. *)
Definition plain_proto (proto : Z) : Prop := byte_ok proto /\ proto ∉ [0; 1; 43; 44; 58; 60].

Record is_plain4 (buf : list Z) : Prop := {
  pl4_good : good4 buf;
  pl4_proto : plain_proto (buf !!! 9%nat);
  pl4_whole : Z.land (w16 buf 6) (Z.lor ip4OffMask ip4FlagMF) = 0;
  pl4_src : ClassifyIPv4 (take 4 (drop 12 buf)) <> IPv4Invalid;
  pl4_dst : ClassifyIPv4 (take 4 (drop 16 buf)) <> IPv4Invalid;
}.

Record is_plain6 (buf : list Z) : Prop := {
  pl6_good : good6 buf;
  pl6_proto : plain_proto (buf !!! 6%nat);
  pl6_src : ValidIPv6 (take 16 (drop 8 buf)) = true;
  pl6_dst : ValidIPv6 (take 16 (drop 24 buf)) = true;
}.

(** Membership in an explicit list. *)
Ltac in_list := repeat first [by left | right].

Lemma view_rest buf n : 0 <= n <= len buf -> view buf (Slc n (len buf - n)) = drop (Z.to_nat n) buf.
Proof. intros Hn. unfold view. cbn [s_off s_len]. apply take_ge. unfold len in *. rewrite length_drop. lia. Qed.

Lemma view_head buf n : view buf (Slc 0 n) = take (Z.to_nat n) buf.
Proof. unfold view. cbn [s_off s_len]. fold_consts. by rewrite drop_0. Qed.

Lemma parse_plain4 buf :
  is_plain4 buf -> parseIPv4 buf (new_pkt (whole buf)) = Ok (plain4 buf, ReasonNone).
Proof.
  intros [[Hb Hl Hv Ht _] [Hp Hn] Hw Hs Hd]. apply owp_is.
  unfold parseIPv4, ipv4HdrLen, ip4TotalLen, ip4FlagsOff, icmpHdrLen.
  cbn [p_raw new_pkt]. rewrite view_whole. ostep; [bool_prop; lia|]. do 4 ostep. fold_consts.
  rewrite Hv, Ht. change (Z.land 69 15 * 4) with 20. change (Z.shiftr 69 4 =? 4) with true.
  rewrite (bool_decide_false (_ = _)) by done. rewrite (bool_decide_false (_ = _)) by done.
  assert (Hlt : (len buf <? 20) = false) by (apply Z.ltb_ge; lia). rewrite !Hlt. cbn [negb orb Z.ltb Z.compare Pos.compare Pos.compare_cont].
  change (20 <? 20) with false. cbn [orb].
  ostep; [cbn; lia..|]. rewrite Z.ltb_irrefl. ostep; [cbn; lia..|]. ostep. fold_consts.
  assert (Hne : forall x, x ∈ [0; 1; 43; 44; 58; 60] -> (buf !!! 9%nat =? x) = false).
  { intros x Hx. apply Z.eqb_neq. intros Ex. by rewrite Ex in Hn. }
  rewrite Hne by in_list. rewrite bool_decide_false by (rewrite !elem_of_cons in *; tauto).
  ostep. apply land_lor_0 in Hw as [Ho Hm]. rewrite Hm, Ho. cbn [negb andb Z.eqb].
  ostep; [bool_prop; lia|]. ostep. unfold plain4, whole. psimpl. done.
Qed.

Lemma parse_plain6 buf :
  is_plain6 buf -> parseIPv6 buf (new_pkt (whole buf)) = Ok (plain6 buf, ReasonNone, 0, false).
Proof.
  intros [[Hb Hl Hv Hpl] [Hp Hn] Hs Hd]. apply owp_is.
  unfold parseIPv6, ipv6HdrLen, ip6PayloadLen. cbn [p_raw new_pkt]. rewrite view_whole.
  ostep; [bool_prop; lia|]. ostep; [cbn; lia..|]. do 3 ostep. fold_consts.
  rewrite Hv, Hs, Hd. cbn [Z.eqb Pos.eqb negb orb]. ostep. ostep; [cbn; lia..|]. ostep. fold_consts. rewrite Hpl.
  assert (Hlt : (len buf - 40 <? len buf - 40) = false) by (apply Z.ltb_irrefl).
  cbn [s_len whole]. rewrite Hlt. ostep.
  assert (Hne : forall x, x ∈ [0; 1; 43; 44; 58; 60] -> (buf !!! 6%nat =? x) = false).
  { intros x Hx. apply Z.eqb_neq. intros Ex. by rewrite Ex in Hn. }
  unfold ext_fuel. cbn [ext_loop]. unfold is_ext. psimpl. rewrite !Hne by in_list. cbn [orb negb].
  ostep. unfold parse_frag, parse_upper6, protoFrag, protoICMPv6, protoICMP. psimpl.
  rewrite !Hne by in_list. cbn [mbind outcome_bind]. psimpl. rewrite !Hne by in_list. done.
Qed.

Lemma oview_plain4 buf : oview buf (p_ip (plain4 buf)) = take 20 buf.
Proof. cbn [p_ip plain4 oview]. by rewrite view_head. Qed.
Lemma oview_plain6 buf : oview buf (p_ip (plain6 buf)) = take 40 buf.
Proof. cbn [p_ip plain6 oview]. by rewrite view_head. Qed.

Lemma data_plain4 buf : 20 <= len buf -> view buf (p_data (plain4 buf)) = drop 20 buf.
Proof. intros Hl. cbn [p_data plain4]. by rewrite view_rest by lia. Qed.
Lemma data_plain6 buf : 40 <= len buf -> view buf (p_data (plain6 buf)) = drop 40 buf.
Proof. intros Hl. cbn [p_data plain6]. by rewrite view_rest by lia. Qed.

Lemma plain4_wf buf : is_plain4 buf -> wf4 buf (plain4 buf).
Proof.
  intros Hp. pose proof (parseIPv4_spec buf _ (g4_bytes _ (pl4_good _ Hp)) (whole_ok buf)) as Hs.
  rewrite (parse_plain4 _ Hp) in Hs. by apply Hs.
Qed.
Lemma plain6_wf buf : is_plain6 buf -> wf6 buf (plain6 buf).
Proof.
  intros Hp. pose proof (parseIPv6_spec buf _ (g6_bytes _ (pl6_good _ Hp)) (whole_ok buf)) as Hs.
  rewrite (parse_plain6 _ Hp) in Hs. apply Hs. by left.
Qed.

(** Fields that lie in the header. *)
Lemma head_field (buf : list Z) (n i k : nat) : (i + k <= n)%nat -> take k (drop i (take n buf)) = take k (drop i buf).
Proof. intros Hi. rewrite skipn_firstn_comm, take_take. f_equal. lia. Qed.

Section plain.
Context {MS ES : Type} {HM : Mapper MS} {HE : Emitter ES}.
Context (rand32 : nat -> Z).
Implicit Types w : world MS ES.

Lemma Translate_plain4 t w :
  is_plain4 (w_buf w) -> 1 < w_buf w !!! 8%nat -> take 4 (drop 16 (w_buf w)) <> t_local4 t ->
  Translate rand32 t w = xlate4to6Data t (plain4 (w_buf w)) w.
Proof.
  intros Hp Httl Hdst. pose proof (pl4_good _ Hp) as [Hb Hl Hv Ht Hck].
  unfold Translate, handleIPv4, ip4TotalLen, mbind, M_bind, gets, lift. cbn [mbind].
  rewrite (proj2 (Z.eqb_neq _ _)) by lia. rewrite at_ok by lia. fold_consts. rewrite Hv.
  change (Z.shiftr 69 4 =? 4) with true. cbv iota. change (Slc 0 (len (w_buf w))) with (whole (w_buf w)).
  cbv beta. rewrite (parse_plain4 _ Hp). rewrite bool_decide_false by (intros []; done). cbv zeta.
  rewrite oview_plain4. assert (L20 : len (take 20 (w_buf w)) = 20) by (unfold len in *; rewrite length_take; lia).
  rewrite at_ok by lia. fold_consts. rewrite lookup_total_take_lt by lia.
  rewrite u16_at_w, w16_take by lia. rewrite Ht, Hck.
  rewrite (proj2 (Z.eqb_neq _ _)) by lia. cbn [plain4 p_hdrLen p_data p_icmp p_proto s_len negb orb].
  rewrite (proj2 (Z.eqb_eq _ _)) by lia. cbn [negb orb]. rewrite bool_decide_false by (intros []; done).
  cbn [andb]. rewrite sub_ok by lia. change (20 - 16) with 4. fold_consts. rewrite head_field by lia.
  rewrite bool_decide_false by done. rewrite (proj2 (Z.eqb_neq _ _)) by lia.
  destruct (pl4_proto _ Hp) as [_ Hn].
  assert (Hi : (w_buf w !!! 9%nat =? protoICMP) = false).
  { apply Z.eqb_neq. intros E. apply Hn. rewrite E. in_list. }
  by rewrite Hi.
Qed.

Lemma Translate_plain6 t w :
  is_plain6 (w_buf w) -> 1 < w_buf w !!! 7%nat -> take 16 (drop 24 (w_buf w)) <> t_local6 t ->
  Translate rand32 t w = xlate6to4Data rand32 t (plain6 (w_buf w)) w.
Proof.
  intros Hp Hhop Hdst. pose proof (pl6_good _ Hp) as [Hb Hl Hv Hpl].
  unfold Translate, handleIPv6, ip6PayloadLen, mbind, M_bind, gets, lift. cbn [mbind].
  rewrite (proj2 (Z.eqb_neq _ _)) by lia. rewrite at_ok by lia. fold_consts. rewrite Hv.
  change (6 =? 4) with false. change (6 =? 6) with true. cbv iota. change (Slc 0 (len (w_buf w))) with (whole (w_buf w)).
  cbv beta. rewrite (parse_plain6 _ Hp). rewrite bool_decide_false by (intros []; done). cbv zeta.
  rewrite oview_plain6. assert (L40 : len (take 40 (w_buf w)) = 40) by (unfold len in *; rewrite length_take; lia).
  rewrite at_ok by lia. fold_consts. rewrite lookup_total_take_lt by lia.
  rewrite u16_at_w, w16_take by lia. rewrite Hpl.
  rewrite (proj2 (Z.eqb_neq _ _)) by lia. cbn [plain6 p_hdrLen p_data p_icmp p_proto s_len negb orb].
  rewrite (proj2 (Z.eqb_eq _ _)) by lia. cbn [negb orb]. rewrite bool_decide_false by (intros []; done).
  cbn [andb]. rewrite sub_ok by lia. change (40 - 24) with 16. fold_consts. rewrite head_field by lia.
  rewrite bool_decide_false by done. rewrite (proj2 (Z.eqb_neq _ _)) by lia.
  destruct (pl6_proto _ Hp) as [_ Hn].
  assert (Hi : (w_buf w !!! 6%nat =? protoICMPv6) = false).
  { apply Z.eqb_neq. intros E. apply Hn. rewrite E. in_list. }
  by rewrite Hi.
Qed.
End plain.
