(* ===== verification/Fixtures.v ===== *)
(** * Concrete mappers, emitters, translators and packets

    Inputs on which the theorems are evaluated, in the manner of
    [xlate_test.go]: a mapper that embeds IPv4 addresses in 64:ff9b::/96, an
    emitter that collects what it is given, and packets with correct checksums. *)

From stdpp Require Import base tactics list numbers option strings.
From Stdlib Require Import ZArith Lia.
From S2P Require Import Prelude Netip Netutil Checksum Events Packet Layout Translator TranslatorFacts.

Open Scope Z_scope.

(** 64:ff9b:: *)
Definition fx_prefix : Z := 0x0064ff9b * 2 ^ 96.

#[export] Instance fx_mapper : Mapper unit := {
  MapIPv4ToIPv6 a s := Ok (match a with Addr4 v => inl (Addr6 (fx_prefix + v) "") | _ => inr ErrDrop end, s);
  MapIPv6ToIPv4 a _ s := Ok (match a with
    | Addr6 v _ => if Z.shiftr v 32 =? Z.shiftr fx_prefix 32 then inl (Addr4 (v mod 2 ^ 32)) else inr ErrReject
    | _ => inr ErrDrop end, s);
}.

#[export] Program Instance fx_mapper_laws : MapperLaws unit := { mapper_inv _ := True }.
Next Obligation. done. Qed.
Next Obligation. done. Qed.

(** Collects packets; every buffer starts out as all 0xee. *)
#[export] Instance fx_emitter : Emitter (list (list Z)) := {
  em_packet n e := (Some (replicate (Z.to_nat n) 0xee), e);
  em_fill c e := e ++ [c];
  em_out e := e;
}.

#[export] Program Instance fx_emitter_laws : EmitterLaws (list (list Z)) := { em_inv _ := True }.
Next Obligation. intros n e Hn _. cbn [em_packet fx_emitter]. split; [by apply len_replicate|done]. Qed.

(** 192.0.0.2 and 2001:db8::1, MTU 1500, offlink MTU 1280. *)
Definition fx_config : Config :=
  mkConfig (Addr4 0xc0000002) (Addr6 (0x20010db8 * 2 ^ 96 + 1) "") 1500 1280 UDPChecksumCalc.

Definition fx_t : Translator :=
  Eval vm_compute in
  match New fx_config with Ok t => t | _ => mkTranslator fx_config [] [] end.

Lemma fx_t_ok : tr_ok fx_t.
Proof.
  assert (New fx_config = Ok fx_t) as E by (vm_compute; reflexivity).
  pose proof (New_spec fx_config eq_refl ltac:(unfold mtuMin; simpl; lia)) as H. by rewrite E in H.
Qed.

Definition fx_world (buf : list Z) : world unit (list (list Z)) := World buf tt [] [] 0%nat.

Lemma fx_winv buf : bytes_ok buf -> winv (fx_world buf).
Proof. by split. Qed.

(** 198.51.100.1 and 203.0.113.9, and their IPv6 forms. *)
Definition fx_a : list Z := [198; 51; 100; 1].
Definition fx_b : list Z := [203; 0; 113; 9].
Definition fx_a6 : list Z := be_bytes 16 (fx_prefix + be fx_a).
Definition fx_b6 : list Z := be_bytes 16 (fx_prefix + be fx_b).

Definition fx_sum {A} (d : A) (o : outcome A) : A := match o with Ok x => x | _ => d end.

(** Fill in the checksum field at [i] for the pseudo-header sum [ps]. *)
Definition fx_check (d : list Z) (i : nat) (ps : Z) : list Z :=
  splice d i (be_bytes 2 (checksum d ps)).

(** A UDP datagram of 12 bytes from [fx_a] to [fx_b]. *)
Definition fx_udp_data : list Z := [0; 53; 0x30; 0x39; 0; 12; 0; 0; 1; 2; 3; 4].
Definition fx_udp4 : list Z :=
  Eval vm_compute in
  ip4_header_ck 0 32 7 0x4000 64 17 fx_a fx_b ++
  fx_check fx_udp_data 6 (fx_sum 0 (pseudo4 fx_a fx_b 12 17)).

Definition fx_udp4_nock : list Z :=
  Eval vm_compute in ip4_header_ck 0 32 7 0x4000 64 17 fx_a fx_b ++ fx_udp_data.

(** An ICMP echo request, and an ICMP port unreachable about [fx_udp4]. *)
Definition fx_echo4 : list Z :=
  Eval vm_compute in
  ip4_header_ck 0 32 7 0x4000 64 1 fx_a fx_b ++ fx_check [8; 0; 0; 0; 0x12; 0x34; 0; 1; 9; 9; 9; 9] 2 0.
Definition fx_unreach4 : list Z :=
  Eval vm_compute in
  ip4_header_ck 0 60 7 0 64 1 fx_b fx_a ++ icmp_msg_ck 3 3 0 0 fx_udp4.

(** The same messages over IPv6. *)
Definition fx_udp6 : list Z :=
  Eval vm_compute in
  ip6_header 0 12 17 64 fx_a6 fx_b6 ++ fx_check fx_udp_data 6 (fx_sum 0 (pseudo6 fx_a6 fx_b6 12 17)).
Definition fx_echo6 : list Z :=
  Eval vm_compute in
  ip6_header 0 12 58 64 fx_a6 fx_b6 ++
  fx_check [128; 0; 0; 0; 0x12; 0x34; 0; 1; 9; 9; 9; 9] 2 (fx_sum 0 (pseudo6 fx_a6 fx_b6 12 58)).
Definition fx_unreach6 : list Z :=
  Eval vm_compute in
  ip6_header 0 60 58 64 fx_b6 fx_a6 ++
  icmp_msg_ck 1 4 0 (fx_sum 0 (pseudo6 fx_b6 fx_a6 60 58)) fx_udp6.

(** The packets a parser returns. *)
Definition fx_parse4 (buf : list Z) : pkt :=
  match parseIPv4 buf (new_pkt (Slc 0 (len buf))) with Ok (p, _) => p | _ => new_pkt (Slc 0 0) end.
Definition fx_parse6 (buf : list Z) : pkt :=
  match parseIPv6 buf (new_pkt (Slc 0 (len buf))) with Ok (p, _, _, _) => p | _ => new_pkt (Slc 0 0) end.

Lemma whole_slice_ok buf : slice_ok buf (Slc 0 (len buf)).
Proof. pose proof (len_nonneg buf). unfold slice_ok. simpl. lia. Qed.

Lemma fx_parse4_wf buf :
  bytes_ok buf -> parseIPv4 buf (new_pkt (Slc 0 (len buf))) = Ok (fx_parse4 buf, ReasonNone) ->
  wf4 buf (fx_parse4 buf).
Proof.
  intros Hb Hp. pose proof (parseIPv4_spec buf (Slc 0 (len buf)) Hb (whole_slice_ok buf)) as Hs.
  rewrite Hp in Hs. by apply Hs.
Qed.

Lemma fx_parse6_wf buf :
  bytes_ok buf -> parseIPv6 buf (new_pkt (Slc 0 (len buf))) = Ok (fx_parse6 buf, ReasonNone, 0, false) ->
  wf6 buf (fx_parse6 buf).
Proof.
  intros Hb Hp. pose proof (parseIPv6_spec buf (Slc 0 (len buf)) Hb (whole_slice_ok buf)) as Hs.
  rewrite Hp in Hs. apply Hs. by left.
Qed.

(** The headers of the translations. *)
Definition fx_h6 : list Z := Eval vm_compute in ip6_header 0 12 17 63 fx_a6 fx_b6.
Definition fx_h4 : list Z := Eval vm_compute in ip4_header 0 32 7 0 63 17 0 fx_a fx_b.
