(* ===== verification/TranslateProps.v ===== *)
(** * What the translator guarantees

    The properties of [internal/xlate] as a whole, each with a run on the packets
    of [Fixtures]. *)

From stdpp Require Import base tactics list numbers option strings.
From Stdlib Require Import ZArith Lia.
From S2P Require Import Prelude Netip Netutil Checksum Events Packet Layout Translator TranslatorFacts Xlate4 Xlate6 Fills Transport Xlate4Facts Fragments Xlate4Data Xlate4Icmp Xlate6Facts Xlate6Data Xlate6Icmp Fixtures.

Open Scope Z_scope.
Local Open Scope clatto_scope.

(** ** Safety of a whole call *)

Lemma Translate_v6 {MS ES : Type} {HM : Mapper MS} {HE : Emitter ES} rand32 t (w : world MS ES) :
  0 < len (w_buf w) -> Z.shiftr (w_buf w !!! 0%nat) 4 = 6 ->
  Translate rand32 t w = handleIPv6 rand32 t (whole (w_buf w)) w.
Proof.
  intros Hl Hv. unfold Translate, gets, lift, mbind, M_bind. 
  rewrite (proj2 (Z.eqb_neq _ _)) by lia. rewrite at_ok by lia. cbn [outcome_bind mbind].
  change (Z.to_nat 0) with 0%nat. rewrite Hv. done.
Qed.

Section safety.
Context {MS ES : Type} {HM : Mapper MS} {HML : MapperLaws MS} {HE : Emitter ES} {HEL : EmitterLaws ES}.
Context (rand32 : nat -> Z) (t : Translator) (w : world MS ES).
Hypothesis Ht : tr_ok t.
Hypothesis Hw : winv w.

(** A run of [Translate] and everything it emitted. *)
Lemma translate_run :
  exists w' outs os, Translate rand32 t w = Ok (tt, w') /\ evolves 0 outs os w w' /\
    Forall (answers rand32 t w) outs.
Proof.
  pose proof (emits_Translate rand32 t w Hw Ht) as Hm. apply wp_run in Hm as ([] & w' & Hrun & outs & os & E & F).
  by exists w', outs, os.
Qed.

Lemma parsed4_wf p :
  parseIPv4 (w_buf w) (new_pkt (whole (w_buf w))) = Ok (p, ReasonNone) ->
  p_raw p = whole (w_buf w) /\ wf4 (w_buf w) p.
Proof.
  intros Hp. pose proof (parseIPv4_spec _ _ (wi_bytes _ Hw) (whole_ok (w_buf w))) as Hs.
  rewrite Hp in Hs. destruct Hs as (Hr & _ & Hf). split; [done|by apply Hf].
Qed.

Lemma parsed6_wf p : parsed6 (w_buf w) (whole (w_buf w)) p -> p_raw p = whole (w_buf w) /\ wf6 (w_buf w) p.
Proof.
  intros (r & seg & sil & Hp & Hr). pose proof (parseIPv6_spec _ _ (wi_bytes _ Hw) (whole_ok (w_buf w))) as Hs.
  rewrite Hp in Hs. destruct Hs as (Hraw & _ & Hf). split; [done|by apply Hf].
Qed.

Lemma answers_good b :
  answers rand32 t w b -> (good4 b \/ good6 b) /\ len b <= Z.max (MTU (t_cfg t)) (len (w_buf w)).
Proof.
  pose proof (tr_mtu t Ht) as Hm. unfold mtuMin in Hm. pose proof (wi_bytes _ Hw) as Hb.
  intros [p Hp Ha|p Hp Ha].
  - apply parsed4_wf in Hp as [Hr Hp].
    destruct (answer4_good _ _ _ _ Hw Ht Hp Ha) as [Hrep|[Hg Hl]]; [|split; [by right|lia]].
    destruct (reply4_good _ _ _ _ Ht Hb Hp Hrep) as (Hg & Hl & _). rewrite Hr in Hl. simpl in Hl.
    split; [by left|lia].
  - apply parsed6_wf in Hp as [Hr Hp].
    destruct (answer6_good _ _ _ _ _ Hw Ht Hp Ha) as [Hrep|[Hg Hl]]; [|unfold mtuAdj in *; split; [by left|lia]].
    destruct (reply6_good _ _ _ _ Ht Hb Hp Hrep) as (Hg & Hl & _). rewrite Hr in Hl. simpl in Hl.
    unfold mtuMin in Hl. split; [by right|lia].
Qed.
End safety.

(** C1: for any bytes whatsoever in the packet buffer, [Translate] returns (no
    index out of range, no endless loop), keeps the invariants of the mapper and
    the emitter, and whatever it emits is a well-formed IPv4 or IPv6 packet
    (version, lengths, IPv4 header checksum) no longer than the MTU or the
    packet it was given. *)
Theorem translate_total {MS ES : Type} {HM : Mapper MS} {HML : MapperLaws MS} {HE : Emitter ES}
    {HEL : EmitterLaws ES} (rand32 : nat -> Z) (t : Translator) (w : world MS ES)
    (Ht : tr_ok t) (Hw : winv w) :
  exists w' outs os, Translate rand32 t w = Ok (tt, w') /\ winv w' /\
    em_out (w_em w') = em_out (w_em w) ++ outs /\ w_obs w' = w_obs w ++ os /\
    Forall (fun b => (good4 b \/ good6 b) /\ len b <= Z.max (MTU (t_cfg t)) (len (w_buf w))) outs.
Proof.
  destruct (translate_run rand32 t w Ht Hw) as (w' & outs & os & Hrun & [I _ _ O S] & F).
  exists w', outs, os. repeat (split; [done|]).
  eapply Forall_impl; [exact F|]. intros b. by apply answers_good.
Qed.

Lemma translate_total_witness :
  exists w' outs os, Translate (fun _ => 5) fx_t (fx_world fx_udp4) = Ok (tt, w') /\ winv w' /\
    em_out (w_em w') = em_out (w_em (fx_world fx_udp4)) ++ outs /\ w_obs w' = [] ++ os /\
    Forall (fun b => (good4 b \/ good6 b) /\ len b <= Z.max 1500 (len fx_udp4)) outs.
Proof.
  apply (translate_total (fun _ => 5) fx_t (fx_world fx_udp4)).
  - exact fx_t_ok.
  - apply fx_winv. solve_bytes.
Defined.

(** C13: what a call emits for an IPv4 packet is either IPv6 within the MTU, or an
    ICMP message back to the sender, at most 576 bytes or the size of the packet;
    and the latter never in response to an ICMP message other than an echo
    request. *)
Theorem emitted_for_ipv4 {MS ES : Type} {HM : Mapper MS} {HML : MapperLaws MS} {HE : Emitter ES}
    {HEL : EmitterLaws ES} (rand32 : nat -> Z) (t : Translator) (w : world MS ES) (p : pkt)
    (Ht : tr_ok t) (Hw : winv w)
    (Hp : parseIPv4 (w_buf w) (new_pkt (whole (w_buf w))) = Ok (p, ReasonNone)) :
  exists w' outs, Translate rand32 t w = Ok (tt, w') /\ em_out (w_em w') = em_out (w_em w) ++ outs /\
    Forall (fun b =>
      (good6 b /\ len b <= MTU (t_cfg t)) \/
      (good4 b /\ b !!! 9%nat = protoICMP /\ take 4 (drop 16 b) = take 4 (drop 12 (w_buf w)) /\
       len b <= Z.max 576 (len (w_buf w)) /\
       (p_proto p = protoICMP -> view (w_buf w) (p_data p) !!! 0%nat = 8))) outs.
Proof.
  destruct (translate_run rand32 t w Ht Hw) as (w' & outs & os & Hrun & [I _ _ O S] & F).
  exists w', outs. repeat (split; [done|]). pose proof (parsed4_wf w Hw p Hp) as [Hr Hwf].
  eapply Forall_impl; [exact F|]. intros b [p' Hp' Ha|p' Hp' Ha].
  - rewrite Hp in Hp'. injection Hp' as <-.
    destruct (answer4_good _ _ _ _ Hw Ht Hwf Ha) as [Hrep|]; [right|by left].
    destruct (reply4_good _ _ _ _ Ht (wi_bytes _ Hw) Hwf Hrep) as (Hg & Hl & Hd).
    rewrite Hr in Hl, Hd. rewrite view_whole in Hd.
    split; [done|]. split; [by destruct Hrep|]. split; [done|]. split; [done|]. by destruct Hrep.
  - exfalso. apply (parsed6_wf w Hw) in Hp' as [Hr' Hwf'].
    pose proof (wf4_ver _ _ Hwf) as V4. pose proof (wf6_ver _ _ Hwf') as V6. rewrite Hr in V4. rewrite Hr' in V6.
    rewrite V4 in V6. done.
Qed.

Lemma emitted_for_ipv4_witness :
  exists w' outs, Translate (fun _ => 5) fx_t (fx_world fx_unreach4) = Ok (tt, w') /\
    em_out (w_em w') = em_out (w_em (fx_world fx_unreach4)) ++ outs /\
    Forall (fun b =>
      (good6 b /\ len b <= 1500) \/
      (good4 b /\ b !!! 9%nat = protoICMP /\ take 4 (drop 16 b) = take 4 (drop 12 fx_unreach4) /\
       len b <= Z.max 576 (len fx_unreach4) /\
       (p_proto (fx_parse4 fx_unreach4) = protoICMP ->
        view fx_unreach4 (p_data (fx_parse4 fx_unreach4)) !!! 0%nat = 8))) outs.
Proof.
  apply (emitted_for_ipv4 (fun _ => 5) fx_t (fx_world fx_unreach4) (fx_parse4 fx_unreach4)).
  - exact fx_t_ok.
  - apply fx_winv. solve_bytes.
  - vm_compute. reflexivity.
Defined.

(** C14: what a call emits for an IPv6 packet, whatever the parser says of it.  A
    packet it refuses is answered only when its routing header has segments left:
    then exactly the Parameter Problem pointing at them is offered to the emitter,
    and none about an ICMPv6 message other than an echo request; otherwise nothing
    is.  And everything emitted is IPv4 and at least 20 bytes below the MTU, or an
    ICMPv6 message back to the sender, never in response to an ICMPv6 message
    other than an echo request. *)
Theorem emitted_for_ipv6 {MS ES : Type} {HM : Mapper MS} {HML : MapperLaws MS} {HE : Emitter ES}
    {HEL : EmitterLaws ES} (rand32 : nat -> Z) (t : Translator) (w : world MS ES) (p : pkt) (r : Reason)
    (seg : Z) (sil : bool)
    (Ht : tr_ok t) (Hw : winv w) (Hne : 0 < len (w_buf w)) (Hver : Z.shiftr (w_buf w !!! 0%nat) 4 = 6)
    (Hp : parseIPv6 (w_buf w) (new_pkt (whole (w_buf w))) = Ok (p, r, seg, sil)) :
  exists w' outs, Translate rand32 t w = Ok (tt, w') /\ em_out (w_em w') = em_out (w_em w) ++ outs /\
    (r <> ReasonNone -> outs = accepted (refusal6 t (w_buf w) p r seg) (w_em w)) /\
    Forall (fun b =>
      (good4 b /\ len b <= MTU (t_cfg t) - mtuAdj) \/
      (good6 b /\ b !!! 6%nat = protoICMPv6 /\ take 16 (drop 24 b) = take 16 (drop 8 (w_buf w)) /\
       len b <= Z.max mtuMin (len (w_buf w)) /\
       (p_proto p = protoICMPv6 -> view (w_buf w) (p_data p) !!! 0%nat = 128))) outs.
Proof.
  assert (Hreply : forall b, wf6 (w_buf w) p -> p_raw p = whole (w_buf w) -> answer6 rand32 t w p b ->
      (good4 b /\ len b <= MTU (t_cfg t) - mtuAdj) \/
      (good6 b /\ b !!! 6%nat = protoICMPv6 /\ take 16 (drop 24 b) = take 16 (drop 8 (w_buf w)) /\
       len b <= Z.max mtuMin (len (w_buf w)) /\
       (p_proto p = protoICMPv6 -> view (w_buf w) (p_data p) !!! 0%nat = 128))).
  { intros b Hwf Hr Ha. destruct (answer6_good _ _ _ _ _ Hw Ht Hwf Ha) as [Hrep|]; [right|by left].
    destruct (reply6_good _ _ _ _ Ht (wi_bytes _ Hw) Hwf Hrep) as (Hg & Hl & Hd).
    rewrite Hr in Hl, Hd. rewrite view_whole in Hd.
    split; [done|]. split; [by destruct Hrep|]. split; [done|]. split; [done|]. by destruct Hrep. }
  destruct (decide (r = ReasonNone)) as [->|Hr].
  - destruct (translate_run rand32 t w Ht Hw) as (w' & outs & os & Hrun & [I _ _ O S] & F).
    exists w', outs. repeat (split; [done|]).
    pose proof (parsed6_wf w Hw p (ex_intro _ _ (ex_intro _ _ (ex_intro _ _ (conj Hp (or_introl eq_refl)))))) as [Hr Hwf].
    eapply Forall_impl; [exact F|]. intros b [p' Hp' Ha|p' Hp' Ha].
    + exfalso. apply (parsed4_wf w Hw) in Hp' as [Hr' Hwf'].
      pose proof (wf4_ver _ _ Hwf') as V4. rewrite Hr', view_whole, Hver in V4. done.
    + destruct Hp' as (r' & seg' & sil' & Hp' & _). rewrite Hp in Hp'. injection Hp' as <- _ _ _. by apply Hreply.
  - pose proof (handleIPv6_refused rand32 t (whole (w_buf w)) w p r seg sil Hw Ht (whole_ok _) Hne) as Hs.
    rewrite view_whole in Hs. specialize (Hs Hver Hp Hr).
    apply wp_run in Hs as ([] & w' & Hrun & os & [I _ _ O S]).
    exists w', (accepted (refusal6 t (w_buf w) p r seg) (w_em w)).
    split; [by rewrite Translate_v6|]. split; [done|]. split; [done|]. apply accepted_Forall. unfold refusal6.
    case_bool_decide as Hseg; [|done]. subst r.
    destruct (parsed6_wf w Hw p) as [Hraw Hwf]; [by eexists _, _, _; split; [exact Hp|right]|].
    eapply Forall_impl; [by apply errors6_reply|]. intros b Hb. by apply Hreply; [..|apply answer6_reply].
Qed.

(** An echo request behind a routing header with one segment left. *)
Definition fx_routed6 : list Z :=
  Eval vm_compute in
  ip6_header 0 20 43 64 fx_a6 fx_b6 ++ [58; 0; 0; 1; 0; 0; 0; 0] ++ drop 40 fx_echo6.

Definition fx_routed6_pkt : pkt :=
  Eval vm_compute in
  match parseIPv6 fx_routed6 (new_pkt (whole fx_routed6)) with Ok (p, _, _, _) => p | _ => new_pkt (whole []) end.

Lemma emitted_for_ipv6_witness :
  exists w' outs, Translate (fun _ => 5) fx_t (fx_world fx_routed6) = Ok (tt, w') /\
    em_out (w_em w') = em_out (w_em (fx_world fx_routed6)) ++ outs /\
    (ReasonRoutingHeaderSegmentsLeft <> ReasonNone ->
      outs = accepted (refusal6 fx_t fx_routed6 fx_routed6_pkt ReasonRoutingHeaderSegmentsLeft 44)
               (w_em (fx_world fx_routed6))) /\
    Forall (fun b =>
      (good4 b /\ len b <= 1500 - mtuAdj) \/
      (good6 b /\ b !!! 6%nat = protoICMPv6 /\ take 16 (drop 24 b) = take 16 (drop 8 fx_routed6) /\
       len b <= Z.max mtuMin (len fx_routed6) /\
       (p_proto fx_routed6_pkt = protoICMPv6 ->
        view fx_routed6 (p_data fx_routed6_pkt) !!! 0%nat = 128))) outs.
Proof.
  apply (emitted_for_ipv6 (fun _ => 5) fx_t (fx_world fx_routed6) fx_routed6_pkt ReasonRoutingHeaderSegmentsLeft 44 false).
  - exact fx_t_ok.
  - apply fx_winv. solve_bytes.
  - reflexivity.
  - reflexivity.
  - vm_compute. reflexivity.
Defined.

(** The answer to that packet is one Parameter Problem, to its sender. *)
Example emitted_for_routed6 :
  map (fun b => (take 16 (drop 24 b), b !!! 40%nat, b !!! 41%nat, w32 b 44))
    (refusal6 fx_t fx_routed6 fx_routed6_pkt ReasonRoutingHeaderSegmentsLeft 44) = [(fx_a6, 4, 0, 44)].
Proof. vm_compute. reflexivity. Qed.
