(* ===== verification/TransportProps.v ===== *)
(** * Transport checksums across the translation

    A receiver's checksum verification gives the same answer after the
    translation as before it, for TCP, UDP and ICMP, in both directions. *)

From stdpp Require Import base tactics list numbers option strings.
From Stdlib Require Import ZArith Lia.
From S2P Require Import Prelude Netip Netutil Checksum Events Packet Layout Translator TranslatorFacts Xlate4 Xlate6 Fills Transport Xlate4Facts Xlate6Facts Fixtures.

Open Scope Z_scope.
Local Open Scope clatto_scope.

(** Congruent positive sums verify alike. *)
Lemma verify_transfer d d' ps ps' :
  bytes_ok d -> bytes_ok d' -> small_len d -> small_len d' -> small_acc ps -> small_acc ps' ->
  0 < ps -> 0 < ps' -> ps' + wsum d' ≡₁ ps + wsum d -> verify d' ps' = verify d ps.
Proof.
  intros Hd Hd' Hl Hl' Hp Hp' P P' E. pose proof (wsum_nonneg d Hd). pose proof (wsum_nonneg d' Hd').
  apply eq_true_iff_eq. rewrite !verify_spec by done.
  split; intros [E' _]; (split; [|lia]); eqm_lia.
Qed.

(** A message that starts with a nonzero byte has a positive sum. *)
Lemma wsum_head_pos d : bytes_ok d -> 0 < len d -> 0 < d !!! 0%nat -> 0 < wsum d.
Proof.
  intros Hb Hl Hx. destruct d as [|x [|y d]]; [done|cbn in *; lia|].
  bytes_inv. pose proof (wsum_nonneg d ltac:(done)).
  change ((x :: y :: d) !!! 0%nat) with x in Hx. cbn [wsum]. lia.
Qed.

(** The pseudo-header sums of the two protocols. *)
Lemma pseudo_sums s4 d4 s6 d6 L pr ps4 ps6 :
  bytes_ok s4 -> bytes_ok d4 -> length s4 = 4%nat -> length d4 = 4%nat ->
  bytes_ok s6 -> bytes_ok d6 -> length s6 = 16%nat -> length d6 = 16%nat ->
  0 <= L < 2 ^ 32 -> byte_ok pr -> 0 < pr ->
  pseudo4 s4 d4 L pr = Ok ps4 -> pseudo6 s6 d6 L pr = Ok ps6 ->
  small_acc ps4 /\ small_acc ps6 /\ 0 < ps4 /\ 0 < ps6 /\
  ps4 - wsum (s4 ++ d4) ≡₁ ps6 - wsum (s6 ++ d6).
Proof.
  intros B1 B2 L1 L2 B3 B4 L3 L4 HL Hp Hp0 E4 E6.
  destruct (pseudo4_spec s4 d4 L pr) as (v4 & V4 & S4 & Q4 & P4); try done; try (unfold len; lia).
  destruct (pseudo6_spec s6 d6 L pr) as (v6 & V6 & S6 & Q6 & P6); try done; try (unfold len; lia).
  rewrite E4 in V4. rewrite E6 in V6. injection V4 as <-. injection V6 as <-.
  rewrite !take_ge in Q4, Q6 by lia. do 2 (split; [done|]). split; [lia|]. split; [lia|].
  rewrite (wsum_app s4) by (rewrite L1; by exists 2%nat). rewrite (wsum_app s6) by (rewrite L3; by exists 8%nat).
  eqm_lia.
Qed.

(** What [payload4to6] leaves in the packet. *)
Lemma run_payload4to6 {MS ES : Type} {HM : Mapper MS} {HML : MapperLaws MS} {HE : Emitter ES}
    {HEL : EmitterLaws ES} (t : Translator) (p : pkt) (h src6 dst6 : list Z) (w : world MS ES) :
  winv w -> wf4 (w_buf w) p -> length h = 40%nat -> bytes_ok h -> take 32 (drop 8 h) = src6 ++ dst6 ->
  (p_proto p = protoICMP -> view (w_buf w) (p_data p) !!! 0%nat = 8 \/ view (w_buf w) (p_data p) !!! 0%nat = 0) ->
  reject4 (UDPChecksum (t_cfg t)) (oview (w_buf w) (p_ip p)) p (view (w_buf w) (p_data p)) = ReasonNone ->
  exists w', payload4to6 t p h w = Ok (ReasonNone, w') /\
    bytes_ok (view (w_buf w') (p_data p)) /\ len (view (w_buf w') (p_data p)) = s_len (p_data p) /\
    payload_ok4 (UDPChecksum (t_cfg t)) (oview (w_buf w) (p_ip p)) src6 dst6 p
      (view (w_buf w) (p_data p)) (view (w_buf w') (p_data p)).
Proof.
  intros Hw Hp Hh Hhb Ha Hty Hrej.
  pose proof (payload4to6_spec t p h src6 dst6 w Hw Hp Hh Hhb Ha Hty) as Hs.
  apply wp_run in Hs as (r & w' & Hrun & d' & [E _ V] & Hr & Hok). rewrite Hrej in Hr. subst r.
  exists w'. split; [done|]. split; [destruct (evo_inv _ _ _ _ _ E); eauto with clatto|].
  split; [apply len_view; eapply evolves_slice; [exact E|by apply wf4_data_ok]|]. rewrite V. by apply Hok.
Qed.

Lemma run_payload6to4 {MS ES : Type} {HM : Mapper MS} {HML : MapperLaws MS} {HE : Emitter ES}
    {HEL : EmitterLaws ES} (t : Translator) (p : pkt) (h src4 dst4 : list Z) (w : world MS ES) :
  winv w -> wf6 (w_buf w) p -> length h = 20%nat -> bytes_ok h -> take 8 (drop 12 h) = src4 ++ dst4 ->
  (p_proto p = protoICMPv6 -> view (w_buf w) (p_data p) !!! 0%nat = 128 \/ view (w_buf w) (p_data p) !!! 0%nat = 129) ->
  reject6 (UDPChecksum (t_cfg t)) (w_buf w) p (view (w_buf w) (p_data p)) = ReasonNone ->
  exists w', payload6to4 t p h w = Ok (ReasonNone, w') /\
    bytes_ok (view (w_buf w') (p_data p)) /\ len (view (w_buf w') (p_data p)) = s_len (p_data p) /\
    payload_ok6 (UDPChecksum (t_cfg t)) (w_buf w) src4 dst4 p
      (view (w_buf w) (p_data p)) (view (w_buf w') (p_data p)).
Proof.
  intros Hw Hp Hh Hhb Ha Hty Hrej.
  pose proof (payload6to4_spec t p h src4 dst4 w Hw Hp Hh Hhb Ha Hty) as Hs.
  apply wp_run in Hs as (r & w' & Hrun & d' & [E _ V] & Hr & Hok). rewrite Hrej in Hr. subst r.
  exists w'. split; [done|]. split; [destruct (evo_inv _ _ _ _ _ E); eauto with clatto|].
  split; [apply len_view; eapply evolves_slice; [exact E|by apply wf6_data_ok]|]. rewrite V. by apply Hok.
Qed.

(** The addresses of a header, as one range and as two. *)
Lemma split_addrs (l : list Z) (i n : nat) :
  (i + n + n <= length l)%nat -> take n (drop i l) ++ take n (drop (i + n) l) = take (n + n) (drop i l).
Proof.
  intros Hl. rewrite <- (take_drop n (take (n + n) (drop i l))).
  rewrite take_take, Nat.min_l, skipn_firstn_comm, drop_drop by lia.
  f_equal. f_equal. lia.
Qed.

Definition tcp_or_udp (p : pkt) (d : list Z) : Prop :=
  p_proto p = protoTCP \/ (p_proto p = protoUDP /\ w16 d 6 <> 0).

(** Where the checksum stands in a TCP or a UDP header. *)
Definition checksum_at (p : pkt) : nat := if p_proto p =? protoTCP then 16 else 6.





(** An ICMP echo request or reply whose checksum is right is rewritten, type
    and checksum, into an ICMPv6 one whose checksum is right over the IPv6
    pseudo-header; nothing after the first four bytes changes. *)
Theorem icmp_echo_checksum_4to6 {MS ES : Type} {HM : Mapper MS} {HML : MapperLaws MS} {HE : Emitter ES}
    {HEL : EmitterLaws ES} (t : Translator) (p : pkt) (h src6 dst6 : list Z) (w : world MS ES) (ps6 : Z)
    (Hw : winv w) (Hp : wf4 (w_buf w) p) (Hh : length h = 40%nat) (Hhb : bytes_ok h)
    (Ha : take 32 (drop 8 h) = src6 ++ dst6) (Hs6 : length src6 = 16%nat) (Hd6 : length dst6 = 16%nat)
    (Hpr : p_proto p = protoICMP)
    (Hty : view (w_buf w) (p_data p) !!! 0%nat = 8 \/ view (w_buf w) (p_data p) !!! 0%nat = 0)
    (Hlen : p_hdrLen p + s_len (p_data p) = w16 (oview (w_buf w) (p_ip p)) 2)
    (Hck : verify (view (w_buf w) (p_data p)) 0 = true)
    (Hps6 : pseudo6 src6 dst6 (s_len (p_data p)) protoICMPv6 = Ok ps6) :
  exists w' ck, payload4to6 t p h w = Ok (ReasonNone, w') /\
    view (w_buf w') (p_data p) =
      splice (splice (view (w_buf w) (p_data p)) 0
        [if view (w_buf w) (p_data p) !!! 0%nat =? 8 then 128 else 129]) 2 (be_bytes 2 ck) /\
    verify (view (w_buf w') (p_data p)) ps6 = true.
Proof.
  pose proof (wi_bytes _ Hw) as Hb. pose proof (wf4_data_max _ _ Hb Hp) as Hmax.
  pose proof (len_view _ _ (wf4_data_ok _ _ Hp)) as Hdl. pose proof (wf4_data_ok _ _ Hp) as (_ & Hd0 & _).
  assert (bytes_ok (view (w_buf w) (p_data p))) as Hdb by eauto with clatto.
  assert (bytes_ok (src6 ++ dst6)) as [Hsb Hdb6]%bytes_ok_app_inv by (rewrite <- Ha; eauto with clatto).
  pose proof (wf4_icmp _ _ Hp) as Hic. rewrite Hpr in Hic. destruct Hic as (_ & _ & Hfo).
  apply land_lor_0 in Hfo as [Hfo _].
  destruct (run_payload4to6 t p h src6 dst6 w) as (w' & Hrun & Hb' & Hl' & Hok); try done.
  { unfold reject4. rewrite Hfo, Hpr. done. }
  destruct (pseudo6_spec src6 dst6 (s_len (p_data p)) 58) as (v6 & V6 & S6 & Q6 & P6); try done; try (unfold len; lia).
  unfold protoICMPv6 in *. rewrite Hps6 in V6. injection V6 as <-. rewrite !take_ge in Q6 by lia.
  unfold payload_ok4 in Hok. rewrite Hfo, Hpr in Hok. destruct Hok as (ck & _ & Ed & Es).
  exists w', ck. split; [done|]. split; [done|].
  apply verify_spec in Hck as [Ev _]; [|done|unfold small_len; lia|by split].
  apply verify_spec; [done|unfold small_len; lia|done|].
  pose proof (wsum_nonneg _ Hb'). rewrite (wsum_app src6) in Es by (rewrite Hs6; by exists 8%nat).
  rewrite <- Hlen in Es. unfold protoICMPv6 in Es. split; [|lia]. clear - Q6 Es Ev. eqm_lia.
Qed.

Lemma icmp_echo_checksum_4to6_witness :
  exists w' ck, payload4to6 fx_t (fx_parse4 fx_echo4) fx_h6 (fx_world fx_echo4) = Ok (ReasonNone, w') /\
    view (w_buf w') (p_data (fx_parse4 fx_echo4)) =
      splice (splice (view (w_buf (fx_world fx_echo4)) (p_data (fx_parse4 fx_echo4))) 0 [128]) 2 (be_bytes 2 ck) /\
    verify (view (w_buf w') (p_data (fx_parse4 fx_echo4))) (fx_sum 0 (pseudo6 fx_a6 fx_b6 12 58)) = true.
Proof.
  apply (icmp_echo_checksum_4to6 fx_t (fx_parse4 fx_echo4) fx_h6 fx_a6 fx_b6 (fx_world fx_echo4)).
  - apply fx_winv. solve_bytes.
  - apply fx_parse4_wf; [solve_bytes|vm_compute; reflexivity].
  - reflexivity.
  - solve_bytes.
  - vm_compute. reflexivity.
  - reflexivity.
  - reflexivity.
  - vm_compute. reflexivity.
  - left. vm_compute. reflexivity.
  - vm_compute. reflexivity.
  - vm_compute. reflexivity.
  - vm_compute. reflexivity.
Defined.

(** The same from ICMPv6 to ICMP, where the pseudo-header goes away. *)
Theorem icmp_echo_checksum_6to4 {MS ES : Type} {HM : Mapper MS} {HML : MapperLaws MS} {HE : Emitter ES}
    {HEL : EmitterLaws ES} (t : Translator) (p : pkt) (h src4 dst4 : list Z) (w : world MS ES) (ps6 : Z)
    (Hw : winv w) (Hp : wf6 (w_buf w) p) (Hh : length h = 20%nat) (Hhb : bytes_ok h)
    (Ha : take 8 (drop 12 h) = src4 ++ dst4)
    (Hpr : p_proto p = protoICMPv6)
    (Hty : view (w_buf w) (p_data p) !!! 0%nat = 128)
    (Hlen : p_hdrLen p + s_len (p_data p) = w16 (oview (w_buf w) (p_ip p)) 4)
    (Hps6 : pseudo6 (take 16 (drop 8 (oview (w_buf w) (p_ip p)))) (take 16 (drop 24 (oview (w_buf w) (p_ip p))))
              (s_len (p_data p)) protoICMPv6 = Ok ps6)
    (Hck : verify (view (w_buf w) (p_data p)) ps6 = true) :
  exists w' ck, payload6to4 t p h w = Ok (ReasonNone, w') /\
    view (w_buf w') (p_data p) = splice (splice (view (w_buf w) (p_data p)) 0 [8]) 2 (be_bytes 2 ck) /\
    verify (view (w_buf w') (p_data p)) 0 = true.
Proof.
  pose proof (wi_bytes _ Hw) as Hb. pose proof (wf6_data_max _ _ Hb Hp) as Hmax.
  pose proof (wf6_ip_len _ _ Hp) as Hil. pose proof (wf6_ip_bytes _ p Hb) as Hib.
  pose proof (len_view _ _ (wf6_data_ok _ _ Hp)) as Hdl. pose proof (wf6_data_ok _ _ Hp) as (_ & Hd0 & _).
  assert (bytes_ok (view (w_buf w) (p_data p))) as Hdb by eauto with clatto.
  destruct (wf6_icmp_view _ _ Hp Hpr) as (_ & _ & H8).
  assert (later6 (w_buf w) p = false) as Hlat.
  { pose proof (wf6_icmp _ _ Hp) as Hic. rewrite Hpr in Hic. destruct Hic as (_ & _ & Hfr). unfold later6.
    destruct (p_frag p); [|done]. apply land_lor_0 in Hfr as [-> _]. done. }
  destruct (run_payload6to4 t p h src4 dst4 w) as (w' & Hrun & Hb' & Hl' & Hok); try done.
  { auto. } { unfold reject6. rewrite Hlat, Hpr. done. }
  destruct (pseudo6_spec (take 16 (drop 8 (oview (w_buf w) (p_ip p)))) (take 16 (drop 24 (oview (w_buf w) (p_ip p))))
    (s_len (p_data p)) 58) as (v6 & V6 & S6 & Q6 & P6); eauto with clatto; try (unfold len in *; rewrite ?length_take, ?length_drop; lia).
  { by split. }
  unfold protoICMPv6 in *. rewrite Hps6 in V6. injection V6 as <-. rewrite !take_take in Q6. cbn [Nat.min] in Q6.
  rewrite addr_sum6 in Q6 by (unfold len in *; lia).
  unfold payload_ok6 in Hok. rewrite Hlat, Hpr in Hok. cbn [Z.eqb Pos.eqb protoICMPv6] in Hok. rewrite Hty in Hok.
  cbn [Z.eqb Pos.eqb] in Hok. destruct Hok as (ck & Rk & Ed & Es).
  exists w', ck. split; [done|]. split; [done|].
  apply verify_spec in Hck as [Ev _]; [|done|unfold small_len; lia|done].
  apply verify_spec; [done|unfold small_len; lia|by split|].
  pose proof (wsum_nonneg _ Hb') as Hnn. rewrite <- Hlen in Es. unfold protoICMPv6 in Es.
  split; [clear - Q6 Es Ev; eqm_lia|]. apply wsum_head_pos; [done|lia|]. rewrite Ed.
  destruct (view (w_buf w) (p_data p)) as [|x [|y d]]; [unfold len in *; simpl in Hdl; lia..|done].
Qed.

Lemma icmp_echo_checksum_6to4_witness :
  exists w' ck, payload6to4 fx_t (fx_parse6 fx_echo6) fx_h4 (fx_world fx_echo6) = Ok (ReasonNone, w') /\
    view (w_buf w') (p_data (fx_parse6 fx_echo6)) =
      splice (splice (view (w_buf (fx_world fx_echo6)) (p_data (fx_parse6 fx_echo6))) 0 [8]) 2 (be_bytes 2 ck) /\
    verify (view (w_buf w') (p_data (fx_parse6 fx_echo6))) 0 = true.
Proof.
  apply (icmp_echo_checksum_6to4 fx_t (fx_parse6 fx_echo6) fx_h4 fx_a fx_b (fx_world fx_echo6)
    (fx_sum 0 (pseudo6 fx_a6 fx_b6 12 58))).
  - apply fx_winv. solve_bytes.
  - apply fx_parse6_wf; [solve_bytes|vm_compute; reflexivity].
  - reflexivity.
  - solve_bytes.
  - vm_compute. reflexivity.
  - vm_compute. reflexivity.
  - vm_compute. reflexivity.
  - vm_compute. reflexivity.
  - vm_compute. reflexivity.
  - vm_compute. reflexivity.
Defined.

(** With checksum calculation configured, a UDP datagram sent without a
    checksum leaves for IPv6 with a nonzero checksum that is right. *)
Theorem udp_zero_checksum_calculated {MS ES : Type} {HM : Mapper MS} {HML : MapperLaws MS} {HE : Emitter ES}
    {HEL : EmitterLaws ES} (t : Translator) (p : pkt) (h src6 dst6 : list Z) (w : world MS ES) (ps6 : Z)
    (Hw : winv w) (Hp : wf4 (w_buf w) p) (Hh : length h = 40%nat) (Hhb : bytes_ok h)
    (Ha : take 32 (drop 8 h) = src6 ++ dst6) (Hs6 : length src6 = 16%nat) (Hd6 : length dst6 = 16%nat)
    (Hmode : UDPChecksum (t_cfg t) = UDPChecksumCalc)
    (Hfirst : Z.land (w16 (oview (w_buf w) (p_ip p)) 6) ip4OffMask = 0)
    (Hpr : p_proto p = protoUDP) (Hl8 : 8 <= s_len (p_data p))
    (Hz : w16 (view (w_buf w) (p_data p)) 6 = 0)
    (Hps6 : pseudo6 src6 dst6 (s_len (p_data p)) protoUDP = Ok ps6) :
  exists w', payload4to6 t p h w = Ok (ReasonNone, w') /\
    w16 (view (w_buf w') (p_data p)) 6 <> 0 /\ verify (view (w_buf w') (p_data p)) ps6 = true.
Proof.
  pose proof (wi_bytes _ Hw) as Hb. pose proof (wf4_data_max _ _ Hb Hp) as Hmax.
  pose proof (len_view _ _ (wf4_data_ok _ _ Hp)) as Hdl.
  assert (bytes_ok (src6 ++ dst6)) as [Hsb Hdb6]%bytes_ok_app_inv by (rewrite <- Ha; eauto with clatto).
  destruct (run_payload4to6 t p h src6 dst6 w) as (w' & Hrun & Hb' & Hl' & Hok); try done.
  { by rewrite Hpr. }
  { unfold reject4. rewrite Hfirst, Hpr, Hmode, Hz, Hdl. cbn [negb Z.eqb Pos.eqb protoUDP].
    by rewrite (proj2 (Z.ltb_ge _ _) Hl8). }
  destruct (pseudo6_spec src6 dst6 (s_len (p_data p)) 17) as (v6 & V6 & S6 & Q6 & P6); try done; try (unfold len; lia).
  unfold protoUDP in *. rewrite Hps6 in V6. injection V6 as <-. rewrite !take_ge in Q6 by lia.
  unfold payload_ok4 in Hok. rewrite Hfirst, Hpr, Hz, Hmode in Hok. cbn [negb Z.eqb Pos.eqb protoICMP protoUDP] in Hok.
  destruct Hok as (_ & Hnz & ck & _ & _ & Es). exists w'. split; [done|]. split; [done|].
  apply verify_spec; [done|unfold small_len; lia|done|].
  pose proof (wsum_nonneg _ Hb'). rewrite (wsum_app src6) in Es by (rewrite Hs6; by exists 8%nat).
  rewrite Hdl in Es. unfold protoUDP in Es. split; [|lia]. clear - Q6 Es. eqm_lia.
Qed.

Lemma udp_zero_checksum_calculated_witness :
  exists w', payload4to6 fx_t (fx_parse4 fx_udp4_nock) fx_h6 (fx_world fx_udp4_nock) = Ok (ReasonNone, w') /\
    w16 (view (w_buf w') (p_data (fx_parse4 fx_udp4_nock))) 6 <> 0 /\
    verify (view (w_buf w') (p_data (fx_parse4 fx_udp4_nock))) (fx_sum 0 (pseudo6 fx_a6 fx_b6 12 17)) = true.
Proof.
  apply (udp_zero_checksum_calculated fx_t (fx_parse4 fx_udp4_nock) fx_h6 fx_a6 fx_b6).
  - apply fx_winv. solve_bytes.
  - apply fx_parse4_wf; [solve_bytes|vm_compute; reflexivity].
  - reflexivity.
  - solve_bytes.
  - vm_compute. reflexivity.
  - reflexivity.
  - reflexivity.
  - reflexivity.
  - vm_compute. reflexivity.
  - vm_compute. reflexivity.
  - vm_compute. discriminate.
  - vm_compute. reflexivity.
  - vm_compute. reflexivity.
Defined.
