(* ===== verification/DataProps.v ===== *)
(** * Translation of data packets and of ICMP errors: properties *)

From stdpp Require Import base tactics list numbers option strings.
From Stdlib Require Import ZArith Lia.
From S2P Require Import Prelude Netip Netutil Checksum Events Packet Layout Translator TranslatorFacts Xlate4 Xlate6 Fills Transport Xlate4Facts Fragments Xlate4Data Xlate4Icmp Xlate6Facts Xlate6Data Xlate6Icmp Mapped Fixtures.

Open Scope Z_scope.
Local Open Scope clatto_scope.

(** C5: how [xlate4to6Data] ends, for every packet the parser accepts.  It
    returns.  Either the packet is refused (an unmappable address, too big with
    DF, or a bad transport header) with exactly one event, of the kind and reason
    that go with it, and the ICMP error the refusal calls for is offered to the
    emitter, unless the packet is an ICMP message that must not be answered.  Or
    its translation, whole or in fragments, with the mapper's addresses, the hop
    limit one less and the transport header refitted, is offered to the emitter,
    packet by packet until it refuses a buffer: what comes out is exactly what the
    emitter accepts of it, and the packet is counted once if that is all of it and
    not at all otherwise. *)
Theorem xlate4to6Data_outcomes {MS ES : Type} {HM : Mapper MS} {HML : MapperLaws MS} {HE : Emitter ES}
    {HEL : EmitterLaws ES} (t : Translator) (p : pkt) (w : world MS ES)
    (Hw : winv w) (Ht : tr_ok t) (Hp : wf4 (w_buf w) p)
    (Hty : p_proto p = protoICMP ->
           view (w_buf w) (p_data p) !!! 0%nat = 8 \/ view (w_buf w) (p_data p) !!! 0%nat = 0) :
  exists w' outs os, xlate4to6Data t p w = Ok (tt, w') /\ winv w' /\
    em_out (w_em w') = em_out (w_em w) ++ outs /\ w_obs w' = w_obs w ++ os /\
    data_result4 t w p outs os.
Proof.
  pose proof (xlate4to6Data_spec t p w Hw Ht Hp Hty) as Hs.
  apply wp_run in Hs as ([] & w' & Hrun & o & s & [I _ _ O S] & R). by exists w', o, s.
Qed.

Lemma xlate4to6Data_outcomes_witness :
  exists w' outs os, xlate4to6Data fx_t (fx_parse4 fx_udp4) (fx_world fx_udp4) = Ok (tt, w') /\ winv w' /\
    em_out (w_em w') = em_out (w_em (fx_world fx_udp4)) ++ outs /\ w_obs w' = w_obs (fx_world fx_udp4) ++ os /\
    data_result4 fx_t (fx_world fx_udp4) (fx_parse4 fx_udp4) outs os.
Proof.
  apply (xlate4to6Data_outcomes fx_t (fx_parse4 fx_udp4) (fx_world fx_udp4)).
  - apply fx_winv. solve_bytes.
  - exact fx_t_ok.
  - apply fx_parse4_wf; [solve_bytes|vm_compute; reflexivity].
  - vm_compute. discriminate.
Defined.

(** C6: the same for [xlate6to4Data]. *)
Theorem xlate6to4Data_outcomes {MS ES : Type} {HM : Mapper MS} {HML : MapperLaws MS} {HE : Emitter ES}
    {HEL : EmitterLaws ES} (rand32 : nat -> Z) (t : Translator) (p : pkt) (w : world MS ES)
    (Hw : winv w) (Ht : tr_ok t) (Hp : wf6 (w_buf w) p)
    (Hty : p_proto p = protoICMPv6 ->
           view (w_buf w) (p_data p) !!! 0%nat = 128 \/ view (w_buf w) (p_data p) !!! 0%nat = 129) :
  exists w' outs os, xlate6to4Data rand32 t p w = Ok (tt, w') /\ winv w' /\
    em_out (w_em w') = em_out (w_em w) ++ outs /\ w_obs w' = w_obs w ++ os /\
    data_result6 rand32 t w p outs os.
Proof.
  pose proof (xlate6to4Data_spec rand32 t p w Hw Ht Hp Hty) as Hs.
  apply wp_run in Hs as ([] & w' & Hrun & o & s & [I _ _ O S] & R). by exists w', o, s.
Qed.

Lemma xlate6to4Data_outcomes_witness :
  exists w' outs os, xlate6to4Data (fun _ => 5) fx_t (fx_parse6 fx_udp6) (fx_world fx_udp6) = Ok (tt, w') /\ winv w' /\
    em_out (w_em w') = em_out (w_em (fx_world fx_udp6)) ++ outs /\ w_obs w' = w_obs (fx_world fx_udp6) ++ os /\
    data_result6 (fun _ => 5) fx_t (fx_world fx_udp6) (fx_parse6 fx_udp6) outs os.
Proof.
  apply (xlate6to4Data_outcomes (fun _ => 5) fx_t (fx_parse6 fx_udp6) (fx_world fx_udp6)).
  - apply fx_winv. solve_bytes.
  - exact fx_t_ok.
  - apply fx_parse6_wf; [solve_bytes|vm_compute; reflexivity].
  - vm_compute. discriminate.
Defined.

(** An IPv4 data packet whose addresses the mapper knows, which is not too big
    and whose transport header is acceptable, is translated: the packets emitted
    are [out4] of the mapper's addresses and the refitted data (what the emitter
    takes of them, and one count if it takes them all). *)
Theorem mappable_packet_translated_4to6 {MS ES : Type} {HM : Mapper MS} {HML : MapperLaws MS} {HE : Emitter ES}
    {HEL : EmitterLaws ES} (t : Translator) (p : pkt) (w : world MS ES) (m1 m2 : MS) (src6 dst6 : list Z)
    (Hw : winv w) (Ht : tr_ok t) (Hp : wf4 (w_buf w) p)
    (Hty : p_proto p = protoICMP ->
           view (w_buf w) (p_data p) !!! 0%nat = 8 \/ view (w_buf w) (p_data p) !!! 0%nat = 0)
    (Hdst : mapped4 (w_map w) m1 (take 4 (drop 16 (oview (w_buf w) (p_ip p)))) dst6)
    (Hsrc : mapped4 m1 m2 (take 4 (drop 12 (oview (w_buf w) (p_ip p)))) src6)
    (Hfit : too_big4 t (oview (w_buf w) (p_ip p)) p = false)
    (Hrej : reject4 (UDPChecksum (t_cfg t)) (oview (w_buf w) (p_ip p)) p (view (w_buf w) (p_data p)) = ReasonNone) :
  exists w' outs d, xlate4to6Data t p w = Ok (tt, w') /\ em_out (w_em w') = em_out (w_em w) ++ outs /\
    payload_ok4 (UDPChecksum (t_cfg t)) (oview (w_buf w) (p_ip p)) src6 dst6 p (view (w_buf w) (p_data p)) d /\
    let all := out4 t (oview (w_buf w) (p_ip p)) p src6 dst6 d in
    outs = accepted all (w_em w) /\
    w_obs w' = w_obs w ++ if bool_decide (outs = all) then [OTranslated 4 (p_hdrLen p + s_len (p_data p))] else [].
Proof.
  pose proof (mapped_translated4 t p w m1 m2 src6 dst6 Hw Ht Hp Hty Hdst Hsrc Hfit Hrej) as Hs.
  apply wp_run in Hs as ([] & w' & Hrun & outs & os & d & [I _ _ O S] & _ & _ & Hok & Hres).
  exists w', outs, d. repeat (split; [done|]). cbv zeta in *. destruct Hres as [Ho Hos].
  split; [done|]. by rewrite <- Hos.
Qed.

Lemma mappable_packet_translated_4to6_witness :
  exists w' outs d, xlate4to6Data fx_t (fx_parse4 fx_udp4) (fx_world fx_udp4) = Ok (tt, w') /\
    em_out (w_em w') = em_out (w_em (fx_world fx_udp4)) ++ outs /\
    payload_ok4 UDPChecksumCalc (oview fx_udp4 (p_ip (fx_parse4 fx_udp4))) fx_a6 fx_b6 (fx_parse4 fx_udp4)
      (view fx_udp4 (p_data (fx_parse4 fx_udp4))) d /\
    let all := out4 fx_t (oview fx_udp4 (p_ip (fx_parse4 fx_udp4))) (fx_parse4 fx_udp4) fx_a6 fx_b6 d in
    outs = accepted all (w_em (fx_world fx_udp4)) /\
    w_obs w' = [] ++ if bool_decide (outs = all) then [OTranslated 4 32] else [].
Proof.
  apply (mappable_packet_translated_4to6 fx_t (fx_parse4 fx_udp4) (fx_world fx_udp4) tt tt fx_a6 fx_b6).
  - apply fx_winv. solve_bytes.
  - exact fx_t_ok.
  - apply fx_parse4_wf; [solve_bytes|vm_compute; reflexivity].
  - vm_compute. discriminate.
  - eexists. split; [vm_compute; reflexivity|]. split; vm_compute; reflexivity.
  - eexists. split; [vm_compute; reflexivity|]. split; vm_compute; reflexivity.
  - vm_compute. reflexivity.
  - vm_compute. reflexivity.
Defined.

(** C12: the loop that splits the data ends, and what it emits are fragments that
    cover the data from the packet's own fragment offset without gap or overlap,
    with offsets and non-final lengths that are multiples of eight and the
    more-fragments flag exactly where data or further input fragments follow, no
    packet longer than either MTU: a receiver can reassemble them.  They are offered
    to the emitter in order until it refuses a buffer; the loop says whether it took
    them all. *)
Theorem fragments_cover {MS ES : Type} {HM : Mapper MS} {HML : MapperLaws MS} {HE : Emitter ES}
    {HEL : EmitterLaws ES} (t : Translator) (tc pl hop nh fl ident off : Z) (src dst : list Z) (mf : bool)
    (data : slice) (w : world MS ES)
    (Hw : winv w) (Ht : tr_ok t) (Hd : slice_ok (w_buf w) data) (Hsrc : length src = 16%nat) (Hdst : length dst = 16%nat)
    (Ho : 0 <= off) (Ha : (8 | off)) (Hl : off + s_len data < 65536) (Hl' : s_len data < 65528) :
  exists ok w' frags outs,
    frag_loop (frag_fuel data) (ip6_header tc pl protoFrag hop src dst) (frag_header nh fl ident) data off (frag_step t) mf w =
      Ok (ok, w') /\
    reassembles off mf frags (view (w_buf w) data) /\
    Forall (fun f => 48 + len f.2 <= Z.min (MTU (t_cfg t)) (OfflinkMTU (t_cfg t))) frags /\
    em_out (w_em w') = em_out (w_em w) ++ outs /\
    let all := map (frag_packet tc hop src dst nh ident) frags in
    outs = accepted all (w_em w) /\ (ok = true <-> outs = all).
Proof.
  destruct (frag_step_ok t Ht) as [[H1 H2] H3]. pose proof (len_view _ _ Hd) as Hv.
  pose proof (frag_loop_spec tc hop nh ident src dst (frag_step t) mf Hsrc Hdst ltac:(lia) (frag_fuel data) pl fl data off w
    Hw Hd ltac:(unfold frag_fuel; lia) Ho Hl Hl') as Hs.
  apply wp_run in Hs as (ok & w' & Hrun & outs & [_ _ _ O _] & _ & Hall). eexists ok, w', _, outs.
  split; [exact Hrun|]. split; [|split; [|split; [exact O|exact Hall]]].
  - apply fragments_reassemble; try done; try lia. unfold frag_fuel, len in *. lia.
  - apply Forall_forall. intros f Hf. pose proof (fragments_size _ (frag_step t) _ _ _ _ ltac:(lia) Hf).
    unfold frag_room in *. lia.
Qed.

Lemma fragments_cover_witness :
  let w := fx_world fx_udp4 in let data := p_data (fx_parse4 fx_udp4) in
  exists ok w' frags outs,
    frag_loop (frag_fuel data) (ip6_header 0 0 protoFrag 63 fx_a6 fx_b6) (frag_header 17 0 7) data 1480 (frag_step fx_t) true w =
      Ok (ok, w') /\
    reassembles 1480 true frags (view (w_buf w) data) /\
    Forall (fun f => 48 + len f.2 <= Z.min (MTU (t_cfg fx_t)) (OfflinkMTU (t_cfg fx_t))) frags /\
    em_out (w_em w') = em_out (w_em w) ++ outs /\
    let all := map (frag_packet 0 63 fx_a6 fx_b6 17 7) frags in
    outs = accepted all (w_em w) /\ (ok = true <-> outs = all).
Proof.
  cbv zeta. apply (fragments_cover fx_t 0 0 63 17 0 7 1480 fx_a6 fx_b6 true (p_data (fx_parse4 fx_udp4)) (fx_world fx_udp4)).
  - apply fx_winv. solve_bytes.
  - exact fx_t_ok.
  - vm_compute. repeat split; discriminate.
  - reflexivity.
  - reflexivity.
  - lia.
  - by exists 185.
  - reflexivity.
  - reflexivity.
Defined.

(** The same from IPv6 to IPv4: one packet, [out6] of the mapper's addresses
    and the refitted data, with a header checksum. *)
Theorem mappable_packet_translated_6to4 {MS ES : Type} {HM : Mapper MS} {HML : MapperLaws MS} {HE : Emitter ES}
    {HEL : EmitterLaws ES} (rand32 : nat -> Z) (t : Translator) (p : pkt) (w : world MS ES) (m1 m2 : MS)
    (src4 dst4 : list Z)
    (Hw : winv w) (Ht : tr_ok t) (Hp : wf6 (w_buf w) p)
    (Hty : p_proto p = protoICMPv6 ->
           view (w_buf w) (p_data p) !!! 0%nat = 128 \/ view (w_buf w) (p_data p) !!! 0%nat = 129)
    (Hdst : mapped6 false (w_map w) m1 (take 16 (drop 24 (oview (w_buf w) (p_ip p)))) dst4)
    (Hsrc : mapped6 true m1 m2 (take 16 (drop 8 (oview (w_buf w) (p_ip p)))) src4)
    (Hfit : total6 p <= MTU (t_cfg t))
    (Hrej : reject6 (UDPChecksum (t_cfg t)) (w_buf w) p (view (w_buf w) (p_data p)) = ReasonNone) :
  exists w' outs k d, xlate6to4Data rand32 t p w = Ok (tt, w') /\ em_out (w_em w') = em_out (w_em w) ++ outs /\
    payload_ok6 (UDPChecksum (t_cfg t)) (w_buf w) src4 dst4 p (view (w_buf w) (p_data p)) d /\
    let b := out6 rand32 k (w_buf w) p src4 dst4 d in
    outs = accepted [b] (w_em w) /\
    w_obs w' = w_obs w ++ if bool_decide (outs = [b]) then [OTranslated 6 (total6 p)] else [].
Proof.
  pose proof (mapped_translated6 rand32 t p w m1 m2 src4 dst4 Hw Ht Hp Hty Hdst Hsrc Hfit Hrej) as Hs.
  apply wp_run in Hs as ([] & w' & Hrun & outs & os & d & k & [I _ _ O S] & _ & _ & Hok & Hres).
  exists w', outs, k, d. repeat (split; [done|]). cbv zeta in *. destruct Hres as [Ho Hos].
  split; [done|]. by rewrite <- Hos.
Qed.

Lemma mappable_packet_translated_6to4_witness :
  exists w' outs k d, xlate6to4Data (fun _ => 5) fx_t (fx_parse6 fx_echo6) (fx_world fx_echo6) = Ok (tt, w') /\
    em_out (w_em w') = em_out (w_em (fx_world fx_echo6)) ++ outs /\
    payload_ok6 UDPChecksumCalc fx_echo6 fx_a fx_b (fx_parse6 fx_echo6)
      (view fx_echo6 (p_data (fx_parse6 fx_echo6))) d /\
    let b := out6 (fun _ => 5) k fx_echo6 (fx_parse6 fx_echo6) fx_a fx_b d in
    outs = accepted [b] (w_em (fx_world fx_echo6)) /\
    w_obs w' = [] ++ if bool_decide (outs = [b]) then [OTranslated 6 52] else [].
Proof.
  apply (mappable_packet_translated_6to4 (fun _ => 5) fx_t (fx_parse6 fx_echo6) (fx_world fx_echo6) tt tt fx_a fx_b).
  - apply fx_winv. solve_bytes.
  - exact fx_t_ok.
  - apply fx_parse6_wf; [solve_bytes|vm_compute; reflexivity].
  - intros _. left. vm_compute. reflexivity.
  - eexists. split; [vm_compute; reflexivity|]. split; vm_compute; reflexivity.
  - eexists. split; [vm_compute; reflexivity|]. split; vm_compute; reflexivity.
  - vm_compute. discriminate.
  - vm_compute. reflexivity.
Defined.

(** ** ICMP errors *)

Lemma ip6_header_srcdst tc pl nh hop src dst rest :
  length src = 16%nat -> length dst = 16%nat ->
  take 16 (drop 8 (ip6_header tc pl nh hop src dst ++ rest)) = src /\
  take 16 (drop 24 (ip6_header tc pl nh hop src dst ++ rest)) = dst /\
  drop 40 (ip6_header tc pl nh hop src dst ++ rest) = rest.
Proof. intros Hs Hd. explode Hs. explode Hd. done. Qed.

(** C15: for a packet carrying an ICMPv4 error, [xlate4to6ICMPError] returns and
    emits nothing but ICMPv6 errors as [icmp_out4] describes them (type and code
    from the table, embedded packet translated, both of its checksums refitted),
    well formed, within 1280 bytes, and with a checksum that verifies over the
    IPv6 pseudo-header. *)
Theorem icmp_error_4to6 {MS ES : Type} {HM : Mapper MS} {HML : MapperLaws MS} {HE : Emitter ES}
    {HEL : EmitterLaws ES} (t : Translator) (p : pkt) (w : world MS ES)
    (Hw : winv w) (Ht : tr_ok t) (Hp : wf4 (w_buf w) p) (Hpr : p_proto p = protoICMP) :
  exists w' outs, xlate4to6ICMPError t p w = Ok (tt, w') /\ winv w' /\
    em_out (w_em w') = em_out (w_em w) ++ outs /\
    Forall (fun b => icmp_out4 t (w_buf w) p b /\ good6 b /\ len b <= mtuMin /\
      exists ps, pseudo6 (take 16 (drop 8 b)) (take 16 (drop 24 b)) (len b - 40) protoICMPv6 = Ok ps /\
        verify (drop 40 b) ps = true) outs.
Proof.
  pose proof (emits_xlate4to6ICMPError t p w Hw Ht Hp Hpr) as Hs.
  apply wp_run in Hs as ([] & w' & Hrun & o & s & [I _ _ O S] & F). exists w', o.
  repeat (split; [done|]). eapply Forall_impl; [exact F|]. intros b Hb.
  pose proof (icmp_out4_good t (w_buf w) p b Ht (wi_bytes _ Hw) Hb) as [Hg Hl].
  split; [done|]. split; [done|]. split; [done|]. clear F O S Hrun.
  destruct Hb as [em src6 dst6 emSrc emDst d ty co wo ps Hem _ Hsw Sb Sl Db Dl ESb ESl EDb EDl Hdl Hdb Hd _ Hps].
  set (inner := ip6_header _ (u16 _) _ _ emSrc emDst) in *.
  destruct (ip6_header_srcdst (oview (w_buf w) (p_ip p) !!! 1%nat) (48 + len d) protoICMPv6
    (u8 (oview (w_buf w) (p_ip p) !!! 8%nat - 1)) src6 dst6 (icmp_msg_ck ty co wo ps (inner ++ d)) Sl Dl) as (-> & -> & ->).
  assert (bytes_ok inner /\ len inner = 40) as [Hib Hil].
  { split; [|by apply len_ip6_header]. pose proof (wi_bytes _ Hw). apply bytes_ok_ip6_header; eauto with clatto.
    by eapply next_header_ok. }
  exists ps. rewrite len_app, len_ip6_header, len_icmp_msg_ck, len_app, Hil by done.
  replace (40 + (8 + (40 + len d)) - 40) with (48 + len d) by lia. split; [done|].
  pose proof (wi_bytes _ Hw). apply icmp_switch4_range in Hsw as (Hty & Hco & _); [|apply Ht|eauto with clatto].
  apply icmp_msg_verifies; try done; [by apply bytes_ok_app|rewrite len_app; lia|].
  pose proof (len_nonneg d). destruct (pseudo6_spec src6 dst6 (48 + len d) 58) as (v & V & Sv & _); try done; try (unfold len in *; lia).
  unfold protoICMPv6 in Hps. rewrite Hps in V. by injection V as <-.
Qed.

Lemma icmp_error_4to6_witness :
  exists w' outs, xlate4to6ICMPError fx_t (fx_parse4 fx_unreach4) (fx_world fx_unreach4) = Ok (tt, w') /\ winv w' /\
    em_out (w_em w') = em_out (w_em (fx_world fx_unreach4)) ++ outs /\
    Forall (fun b => icmp_out4 fx_t fx_unreach4 (fx_parse4 fx_unreach4) b /\ good6 b /\ len b <= mtuMin /\
      exists ps, pseudo6 (take 16 (drop 8 b)) (take 16 (drop 24 b)) (len b - 40) protoICMPv6 = Ok ps /\
        verify (drop 40 b) ps = true) outs.
Proof.
  apply (icmp_error_4to6 fx_t (fx_parse4 fx_unreach4) (fx_world fx_unreach4)).
  - apply fx_winv. solve_bytes.
  - exact fx_t_ok.
  - apply fx_parse4_wf; [solve_bytes|vm_compute; reflexivity].
  - vm_compute. reflexivity.
Defined.

(** C16: the same for ICMPv6 errors: ICMP errors of at most 576 bytes whose
    checksum verifies. *)
Theorem icmp_error_6to4 {MS ES : Type} {HM : Mapper MS} {HML : MapperLaws MS} {HE : Emitter ES}
    {HEL : EmitterLaws ES} (rand32 : nat -> Z) (t : Translator) (p : pkt) (w : world MS ES)
    (Hw : winv w) (Ht : tr_ok t) (Hp : wf6 (w_buf w) p) (Hpr : p_proto p = protoICMPv6) :
  exists w' outs, xlate6to4ICMPError rand32 t p w = Ok (tt, w') /\ winv w' /\
    em_out (w_em w') = em_out (w_em w) ++ outs /\
    Forall (fun b => icmp_out6 rand32 t (w_buf w) p b /\ good4 b /\ len b <= icmp4MaxLen /\
      verify (drop 20 b) 0 = true) outs.
Proof.
  pose proof (emits_xlate6to4ICMPError rand32 t p w Hw Ht Hp Hpr) as Hs.
  apply wp_run in Hs as ([] & w' & Hrun & o & s & [I _ _ O S] & F). exists w', o.
  repeat (split; [done|]). eapply Forall_impl; [exact F|]. intros b Hb. pose proof (wi_bytes _ Hw) as Hbb.
  pose proof (icmp_out6_good rand32 t (w_buf w) p b Ht Hbb Hp Hb) as [Hg Hl].
  split; [done|]. split; [done|]. split; [done|]. clear F O S Hrun.
  destruct Hb as [em k k' src4 dst4 emSrc emDst d ty co wo Hem _ Hsw Sb Sl Db Dl ESb ESl EDb EDl Hdl Hdb Hd _].
  set (inner := v4_header_ck _ _ _ em _ _ _ _) in *.
  assert (bytes_ok inner /\ len inner = 20) as [Hib Hil].
  { split; [|by apply len_v4_header_ck]. apply v4_header_ck_bytes; eauto with clatto. }
  rewrite drop_app_length' by (symmetry; by apply length_ip4_header).
  apply icmp_switch6_range in Hsw as (Hty & Hco & _); [|apply Ht|eauto with clatto|apply w32_range; eauto with clatto].
  apply icmp_msg_verifies; try done; [by apply bytes_ok_app|rewrite len_app; lia].
Qed.

Lemma icmp_error_6to4_witness :
  exists w' outs, xlate6to4ICMPError (fun _ => 5) fx_t (fx_parse6 fx_unreach6) (fx_world fx_unreach6) = Ok (tt, w') /\
    winv w' /\ em_out (w_em w') = em_out (w_em (fx_world fx_unreach6)) ++ outs /\
    Forall (fun b => icmp_out6 (fun _ => 5) fx_t fx_unreach6 (fx_parse6 fx_unreach6) b /\ good4 b /\
      len b <= icmp4MaxLen /\ verify (drop 20 b) 0 = true) outs.
Proof.
  apply (icmp_error_6to4 (fun _ => 5) fx_t (fx_parse6 fx_unreach6) (fx_world fx_unreach6)).
  - apply fx_winv. solve_bytes.
  - exact fx_t_ok.
  - apply fx_parse6_wf; [solve_bytes|vm_compute; reflexivity].
  - vm_compute. reflexivity.
Defined.

(** An ICMPv4 error type that is translated to ICMPv6 is translated back to
    the same ICMPv4 type, whatever the code, pointer or MTU it carries. *)
Theorem icmp_type_roundtrip (mtu mtu' typ code word emTotal ty co wo : Z)
    (Hm : mtuMin <= mtu <= 65535) (Hm' : mtuMin <= mtu' <= 65535)
    (Hc : byte_ok code)
    (H4 : icmp_switch4 mtu typ code word emTotal = inl (ty, co, wo)) :
  exists co' wo', icmp_switch6 mtu' ty co wo = inl (typ, co', wo').
Proof.
  pose proof (icmp_switch4_range _ _ _ _ _ _ _ _ Hm Hc H4) as (_ & _ & _ & Hmtu & _).
  unfold icmp_switch4 in H4.
  destruct (typ =? 3) eqn:E3; [apply Z.eqb_eq in E3 as ->|].
  { destruct (bool_decide _); [injection H4 as <- <- <-; eexists _, _; reflexivity|].
    destruct (code =? 2); [injection H4 as <- <- <-; eexists _, _; reflexivity|].
    destruct (code =? 3); [injection H4 as <- <- <-; eexists _, _; reflexivity|].
    destruct (code =? 4).
    - injection H4 as <- <- Hwo. specialize (Hmtu eq_refl). clear Hwo. unfold icmp_switch6, mtuMin in *.
      cbn [Z.eqb Pos.eqb]. rewrite (proj2 (Z.ltb_ge wo 68)) by lia. eexists _, _. reflexivity.
    - destruct (bool_decide _); [injection H4 as <- <- <-; eexists _, _; reflexivity|done]. }
  destruct (typ =? 11) eqn:E11.
  { apply Z.eqb_eq in E11 as ->. injection H4 as <- <- <-. eexists _, _. reflexivity. }
  destruct (typ =? 12) eqn:E12; [|done]. apply Z.eqb_eq in E12 as ->.
  destruct (_ && _); [done|]. cbv zeta in H4. destruct (len ptrTable4to6 <=? _) eqn:El; [done|].
  revert H4. generalize (Z.to_nat (Z.shiftr word 24)). intros i.
  destruct (ptrTable4to6 !!! i <? 0) eqn:En; [done|]. intros [= <- <- <-].
  do 20 (destruct i as [|i]; [cbn in En |- *; (discriminate En || (eexists _, _; vm_compute; reflexivity))|]).
  destruct i; eexists _, _; vm_compute; reflexivity.
Qed.

Lemma icmp_type_roundtrip_witness : exists co' wo', icmp_switch6 1500 4 0 7 = inl (12, co', wo').
Proof.
  apply (icmp_type_roundtrip 1500 1500 12 0 0x08000000 0 4 0 7).
  - unfold mtuMin. lia.
  - unfold mtuMin. lia.
  - by split.
  - vm_compute. reflexivity.
Defined.

(** ** Parsing *)

(** [parseIPv4] returns on any bytes (no slice out of range), and a packet it
    accepts has a header and data inside the packet, one after the other, a total
    length that covers them, and an ICMP header only when the protocol is ICMP. *)
Theorem parseIPv4_total (buf : list Z) (s : slice) (Hb : bytes_ok buf) (Hs : slice_ok buf s) :
  exists p r, parseIPv4 buf (new_pkt s) = Ok (p, r) /\ p_raw p = s /\ (r = ReasonNone -> wf4 buf p).
Proof.
  pose proof (parseIPv4_spec buf s Hb Hs) as H. apply owp_run in H as ([p r] & E & H1 & _ & H2).
  by exists p, r.
Qed.

Lemma parseIPv4_total_witness :
  exists p r, parseIPv4 fx_udp4 (new_pkt (Slc 0 32)) = Ok (p, r) /\ p_raw p = Slc 0 32 /\
    (r = ReasonNone -> wf4 fx_udp4 p).
Proof.
  apply (parseIPv4_total fx_udp4 (Slc 0 32)); [solve_bytes|]. split; [|split]; vm_compute; discriminate.
Defined.

(** [parseIPv6] returns on any bytes, its loop over extension headers
    included, and a packet it accepts has its fragment header, data and ICMPv6
    header inside the packet, after the extension headers it counted. *)
Theorem parseIPv6_total (buf : list Z) (s : slice) (Hb : bytes_ok buf) (Hs : slice_ok buf s) :
  exists p r seg silent, parseIPv6 buf (new_pkt s) = Ok (p, r, seg, silent) /\ p_raw p = s /\
    (r = ReasonNone \/ r = ReasonRoutingHeaderSegmentsLeft -> wf6 buf p).
Proof.
  pose proof (parseIPv6_spec buf s Hb Hs) as H. apply owp_run in H as ([[[p r] seg] sil] & E & H1 & _ & H2).
  by exists p, r, seg, sil.
Qed.

Lemma parseIPv6_total_witness :
  exists p r seg silent, parseIPv6 fx_udp6 (new_pkt (Slc 0 52)) = Ok (p, r, seg, silent) /\ p_raw p = Slc 0 52 /\
    (r = ReasonNone \/ r = ReasonRoutingHeaderSegmentsLeft -> wf6 fx_udp6 p).
Proof.
  apply (parseIPv6_total fx_udp6 (Slc 0 52)); [solve_bytes|]. split; [|split]; vm_compute; discriminate.
Defined.
