(* ===== verification/RoundTrip.v ===== *)
(** * There and back: a packet through two translators

    A packet that one translator takes from IPv4 to IPv6 and another one back to IPv4,
    as between a CLAT and a NAT64, arrives as it was sent: the same addresses, protocol,
    type of service and data, and a TTL two less. *)

From stdpp Require Import base tactics list numbers option strings.
From Stdlib Require Import ZArith Lia.
From S2P Require Import Prelude Netip Netutil Checksum Events Packet Layout Translator TranslatorFacts Xlate4 Xlate6 Fills Transport Xlate4Facts Fragments Xlate4Data Xlate4Icmp Xlate6Facts Xlate6Data Xlate6Icmp Mapped Plain Fixtures.

Open Scope Z_scope.
Local Open Scope clatto_scope.

(** ** Datagrams and their packets *)

Record datagram := mkDatagram {
  dg_tos : Z;
  dg_id : Z;
  dg_df : bool;
  dg_ttl : Z;
  dg_proto : Z;
  dg_src : list Z;
  dg_dst : list Z;
  dg_data : list Z;
}.

(** The transport headers the translator accepts: complete, and with a checksum. *)
Definition transport_ok (proto : Z) (d : list Z) : Prop :=
  (proto = protoUDP -> 8 <= len d /\ w16 d 6 <> 0) /\ (proto = protoTCP -> 20 <= len d).

Record datagram_ok (g : datagram) : Prop := {
  dk_tos : byte_ok (dg_tos g);
  dk_id : 0 <= dg_id g < 65536;
  dk_ttl : 2 < dg_ttl g < 256;
  dk_proto : plain_proto (dg_proto g);
  dk_src : bytes_ok (dg_src g) /\ length (dg_src g) = 4%nat /\ ClassifyIPv4 (dg_src g) <> IPv4Invalid;
  dk_dst : bytes_ok (dg_dst g) /\ length (dg_dst g) = 4%nat /\ ClassifyIPv4 (dg_dst g) <> IPv4Invalid;
  dk_data : bytes_ok (dg_data g) /\ len (dg_data g) < 65516;
  dk_transport : transport_ok (dg_proto g) (dg_data g);
}.

Definition flags4 (df : bool) : Z := if df then ip4FlagDF else 0.

Definition packet4 (g : datagram) : list Z :=
  ip4_header_ck (dg_tos g) (20 + len (dg_data g)) (dg_id g) (flags4 (dg_df g)) (dg_ttl g) (dg_proto g)
    (dg_src g) (dg_dst g) ++ dg_data g.

(** With the addresses and data of the translation. *)
Definition packet6 (g : datagram) (src6 dst6 d : list Z) : list Z :=
  ip6_header (dg_tos g) (len d) (dg_proto g) (dg_ttl g - 1) src6 dst6 ++ d.

Lemma packet4_fields g :
  length (dg_src g) = 4%nat -> length (dg_dst g) = 4%nat ->
  packet4 g !!! 1%nat = dg_tos g /\ packet4 g !!! 8%nat = dg_ttl g /\ packet4 g !!! 9%nat = dg_proto g /\
  take 4 (drop 12 (packet4 g)) = dg_src g /\ take 4 (drop 16 (packet4 g)) = dg_dst g /\
  drop 20 (packet4 g) = dg_data g /\ w16 (packet4 g) 6 = flags4 (dg_df g).
Proof.
  destruct g as [tos id df ttl proto src dst d]. cbn. intros Hs Hd. explode Hs. explode Hd.
  split_and!; try done. by destruct df.
Qed.

Lemma packet4_plain g : datagram_ok g -> is_plain4 (packet4 g).
Proof.
  intros [Ht Hi Htl Hp (Sb & Sl & Sc) (Db & Dl & Dc) (Bd & Ld) _].
  destruct (packet4_fields g Sl Dl) as (_ & _ & E9 & Es & Ed & _ & Ef). constructor.
  - unfold packet4. apply good4_layout; auto; try lia; [unfold byte_ok; lia|apply Hp].
  - by rewrite E9.
  - rewrite Ef. by destruct (dg_df g).
  - by rewrite Es.
  - by rewrite Ed.
Qed.

Lemma packet6_fields g src6 dst6 d :
  byte_ok (dg_tos g) -> length src6 = 16%nat -> length dst6 = 16%nat ->
  packet6 g src6 dst6 d !!! 6%nat = dg_proto g /\ packet6 g src6 dst6 d !!! 7%nat = dg_ttl g - 1 /\
  take 16 (drop 8 (packet6 g src6 dst6 d)) = src6 /\ take 16 (drop 24 (packet6 g src6 dst6 d)) = dst6 /\
  drop 40 (packet6 g src6 dst6 d) = d /\ u8 (Z.shiftr (w32 (packet6 g src6 dst6 d) 0) 20) = dg_tos g.
Proof.
  destruct g as [tos id df ttl proto src dst d0]. cbn [dg_tos dg_proto dg_ttl]. intros Ht Hs Hd.
  explode Hs. explode Hd. split_and!; try done.
  apply Z.eqb_eq.
  refine (byte_forall (fun tos => u8 (Z.shiftr (be (be_bytes 4 (Z.lor (Z.shiftl 6 28) (Z.shiftl tos 20)))) 20) =? tos) tos _ Ht).
  vm_compute. reflexivity.
Qed.

Lemma packet6_plain g src6 dst6 d :
  datagram_ok g -> bytes_ok src6 -> bytes_ok dst6 -> length src6 = 16%nat -> length dst6 = 16%nat ->
  bytes_ok d -> len d < 65536 -> ValidIPv6 src6 = true -> ValidIPv6 dst6 = true ->
  is_plain6 (packet6 g src6 dst6 d).
Proof.
  intros [Ht Hi Htl Hp _ _ _ _] Sb Db Sl Dl Bd Ld Sv Dv.
  destruct (packet6_fields g src6 dst6 d Ht Sl Dl) as (E6 & _ & Es & Ed & _). constructor.
  - unfold packet6. apply good6_layout; auto; try lia; [apply Hp|unfold byte_ok; lia].
  - by rewrite E6.
  - by rewrite Es.
  - by rewrite Ed.
Qed.

(** ** The data *)

(** The data with its checksum made right for other addresses. *)
Definition recomputed (proto old new : Z) (d d' : list Z) : Prop :=
  if proto =? protoUDP then refit d d' 6 old new /\ w16 d' 6 <> 0
  else if proto =? protoTCP then refit d d' 16 old new
  else d' = d.

(** The same data; of the two forms of zero in ones' complement a TCP checksum may
    change from one to the other. *)
Definition same_data (proto : Z) (d d' : list Z) : Prop :=
  d' = d \/
  proto = protoTCP /\ exists ck, d' = splice d 16 (be_bytes 2 ck) /\
    (w16 d 16 = 0 /\ ck = 65535 \/ w16 d 16 = 65535 /\ ck = 0).

Lemma w16_of_splice d (i : nat) ck :
  (i + 2 <= length d)%nat -> 0 <= ck < 65536 -> w16 (splice d i (be_bytes 2 ck)) (Z.of_nat i) = ck.
Proof.
  intros Hi Hc. unfold w16, splice. rewrite Nat2Z.id. rewrite drop_app_length' by (rewrite length_take; lia).
  by apply w16_be_bytes.
Qed.

Lemma splice_twice d i (a b : list Z) :
  (i + length a <= length d)%nat -> length b = length a -> splice (splice d i a) i b = splice d i b.
Proof.
  intros Hi Hl. unfold splice. rewrite take_app_length' by (rewrite length_take; lia).
  rewrite (app_assoc (take i d) a), drop_app_length' by (rewrite length_app, length_take; lia). by rewrite Hl.
Qed.

Lemma splice_same d (i : nat) : bytes_ok d -> (i + 2 <= length d)%nat -> splice d i (be_bytes 2 (w16 d (Z.of_nat i))) = d.
Proof.
  intros Hb Hi. unfold w16. rewrite Nat2Z.id.
  assert (Hf : length (take 2 (drop i d)) = 2%nat) by (rewrite length_take, length_drop; lia).
  rewrite <- Hf at 1. rewrite be_bytes_be by eauto with clatto. unfold splice. rewrite Hf.
  rewrite <- drop_drop. by rewrite take_drop, take_drop.
Qed.

(** Two refits, there and back, leave the checksum as it was modulo 65535. *)
Lemma refit_back d d' d'' (i : nat) a b :
  bytes_ok d -> Nat.Even i -> (i + 2 <= length d)%nat -> refit d d' i a b -> refit d' d'' i b a ->
  exists ck, 0 <= ck < 65536 /\ d'' = splice d i (be_bytes 2 ck) /\ ck ≡₁ w16 d (Z.of_nat i).
Proof.
  intros Hb He Hi (c1 & R1 & -> & E1) (c2 & R2 & -> & E2). exists c2. split; [done|].
  rewrite splice_twice in * by (rewrite ?length_be_bytes; lia). split; [done|].
  pose proof (wsum_set16 d i c1 He Hi R1). pose proof (wsum_set16 d i c2 He Hi R2). eqm_lia.
Qed.

(** Equal modulo 65535: the same, or the two zeros. *)
Lemma eqm_u16_or a b : 0 <= a < 65536 -> 0 <= b < 65536 -> a ≡₁ b ->
  a = b \/ a = 0 /\ b = 65535 \/ a = 65535 /\ b = 0.
Proof.
  intros Ha Hb E. apply eqm_mod in E. destruct (decide (a = 65535)) as [->|Hna], (decide (b = 65535)) as [->|Hnb].
  - by left.
  - rewrite Z.mod_same, Z.mod_small in E by lia. right. right. lia.
  - rewrite Z.mod_same, (Z.mod_small a) in E by lia. right. left. lia.
  - rewrite !Z.mod_small in E by lia. by left.
Qed.

Lemma recomputed_back proto a b d d' d'' :
  bytes_ok d -> transport_ok proto d -> recomputed proto a b d d' -> recomputed proto b a d' d'' ->
  same_data proto d d''.
Proof.
  intros Hb [Hu Ht] H1 H2. unfold recomputed in *. destruct (proto =? protoUDP) eqn:Eu; [|destruct (proto =? protoTCP) eqn:Et].
  - apply Z.eqb_eq in Eu. destruct (Hu Eu) as [Hl Hne], H1 as [H1 _], H2 as [H2 Hn2]. unfold len in Hl.
    destruct (refit_back _ _ _ 6 _ _ Hb (ex_intro _ 3%nat eq_refl) ltac:(lia) H1 H2) as (ck & R & -> & E).
    rewrite (w16_of_splice _ 6) in Hn2 by lia. pose proof (w16_range d 6 Hb).
    assert (Eck : ck = w16 d 6) by (apply eqm_u16; [lia|lia|exact E]). left. subst ck. apply (splice_same _ 6); [done|lia].
  - apply Z.eqb_eq in Et. pose proof (Ht Et) as Hl. unfold len in Hl.
    destruct (refit_back _ _ _ 16 _ _ Hb (ex_intro _ 8%nat eq_refl) ltac:(lia) H1 H2) as (ck & R & -> & E).
    destruct (eqm_u16_or _ _ R (w16_range d 16 Hb) E) as [Eck|Hz].
    + left. subst ck. apply (splice_same _ 16); [done|lia].
    + right. split; [done|]. exists ck. split; [done|]. change (Z.of_nat 16) with 16 in Hz. lia.
  - left. congruence.
Qed.

(** ** One way *)

Lemma packet4_addrs g :
  length (dg_src g) = 4%nat -> length (dg_dst g) = 4%nat ->
  take 8 (drop 12 (take 20 (packet4 g))) = dg_src g ++ dg_dst g.
Proof.
  destruct g as [tos id df ttl proto src dst d]. cbn. intros Hs Hd. explode Hs. explode Hd. done.
Qed.

Lemma packet6_addrs g src6 dst6 d :
  length src6 = 16%nat -> length dst6 = 16%nat ->
  take 32 (drop 8 (take 40 (packet6 g src6 dst6 d))) = src6 ++ dst6.
Proof.
  destruct g as [tos id df ttl proto src dst d0]. cbn. intros Hs Hd. explode Hs. explode Hd. done.
Qed.

Lemma len_packet4 g : length (dg_src g) = 4%nat -> length (dg_dst g) = 4%nat -> len (packet4 g) = 20 + len (dg_data g).
Proof. intros. unfold packet4. by rewrite len_app, len_ip4_header_ck. Qed.

Lemma len_packet6 g src6 dst6 d :
  length src6 = 16%nat -> length dst6 = 16%nat -> len (packet6 g src6 dst6 d) = 40 + len d.
Proof. intros. unfold packet6. by rewrite len_app, len_ip6_header. Qed.

Lemma plain_not proto x : plain_proto proto -> x ∈ [0; 1; 43; 44; 58; 60] -> (proto =? x) = false.
Proof. intros [_ Hn] Hx. apply Z.eqb_neq. by intros ->. Qed.

(** What the functions on payloads say of a packet of this kind. *)
Lemma payload4_plain mode g src6 dst6 d :
  datagram_ok g -> let buf := packet4 g in
  payload_ok4 mode (take 20 buf) src6 dst6 (plain4 buf) (dg_data g) d ->
  recomputed (dg_proto g) (wsum (dg_src g ++ dg_dst g)) (wsum (src6 ++ dst6)) (dg_data g) d.
Proof.
  intros Hg buf. pose proof Hg as [_ _ _ Hp (_ & Sl & _) (_ & Dl & _) _ [Hu _]]. subst buf.
  destruct (packet4_fields g Sl Dl) as (_ & _ & E9 & _ & _ & _ & Ef).
  unfold payload_ok4, recomputed. cbn [plain4 p_proto]. rewrite w16_take, Ef, E9, packet4_addrs by (done || lia).
  assert (E : Z.land (flags4 (dg_df g)) ip4OffMask = 0) by by destruct (dg_df g).
  rewrite E, (plain_not _ protoICMP) by (done || in_list). cbn [negb Z.eqb].
  destruct (dg_proto g =? protoUDP) eqn:Eu.
  - apply Z.eqb_eq in Eu. destruct (Hu Eu) as [_ Hne]. rewrite (proj2 (Z.eqb_neq _ _)) by done. by intros [_ ?].
  - destruct (dg_proto g =? protoTCP); [by intros [_ ?]|done].
Qed.

Lemma payload6_plain mode g src6 dst6 d src4 dst4 d' :
  datagram_ok g -> length src6 = 16%nat -> length dst6 = 16%nat -> transport_ok (dg_proto g) d ->
  let buf := packet6 g src6 dst6 d in
  payload_ok6 mode buf src4 dst4 (plain6 buf) d d' ->
  recomputed (dg_proto g) (wsum (src6 ++ dst6)) (wsum (src4 ++ dst4)) d d'.
Proof.
  intros Hg Sl Dl [Hu _] buf. pose proof Hg as [Ht _ _ Hp _ _ _ _]. subst buf.
  destruct (packet6_fields g src6 dst6 d Ht Sl Dl) as (E6 & _).
  unfold payload_ok6, recomputed, later6. rewrite oview_plain6, packet6_addrs by done.
  cbn [plain6 p_proto p_frag]. rewrite E6, (plain_not _ protoICMPv6) by (done || in_list).
  destruct (dg_proto g =? protoUDP) eqn:Eu.
  - apply Z.eqb_eq in Eu. destruct (Hu Eu) as [_ Hne]. rewrite (proj2 (Z.eqb_neq _ _)) by done. by intros [_ ?].
  - destruct (dg_proto g =? protoTCP); [by intros [_ ?]|done].
Qed.

Lemma reject_plain mode proto d :
  transport_ok proto d ->
  (if proto =? protoUDP then
     if len d <? 8 then ReasonUDPHeaderLength
     else if (w16 d 6 =? 0) && bool_decide (mode = UDPChecksumDrop) then ReasonUDPZeroChecksum else ReasonNone
   else if proto =? protoTCP then if len d <? 20 then ReasonTCPHeaderLength else ReasonNone
   else ReasonNone) = ReasonNone.
Proof.
  intros [Hu Ht]. repeat case_if; bool_prop; try done.
  - destruct (Hu ltac:(done)). lia.
  - destruct (Hu ltac:(done)). tauto.
  - pose proof (Ht ltac:(done)). lia.
Qed.

(** A recomputed checksum is accepted like the one it replaces. *)
Lemma transport_recomputed proto a b d d' :
  transport_ok proto d -> len d' = len d -> recomputed proto a b d d' -> transport_ok proto d'.
Proof.
  intros [Hu Ht] El Hr. unfold recomputed in Hr. split; intros Ep; rewrite El; [|by apply Ht].
  rewrite (proj2 (Z.eqb_eq _ _) Ep) in Hr. split; [by apply Hu|by destruct Hr].
Qed.

(** When the datagram fits into one IPv6 packet of translator [t]. *)
Definition fits4 (t : Translator) (g : datagram) : Prop :=
  40 + len (dg_data g) <= MTU (t_cfg t) /\ (dg_df g = true \/ 40 + len (dg_data g) <= OfflinkMTU (t_cfg t)).

Section there.
Context {MS ES : Type} {HM : Mapper MS} {HML : MapperLaws MS} {HE : Emitter ES} {HEL : EmitterLaws ES}.
Context (rand32 : nat -> Z) (t : Translator).
Implicit Types w : world MS ES.

Lemma there g w m1 m2 src6 dst6 :
  datagram_ok g -> winv w -> tr_ok t -> w_buf w = packet4 g -> fits4 t g -> dg_dst g <> t_local4 t ->
  mapped4 (w_map w) m1 (dg_dst g) dst6 -> mapped4 m1 m2 (dg_src g) src6 ->
  wp (Translate rand32 t) (fun _ w' => exists d outs os, evolves 0 outs os w w' /\
    len d = len (dg_data g) /\ bytes_ok d /\
    recomputed (dg_proto g) (wsum (dg_src g ++ dg_dst g)) (wsum (src6 ++ dst6)) (dg_data g) d /\
    outs = accepted [packet6 g src6 dst6 d] (w_em w)) w.
Proof.
  intros Hg Hw Ht Hbuf [Hf1 Hf2] Hloc Md Ms. pose proof Hg as [_ _ Htl Hp (_ & Sl & _) (_ & Dl & _) _ Htr].
  destruct (packet4_fields g Sl Dl) as (E1 & E8 & E9 & Es & Ed & Edata & Ef). pose proof (len_packet4 g Sl Dl) as El.
  pose proof (packet4_plain g Hg) as Hpl. pose proof (len_nonneg (dg_data g)).
  unfold wp. rewrite (Translate_plain4 rand32 t w) by (rewrite ?Hbuf; rewrite ?E8, ?Ed; done || lia).
  rewrite Hbuf. set (p := plain4 (packet4 g)).
  assert (Eip : oview (w_buf w) (p_ip p) = take 20 (packet4 g)) by (rewrite Hbuf; apply oview_plain4).
  assert (Edv : view (w_buf w) (p_data p) = dg_data g) by (rewrite Hbuf; unfold p; rewrite data_plain4 by lia; done).
  assert (Esl : s_len (p_data p) = len (dg_data g)) by (unfold p, plain4; cbn [p_data s_len]; lia).
  assert (Epr : p_proto p = dg_proto g) by done.
  assert (Eun : unfragmented (take 20 (packet4 g)) = true).
  { unfold unfragmented. rewrite w16_take, Ef by lia. by destruct (dg_df g). }
  assert (Edf : df (take 20 (packet4 g)) = dg_df g).
  { unfold df. rewrite w16_take, Ef by lia. by destruct (dg_df g). }
  eapply wp_mono; [apply (mapped_translated4 t p w m1 m2 src6 dst6); rewrite ?Eip, ?Edv; try done|].
  - rewrite Hbuf. by apply plain4_wf.
  - rewrite Epr. intros E. destruct Hp as [_ Hn]. exfalso. apply Hn. rewrite E. in_list.
  - rewrite head_field by lia. by rewrite Ed.
  - rewrite head_field by lia. by rewrite Es.
  - unfold too_big4. rewrite Esl. cbn [p plain4 p_hdrLen]. rewrite (proj2 (Z.ltb_ge _ _)) by (unfold mtuAdj; lia).
    by rewrite andb_false_r.
  - unfold reject4. rewrite w16_take, Ef, Epr by lia.
    assert (E : Z.land (flags4 (dg_df g)) ip4OffMask = 0) by by destruct (dg_df g).
    rewrite E. by apply reject_plain.
  - intros _ w' (outs & os & d & E & Hl & Hb & Hok & Hres). rewrite ?Eip, ?Edv, ?Esl in *.
    exists d, outs, os. split; [done|]. split; [done|]. split; [done|]. split; [by eapply payload4_plain|].
    assert (Eout : out4 t (take 20 (packet4 g)) p src6 dst6 d = [packet6 g src6 dst6 d]).
    { unfold out4. rewrite Eun, Edf, Hl. cbn [andb].
      assert (Eor : dg_df g || (len (dg_data g) <=? frag_room t) = true).
      { apply orb_true_iff. destruct Hf2 as [|Hf2]; [by left|right]. apply Z.leb_le. unfold frag_room. lia. }
      rewrite Eor. rewrite !lookup_total_take_lt by lia. rewrite E1, E8. unfold packet6, next_header.
      rewrite Epr, (plain_not _ protoICMP) by (done || in_list). rewrite Hl, u8_small by lia. done. }
    cbv zeta in Hres. rewrite Eout in Hres. apply Hres.
Qed.

(** The datagram at the other end: the identification and the don't-fragment flag are
    chosen anew, and two TTLs are gone. *)
Definition arrived (g : datagram) (id : Z) (d : list Z) : datagram :=
  mkDatagram (dg_tos g) id (negb (len d <=? mtuMin)) (dg_ttl g - 2) (dg_proto g) (dg_src g) (dg_dst g) d.

Lemma back g src6 dst6 d w m1 m2 :
  datagram_ok g -> winv w -> tr_ok t -> w_buf w = packet6 g src6 dst6 d -> 40 + len d <= MTU (t_cfg t) ->
  bytes_ok d -> len d = len (dg_data g) -> transport_ok (dg_proto g) d ->
  bytes_ok src6 -> bytes_ok dst6 -> length src6 = 16%nat -> length dst6 = 16%nat ->
  ValidIPv6 src6 = true -> ValidIPv6 dst6 = true -> dst6 <> t_local6 t ->
  mapped6 false (w_map w) m1 dst6 (dg_dst g) -> mapped6 true m1 m2 src6 (dg_src g) ->
  wp (Translate rand32 t) (fun _ w' => exists d' outs os, evolves 0 outs os w w' /\
    len d' = len d /\ bytes_ok d' /\
    recomputed (dg_proto g) (wsum (src6 ++ dst6)) (wsum (dg_src g ++ dg_dst g)) d d' /\
    (exists id, outs = accepted [packet4 (arrived g id d')] (w_em w))) w.
Proof.
  intros Hg Hw Ht Hbuf Hfit Bd Ld Htr Sb Db Sl Dl Sv Dv Hloc Md Ms.
  pose proof Hg as [Hto _ Htl Hp (_ & Sl4 & _) (_ & Dl4 & _) [_ Hld] _].
  destruct (packet6_fields g src6 dst6 d Hto Sl Dl) as (E6 & E7 & Es & Ed & Edata & Etos).
  pose proof (len_packet6 g src6 dst6 d Sl Dl) as El. pose proof (len_nonneg d).
  pose proof (packet6_plain g src6 dst6 d Hg Sb Db Sl Dl Bd ltac:(lia) Sv Dv) as Hpl.
  unfold wp. rewrite (Translate_plain6 rand32 t w) by (rewrite ?Hbuf; rewrite ?E7, ?Ed; done || lia).
  rewrite Hbuf. set (p := plain6 (packet6 g src6 dst6 d)).
  assert (Eip : oview (w_buf w) (p_ip p) = take 40 (packet6 g src6 dst6 d)) by (rewrite Hbuf; apply oview_plain6).
  assert (Edv : view (w_buf w) (p_data p) = d) by (rewrite Hbuf; unfold p; rewrite data_plain6 by lia; done).
  assert (Esl : s_len (p_data p) = len d) by (unfold p, plain6; cbn [p_data s_len]; lia).
  assert (Epr : p_proto p = dg_proto g) by done.
  eapply wp_mono; [apply (mapped_translated6 rand32 t p w m1 m2 (dg_src g) (dg_dst g)); rewrite ?Eip, ?Edv; try done|].
  - rewrite Hbuf. by apply plain6_wf.
  - rewrite Epr. intros E. destruct Hp as [_ Hn]. exfalso. apply Hn. rewrite E. in_list.
  - rewrite head_field by lia. by rewrite Ed.
  - rewrite head_field by lia. by rewrite Es.
  - unfold total6. rewrite Esl. cbn [p plain6 p_hdrLen]. lia.
  - unfold reject6, later6. cbn [p plain6 p_frag]. rewrite Epr. by apply reject_plain.
  - intros _ w' (outs & os & d' & k & E & Hl & Hb & Hok & Hres). rewrite ?Eip, ?Edv, ?Esl in *.
    exists d', outs, os. split; [done|]. split; [done|]. split; [done|]. split.
    { rewrite Hbuf in Hok. by eapply payload6_plain. }
    cbv zeta in Hres. destruct Hres as [-> _].
    exists (v4_id rand32 k (w_buf w) p (len d')). do 2 f_equal. unfold out6, packet4, arrived, v4_header_ck.
    rewrite Eip. cbn [dg_tos dg_id dg_df dg_ttl dg_proto dg_src dg_dst dg_data].
    rewrite Epr, (plain_not _ protoICMPv6) by (done || in_list).
    rewrite lookup_total_take_lt, E7 by lia. unfold w32. rewrite head_field by lia.
    fold (w32 (packet6 g src6 dst6 d) 0). rewrite Etos, u16_small, u8_small by lia.
    unfold v4_fo. cbn [p plain6 p_frag p_hdrLen]. unfold flags4. rewrite Z.add_0_l.
    replace (dg_ttl g - 1 - 1) with (dg_ttl g - 2) by lia. by destruct (len d' <=? mtuMin).
Qed.
End there.

(** ** There and back *)

(** C9: a datagram without options or fragments, not ICMP, whose transport header is
    complete, that one translator takes from IPv4 to IPv6 and any other one, with
    other mappers, limits and random numbers, takes back to IPv4: the first emits
    one IPv6 packet and the second, given that packet, one IPv4 packet with a right
    header checksum and the same type of service, protocol, addresses and data (the
    transport checksum as well, up to the two zeros of ones' complement), its TTL
    two less.  Each emitter is offered that packet, and
    gets it if it has a buffer.  The mappers need only
    answer each other's addresses. *)
Theorem there_and_back {MS1 ES1 MS2 ES2 : Type}
    {HM1 : Mapper MS1} {HML1 : MapperLaws MS1} {HE1 : Emitter ES1} {HEL1 : EmitterLaws ES1}
    {HM2 : Mapper MS2} {HML2 : MapperLaws MS2} {HE2 : Emitter ES2} {HEL2 : EmitterLaws ES2}
    (rand1 rand2 : nat -> Z) (t1 t2 : Translator) (g : datagram) (w1 : world MS1 ES1)
    (m1 m2 : MS1) (n n1 n2 : MS2) (src6 dst6 : list Z)
    (Hg : datagram_ok g) (Ht1 : tr_ok t1) (Ht2 : tr_ok t2) (Hw1 : winv w1) (Hb1 : w_buf w1 = packet4 g)
    (Hfit1 : fits4 t1 g) (Hfit2 : 40 + len (dg_data g) <= MTU (t_cfg t2))
    (Hloc1 : dg_dst g <> t_local4 t1) (Hloc2 : dst6 <> t_local6 t2)
    (Hs6 : ValidIPv6 src6 = true) (Hd6 : ValidIPv6 dst6 = true)
    (Md : mapped4 (w_map w1) m1 (dg_dst g) dst6) (Ms : mapped4 m1 m2 (dg_src g) src6)
    (Nd : mapped6 false n n1 dst6 (dg_dst g)) (Ns : mapped6 true n1 n2 src6 (dg_src g)) :
  exists w1' outs1 d, Translate rand1 t1 w1 = Ok (tt, w1') /\ em_out (w_em w1') = em_out (w_em w1) ++ outs1 /\
    outs1 = accepted [packet6 g src6 dst6 d] (w_em w1) /\
    forall w2 : world MS2 ES2, winv w2 -> w_map w2 = n -> w_buf w2 = packet6 g src6 dst6 d ->
    exists w2' outs2 id d', Translate rand2 t2 w2 = Ok (tt, w2') /\ em_out (w_em w2') = em_out (w_em w2) ++ outs2 /\
      outs2 = accepted [packet4 (arrived g id d')] (w_em w2) /\ same_data (dg_proto g) (dg_data g) d'.
Proof.
  destruct (mapped4_ok _ _ _ _ Md) as [Db Dl], (mapped4_ok _ _ _ _ Ms) as [Sb Sl].
  pose proof (dk_data _ Hg) as [Hdb _]. pose proof (dk_transport _ Hg) as Htr.
  pose proof (there rand1 t1 g w1 m1 m2 src6 dst6 Hg Hw1 Ht1 Hb1 Hfit1 Hloc1 Md Ms) as H.
  apply wp_run in H as ([] & w1' & Hrun & d & outs & os & E & Ld & Bd & Hr & Hres).
  exists w1', outs, d. split; [done|]. split; [apply E|]. split; [done|]. intros w2 Hw2 <- Hb2.
  pose proof (transport_recomputed _ _ _ _ _ Htr Ld Hr) as Htr2. rewrite <- Ld in Hfit2.
  pose proof (back rand2 t2 g src6 dst6 d w2 n1 n2 Hg Hw2 Ht2 Hb2 Hfit2 Bd Ld Htr2 Sb Db Sl Dl Hs6 Hd6 Hloc2 Nd Ns) as H.
  apply wp_run in H as ([] & w2' & Hrun2 & d' & outs2 & os2 & E2 & Ld2 & Bd2 & Hr2 & Hres2).
  pose proof (recomputed_back _ _ _ _ _ _ Hdb Htr Hr Hr2) as Hsame.
  destruct Hres2 as [id ->]. eexists w2', _, id, d'. split; [done|]. split; [apply E2|]. by split.
Qed.

(** A UDP datagram from 198.51.100.1 to 203.0.113.9. *)
Definition fx_datagram : datagram :=
  Eval vm_compute in
  mkDatagram 0 7 true 64 17 fx_a fx_b (fx_check fx_udp_data 6 (fx_sum 0 (pseudo4 fx_a fx_b 12 17))).

Lemma fx_datagram_ok : datagram_ok fx_datagram.
Proof.
  split; [unfold byte_ok; cbn; lia|cbn; lia|cbn; lia| | | | |].
  - split; [unfold byte_ok; cbn; lia|]. cbn. rewrite !elem_of_cons, elem_of_nil. lia.
  - split_and!; [solve_bytes|done|done].
  - split_and!; [solve_bytes|done|done].
  - split; [solve_bytes|done].
  - split; [|done]. intros _. split; vm_compute; discriminate.
Qed.

Example fx_datagram_packet : packet4 fx_datagram = fx_udp4.
Proof. vm_compute. reflexivity. Qed.

Lemma there_and_back_witness :
  exists w1' outs1 d, Translate (fun _ => 5) fx_t (fx_world fx_udp4) = Ok (tt, w1') /\
    em_out (w_em w1') = em_out (w_em (fx_world fx_udp4)) ++ outs1 /\
    outs1 = accepted [packet6 fx_datagram fx_a6 fx_b6 d] (w_em (fx_world fx_udp4)) /\
    forall w2 : world unit (list (list Z)), winv w2 -> w_map w2 = tt -> w_buf w2 = packet6 fx_datagram fx_a6 fx_b6 d ->
    exists w2' outs2 id d', Translate (fun _ => 9) fx_t w2 = Ok (tt, w2') /\ em_out (w_em w2') = em_out (w_em w2) ++ outs2 /\
      outs2 = accepted [packet4 (arrived fx_datagram id d')] (w_em w2) /\ same_data 17 (dg_data fx_datagram) d'.
Proof.
  apply (there_and_back (fun _ => 5) (fun _ => 9) fx_t fx_t fx_datagram (fx_world fx_udp4) tt tt tt tt tt fx_a6 fx_b6).
  - exact fx_datagram_ok.
  - exact fx_t_ok.
  - exact fx_t_ok.
  - apply fx_winv. solve_bytes.
  - vm_compute. reflexivity.
  - split; [vm_compute; discriminate|left; reflexivity].
  - vm_compute. discriminate.
  - vm_compute. discriminate.
  - vm_compute. discriminate.
  - vm_compute. reflexivity.
  - vm_compute. reflexivity.
  - eexists. split; [vm_compute; reflexivity|]. split; vm_compute; reflexivity.
  - eexists. split; [vm_compute; reflexivity|]. split; vm_compute; reflexivity.
  - eexists. split; [vm_compute; reflexivity|]. split; vm_compute; reflexivity.
  - eexists. split; [vm_compute; reflexivity|]. split; vm_compute; reflexivity.
Defined.

(** With buffers the datagram does arrive, its checksum as it was. *)
Example fx_datagram_arrives :
  match Translate (fun _ => 5) fx_t (fx_world fx_udp4) with
  | Ok (_, w) => match em_out (w_em w) with
      | [b] => match Translate (fun _ => 9) fx_t (fx_world b) with
          | Ok (_, w') => em_out (w_em w') = [packet4 (arrived fx_datagram 9 (dg_data fx_datagram))]
          | _ => False
          end
      | _ => False
      end
  | _ => False
  end.
Proof. vm_compute. reflexivity. Qed.
