(* ===== verification/Text.v ===== *)
(** * Text of Go's standard library: [strings.Fields], [strconv] and [%d]

    What [Pool.write] and [Pool.read] use of [strings], [strconv] and [fmt] on
    ASCII text, with the round trip between [%d] and [strconv.ParseInt].  The text
    form of addresses ([netip.ParseAddr], [Addr.String]) is an interface,
    [AddrText], with the law the program relies on. *)

From stdpp Require Import base tactics list numbers option strings.
From Stdlib Require Import ZArith Lia Ascii String.
From S2P Require Import Prelude Netip.

Open Scope Z_scope.

(** ASCII white space: tab, line feed, vertical tab, form feed, carriage return
    and space. *)
Definition is_space (c : ascii) : bool :=
  let n := nat_of_ascii c in ((9 <=? n) && (n <=? 13) || (n =? 32))%nat.

Definition no_space (s : string) : bool := forallb (fun c => negb (is_space c)) (list_ascii_of_string s).

Definition flush (word : string) : list string :=
  match word with EmptyString => [] | _ => [word] end.

(** [strings.Fields], with the word read so far. *)
Fixpoint fields_from (word s : string) : list string :=
  match s with
  | EmptyString => flush word
  | String c s => if is_space c then (flush word ++ fields_from "" s)%list
                  else fields_from (word +:+ String c "") s
  end.
Definition Fields (s : string) : list string := fields_from "" s.

Definition HasPrefix (s p : string) : bool := String.prefix p s.

Definition tab : string := String "009" "".
Definition newline : string := String "010" "".

(** Decimal digits, most significant first. *)
Definition digit (n : Z) : ascii := ascii_of_nat (Z.to_nat (48 + n)).

Fixpoint digits (fuel : nat) (n : Z) : list ascii :=
  match fuel with
  | O => []
  | S fuel => if n <? 10 then [digit n] else digits fuel (n / 10) ++ [digit (n mod 10)]
  end.

(** [%d] of an int64, which has at most nineteen digits. *)
Definition FormatInt (n : Z) : string :=
  if n <? 0 then String "-" (string_of_list_ascii (digits 20 (- n)))
  else string_of_list_ascii (digits 20 n).

Definition digit_value (c : ascii) : option Z :=
  let n := Z.of_nat (nat_of_ascii c) in
  if (48 <=? n) && (n <=? 57) then Some (n - 48) else None.

Fixpoint digits_value (acc : Z) (l : list ascii) : option Z :=
  match l with
  | [] => Some acc
  | c :: l => d ← digit_value c; digits_value (acc * 10 + d) l
  end.

(** [strconv.ParseInt(s, 10, 64)]; [None] is an error. *)
Definition ParseInt (s : string) : option Z :=
  let parse (sign : Z) (l : list ascii) :=
    match l with
    | [] => None
    | _ => n ← digits_value 0 l;
           let v := sign * n in
           if (-9223372036854775808 <=? v) && (v <=? 9223372036854775807) then Some v else None
    end in
  match list_ascii_of_string s with
  | "-"%char :: l => parse (-1) l
  | "+"%char :: l => parse 1 l
  | l => parse 1 l
  end.

(** [netip.ParseAddr] and [Addr.String]. *)
Class AddrText := {
  addr_String : Addr -> string;
  ParseAddr : string -> option Addr;
}.

(** The addresses found in packets: valid, without a zone. *)
Definition plain_addr (a : Addr) : Prop := IsValid a = true /\ addr_ok a /\ hasZone a = false.

(** The documented round trip; an address is written without white space and
    does not start a comment. *)
Class AddrTextLaws `{AddrText} := {
  ParseAddr_String a : plain_addr a -> ParseAddr (addr_String a) = Some a;
  addr_String_plain a : plain_addr a -> no_space (addr_String a) = true /\ addr_String a <> ""%string;
  addr_String_head a : plain_addr a -> HasPrefix (addr_String a) "#" = false;
}.

(** ** Lemmas *)

Lemma string_app_assoc (a b c : string) : (a +:+ b) +:+ c = a +:+ (b +:+ c).
Proof. induction a as [|x a IH]; [done|]. by apply (f_equal (String x)). Qed.

Lemma string_app_nil (a : string) : a +:+ "" = a.
Proof. induction a as [|x a IH]; [done|]. by apply (f_equal (String x)). Qed.

Lemma no_space_cons c s : no_space (String c s) = negb (is_space c) && no_space s.
Proof. done. Qed.

Lemma fields_word w s cur :
  no_space w = true -> fields_from cur (w +:+ s) = fields_from (cur +:+ w) s.
Proof.
  revert cur. induction w as [|c w IH]; intros cur H; [by rewrite string_app_nil|].
  rewrite no_space_cons in H. apply andb_true_iff in H as [H1 H2].
  simpl. apply negb_true_iff in H1. rewrite H1, IH, string_app_assoc by done. done.
Qed.

(** A separator ends a word. *)
Lemma fields_sep w c s :
  no_space w = true -> w <> ""%string -> is_space c = true ->
  Fields (w +:+ String c s) = w :: Fields s.
Proof.
  intros Hw Hne Hc. unfold Fields. rewrite fields_word by done. simpl. rewrite Hc.
  by destruct w.
Qed.

Lemma fields_last w : no_space w = true -> w <> ""%string -> Fields w = [w].
Proof.
  intros Hw Hne. rewrite <- (string_app_nil w) at 1. unfold Fields.
  rewrite fields_word by done. by destruct w.
Qed.

Lemma digit_cases (P : Z -> bool) n :
  forallb (fun n => P (Z.of_nat n)) (seq 0 10) = true -> 0 <= n < 10 -> P n = true.
Proof.
  intros H Hn. rewrite forallb_forall in H.
  rewrite <- (Z2Nat.id n) by lia. apply H, in_seq. lia.
Qed.

Lemma digit_value_digit n : 0 <= n < 10 -> digit_value (digit n) = Some n.
Proof.
  intros Hn.
  pose proof (digit_cases (fun n => bool_decide (digit_value (digit n) = Some n)) n
                eq_refl Hn) as H. by apply bool_decide_eq_true in H.
Qed.

Lemma digit_plain n : 0 <= n < 10 -> is_space (digit n) = false.
Proof.
  intros Hn. apply negb_true_iff.
  by apply (digit_cases (fun n => negb (is_space (digit n)))).
Qed.

Lemma digits_value_app acc l1 l2 :
  digits_value acc (l1 ++ l2) = acc' ← digits_value acc l1; digits_value acc' l2.
Proof.
  revert acc. induction l1 as [|c l1 IH]; intros acc; [done|].
  simpl. destruct (digit_value c); simpl; [apply IH|done].
Qed.

Lemma digits_spec fuel n :
  0 <= n < 10 ^ Z.of_nat fuel -> (fuel <> 0)%nat ->
  digits_value 0 (digits fuel n) = Some n /\
  Forall (fun c => exists d, 0 <= d < 10 /\ c = digit d) (digits fuel n) /\
  digits fuel n <> [].
Proof.
  revert n. induction fuel as [|fuel IH]; intros n Hn Hf; [done|].
  cbn [digits]. destruct (n <? 10) eqn:E.
  - apply Z.ltb_lt in E. simpl. rewrite digit_value_digit by lia. simpl.
    split_and!; [done| |done]. constructor; [|constructor]. exists n. split; [lia|done].
  - apply Z.ltb_ge in E. rewrite Nat2Z.inj_succ, Z.pow_succ_r in Hn by lia.
    destruct fuel as [|fuel]; [change (10 ^ Z.of_nat 0) with 1 in Hn; lia|].
    destruct (IH (n / 10)) as (H1 & H2 & H3); [dlia|done|].
    rewrite digits_value_app, H1. cbn [mbind option_bind digits_value].
    rewrite digit_value_digit by dlia. cbn. split_and!.
    + f_equal. pose proof (Z.div_mod n 10). lia.
    + apply Forall_app. split; [exact H2|]. constructor; [|constructor].
      exists (n mod 10). split; [dlia|done].
    + intros [? ?]%app_eq_nil. done.
Qed.

(** The positive numbers an int64 holds survive [%d] and [ParseInt]. *)
Lemma ParseInt_FormatInt n :
  0 <= n < 2 ^ 63 -> ParseInt (FormatInt n) = Some n.
Proof.
  intros Hn. destruct (digits_spec 20 n) as (H1 & H2 & H3); [lia|done|].
  unfold FormatInt. rewrite (proj2 (Z.ltb_ge n 0)) by lia.
  unfold ParseInt. rewrite list_ascii_of_string_of_list_ascii.
  remember (digits 20 n) as l eqn:El. destruct l as [|c l]; [done|]. clear El.
  inversion H2 as [|? ? (d & Hd & Hc) H2']. subst c.
  assert (Hs : digit d <> "-"%char /\ digit d <> "+"%char).
  { assert (Hv := digit_value_digit d Hd). split; intros E; rewrite E in Hv; discriminate. }
  assert (Hp : (-9223372036854775808 <=? 1 * n) && (1 * n <=? 9223372036854775807) = true).
  { apply andb_true_iff. rewrite !Z.leb_le. lia. }
  transitivity (n0 ← digits_value 0 (digit d :: l);
    if (-9223372036854775808 <=? 1 * n0) && (1 * n0 <=? 9223372036854775807)
    then Some (1 * n0) else None).
  - destruct Hs as [Hs1 Hs2].
    destruct (digit d) as [[] [] [] [] [] [] [] []]; try done; by exfalso.
  - rewrite H1. cbn [mbind option_bind]. rewrite Hp. f_equal. lia.
Qed.

Lemma FormatInt_plain n :
  0 <= n < 2 ^ 63 -> no_space (FormatInt n) = true /\ FormatInt n <> ""%string.
Proof.
  intros Hn. destruct (digits_spec 20 n) as (H1 & H2 & H3); [lia|done|].
  unfold FormatInt. rewrite (proj2 (Z.ltb_ge n 0)) by lia. split.
  - unfold no_space. rewrite list_ascii_of_string_of_list_ascii.
    apply forallb_forall. intros c Hc%list_elem_of_In.
    rewrite Forall_forall in H2. destruct (H2 c Hc) as (d & Hd & ->). by rewrite digit_plain.
  - by destruct (digits 20 n).
Qed.
