(* ===== verification/Pool.v ===== *)
(** * The dynamic pool: [src/internal/addrmap/pool.go]

    A [dynHost] is a heap object: [by4] and one of [mapped] and [dormant] point
    to the same one, so the maps hold locations and an update through one is seen
    through the other.  The bitmap is a list of 64-bit words.  Go's map iteration
    order and the clock are parameters: [range k m] lists the entries of [m] in
    the order the [k]-th loop visits them, [clock k] is what the [k]-th reading
    of the clock gives, in Unix seconds.  Here an operation runs on its own, and [mu]
    plays no part; [PoolThreads] divides the operations at [mu] and at the accesses
    made without it. *)

From stdpp Require Import base tactics list numbers option strings gmap sorting.
From Stdlib Require Import ZArith Lia.
From S2P Require Import Prelude Netip Netutil Text Events.

Open Scope Z_scope.

(** int64 arithmetic. *)
Definition i64 (x : Z) : Z := (x + 9223372036854775808) mod 18446744073709551616 - 9223372036854775808.

(** [time.Duration]s are nanoseconds. *)
Definition Second : Z := 1000000000.
Definition DefaultMinLease : Z := 7440 * Second.
Definition DefaultMaxLease : Z := 14 * 24 * 3600 * Second.

Record dynHost := mkHost {
  d_v4 : Addr;
  d_v6 : Addr;
  d_off : Z;
  d_lastUse : Z;
  d_dormant : bool;
}.

#[export] Instance dynHost_eq_dec : EqDecision dynHost.
Proof. solve_decision. Defined.

Definition set_v6 (a : Addr) (d : dynHost) : dynHost := mkHost (d_v4 d) a (d_off d) (d_lastUse d) (d_dormant d).
Definition set_lastUse (t : Z) (d : dynHost) : dynHost := mkHost (d_v4 d) (d_v6 d) (d_off d) t (d_dormant d).
Definition set_dormant (b : bool) (d : dynHost) : dynHost := mkHost (d_v4 d) (d_v6 d) (d_off d) (d_lastUse d) b.

Record Pool := mkPool {
  p_prefix : Prefix;
  p_base : Z;
  p_max : Z;
  p_minLease : Z;
  p_maxLease : Z;
  p_events : list Event;
  p_reserved : Addr -> bool;
  p_used : list Z;
  p_by4 : gmap Z nat;
  p_mapped : gmap Addr nat;
  p_dormant : gmap Addr nat;
  p_dirty : bool;
  (** The heap and its next free location; how often the clock was read and a
      map ranged over. *)
  p_heap : gmap nat dynHost;
  p_next : nat;
  p_tick : nat;
  p_iter : nat;
}.

Definition with_leases (mn mx : Z) (p : Pool) : Pool :=
  mkPool (p_prefix p) (p_base p) (p_max p) mn mx (p_events p) (p_reserved p) (p_used p) (p_by4 p)
    (p_mapped p) (p_dormant p) (p_dirty p) (p_heap p) (p_next p) (p_tick p) (p_iter p).
Definition with_reserved (r : Addr -> bool) (p : Pool) : Pool :=
  mkPool (p_prefix p) (p_base p) (p_max p) (p_minLease p) (p_maxLease p) (p_events p) r (p_used p) (p_by4 p)
    (p_mapped p) (p_dormant p) (p_dirty p) (p_heap p) (p_next p) (p_tick p) (p_iter p).
Definition with_events (es : list Event) (p : Pool) : Pool :=
  mkPool (p_prefix p) (p_base p) (p_max p) (p_minLease p) (p_maxLease p) es (p_reserved p) (p_used p) (p_by4 p)
    (p_mapped p) (p_dormant p) (p_dirty p) (p_heap p) (p_next p) (p_tick p) (p_iter p).
Definition with_used (u : list Z) (p : Pool) : Pool :=
  mkPool (p_prefix p) (p_base p) (p_max p) (p_minLease p) (p_maxLease p) (p_events p) (p_reserved p) u (p_by4 p)
    (p_mapped p) (p_dormant p) (p_dirty p) (p_heap p) (p_next p) (p_tick p) (p_iter p).
Definition with_by4 (m : gmap Z nat) (p : Pool) : Pool :=
  mkPool (p_prefix p) (p_base p) (p_max p) (p_minLease p) (p_maxLease p) (p_events p) (p_reserved p) (p_used p) m
    (p_mapped p) (p_dormant p) (p_dirty p) (p_heap p) (p_next p) (p_tick p) (p_iter p).
Definition with_mapped (m : gmap Addr nat) (p : Pool) : Pool :=
  mkPool (p_prefix p) (p_base p) (p_max p) (p_minLease p) (p_maxLease p) (p_events p) (p_reserved p) (p_used p)
    (p_by4 p) m (p_dormant p) (p_dirty p) (p_heap p) (p_next p) (p_tick p) (p_iter p).
Definition with_dormant (m : gmap Addr nat) (p : Pool) : Pool :=
  mkPool (p_prefix p) (p_base p) (p_max p) (p_minLease p) (p_maxLease p) (p_events p) (p_reserved p) (p_used p)
    (p_by4 p) (p_mapped p) m (p_dirty p) (p_heap p) (p_next p) (p_tick p) (p_iter p).
Definition with_dirty (b : bool) (p : Pool) : Pool :=
  mkPool (p_prefix p) (p_base p) (p_max p) (p_minLease p) (p_maxLease p) (p_events p) (p_reserved p) (p_used p)
    (p_by4 p) (p_mapped p) (p_dormant p) b (p_heap p) (p_next p) (p_tick p) (p_iter p).
Definition with_heap (h : gmap nat dynHost) (n : nat) (p : Pool) : Pool :=
  mkPool (p_prefix p) (p_base p) (p_max p) (p_minLease p) (p_maxLease p) (p_events p) (p_reserved p) (p_used p)
    (p_by4 p) (p_mapped p) (p_dormant p) (p_dirty p) h n (p_tick p) (p_iter p).
Definition with_ticks (k i : nat) (p : Pool) : Pool :=
  mkPool (p_prefix p) (p_base p) (p_max p) (p_minLease p) (p_maxLease p) (p_events p) (p_reserved p) (p_used p)
    (p_by4 p) (p_mapped p) (p_dormant p) (p_dirty p) (p_heap p) (p_next p) k i.

(** The errors of [NewPool]. *)
Inductive PoolErr := NotIPv4 | HostBits | PrefixLen | ReservedAddress.

#[export] Instance PoolErr_eq_dec : EqDecision PoolErr.
Proof. solve_decision. Defined.

(** [NewPool] with the leases of its options. *)
Definition NewPool (prefix : Prefix) (minLease maxLease : Z) : outcome (Pool + PoolErr) :=
  if negb (Is4 (p_addr prefix)) then Ok (inr NotIPv4) else
  if negb (bool_decide (prefix = Masked prefix)) then Ok (inr HostBits) else
  if (p_bits prefix <? 8) || (31 <? p_bits prefix) then Ok (inr PrefixLen) else
  a ← As4 (p_addr prefix);
  if bool_decide (ClassifyIPv4 a = IPv4Invalid) then Ok (inr ReservedAddress) else
  let minLease := if minLease <=? 0 then DefaultMinLease else minLease in
  let maxLease := if maxLease <=? 0 then DefaultMaxLease else maxLease in
  let max := Z.shiftr 0xffffffff (p_bits prefix) in
  let used := replicate (Z.to_nat ((max + 1 + 63) / 64)) 0 in
  match used with
  | [] => Panic
  | w :: ws =>
      Ok (inl (mkPool prefix (be a) max minLease maxLease [] (fun _ => false) (Z.lor w 1 :: ws)
                 ∅ ∅ ∅ false ∅ 0 0 0))
  end.

Definition pool_Prefix (p : Pool) : Prefix := p_prefix p.

Definition SetLeases (minLease maxLease : Z) : M Pool unit :=
  let minLease := if minLease <=? 0 then DefaultMinLease else minLease in
  let maxLease := if maxLease <=? 0 then DefaultMaxLease else maxLease in
  modify (with_leases minLease maxLease).

Record Stats := mkStats { s_Size : Z; s_Mapped : Z; s_Dormant : Z }.

Definition pool_Stats (p : Pool) : Stats :=
  mkStats (p_max p) (Z.of_nat (size (p_mapped p))) (Z.of_nat (size (p_dormant p))).

Definition Dirty (p : Pool) : bool := p_dirty p.

Definition addr (p : Pool) (off : Z) : Addr := AddrFrom4 (be_bytes 4 (Z.lor (p_base p) off)).

(** The word of the bitmap that holds the bit of [off]. *)
Definition used_word (off : Z) : M Pool Z := fun p =>
  match p_used p !! Z.to_nat (off / 64) with Some w => Ok (w, p) | None => Panic end.

Definition isUsed (off : Z) : M Pool bool :=
  w ← used_word off; mret (negb (Z.land w (Z.shiftl 1 (off mod 64)) =? 0)).
Definition setUsed (off : Z) : M Pool unit :=
  w ← used_word off;
  modify (fun p => with_used (<[Z.to_nat (off / 64) := Z.lor w (Z.shiftl 1 (off mod 64))]> (p_used p)) p).
Definition clearUsed (off : Z) : M Pool unit :=
  w ← used_word off;
  modify (fun p => with_used (<[Z.to_nat (off / 64) := Z.ldiff w (Z.shiftl 1 (off mod 64))]> (p_used p)) p).

(** Reading and writing a host through a pointer, and [&dynHost{...}]. *)
Definition load (l : nat) : M Pool dynHost := fun p =>
  match p_heap p !! l with Some d => Ok (d, p) | None => Panic end.
Definition store (l : nat) (f : dynHost -> dynHost) : M Pool unit :=
  d ← load l; modify (fun p => with_heap (<[l := f d]> (p_heap p)) (p_next p) p).
Definition alloc (d : dynHost) : M Pool nat := fun p =>
  Ok (p_next p, with_heap (<[p_next p := d]> (p_heap p)) (S (p_next p)) p).

Definition obs_event (e : Event) : M Pool unit := modify (fun p => with_events (p_events p ++ [e]) p).

(** [p.event(reason, d)] *)
Definition dyn_event (reason : Reason) (l : nat) : M Pool unit :=
  d ← load l; obs_event (mkEvent KindDynamic reason 0 0 0 (d_v4 d) (d_v6 d)).

(** [activate] *)
Definition activate (l : nat) (now : Z) : M Pool unit :=
  d ← load l;
  modify (fun p => with_dormant (delete (d_v6 d) (p_dormant p)) p);;
  store l (set_dormant false);;
  store l (set_lastUse now);;
  modify (fun p => with_mapped (<[d_v6 d := l]> (p_mapped p)) p).

(** The hash loop of [assign]: fold [h] down to the host bits. *)
Fixpoint fold_hash (fuel : nat) (p : Pool) (h : Z) : outcome Z :=
  match fuel with
  | O => Stuck
  | S fuel =>
      if Z.ldiff h (p_max p) =? 0 then Ok h
      else fold_hash fuel p (u32 (Z.land h (p_max p) + Z.shiftr h (32 - p_bits (p_prefix p))))
  end.
Definition hash_fuel : nat := 40.

Fixpoint hash_words (p : Pool) (a16 : list Z) (h : Z) : outcome Z :=
  match a16 with
  | b0 :: b1 :: b2 :: b3 :: rest =>
      h ← fold_hash hash_fuel p (u32 (h + be [b0; b1; b2; b3]));
      hash_words p rest h
  | _ => Ok h
  end.

(** [Assignments] shows its rows ordered by IPv4 address, [write] its records by
    offset; no two are equal in that order, so any sort gives this list. *)
Record Assignment := mkAssignment {
  as_IPv4 : Addr;
  as_IPv6 : Addr;
  as_LastUse : Z;
  as_Dormant : bool;
}.

Definition as_le (x y : Assignment) : Prop := Less (as_IPv4 y) (as_IPv4 x) = false.
Definition off_le (x y : dynHost) : Prop := d_off x <= d_off y.
#[export] Instance as_le_dec : RelDecision as_le.
Proof. intros x y. unfold as_le. apply _. Defined.
#[export] Instance off_le_dec : RelDecision off_le.
Proof. intros x y. unfold off_le. apply _. Defined.

Definition assignment (d : dynHost) : Assignment :=
  mkAssignment (d_v4 d) (d_v6 d) (d_lastUse d) (d_dormant d).

Fixpoint load_all (hosts : list (Addr * nat)) : M Pool (list dynHost) :=
  match hosts with
  | [] => mret []
  | (_, l) :: hosts => d ← load l; ds ← load_all hosts; mret (d :: ds)
  end.

(** What the file system does with [Save]'s calls, and what [Load] finds. *)
Record save_io := mkSaveIO { io_open : bool; io_write : bool; io_close : bool; io_rename : bool }.
Inductive load_io := Missing | OpenError | Opened (lines : list string) (scan_ok : bool).

Section pool.
Context (clock : nat -> Z).
Context (range : nat -> gmap Addr nat -> list (Addr * nat)).

(** [p.now().Unix()] *)
Definition now_unix : M Pool Z := fun p => Ok (clock (p_tick p), with_ticks (S (p_tick p)) (p_iter p) p).

(** The order a [for range] loop over a map takes. *)
Definition range_over (m : gmap Addr nat) : M Pool (list (Addr * nat)) := fun p =>
  Ok (range (p_iter p) m, with_ticks (p_tick p) (S (p_iter p)) p).

Definition lookup4 (a : Addr) : M Pool (option Addr) :=
  a4 ← lift (As4 a);
  mx ← gets p_max;
  by4 ← gets p_by4;
  match by4 !! Z.land (be a4) mx with
  | None => mret None
  | Some l =>
      d ← load l;
      if d_dormant d then mret None else
      t ← now_unix;
      store l (set_lastUse t);;
      mret (Some (d_v6 d))
  end.

(** The search for a free offset. *)
Fixpoint probe (fuel : nat) (i h : Z) : M Pool (option Z) :=
  match fuel with
  | O => lift Stuck
  | S fuel =>
      mx ← gets p_max;
      if mx <? i then mret None else
      let off := Z.land (u32 (h + i)) mx in
      taken ← (if off =? 0 then mret true else isUsed off);
      if (taken : bool) then probe fuel (i + 1) h else
      p ← gets id;
      if p_reserved p (addr p off) then probe fuel (i + 1) h else
      mret (Some off)
  end.

(** The dormant host used least recently. *)
Fixpoint find_oldest (hosts : list (Addr * nat)) (oldest : option nat) : M Pool (option nat) :=
  match hosts with
  | [] => mret oldest
  | (_, l) :: hosts =>
      d ← load l;
      older ← (match oldest with
               | None => mret true
               | Some o => od ← load o; mret (d_lastUse d <? d_lastUse od)
               end);
      find_oldest hosts (if (older : bool) then Some l else oldest)
  end.

(** [assign] from [p.mu.Lock()] on. *)
Definition assign_locked (a : Addr) (now : Z) : M Pool (option Addr) :=
  mapped ← gets p_mapped;
  match mapped !! a with
  | Some l => store l (set_lastUse now);; d ← load l; mret (Some (d_v4 d))
  | None =>
  dormant ← gets p_dormant;
  match dormant !! a with
  | Some l =>
      activate l now;;
      dyn_event ReasonDynamicReactivated l;;
      d ← load l; mret (Some (d_v4 d))
  | None =>
  p ← gets id;
  h ← lift (hash_words p (As16 a) 0);
  found ← probe (S (S (Z.to_nat (p_max p)))) 0 h;
  match found with
  | Some off =>
      p ← gets id;
      let v4 := addr p off in
      l ← alloc (mkHost v4 a off 0 false);
      setUsed off;;
      modify (fun p => with_by4 (<[off := l]> (p_by4 p)) p);;
      activate l now;;
      modify (with_dirty true);;
      dyn_event ReasonDynamicAssigned l;;
      mret (Some v4)
  | None =>
      dormant ← gets p_dormant;
      hosts ← range_over dormant;
      oldest ← find_oldest hosts None;
      match oldest with
      | None =>
          obs_event (mkEvent KindDynamic ReasonDynamicExhausted 0 0 0 AddrZero a);;
          mret None
      | Some l =>
          d ← load l;
          modify (fun p => with_dormant (delete (d_v6 d) (p_dormant p)) p);;
          store l (set_v6 a);;
          activate l now;;
          modify (with_dirty true);;
          dyn_event ReasonDynamicReassigned l;;
          d ← load l; mret (Some (d_v4 d))
      end
  end end end.

Definition assign (a : Addr) : M Pool (option Addr) :=
  now ← now_unix; assign_locked a now.

Definition lookup6 (a : Addr) (allocate : bool) : M Pool (option Addr) :=
  mapped ← gets p_mapped;
  match mapped !! a with
  | Some l => t ← now_unix; store l (set_lastUse t);; d ← load l; mret (Some (d_v4 d))
  | None => if negb allocate then mret None else assign a
  end.

(** The two loops of [Maintain] and their bodies. *)
Definition expire_host (v6 : Addr) (l : nat) (now minLease : Z) : M Pool unit :=
  d ← load l;
  if i64 (d_lastUse d + minLease) <? now then
    modify (fun p => with_mapped (delete v6 (p_mapped p)) p);;
    store l (set_dormant true);;
    modify (fun p => with_dormant (<[v6 := l]> (p_dormant p)) p);;
    dyn_event ReasonDynamicDormant l
  else skip.

Fixpoint expire_mapped (hosts : list (Addr * nat)) (now minLease : Z) : M Pool unit :=
  match hosts with
  | [] => skip
  | (v6, l) :: hosts => expire_host v6 l now minLease;; expire_mapped hosts now minLease
  end.

Definition release_host (v6 : Addr) (l : nat) (now maxLease : Z) : M Pool unit :=
  d ← load l;
  if i64 (d_lastUse d + maxLease) <? now then
    modify (fun p => with_dormant (delete v6 (p_dormant p)) p);;
    modify (fun p => with_by4 (delete (d_off d) (p_by4 p)) p);;
    clearUsed (d_off d);;
    modify (with_dirty true);;
    dyn_event ReasonDynamicReleased l
  else skip.

Fixpoint release_dormant (hosts : list (Addr * nat)) (now maxLease : Z) : M Pool unit :=
  match hosts with
  | [] => skip
  | (v6, l) :: hosts => release_host v6 l now maxLease;; release_dormant hosts now maxLease
  end.

Definition Maintain : M Pool unit :=
  now ← now_unix;
  minLease ← gets (fun p => Z.quot (p_minLease p) Second);
  maxLease ← gets (fun p => Z.quot (p_maxLease p) Second);
  mapped ← gets p_mapped;
  hosts ← range_over mapped;
  expire_mapped hosts now minLease;;
  dormant ← gets p_dormant;
  hosts ← range_over dormant;
  release_dormant hosts now maxLease.

(** All hosts, the mapped ones first. *)
Definition all_hosts : M Pool (list dynHost) :=
  mapped ← gets p_mapped;
  ms ← range_over mapped;
  ms ← load_all ms;
  dormant ← gets p_dormant;
  ds ← range_over dormant;
  ds ← load_all ds;
  mret (ms ++ ds).

Definition Assignments : M Pool (list Assignment) :=
  ds ← all_hosts; mret (merge_sort as_le (assignment <$> ds)).

(** A file is the list of its lines. *)
Context `{AddrText} (time_String : Z -> string).

Definition header (now : Z) : list string :=
  ["###"; "### clatto dynamic map database"; "### Last written: " +:+ time_String now; "###"; ""]%string.
Definition record_line (d : dynHost) : string :=
  addr_String (d_v4 d) +:+ tab +:+ addr_String (d_v6 d) +:+ tab +:+ FormatInt (d_lastUse d).

Definition write : M Pool (list string) :=
  t ← now_unix;
  ds ← all_hosts;
  mret (header t ++ (record_line <$> merge_sort off_le ds)).

(** [Save]: the new contents of the file, if it was replaced, and whether there
    was no error. *)
Definition Save (io : save_io) : M Pool (option (list string) * bool) :=
  if negb (io_open io) then mret (None, false) else
  lines ← write;
  (if io_write io then modify (with_dirty false) else skip);;
  if negb (io_write io && io_close io) then mret (None, false) else
  if negb (io_rename io) then mret (None, false) else
  mret (Some lines, true).

(** The fields of a line, or [None] for one that is skipped. *)
Definition parse_line (line : string) : option (Addr * Addr * Z) :=
  match Fields line with
  | [f0; f1; f2] =>
      if HasPrefix f0 "#" then None else
      v4 ← ParseAddr f0; v6 ← ParseAddr f1; last ← ParseInt f2;
      if (last <=? 0) || negb (Is4 v4) || negb (Is6 v6) then None else Some (v4, v6, last)
  | _ => None
  end.

(** One line: the hosts loaded so far and [future] are threaded through. *)
Definition read_line (now : Z) (line : string) (st : list nat * bool) : M Pool (list nat * bool) :=
  match parse_line line with
  | None => mret st
  | Some (v4, v6, last) =>
      p ← gets id;
      if negb (Contains (p_prefix p) v4) || negb (ValidIPv6 (As16 v6)) then mret st else
      a4 ← lift (As4 v4);
      let off := Z.land (be a4) (p_max p) in
      taken ← (if off =? 0 then mret true else isUsed off);
      if (taken : bool) || p_reserved p v4 then mret st else
      if bool_decide (is_Some (p_dormant p !! v6)) then mret st else
      if bool_decide (is_Some (p_mapped p !! v6)) then mret st else
      l ← alloc (mkHost v4 v6 off last true);
      setUsed off;;
      modify (fun p => with_by4 (<[off := l]> (p_by4 p)) p);;
      modify (fun p => with_dormant (<[v6 := l]> (p_dormant p)) p);;
      mret (st.1 ++ [l], st.2 || (now <? last))
  end.

Fixpoint read_lines (now : Z) (lines : list string) (st : list nat * bool) : M Pool (list nat * bool) :=
  match lines with
  | [] => mret st
  | line :: lines => st ← read_line now line st; read_lines now lines st
  end.

(** The loop over [loaded]. *)
Fixpoint settle (loaded : list nat) (future : bool) (now minLease : Z) : M Pool unit :=
  match loaded with
  | [] => skip
  | l :: loaded =>
      d ← load l;
      (if future then store l (set_lastUse (i64 (now - minLease)))
       else if now <=? i64 (d_lastUse d + minLease) then activate l (d_lastUse d)
       else skip);;
      settle loaded future now minLease
  end.

Definition read (lines : list string) (scan_ok : bool) : M Pool (Z * bool) :=
  now ← now_unix;
  minLease ← gets (fun p => Z.quot (p_minLease p) Second);
  st ← read_lines now lines ([], false);
  if negb scan_ok then mret (len st.1, false) else
  settle st.1 st.2 now minLease;;
  mret (len st.1, true).

(** [Load]: how many hosts were read and whether there was no error. *)
Definition Load (io : load_io) : M Pool (Z * bool) :=
  match io with
  | Missing => mret (0, true)
  | OpenError => mret (0, false)
  | Opened lines scan_ok => read lines scan_ok
  end.
End pool.
