(* ===== verification/PoolFacts.v ===== *)
(** * The pool's representation invariant

    [repr p H] says that the pool [p] holds exactly the hosts of [H], a finite map
    from offsets to hosts: [by4] points to them, [mapped] and [dormant] point to the
    same heap objects by IPv6 address, no IPv6 address has two of them, and the
    bitmap has the bits of their offsets and of offset 0.  [repr_set] and [repr_del]
    are how every operation re-establishes it. *)

From stdpp Require Import base tactics list numbers option strings gmap.
From Stdlib Require Import ZArith Lia.
From S2P Require Import Prelude Netip Netutil Events Pool.

Open Scope Z_scope.

(** ** Geometry *)

(** The pool is an aligned block of [2 ^ n] addresses; [max] is its host mask. *)
Record geom (p : Pool) (n : Z) : Prop := {
  g_n : 1 <= n <= 24;
  g_prefix : p_prefix p = mkPrefix (Addr4 (p_base p)) (32 - n);
  g_max : p_max p = 2 ^ n - 1;
  g_base : 0 <= p_base p < 2 ^ 32;
  g_align : p_base p mod 2 ^ n = 0;
}.

Lemma block_fits k x y : 0 < x -> k * x < y * x -> k * x + x <= y * x.
Proof. intros Hx H. assert (k < y) by nia. nia. Qed.

Section geometry.
Context (p : Pool) (n : Z) (G : geom p n).

Lemma pow_bounds : 2 <= 2 ^ n <= 2 ^ 24.
Proof.
  destruct G as [? _ _ _ _]. split; [change 2 with (2 ^ 1) at 1|]; apply Z.pow_le_mono_r; lia.
Qed.

Lemma max_ones : p_max p = Z.ones n.
Proof. rewrite (g_max _ _ G), Z.ones_equiv. lia. Qed.

Lemma land_max x : Z.land x (p_max p) = x mod 2 ^ n.
Proof. rewrite max_ones. apply Z.land_ones. destruct G. lia. Qed.

Lemma max_pos : 1 <= p_max p < 2 ^ 24.
Proof. pose proof pow_bounds. rewrite (g_max _ _ G). lia. Qed.

Lemma base_block : p_base p + 2 ^ n <= 2 ^ 32.
Proof.
  destruct G as [Hn _ _ Hb Ha].
  assert (E : 2 ^ 32 = 2 ^ (32 - n) * 2 ^ n) by (rewrite <- Z.pow_add_r by lia; f_equal; lia).
  pose proof pow_bounds. apply Z.mod_divide in Ha as [k Ek]; [|lia].
  rewrite Ek in *. rewrite E in *. apply block_fits; lia.
Qed.

Lemma addr_eq off : 0 <= off <= p_max p -> addr p off = Addr4 (p_base p + off).
Proof.
  intros Hoff. unfold addr, AddrFrom4. rewrite be_be_bytes. rewrite <- Z.add_nocarry_lor.
  - rewrite Z.mod_small; [done|]. pose proof base_block. rewrite (g_max _ _ G) in Hoff.
    destruct G. change (256 ^ Z.of_nat 4) with (2 ^ 32). lia.
  - apply Z.bits_inj'. intros k Hk. rewrite Z.land_spec, Z.bits_0.
    destruct G as [Hn _ Hm _ Ha]. destruct (decide (k < n)).
    + rewrite <- (Z.mod_pow2_bits_low (p_base p) n k) by lia. by rewrite Ha, Z.bits_0.
    + rewrite <- (Z.mod_small off (2 ^ n)) by lia.
      rewrite Z.mod_pow2_bits_high by lia. apply andb_false_r.
Qed.

Lemma addr_inj o1 o2 :
  0 <= o1 <= p_max p -> 0 <= o2 <= p_max p -> addr p o1 = addr p o2 -> o1 = o2.
Proof. intros H1 H2. rewrite !addr_eq by done. intros [= ?]. lia. Qed.

Lemma addr_off off : 0 <= off <= p_max p -> Z.land (p_base p + off) (p_max p) = off.
Proof.
  intros H. rewrite land_max. destruct G as [Hn _ Hm _ Ha]. pose proof pow_bounds.
  rewrite Z.add_mod, Ha, Z.add_0_l, Z.mod_mod by lia. apply Z.mod_small. lia.
Qed.

Lemma off_range x : 0 <= Z.land x (p_max p) <= p_max p.
Proof. rewrite land_max, (g_max _ _ G). pose proof pow_bounds. pose proof (Z.mod_pos_bound x (2 ^ n)). lia. Qed.

(** The addresses of the prefix are the pool's addresses. *)
Lemma Contains_addr v :
  Contains (p_prefix p) (Addr4 v) = true <-> Addr4 v = addr p (Z.land v (p_max p)).
Proof.
  rewrite addr_eq, land_max by apply off_range. rewrite (g_prefix _ _ G).
  destruct G as [Hn _ Hm Hb Ha]. rewrite Contains4 by lia.
  replace (32 - (32 - n)) with n by lia. rewrite !Z.shiftr_div_pow2 by lia.
  pose proof pow_bounds. pose proof (Z.div_mod v (2 ^ n)). pose proof (Z.div_mod (p_base p) (2 ^ n)).
  split; [intros E; f_equal|intros [= E]]; [nia|].
  apply (Z.mul_reg_l _ _ (2 ^ n)); lia.
Qed.
End geometry.

(** ** The bitmap *)

Definition bit (us : list Z) (off : Z) : bool :=
  match us !! Z.to_nat (off / 64) with Some w => Z.testbit w (off mod 64) | None => false end.

Definition used_ok (p : Pool) : Prop := len (p_used p) = (p_max p + 1 + 63) / 64.

Lemma used_word_in p off :
  used_ok p -> 0 <= off <= p_max p -> exists w, p_used p !! Z.to_nat (off / 64) = Some w.
Proof.
  intros Hu Hoff. apply lookup_lt_is_Some. unfold used_ok, len in Hu.
  apply Nat2Z.inj_lt. rewrite Hu, Z2Nat.id by dlia. dlia.
Qed.

Lemma testbit_land w k : 0 <= k -> negb (Z.land w (Z.shiftl 1 k) =? 0) = Z.testbit w k.
Proof.
  intros Hk. rewrite Z.shiftl_1_l. destruct (Z.testbit w k) eqn:E.
  - apply negb_true_iff, Z.eqb_neq. intros H0.
    assert (H : Z.testbit (Z.land w (2 ^ k)) k = false) by by rewrite H0, Z.bits_0.
    rewrite Z.land_spec, E, Z.pow2_bits_true in H by lia. done.
  - apply negb_false_iff, Z.eqb_eq, Z.bits_inj'. intros j Hj.
    rewrite Z.land_spec, Z.bits_0. destruct (decide (j = k)) as [->|].
    + by rewrite E.
    + rewrite Z.pow2_bits_false by lia. apply andb_false_r.
Qed.

Lemma off_split o off :
  0 <= o -> 0 <= off -> o / 64 = off / 64 -> o mod 64 = off mod 64 -> o = off.
Proof. intros. dlia. Qed.

(** Updating the word of an offset changes its bit alone. *)
Lemma bit_update us off w w' b :
  0 <= off -> us !! Z.to_nat (off / 64) = Some w ->
  (forall k, 0 <= k < 64 -> Z.testbit w' k = if decide (k = off mod 64) then b else Z.testbit w k) ->
  forall o, 0 <= o -> bit (<[Z.to_nat (off / 64) := w']> us) o = if decide (o = off) then b else bit us o.
Proof.
  intros Hoff Hw Hw' o Ho. unfold bit.
  destruct (decide (o / 64 = off / 64)) as [E|E].
  - rewrite E, list_lookup_insert_eq by by eapply lookup_lt_Some. rewrite Hw' by dlia.
    repeat case_decide; subst; [done| |done|by rewrite Hw].
    exfalso. eauto using off_split.
  - rewrite list_lookup_insert_ne; [|intros E'; apply E; apply Z2Nat.inj in E'; dlia].
    case_decide; [by subst|done].
Qed.

Lemma testbit_set w k j :
  0 <= k -> Z.testbit (Z.lor w (Z.shiftl 1 k)) j = if decide (j = k) then true else Z.testbit w j.
Proof.
  intros Hk. rewrite Z.lor_spec, Z.shiftl_1_l. case_decide as E.
  - subst. by rewrite Z.pow2_bits_true, orb_true_r by done.
  - by rewrite Z.pow2_bits_false, orb_false_r by done.
Qed.

Lemma testbit_clear w k j :
  0 <= k -> Z.testbit (Z.ldiff w (Z.shiftl 1 k)) j = if decide (j = k) then false else Z.testbit w j.
Proof.
  intros Hk. rewrite Z.ldiff_spec, Z.shiftl_1_l. case_decide as E.
  - subst. by rewrite Z.pow2_bits_true, andb_false_r by done.
  - by rewrite Z.pow2_bits_false, andb_true_r by done.
Qed.

(** ** Rules for the primitives *)

Section rules.
Implicit Types (p : Pool).

Lemma wp_load l d (Q : dynHost -> Pool -> Prop) p :
  p_heap p !! l = Some d -> Q d p -> wp (load l) Q p.
Proof. unfold wp, load. by intros ->. Qed.

Lemma wp_store l f d (Q : unit -> Pool -> Prop) p :
  p_heap p !! l = Some d -> Q tt (with_heap (<[l := f d]> (p_heap p)) (p_next p) p) ->
  wp (store l f) Q p.
Proof. unfold wp, store, mbind, M_bind, load. by intros ->. Qed.

Lemma wp_alloc d (Q : nat -> Pool -> Prop) p :
  Q (p_next p) (with_heap (<[p_next p := d]> (p_heap p)) (S (p_next p)) p) -> wp (alloc d) Q p.
Proof. done. Qed.

Lemma wp_isUsed off (Q : bool -> Pool -> Prop) p :
  used_ok p -> 0 <= off <= p_max p -> Q (bit (p_used p) off) p -> wp (isUsed off) Q p.
Proof.
  intros Hu Hoff HQ. destruct (used_word_in p off Hu Hoff) as [w Hw].
  unfold wp, isUsed, mbind, M_bind, used_word. rewrite Hw. simpl.
  unfold bit in HQ. rewrite Hw in HQ. by rewrite testbit_land by dlia.
Qed.

Lemma wp_setUsed off (Q : unit -> Pool -> Prop) p :
  used_ok p -> 0 <= off <= p_max p ->
  (forall us, length us = length (p_used p) ->
     (forall o, 0 <= o -> bit us o = if decide (o = off) then true else bit (p_used p) o) ->
     Q tt (with_used us p)) ->
  wp (setUsed off) Q p.
Proof.
  intros Hu Hoff HQ. destruct (used_word_in p off Hu Hoff) as [w Hw].
  unfold wp, setUsed, mbind, M_bind, used_word. rewrite Hw. simpl.
  apply HQ; [apply length_insert|].
  apply (bit_update _ _ w); [lia|done|]. intros k Hk. apply testbit_set. dlia.
Qed.

Lemma wp_clearUsed off (Q : unit -> Pool -> Prop) p :
  used_ok p -> 0 <= off <= p_max p ->
  (forall us, length us = length (p_used p) ->
     (forall o, 0 <= o -> bit us o = if decide (o = off) then false else bit (p_used p) o) ->
     Q tt (with_used us p)) ->
  wp (clearUsed off) Q p.
Proof.
  intros Hu Hoff HQ. destruct (used_word_in p off Hu Hoff) as [w Hw].
  unfold wp, clearUsed, mbind, M_bind, used_word. rewrite Hw. simpl.
  apply HQ; [apply length_insert|].
  apply (bit_update _ _ w); [lia|done|]. intros k Hk. apply testbit_clear. dlia.
Qed.
End rules.

(** ** The invariant *)

(** [l] points to the assigned host [d]. *)
Definition host_at (p : Pool) (l : nat) (d : dynHost) : Prop :=
  p_heap p !! l = Some d /\ p_by4 p !! d_off d = Some l.

Definition host_ok (p : Pool) (d : dynHost) : Prop :=
  0 < d_off d <= p_max p /\ d_v4 d = addr p (d_off d).

Record repr (p : Pool) (H : gmap Z dynHost) : Prop := {
  r_geom : exists n, geom p n;
  r_used : used_ok p;
  r_host : forall off d, H !! off = Some d -> d_off d = off /\ host_ok p d;
  r_uniq : forall o1 o2 d1 d2, H !! o1 = Some d1 -> H !! o2 = Some d2 -> d_v6 d1 = d_v6 d2 -> o1 = o2;
  r_bits : forall off, 0 <= off <= p_max p ->
    bit (p_used p) off = true <-> off = 0 \/ is_Some (H !! off);
  r_by4 : forall off d, H !! off = Some d <-> exists l, p_by4 p !! off = Some l /\ p_heap p !! l = Some d;
  r_loc : forall off l, p_by4 p !! off = Some l -> is_Some (p_heap p !! l);
  r_mapped : forall a l, p_mapped p !! a = Some l <->
    exists d, host_at p l d /\ d_v6 d = a /\ d_dormant d = false;
  r_dormant : forall a l, p_dormant p !! a = Some l <->
    exists d, host_at p l d /\ d_v6 d = a /\ d_dormant d = true;
  r_next : forall l, is_Some (p_heap p !! l) -> (l < p_next p)%nat;
}.

(** What no operation but [SetLeases] and the table's [Build] changes. *)
Record frame (p p' : Pool) : Prop := {
  f_prefix : p_prefix p' = p_prefix p;
  f_base : p_base p' = p_base p;
  f_max : p_max p' = p_max p;
  f_reserved : p_reserved p' = p_reserved p;
  f_minLease : p_minLease p' = p_minLease p;
  f_maxLease : p_maxLease p' = p_maxLease p;
}.

Lemma frame_refl p : frame p p.
Proof. by constructor. Qed.

Lemma frame_trans p1 p2 p3 : frame p1 p2 -> frame p2 p3 -> frame p1 p3.
Proof. intros [] []. constructor; congruence. Qed.

#[export] Hint Resolve frame_refl frame_trans : clatto.

Lemma frame_geom p p' n : frame p p' -> geom p n -> geom p' n.
Proof. intros [? ? ? _ _ _] []. constructor; congruence. Qed.

Lemma frame_addr p p' off : frame p p' -> addr p' off = addr p off.
Proof. intros [? ? ? _ _ _]. unfold addr. congruence. Qed.

Section repr_facts.
Context (p : Pool) (H : gmap Z dynHost) (R : repr p H).

Lemma host_at_H l d : host_at p l d -> H !! d_off d = Some d.
Proof. intros [H1 H2]. apply (r_by4 _ _ R). eauto. Qed.

Lemma H_host_at off d : H !! off = Some d -> exists l, host_at p l d /\ p_by4 p !! off = Some l.
Proof.
  intros Hd. destruct (r_host _ _ R off d Hd) as [E _].
  apply (r_by4 _ _ R) in Hd as (l & H1 & H2). exists l. split; [split|]; congruence.
Qed.

Lemma by4_host off l : p_by4 p !! off = Some l -> exists d, H !! off = Some d /\ host_at p l d.
Proof.
  intros Hl. destruct (r_loc _ _ R off l Hl) as [d Hd]. exists d.
  assert (Hoff : H !! off = Some d) by (apply (r_by4 _ _ R); eauto). split; [done|].
  destruct (r_host _ _ R off d Hoff) as [<- _]. by split.
Qed.

Lemma by4_None off : H !! off = None <-> p_by4 p !! off = None.
Proof.
  split; intros Hn; apply eq_None_not_Some; intros [x Hx].
  - apply by4_host in Hx as (d & Hd & _). congruence.
  - apply H_host_at in Hx as (l & _ & Hl). congruence.
Qed.

(** The entries of the two address maps that point to a host. *)
Lemma mapped_loc l d a :
  host_at p l d -> p_mapped p !! a = Some l <-> a = d_v6 d /\ d_dormant d = false.
Proof.
  intros Hl. rewrite (r_mapped _ _ R). split.
  - intros (d' & [Hd' _] & <- & E). destruct Hl. simplify_eq. done.
  - intros [-> E]. eauto.
Qed.

Lemma dormant_loc l d a :
  host_at p l d -> p_dormant p !! a = Some l <-> a = d_v6 d /\ d_dormant d = true.
Proof.
  intros Hl. rewrite (r_dormant _ _ R). split.
  - intros (d' & [Hd' _] & <- & E). destruct Hl. simplify_eq. done.
  - intros [-> E]. eauto.
Qed.

Lemma mapped_None a :
  p_mapped p !! a = None -> forall off d, H !! off = Some d -> d_v6 d = a -> d_dormant d = true.
Proof.
  intros Hn off d Hd <-. apply H_host_at in Hd as (l & Hl & _).
  destruct (d_dormant d) eqn:E; [done|]. by rewrite (proj2 (mapped_loc l d (d_v6 d) Hl)) in Hn.
Qed.

Lemma dormant_None a :
  p_dormant p !! a = None -> forall off d, H !! off = Some d -> d_v6 d = a -> d_dormant d = false.
Proof.
  intros Hn off d Hd <-. apply H_host_at in Hd as (l & Hl & _).
  destruct (d_dormant d) eqn:E; [|done]. by rewrite (proj2 (dormant_loc l d (d_v6 d) Hl)) in Hn.
Qed.

Lemma fresh_mapped a : p_mapped p !! a <> Some (p_next p).
Proof.
  intros E. apply (r_mapped _ _ R) in E as (d & [Hd _] & _).
  assert (p_next p < p_next p)%nat by (apply (r_next _ _ R); eauto). lia.
Qed.

Lemma fresh_dormant a : p_dormant p !! a <> Some (p_next p).
Proof.
  intros E. apply (r_dormant _ _ R) in E as (d & [Hd _] & _).
  assert (p_next p < p_next p)%nat by (apply (r_next _ _ R); eauto). lia.
Qed.

Lemma fresh_heap : p_heap p !! p_next p = None.
Proof.
  apply eq_None_not_Some. intros E%(r_next _ _ R). lia.
Qed.
End repr_facts.

(** An address map after the host at [l] became [d]; [b] is the value of the
    dormant flag the map is for. *)
Definition remap (m m' : gmap Addr nat) (l : nat) (d : dynHost) (b : bool) : Prop :=
  forall a, m' !! a = if decide (a = d_v6 d /\ d_dormant d = b) then Some l
                      else if decide (m !! a = Some l) then None else m !! a.

Definition unmap (m m' : gmap Addr nat) (l : nat) : Prop :=
  forall a, m' !! a = if decide (m !! a = Some l) then None else m !! a.

(** [p'] is [p] with [d] at the location [l], new or of the host that had its
    offset. *)
Record sets_host (p p' : Pool) (H : gmap Z dynHost) (l : nat) (d : dynHost) : Prop := {
  sh_frame : frame p p';
  sh_host : host_ok p d;
  sh_uniq : forall off e, H !! off = Some e -> d_v6 e = d_v6 d -> off = d_off d;
  sh_old : forall l', p_by4 p !! d_off d = Some l' -> l' = l;
  sh_new : H !! d_off d = None -> p_heap p !! l = None;
  sh_used : length (p_used p') = length (p_used p);
  sh_bits : forall off, 0 <= off <= p_max p ->
    bit (p_used p') off = bool_decide (off = d_off d) || bit (p_used p) off;
  sh_by4 : p_by4 p' = <[d_off d := l]> (p_by4 p);
  sh_heap : p_heap p' = <[l := d]> (p_heap p);
  sh_mapped : remap (p_mapped p) (p_mapped p') l d false;
  sh_dormant : remap (p_dormant p) (p_dormant p') l d true;
  sh_next : (p_next p <= p_next p')%nat /\ (l < p_next p')%nat;
}.

Section set_host.
Context (p p' : Pool) (H : gmap Z dynHost) (l : nat) (d : dynHost).
Context (R : repr p H) (S : sets_host p p' H l d).

Lemma set_sole off : p_by4 p !! off = Some l -> off = d_off d.
Proof.
  intros Hl. destruct (by4_host _ _ R off l Hl) as (e & He & [Hh _]).
  destruct (H !! d_off d) as [e2|] eqn:E2.
  - destruct (H_host_at _ _ R _ _ E2) as (l2 & [Hh2 _] & Hl2).
    apply (sh_old _ _ _ _ _ S) in Hl2 as ->.
    destruct (r_host _ _ R _ _ He) as [<- _], (r_host _ _ R _ _ E2) as [<- _]. congruence.
  - rewrite (sh_new _ _ _ _ _ S E2) in Hh. done.
Qed.

Lemma set_host_at l0 e : host_at p' l0 e <-> (l0 = l /\ e = d) \/ (l0 <> l /\ host_at p l0 e).
Proof.
  unfold host_at. rewrite (sh_heap _ _ _ _ _ S), (sh_by4 _ _ _ _ _ S). split.
  - intros [H1 H2]. destruct (decide (l0 = l)) as [->|Hne].
    + rewrite lookup_insert_eq in H1. left. split; congruence.
    + right. rewrite lookup_insert_ne in H1 by done. split_and!; [done|done|].
      rewrite lookup_insert_Some in H2. destruct H2 as [[_ ?]|[_ ?]]; [congruence|done].
  - intros [[-> ->]|(Hne & H1 & H2)]; [by rewrite !lookup_insert_eq|].
    rewrite lookup_insert_ne by done. split; [done|]. rewrite lookup_insert_ne; [done|].
    intros E. rewrite <- E in H2. by apply (sh_old _ _ _ _ _ S) in H2.
Qed.

Lemma set_remap m m' b :
  (forall a l0, m !! a = Some l0 <-> exists e, host_at p l0 e /\ d_v6 e = a /\ d_dormant e = b) ->
  remap m m' l d b ->
  forall a l0, m' !! a = Some l0 <-> exists e, host_at p' l0 e /\ d_v6 e = a /\ d_dormant e = b.
Proof.
  intros Hm Hr a l0. rewrite Hr. setoid_rewrite set_host_at. case_decide as E1.
  { split; [intros [= <-]; exists d; destruct E1; eauto 6|].
    intros (e & [[-> ->]|(Hne & He)] & Ha & Hb); [done|]. destruct E1 as [-> E1].
    apply (host_at_H _ _ R) in He as He'.
    apply (sh_uniq _ _ _ _ _ S) in He'; [|done].
    destruct He as [_ He]. rewrite He' in He. by apply (sh_old _ _ _ _ _ S) in He. }
  case_decide as E2.
  { split; [done|]. intros (e & [[-> ->]|(Hne & He)] & Ha & Hb); [by destruct E1|].
    assert (m !! a = Some l0) by (apply Hm; eauto). congruence. }
  rewrite Hm. split.
  - intros (e & He & Ha & Hb). exists e. split; [|done]. right. split; [|done].
    intros ->. apply E2, Hm. eauto.
  - intros (e & [[-> ->]|(Hne & He)] & Ha & Hb); [by destruct E1|eauto].
Qed.

Lemma set_by4 off e :
  <[d_off d := d]> H !! off = Some e <->
  exists l0, p_by4 p' !! off = Some l0 /\ p_heap p' !! l0 = Some e.
Proof.
  rewrite (sh_by4 _ _ _ _ _ S), (sh_heap _ _ _ _ _ S).
  destruct (decide (off = d_off d)) as [->|Hne].
  - rewrite !lookup_insert_eq. split.
    + intros [= ->]. exists l. by rewrite lookup_insert_eq.
    + intros (l0 & [= <-] & E). rewrite lookup_insert_eq in E. congruence.
  - rewrite !(lookup_insert_ne _ (d_off d)) by done. rewrite (r_by4 _ _ R).
    split; intros (l0 & H1 & H2); exists l0; (split; [done|]).
    + rewrite lookup_insert_ne; [done|]. intros E. apply Hne, set_sole. congruence.
    + rewrite lookup_insert_ne in H2; [done|]. intros E. apply Hne, set_sole. congruence.
Qed.

Lemma host_ok_frame e : host_ok p e -> host_ok p' e.
Proof.
  intros [H1 H2]. pose proof (sh_frame _ _ _ _ _ S) as F. split.
  - by rewrite (f_max _ _ F).
  - by rewrite (frame_addr _ _ _ F).
Qed.

(** The pool then holds [d] at its offset. *)
Lemma repr_set : repr p' (<[d_off d := d]> H).
Proof.
  pose proof (sh_frame _ _ _ _ _ S) as F. constructor.
  - destruct (r_geom _ _ R) as [n G]. eauto using frame_geom.
  - unfold used_ok, len. rewrite (sh_used _ _ _ _ _ S), (f_max _ _ F). apply (r_used _ _ R).
  - intros off e. rewrite lookup_insert_Some. intros [[<- <-]|[_ He]].
    + split; [done|]. apply host_ok_frame, (sh_host _ _ _ _ _ S).
    + destruct (r_host _ _ R _ _ He). eauto using host_ok_frame.
  - intros o1 o2 e1 e2. rewrite !lookup_insert_Some.
    intros [[<- <-]|[_ H1]] [[<- <-]|[_ H2]] E; [done| | |by eapply (r_uniq _ _ R)].
    + symmetry. by eapply (sh_uniq _ _ _ _ _ S).
    + by eapply (sh_uniq _ _ _ _ _ S).
  - intros off. rewrite (f_max _ _ F). intros Hoff. rewrite (sh_bits _ _ _ _ _ S) by done.
    rewrite orb_true_iff, bool_decide_eq_true, (r_bits _ _ R) by done.
    destruct (decide (off = d_off d)) as [->|Hne].
    + rewrite lookup_insert_eq. naive_solver.
    + rewrite lookup_insert_ne by done. naive_solver.
  - apply set_by4.
  - intros off l0. rewrite (sh_by4 _ _ _ _ _ S), (sh_heap _ _ _ _ _ S), lookup_insert_is_Some.
    rewrite lookup_insert_Some. destruct (decide (l = l0)) as [|Hne]; [by left|].
    intros [[_ ->]|[_ H2]]; [by left|]. right. split; [done|]. by apply (r_loc _ _ R off).
  - apply set_remap with (p_mapped p); [apply R|apply S].
  - apply set_remap with (p_dormant p); [apply R|apply S].
  - intros l0. rewrite (sh_heap _ _ _ _ _ S), lookup_insert_is_Some.
    destruct (sh_next _ _ _ _ _ S) as [Hn Hl]. intros [<-|[_ Hh]]; [done|].
    apply (r_next _ _ R) in Hh. lia.
Qed.
End set_host.

(** [p'] is [p] without the host at [off]. *)
Record drops_host (p p' : Pool) (H : gmap Z dynHost) (l : nat) (off : Z) : Prop := {
  dh_frame : frame p p';
  dh_at : p_by4 p !! off = Some l;
  dh_used : length (p_used p') = length (p_used p);
  dh_bits : forall o, 0 <= o <= p_max p ->
    bit (p_used p') o = negb (bool_decide (o = off)) && bit (p_used p) o;
  dh_by4 : p_by4 p' = delete off (p_by4 p);
  dh_heap : p_heap p' = p_heap p;
  dh_mapped : unmap (p_mapped p) (p_mapped p') l;
  dh_dormant : unmap (p_dormant p) (p_dormant p') l;
  dh_next : p_next p' = p_next p;
}.

Section drop_host.
Context (p p' : Pool) (H : gmap Z dynHost) (l : nat) (off : Z).
Context (R : repr p H) (D : drops_host p p' H l off).

Lemma drop_host_at l0 e : host_at p' l0 e <-> l0 <> l /\ host_at p l0 e.
Proof.
  destruct (by4_host _ _ R off l (dh_at _ _ _ _ _ D)) as (d & Hd & [Hh Hb]).
  unfold host_at. rewrite (dh_heap _ _ _ _ _ D), (dh_by4 _ _ _ _ _ D), lookup_delete_Some.
  split.
  - intros (H1 & Hne & H2). split; [|done]. intros ->. assert (e = d) by congruence. subst.
    destruct (r_host _ _ R _ _ Hd). congruence.
  - intros (Hne & H1 & H2). split_and!; [done| |done]. intros E. rewrite <- E in H2.
    rewrite (dh_at _ _ _ _ _ D) in H2. congruence.
Qed.

Lemma drop_unmap m m' b :
  (forall a l0, m !! a = Some l0 <-> exists e, host_at p l0 e /\ d_v6 e = a /\ d_dormant e = b) ->
  unmap m m' l ->
  forall a l0, m' !! a = Some l0 <-> exists e, host_at p' l0 e /\ d_v6 e = a /\ d_dormant e = b.
Proof.
  intros Hm Hu a l0. rewrite Hu. setoid_rewrite drop_host_at. case_decide as E.
  - split; [done|]. intros (e & [Hne He] & Ha & Hb).
    assert (m !! a = Some l0) by (apply Hm; eauto). congruence.
  - rewrite Hm. split.
    + intros (e & He & Ha & Hb). exists e. split_and!; [|done..]. intros ->. apply E, Hm. eauto.
    + intros (e & [Hne He] & Ha & Hb). eauto.
Qed.

Lemma repr_drop : repr p' (delete off H).
Proof.
  pose proof (dh_frame _ _ _ _ _ D) as F.
  assert (Hoff : 0 < off <= p_max p).
  { destruct (by4_host _ _ R _ _ (dh_at _ _ _ _ _ D)) as (d & Hd & _).
    destruct (r_host _ _ R _ _ Hd) as [<- [? _]]. done. }
  constructor.
  - destruct (r_geom _ _ R) as [n G]. eauto using frame_geom.
  - unfold used_ok, len. rewrite (dh_used _ _ _ _ _ D), (f_max _ _ F). apply (r_used _ _ R).
  - intros o e [_ He]%lookup_delete_Some. destruct (r_host _ _ R _ _ He) as [E [H1 H2]].
    split; [done|]. split; [by rewrite (f_max _ _ F)|by rewrite (frame_addr _ _ _ F)].
  - intros o1 o2 e1 e2 [_ H1]%lookup_delete_Some [_ H2]%lookup_delete_Some.
    by apply (r_uniq _ _ R).
  - intros o. rewrite (f_max _ _ F). intros Ho. rewrite (dh_bits _ _ _ _ _ D) by done.
    rewrite andb_true_iff, negb_true_iff, bool_decide_eq_false, (r_bits _ _ R) by done.
    rewrite lookup_delete_is_Some. split; [naive_solver|]. intros [->|?]; [|naive_solver].
    split; [lia|by left].
  - intros o e. rewrite (dh_by4 _ _ _ _ _ D), (dh_heap _ _ _ _ _ D).
    setoid_rewrite lookup_delete_Some. rewrite (r_by4 _ _ R). naive_solver.
  - intros o l0. rewrite (dh_by4 _ _ _ _ _ D), (dh_heap _ _ _ _ _ D), lookup_delete_Some.
    intros [_ Hl]. by apply (r_loc _ _ R o).
  - apply drop_unmap with (p_mapped p); [apply R|apply D].
  - apply drop_unmap with (p_dormant p); [apply R|apply D].
  - intros l0. rewrite (dh_heap _ _ _ _ _ D), (dh_next _ _ _ _ _ D). apply R.
Qed.
End drop_host.

(** The hosts of a pool, computed; [repr p H] determines [H]. *)
Definition view (p : Pool) : gmap Z dynHost := omap (fun l => p_heap p !! l) (p_by4 p).

Lemma repr_view p H : repr p H -> H = view p.
Proof.
  intros R. apply map_eq. intros off. unfold view. rewrite lookup_omap.
  destruct (p_by4 p !! off) as [l|] eqn:El; cbn.
  - destruct (by4_host _ _ R _ _ El) as (d & -> & [Hh _]). done.
  - by apply (by4_None _ _ R).
Qed.
