(* ===== verification/PoolOps.v ===== *)
(** * The pool's operations against their specification

    An abstract pool is the map [H] of its hosts.  [lookup6_step] says what an
    allocation may do to it, [aged] what [Maintain] does to each host; the lemmas
    show that the code on the heap, the three maps and the bitmap does that and
    nothing else, and that it neither panics nor loops. *)

From stdpp Require Import base tactics list numbers option strings gmap.
From Stdlib Require Import ZArith Lia.
From S2P Require Import Prelude Netip Netutil Events Pool PoolFacts.

Open Scope Z_scope.

(** ** More rules *)

Definition activated (now : Z) (d : dynHost) : dynHost := set_lastUse now (set_dormant false d).

Definition after_activate (l : nat) (now : Z) (d : dynHost) (p : Pool) : Pool :=
  with_mapped (<[d_v6 d := l]> (p_mapped p))
    (with_heap (<[l := activated now d]> (p_heap p)) (p_next p)
       (with_dormant (delete (d_v6 d) (p_dormant p)) p)).

Lemma wp_activate l now d (Q : unit -> Pool -> Prop) p :
  p_heap p !! l = Some d -> Q tt (after_activate l now d p) -> wp (activate l now) Q p.
Proof.
  intros Hd HQ. unfold activate. apply wp_bind, (wp_load _ d); [done|].
  apply wp_bind, wp_modify, wp_bind, (wp_store _ _ d); [done|].
  apply wp_bind, (wp_store _ _ (set_dormant false d)); [apply lookup_insert_eq|].
  apply wp_modify. revert HQ. unfold after_activate, activated. destruct p. cbn.
  by rewrite insert_insert_eq.
Qed.

Definition host_event (r : Reason) (d : dynHost) : Event := mkEvent KindDynamic r 0 0 0 (d_v4 d) (d_v6 d).

Lemma wp_dyn_event r l d (Q : unit -> Pool -> Prop) p :
  p_heap p !! l = Some d -> Q tt (with_events (p_events p ++ [host_event r d]) p) ->
  wp (dyn_event r l) Q p.
Proof. intros Hd HQ. unfold dyn_event. apply wp_bind, (wp_load _ d); [done|]. done. Qed.

(** ** Transitions on one host *)

Section transitions.
Context (p : Pool) (H : gmap Z dynHost) (R : repr p H).

Lemma used_bit off d : H !! off = Some d -> bit (p_used p) off = true.
Proof.
  intros Hd. destruct (r_host _ _ R _ _ Hd) as [<- [? _]].
  apply (r_bits _ _ R); [lia|]. right. eauto.
Qed.

(** A host keeps its offset and address. *)
Lemma sets_existing p' l d d' :
  host_at p l d -> d_off d' = d_off d -> d_v4 d' = d_v4 d ->
  (forall off e, H !! off = Some e -> d_v6 e = d_v6 d' -> off = d_off d) ->
  frame p p' -> p_used p' = p_used p -> p_by4 p' = p_by4 p ->
  p_heap p' = <[l := d']> (p_heap p) ->
  remap (p_mapped p) (p_mapped p') l d' false ->
  remap (p_dormant p) (p_dormant p') l d' true -> p_next p' = p_next p ->
  repr p' (<[d_off d := d']> H).
Proof.
  intros Hl Eo Ev Hu F Eu Eb Eh Hm Hd En. rewrite <- Eo.
  pose proof (host_at_H _ _ R _ _ Hl) as HH. destruct (r_host _ _ R _ _ HH) as [_ [Hr Ha]].
  apply (repr_set p p' H l d' R). constructor; try done.
  - split; rewrite Eo; [done|]. congruence.
  - rewrite Eo. done.
  - rewrite Eo. intros l' Hl'. destruct Hl. congruence.
  - rewrite Eo, HH. done.
  - by rewrite Eu.
  - intros off Hoff. rewrite Eu, Eo. case_bool_decide; [subst|done]. by erewrite used_bit.
  - rewrite Eb, Eo, insert_id; [done|]. by destruct Hl.
  - rewrite En. split; [done|]. apply (r_next _ _ R). destruct Hl. eauto.
Qed.

Lemma same_v6 l d : host_at p l d -> forall off e, H !! off = Some e -> d_v6 e = d_v6 d -> off = d_off d.
Proof. intros Hl off e He E. apply (host_at_H _ _ R) in Hl. by eapply (r_uniq _ _ R). Qed.

(** The use of a host. *)
Lemma repr_touch l d t :
  host_at p l d ->
  repr (with_heap (<[l := set_lastUse t d]> (p_heap p)) (p_next p) p) (<[d_off d := set_lastUse t d]> H).
Proof.
  intros Hl. apply (sets_existing _ l d); try done; [by apply (same_v6 l d)|..]; intros a; cbn.
  - pose proof (mapped_loc _ _ R l d a Hl). repeat case_decide; intuition congruence.
  - pose proof (dormant_loc _ _ R l d a Hl). repeat case_decide; intuition congruence.
Qed.

(** A dormant host becomes mapped. *)
Lemma repr_activate l d t :
  host_at p l d -> d_dormant d = true ->
  repr (after_activate l t d p) (<[d_off d := activated t d]> H).
Proof.
  intros Hl Hd. apply (sets_existing _ l d); try done; [by apply (same_v6 l d)|..]; intros a; cbn.
  - pose proof (mapped_loc _ _ R l d a Hl). destruct (decide (a = d_v6 d)) as [->|Hne].
    + rewrite lookup_insert_eq, decide_True; done.
    + rewrite lookup_insert_ne, decide_False by intuition congruence. case_decide; intuition congruence.
  - pose proof (dormant_loc _ _ R l d a Hl). rewrite decide_False by intuition congruence.
    destruct (decide (a = d_v6 d)) as [->|Hne].
    + rewrite lookup_delete_eq, decide_True; intuition congruence.
    + rewrite lookup_delete_ne by done. case_decide; intuition congruence.
Qed.

(** A dormant host is given to another IPv6 address, which has none. *)
Lemma repr_steal l d a t :
  host_at p l d -> d_dormant d = true -> (forall off e, H !! off = Some e -> d_v6 e <> a) ->
  let p1 := with_dormant (delete (d_v6 d) (p_dormant p)) p in
  let p2 := with_heap (<[l := set_v6 a d]> (p_heap p1)) (p_next p1) p1 in
  repr (after_activate l t (set_v6 a d) p2) (<[d_off d := activated t (set_v6 a d)]> H).
Proof.
  intros Hl Hd Ha p1 p2.
  apply (sets_existing _ l d); try done; cbn; [intros off e He E; by destruct (Ha off e)|by rewrite insert_insert_eq|..];
    intros b; cbn.
  - pose proof (mapped_loc _ _ R l d b Hl). destruct (decide (b = a)) as [->|Hne].
    + rewrite lookup_insert_eq, decide_True; done.
    + rewrite lookup_insert_ne, decide_False by intuition congruence. case_decide; intuition congruence.
  - pose proof (dormant_loc _ _ R l d b Hl). rewrite decide_False by intuition congruence.
    assert (Hn : p_dormant p !! a = None).
    { apply eq_None_not_Some. intros [l' Hl'%(r_dormant _ _ R)].
      destruct Hl' as (e & He & Hv & _). by apply (host_at_H _ _ R), Ha in He. }
    destruct (decide (b = a)) as [->|Hne].
    + rewrite lookup_delete_eq. case_decide; congruence.
    + rewrite lookup_delete_ne by done. destruct (decide (b = d_v6 d)) as [->|Hne'].
      * rewrite lookup_delete_eq, decide_True; intuition congruence.
      * rewrite lookup_delete_ne by done. case_decide; intuition congruence.
Qed.

(** A mapped host becomes dormant. *)
Lemma repr_expire l d :
  host_at p l d -> d_dormant d = false ->
  let p1 := with_mapped (delete (d_v6 d) (p_mapped p)) p in
  let p2 := with_heap (<[l := set_dormant true d]> (p_heap p1)) (p_next p1) p1 in
  repr (with_dormant (<[d_v6 d := l]> (p_dormant p2)) p2) (<[d_off d := set_dormant true d]> H).
Proof.
  intros Hl Hd p1 p2. apply (sets_existing _ l d); try done; [by apply (same_v6 l d)|..]; intros a; cbn.
  - pose proof (mapped_loc _ _ R l d a Hl). rewrite decide_False by intuition congruence.
    destruct (decide (a = d_v6 d)) as [->|Hne].
    + rewrite lookup_delete_eq, decide_True; intuition congruence.
    + rewrite lookup_delete_ne by done. case_decide; intuition congruence.
  - pose proof (dormant_loc _ _ R l d a Hl). destruct (decide (a = d_v6 d)) as [->|Hne].
    + rewrite lookup_insert_eq, decide_True; done.
    + rewrite lookup_insert_ne, decide_False by intuition congruence. case_decide; intuition congruence.
Qed.

(** A dormant host is released. *)
Lemma repr_release l d us :
  host_at p l d -> d_dormant d = true -> length us = length (p_used p) ->
  (forall o, 0 <= o -> bit us o = if decide (o = d_off d) then false else bit (p_used p) o) ->
  let p1 := with_dormant (delete (d_v6 d) (p_dormant p)) p in
  let p2 := with_by4 (delete (d_off d) (p_by4 p1)) p1 in
  repr (with_used us p2) (delete (d_off d) H).
Proof.
  intros Hl Hd Hlen Hus p1 p2. apply (repr_drop p _ H l _ R). constructor; try done; cbn.
  - by destruct Hl.
  - intros o Ho. rewrite Hus by lia. rewrite bool_decide_decide. by destruct (decide _).
  - intros a. pose proof (mapped_loc _ _ R l d a Hl). case_decide; intuition congruence.
  - intros a. cbn. pose proof (dormant_loc _ _ R l d a Hl).
    destruct (decide (a = d_v6 d)) as [->|Hne].
    + rewrite lookup_delete_eq, decide_True; intuition congruence.
    + rewrite lookup_delete_ne by done. case_decide; intuition congruence.
Qed.

(** A new host, mapped or dormant, at a free offset. *)
Lemma repr_create p' d us :
  host_ok p d -> H !! d_off d = None -> (forall off e, H !! off = Some e -> d_v6 e <> d_v6 d) ->
  length us = length (p_used p) ->
  (forall o, 0 <= o -> bit us o = if decide (o = d_off d) then true else bit (p_used p) o) ->
  frame p p' -> p_used p' = us -> p_by4 p' = <[d_off d := p_next p]> (p_by4 p) ->
  p_heap p' = <[p_next p := d]> (p_heap p) -> p_next p' = S (p_next p) ->
  p_mapped p' = (if d_dormant d then p_mapped p else <[d_v6 d := p_next p]> (p_mapped p)) ->
  (forall a, p_dormant p' !! a = if decide (a = d_v6 d /\ d_dormant d = true) then Some (p_next p) else p_dormant p !! a) ->
  repr p' (<[d_off d := d]> H).
Proof.
  intros Hok Hn Hu Hlen Hus F Eu Eb Eh En Em Ed. apply (repr_set p p' H (p_next p) d R).
  constructor; try done.
  - intros off e He E. by apply Hu in He.
  - intros l' Hl'. apply (by4_None _ _ R) in Hn. congruence.
  - intros _. by eapply fresh_heap.
  - by rewrite Eu.
  - intros off Hoff. rewrite Eu, Hus by lia. rewrite bool_decide_decide. by destruct (decide _).
  - intros a. rewrite Em. pose proof (fresh_mapped _ _ R a).
    destruct (d_dormant d) eqn:E; [by rewrite !decide_False by intuition congruence|].
    destruct (decide (a = d_v6 d)) as [->|Hne].
    + rewrite lookup_insert_eq, decide_True; done.
    + rewrite lookup_insert_ne, !decide_False by intuition congruence. done.
  - intros a. rewrite Ed. pose proof (fresh_dormant _ _ R a).
    destruct (decide (_ /\ _)); [done|]. by rewrite decide_False.
  - rewrite En. lia.
Qed.
End transitions.

(** ** The hash *)

Section hash.
Context (p : Pool) (n : Z) (G : geom p n).

Lemma ldiff_max h : 0 <= h -> (Z.ldiff h (p_max p) =? 0) = (h / 2 ^ n =? 0).
Proof.
  intros Hh. pose proof (pow_bounds _ _ G). destruct (g_n _ _ G) as [Hn _].
  rewrite (max_ones _ _ G), Z.ldiff_ones_r, Z.shiftl_mul_pow2, Z.shiftr_div_pow2 by lia.
  apply eq_true_iff_eq. rewrite !Z.eqb_eq. nia.
Qed.

Lemma fold_le h : 0 <= h -> 0 <= h mod 2 ^ n + h / 2 ^ n <= h.
Proof.
  intros Hh. pose proof (pow_bounds _ _ G). pose proof (Z.mod_pos_bound h (2 ^ n)).
  assert (0 <= h / 2 ^ n) by (apply Z.div_pos; lia).
  assert (2 * (h / 2 ^ n) <= 2 ^ n * (h / 2 ^ n)) by (apply Z.mul_le_mono_nonneg_r; lia).
  pose proof (Z.div_mod h (2 ^ n)). lia.
Qed.

Lemma quot0_small h : h / 2 ^ n = 0 -> h < 2 ^ n.
Proof.
  intros E. pose proof (pow_bounds _ _ G). pose proof (Z.div_mod h (2 ^ n)).
  pose proof (Z.mod_pos_bound h (2 ^ n)). rewrite E in *. lia.
Qed.

(** One round of the loop. *)
Definition fold_once (h : Z) : Z := h mod 2 ^ n + h / 2 ^ n.

Lemma fold_hash_step fuel h :
  0 <= h < 2 ^ 32 ->
  fold_hash (S fuel) p h = (if h / 2 ^ n =? 0 then Ok h else fold_hash fuel p (fold_once h)).
Proof.
  intros Hh. cbn [fold_hash]. rewrite ldiff_max by lia. case_if; [done|]. f_equal.
  pose proof (pow_bounds _ _ G). destruct (g_n _ _ G) as [Hn _].
  rewrite (land_max _ _ G), (g_prefix _ _ G). cbn [p_bits].
  replace (32 - (32 - n)) with n by lia. rewrite Z.shiftr_div_pow2 by lia.
  pose proof (fold_le h). unfold fold_once. apply u32_small. change 4294967296 with (2 ^ 32). lia.
Qed.

Lemma fold_once_range h :
  0 <= h < 2 ^ 32 -> 0 <= fold_once h < 2 ^ 32 /\ fold_once h <= 2 ^ n - 1 + h / 2 ^ n.
Proof.
  intros Hh. pose proof (pow_bounds _ _ G). unfold fold_once.
  pose proof (fold_le h). pose proof (Z.mod_pos_bound h (2 ^ n)). lia.
Qed.

Lemma fold_hash_ok k fuel h :
  0 <= h < 2 ^ 32 -> h / 2 ^ n <= 2 ^ Z.of_nat k -> (k + 3 <= fuel)%nat ->
  owp (fold_hash fuel p h) (fun r => 0 <= r <= p_max p).
Proof.
  pose proof (pow_bounds _ _ G) as Hpow. rewrite (g_max _ _ G).
  revert fuel h. induction k as [|k IH]; intros fuel h Hh Hq Hf.
  - destruct fuel as [|[|[|fuel]]]; try lia. change (2 ^ Z.of_nat 0) with 1 in Hq.
    destruct (fold_once_range h Hh) as [Hr Hle].
    rewrite fold_hash_step by done. case_if; bool_prop; [simpl; apply quot0_small in E; lia|].
    rewrite fold_hash_step by done. case_if; bool_prop; [simpl; apply quot0_small in E0; lia|].
    assert (Ef : fold_once h = 2 ^ n).
    { destruct (decide (fold_once h < 2 ^ n)); [|lia]. rewrite Z.div_small in E0; lia. }
    assert (E1 : fold_once (fold_once h) = 1).
    { unfold fold_once at 1. rewrite Ef, Z.mod_same, Z.div_same by lia. done. }
    rewrite E1, fold_hash_step by lia. rewrite Z.div_small by lia. simpl. lia.
  - destruct fuel as [|fuel]; [lia|]. destruct (fold_once_range h Hh) as [Hr Hle].
    rewrite fold_hash_step by done. case_if; bool_prop; [simpl; apply quot0_small in E; lia|].
    apply IH; [done| |lia]. rewrite Nat2Z.inj_succ, Z.pow_succ_r in Hq by lia.
    assert (0 < 2 ^ Z.of_nat k) by (apply Z.pow_pos_nonneg; lia).
    apply Z.lt_succ_r, Z.div_lt_upper_bound; nia.
Qed.

Lemma hash_words_ok k l h :
  length l = (4 * k)%nat -> 0 <= h <= p_max p ->
  owp (hash_words p l h) (fun r => 0 <= r <= p_max p).
Proof.
  revert l h. induction k as [|k IH]; intros l h Hl Hh.
  - by apply nil_length_inv in Hl as ->.
  - destruct l as [|b0 [|b1 [|b2 [|b3 l]]]]; simpl in Hl; try lia. cbn [hash_words].
    apply owp_bind. eapply owp_mono; [apply (fold_hash_ok 31)|].
    + unfold u32. change 4294967296 with (2 ^ 32). apply Z.mod_pos_bound. lia.
    + pose proof (pow_bounds _ _ G). apply Z.div_le_upper_bound; [lia|].
      assert (0 <= u32 (h + be [b0; b1; b2; b3]) < 2 ^ 32)
        by (unfold u32; apply Z.mod_pos_bound; lia).
      change (2 ^ Z.of_nat 31) with (2 ^ 31). lia.
    + unfold hash_fuel. lia.
    + intros r Hr. apply IH; [lia|done].
Qed.
End hash.

(** ** The search *)

(** An offset that can be handed out. *)
Definition free (p : Pool) (H : gmap Z dynHost) (off : Z) : Prop :=
  0 < off <= p_max p /\ H !! off = None /\ p_reserved p (addr p off) = false.

Definition slot (p : Pool) (h i : Z) : Z := Z.land (u32 (h + i)) (p_max p).

Section search.
Context (p : Pool) (H : gmap Z dynHost) (R : repr p H).

Lemma probe_ok fuel i h :
  0 <= i -> p_max p + 2 - i <= Z.of_nat fuel -> (0 < fuel)%nat ->
  wp (probe fuel i h) (fun r p' => p' = p /\
    match r with
    | Some off => exists k, i <= k <= p_max p /\ off = slot p h k /\ free p H off /\
        forall j, i <= j < k -> ~ free p H (slot p h j)
    | None => forall j, i <= j <= p_max p -> ~ free p H (slot p h j)
    end) p.
Proof.
  destruct (r_geom _ _ R) as [n G].
  revert i. induction fuel as [|fuel IH]; intros i Hi Hf Hpos; [lia|].
  cbn [probe]. apply wp_bind, wp_gets. case_if; bool_prop; [apply wp_ret; split; [done|]; lia|].
  assert (Hnext : ~ free p H (slot p h i) -> wp (probe fuel (i + 1) h) (fun r p' => p' = p /\
    match r with
    | Some off => exists k, i <= k <= p_max p /\ off = slot p h k /\ free p H off /\
        forall j, i <= j < k -> ~ free p H (slot p h j)
    | None => forall j, i <= j <= p_max p -> ~ free p H (slot p h j)
    end) p).
  { intros Hn. eapply wp_mono; [apply IH; lia|]. intros r p' [-> HP]. split; [done|].
    destruct r as [off|].
    - destruct HP as (k & Hk & Hoff & Hfree & Hprev). exists k. split_and!; try done; [lia..|].
      intros j Hj. destruct (decide (j = i)) as [->|]; [done|]. apply Hprev. lia.
    - intros j Hj. destruct (decide (j = i)) as [->|]; [done|]. apply HP. lia. }
  fold (slot p h i). pose proof (off_range _ _ G (u32 (h + i))) as Hr. fold (slot p h i) in Hr.
  apply wp_bind. case_if; bool_prop.
  { apply wp_ret. apply Hnext. intros [? _]. lia. }
  apply wp_isUsed; [apply R|done|]. destruct (bit (p_used p) (slot p h i)) eqn:Eb.
  { apply Hnext. intros (_ & Hn & _). apply (r_bits _ _ R) in Eb as [?|[d Hd]]; [lia|congruence|done]. }
  apply wp_bind, wp_gets. cbn [id]. destruct (p_reserved p _) eqn:Er.
  { apply Hnext. intros (_ & _ & Hn). congruence. }
  apply wp_ret. split; [done|]. exists i. split_and!; [lia..|done| |lia].
  split_and!; [lia..| |done]. apply eq_None_not_Some. intros Hs.
  assert (bit (p_used p) (slot p h i) = true) by (apply (r_bits _ _ R); [done|by right]). congruence.
Qed.

(** Every usable offset is a slot. *)
Lemma slot_onto h off :
  0 <= h <= p_max p -> 0 <= off <= p_max p -> exists j, 0 <= j <= p_max p /\ slot p h j = off.
Proof.
  destruct (r_geom _ _ R) as [n G]. intros Hh Hoff. pose proof (max_pos _ _ G) as Hm.
  pose proof (pow_bounds _ _ G) as Hpow.
  exists ((off - h) mod 2 ^ n). pose proof (Z.mod_pos_bound (off - h) (2 ^ n)) as Hb.
  rewrite (g_max _ _ G) in *. split; [lia|]. unfold slot. rewrite u32_small by lia.
  rewrite (land_max _ _ G), Z.add_mod_idemp_r by lia.
  replace (h + (off - h)) with off by lia. apply Z.mod_small. lia.
Qed.

Lemma probe_from_hash h :
  0 <= h <= p_max p ->
  wp (probe (S (S (Z.to_nat (p_max p)))) 0 h) (fun r p' => p' = p /\
    match r with
    | Some off => free p H off
    | None => forall off, ~ free p H off
    end) p.
Proof.
  intros Hh. eapply wp_mono; [apply probe_ok; lia|]. intros r p' [-> HP]. split; [done|].
  destruct r as [off|]; [by destruct HP as (k & _ & _ & ? & _)|].
  intros off Hfree. destruct (slot_onto h off Hh) as (j & Hj & Ej); [destruct Hfree; lia|].
  apply (HP j Hj). by rewrite Ej.
Qed.

(** The candidates of a search for the oldest host. *)
Definition candidate (o : option nat) (hosts : list (Addr * nat)) (l : nat) : Prop :=
  o = Some l \/ l ∈ hosts.*2.

Lemma find_oldest_ok hosts o :
  (forall l, candidate o hosts l -> is_Some (p_heap p !! l)) ->
  wp (find_oldest hosts o) (fun r p' => p' = p /\
    match r with
    | None => o = None /\ hosts = []
    | Some l => candidate o hosts l /\ exists d, p_heap p !! l = Some d /\
        forall l' d', candidate o hosts l' -> p_heap p !! l' = Some d' -> d_lastUse d <= d_lastUse d'
    end) p.
Proof.
  revert o. induction hosts as [|[v6 l] hosts IH]; intros o Ho; cbn [find_oldest].
  - apply wp_ret. split; [done|]. destruct o as [l|]; [|done].
    destruct (Ho l) as [d Hd]; [by left|]. split; [by left|]. exists d. split; [done|].
    intros l' d' [[= <-]|Hin]; [|by apply elem_of_nil in Hin]. intros. simplify_eq. lia.
  - destruct (Ho l) as [d Hd]; [right; left|].
    apply wp_bind, (wp_load _ d); [done|]. apply wp_bind.
    assert (Hsub : forall o' l', (o' = Some l \/ o' = o) -> candidate o' hosts l' ->
              candidate o ((v6, l) :: hosts) l').
    { intros o' l' [->| ->] [E|Hin]; [|by right; right| |by right; right].
      - injection E as <-. right. left.
      - by left. }
    destruct o as [o|].
    + destruct (Ho o) as [e He]; [by left|].
      apply wp_bind, (wp_load _ e); [done|]. apply wp_ret.
      eapply wp_mono; [apply IH; intros l' Hl'; apply Ho; eapply Hsub; [|exact Hl'];
                       case_if; eauto|].
      intros r p' [-> HP]. split; [done|]. destruct r as [r|]; [|by case_if; destruct HP].
      destruct HP as (Hc & dr & Hdr & Hmin). split; [eapply Hsub; [|exact Hc]; case_if; eauto|].
      exists dr. split; [done|]. intros l' d' Hl' Hd'.
      assert (Hm : d_lastUse dr <= d_lastUse d /\ d_lastUse dr <= d_lastUse e).
      { case_if; bool_prop; [pose proof (Hmin l d)|pose proof (Hmin o e)];
          unfold candidate in *; intuition (try lia). }
      destruct Hl' as [[= <-]|[E|Hin]%elem_of_cons]; simplify_eq/=; [lia..|].
      apply (Hmin l'); [by right|done].
    + apply wp_ret. eapply wp_mono; [apply IH; intros l' Hl'; apply Ho; eauto|].
      intros r p' [-> HP]. split; [done|]. destruct r as [r|]; [|by destruct HP].
      destruct HP as (Hc & dr & Hdr & Hmin). split; [eauto|]. exists dr. split; [done|].
      intros l' d' Hl' Hd'. apply (Hmin l'); [|done].
      destruct Hl' as [|[E|Hin]%elem_of_cons]; [done|left; by subst|by right].
Qed.
End search.

(** ** The specification *)

(** ** Hosts and their locations

    What one operation makes of the host at each location: it stays, with its
    offset and IPv4 address.  One that [by4] points to keeps its IPv6 address or is
    in use under a new one, or it is released, dormant; one that was released does
    not change but for its last use. *)

Definition fate (p p' : Pool) (l : nat) (d d' : dynHost) : Prop :=
  if decide (p_by4 p !! d_off d = Some l) then
    (p_by4 p' !! d_off d = Some l /\ (d_v6 d' = d_v6 d \/ d_dormant d' = false)) \/
    (p_by4 p' !! d_off d = None /\ d_v6 d' = d_v6 d /\ d_dormant d' = true)
  else p_by4 p' !! d_off d <> Some l /\ d_v6 d' = d_v6 d /\ d_dormant d' = d_dormant d.

Definition evolves (p p' : Pool) : Prop :=
  forall l d, p_heap p !! l = Some d ->
    exists d', p_heap p' !! l = Some d' /\ d_off d' = d_off d /\ d_v4 d' = d_v4 d /\ fate p p' l d d'.

Section evolves.
Context (p p' : Pool).

Lemma fate_same l d d' :
  p_by4 p' = p_by4 p -> d_v6 d' = d_v6 d -> d_dormant d' = d_dormant d -> fate p p' l d d'.
Proof. intros E Ev Ed. unfold fate. rewrite E. case_decide; auto. Qed.

Lemma evolves_same : p_heap p' = p_heap p -> p_by4 p' = p_by4 p -> evolves p p'.
Proof. intros Eh Eb l d Hd. exists d. rewrite Eh. split_and!; [done..|]. by apply fate_same. Qed.

Lemma evolves_update l d d' :
  p_heap p !! l = Some d -> p_heap p' = <[l := d']> (p_heap p) -> p_by4 p' = p_by4 p ->
  d_off d' = d_off d -> d_v4 d' = d_v4 d -> fate p p' l d d' -> evolves p p'.
Proof.
  intros Hd Eh Eb Eo Ev Hf k e He. rewrite Eh. destruct (decide (k = l)) as [->|Hne].
  - exists d'. rewrite lookup_insert_eq. simplify_eq. by split_and!.
  - exists e. rewrite lookup_insert_ne by done. split_and!; [done..|]. by apply fate_same.
Qed.

Lemma evolves_touch l d t :
  p_heap p !! l = Some d -> p_heap p' = <[l := set_lastUse t d]> (p_heap p) -> p_by4 p' = p_by4 p ->
  evolves p p'.
Proof. intros Hd Eh Eb. apply (evolves_update l d (set_lastUse t d)); try done. by apply fate_same. Qed.

Lemma evolves_attached l d d' :
  host_at p l d -> p_heap p' = <[l := d']> (p_heap p) -> p_by4 p' = p_by4 p ->
  d_off d' = d_off d -> d_v4 d' = d_v4 d -> d_v6 d' = d_v6 d \/ d_dormant d' = false -> evolves p p'.
Proof.
  intros [Hd Hl] Eh Eb Eo Ev Hv. apply (evolves_update l d d'); try done.
  unfold fate. rewrite Eb, decide_True by done. auto.
Qed.

Lemma evolves_create l off d :
  p_heap p !! l = None -> p_by4 p !! off = None ->
  p_heap p' = <[l := d]> (p_heap p) -> p_by4 p' = <[off := l]> (p_by4 p) -> evolves p p'.
Proof.
  intros Hl Ho Eh Eb k e He. exists e. rewrite Eh, lookup_insert_ne by congruence.
  split_and!; [done..|]. unfold fate. rewrite Eb. destruct (decide (d_off e = off)) as [->|Hne].
  - rewrite lookup_insert_eq, Ho, decide_False by done. split; [congruence|done].
  - rewrite lookup_insert_ne by done. case_decide; auto.
Qed.

Lemma evolves_drop l d :
  host_at p l d -> d_dormant d = true ->
  p_heap p' = p_heap p -> p_by4 p' = delete (d_off d) (p_by4 p) -> evolves p p'.
Proof.
  intros [Hd Hl] Hdd Eh Eb k e He. exists e. rewrite Eh. split_and!; [done..|].
  unfold fate. rewrite Eb. destruct (decide (d_off e = d_off d)) as [->|Hne].
  - rewrite lookup_delete_eq, Hl. case_decide; [|done]. right. simplify_eq. by split_and!.
  - rewrite lookup_delete_ne by done. case_decide; auto.
Qed.
End evolves.

(** What an operation leaves: the hosts, the events it reported, and whether
    the saved state is out of date. *)
Record effect (p p' : Pool) (H' : gmap Z dynHost) (evs : list Event) (dirtied : bool) : Prop := {
  e_repr : repr p' H';
  e_frame : frame p p';
  e_events : p_events p' = p_events p ++ evs;
  e_dirty : p_dirty p' = p_dirty p || dirtied;
  e_evolves : evolves p p';
}.

Definition unassigned (H : gmap Z dynHost) (a : Addr) : Prop :=
  forall off d, H !! off = Some d -> d_v6 d <> a.

(** What a lookup of the IPv6 address [a] may do at time [now]: the offset of
    the IPv4 address it gives, the hosts it leaves, the events, and whether the
    saved state is out of date.  An address that has a host keeps it; one that has
    none gets a free offset, or the dormant host used least recently when there is
    none. *)
Inductive lookup6_step (p : Pool) (H : gmap Z dynHost) (a : Addr) (now : Z) :
    bool -> option Z -> gmap Z dynHost -> list Event -> bool -> Prop :=
  | step_mapped allocate off d :
      H !! off = Some d -> d_v6 d = a -> d_dormant d = false ->
      lookup6_step p H a now allocate (Some off) (<[off := set_lastUse now d]> H) [] false
  | step_refused :
      (forall off d, H !! off = Some d -> d_v6 d = a -> d_dormant d = true) ->
      lookup6_step p H a now false None H [] false
  | step_reactivated off d :
      H !! off = Some d -> d_v6 d = a -> d_dormant d = true ->
      lookup6_step p H a now true (Some off) (<[off := activated now d]> H)
        [host_event ReasonDynamicReactivated d] false
  | step_assigned off :
      unassigned H a -> free p H off ->
      let d := mkHost (addr p off) a off now false in
      lookup6_step p H a now true (Some off) (<[off := d]> H)
        [host_event ReasonDynamicAssigned d] true
  | step_reassigned off d :
      unassigned H a -> (forall o, ~ free p H o) ->
      H !! off = Some d -> d_dormant d = true ->
      (forall o e, H !! o = Some e -> d_dormant e = true -> d_lastUse d <= d_lastUse e) ->
      let d' := activated now (set_v6 a d) in
      lookup6_step p H a now true (Some off) (<[off := d']> H)
        [host_event ReasonDynamicReassigned d'] true
  | step_exhausted :
      unassigned H a -> (forall o, ~ free p H o) ->
      (forall o e, H !! o = Some e -> d_dormant e = false) ->
      lookup6_step p H a now true None H
        [mkEvent KindDynamic ReasonDynamicExhausted 0 0 0 AddrZero a] false.

(** ** The operations *)

Section ops.
Context (clock : nat -> Z).
Context (range : nat -> gmap Addr nat -> list (Addr * nat)).
Context (range_perm : forall k m, range k m ≡ₚ map_to_list m).

Lemma wp_now (Q : Z -> Pool -> Prop) p :
  Q (clock (p_tick p)) (with_ticks (S (p_tick p)) (p_iter p) p) -> wp (now_unix clock) Q p.
Proof. done. Qed.

Lemma wp_range m (Q : list (Addr * nat) -> Pool -> Prop) p :
  (forall hosts, hosts ≡ₚ map_to_list m -> Q hosts (with_ticks (p_tick p) (S (p_iter p)) p)) ->
  wp (range_over range m) Q p.
Proof. intros HQ. apply HQ, range_perm. Qed.

Lemma wp_obs_event e (Q : unit -> Pool -> Prop) p :
  Q tt (with_events (p_events p ++ [e]) p) -> wp (obs_event e) Q p.
Proof. done. Qed.

(** Clock readings and observer calls do not matter to the representation. *)
Lemma repr_same p p' H :
  repr p H -> frame p p' -> p_used p' = p_used p -> p_by4 p' = p_by4 p -> p_heap p' = p_heap p ->
  p_mapped p' = p_mapped p -> p_dormant p' = p_dormant p -> p_next p' = p_next p -> repr p' H.
Proof.
  intros R F Eu Eb Eh Em Ed En. destruct R as [[n G] ? Hho ? Hbits ? ? ? ? ?].
  pose proof F as [_ _ Fm _ _ _].
  constructor; rewrite ?Eb, ?Eh, ?Em, ?Ed, ?En, ?Fm, ?Eu; try done.
  - eauto using frame_geom.
  - unfold used_ok, len in *. congruence.
  - intros off d Hd. destruct (Hho off d Hd) as [? [? ?]]. split; [done|].
    split; [by rewrite Fm|by rewrite (frame_addr _ _ _ F)].
  - intros a l. unfold host_at. rewrite Eh, Eb. auto.
  - intros a l. unfold host_at. rewrite Eh, Eb. auto.
Qed.

Lemma effect_none p p' H :
  repr p H -> frame p p' -> p_used p' = p_used p -> p_by4 p' = p_by4 p -> p_heap p' = p_heap p ->
  p_mapped p' = p_mapped p -> p_dormant p' = p_dormant p -> p_next p' = p_next p ->
  p_events p' = p_events p -> p_dirty p' = p_dirty p -> effect p p' H [] false.
Proof.
  intros. constructor; [by eapply repr_same|done| | |].
  - by rewrite app_nil_r.
  - by rewrite orb_false_r.
  - by apply evolves_same.
Qed.

(** An IPv4 address of the pool: its mapped host, which is now in use. *)
Definition lookup4_result (H : gmap Z dynHost) (off now : Z) : option Addr * gmap Z dynHost :=
  match H !! off with
  | Some d => if d_dormant d then (None, H) else (Some (d_v6 d), <[off := set_lastUse now d]> H)
  | None => (None, H)
  end.

Lemma lookup4_ok p H v :
  repr p H -> 0 <= v < 2 ^ 32 ->
  wp (lookup4 clock (Addr4 v)) (fun r p' =>
    let '(r', H') := lookup4_result H (Z.land v (p_max p)) (clock (p_tick p)) in
    r = r' /\ effect p p' H' [] false) p.
Proof.
  intros R Hv. unfold lookup4, lookup4_result. apply wp_bind, wp_lift, owp_ok.
  apply wp_bind, wp_gets, wp_bind, wp_gets.
  rewrite be_be_bytes, Z.mod_small by (change (256 ^ Z.of_nat 4) with (2 ^ 32); lia).
  set (off := Z.land v (p_max p)). destruct (p_by4 p !! off) as [l|] eqn:El.
  - destruct (by4_host _ _ R _ _ El) as (d & Hd & Hl). rewrite Hd.
    destruct (r_host _ _ R _ _ Hd) as [Eo _].
    pose proof Hl as [Hh _]. apply wp_bind, (wp_load _ d); [done|].
    destruct (d_dormant d); [apply wp_ret; split; [done|]; by apply effect_none|].
    apply wp_bind, wp_now, wp_bind, (wp_store _ _ d); [done|].
    apply wp_ret. split; [done|]. pose proof (repr_touch p H R l d (clock (p_tick p)) Hl) as R'.
    rewrite Eo in R'. constructor; [|by constructor|cbn; by rewrite app_nil_r|cbn; by rewrite orb_false_r|
      by eapply evolves_touch].
    by apply (repr_same _ _ _ R').
  - apply (by4_None _ _ R) in El. rewrite El. apply wp_ret. split; [done|]. by apply effect_none.
Qed.

(** [p] is [p0] but for readings of the clock and loops over maps. *)
Record reads (p0 p : Pool) : Prop := {
  rd_frame : frame p0 p;
  rd_events : p_events p = p_events p0;
  rd_dirty : p_dirty p = p_dirty p0;
  rd_heap : p_heap p = p_heap p0;
  rd_by4 : p_by4 p = p_by4 p0;
}.

Lemma evolves_reads p0 p p' : reads p0 p -> evolves p p' -> evolves p0 p'.
Proof. intros [_ _ _ Eh Eb] E l d Hd. rewrite <- Eh in Hd. destruct (E l d Hd) as (d' & ?). exists d'. unfold fate in *. by rewrite <- Eb. Qed.

(** A mapped host is found and used. *)
Lemma mapped_ok p p0 H a l allocate now :
  repr p H -> p_mapped p !! a = Some l ->
  reads p0 p ->
  wp (store l (set_lastUse now);; d ← load l; mret (Some (d_v4 d))) (fun r p' =>
    exists ro H' evs dt, lookup6_step p0 H a now allocate ro H' evs dt /\
      r = addr p0 <$> ro /\ effect p0 p' H' evs dt) p.
Proof.
  intros R Hl Rd. pose proof Rd as [F Ee Edt _ _]. apply (r_mapped _ _ R) in Hl as (d & Hl & Hv & Hd).
  pose proof (host_at_H _ _ R _ _ Hl) as HH. destruct (r_host _ _ R _ _ HH) as [_ [_ Ha]].
  pose proof Hl as [Hh _]. apply wp_bind, (wp_store _ _ d); [done|].
  apply wp_bind, (wp_load _ (set_lastUse now d)); [apply lookup_insert_eq|]. apply wp_ret.
  eexists _, _, _, _. split_and!.
  - by apply (step_mapped _ _ _ _ _ (d_off d) d).
  - cbn. by rewrite Ha, <- (frame_addr _ _ _ F).
  - constructor; [by apply repr_touch| | | |].
    + eapply frame_trans; [done|]. by constructor.
    + cbn. by rewrite app_nil_r.
    + cbn. by rewrite orb_false_r.
    + by eapply evolves_reads, evolves_touch.
Qed.

(** The branches of [assign]. *)
Definition assigned (p0 : Pool) (H : gmap Z dynHost) (a : Addr) (now : Z) (r : option Addr) (p' : Pool) : Prop :=
  exists ro H' evs dt, lookup6_step p0 H a now true ro H' evs dt /\
    r = addr p0 <$> ro /\ effect p0 p' H' evs dt.

Lemma reactivate_ok p p0 H a l now :
  repr p H -> p_dormant p !! a = Some l ->
  reads p0 p ->
  wp (activate l now;; dyn_event ReasonDynamicReactivated l;; d ← load l; mret (Some (d_v4 d)))
    (assigned p0 H a now) p.
Proof.
  intros R Hl Rd. pose proof Rd as [F Ee Edt _ _]. apply (r_dormant _ _ R) in Hl as (d & Hl & Hv & Hd).
  pose proof (host_at_H _ _ R _ _ Hl) as HH. destruct (r_host _ _ R _ _ HH) as [_ [_ Ha]].
  pose proof Hl as [Hh _]. apply wp_bind, (wp_activate _ _ d); [done|].
  apply wp_bind, (wp_dyn_event _ _ (activated now d)); [apply lookup_insert_eq|].
  apply wp_bind, (wp_load _ (activated now d)); [apply lookup_insert_eq|]. apply wp_ret.
  eexists _, _, _, _. split_and!.
  - by apply (step_reactivated _ _ _ _ (d_off d) d).
  - cbn. by rewrite Ha, <- (frame_addr _ _ _ F).
  - constructor.
    + eapply repr_same; [by apply repr_activate|try done; by constructor..].
    + eapply frame_trans; [done|]. by constructor.
    + cbn. by rewrite Ee.
    + cbn. by rewrite orb_false_r.
    + apply (evolves_reads _ p); [done|]. apply (evolves_attached p _ l d (activated now d)); try done. by left.
Qed.

Lemma create_ok p p0 H a off now :
  repr p H -> free p H off -> unassigned H a ->
  reads p0 p ->
  wp (p ← gets id;
      let v4 := addr p off in
      l ← alloc (mkHost v4 a off 0 false);
      setUsed off;;
      modify (fun p => with_by4 (<[off := l]> (p_by4 p)) p);;
      activate l now;;
      modify (with_dirty true);;
      dyn_event ReasonDynamicAssigned l;;
      mret (Some v4)) (assigned p0 H a now) p.
Proof.
  intros R (Hoff & Hn & Hr) Hu Rd. pose proof Rd as [F Ee Edt _ _]. apply wp_bind, wp_gets. cbn [id].
  apply wp_bind, wp_alloc, wp_bind, wp_setUsed; [apply R|cbn; lia|]. intros us Hlen Hus.
  set (d := mkHost (addr p off) a off now false).
  apply wp_bind, wp_modify, wp_bind, (wp_activate _ _ (mkHost (addr p off) a off 0 false));
    [apply lookup_insert_eq|].
  apply wp_bind, wp_modify, wp_bind, (wp_dyn_event _ _ d); [apply lookup_insert_eq|].
  apply wp_ret. exists (Some off), (<[d_off d := d]> H), [host_event ReasonDynamicAssigned d], true.
  pose proof F as [_ _ Fm Fr _ _]. split_and!.
  - assert (Ed : d = mkHost (addr p0 off) a off now false) by (unfold d; by rewrite (frame_addr _ _ off F)).
    rewrite Ed. apply step_assigned; [done|].
    split; [by rewrite <- Fm|]. split; [done|]. by rewrite <- Fr, <- (frame_addr _ _ off F).
  - cbn. by rewrite <- (frame_addr _ _ off F).
  - constructor.
    + apply (repr_create p H R _ _ us); try done.
      * cbn. by rewrite insert_insert_eq.
      * intros b. cbn. rewrite decide_False by intuition congruence.
        destruct (decide (b = a)) as [->|Hne]; [|by rewrite lookup_delete_ne].
        rewrite lookup_delete_eq. symmetry. apply eq_None_not_Some. intros [l' Hl'].
        apply (r_dormant _ _ R) in Hl' as (e & He & Hv & _).
        apply (host_at_H _ _ R) in He. by apply Hu in He.
    + eapply frame_trans; [done|]. by constructor.
    + cbn. by rewrite Ee.
    + cbn. by rewrite orb_true_r.
    + apply (evolves_reads _ p); [done|].
      apply (evolves_create p _ (p_next p) off d); [by apply (fresh_heap _ _ R)| | |done].
      * by apply (by4_None _ _ R).
      * cbn. by rewrite insert_insert_eq.
Qed.

Lemma steal_ok p p0 H a l now d :
  repr p H -> unassigned H a -> (forall o, ~ free p0 H o) ->
  host_at p l d -> d_dormant d = true ->
  (forall o e, H !! o = Some e -> d_dormant e = true -> d_lastUse d <= d_lastUse e) ->
  reads p0 p ->
  wp (d ← load l;
      modify (fun p => with_dormant (delete (d_v6 d) (p_dormant p)) p);;
      store l (set_v6 a);;
      activate l now;;
      modify (with_dirty true);;
      dyn_event ReasonDynamicReassigned l;;
      d ← load l; mret (Some (d_v4 d))) (assigned p0 H a now) p.
Proof.
  intros R Hu Hfree Hl Hd Hold Rd. pose proof Rd as [F Ee Edt _ _].
  pose proof (host_at_H _ _ R _ _ Hl) as HH. destruct (r_host _ _ R _ _ HH) as [_ [_ Ha]].
  pose proof Hl as [Hh _]. apply wp_bind, (wp_load _ d); [done|].
  apply wp_bind, wp_modify, wp_bind, (wp_store _ _ d); [done|].
  apply wp_bind, (wp_activate _ _ (set_v6 a d)); [apply lookup_insert_eq|].
  apply wp_bind, wp_modify.
  apply wp_bind, (wp_dyn_event _ _ (activated now (set_v6 a d))); [apply lookup_insert_eq|].
  apply wp_bind, (wp_load _ (activated now (set_v6 a d))); [apply lookup_insert_eq|].
  apply wp_ret. eexists _, _, _, _. split_and!.
  - by apply (step_reassigned _ _ _ _ (d_off d) d).
  - cbn. by rewrite Ha, <- (frame_addr _ _ _ F).
  - constructor.
    + eapply repr_same; [by apply (repr_steal p H R l d a now)|try done; by constructor..].
    + eapply frame_trans; [done|]. by constructor.
    + cbn. by rewrite Ee.
    + cbn. by rewrite orb_true_r.
    + apply (evolves_reads _ p); [done|].
      apply (evolves_attached p _ l d (activated now (set_v6 a d))); try done; [|by right].
      cbn. by rewrite insert_insert_eq.
Qed.

(** The locations of an address map, in the order of a loop. *)
Lemma elem_of_locs (hosts : list (Addr * nat)) (m : gmap Addr nat) l :
  hosts ≡ₚ map_to_list m -> l ∈ hosts.*2 <-> exists a, m !! a = Some l.
Proof.
  intros ->. rewrite list_elem_of_fmap. split.
  - intros ([a l'] & -> & Hin%elem_of_map_to_list). eauto.
  - intros [a Ha]. exists (a, l). split; [done|]. by apply elem_of_map_to_list.
Qed.

Lemma oldest_ok p p0 H a now :
  repr p H -> unassigned H a -> (forall o, ~ free p0 H o) ->
  reads p0 p ->
  wp (dormant ← gets p_dormant;
      hosts ← range_over range dormant;
      oldest ← find_oldest hosts None;
      match oldest with
      | None =>
          obs_event (mkEvent KindDynamic ReasonDynamicExhausted 0 0 0 AddrZero a);;
          mret None
      | Some l =>
          d ← load l;
          modify (fun p => with_dormant (delete (d_v6 d) (p_dormant p)) p);;
          store l (set_v6 a);;
          activate l now;;
          modify (with_dirty true);;
          dyn_event ReasonDynamicReassigned l;;
          d ← load l; mret (Some (d_v4 d))
      end) (assigned p0 H a now) p.
Proof.
  intros R Hu Hfree Rd. pose proof Rd as [F Ee Edt Eh Eb]. apply wp_bind, wp_gets, wp_bind, wp_range. intros hosts Hhosts.
  set (p1 := with_ticks _ _ p).
  assert (R1 : repr p1 H) by (apply (repr_same _ _ _ R); try done; by constructor).
  assert (Rd1 : reads p0 p1) by (constructor; [|done..]; eapply frame_trans; [done|]; by constructor).
  assert (Hdom : forall l, candidate None hosts l <-> exists d, host_at p1 l d /\ d_dormant d = true).
  { intros l. unfold candidate. rewrite (elem_of_locs _ _ _ Hhosts). split.
    - intros [?|[b Hb]]; [done|]. apply (r_dormant _ _ R1) in Hb as (d & ? & _ & ?). eauto.
    - intros (d & Hl & Hd). right. exists (d_v6 d). apply (r_dormant _ _ R1). eauto. }
  apply wp_bind. eapply wp_mono; [apply find_oldest_ok|].
  { intros l (d & [Hh _] & _)%Hdom. eauto. }
  intros [l|] p' [-> HP].
  - destruct HP as (Hc & d & Hd & Hmin). apply Hdom in Hc as (d' & Hl & Hdd).
    assert (d' = d) by (destruct Hl; congruence). subst d'.
    apply (steal_ok p1 p0 H a l now d); try done. intros o e He Hed.
    destruct (H_host_at _ _ R1 _ _ He) as (l' & Hl' & _).
    apply (Hmin l'); [apply Hdom; eauto|by destruct Hl'].
  - destruct HP as [_ ->]. apply wp_bind, wp_obs_event, wp_ret.
    eexists _, _, _, _. split_and!.
    + apply step_exhausted; [done|done|]. intros o e He.
      destruct (H_host_at _ _ R1 _ _ He) as (l' & Hl' & _).
      destruct (d_dormant e) eqn:E; [|done].
      assert (Hc : candidate None [] l') by (apply Hdom; eauto).
      by destruct Hc as [?|?%elem_of_nil].
    + done.
    + constructor; cbn; [|eapply frame_trans; [exact F|]; by constructor|by rewrite Ee|by rewrite orb_false_r|by apply evolves_same].
      apply (repr_same _ _ _ R1); try done; by constructor.
Qed.

Lemma reads_tick p k i : reads p (with_ticks k i p).
Proof. by constructor. Qed.

Lemma assign_locked_ok p p0 H a now :
  repr p H -> reads p0 p -> wp (assign_locked range a now) (assigned p0 H a now) p.
Proof.
  intros R Rd. pose proof Rd as [F _ _ _ _]. unfold assign_locked.
  apply wp_bind, wp_gets. destruct (p_mapped p !! a) as [l|] eqn:Em; [by apply mapped_ok|].
  apply wp_bind, wp_gets. destruct (p_dormant p !! a) as [l|] eqn:Ed; [by apply reactivate_ok|].
  assert (Hu : unassigned H a).
  { intros off d Hd Hv. pose proof (mapped_None _ _ R a Em _ _ Hd Hv).
    pose proof (dormant_None _ _ R a Ed _ _ Hd Hv). congruence. }
  destruct (r_geom _ _ R) as [n G].
  apply wp_bind, wp_gets, wp_bind, wp_lift. cbn [id].
  eapply owp_mono; [apply (hash_words_ok p n G 4)|].
  { apply length_As16. } { pose proof (max_pos _ _ G). lia. }
  intros h Hh. apply wp_bind. eapply wp_mono; [by apply (probe_from_hash p H R)|].
  intros [off|] p' [-> HP].
  - by apply create_ok.
  - apply oldest_ok; [done..| |done]. intros o (Ho & Hn & Hr). apply (HP o).
    split; [by rewrite (f_max _ _ F)|]. split; [done|].
    by rewrite (f_reserved _ _ F), (frame_addr _ _ _ F).
Qed.

Lemma assign_ok p H a :
  repr p H -> wp (assign clock range a) (assigned p H a (clock (p_tick p))) p.
Proof.
  intros R. unfold assign. apply wp_bind, wp_now, assign_locked_ok; [|by apply reads_tick].
  apply (repr_same _ _ _ R); try done; by constructor.
Qed.

Lemma lookup6_ok p H a allocate :
  repr p H ->
  wp (lookup6 clock range a allocate) (fun r p' =>
    exists ro H' evs dt, lookup6_step p H a (clock (p_tick p)) allocate ro H' evs dt /\
      r = addr p <$> ro /\ effect p p' H' evs dt) p.
Proof.
  intros R. unfold lookup6. apply wp_bind, wp_gets.
  destruct (p_mapped p !! a) as [l|] eqn:Em.
  - apply wp_bind, wp_now. set (p1 := with_ticks _ _ p).
    assert (R1 : repr p1 H) by (apply (repr_same _ _ _ R); try done; by constructor).
    by apply (mapped_ok p1 p H a l allocate _ R1 Em).
  - destruct allocate; [by apply assign_ok|]. apply wp_ret.
    exists None, H, [], false. split_and!; [|done|by apply effect_none].
    apply step_refused. eauto using mapped_None.
Qed.
End ops.

(** ** Maintenance *)

(** What [Maintain] makes of a mapped host and of a dormant one; both at time
    [now], with leases in seconds. *)
Definition expired (now minLease : Z) (d : dynHost) : dynHost :=
  if negb (d_dormant d) && (i64 (d_lastUse d + minLease) <? now) then set_dormant true d else d.
Definition released (now maxLease : Z) (d : dynHost) : bool :=
  d_dormant d && (i64 (d_lastUse d + maxLease) <? now).

Definition aged (now minLease maxLease : Z) (d : dynHost) : option dynHost :=
  let d := expired now minLease d in
  (if released now maxLease d then None else Some d).

Section maintenance.
Context (clock : nat -> Z).
Context (range : nat -> gmap Addr nat -> list (Addr * nat)).
Context (range_perm : forall k m, range k m ≡ₚ map_to_list m).
Implicit Types hosts : list (Addr * nat).

(** The hosts a loop still has to visit are entries of the map. *)
Definition entries (m : gmap Addr nat) hosts : Prop :=
  NoDup hosts.*1 /\ forall a l, (a, l) ∈ hosts -> m !! a = Some l.

Lemma entries_cons m a l hosts :
  entries m ((a, l) :: hosts) -> m !! a = Some l /\ (a ∉ hosts.*1) /\ entries m hosts.
Proof.
  intros [Hnd Hin]. cbn in Hnd. apply NoDup_cons in Hnd as [Ha Hnd].
  split; [apply Hin; left|]. split; [done|]. split; [done|]. intros b k Hk. apply Hin. by right.
Qed.

Lemma entries_update m m' a hosts :
  a ∉ hosts.*1 -> (forall b, b <> a -> m' !! b = m !! b) -> entries m hosts -> entries m' hosts.
Proof.
  intros Ha Hm [Hnd Hin]. split; [done|]. intros b l Hb. rewrite Hm; [by apply Hin|].
  intros ->. apply Ha, list_elem_of_fmap. by exists (a, l).
Qed.

Lemma entries_perm m hosts : hosts ≡ₚ map_to_list m -> entries m hosts.
Proof.
  intros Hp. split; [rewrite Hp; apply NoDup_fst_map_to_list|].
  intros a l. rewrite Hp. apply elem_of_map_to_list.
Qed.

Definition expire_in (hosts : list (Addr * nat)) (now minLease : Z) (d : dynHost) : dynHost :=
  if decide (d_v6 d ∈ hosts.*1) then expired now minLease d else d.

(** One host of the first loop. *)
Lemma expire_host_ok p H l d now minLease :
  repr p H -> host_at p l d -> d_dormant d = false ->
  wp (expire_host (d_v6 d) l now minLease) (fun _ p' =>
    repr p' (<[d_off d := expired now minLease d]> H) /\ frame p p' /\ p_dirty p' = p_dirty p /\
    (exists evs, p_events p' = p_events p ++ evs) /\ evolves p p' /\
    (forall b, b <> d_v6 d -> p_mapped p' !! b = p_mapped p !! b)) p.
Proof.
  intros R Hl Hd. pose proof (host_at_H _ _ R _ _ Hl) as HH. pose proof Hl as [Hh _].
  unfold expire_host, expired. rewrite Hd. apply wp_bind, (wp_load _ d); [done|]. cbn [negb andb]. case_if.
  - apply wp_bind, wp_modify, wp_bind, (wp_store _ _ d); [done|].
    apply wp_bind, wp_modify, (wp_dyn_event _ _ (set_dormant true d)); [apply lookup_insert_eq|].
    split_and!; [|by constructor|done|by eexists| |].
    + eapply repr_same; [by apply (repr_expire p H R l d)|try done; by constructor..].
    + apply (evolves_attached p _ l d (set_dormant true d)); try done. by left.
    + intros b Hb. cbn. by rewrite lookup_delete_ne.
  - apply wp_skip. rewrite insert_id by done.
    split_and!; [done..|by exists []; rewrite app_nil_r|by apply evolves_same|done].
Qed.

Lemma expire_mapped_ok p H hosts now minLease :
  repr p H -> entries (p_mapped p) hosts ->
  wp (expire_mapped hosts now minLease) (fun _ p' =>
    repr p' (expire_in hosts now minLease <$> H) /\ frame p p' /\
    p_dirty p' = p_dirty p /\ exists evs, p_events p' = p_events p ++ evs) p.
Proof.
  revert p H. induction hosts as [|[a l] hosts IH]; intros p H R Hin; cbn [expire_mapped].
  - apply wp_skip. split_and!; [|done|done|by exists []; rewrite app_nil_r].
    replace (expire_in [] now minLease <$> H) with H; [done|].
    rewrite <- (map_fmap_id H) at 1. apply map_fmap_ext. intros o d _. unfold expire_in.
    by rewrite decide_False by apply not_elem_of_nil.
  - apply entries_cons in Hin as (Ha & Hnot & Hin).
    apply (r_mapped _ _ R) in Ha as (d & Hl & <- & Hd).
    pose proof (host_at_H _ _ R _ _ Hl) as HH.
    apply wp_bind. eapply wp_mono; [by apply (expire_host_ok p H l d)|].
    intros _ p1 (R1 & F1 & Ed1 & [evs1 Ee1] & _ & Hm).
    eapply wp_mono; [apply (IH p1 _ R1); by eapply entries_update|].
    intros _ p' (R' & F & Ed & [evs Ee]).
    assert (Hstep : expire_in hosts now minLease <$> <[d_off d := expired now minLease d]> H =
      expire_in ((d_v6 d, l) :: hosts) now minLease <$> H).
    { apply map_eq. intros o. rewrite !lookup_fmap. unfold expire_in. cbn.
      destruct (decide (o = d_off d)) as [->|Hne].
      - rewrite lookup_insert_eq, HH. cbn. f_equal.
        rewrite decide_False, decide_True; [done|left|]. unfold expired. by case_if.
      - rewrite lookup_insert_ne by done. destruct (H !! o) as [e|] eqn:He; [|done]. cbn. f_equal.
        assert (d_v6 e <> d_v6 d) by (intros E'; apply Hne; eapply (r_uniq _ _ R); eauto).
        assert (Hi : d_v6 e ∈ (d_v6 d :: hosts.*1) <-> d_v6 e ∈ hosts.*1) by (rewrite elem_of_cons; tauto).
        destruct (decide (d_v6 e ∈ hosts.*1)), (decide (d_v6 e ∈ d_v6 d :: hosts.*1)); tauto. }
    rewrite Hstep in R'. split_and!; [done|by eapply frame_trans|congruence|].
    exists (evs1 ++ evs). by rewrite Ee, Ee1, app_assoc.
Qed.

Definition release_in (hosts : list (Addr * nat)) (now maxLease : Z) (d : dynHost) : option dynHost :=
  if decide (d_v6 d ∈ hosts.*1) then (if released now maxLease d then None else Some d) else Some d.

Lemma omap_id_on (H : gmap Z dynHost) (f : dynHost -> option dynHost) :
  (forall o d, H !! o = Some d -> f d = Some d) -> omap f H = H.
Proof.
  intros Hf. apply map_eq. intros o. rewrite lookup_omap.
  destruct (H !! o) as [d|] eqn:E; [|done]. by apply (Hf o).
Qed.

(** One host of the second loop. *)
Definition release_one (d : dynHost) (now maxLease : Z) (H : gmap Z dynHost) : gmap Z dynHost :=
  if released now maxLease d then delete (d_off d) H else H.

Lemma release_host_ok p H l d now maxLease :
  repr p H -> host_at p l d -> d_dormant d = true ->
  wp (release_host (d_v6 d) l now maxLease) (fun _ p' =>
    repr p' (release_one d now maxLease H) /\ frame p p' /\
    p_dirty p' = p_dirty p || released now maxLease d /\
    (exists evs, p_events p' = p_events p ++ evs) /\ evolves p p' /\
    (forall b, b <> d_v6 d -> p_dormant p' !! b = p_dormant p !! b)) p.
Proof.
  intros R Hl Hd. pose proof (host_at_H _ _ R _ _ Hl) as HH. pose proof Hl as [Hh _].
  unfold release_host, release_one, released. rewrite Hd. apply wp_bind, (wp_load _ d); [done|].
  cbn [andb]. case_if.
  - apply wp_bind, wp_modify, wp_bind, wp_modify, wp_bind, wp_clearUsed;
      [apply R|destruct (r_host _ _ R _ _ HH) as [_ [? _]]; cbn; lia|].
    intros us Hlen Hus. apply wp_bind, wp_modify, (wp_dyn_event _ _ d); [done|].
    split_and!; [|by constructor|by rewrite orb_true_r|by eexists| |].
    + eapply repr_same; [by apply (repr_release p H R l d us)|try done; by constructor..].
    + by apply (evolves_drop p _ l d).
    + intros b Hb. cbn. by rewrite lookup_delete_ne.
  - apply wp_skip.
    split_and!; [done..|by rewrite orb_false_r|by exists []; rewrite app_nil_r|by apply evolves_same|done].
Qed.

Lemma release_dormant_ok p H hosts now maxLease :
  repr p H -> entries (p_dormant p) hosts ->
  wp (release_dormant hosts now maxLease) (fun _ p' =>
    let H' := omap (release_in hosts now maxLease) H in
    repr p' H' /\ frame p p' /\ p_dirty p' = p_dirty p || bool_decide (H' <> H) /\
    exists evs, p_events p' = p_events p ++ evs) p.
Proof.
  revert p H. induction hosts as [|[a l] hosts IH]; intros p H R Hin; cbn [release_dormant].
  - apply wp_skip. cbn. rewrite omap_id_on.
    + split_and!; [done|done|by rewrite bool_decide_false, orb_false_r by naive_solver|].
      exists []. by rewrite app_nil_r.
    + intros o d _. unfold release_in. by rewrite decide_False by apply not_elem_of_nil.
  - apply entries_cons in Hin as (Ha & Hnot & Hin).
    apply (r_dormant _ _ R) in Ha as (d & Hl & <- & Hd).
    pose proof (host_at_H _ _ R _ _ Hl) as HH.
    apply wp_bind. eapply wp_mono; [by apply (release_host_ok p H l d)|].
    intros _ p1 (R1 & F1 & Ed1 & [evs1 Ee1] & _ & Hm).
    eapply wp_mono; [apply (IH p1 _ R1); by eapply entries_update|].
    intros _ p' (R' & F & Edt & [evs Ee]). cbv zeta in *.
    assert (Heq : omap (release_in hosts now maxLease) (release_one d now maxLease H) =
                  omap (release_in ((d_v6 d, l) :: hosts) now maxLease) H).
    { apply map_eq. intros o. rewrite !lookup_omap. unfold release_one, release_in. cbn.
      destruct (decide (o = d_off d)) as [->|Hne].
      - rewrite HH. cbn. rewrite (decide_True (P := d_v6 d ∈ d_v6 d :: hosts.*1)) by left.
        destruct (released now maxLease d) eqn:E; [by rewrite lookup_delete_eq|].
        rewrite HH. cbn. rewrite ?E. by destruct (decide _).
      - assert (Ho : (if released now maxLease d then delete (d_off d) H else H) !! o = H !! o).
        { case_if; [by rewrite lookup_delete_ne|done]. }
        rewrite Ho. destruct (H !! o) as [e|] eqn:He; [|done]. cbn.
        assert (d_v6 e <> d_v6 d) by (intros E'; apply Hne; eapply (r_uniq _ _ R); eauto).
        assert (Hi : d_v6 e ∈ (d_v6 d :: hosts.*1) <-> d_v6 e ∈ hosts.*1) by (rewrite elem_of_cons; tauto).
        destruct (decide (d_v6 e ∈ hosts.*1)), (decide (d_v6 e ∈ d_v6 d :: hosts.*1)); tauto. }
    rewrite Heq in R', Edt. split_and!; [done|by eapply frame_trans| |].
    + rewrite Edt, Ed1. unfold release_one. destruct (released now maxLease d) eqn:E.
      * rewrite (bool_decide_true (_ <> H)), !orb_true_r; [done|].
        intros E'. pose proof HH as Hn. rewrite <- E' in Hn at 1.
        rewrite lookup_omap, HH in Hn. cbn in Hn. unfold release_in in Hn.
        rewrite decide_True, E in Hn by left. done.
      * by rewrite orb_false_r.
    + exists (evs1 ++ evs). by rewrite Ee, Ee1, app_assoc.
Qed.

(** [Maintain] ages every host, all at the same time. *)
Lemma Maintain_ok p H :
  repr p H ->
  wp (Maintain clock range) (fun _ p' =>
    let now := clock (p_tick p) in
    let mid := expired now (Z.quot (p_minLease p) Second) <$> H in
    let H' := omap (aged now (Z.quot (p_minLease p) Second) (Z.quot (p_maxLease p) Second)) H in
    repr p' H' /\ frame p p' /\ p_dirty p' = p_dirty p || bool_decide (H' <> mid) /\
    exists evs, p_events p' = p_events p ++ evs) p.
Proof.
  intros R. unfold Maintain. apply wp_bind, wp_now, wp_bind, wp_gets, wp_bind, wp_gets.
  apply wp_bind, wp_gets, wp_bind, wp_range; [exact range_perm|]. intros ms Hms.
  set (now := clock (p_tick p)). set (mn := Z.quot (p_minLease _) Second).
  set (mx := Z.quot (p_maxLease _) Second). set (p1 := with_ticks _ _ _).
  assert (R1 : repr p1 H) by (apply (repr_same _ _ _ R); try done; by constructor).
  apply wp_bind. eapply wp_mono; [apply (expire_mapped_ok p1 H ms now mn R1), entries_perm, Hms|].
  intros _ p2 (R2 & F2 & Ed2 & evs2 & Ee2).
  assert (Hall : forall a d, (exists l, p_mapped p !! a = Some l /\ host_at p l d) -> a ∈ ms.*1).
  { intros a d (l & Hl & _). rewrite Hms. apply list_elem_of_fmap. exists (a, l).
    split; [done|]. by apply elem_of_map_to_list. }
  assert (Emid : expire_in ms now mn <$> H = expired now mn <$> H).
  { apply map_fmap_ext. intros o d Hd. unfold expire_in. case_decide as Hn; [done|].
    unfold expired. destruct (d_dormant d) eqn:Ed; [done|]. exfalso. apply Hn.
    destruct (H_host_at _ _ R _ _ Hd) as (l & Hl & _). apply (Hall _ d). exists l.
    split; [|done]. by apply (mapped_loc _ _ R l d). }
  rewrite Emid in R2.
  apply wp_bind, wp_gets, wp_bind, wp_range; [exact range_perm|]. intros ds Hds.
  set (p3 := with_ticks _ _ p2).
  assert (R3 : repr p3 (expired now mn <$> H)) by (apply (repr_same _ _ _ R2); try done; by constructor).
  eapply wp_mono; [apply (release_dormant_ok p3 _ ds now mx R3), entries_perm, Hds|].
  intros _ p4 (R4 & F4 & Ed4 & evs4 & Ee4). cbv zeta in *.
  assert (Eend : omap (release_in ds now mx) (expired now mn <$> H) = omap (aged now mn mx) H).
  { apply map_eq. intros o. rewrite !lookup_omap, lookup_fmap.
    destruct (H !! o) as [d|] eqn:Hd; [|done]. cbn. unfold aged. cbv zeta.
    set (d' := expired now mn d). unfold release_in. destruct (decide (d_v6 d' ∈ ds.*1)) as [|Hn]; [done|].
    destruct (released now mx d') eqn:Erel; [|done]. exfalso. apply Hn.
    unfold released in Erel. apply andb_true_iff in Erel as [Edd _].
    assert (Hd' : (expired now mn <$> H) !! o = Some d') by by rewrite lookup_fmap, Hd.
    destruct (H_host_at _ _ R3 _ _ Hd') as (l & Hl & _).
    rewrite Hds. apply list_elem_of_fmap. exists (d_v6 d', l). split; [done|].
    apply elem_of_map_to_list. by apply (dormant_loc _ _ R3 l d'). }
  rewrite Eend in R4, Ed4. split_and!; [done| | |].
  - apply (frame_trans p p3 p4); [|exact F4]. apply (frame_trans p p2 p3); [|by constructor].
    by apply (frame_trans p p1 p2).
  - rewrite Ed4. cbn. by rewrite Ed2.
  - rewrite Ee4. cbn. rewrite Ee2. cbn. rewrite <- app_assoc. eauto.
Qed.
End maintenance.
