(* ===== verification/PoolSave.v ===== *)
(** * Listing, saving and loading the pool

    [write] and [Assignments] depend on the hosts alone, not on the order in which
    the maps are visited; [read] adds the records it accepts and then decides which
    of them are still in use. *)

From stdpp Require Import base tactics list numbers option strings gmap sorting.
From Stdlib Require Import ZArith Lia.
From S2P Require Import Prelude Netip Netutil Text Events Pool PoolFacts PoolOps.

Open Scope Z_scope.

(** All hosts of [H]. *)
Definition hosts_of (H : gmap Z dynHost) : list dynHost := (map_to_list H).*2.

(** The lists [Assignments] and [write] sort. *)
Definition rows (H : gmap Z dynHost) : list Assignment := merge_sort as_le (assignment <$> hosts_of H).
Definition records (H : gmap Z dynHost) : list dynHost := merge_sort off_le (hosts_of H).

Lemma elem_of_hosts H d : d ∈ hosts_of H <-> exists off, H !! off = Some d.
Proof.
  unfold hosts_of. rewrite list_elem_of_fmap. split.
  - intros ([off d'] & -> & Hin%elem_of_map_to_list). eauto.
  - intros [off Hd]. exists (off, d). split; [done|]. by apply elem_of_map_to_list.
Qed.

#[export] Instance off_le_total : Total off_le.
Proof. intros x y. unfold off_le. lia. Qed.
#[export] Instance off_le_trans : Transitive off_le.
Proof. intros x y z. unfold off_le. lia. Qed.

Section listing.
Context (range : nat -> gmap Addr nat -> list (Addr * nat)).
Context (range_perm : forall k m, range k m ≡ₚ map_to_list m).

(** A list of locations, loaded. *)
Lemma load_all_ok p (hosts : list (Addr * nat)) (P : dynHost -> Prop) :
  (forall a l, (a, l) ∈ hosts -> exists d, host_at p l d /\ d_v6 d = a /\ P d) ->
  wp (load_all hosts) (fun ds p' => p' = p /\ d_v6 <$> ds = hosts.*1 /\
    forall d, d ∈ ds <-> exists a l, (a, l) ∈ hosts /\ host_at p l d) p.
Proof.
  induction hosts as [|[a l] hosts IH]; intros Hin; cbn [load_all].
  - apply wp_ret. split_and!; [done|done|]. intros d. split; [by intros ?%elem_of_nil|].
    by intros (? & ? & ?%elem_of_nil & _).
  - destruct (Hin a l) as (d & Hl & Hv & _); [left|]. pose proof Hl as [Hh _].
    apply wp_bind, (wp_load _ d); [done|]. apply wp_bind.
    eapply wp_mono; [apply IH; intros b k Hb; apply Hin; by right|].
    intros ds p' (-> & E & Hds). apply wp_ret. split_and!; [done|cbn; by rewrite E, Hv|].
    intros e. rewrite elem_of_cons, Hds. split.
    + intros [->|(b & k & Hb & Hk)]; [exists a, l|exists b, k]; (split; [|done]); [left|by right].
    + intros (b & k & [[= -> ->]|Hb]%elem_of_cons & Hk); [|eauto 6].
      left. destruct Hk. congruence.
Qed.

Section hosts.
Context (p : Pool) (H : gmap Z dynHost) (R : repr p H).

Lemma NoDup_hosts : NoDup (hosts_of H).
Proof.
  apply (NoDup_fmap_1 d_off). unfold hosts_of.
  replace (d_off <$> (map_to_list H).*2) with ((map_to_list H).*1); [apply NoDup_fst_map_to_list|].
  rewrite <- list_fmap_compose. apply list_fmap_ext. intros i [o d] Hi. cbn.
  apply list_elem_of_lookup_2, elem_of_map_to_list in Hi.
  by destruct (r_host _ _ R _ _ Hi) as [-> _].
Qed.

Lemma all_hosts_ok :
  wp (all_hosts range) (fun ds p' =>
    ds ≡ₚ hosts_of H /\ p' = with_ticks (p_tick p) (S (S (p_iter p))) p) p.
Proof.
  unfold all_hosts. apply wp_bind, wp_gets, wp_bind, wp_range; [exact range_perm|].
  intros ms Hms. apply wp_bind.
  eapply wp_mono; [apply (load_all_ok _ ms (fun d => d_dormant d = false))|].
  { intros a l. rewrite Hms. intros Hin%elem_of_map_to_list. by apply (r_mapped _ _ R) in Hin. }
  intros md p1 (-> & Emd & Hmd). apply wp_bind, wp_gets, wp_bind, wp_range; [exact range_perm|].
  intros ds Hds. apply wp_bind.
  eapply wp_mono; [apply (load_all_ok _ ds (fun d => d_dormant d = true))|].
  { intros a l. rewrite Hds. intros Hin%elem_of_map_to_list. by apply (r_dormant _ _ R) in Hin. }
  intros dd p2 (-> & Edd & Hdd). apply wp_ret. split; [|done].
  assert (Hm : forall d, d ∈ md <-> (exists off, H !! off = Some d) /\ d_dormant d = false).
  { intros d. rewrite Hmd. setoid_rewrite Hms. setoid_rewrite elem_of_map_to_list. split.
    - intros (a & l & Ha & Hl). apply (r_mapped _ _ R) in Ha as (e & He & _ & Hed).
      assert (e = d) by (destruct Hl as [Hl _], He as [He _]; cbn in Hl; congruence). subst e.
      split; [|done]. exists (d_off d). by apply (host_at_H _ _ R l).
    - intros [[off Hd] Hdd']. destruct (H_host_at _ _ R _ _ Hd) as (l & Hl & _).
      exists (d_v6 d), l. split; [|done]. by apply (mapped_loc _ _ R l d). }
  assert (Hd : forall d, d ∈ dd <-> (exists off, H !! off = Some d) /\ d_dormant d = true).
  { intros d. rewrite Hdd. setoid_rewrite Hds. setoid_rewrite elem_of_map_to_list. split.
    - intros (a & l & Ha & Hl). apply (r_dormant _ _ R) in Ha as (e & He & _ & Hed).
      assert (e = d) by (destruct Hl as [Hl _], He as [He _]; cbn in Hl; congruence). subst e.
      split; [|done]. exists (d_off d). by apply (host_at_H _ _ R l).
    - intros [[off Hd'] Hdd']. destruct (H_host_at _ _ R _ _ Hd') as (l & Hl & _).
      exists (d_v6 d), l. split; [|done]. by apply (dormant_loc _ _ R l d). }
  apply NoDup_Permutation; [|apply NoDup_hosts|].
  - apply NoDup_app. split_and!.
    + apply (NoDup_fmap_1 d_v6). rewrite Emd, Hms. apply NoDup_fst_map_to_list.
    + intros d [_ H1]%Hm [_ H2]%Hd. congruence.
    + apply (NoDup_fmap_1 d_v6). rewrite Edd, Hds. apply NoDup_fst_map_to_list.
  - intros d. rewrite elem_of_app, elem_of_hosts, Hm, Hd. destruct (d_dormant d); tauto.
Qed.

(** Sorting by offset, or by IPv4 address, leaves no choice. *)
Lemma records_perm ds : ds ≡ₚ hosts_of H -> merge_sort off_le ds = records H.
Proof.
  intros Hp. unfold records. apply (StronglySorted_unique_strong off_le).
  - intros x y Hx Hy Hxy Hyx. rewrite merge_sort_Permutation, Hp in Hx.
    rewrite merge_sort_Permutation in Hy. apply elem_of_hosts in Hx as [ox Hx], Hy as [oy Hy].
    destruct (r_host _ _ R _ _ Hx) as [Ex _], (r_host _ _ R _ _ Hy) as [Ey _].
    unfold off_le in *. assert (ox = oy) by lia. congruence.
  - apply (StronglySorted_merge_sort off_le).
  - apply (StronglySorted_merge_sort off_le).
  - by rewrite !merge_sort_Permutation.
Qed.

Lemma host_v4 off d : H !! off = Some d -> d_v4 d = Addr4 (p_base p + off).
Proof.
  intros Hd. destruct (r_host _ _ R _ _ Hd) as [<- [? ->]]. destruct (r_geom _ _ R) as [n G].
  apply (addr_eq _ _ G). lia.
Qed.

End hosts.
End listing.

(** ** Writing *)

Lemma mod_mod_pow v n : 0 <= n <= 32 -> (v mod 256 ^ Z.of_nat 4) mod 2 ^ n = v mod 2 ^ n.
Proof.
  intros Hn. change (256 ^ Z.of_nat 4) with (2 ^ 32).
  assert (E : 2 ^ 32 = 2 ^ n * 2 ^ (32 - n)) by (rewrite <- Z.pow_add_r by lia; f_equal; lia).
  assert (0 < 2 ^ n) by (apply Z.pow_pos_nonneg; lia).
  assert (0 < 2 ^ (32 - n)) by (apply Z.pow_pos_nonneg; lia).
  rewrite E, Z.rem_mul_r by lia. rewrite (Z.mul_comm (2 ^ n) (_ mod _)), Z.mod_add, Z.mod_mod by lia. done.
Qed.

Section saving.
Context (clock : nat -> Z).
Context (range : nat -> gmap Addr nat -> list (Addr * nat)).
Context (range_perm : forall k m, range k m ≡ₚ map_to_list m).
Context `{AT : AddrText} (time_String : Z -> string).

(** The file that describes [H], written at time [t]. *)
Definition file_of (t : Z) (H : gmap Z dynHost) : list string :=
  header time_String t ++ (record_line <$> records H).

Lemma pool_write_ok p H :
  repr p H ->
  wp (write clock range time_String) (fun lines p' =>
    lines = file_of (clock (p_tick p)) H /\
    p' = with_ticks (S (p_tick p)) (S (S (p_iter p))) p) p.
Proof.
  intros R. unfold write. apply wp_bind, wp_now. set (p1 := with_ticks (S (p_tick p)) (p_iter p) p).
  assert (R1 : repr p1 H) by (apply (repr_same _ _ _ R); try done; by constructor).
  apply wp_bind. eapply wp_mono; [by apply (all_hosts_ok range range_perm p1 H R1)|].
  intros ds p' [Hds ->]. apply wp_ret. split; [|done].
  unfold file_of. by rewrite (records_perm p1 H R1 ds Hds).
Qed.

(** ** Reading *)

(** What a line adds to the hosts, if anything. *)
Definition load_line (p : Pool) (H : gmap Z dynHost) (line : string) : option dynHost :=
  match parse_line line with
  | Some (Addr4 v, v6, last) =>
      let off := Z.land v (p_max p) in
      if Contains (p_prefix p) (Addr4 v) && ValidIPv6 (As16 v6) && negb (off =? 0) &&
         bool_decide (H !! off = None) && negb (p_reserved p (Addr4 v)) &&
         bool_decide (map_Forall (fun _ d => d_v6 d <> v6) H)
      then Some (mkHost (Addr4 v) v6 off last true) else None
  | _ => None
  end.

(** The hosts after some lines, and the offsets they added, in order. *)
Fixpoint load_lines (p : Pool) (H : gmap Z dynHost) (lines : list string) : gmap Z dynHost * list Z :=
  match lines with
  | [] => (H, [])
  | line :: lines =>
      match load_line p H line with
      | Some d => let '(H', offs) := load_lines p (<[d_off d := d]> H) lines in (H', d_off d :: offs)
      | None => load_lines p H lines
      end
  end.

(** What becomes of a loaded host. *)
Definition settled (future : bool) (now minLease : Z) (d : dynHost) : dynHost :=
  if future then set_lastUse (i64 (now - minLease)) d
  else if now <=? i64 (d_lastUse d + minLease) then set_dormant false d else d.

Definition settle_in (offs : list Z) (future : bool) (now minLease : Z) (H : gmap Z dynHost) : gmap Z dynHost :=
  map_imap (fun off d => Some (if decide (off ∈ offs) then settled future now minLease d else d)) H.

(** The locations of the hosts at some offsets. *)
Definition loaded_at (p : Pool) (offs : list Z) (loaded : list nat) : Prop :=
  Forall2 (fun off l => p_by4 p !! off = Some l) offs loaded.

Lemma load_line_frame p p' H line : frame p p' -> load_line p' H line = load_line p H line.
Proof. intros [E1 _ E2 E3 _ _]. unfold load_line. by rewrite E1, E2, E3. Qed.

Lemma load_lines_frame p p' H lines : frame p p' -> load_lines p' H lines = load_lines p H lines.
Proof.
  intros F. revert H. induction lines as [|line lines IH]; intros H; [done|]. cbn.
  rewrite (load_line_frame p p') by done. destruct (load_line p H line); by rewrite IH.
Qed.

Lemma parse_line_v4 line v4 v6 last : parse_line line = Some (v4, v6, last) -> exists v, v4 = Addr4 v.
Proof.
  unfold parse_line. destruct (Fields line) as [|f0 [|f1 [|f2 [|]]]]; try done.
  destruct (HasPrefix f0 "#"); [done|].
  destruct (ParseAddr f0) as [a|]; [|done]. cbn [mbind option_bind].
  destruct (ParseAddr f1) as [b|]; [|done]. cbn [mbind option_bind].
  destruct (ParseInt f2) as [i|]; [|done]. cbn [mbind option_bind].
  case_if; [done|]. intros [= -> -> ->]. destruct v4; bool_prop; [|eauto|]; naive_solver.
Qed.

Lemma read_line_ok p H now line st :
  repr p H ->
  wp (read_line now line st) (fun st' p' =>
    frame p p' /\ p_events p' = p_events p /\ p_dirty p' = p_dirty p /\
    match load_line p H line with
    | Some d => repr p' (<[d_off d := d]> H) /\ d_dormant d = true /\ H !! d_off d = None /\
        exists l, p_by4 p' = <[d_off d := l]> (p_by4 p) /\
          st' = (st.1 ++ [l], st.2 || (now <? d_lastUse d))
    | None => p' = p /\ st' = st
    end) p.
Proof.
  intros R. unfold read_line, load_line. destruct (parse_line line) as [[[v4 v6] last]|] eqn:E;
    [|by apply wp_ret].
  destruct (parse_line_v4 _ _ _ _ E) as [v ->]. clear E.
  destruct (r_geom _ _ R) as [n G]. apply wp_bind, wp_gets. cbn [id].
  destruct (Contains (p_prefix p) (Addr4 v)) eqn:Ec; [|by apply wp_ret].
  destruct (ValidIPv6 (As16 v6)); [|by apply wp_ret]. cbn [negb andb orb].
  apply wp_bind, wp_lift, owp_ok.
  set (off := Z.land v (p_max p)).
  assert (Eoff : Z.land (be (be_bytes 4 v)) (p_max p) = off).
  { unfold off. rewrite be_be_bytes, !(land_max _ _ G). apply mod_mod_pow. destruct (g_n _ _ G). lia. }
  rewrite Eoff. pose proof (off_range _ _ G v) as Hr. fold off in Hr.
  apply (Contains_addr _ _ G) in Ec as Ev. fold off in Ev.
  apply wp_bind. destruct (off =? 0) eqn:E0; [by apply wp_ret, wp_ret|]. bool_prop.
  apply wp_isUsed; [apply R|done|]. destruct (bit (p_used p) off) eqn:Eb.
  { apply wp_ret. apply (r_bits _ _ R) in Eb as [?|[d Hd]]; [lia| |done].
    by rewrite (bool_decide_false (H !! off = None)) by (rewrite Hd; done). }
  assert (Hn : H !! off = None).
  { apply eq_None_not_Some. intros Hs.
    assert (bit (p_used p) off = true) by (apply (r_bits _ _ R); [done|by right]). congruence. }
  rewrite (bool_decide_true (H !! off = None)) by done.
  destruct (p_reserved p (Addr4 v)) eqn:Er; [by apply wp_ret|]. cbn [negb andb orb].
  assert (Hknown : forall l, (p_dormant p !! v6 = Some l \/ p_mapped p !! v6 = Some l) ->
            bool_decide (map_Forall (fun _ d => d_v6 d <> v6) H) = false).
  { intros l Hl. apply bool_decide_false. intros Hall.
    destruct Hl as [Hl|Hl]; [apply (r_dormant _ _ R) in Hl|apply (r_mapped _ _ R) in Hl];
      destruct Hl as (d & Hl & Hv & _); apply (host_at_H _ _ R) in Hl; by apply (Hall _ _ Hl). }
  destruct (p_dormant p !! v6) as [l|] eqn:Ed.
  { rewrite (bool_decide_true (is_Some (Some l))) by eauto. rewrite (Hknown l) by eauto. by apply wp_ret. }
  rewrite (bool_decide_false (is_Some None)) by (by intros []).
  destruct (p_mapped p !! v6) as [l|] eqn:Em.
  { rewrite (bool_decide_true (is_Some (Some l))) by eauto. rewrite (Hknown l) by eauto. by apply wp_ret. }
  rewrite (bool_decide_false (is_Some None)) by (by intros []).
  assert (Hu : unassigned H v6).
  { intros o d Hd Hv. pose proof (mapped_None _ _ R v6 Em _ _ Hd Hv).
    pose proof (dormant_None _ _ R v6 Ed _ _ Hd Hv). congruence. }
  rewrite bool_decide_true by (intros o d Hd; by apply (Hu o)).
  set (d := mkHost (Addr4 v) v6 off last true).
  apply wp_bind, wp_alloc, wp_bind, wp_setUsed; [apply R|done|]. intros us Hlen Hus.
  apply wp_bind, wp_modify, wp_bind, wp_modify, wp_ret.
  split_and!; [by constructor|done|done|..|done|done|by exists (p_next p)].
  apply (repr_create p H R _ d us); try done.
  - split; [cbn; lia|done].
  - intros b. cbn. destruct (decide (b = v6)) as [->|Hne].
    + by rewrite lookup_insert_eq, decide_True.
    + rewrite lookup_insert_ne, decide_False; naive_solver.
Qed.

Lemma loaded_at_insert p p' offs loaded off l :
  p_by4 p' = <[off := l]> (p_by4 p) -> off ∉ offs -> loaded_at p offs loaded -> loaded_at p' offs loaded.
Proof.
  intros Eb Hoff Hl. induction Hl as [|o k offs loaded Ho Hl IH]; constructor.
  - rewrite Eb, lookup_insert_ne; [done|]. intros <-. apply Hoff. left.
  - apply IH. intros Hin. apply Hoff. by right.
Qed.

(** The offsets added are new, distinct, and hold dormant hosts. *)
Lemma load_lines_spec p lines H H' offs :
  load_lines p H lines = (H', offs) ->
  NoDup offs /\ (forall o, o ∈ offs -> H !! o = None /\ exists d, H' !! o = Some d /\ d_dormant d = true) /\
  (forall o, o ∉ offs -> H' !! o = H !! o).
Proof.
  revert H offs. induction lines as [|line lines IH]; intros H offs; cbn.
  - intros [= <- <-]. split_and!; [constructor| |done]. by intros o ?%elem_of_nil.
  - destruct (load_line p H line) as [d|] eqn:E; [|apply IH].
    destruct (load_lines p _ lines) as [H2 offs2] eqn:E2. intros [= <- <-].
    assert (Hd : H !! d_off d = None /\ d_dormant d = true).
    { unfold load_line in E. destruct (parse_line line) as [[[[|v|] v6] last]|]; try done.
      case_if; [|done]. injection E as <-. bool_prop. split; [|done]. cbn.
      by destruct E0 as [[[_ E0%bool_decide_eq_true] _] _]. }
    destruct Hd as [Hn Hd], (IH _ _ E2) as (Hnd & Hin & Hout).
    assert (Hnot : d_off d ∉ offs2).
    { intros Ho. destruct (Hin _ Ho) as [Hx _]. by rewrite lookup_insert_eq in Hx. }
    split_and!; [by constructor| |].
    + intros o [->|Ho]%elem_of_cons.
      * split; [done|]. exists d. rewrite Hout by done. by rewrite lookup_insert_eq.
      * destruct (Hin o Ho) as [Hx ?]. split; [|done].
        rewrite lookup_insert_ne in Hx by (intros <-; done). done.
    + intros o [Hne Ho]%not_elem_of_cons. rewrite Hout by done. by rewrite lookup_insert_ne.
Qed.

(** Is one of these hosts from the future? *)
Definition any_future (now : Z) (offs : list Z) (H : gmap Z dynHost) : bool :=
  existsb (fun o => match H !! o with Some d => now <? d_lastUse d | None => false end) offs.

Lemma read_lines_ok p H now lines st H' offs :
  repr p H -> load_lines p H lines = (H', offs) ->
  wp (read_lines now lines st) (fun st' p' =>
    repr p' H' /\ frame p p' /\ p_events p' = p_events p /\ p_dirty p' = p_dirty p /\
    exists loaded, st' = (st.1 ++ loaded, st.2 || any_future now offs H') /\ loaded_at p' offs loaded /\
      forall o l, H !! o <> None -> p_by4 p !! o = Some l -> p_by4 p' !! o = Some l) p.
Proof.
  revert p H st offs. induction lines as [|line lines IH]; intros p H st offs R; cbn [read_lines load_lines].
  - intros [= <- <-]. apply wp_ret. split_and!; [done..|]. exists []. split_and!; [|constructor|done].
    cbn. rewrite app_nil_r, orb_false_r. by destruct st.
  - intros E. apply wp_bind. eapply wp_mono; [apply (read_line_ok p H now line st R)|].
    intros st1 p1 (F1 & Ee1 & Ed1 & HP). destruct (load_line p H line) as [d|] eqn:El.
    + destruct HP as (R1 & Hd & Hn & l & Eb & ->).
      rewrite <- (load_lines_frame p p1) in E by done.
      destruct (load_lines p1 (<[d_off d := d]> H) lines) as [H2 offs2] eqn:E2. injection E as <- <-.
      destruct (load_lines_spec _ _ _ _ _ E2) as (Hnd & Hin & Hout).
      assert (Hnot : d_off d ∉ offs2).
      { intros Ho. destruct (Hin _ Ho) as [Hx _]. by rewrite lookup_insert_eq in Hx. }
      eapply wp_mono; [apply (IH p1 _ _ offs2 R1 E2)|]. cbv beta zeta.
      intros st2 p2 (R2 & F2 & Ee2 & Ed2 & loaded & -> & Hl & Hkeep).
      split_and!; [done|by eapply frame_trans|congruence|congruence|].
      exists (l :: loaded). cbn [fst snd]. split_and!.
      * f_equal; [by rewrite <- app_assoc|]. unfold any_future. cbn.
        rewrite Hout, lookup_insert_eq by done. by rewrite orb_assoc.
      * constructor; [|done]. apply Hkeep; [by rewrite lookup_insert_eq|]. by rewrite Eb, lookup_insert_eq.
      * intros o k Ho Hk. assert (o <> d_off d) by congruence.
        apply Hkeep; [by rewrite lookup_insert_ne|]. by rewrite Eb, lookup_insert_ne.
    + destruct HP as [-> ->]. by apply (IH p H st offs R E).
Qed.

Lemma settle_in_cons off offs future now minLease H d :
  H !! off = Some d -> off ∉ offs ->
  settle_in offs future now minLease (<[off := settled future now minLease d]> H) =
  settle_in (off :: offs) future now minLease H.
Proof.
  intros Hd Hnot. apply map_eq. intros o. unfold settle_in. rewrite !map_lookup_imap.
  destruct (decide (o = off)) as [->|Hne].
  - rewrite lookup_insert_eq, Hd. cbn. rewrite decide_False by done. rewrite decide_True; [done|left].
  - rewrite lookup_insert_ne by done. destruct (H !! o) as [e|]; [|done]. cbn. do 2 f_equal.
    assert (Hi : o ∈ off :: offs <-> o ∈ offs) by (rewrite elem_of_cons; tauto).
    destruct (decide (o ∈ offs)), (decide (o ∈ off :: offs)); tauto.
Qed.

(** One host of the loop over [loaded]. *)
Lemma settle_one p H l d (future : bool) now minLease :
  repr p H -> host_at p l d -> d_dormant d = true ->
  wp (if future then store l (set_lastUse (i64 (now - minLease)))
      else if now <=? i64 (d_lastUse d + minLease) then activate l (d_lastUse d) else skip)
    (fun _ p' => repr p' (<[d_off d := settled future now minLease d]> H) /\ frame p p' /\
      p_by4 p' = p_by4 p /\ p_events p' = p_events p /\ p_dirty p' = p_dirty p) p.
Proof.
  intros R Hl Hd. pose proof Hl as [Hh _]. unfold settled. destruct future.
  - apply (wp_store _ _ d); [done|]. split; [by apply repr_touch|]. by split_and!.
  - case_if.
    + apply (wp_activate _ _ d); [done|].
      assert (Ea : set_dormant false d = activated (d_lastUse d) d) by by destruct d.
      rewrite Ea. split; [by apply repr_activate|]. by split_and!.
    + apply wp_skip. rewrite insert_id by by apply (host_at_H _ _ R l). done.
Qed.

Lemma settle_ok p H offs loaded future now minLease :
  repr p H -> loaded_at p offs loaded -> NoDup offs ->
  (forall o, o ∈ offs -> exists d, H !! o = Some d /\ d_dormant d = true) ->
  wp (settle loaded future now minLease) (fun _ p' =>
    repr p' (settle_in offs future now minLease H) /\ frame p p' /\
    p_events p' = p_events p /\ p_dirty p' = p_dirty p) p.
Proof.
  revert p H loaded. induction offs as [|off offs IH]; intros p H loaded R Hl Hnd Hin;
    inversion Hl as [|? l ? loaded' Hoff Hl']; subst; cbn [settle].
  { apply wp_skip. split; [|done]. replace (settle_in [] future now minLease H) with H; [done|].
    apply map_eq. intros o. unfold settle_in. rewrite map_lookup_imap.
    destruct (H !! o); [|done]. cbn. by rewrite decide_False by apply not_elem_of_nil. }
  apply NoDup_cons in Hnd as [Hnot Hnd].
  destruct (Hin off) as (d & Hd & Hdd); [left|].
  destruct (by4_host _ _ R _ _ Hoff) as (d' & Hd' & Hat).
  assert (d' = d) by congruence. subst d'. destruct (r_host _ _ R _ _ Hd) as [Eo _].
  apply wp_bind, (wp_load _ d); [by destruct Hat|]. apply wp_bind.
  eapply wp_mono; [by apply (settle_one p H l d)|].
  intros _ p1 (R1 & F1 & Eb1 & Ee1 & Ed1). rewrite Eo in R1.
  eapply wp_mono; [apply (IH p1 _ loaded' R1)|].
  - unfold loaded_at. by rewrite Eb1.
  - done.
  - intros o Ho. rewrite lookup_insert_ne by (intros <-; done). apply Hin. by right.
  - intros _ p2 (R2 & F2 & Ee2 & Ed2). rewrite (settle_in_cons _ _ _ _ _ _ _ Hd Hnot) in R2.
    split_and!; [done|by eapply frame_trans|congruence..].
Qed.

Lemma read_ok p H lines scan_ok H' offs :
  repr p H -> load_lines p H lines = (H', offs) ->
  wp (read clock lines scan_ok) (fun r p' =>
    let now := clock (p_tick p) in
    r = (len offs, scan_ok) /\
    repr p' (if scan_ok then settle_in offs (any_future now offs H') now (Z.quot (p_minLease p) Second) H'
             else H') /\
    frame p p' /\ p_events p' = p_events p /\ p_dirty p' = p_dirty p) p.
Proof.
  intros R E. unfold read. apply wp_bind, wp_now. set (p1 := with_ticks (S (p_tick p)) (p_iter p) p).
  assert (R1 : repr p1 H) by (apply (repr_same _ _ _ R); try done; by constructor).
  rewrite <- (load_lines_frame p p1) in E by by constructor.
  apply wp_bind, wp_gets, wp_bind.
  eapply wp_mono; [apply (read_lines_ok p1 H _ lines ([], false) H' offs R1 E)|].
  intros st p2 (R2 & F2 & Ee2 & Ed2 & loaded & -> & Hl & _). cbn [fst snd orb app].
  destruct (load_lines_spec _ _ _ _ _ E) as (Hnd & Hin & _).
  assert (Elen : len loaded = len offs) by (unfold len; by rewrite (Forall2_length _ _ _ Hl)).
  assert (F : frame p p2) by (apply (frame_trans p p1 p2); [by constructor|done]).
  destruct scan_ok; cbn [negb].
  - apply wp_bind. eapply wp_mono; [apply (settle_ok p2 H' offs loaded _ _ _ R2 Hl Hnd)|].
    { intros o Ho. by apply Hin. }
    intros _ p3 (R3 & F3 & Ee3 & Ed3). apply wp_ret. rewrite Elen.
    split_and!; [done|done|by apply (frame_trans p p2 p3)|by rewrite Ee3, Ee2|by rewrite Ed3, Ed2].
  - apply wp_ret. rewrite Elen. by split_and!.
Qed.

(** ** What is written is read back *)

Context {ATL : AddrTextLaws}.

Lemma fields_tab w s :
  no_space w = true -> w <> ""%string -> Fields (w +:+ tab +:+ s) = w :: Fields s.
Proof. intros Hw Hne. exact (fields_sep w (Ascii.ascii_of_nat 9) s Hw Hne eq_refl). Qed.

Lemma parse_record d :
  Is4 (d_v4 d) = true -> Is6 (d_v6 d) = true -> plain_addr (d_v4 d) -> plain_addr (d_v6 d) ->
  0 < d_lastUse d < 2 ^ 63 ->
  parse_line (record_line d) = Some (d_v4 d, d_v6 d, d_lastUse d).
Proof.
  intros H4 H6 V4 V6 Hl.
  destruct (addr_String_plain _ V4), (addr_String_plain _ V6), (FormatInt_plain (d_lastUse d)); [lia|].
  unfold parse_line, record_line. rewrite !fields_tab by done. rewrite fields_last by done.
  rewrite addr_String_head by done. rewrite !ParseAddr_String by done.
  rewrite ParseInt_FormatInt by lia. cbn [mbind option_bind]. rewrite H4, H6.
  by rewrite (proj2 (Z.leb_gt _ _)) by lia.
Qed.

(** The header is skipped. *)
Lemma parse_comment rest : parse_line ("### " +:+ rest) = None.
Proof.
  unfold parse_line. change ("### " +:+ rest) with ("###" +:+ String (Ascii.ascii_of_nat 32) rest).
  rewrite fields_sep by done. destruct (Fields rest) as [|? [|? [|]]]; done.
Qed.

Lemma load_skip p H hs lines :
  Forall (fun l => parse_line l = None) hs -> load_lines p H (hs ++ lines) = load_lines p H lines.
Proof.
  induction 1 as [|l hs Hl Hhs IH]; [done|]. cbn. unfold load_line. by rewrite Hl.
Qed.

Lemma load_header p H t lines : load_lines p H (header time_String t ++ lines) = load_lines p H lines.
Proof.
  apply load_skip. unfold header. repeat constructor.
  apply (parse_comment ("Last written: " +:+ time_String t)).
Qed.

(** A host that survives being saved and loaded. *)
Record savable (p : Pool) (d : dynHost) : Prop := {
  sv_host : host_ok p d;
  sv_is6 : Is6 (d_v6 d) = true;
  sv_plain : addr_ok (d_v6 d) /\ hasZone (d_v6 d) = false;
  sv_valid : ValidIPv6 (As16 (d_v6 d)) = true;
  sv_last : 0 < d_lastUse d < 2 ^ 63;
  sv_reserved : p_reserved p (d_v4 d) = false;
}.

Lemma load_record n p H d :
  geom p n -> savable p d -> H !! d_off d = None -> unassigned H (d_v6 d) ->
  load_line p H (record_line d) = Some (set_dormant true d).
Proof.
  intros G [[Hr Ha] H6 Hp Hv Hl Hres] Hn Hu. rewrite (addr_eq _ _ G) in Ha by lia.
  unfold load_line. rewrite parse_record; [|by rewrite Ha|done| | |done].
  2: { rewrite Ha. split_and!; [done| |done]. pose proof (base_block _ _ G) as Hb.
       rewrite (g_max _ _ G) in Hr. destruct G as [_ _ _ ? _]. cbn. lia. }
  2: { split; [|done]. by destruct (d_v6 d). }
  rewrite Ha in *. pose proof (addr_off _ _ G (d_off d)) as Eo. rewrite Eo by lia.
  assert (Hc : Contains (p_prefix p) (Addr4 (p_base p + d_off d)) = true).
  { apply (Contains_addr _ _ G). rewrite Eo, (addr_eq _ _ G) by lia. done. }
  rewrite Hc, Hv, Hres. rewrite (proj2 (Z.eqb_neq (d_off d) 0)) by lia.
  rewrite bool_decide_true by done. rewrite bool_decide_true by (intros o e He; by apply (Hu o)).
  cbn. destruct d; cbn in *; by subst.
Qed.

Lemma load_records n p H ds :
  geom p n -> Forall (savable p) ds -> NoDup (d_off <$> ds) -> NoDup (d_v6 <$> ds) ->
  (forall d, d ∈ ds -> H !! d_off d = None /\ unassigned H (d_v6 d)) ->
  exists H', load_lines p H (record_line <$> ds) = (H', d_off <$> ds) /\
    (forall d, d ∈ ds -> H' !! d_off d = Some (set_dormant true d)) /\
    (forall o, o ∉ d_off <$> ds -> H' !! o = H !! o).
Proof.
  intros G. revert H. induction ds as [|d ds IH]; intros H Hs Ho Hv Hn; cbn.
  { exists H. split_and!; [done| |done]. by intros d ?%elem_of_nil. }
  cbn in Ho, Hv. apply NoDup_cons in Ho as [Ho1 Ho], Hv as [Hv1 Hv].
  apply Forall_cons in Hs as [Hs1 Hs].
  destruct (Hn d) as [Hd1 Hd2]; [left|]. rewrite (load_record n) by done. cbn [d_off set_dormant].
  destruct (IH (<[d_off d := set_dormant true d]> H)) as (H' & E & Hin & Hout); [done..| |].
  { intros e He. destruct (Hn e) as [He1 He2]; [by right|]. split.
    - rewrite lookup_insert_ne; [done|]. intros E. apply Ho1. rewrite E. by apply list_elem_of_fmap_2.
    - intros o e'. rewrite lookup_insert_Some. intros [[<- <-]|[_ ?]]; [|by apply (He2 o)].
      cbn. intros E. apply Hv1. rewrite E. by apply list_elem_of_fmap_2. }
  exists H'. rewrite E. split_and!; [done| |].
  - intros e [->|He]%elem_of_cons; [|by apply Hin]. rewrite Hout by done. by rewrite lookup_insert_eq.
  - intros o [Hne Hot]%not_elem_of_cons. rewrite Hout by done. by rewrite lookup_insert_ne.
Qed.

(** The file of [H] is read back as [H], every host dormant. *)
Lemma load_file n p q H t :
  repr q H -> geom p n -> (forall off d, H !! off = Some d -> savable p d) ->
  exists offs, load_lines p ∅ (file_of t H) = (set_dormant true <$> H, offs) /\
    len offs = Z.of_nat (size H) /\ forall o, o ∈ offs <-> is_Some (H !! o).
Proof.
  intros R G Hs. unfold file_of. rewrite load_header.
  assert (Hp : records H ≡ₚ hosts_of H) by apply merge_sort_Permutation.
  assert (Hrec : forall d, d ∈ records H <-> exists off, H !! off = Some d).
  { intros d. rewrite Hp. apply elem_of_hosts. }
  assert (Eo : d_off <$> hosts_of H = (map_to_list H).*1).
  { unfold hosts_of. rewrite <- list_fmap_compose. apply list_fmap_ext. intros i [o d] Hi. cbn.
    apply list_elem_of_lookup_2, elem_of_map_to_list in Hi. by destruct (r_host _ _ R _ _ Hi) as [-> _]. }
  destruct (load_records n p ∅ (records H) G) as (H' & E & Hin & Hout).
  - apply Forall_forall. intros d [off Hd]%Hrec. eauto.
  - rewrite Hp, Eo. apply NoDup_fst_map_to_list.
  - apply NoDup_fmap_2_strong; [|rewrite Hp; by eapply NoDup_hosts].
    intros x y [ox Hx]%Hrec [oy Hy]%Hrec E. assert (ox = oy) by by eapply (r_uniq _ _ R). congruence.
  - intros d _. split; [done|]. intros o e He. by rewrite lookup_empty in He.
  - exists (d_off <$> records H). rewrite E. split_and!.
    + f_equal. apply map_eq. intros o. rewrite lookup_fmap. destruct (H !! o) as [d|] eqn:Hd; cbn.
      * destruct (r_host _ _ R _ _ Hd) as [<- _]. apply Hin, Hrec. eauto.
      * rewrite Hout; [done|]. intros (d & -> & [off Hd']%Hrec)%list_elem_of_fmap.
        destruct (r_host _ _ R _ _ Hd') as [<- _]. congruence.
    + unfold len. rewrite length_fmap, Hp. unfold hosts_of. by rewrite length_fmap, length_map_to_list.
    + intros o. rewrite Hp, Eo, list_elem_of_fmap. split.
      * intros ([o' d] & -> & Hd%elem_of_map_to_list). eauto.
      * intros [d Hd]. exists (o, d). split; [done|]. by apply elem_of_map_to_list.
Qed.
End saving.
