(* ===== verification/PoolRun.v ===== *)
(** * Pools from their creation on

    [NewPool] gives a pool without hosts; [run_ops] runs any sequence of the pool's
    operations and of what the table's [Build] does to it. *)

From stdpp Require Import base tactics list numbers option strings gmap sorting.
From Stdlib Require Import ZArith Lia.
From S2P Require Import Prelude Netip Netutil Text Events Pool PoolFacts PoolOps PoolSave.

Open Scope Z_scope.

(** ** Creation *)

(** The prefixes [NewPool] takes, and the error for the others. *)
Definition pool_error (prefix : Prefix) : option PoolErr :=
  if negb (Is4 (p_addr prefix)) then Some NotIPv4 else
  if negb (bool_decide (prefix = Masked prefix)) then Some HostBits else
  if (p_bits prefix <? 8) || (31 <? p_bits prefix) then Some PrefixLen else
  match p_addr prefix with
  | Addr4 v => if bool_decide (ClassifyIPv4 (be_bytes 4 v) = IPv4Invalid) then Some ReservedAddress else None
  | _ => None
  end.

Lemma bit_fresh k w off :
  0 <= off -> Z.testbit w (off mod 64) = (off mod 64 =? 0) ->
  bit (w :: replicate k 0) off = (off =? 0).
Proof.
  intros Hoff Hw. unfold bit. destruct (decide (off / 64 = 0)) as [E|E].
  - rewrite E. change (Z.to_nat 0) with 0%nat. cbn [lookup list_lookup]. rewrite Hw. apply eq_true_iff_eq. rewrite !Z.eqb_eq. dlia.
  - assert (Hz : exists i, Z.to_nat (off / 64) = S i).
    { exists (pred (Z.to_nat (off / 64))). assert (0 < off / 64) by dlia. lia. }
    destruct Hz as [i ->]. cbn.
    assert (Hoff0 : (off =? 0) = false) by (apply Z.eqb_neq; intros ->; done). rewrite Hoff0.
    destruct (replicate k 0 !! i) as [x|] eqn:Ex; [|done].
    apply lookup_replicate in Ex as [-> _]. apply Z.bits_0.
Qed.

Lemma NewPool_ok prefix mn mx :
  prefix_ok prefix ->
  owp (NewPool prefix mn mx) (fun r =>
    match r, pool_error prefix with
    | inl p, None => repr p ∅ /\ p_prefix p = prefix /\ p_dirty p = false /\ p_events p = [] /\
        p_reserved p = (fun _ => false) /\ p_tick p = 0%nat /\
        p_minLease p = (if mn <=? 0 then DefaultMinLease else mn) /\
        p_maxLease p = (if mx <=? 0 then DefaultMaxLease else mx)
    | inr e, Some e' => e = e'
    | _, _ => False
    end).
Proof.
  intros Hok. unfold NewPool, pool_error. destruct prefix as [a bits]. cbn [p_addr p_bits].
  destruct a as [|v|]; cbn [Is4 negb]; try done. case_if; [done|]. case_if; [done|].
  cbn [As4 mbind outcome_bind]. case_if; [done|].
  apply negb_false_iff, bool_decide_eq_true in E. bool_prop. destruct E0 as [Hb1 Hb2].
  unfold Masked, PIsValid in E. cbn [p_bits] in E. rewrite (proj2 (Z.leb_le 0 bits)) in E by lia.
  injection E as Ev. destruct Hok as (Hv & _ & _). cbn in Hv.
  set (n := 32 - bits) in *. assert (Hn : 1 <= n <= 24) by lia.
  assert (Hpow : 2 <= 2 ^ n <= 2 ^ 24).
  { split; [change 2 with (2 ^ 1) at 1|]; apply Z.pow_le_mono_r; lia. }
  assert (Emax : Z.shiftr 0xffffffff bits = 2 ^ n - 1).
  { change 0xffffffff with (Z.ones 32). rewrite Z.shiftr_div_pow2, Z.ones_div_pow2 by lia.
    by rewrite Z.ones_equiv. }
  rewrite Emax. replace (2 ^ n - 1 + 1 + 63) with (2 ^ n + 63) by lia.
  destruct (Z.to_nat ((2 ^ n + 63) / 64)) as [|k] eqn:Ek.
  { assert (0 < (2 ^ n + 63) / 64) by dlia. lia. }
  cbn [replicate owp]. split; [|by split_and!]. constructor; cbn.
  - exists n. constructor; cbn; [done| |done| |].
    + rewrite be_be_bytes, Z.mod_small by (change (256 ^ Z.of_nat 4) with (2 ^ 32); lia).
      f_equal. unfold n. lia.
    + rewrite be_be_bytes. change (256 ^ Z.of_nat 4) with (2 ^ 32). dlia.
    + rewrite be_be_bytes, (Z.mod_small v) by (change (256 ^ Z.of_nat 4) with (2 ^ 32); lia).
      rewrite Ev. unfold mask_hi. fold n. rewrite Z.shiftl_mul_pow2 by lia. apply Z.mod_mul. lia.
  - unfold used_ok, len. cbn [p_used p_max length]. rewrite length_replicate, <- Ek.
    replace (2 ^ n - 1 + 1 + 63) with (2 ^ n + 63) by lia. apply Z2Nat.id. dlia.
  - intros off d Hd. by rewrite lookup_empty in Hd.
  - intros o1 o2 d1 d2 Hd. by rewrite lookup_empty in Hd.
  - intros off Hoff. rewrite bit_fresh; [|lia|].
    + rewrite Z.eqb_eq, lookup_empty. split; [by left|]. by intros [|[? ?]].
    + change (Z.lor 0 1) with (2 ^ 0). rewrite Z.pow2_bits_eqb by lia. apply Z.eqb_sym.
  - intros off d. rewrite lookup_empty. split; [done|]. intros (l & Hl & _). by rewrite lookup_empty in Hl.
  - intros off l Hl. by rewrite lookup_empty in Hl.
  - intros a l. rewrite lookup_empty. split; [done|]. intros (d & [Hd _] & _). cbn in Hd. by rewrite lookup_empty in Hd.
  - intros a l. rewrite lookup_empty. split; [done|]. intros (d & [Hd _] & _). cbn in Hd. by rewrite lookup_empty in Hd.
  - intros l [d Hd]. by rewrite lookup_empty in Hd.
Qed.

(** ** Sequences of operations *)

Inductive pool_op :=
  | OpLookup4 (v : Z)
  | OpLookup6 (a : Addr) (allocate : bool)
  | OpMaintain
  | OpSetLeases (minLease maxLease : Z)
  | OpReserve (reserved : Addr -> bool)
  | OpAssignments
  | OpSave (io : save_io)
  | OpLoad (io : load_io).

Definition op_ok (op : pool_op) : Prop :=
  match op with OpLookup4 v => 0 <= v < 2 ^ 32 | _ => True end.

Section run.
Context (clock : nat -> Z).
Context (range : nat -> gmap Addr nat -> list (Addr * nat)).
Context `{AT : AddrText} (time_String : Z -> string).

Definition run_op (op : pool_op) : M Pool unit :=
  match op with
  | OpLookup4 v => lookup4 clock (Addr4 v);; skip
  | OpLookup6 a allocate => lookup6 clock range a allocate;; skip
  | OpMaintain => Maintain clock range
  | OpSetLeases mn mx => SetLeases mn mx
  | OpReserve r => modify (with_reserved r)
  | OpAssignments => Assignments range;; skip
  | OpSave io => Save clock range time_String io;; skip
  | OpLoad io => Load clock io;; skip
  end.

Fixpoint run_ops (ops : list pool_op) : M Pool unit :=
  match ops with
  | [] => skip
  | op :: ops => run_op op;; run_ops ops
  end.

Context (range_perm : forall k m, range k m ≡ₚ map_to_list m).

(** The leases, the observer and what is reserved do not matter to the
    representation. *)
Lemma repr_leases p H mn mx : repr p H -> repr (with_leases mn mx p) H.
Proof. intros [[n []] ?????????]. constructor; try done. exists n. by constructor. Qed.

Lemma repr_reserved p H r : repr p H -> repr (with_reserved r p) H.
Proof. intros [[n []] ?????????]. constructor; try done. exists n. by constructor. Qed.

Lemma repr_dirty p H b : repr p H -> repr (with_dirty b p) H.
Proof. intros R. apply (repr_same _ _ _ R); try done; by constructor. Qed.

Lemma Assignments_ok p H :
  repr p H ->
  wp (Assignments range) (fun r p' => r ≡ₚ assignment <$> hosts_of H /\ repr p' H) p.
Proof.
  intros R. unfold Assignments. apply wp_bind.
  eapply wp_mono; [by apply (all_hosts_ok range range_perm p H R)|].
  intros ds p' [Hds ->]. apply wp_ret. split; [by rewrite merge_sort_Permutation, Hds|].
  apply (repr_same _ _ _ R); try done; by constructor.
Qed.

(** Whatever the file system does, the hosts stay. *)
Lemma Save_ok p H io :
  repr p H ->
  wp (Save clock range time_String io) (fun r p' =>
    repr p' H /\ frame p p' /\ p_events p' = p_events p /\
    p_dirty p' = (if io_open io && io_write io then false else p_dirty p) /\
    r = (if io_open io && io_write io && io_close io && io_rename io
         then (Some (file_of time_String (clock (p_tick p)) H), true) else (None, false))) p.
Proof.
  intros R. unfold Save. destruct io as [o w c r]. cbn [io_open io_write io_close io_rename].
  destruct o; cbn [negb andb]; [|by apply wp_ret].
  apply wp_bind. eapply wp_mono; [by apply (pool_write_ok clock range range_perm time_String p H R)|].
  intros lines p' [-> ->]. set (p1 := with_ticks _ _ p).
  assert (R1 : repr p1 H) by (apply (repr_same _ _ _ R); try done; by constructor).
  apply wp_bind. destruct w; cbn [negb andb].
  - apply wp_modify. destruct c; [|apply wp_ret; split_and!; [by apply repr_dirty|by constructor|done..]].
    destruct r; apply wp_ret; split_and!; try done; try by apply repr_dirty.
  - apply wp_skip, wp_ret. by split_and!.
Qed.

Lemma run_op_ok p H op :
  repr p H -> op_ok op -> wp (run_op op) (fun _ p' => exists H', repr p' H') p.
Proof.
  intros R Hop. destruct op as [v|a allocate| |mn mx|r| |io|io]; cbn [run_op].
  - apply wp_bind. eapply wp_mono; [by apply lookup4_ok|]. cbv beta. intros r p' HP.
    destruct (lookup4_result H _ _) as [r' H']. destruct HP as [_ [? _ _ _ _]]. apply wp_skip. eauto.
  - apply wp_bind. eapply wp_mono; [by apply lookup6_ok|].
    intros r p' (ro & H' & evs & dt & _ & _ & [? _ _ _ _]). apply wp_skip. eauto.
  - eapply wp_mono; [by apply Maintain_ok|]. intros r p' (? & _). eauto.
  - unfold SetLeases. apply wp_modify. exists H. by apply repr_leases.
  - apply wp_modify. exists H. by apply repr_reserved.
  - apply wp_bind. eapply wp_mono; [by apply Assignments_ok|]. intros r p' [_ ?]. apply wp_skip. eauto.
  - apply wp_bind. eapply wp_mono; [by apply Save_ok|]. intros r p' [? _]. apply wp_skip. eauto.
  - apply wp_bind. unfold Load. destruct io as [| |lines ok]; [apply wp_ret, wp_skip; eauto..|].
    destruct (load_lines p H lines) as [H' offs] eqn:E.
    eapply wp_mono; [by apply (read_ok clock time_String p H lines ok H' offs)|].
    intros r p' (_ & ? & _). apply wp_skip. eauto.
Qed.
End run.
