(* ===== verification/PoolProps.v ===== *)
(** * What the dynamic pool guarantees

    The properties of the pool's operations; the witnesses run them on a pool of
    three addresses. *)

From stdpp Require Import base tactics list numbers option strings gmap sorting.
From Stdlib Require Import ZArith Lia Ascii String.
From S2P Require Import Prelude Netip Netutil Text Events Pool PoolFacts PoolOps PoolSave PoolRun.

Open Scope Z_scope.

(** ** A pool to try them on *)

Definition px_clock (k : nat) : Z := 100000 + Z.of_nat k.
Definition px_range (k : nat) (m : gmap Addr nat) : list (Addr * nat) := map_to_list m.
Definition px_prefix : Prefix := mkPrefix (Addr4 (be [10; 0; 0; 0])) 30.
Definition px_host (n : Z) : Addr := Addr6 (0x20010db8 * 2 ^ 96 + n) "".

(** A text form of addresses: the family and the number in decimal. *)
#[export] Instance px_text : AddrText := {
  addr_String a := match a with
    | Addr4 v => String "4" (string_of_list_ascii (digits 40 v))
    | Addr6 v _ => String "6" (string_of_list_ascii (digits 40 v))
    | AddrZero => ""%string
    end;
  ParseAddr s := match s with
    | String "4" s => Addr4 <$> digits_value 0 (list_ascii_of_string s)
    | String "6" s => (fun v => Addr6 v "") <$> digits_value 0 (list_ascii_of_string s)
    | _ => None
    end;
}.

Lemma px_digits v : 0 <= v < 2 ^ 128 ->
  digits_value 0 (digits 40 v) = Some v /\ no_space (string_of_list_ascii (digits 40 v)) = true.
Proof.
  intros Hv. destruct (digits_spec 40 v) as (H1 & H2 & _); [lia|done|]. split; [done|].
  unfold no_space. rewrite list_ascii_of_string_of_list_ascii.
  apply forallb_forall. intros c Hc%list_elem_of_In. rewrite Forall_forall in H2.
  destruct (H2 c Hc) as (d & Hd & ->). by rewrite digit_plain.
Qed.

#[export] Instance px_text_laws : AddrTextLaws.
Proof.
  assert (H : forall a, plain_addr a -> match a with
            | AddrZero => False | Addr4 v => 0 <= v < 2 ^ 128 | Addr6 v z => 0 <= v < 2 ^ 128 /\ z = ""%string end).
  { intros [|v|v z] (H1 & H2 & H3); cbn in *; [done|lia|]. split; [lia|].
    by apply negb_false_iff, bool_decide_eq_true in H3. }
  split; intros [|v|v z] Ha%H; try done; cbn [addr_String px_text ParseAddr].
  - rewrite list_ascii_of_string_of_list_ascii. by destruct (px_digits v Ha) as [-> _].
  - destruct Ha as [Ha ->]. rewrite list_ascii_of_string_of_list_ascii.
    by destruct (px_digits v Ha) as [-> _].
  - split; [|done]. rewrite no_space_cons. by destruct (px_digits v Ha) as [_ ->].
  - split; [|done]. destruct Ha as [Ha ->]. rewrite no_space_cons. by destruct (px_digits v Ha) as [_ ->].
Qed.

Definition px_time (t : Z) : string := FormatInt t.

Lemma px_range_perm k m : px_range k m ≡ₚ map_to_list m.
Proof. done. Qed.

Definition px_pool : Pool :=
  mkPool px_prefix (be [10; 0; 0; 0]) 3 DefaultMinLease DefaultMaxLease [] (fun _ => false) [1]
    ∅ ∅ ∅ false ∅ 0 0 0.

Lemma px_new : NewPool px_prefix 0 0 = Ok (inl px_pool).
Proof. reflexivity. Qed.

Lemma px_prefix_ok : prefix_ok px_prefix.
Proof. repeat split; try done. right. cbn. lia. Qed.

Lemma px_repr : repr px_pool ∅.
Proof.
  pose proof (NewPool_ok px_prefix 0 0 px_prefix_ok) as H. rewrite px_new in H.
  assert (E : pool_error px_prefix = None) by (vm_compute; reflexivity). rewrite E in H. exact (proj1 H).
Qed.

(** The same pool after three lookups. *)
Definition px_after (p : Pool) (m : M Pool (option Addr)) : Pool :=
  match m p with Ok (_, p') => p' | _ => p end.
Definition px_lookup (n : Z) (p : Pool) : Pool := px_after p (lookup6 px_clock px_range (px_host n) true).
Definition px_full : Pool := px_lookup 3 (px_lookup 2 (px_lookup 1 px_pool)).

Lemma px_lookup_repr n p : repr p (view p) -> repr (px_lookup n p) (view (px_lookup n p)).
Proof.
  intros R. pose proof (lookup6_ok px_clock px_range px_range_perm p _ (px_host n) true R) as H.
  unfold px_lookup, px_after. unfold wp in H.
  destruct (lookup6 _ _ _ _ p) as [[r p']| |]; [|done..].
  destruct H as (ro & H' & evs & dt & _ & _ & [R' _ _ _]). by rewrite <- (repr_view _ _ R').
Qed.

Lemma px_full_repr : repr px_full (view px_full).
Proof. do 3 apply px_lookup_repr. pose proof px_repr as R. by rewrite <- (repr_view _ _ R). Qed.

(** ** Properties *)

Section properties.
Context (clock : nat -> Z).
Context (range : nat -> gmap Addr nat -> list (Addr * nat)).
Context `{AT : AddrText} (time_String : Z -> string).
Context (range_perm : forall k m, range k m ≡ₚ map_to_list m).

(** C8: a pool that [NewPool] made survives any sequence of lookups, maintenance
    passes, saves, loads and reconfigurations, whatever the clock, the order of map
    iteration and the file system do: no operation panics (no index of the bitmap is
    out of range, no nil host is read), every loop ends, the hash loop included, and
    in the end the bitmap, [by4], [mapped] and [dormant] still describe the same
    hosts, no two of them with the same address. *)
Theorem pool_ops_invariant prefix minLease maxLease p0 ops :
  prefix_ok prefix -> NewPool prefix minLease maxLease = Ok (inl p0) -> Forall op_ok ops ->
  wp (run_ops clock range time_String ops) (fun _ p => repr p (view p)) p0.
Proof.
  intros Hp Hnew Hops.
  assert (R : exists H, repr p0 H).
  { pose proof (NewPool_ok prefix minLease maxLease Hp) as HN. rewrite Hnew in HN. cbn in HN.
    destruct (pool_error prefix); [done|]. exists ∅. apply HN. }
  clear Hnew. revert p0 R. induction Hops as [|op ops Hop Hops IH]; intros p0 [H R]; cbn [run_ops].
  - apply wp_skip. by rewrite <- (repr_view _ _ R).
  - apply wp_bind. eapply wp_mono; [by apply (run_op_ok clock range time_String range_perm p0 H op)|].
    intros u p' HR. by apply IH.
Qed.

(** C11: a lookup of an IPv6 address does what the specification says and nothing
    else: a host that has an address keeps it, with its lease renewed or its
    dormant assignment reactivated; a new host gets a free address, or the address of
    the dormant host used least recently when none is free; each change is reported
    and marks the saved state as out of date. *)
Theorem lookup6_refines p H a allocate :
  repr p H ->
  wp (lookup6 clock range a allocate) (fun r p' =>
    exists ro H' evs dt, lookup6_step p H a (clock (p_tick p)) allocate ro H' evs dt /\
      r = addr p <$> ro /\ effect p p' H' evs dt) p.
Proof. by apply lookup6_ok. Qed.

(** The host a lookup gave an address to. *)
Lemma lookup6_owner p H a now allocate off H' evs dt :
  repr p H -> lookup6_step p H a now allocate (Some off) H' evs dt ->
  exists d, H' !! off = Some d /\ d_v6 d = a /\ d_dormant d = false /\ 0 < off <= p_max p.
Proof.
  intros R Hs. inversion Hs; subst; eexists; rewrite lookup_insert_eq; (split; [done|]);
    first [match goal with E : H !! off = Some ?e |- _ => destruct (r_host _ _ R _ _ E) as [<- [? _]] end
          |match goal with F : free p H off |- _ => destruct F as [? _] end]; done.
Qed.

Lemma lookup4_owner p H off d :
  repr p H -> H !! off = Some d -> d_dormant d = false ->
  exists v, addr p off = Addr4 v /\ wp (lookup4 clock (Addr4 v)) (fun r _ => r = Some (d_v6 d)) p.
Proof.
  intros R Hd Hdd. destruct (r_geom _ _ R) as [n G], (r_host _ _ R _ _ Hd) as [<- [Hr _]].
  exists (p_base p + d_off d). split; [apply (addr_eq _ _ G); lia|].
  pose proof (base_block _ _ G) as Hb. rewrite (g_max _ _ G) in Hr.
  eapply wp_mono; [apply (lookup4_ok clock p H _ R)|].
  - destruct G as [_ _ _ ? _]. lia.
  - intros r p'. unfold lookup4_result. rewrite (addr_off _ _ G) by (rewrite (g_max _ _ G); lia).
    rewrite Hd, Hdd. by intros [-> _].
Qed.

(** The address a host was given leads back to it, and the host keeps it. *)
Theorem lookup6_lookup4_roundtrip p H a :
  repr p H ->
  wp (lookup6 clock range a true) (fun r p' => forall v4, r = Some v4 ->
    wp (lookup4 clock v4) (fun r' _ => r' = Some a) p' /\
    forall allocate, wp (lookup6 clock range a allocate) (fun r' _ => r' = Some v4) p') p.
Proof.
  intros R. eapply wp_mono; [by apply (lookup6_ok clock range range_perm)|].
  intros r p' (ro & H' & evs & dt & Hs & -> & [R' F _ _]) v4 Hv4.
  destruct ro as [off|]; [|done]. injection Hv4 as <-.
  destruct (lookup6_owner _ _ _ _ _ _ _ _ _ R Hs) as (d & Hd & <- & Hdd & Hoff).
  rewrite <- (frame_addr _ _ off F). split.
  - by destruct (lookup4_owner _ _ _ _ R' Hd Hdd) as (v & -> & HP).
  - intros allocate. destruct (H_host_at _ _ R' _ _ Hd) as (l & Hl & _).
    unfold lookup6. apply wp_bind, wp_gets.
    rewrite (proj2 (mapped_loc _ _ R' l d _ Hl)) by done.
    destruct (r_host _ _ R' _ _ Hd) as [<- [_ <-]]. destruct Hl as [Hh _].
    apply wp_bind, wp_now, wp_bind, (wp_store _ _ d); [done|].
    apply wp_bind, (wp_load _ (set_lastUse (clock (p_tick p')) d)); [apply lookup_insert_eq|].
    by apply wp_ret.
Qed.

(** A second host never gets the address of the first while the first is
    mapped, even when the pool is full. *)
Theorem lookup6_distinct p H a b :
  repr p H -> a <> b ->
  wp (lookup6 clock range a true) (fun r p' => r <> None ->
    wp (lookup6 clock range b true) (fun r' _ => r' <> r) p') p.
Proof.
  intros R Hab. eapply wp_mono; [by apply (lookup6_ok clock range range_perm)|].
  intros r p' (ro & H' & evs & dt & Hs & -> & [R' F _ _]) Hne.
  destruct ro as [off|]; [|done].
  destruct (lookup6_owner _ _ _ _ _ _ _ _ _ R Hs) as (d & Hd & <- & Hdd & Hoff).
  eapply wp_mono; [by apply (lookup6_ok clock range range_perm)|].
  intros r p2 (ro & H2 & evs2 & dt2 & Hs2 & -> & [R2 F2 _ _]) E.
  destruct ro as [off2|]; [|done]. apply (inj Some) in E. rewrite (frame_addr _ _ off2 F) in E.
  destruct (lookup6_owner _ _ _ _ _ _ _ _ _ R' Hs2) as (d2 & Hd2 & Hb & Hdd2 & Hoff2).
  destruct (r_geom _ _ R) as [n G]. rewrite (f_max _ _ F) in Hoff2.
  apply (addr_inj _ _ G) in E; [|lia..]. subst off2.
  inversion Hs2; subst; [congruence..| |congruence].
  match goal with Fr : free p' H' off |- _ => destruct Fr as (_ & ? & _) end. congruence.
Qed.

(** C40: an address that is handed out lies in the pool's prefix and is not its
    network address; one that was free before is not reserved. *)
Theorem lookup6_in_prefix p H a allocate :
  repr p H ->
  wp (lookup6 clock range a allocate) (fun r _ => forall v4, r = Some v4 ->
    Contains (p_prefix p) v4 = true /\ v4 <> p_addr (p_prefix p) /\
    (forall off, 0 <= off <= p_max p -> H !! off = None -> v4 = addr p off -> p_reserved p v4 = false)) p.
Proof.
  intros R. eapply wp_mono; [by apply (lookup6_ok clock range range_perm)|].
  intros r p' (ro & H' & evs & dt & Hs & -> & _) v4 Hv4.
  destruct ro as [off|]; [|done]. injection Hv4 as <-.
  destruct (lookup6_owner _ _ _ _ _ _ _ _ _ R Hs) as (d & _ & _ & _ & Hoff).
  destruct (r_geom _ _ R) as [n G]. split_and!.
  - rewrite (addr_eq _ _ G) by lia. apply (Contains_addr _ _ G). rewrite (addr_off _ _ G) by lia.
    by rewrite (addr_eq _ _ G) by lia.
  - rewrite (addr_eq _ _ G), (g_prefix _ _ G) by lia. cbn. intros [= ?]. lia.
  - intros o Ho Hn E. apply (addr_inj _ _ G) in E; [|lia..]. subst o.
    inversion Hs; subst; try congruence.
    match goal with Fr : free p H off |- _ => by destruct Fr as (_ & _ & ?) end.
Qed.

(** An allocation fails only when every address of the pool is reserved or
    held by another host that is mapped; the hosts are then left as they were and the
    exhaustion is reported. *)
Theorem lookup6_fails_only_when_full p H a :
  repr p H ->
  wp (lookup6 clock range a true) (fun r p' => r = None ->
    repr p' H /\
    p_events p' = p_events p ++ [mkEvent KindDynamic ReasonDynamicExhausted 0 0 0 AddrZero a] /\
    forall off, 0 < off <= p_max p ->
      p_reserved p (addr p off) = true \/
      exists d, H !! off = Some d /\ d_dormant d = false /\ d_v6 d <> a) p.
Proof.
  intros R. eapply wp_mono; [by apply (lookup6_ok clock range range_perm)|].
  intros r p' (ro & H' & evs & dt & Hs & -> & [R' _ Ee _]) Hr.
  inversion Hs; subst; try done. split_and!; [done|done|]. intros off Hoff.
  destruct (p_reserved p (addr p off)) eqn:Er; [by left|]. right.
  destruct (H' !! off) as [d|] eqn:Hd.
  { exists d. split; [done|]. split; [eauto|].
    match goal with Hu : unassigned H' a |- _ => by apply (Hu off) end. }
  match goal with Hf : forall o, ~ free p H' o |- _ => destruct (Hf off) end.
  split; [done|]. by split.
Qed.

(** C27: a maintenance pass ages all hosts by the same clock reading: a mapped host
    idle for longer than the minimum lease becomes dormant, a dormant one idle for
    longer than the maximum lease is released, nothing else changes, and the saved
    state is out of date when a host was released. *)
Theorem Maintain_ages p H :
  repr p H ->
  wp (Maintain clock range) (fun _ p' =>
    let now := clock (p_tick p) in
    let mid := expired now (Z.quot (p_minLease p) Second) <$> H in
    let H' := omap (aged now (Z.quot (p_minLease p) Second) (Z.quot (p_maxLease p) Second)) H in
    repr p' H' /\ frame p p' /\ p_dirty p' = p_dirty p || bool_decide (H' <> mid) /\
    exists evs, p_events p' = p_events p ++ evs) p.
Proof. by apply Maintain_ok. Qed.

(** C29: what [Save] leaves for every outcome of its calls to the file system: the
    hosts stay; the file is replaced only when all of them succeed, and it then holds
    every host once, ordered by offset, whatever the order of map iteration; but the
    pool counts as saved as soon as the temporary file was written, also when closing
    or renaming it fails. *)
Theorem Save_outcomes p H io :
  repr p H ->
  wp (Save clock range time_String io) (fun r p' =>
    repr p' H /\ frame p p' /\ p_events p' = p_events p /\
    p_dirty p' = (if io_open io && io_write io then false else p_dirty p) /\
    r = (if io_open io && io_write io && io_close io && io_rename io
         then (Some (file_of time_String (clock (p_tick p)) H), true) else (None, false))) p.
Proof. by apply Save_ok. Qed.

(** The state a host is loaded in. *)
Definition revived (now minLease : Z) (d : dynHost) : dynHost :=
  set_dormant (negb (now <=? i64 (d_lastUse d + minLease))) d.

Lemma same_prefix_host_ok p q n m d :
  geom p n -> geom q m -> p_prefix q = p_prefix p -> host_ok p d -> host_ok q d.
Proof.
  intros Gp Gq E [Hr Ha]. rewrite (g_prefix _ _ Gp), (g_prefix _ _ Gq) in E. injection E as Eb En.
  assert (Em : p_max q = p_max p) by (rewrite (g_max _ _ Gp), (g_max _ _ Gq); do 2 f_equal; lia).
  split; [by rewrite Em|]. rewrite Ha. unfold addr. by rewrite Eb.
Qed.

Lemma settle_all now minLease H offs :
  (forall o, o ∈ offs <-> is_Some (H !! o)) ->
  settle_in offs false now minLease (set_dormant true <$> H) = revived now minLease <$> H.
Proof.
  intros Ho. apply map_eq. intros o. unfold settle_in. rewrite map_lookup_imap, !lookup_fmap.
  destruct (H !! o) as [d|] eqn:Hd; [|done]. cbn. rewrite decide_True by (apply Ho; eauto).
  unfold settled, revived. cbn. case_if; by destruct d.
Qed.

Lemma no_future now offs H :
  (forall o d, H !! o = Some d -> d_lastUse d <= now) ->
  any_future now offs (set_dormant true <$> H) = false.
Proof.
  intros Hl. unfold any_future. induction offs as [|o offs IH]; [done|]. cbn. rewrite IH, orb_false_r.
  rewrite lookup_fmap. destruct (H !! o) as [d|] eqn:Hd; [|done]. cbn.
  apply Z.ltb_ge. by apply (Hl o).
Qed.

(** Loading what a pool wrote. *)
Lemma load_saved {ATL : AddrTextLaws} (clock' : nat -> Z) p q H t :
  repr p H -> repr q ∅ -> p_prefix q = p_prefix p ->
  (forall off d, H !! off = Some d ->
     Is6 (d_v6 d) = true /\ addr_ok (d_v6 d) /\ hasZone (d_v6 d) = false /\
     ValidIPv6 (As16 (d_v6 d)) = true /\
     0 < d_lastUse d <= clock' (p_tick q) /\ p_reserved q (d_v4 d) = false) ->
  clock' (p_tick q) < 2 ^ 63 ->
  wp (Load clock' (Opened (file_of time_String t H) true)) (fun r q' =>
    r = (Z.of_nat (size H), true) /\
    repr q' (revived (clock' (p_tick q)) (Z.quot (p_minLease q) Second) <$> H) /\ frame q q') q.
Proof.
  intros Rp Rq Ep Hs Hnow. destruct (r_geom _ _ Rp) as [n Gp], (r_geom _ _ Rq) as [m Gq].
  destruct (load_file time_String m q p H t Rp Gq) as (offs & E & Elen & Ho).
  { intros off d Hd. destruct (Hs off d Hd) as (? & ? & ? & ? & ? & ?).
    destruct (r_host _ _ Rp _ _ Hd) as [_ Hok].
    constructor; try done; [by apply (same_prefix_host_ok p q n m)|lia]. }
  eapply wp_mono; [by apply (read_ok clock' time_String q ∅ _ true (set_dormant true <$> H) offs)|].
  cbv zeta. intros r q' (-> & R & F & _). split; [by rewrite Elen|]. split; [|done].
  assert (Hl : forall o d, H !! o = Some d -> d_lastUse d <= clock' (p_tick q)).
  { intros o d Hd. apply (Hs o d Hd). }
  rewrite (no_future _ _ _ Hl), (settle_all _ _ _ _ Ho) in R. done.
Qed.

(** The file a pool writes, loaded into a new pool over the same prefix, gives
    every host back, with its addresses and the time of its last use: those used
    within the minimum lease as mapped hosts, the others as dormant ones. *)
Theorem save_load_roundtrip {ATL : AddrTextLaws} (clock' : nat -> Z) p q H :
  repr p H -> repr q ∅ -> p_prefix q = p_prefix p ->
  (forall off d, H !! off = Some d ->
     Is6 (d_v6 d) = true /\ addr_ok (d_v6 d) /\ hasZone (d_v6 d) = false /\
     ValidIPv6 (As16 (d_v6 d)) = true /\
     0 < d_lastUse d <= clock' (p_tick q) /\ p_reserved q (d_v4 d) = false) ->
  clock' (p_tick q) < 2 ^ 63 ->
  wp (write clock range time_String) (fun lines _ =>
    wp (Load clock' (Opened lines true)) (fun r q' =>
      r = (Z.of_nat (size H), true) /\
      repr q' (revived (clock' (p_tick q)) (Z.quot (p_minLease q) Second) <$> H)) q) p.
Proof.
  intros Rp Rq Ep Hs Hnow. eapply wp_mono; [by apply (pool_write_ok clock range range_perm time_String p H)|].
  intros lines p' [-> _]. eapply wp_mono; [by apply (load_saved clock' p q H)|]. by intros r q' (-> & R & _).
Qed.
End properties.

(** ** Witnesses *)

Definition px_ops : list pool_op :=
  [OpLookup6 (px_host 1) true; OpLookup6 (px_host 2) true; OpLookup4 (be [10; 0; 0; 1]);
   OpMaintain; OpSave (mkSaveIO true true true true); OpAssignments; OpSetLeases 0 0;
   OpLoad (Opened ["410"; "comment"]%string true); OpLookup6 (px_host 1) false].

Lemma pool_ops_invariant_witness :
  NewPool px_prefix 0 0 = Ok (inl px_pool) /\
  wp (run_ops px_clock px_range px_time px_ops) (fun _ p => repr p (view p)) px_pool.
Proof.
  split; [exact px_new|].
  apply (pool_ops_invariant px_clock px_range px_time px_range_perm px_prefix 0 0 px_pool px_ops px_prefix_ok px_new).
  unfold px_ops. repeat constructor; cbn; vm_compute; congruence.
Defined.

Lemma lookup6_refines_witness :
  repr px_full (view px_full) /\
  wp (lookup6 px_clock px_range (px_host 4) true) (fun r p' =>
    exists ro H' evs dt, lookup6_step px_full (view px_full) (px_host 4) (px_clock (p_tick px_full)) true ro H' evs dt /\
      r = addr px_full <$> ro /\ effect px_full p' H' evs dt) px_full.
Proof. split; [exact px_full_repr|]. apply (lookup6_refines px_clock px_range px_range_perm _ _ _ _ px_full_repr). Defined.

Lemma lookup6_lookup4_roundtrip_witness :
  repr px_pool ∅ /\
  wp (lookup6 px_clock px_range (px_host 1) true) (fun r p' => forall v4, r = Some v4 ->
    wp (lookup4 px_clock v4) (fun r' _ => r' = Some (px_host 1)) p' /\
    forall allocate, wp (lookup6 px_clock px_range (px_host 1) allocate) (fun r' _ => r' = Some v4) p') px_pool.
Proof. split; [exact px_repr|]. apply (lookup6_lookup4_roundtrip px_clock px_range px_range_perm _ _ _ px_repr). Defined.

Lemma lookup6_distinct_witness :
  repr px_pool ∅ /\ px_host 1 <> px_host 2 /\
  wp (lookup6 px_clock px_range (px_host 1) true) (fun r p' => r <> None ->
    wp (lookup6 px_clock px_range (px_host 2) true) (fun r' _ => r' <> r) p') px_pool.
Proof.
  split; [exact px_repr|]. split; [done|].
  apply (lookup6_distinct px_clock px_range px_range_perm _ _ _ _ px_repr). done.
Defined.

Lemma lookup6_in_prefix_witness :
  repr px_pool ∅ /\
  wp (lookup6 px_clock px_range (px_host 1) true) (fun r _ => forall v4, r = Some v4 ->
    Contains (p_prefix px_pool) v4 = true /\ v4 <> p_addr (p_prefix px_pool) /\
    (forall off, 0 <= off <= p_max px_pool -> (∅ : gmap Z dynHost) !! off = None -> v4 = addr px_pool off ->
       p_reserved px_pool v4 = false)) px_pool.
Proof. split; [exact px_repr|]. apply (lookup6_in_prefix px_clock px_range px_range_perm _ _ _ _ px_repr). Defined.

Lemma lookup6_fails_only_when_full_witness :
  repr px_full (view px_full) /\
  wp (lookup6 px_clock px_range (px_host 4) true) (fun r p' => r = None ->
    repr p' (view px_full) /\
    p_events p' = p_events px_full ++ [mkEvent KindDynamic ReasonDynamicExhausted 0 0 0 AddrZero (px_host 4)] /\
    forall off, 0 < off <= p_max px_full ->
      p_reserved px_full (addr px_full off) = true \/
      exists d, view px_full !! off = Some d /\ d_dormant d = false /\ d_v6 d <> px_host 4) px_full.
Proof.
  split; [exact px_full_repr|].
  apply (lookup6_fails_only_when_full px_clock px_range px_range_perm _ _ _ px_full_repr).
Defined.

Lemma Maintain_ages_witness :
  repr px_full (view px_full) /\
  wp (Maintain px_clock px_range) (fun _ p' =>
    let now := px_clock (p_tick px_full) in
    let mid := expired now (Z.quot (p_minLease px_full) Second) <$> view px_full in
    let H' := omap (aged now (Z.quot (p_minLease px_full) Second) (Z.quot (p_maxLease px_full) Second)) (view px_full) in
    repr p' H' /\ frame px_full p' /\ p_dirty p' = p_dirty px_full || bool_decide (H' <> mid) /\
    exists evs, p_events p' = p_events px_full ++ evs) px_full.
Proof. split; [exact px_full_repr|]. apply (Maintain_ages px_clock px_range px_range_perm _ _ px_full_repr). Defined.

Lemma Save_outcomes_witness :
  repr px_full (view px_full) /\
  wp (Save px_clock px_range px_time (mkSaveIO true true true false)) (fun r p' =>
    repr p' (view px_full) /\ frame px_full p' /\ p_events p' = p_events px_full /\
    p_dirty p' = (if true && true then false else p_dirty px_full) /\
    r = (if true && true && true && false
         then (Some (file_of px_time (px_clock (p_tick px_full)) (view px_full)), true) else (None, false))) px_full.
Proof.
  split; [exact px_full_repr|].
  apply (Save_outcomes px_clock px_range px_time px_range_perm px_full (view px_full)
           (mkSaveIO true true true false) px_full_repr).
Defined.

Lemma save_load_roundtrip_witness :
  repr px_full (view px_full) /\ repr px_pool ∅ /\ size (view px_full) = 3%nat /\
  wp (write px_clock px_range px_time) (fun lines _ =>
    wp (Load (fun _ => 200000) (Opened lines true)) (fun r q' =>
      r = (Z.of_nat (size (view px_full)), true) /\
      repr q' (revived 200000 (Z.quot (p_minLease px_pool) Second) <$> view px_full)) px_pool) px_full.
Proof.
  split; [exact px_full_repr|]. split; [exact px_repr|]. split; [vm_compute; reflexivity|].
  apply (save_load_roundtrip px_clock px_range px_time px_range_perm (fun _ => 200000) px_full px_pool
           (view px_full) px_full_repr px_repr); [reflexivity| |reflexivity].
  assert (Hall : map_Forall (fun _ d => Is6 (d_v6 d) = true /\ addr_ok (d_v6 d) /\ hasZone (d_v6 d) = false /\
     ValidIPv6 (As16 (d_v6 d)) = true /\ 0 < d_lastUse d <= 200000 /\
     p_reserved px_pool (d_v4 d) = false) (view px_full)); [|exact Hall].
  apply map_Forall_to_list.
  let v := eval vm_compute in (map_to_list (view px_full)) in
    replace (map_to_list (view px_full)) with v by (vm_compute; reflexivity).
  repeat constructor; vm_compute; congruence.
Defined.
