(* ===== verification/PoolThreads.v ===== *)
(** * Goroutines on one pool: [src/internal/addrmap/pool.go]

    The engine's goroutine looks addresses up while others age, save, list and
    reconfigure the same pool.  Here an operation is a [code]: a sequence of the
    accesses it makes, each of which is one step, divided where the Go code takes and
    releases [p.mu] and where it goes on without it.  A [system] is a pool, the
    goroutine that holds [p.mu] and the calls under way; a [move] starts a call or
    lets a call take its next step, so every schedule is a list of moves.

    Accesses without [p.mu] are those of the source: the clock, the atomic
    [lastUse], the fields of a host found before, the leases that [Maintain] reads,
    and the assignment to [reserved] in the table's [Build].  They interleave with the loops
    of [Maintain] host by host.  A section under [RLock], and the body of [assign],
    [Save] and [SetLeases] under [Lock], is one step; memory is sequentially
    consistent. *)

From stdpp Require Import base tactics list numbers option strings gmap sorting.
From Stdlib Require Import ZArith Lia.
From S2P Require Import Prelude Netip Netutil Text Events Pool.

Open Scope Z_scope.

(** ** The accesses of an operation *)

#[warnings="-register-all"]
Inductive code (A : Type) : Type :=
  | Done (a : A)
  | Free (act : M Pool (code A))
  | RLocked (act : M Pool (code A))
  | Lock (c : code A)
  | Held (act : M Pool (code A))
  | Unlock (c : code A).
Arguments Done {A} _.
Arguments Free {A} _.
Arguments RLocked {A} _.
Arguments Lock {A} _.
Arguments Held {A} _.
Arguments Unlock {A} _.

(** An operation that nothing interferes with. *)
Fixpoint alone {A} (c : code A) (p : Pool) : outcome (A * Pool) :=
  match c with
  | Done a => Ok (a, p)
  | Free act | RLocked act | Held act =>
      match act p with Ok (c, p) => alone c p | Panic => Panic | Stuck => Stuck end
  | Lock c | Unlock c => alone c p
  end.

(** One access and what follows it: without the mutex, and with it. *)
Notation "x ⇐ m ; c" := (Free (x ← m; mret c)) (at level 20, m at level 100, c at level 200, right associativity, only parsing).
Notation "x ⇚ m ; c" := (Held (x ← m; mret c)) (at level 20, m at level 100, c at level 200, right associativity, only parsing).

(** ** The operations *)

(** What a call returns. *)
Inductive answer :=
  | AnsAddr (a : option Addr)
  | AnsUnit
  | AnsSave (r : option (list string) * bool)
  | AnsList (l : list Assignment)
  | AnsStats (s : Stats)
  | AnsDirty (b : bool).

Inductive call :=
  | CallLookup4 (v : Z)
  | CallLookup6 (a : Addr) (allocate : bool)
  | CallMaintain
  | CallSetLeases (minLease maxLease : Z)
  | CallReserve (reserved : Addr -> bool)
  | CallAssignments
  | CallStats
  | CallDirty
  | CallSave (io : save_io).

Section operations.
Context (clock : nat -> Z).
Context (range : nat -> gmap Addr nat -> list (Addr * nat)).
Context `{AddrText} (time_String : Z -> string).

(** [d.lastUse.Store(p.now().Unix())] *)
Definition touch (l : nat) (k : code answer) : code answer :=
  t ⇐ now_unix clock; _ ⇐ store l (set_lastUse t); k.

Definition lookup4_code (a : Addr) : code answer :=
  RLocked (
    a4 ← lift (As4 a);
    mx ← gets p_max;
    by4 ← gets p_by4;
    match by4 !! Z.land (be a4) mx with
    | None => mret (Done (AnsAddr None))
    | Some l => mret (
        d ⇐ load l;
        if d_dormant d then Done (AnsAddr None) else
        touch l (d ⇐ load l; Done (AnsAddr (Some (d_v6 d)))))
    end).

Definition assign_code (a : Addr) : code answer :=
  now ⇐ now_unix clock;
  Lock (r ⇚ assign_locked range a now; Unlock (Done (AnsAddr r))).

Definition lookup6_code (a : Addr) (allocate : bool) : code answer :=
  RLocked (
    mapped ← gets p_mapped;
    mret match mapped !! a with
    | Some l => touch l (d ⇐ load l; Done (AnsAddr (Some (d_v4 d))))
    | None => if negb allocate then Done (AnsAddr None) else assign_code a
    end).

Fixpoint expire_code (hosts : list (Addr * nat)) (now minLease : Z) (k : code answer) : code answer :=
  match hosts with
  | [] => k
  | (v6, l) :: hosts => _ ⇚ expire_host v6 l now minLease; expire_code hosts now minLease k
  end.

Fixpoint release_code (hosts : list (Addr * nat)) (now maxLease : Z) (k : code answer) : code answer :=
  match hosts with
  | [] => k
  | (v6, l) :: hosts => _ ⇚ release_host v6 l now maxLease; release_code hosts now maxLease k
  end.

(** The order of a loop over a map of the pool. *)
Definition range_gets (f : Pool -> gmap Addr nat) : M Pool (list (Addr * nat)) :=
  m ← gets f; range_over range m.

Definition Maintain_code : code answer :=
  now ⇐ now_unix clock;
  minLease ⇐ gets (fun p => Z.quot (p_minLease p) Second);
  maxLease ⇐ gets (fun p => Z.quot (p_maxLease p) Second);
  Lock (
    hosts ⇚ range_gets p_mapped;
    expire_code hosts now minLease (
      hosts ⇚ range_gets p_dormant;
      release_code hosts now maxLease (Unlock (Done AnsUnit)))).

Definition SetLeases_code (minLease maxLease : Z) : code answer :=
  Lock (_ ⇚ SetLeases minLease maxLease; Unlock (Done AnsUnit)).

(** The table's [Build]: [t.pool.reserved = ...] *)
Definition Reserve_code (r : Addr -> bool) : code answer :=
  _ ⇐ modify (with_reserved r); Done AnsUnit.

Definition Assignments_code : code answer :=
  RLocked (ds ← Assignments range; mret (Done (AnsList ds))).
Definition Stats_code : code answer :=
  RLocked (s ← gets pool_Stats; mret (Done (AnsStats s))).
Definition Dirty_code : code answer :=
  RLocked (b ← gets Dirty; mret (Done (AnsDirty b))).

(** [Save]: the lock is held to write the temporary file. *)
Definition Save_code (io : save_io) : code answer :=
  if negb (io_open io) then Done (AnsSave (None, false)) else
  Lock (
    lines ⇚ (lines ← write clock range time_String;
                  (if io_write io then modify (with_dirty false) else skip);; mret lines);
    Unlock (Done (AnsSave (
      if negb (io_write io && io_close io) then (None, false) else
      if negb (io_rename io) then (None, false) else (Some lines, true))))).

Definition call_code (c : call) : code answer :=
  match c with
  | CallLookup4 v => lookup4_code (Addr4 v)
  | CallLookup6 a allocate => lookup6_code a allocate
  | CallMaintain => Maintain_code
  | CallSetLeases mn mx => SetLeases_code mn mx
  | CallReserve r => Reserve_code r
  | CallAssignments => Assignments_code
  | CallStats => Stats_code
  | CallDirty => Dirty_code
  | CallSave io => Save_code io
  end.

(** The same call as one operation of [Pool]. *)
Definition call_op (c : call) : M Pool answer :=
  match c with
  | CallLookup4 v => r ← lookup4 clock (Addr4 v); mret (AnsAddr r)
  | CallLookup6 a allocate => r ← lookup6 clock range a allocate; mret (AnsAddr r)
  | CallMaintain => Maintain clock range;; mret AnsUnit
  | CallSetLeases mn mx => SetLeases mn mx;; mret AnsUnit
  | CallReserve r => modify (with_reserved r);; mret AnsUnit
  | CallAssignments => ds ← Assignments range; mret (AnsList ds)
  | CallStats => s ← gets pool_Stats; mret (AnsStats s)
  | CallDirty => b ← gets Dirty; mret (AnsDirty b)
  | CallSave io => r ← Save clock range time_String io; mret (AnsSave r)
  end.

(** ** Schedules *)

(** A call under way: what it has still to do, and the states the pool has been in
    since it began, the latest first. *)
Record goroutine := mkGo { g_call : call; g_code : code answer; g_seen : list Pool }.

(** A call that has returned. *)
Record returned := mkRet { r_call : call; r_answer : answer; r_seen : list Pool }.

Record system := mkSystem {
  s_pool : Pool;
  s_owner : option nat;
  s_running : gmap nat goroutine;
  s_returned : list returned;
}.

Inductive move := Begin (i : nat) (c : call) | Step (i : nat).

(** The pool is now [p]. *)
Definition see (p : Pool) (g : goroutine) : goroutine := mkGo (g_call g) (g_code g) (p :: g_seen g).

(** Goroutine [i] goes on with [c]. *)
Definition go_on (i : nat) (c : code answer) (gs : gmap nat goroutine) : gmap nat goroutine :=
  alter (fun g => mkGo (g_call g) c (g_seen g)) i gs.

(** An access by goroutine [i]. *)
Definition access (i : nat) (act : M Pool (code answer)) (s : system) : outcome system :=
  match act (s_pool s) with
  | Ok (c, p) => Ok (mkSystem p (s_owner s) (go_on i c (see p <$> s_running s)) (s_returned s))
  | Panic => Panic
  | Stuck => Stuck
  end.

Definition owns (i : nat) (s : system) : bool := bool_decide (s_owner s = Some i).
Definition unowned (s : system) : bool := bool_decide (s_owner s = None).

(** What a move does, or [None] when it has to wait or is no move.  To unlock a mutex
    that is not locked is a run-time panic. *)
Definition make (m : move) (s : system) : option (outcome system) :=
  match m with
  | Begin i c =>
      match s_running s !! i with
      | Some _ => None
      | None => Some (Ok (mkSystem (s_pool s) (s_owner s)
          (<[i := mkGo c (call_code c) [s_pool s]]> (s_running s)) (s_returned s)))
      end
  | Step i =>
      g ← s_running s !! i;
      match g_code g with
      | Done a => Some (Ok (mkSystem (s_pool s) (s_owner s) (delete i (s_running s))
          (s_returned s ++ [mkRet (g_call g) a (g_seen g)])))
      | Free act => Some (access i act s)
      | RLocked act => if unowned s then Some (access i act s) else None
      | Lock c =>
          if unowned s then
            Some (Ok (mkSystem (s_pool s) (Some i) (go_on i c (s_running s)) (s_returned s)))
          else None
      | Held act => if owns i s then Some (access i act s) else None
      | Unlock c =>
          if owns i s then
            Some (Ok (mkSystem (s_pool s) None (go_on i c (s_running s)) (s_returned s)))
          else Some Panic
      end
  end.

(** A schedule; a move that has to wait is passed over. *)
Fixpoint schedule (ms : list move) (s : system) : outcome system :=
  match ms with
  | [] => Ok s
  | m :: ms => match make m s with
               | None => schedule ms s
               | Some o => s ← o; schedule ms s
               end
  end.
End operations.

Definition idle (p : Pool) : system := mkSystem p None ∅ [].

(** ** Without interference

    The accesses of a call, one after the other, are the operation of [Pool]. *)

Section alone.
Context (clock : nat -> Z).
Context (range : nat -> gmap Addr nat -> list (Addr * nat)).
Context `{AddrText} (time_String : Z -> string).

(** Two computations that begin with the same step. *)
Lemma bind_ext {A B} (m : M Pool A) (f g : A -> M Pool B) p :
  (forall a p', f a p' = g a p') -> (m ≫= f) p = (m ≫= g) p.
Proof. intros E. unfold mbind, M_bind. destruct (m p) as [[a p']| |]; [apply E|done|done]. Qed.

Lemma alone_free {A} (m : M Pool A) (k : A -> code answer) p :
  alone (x ⇐ m; k x) p = (m ≫= (fun x => alone (k x))) p.
Proof. cbn. unfold mbind, M_bind. by destruct (m p) as [[a p']| |]. Qed.

Lemma alone_held {A} (m : M Pool A) (k : A -> code answer) p :
  alone (x ⇚ m; k x) p = (m ≫= (fun x => alone (k x))) p.
Proof. apply alone_free. Qed.

Lemma alone_expire hosts now mn k p :
  alone (expire_code hosts now mn k) p = (expire_mapped hosts now mn;; alone k) p.
Proof.
  revert p. induction hosts as [|[a l] hosts IH]; intros p; [done|].
  cbn [expire_code expire_mapped]. rewrite alone_held. unfold mbind, M_bind.
  destruct (expire_host a l now mn p) as [[u p']| |]; [apply IH|done|done].
Qed.

Lemma alone_release hosts now mx k p :
  alone (release_code hosts now mx k) p = (release_dormant hosts now mx;; alone k) p.
Proof.
  revert p. induction hosts as [|[a l] hosts IH]; intros p; [done|].
  cbn [release_code release_dormant]. rewrite alone_held. unfold mbind, M_bind.
  destruct (release_host a l now mx p) as [[u p']| |]; [apply IH|done|done].
Qed.

Lemma alone_Maintain p :
  alone (Maintain_code clock range) p = (Maintain clock range;; mret AnsUnit) p.
Proof.
  unfold Maintain_code, Maintain, range_gets. rewrite alone_free. cbn. unfold mbind, M_bind, now_unix. cbn.
  rewrite alone_expire. unfold mbind, M_bind. destruct (expire_mapped _ _ _ _) as [[u p1]| |]; [|done|done].
  cbn. rewrite alone_release. unfold mbind, M_bind.
  by destruct (release_dormant _ _ _ _) as [[u' p2]| |].
Qed.

Lemma alone_lookup4 a p :
  alone (lookup4_code clock a) p = (r ← lookup4 clock a; mret (AnsAddr r)) p.
Proof.
  unfold lookup4_code, lookup4, touch. cbn. unfold mbind, M_bind, lift, gets.
  destruct (As4 a) as [a4| |]; [|done|done]. destruct (p_by4 p !! _) as [l|]; [|done]. cbn.
  unfold load, mbind, M_bind. destruct (p_heap p !! l) as [d|] eqn:El; [|done]. cbn.
  destruct (d_dormant d); [done|]. cbn. unfold store, load, mbind, M_bind, now_unix. cbn. rewrite El. cbn.
  by rewrite lookup_insert_eq.
Qed.

Lemma alone_lookup6 a allocate p :
  alone (lookup6_code clock range a allocate) p = (r ← lookup6 clock range a allocate; mret (AnsAddr r)) p.
Proof.
  unfold lookup6_code, lookup6, assign_code, assign, touch. cbn. unfold mbind, M_bind, gets.
  destruct (p_mapped p !! a) as [l|]; cbn.
  - unfold store, load, mbind, M_bind, now_unix. cbn. destruct (p_heap p !! l) as [d|]; [|done]. cbn.
    by rewrite lookup_insert_eq.
  - destruct allocate; [|done]. cbn. unfold mbind, M_bind, now_unix. cbn.
    by destruct (assign_locked _ _ _ _) as [[r p']| |].
Qed.
End alone.
