(* ===== verification/PoolRaces.v ===== *)
(** * What goroutines on one pool can rely on

    [change] says what one access may do to the pool, [quiet] what it may do while
    another goroutine holds [p.mu].  [ok] is what a call may still do: it is defined on
    its code, for whatever the other goroutines do between its steps, and says that no
    access panics, that each is a [change], that the mutex is taken and released
    in turn, and what holds of the answer.  [make_ok] is the invariant of a system. *)

From stdpp Require Import base tactics list numbers option strings gmap sorting.
From Stdlib Require Import ZArith Lia.
From S2P Require Import Prelude Netip Netutil Text Events Pool PoolFacts PoolOps PoolSave PoolRun PoolThreads.

Open Scope Z_scope.

(** ** Changes *)

Definition sound (p : Pool) : Prop := exists H, repr p H.

Record change (p p' : Pool) : Prop := {
  c_sound : sound p';
  c_evolves : evolves p p';
  c_prefix : p_prefix p' = p_prefix p;
  c_base : p_base p' = p_base p;
  c_max : p_max p' = p_max p;
}.

Record quiet (p p' : Pool) : Prop := {
  q_by4 : p_by4 p' = p_by4 p;
  q_mapped : p_mapped p' = p_mapped p;
  q_dormant : p_dormant p' = p_dormant p;
}.

Lemma change_frame p p' : sound p' -> evolves p p' -> frame p p' -> change p p'.
Proof. intros S E []. by constructor. Qed.

Lemma change_effect p p' H evs dt : effect p p' H evs dt -> change p p'.
Proof. intros [R F _ _ E]. apply change_frame; [by exists H|done|done]. Qed.

(** What does not touch the hosts. *)
Lemma change_same p p' :
  sound p -> frame p p' -> p_used p' = p_used p -> p_by4 p' = p_by4 p -> p_heap p' = p_heap p ->
  p_mapped p' = p_mapped p -> p_dormant p' = p_dormant p -> p_next p' = p_next p -> change p p'.
Proof.
  intros [H R] F ? Eb Eh ???. apply change_frame; [|by apply evolves_same|done].
  exists H. by apply (repr_same _ _ _ R).
Qed.

Lemma change_tick p k i : sound p -> change p (with_ticks k i p).
Proof. intros S. by apply change_same. Qed.

Lemma change_refl p : sound p -> change p p.
Proof. intros S. by apply change_same. Qed.

Lemma change_dirty p b : sound p -> change p (with_dirty b p).
Proof. intros S. by apply change_same. Qed.

Lemma change_reserved p r : sound p -> change p (with_reserved r p).
Proof.
  intros [H R]. constructor; try done; [exists H; by apply repr_reserved|by apply evolves_same].
Qed.

Lemma change_leases p mn mx : sound p -> change p (with_leases mn mx p).
Proof.
  intros [H R]. constructor; try done; [exists H; by apply repr_leases|by apply evolves_same].
Qed.

Lemma quiet_refl p : quiet p p.
Proof. by constructor. Qed.

(** The last use of a host that has been released. *)
Lemma repr_touch_released p H l d t :
  repr p H -> p_heap p !! l = Some d -> p_by4 p !! d_off d <> Some l ->
  repr (with_heap (<[l := set_lastUse t d]> (p_heap p)) (p_next p) p) H.
Proof.
  intros R Hd Hl. destruct R as [[n []] ? Hho ? ? Hby4 Hloc Hm Hdo Hnext].
  assert (Hne : forall off k, p_by4 p !! off = Some k -> k <> l).
  { intros off k Hk ->. destruct (Hloc _ _ Hk) as [e He].
    assert (HH : H !! off = Some e) by (apply Hby4; eauto).
    destruct (Hho _ _ HH) as [Eo _]. by simplify_eq. }
  set (p' := with_heap _ _ p).
  assert (Hat : forall k e, host_at p' k e <-> host_at p k e).
  { intros k e. unfold host_at. cbn. split; intros [He Hk]; (split; [|done]); pose proof (Hne _ _ Hk);
      [by rewrite lookup_insert_ne in He|by rewrite lookup_insert_ne]. }
  constructor; cbn; try done; [exists n; by constructor|..].
  - intros off e. rewrite Hby4. split; intros (k & Hk & He); exists k; (split; [done|]);
      pose proof (Hne _ _ Hk); [by rewrite lookup_insert_ne|by rewrite lookup_insert_ne in He].
  - intros off k Hk. rewrite lookup_insert_ne by (by pose proof (Hne _ _ Hk)). by apply (Hloc off).
  - intros a k. rewrite Hm. by setoid_rewrite Hat.
  - intros a k. rewrite Hdo. by setoid_rewrite Hat.
  - intros k [e He]. apply Hnext. destruct (decide (k = l)) as [->|Hk]; [eauto|].
    rewrite lookup_insert_ne in He by done. eauto.
Qed.

(** Any host can be touched at any time, also one that has been released since it was
    found. *)
Lemma change_touch p l d t :
  sound p -> p_heap p !! l = Some d ->
  let p' := with_heap (<[l := set_lastUse t d]> (p_heap p)) (p_next p) p in change p p' /\ quiet p p'.
Proof.
  intros [H R] Hd p'. split; [|by constructor]. apply change_frame; [| |by constructor].
  - destruct (decide (p_by4 p !! d_off d = Some l)) as [Hl|Hl].
    + exists (<[d_off d := set_lastUse t d]> H). by apply repr_touch.
    + exists H. by apply repr_touch_released.
  - by eapply evolves_touch.
Qed.

(** ** What others do between two steps *)

Section ok.
Context {A : Type} (Q : A -> list Pool -> Prop).

Inductive rely (held : bool) (p : Pool) (seen : list Pool) : Pool -> list Pool -> Prop :=
  | rely_refl : rely held p seen p seen
  | rely_step p1 seen1 p2 :
      rely held p seen p1 seen1 -> change p1 p2 -> (held = true -> quiet p1 p2) ->
      rely held p seen p2 (p2 :: seen1).

(** [held]: the call holds the mutex. *)
Fixpoint ok (held : bool) (c : code A) (p : Pool) (seen : list Pool) : Prop :=
  match c with
  | Done a => held = false /\ Q a seen
  | Free act => forall p1 seen1, rely held p seen p1 seen1 ->
      match act p1 with
      | Ok (c, p2) => change p1 p2 /\ quiet p1 p2 /\ ok held c p2 (p2 :: seen1)
      | _ => False
      end
  | RLocked act => held = false /\ forall p1 seen1, rely held p seen p1 seen1 ->
      match act p1 with
      | Ok (c, p2) => change p1 p2 /\ ok held c p2 (p2 :: seen1)
      | _ => False
      end
  | Held act => held = true /\ forall p1 seen1, rely held p seen p1 seen1 ->
      match act p1 with
      | Ok (c, p2) => change p1 p2 /\ ok held c p2 (p2 :: seen1)
      | _ => False
      end
  | Lock c => held = false /\ forall p1 seen1, rely held p seen p1 seen1 -> ok true c p1 seen1
  | Unlock c => held = true /\ forall p1 seen1, rely held p seen p1 seen1 -> ok false c p1 seen1
  end.

Lemma rely_trans held p1 s1 p2 s2 p3 s3 :
  rely held p1 s1 p2 s2 -> rely held p2 s2 p3 s3 -> rely held p1 s1 p3 s3.
Proof. intros H12 H23. induction H23; [done|]. by eapply rely_step. Qed.

Lemma rely_one held p s p' : change p p' -> (held = true -> quiet p p') -> rely held p s p' (p' :: s).
Proof. intros C Hq. eapply rely_step; [apply rely_refl|done..]. Qed.

Context (Q_mono : forall a s s', s ⊆ s' -> Q a s -> Q a s').

Lemma rely_seen held p s p' s' : rely held p s p' s' -> s ⊆ s'.
Proof. induction 1; [done|]. etrans; [done|]. by apply list_subseteq_cons. Qed.

Lemma rely_in held p s p' s' : rely held p s p' s' -> p ∈ s -> p' ∈ s'.
Proof. intros [] ?; [done|]. left. Qed.

Lemma rely_sound held p s p' s' : rely held p s p' s' -> sound p -> sound p'.
Proof. intros [] ?; [done|]. by eapply c_sound. Qed.

(** An assertion that every change keeps holds after any of them. *)
Lemma rely_inv held (I : Pool -> list Pool -> Prop) p s p' s' :
  (forall q t q', sound q -> I q t -> change q q' -> (held = true -> quiet q q') -> I q' (q' :: t)) ->
  rely held p s p' s' -> sound p -> I p s -> I p' s'.
Proof.
  intros Hs. induction 1 as [|p1 s1 p2 R IH C Hq]; intros S HI; [done|].
  apply (Hs p1); [by eapply rely_sound|by apply IH|done|done].
Qed.

Lemma ok_rely held c p s p' s' : ok held c p s -> rely held p s p' s' -> ok held c p' s'.
Proof.
  intros Hok R. destruct c as [a|act|act|c|act|c]; cbn in *.
  - destruct Hok. split; [done|]. eapply Q_mono; [by eapply rely_seen|done].
  - intros p1 s1 R1. by apply Hok, (rely_trans _ _ _ p' s').
  - destruct Hok as [? Hok]. split; [done|]. intros p1 s1 R1. by apply Hok, (rely_trans _ _ _ p' s').
  - destruct Hok as [? Hok]. split; [done|]. intros p1 s1 R1. by apply Hok, (rely_trans _ _ _ p' s').
  - destruct Hok as [? Hok]. split; [done|]. intros p1 s1 R1. by apply Hok, (rely_trans _ _ _ p' s').
  - destruct Hok as [? Hok]. split; [done|]. intros p1 s1 R1. by apply Hok, (rely_trans _ _ _ p' s').
Qed.
End ok.

(** ** Answers

    The pool's answer for an IPv4 and for an IPv6 address. *)

Definition pool_v6 (p : Pool) (v : Z) : option Addr :=
  l ← p_by4 p !! Z.land v (p_max p); d ← p_heap p !! l; if d_dormant d then None else Some (d_v6 d).
Definition pool_v4 (p : Pool) (a : Addr) : option Addr :=
  l ← p_mapped p !! a; d ← p_heap p !! l; Some (d_v4 d).

(** No host has the address, no offset is free and every host is in use. *)
Definition exhausted (p : Pool) (a : Addr) : Prop :=
  unassigned (view p) a /\ (forall o, ~ free p (view p) o) /\
  (forall o e, view p !! o = Some e -> d_dormant e = false).

Section answers.
Context (clock : nat -> Z).
Context (range : nat -> gmap Addr nat -> list (Addr * nat)).
Context `{AT : AddrText} (time_String : Z -> string).
Context (range_perm : forall k m, range k m ≡ₚ map_to_list m).

(** What a call may answer when the pool has been in the states [seen]. *)
Definition answer_ok (c : call) (a : answer) (seen : list Pool) : Prop :=
  match c, a with
  | CallLookup4 v, AnsAddr r => exists q, q ∈ seen /\ pool_v6 q v = r
  | CallLookup6 b _, AnsAddr (Some v4) => exists q, q ∈ seen /\ pool_v4 q b = Some v4
  | CallLookup6 b allocate, AnsAddr None =>
      exists q, q ∈ seen /\ (if allocate then exhausted q b else pool_v4 q b = None)
  | CallAssignments, AnsList l => exists q, q ∈ seen /\ l ≡ₚ assignment <$> hosts_of (PoolFacts.view q)
  | CallStats, AnsStats s => exists q, q ∈ seen /\ s = pool_Stats q
  | CallDirty, AnsDirty b => exists q, q ∈ seen /\ b = p_dirty q
  | CallSave io, AnsSave (Some lines, done) =>
      done = true /\ exists q t, q ∈ seen /\ lines = file_of time_String t (PoolFacts.view q)
  | CallSave io, AnsSave (None, done) =>
      done = false /\ io_open io && io_write io && io_close io && io_rename io = false
  | CallMaintain, AnsUnit | CallSetLeases _ _, AnsUnit | CallReserve _, AnsUnit => True
  | _, _ => False
  end.

Lemma answer_mono c a s s' : s ⊆ s' -> answer_ok c a s -> answer_ok c a s'.
Proof.
  intros Hs. destruct c, a as [[]| |[[] ?]| | |]; cbn; try done; naive_solver.
Qed.

(** ** The calls

    Steps of the calls, in the form [ok] asks for. *)

Section code.
Context (c : call).
Local Abbreviation ok := (ok (answer_ok c)).

Lemma ok_done a p s : answer_ok c a s -> ok false (Done a) p s.
Proof. done. Qed.

(** An access with a rule for its computation; [I] is what is known before it. *)
Lemma ok_free {A} held (m : M Pool A) k (I : Pool -> list Pool -> Prop) p s :
  (forall q t q', sound q -> I q t -> change q q' -> (held = true -> quiet q q') -> I q' (q' :: t)) ->
  (forall q t, sound q -> I q t ->
     wp m (fun x q' => change q q' /\ quiet q q' /\ ok held (k x) q' (q' :: t)) q) ->
  sound p -> I p s -> ok held (x ⇐ m; k x) p s.
Proof.
  intros HI Hm S Hp p1 s1 R. pose proof (rely_sound _ _ _ _ _ R S) as S1.
  pose proof (rely_inv held I p s p1 s1 HI R S Hp) as H1. specialize (Hm p1 s1 S1 H1).
  unfold wp, mbind, M_bind in *. destruct (m p1) as [[x p2]| |]; [exact Hm|done|done].
Qed.

Lemma ok_held {A} (m : M Pool A) k (I : Pool -> list Pool -> Prop) p s :
  (forall q t q', sound q -> I q t -> change q q' -> quiet q q' -> I q' (q' :: t)) ->
  (forall q t, sound q -> I q t ->
     wp m (fun x q' => change q q' /\ ok true (k x) q' (q' :: t)) q) ->
  sound p -> I p s -> ok true (x ⇚ m; k x) p s.
Proof.
  intros HI Hm S Hp. split; [done|]. intros p1 s1 R. pose proof (rely_sound _ _ _ _ _ R S) as S1.
  assert (H1 : I p1 s1).
  { apply (rely_inv true I p s p1 s1); [|done..]. intros q t q' Sq Iq C Hq. by apply (HI q); [..|apply Hq]. }
  specialize (Hm p1 s1 S1 H1).
  unfold wp, mbind, M_bind in *. destruct (m p1) as [[x p2]| |]; [exact Hm|done|done].
Qed.

Lemma ok_rlocked act p s :
  sound p -> p ∈ s ->
  (forall q t, sound q -> q ∈ t -> wp act (fun c' q' => change q q' /\ ok false c' q' (q' :: t)) q) ->
  ok false (RLocked act) p s.
Proof.
  intros S Hp Hm. split; [done|]. intros p1 s1 R.
  specialize (Hm p1 s1 (rely_sound _ _ _ _ _ R S) (rely_in _ _ _ _ _ R Hp)).
  unfold wp in Hm. by destruct (act p1) as [[x p2]| |].
Qed.

Lemma ok_lock (k : code answer) p s :
  sound p -> p ∈ s -> (forall q t, sound q -> q ∈ t -> ok true k q t) -> ok false (Lock k) p s.
Proof.
  intros S Hp Hk. split; [done|]. intros p1 s1 R.
  apply Hk; [by eapply rely_sound|by eapply rely_in].
Qed.

Lemma ok_unlock a p s : answer_ok c a s -> ok true (Unlock (Done a)) p s.
Proof.
  intros Ha. split; [done|]. intros p1 s1 R. apply ok_done. eapply answer_mono; [by eapply rely_seen|done].
Qed.
End code.
End answers.
