(* ===== verification/PoolCalls.v ===== *)
(** * Every call on a pool, whatever the other goroutines do

    One lemma for each operation: its code is [ok]. *)

From stdpp Require Import base tactics list numbers option strings gmap sorting.
From Stdlib Require Import ZArith Lia.
From S2P Require Import Prelude Netip Netutil Text Events Pool PoolFacts PoolOps PoolSave PoolRun PoolThreads PoolRaces.

Open Scope Z_scope.

(** A host that is in use is the pool's answer for its addresses. *)
Lemma pool_v6_attached p v l d :
  p_heap p !! l = Some d -> p_by4 p !! Z.land v (p_max p) = Some l ->
  pool_v6 p v = if d_dormant d then None else Some (d_v6 d).
Proof. intros Hd Hl. unfold pool_v6. rewrite Hl. cbn. by rewrite Hd. Qed.

Lemma pool_v4_mapped p H off d :
  repr p H -> H !! off = Some d -> d_dormant d = false -> pool_v4 p (d_v6 d) = Some (addr p off).
Proof.
  intros R Hd Hu. destruct (H_host_at _ _ R _ _ Hd) as (l & Hl & _).
  assert (Hm : p_mapped p !! d_v6 d = Some l) by (apply (r_mapped _ _ R); eauto).
  destruct (r_host _ _ R _ _ Hd) as [<- [_ Ha]]. destruct Hl as [Hh _].
  unfold pool_v4. rewrite Hm. cbn. rewrite Hh. cbn. by rewrite Ha.
Qed.

(** What [assign] gives is the pool's answer afterwards, and it gives nothing when the
    pool is exhausted. *)
Lemma assigned_answer p p' H a now r :
  repr p H -> assigned p H a now r p' ->
  change p p' /\ (if r is Some v4 then pool_v4 p' a = Some v4 else exhausted p a).
Proof.
  intros R (ro & H' & evs & dt & Hs & -> & E). split; [by eapply change_effect|].
  pose proof (e_repr _ _ _ _ _ E) as R'. pose proof (frame_addr _ _ : forall off, frame p p' -> _) as Hf.
  assert (Hin : forall off d, ro = Some off -> H' !! off = Some d -> d_v6 d = a -> d_dormant d = false ->
    pool_v4 p' a = Some (addr p off)).
  { intros off d _ Hd <- Hu. rewrite (pool_v4_mapped _ _ _ _ R' Hd Hu). f_equal. apply Hf, E. }
  inversion Hs; subst; cbn; try (by eapply Hin; [done|apply lookup_insert_eq|done|done]).
  pose proof (repr_view _ _ R) as ->. done.
Qed.

Section calls.
Context (clock : nat -> Z).
Context (range : nat -> gmap Addr nat -> list (Addr * nat)).
Context `{AT : AddrText} (time_String : Z -> string).
Context (range_perm : forall k m, range k m ≡ₚ map_to_list m).

Section code.
Context (c : call).
Local Abbreviation ok := (ok (answer_ok time_String c)).
Local Abbreviation stable I := (forall q t q', sound q -> I q t -> change q q' -> I q' (q' :: t)).

(** [d.lastUse.Store(p.now().Unix())] *)
Lemma ok_touch (I : Pool -> list Pool -> Prop) l k p s :
  stable I -> (forall q t, I q t -> is_Some (p_heap q !! l)) ->
  (forall q t, sound q -> I q t -> ok false k q t) ->
  sound p -> I p s -> ok false (touch clock l k) p s.
Proof.
  intros HI Hl Hk S Hp. unfold touch. apply (ok_free _ _ _ _ _ I); [by eauto| |done|done].
  intros q t Sq Iq. apply wp_now. pose proof (change_tick q (Datatypes.S (p_tick q)) (p_iter q) Sq) as C.
  split_and!; [done|by constructor|]. apply (ok_free _ _ _ _ _ I); [by eauto| |by apply C|by eapply HI].
  intros q1 t1 S1 I1. destruct (Hl _ _ I1) as [d Hd]. apply (wp_store _ _ d); [done|].
  destruct (change_touch q1 l d (clock (p_tick q)) S1 Hd) as [C1 Q1].
  split_and!; [done|done|]. apply Hk; [by apply C1|by eapply HI].
Qed.
End code.

(** *** [lookup4] *)

(** The host at [l] was found for [v]. *)
Definition found4 (v off mx : Z) (l : nat) (q : Pool) (t : list Pool) : Prop :=
  q ∈ t /\ p_max q = mx /\ exists d, p_heap q !! l = Some d /\ d_off d = off /\
    (p_by4 q !! off = Some l \/ d_dormant d = true /\ exists q0, q0 ∈ t /\ pool_v6 q0 v = None).

(** Its IPv6 address was the answer at some time. *)
Definition known4 (v off mx : Z) (l : nat) (q : Pool) (t : list Pool) : Prop :=
  q ∈ t /\ p_max q = mx /\ exists d, p_heap q !! l = Some d /\ d_off d = off /\
    exists q0, q0 ∈ t /\ pool_v6 q0 v = Some (d_v6 d).

Lemma found4_stable v mx l q t q' :
  change q q' -> found4 v (Z.land v mx) mx l q t -> found4 v (Z.land v mx) mx l q' (q' :: t).
Proof.
  intros C (Hq & Hmx & d & Hd & Ho & Hat). split; [left|]. rewrite (c_max _ _ C). split; [done|].
  destruct (c_evolves _ _ C l d Hd) as (d' & Hd' & Ho' & _ & Hf). exists d'. split_and!; [done|congruence|].
  unfold fate in Hf. rewrite Ho in Hf. case_decide as Hl.
  - destruct Hf as [[Hl' _]|(Hn & _ & Hdd)]; [by left|right]. split; [done|]. exists q'. split; [left|].
    unfold pool_v6. by rewrite (c_max _ _ C), Hmx, Hn.
  - destruct Hat as [|(Hdd & q0 & Hq0 & Hv)]; [done|]. destruct Hf as (_ & _ & Ed). right.
    split; [congruence|]. exists q0. split; [by right|done].
Qed.

Lemma known4_stable v mx l q t q' :
  change q q' -> known4 v (Z.land v mx) mx l q t -> known4 v (Z.land v mx) mx l q' (q' :: t).
Proof.
  intros C (Hq & Hmx & d & Hd & Ho & q0 & Hq0 & Hv). split; [left|]. rewrite (c_max _ _ C). split; [done|].
  destruct (c_evolves _ _ C l d Hd) as (d' & Hd' & Ho' & _ & Hf). exists d'. split_and!; [done|congruence|].
  assert (Hsame : d_v6 d' = d_v6 d -> exists q0, q0 ∈ q' :: t /\ pool_v6 q0 v = Some (d_v6 d')).
  { intros ->. exists q0. split; [by right|done]. }
  unfold fate in Hf. rewrite Ho in Hf. case_decide as Hl; [|by apply Hsame; destruct Hf as (_ & ? & _)].
  destruct Hf as [[Hl' [?|Hu]]|(_ & ? & _)]; [by apply Hsame| |by apply Hsame].
  exists q'. split; [left|]. rewrite (pool_v6_attached _ _ l d'); [by rewrite Hu|done|].
  by rewrite (c_max _ _ C), Hmx.
Qed.

Lemma ok_lookup4 v p s :
  0 <= v < 2 ^ 32 -> sound p -> p ∈ s ->
  ok (answer_ok time_String (CallLookup4 v)) false (lookup4_code clock (Addr4 v)) p s.
Proof.
  intros Hv S Hp. apply ok_rlocked; [done|done|]. intros q t Sq Hq.
  apply wp_bind, wp_lift, owp_ok, wp_bind, wp_gets, wp_bind, wp_gets.
  rewrite be_be_bytes, Z.mod_small by (change (256 ^ Z.of_nat 4) with (2 ^ 32); lia).
  set (mx := p_max q). pose proof (change_refl q Sq) as C. destruct (p_by4 q !! Z.land v mx) as [l|] eqn:El.
  - apply wp_ret. split; [done|]. apply (ok_free _ _ _ _ _ (found4 v (Z.land v mx) mx l)).
    + intros q1 t1 q1' _ HI C1 _. by apply (found4_stable _ _ _ q1).
    + intros q1 t1 S1 HI. pose proof (change_refl q1 S1) as C1. pose proof HI as (Hq1 & Hmx & d & Hd & Ho & Hat).
      apply (wp_load _ d); [done|]. split_and!; [done|apply quiet_refl|].
      destruct (d_dormant d) eqn:Edd.
      * apply ok_done. cbn. destruct Hat as [Hl|(_ & q0 & Hq0 & Hv0)].
        -- exists q1. split; [left|]. rewrite (pool_v6_attached _ _ l d); [by rewrite Edd|done|by rewrite Hmx].
        -- exists q0. split; [by right|done].
      * apply (ok_touch _ (known4 v (Z.land v mx) mx l)).
        -- intros q2 t2 q2' _ H2 C2. by apply (known4_stable _ _ _ q2).
        -- by intros q2 t2 (_ & _ & d2 & Hd2 & _).
        -- intros q2 t2 S2 H2. apply (ok_free _ _ _ _ _ (known4 v (Z.land v mx) mx l)); [|clear q2 t2 S2 H2|done|done].
           { intros q3 t3 q3' _ H3 C3 _. by apply (known4_stable _ _ _ q3). }
           intros q2 t2 S2 (Hq2 & _ & d2 & Hd2 & _ & q0 & Hq0 & Hv0). apply (wp_load _ d2); [done|].
           split_and!; [by apply change_refl|apply quiet_refl|]. apply ok_done. exists q0. split; [by right|done].
        -- done.
        -- split; [left|]. split; [done|]. exists d. split_and!; [done|done|]. exists q1. split; [left|].
           destruct Hat as [Hl|[? _]]; [|congruence].
           rewrite (pool_v6_attached _ _ l d); [by rewrite Edd|done|by rewrite Hmx].
    + done.
    + destruct Sq as [H R]. destruct (by4_host _ _ R _ _ El) as (d & Hd & [Hh _]).
      destruct (r_host _ _ R _ _ Hd) as [Ho _]. split; [left|]. split; [done|]. exists d. split_and!; [done|done|by left].
  - apply wp_ret. split; [done|]. apply ok_done. exists q. split; [left|]. unfold pool_v6. fold mx. by rewrite El.
Qed.

(** *** [lookup6] *)

(** The host at [l] was found for [a]; its IPv4 address never changes. *)
Definition found6 (a : Addr) (l : nat) (q : Pool) (t : list Pool) : Prop :=
  exists d, p_heap q !! l = Some d /\ exists q0, q0 ∈ t /\ pool_v4 q0 a = Some (d_v4 d).

Lemma found6_stable a l q t q' : change q q' -> found6 a l q t -> found6 a l q' (q' :: t).
Proof.
  intros C (d & Hd & q0 & Hq0 & Hv). destruct (c_evolves _ _ C l d Hd) as (d' & Hd' & _ & Ev & _).
  exists d'. split; [done|]. exists q0. rewrite Ev. split; [by right|done].
Qed.

(** Nothing but that the latest state was seen. *)
Definition seen_in (q : Pool) (t : list Pool) : Prop := q ∈ t.

Lemma ok_assign a p s :
  sound p -> p ∈ s -> ok (answer_ok time_String (CallLookup6 a true)) false (assign_code clock range a) p s.
Proof.
  intros S Hp. apply (ok_free _ _ _ _ _ seen_in); [left| |done|done].
  intros q t Sq _. apply wp_now. split_and!; [by apply change_tick|by constructor|].
  apply ok_lock; [by apply change_tick|left|]. generalize (clock (p_tick q)) as now. clear q t Sq. intros now. intros q t Sq Hq.
  apply (ok_held _ _ _ _ seen_in); [left| |done|done]. clear q t Sq Hq. intros q t [H R] Hq.
  eapply wp_mono; [by apply (assign_locked_ok range range_perm q q H)|].
  intros r q' Hr. destruct (assigned_answer _ _ _ _ _ _ R Hr) as [C Ha]. split; [done|].
  apply ok_unlock. destruct r as [v4|]; [exists q'; split; [left|done]|exists q; split; [by right|done]].
Qed.

Lemma ok_lookup6 a allocate p s :
  sound p -> p ∈ s ->
  ok (answer_ok time_String (CallLookup6 a allocate)) false (lookup6_code clock range a allocate) p s.
Proof.
  intros S Hp. apply ok_rlocked; [done|done|]. intros q t Sq Hq. apply wp_bind, wp_gets, wp_ret.
  split; [by apply change_refl|]. destruct (p_mapped q !! a) as [l|] eqn:El.
  - destruct Sq as [H R]. pose proof El as El'. apply (r_mapped _ _ R) in El' as (d & [Hd _] & _ & _).
    apply (ok_touch _ (found6 a l)).
    + intros q1 t1 q1' _ H1 C1. by apply (found6_stable _ _ q1).
    + by intros q1 t1 (d1 & Hd1 & _).
    + intros q1 t1 S1 H1. apply (ok_free _ _ _ _ _ (found6 a l)); [|clear q1 t1 S1 H1|done|done].
      { intros q2 t2 q2' _ H2 C2 _. by apply (found6_stable _ _ q2). }
      intros q1 t1 S1 (d1 & Hd1 & q0 & Hq0 & Hv). apply (wp_load _ d1); [done|].
      split_and!; [by apply change_refl|apply quiet_refl|]. apply ok_done. exists q0. split; [by right|done].
    + by exists H.
    + exists d. split; [done|]. exists q. split; [left|]. unfold pool_v4. rewrite El. cbn. by rewrite Hd.
  - destruct allocate; [apply ok_assign; [done|left]|]. apply ok_done. exists q. split; [left|].
    unfold pool_v4. by rewrite El.
Qed.

(** *** [Maintain] *)

Section maintain.
Context (c : call).
Local Abbreviation ok := (ok (answer_ok time_String c)).

Lemma ok_expire hosts now mn k p s :
  (forall q t, sound q -> ok true k q t) ->
  sound p -> entries (p_mapped p) hosts -> ok true (expire_code hosts now mn k) p s.
Proof.
  intros Hk. revert p s. induction hosts as [|[a l] hosts IH]; intros p s S Hin; cbn [expire_code]; [by apply Hk|].
  apply (ok_held _ _ _ _ (fun q _ => entries (p_mapped q) ((a, l) :: hosts))); [| |done|done].
  { intros q t q' _ Hq _ Q. by rewrite (q_mapped _ _ Q). }
  intros q t [H R] Hq. apply entries_cons in Hq as (Ha & Hnot & Hq).
  apply (r_mapped _ _ R) in Ha as (d & Hl & <- & Hd).
  eapply wp_mono; [by apply (expire_host_ok q H l d)|].
  intros _ q' (R' & F & _ & _ & E & Hm). assert (C : change q q') by (apply change_frame; [by eexists|done|done]).
  split; [done|]. apply IH; [by apply C|]. by eapply entries_update.
Qed.

Lemma ok_release hosts now mx k p s :
  (forall q t, sound q -> ok true k q t) ->
  sound p -> entries (p_dormant p) hosts -> ok true (release_code hosts now mx k) p s.
Proof.
  intros Hk. revert p s. induction hosts as [|[a l] hosts IH]; intros p s S Hin; cbn [release_code]; [by apply Hk|].
  apply (ok_held _ _ _ _ (fun q _ => entries (p_dormant q) ((a, l) :: hosts))); [| |done|done].
  { intros q t q' _ Hq _ Q. by rewrite (q_dormant _ _ Q). }
  intros q t [H R] Hq. apply entries_cons in Hq as (Ha & Hnot & Hq).
  apply (r_dormant _ _ R) in Ha as (d & Hl & <- & Hd).
  eapply wp_mono; [by apply (release_host_ok q H l d)|].
  intros _ q' (R' & F & _ & _ & E & Hm). assert (C : change q q') by (apply change_frame; [by eexists|done|done]).
  split; [done|]. apply IH; [by apply C|]. by eapply entries_update.
Qed.

(** The order of a loop: the map's entries, and nothing else changes. *)
Lemma ok_range f k p s :
  (forall q q', quiet q q' -> f q' = f q) ->
  (forall hosts q t, sound q -> entries (f q) hosts -> ok true (k hosts) q t) ->
  sound p -> ok true (hosts ⇚ range_gets range f; k hosts) p s.
Proof.
  intros Hf Hk S. apply (ok_held _ _ _ _ (fun _ _ => True)); [done| |done|done].
  intros q t Sq _. apply wp_bind, wp_gets, wp_range; [exact range_perm|]. intros hosts Hh.
  pose proof (change_tick q (p_tick q) (Datatypes.S (p_iter q)) Sq) as C.
  split; [done|]. apply Hk; [by apply C|]. rewrite (Hf q) by by constructor. by apply entries_perm.
Qed.

(** Reading a field without the mutex. *)
Lemma ok_gets {A} (f : Pool -> A) k p s :
  (forall x q t, sound q -> q ∈ t -> ok false (k x) q t) -> sound p -> ok false (x ⇐ gets f; k x) p s.
Proof.
  intros Hk S. apply (ok_free _ _ _ _ _ (fun _ _ => True)); [done| |done|done].
  intros q t Sq _. apply wp_gets. split_and!; [by apply change_refl|apply quiet_refl|]. apply Hk; [done|left].
Qed.
End maintain.

Lemma ok_Maintain p s :
  sound p -> p ∈ s -> ok (answer_ok time_String CallMaintain) false (Maintain_code clock range) p s.
Proof.
  intros S Hp. apply (ok_free _ _ _ _ _ (fun _ _ => True)); [done| |done|done].
  intros q t Sq _. apply wp_now. split_and!; [by apply change_tick|by constructor|].
  apply ok_gets; [|by apply change_tick]. generalize (clock (p_tick q)) as now. clear q t Sq. intros now. intros mn q t Sq _.
  apply ok_gets; [|done]. clear q t Sq. intros mx q t Sq Hq.
  apply ok_lock; [done|done|]. clear q t Sq Hq. intros q t Sq Hq.
  apply ok_range; [by intros ?? []| |done]. clear q t Sq Hq. intros hosts q t Sq Hin.
  apply ok_expire; [|done|done]. clear q t Sq Hin. intros q t Sq.
  apply ok_range; [by intros ?? []| |done]. clear q t Sq. intros dormant q t Sq Hin.
  apply ok_release; [|done|done]. intros q1 t1 _. by apply ok_unlock.
Qed.

(** *** The others *)

Lemma ok_SetLeases mn mx p s :
  sound p -> p ∈ s -> ok (answer_ok time_String (CallSetLeases mn mx)) false (SetLeases_code mn mx) p s.
Proof.
  intros S Hp. apply ok_lock; [done|done|]. intros q t Sq Hq.
  apply (ok_held _ _ _ _ (fun _ _ => True)); [done| |done|done]. clear q t Sq Hq. intros q t Sq _.
  apply wp_modify. split; [by apply change_leases|]. by apply ok_unlock.
Qed.

Lemma ok_Reserve r p s :
  sound p -> ok (answer_ok time_String (CallReserve r)) false (Reserve_code r) p s.
Proof.
  intros S. apply (ok_free _ _ _ _ _ (fun _ _ => True)); [done| |done|done]. intros q t Sq _.
  apply wp_modify. split_and!; [by apply change_reserved|by constructor|]. by apply ok_done.
Qed.

Lemma ok_Assignments p s :
  sound p -> p ∈ s -> ok (answer_ok time_String CallAssignments) false (Assignments_code range) p s.
Proof.
  intros S Hp. apply ok_rlocked; [done|done|]. intros q t Sq Hq. pose proof Sq as [H R]. apply wp_bind.
  unfold Assignments. apply wp_bind. eapply wp_mono; [by apply (all_hosts_ok range range_perm q H R)|].
  intros ds q' [Hds ->]. apply wp_ret, wp_ret. split; [by apply change_tick|]. apply ok_done.
  exists q. split; [by right|]. by rewrite merge_sort_Permutation, Hds, <- (repr_view _ _ R).
Qed.

Lemma ok_Save io p s :
  sound p -> p ∈ s -> ok (answer_ok time_String (CallSave io)) false (Save_code clock range time_String io) p s.
Proof.
  intros S Hp. unfold Save_code. destruct (io_open io) eqn:Eo; cbn [negb]; [|apply ok_done; cbn; by rewrite Eo].
  apply ok_lock; [done|done|]. intros q t Sq Hq. apply (ok_held _ _ _ _ seen_in); [left| |done|done].
  clear q t Sq Hq. intros q t Sq Hq. pose proof Sq as [H R]. apply wp_bind.
  eapply wp_mono; [by apply (pool_write_ok clock range range_perm time_String q H)|].
  intros lines q' [-> ->]. set (q1 := with_ticks _ _ q).
  assert (Hans : forall q2, answer_ok time_String (CallSave io) (AnsSave (
      if negb (io_write io && io_close io) then (None, false) else
      if negb (io_rename io) then (None, false) else
      (Some (file_of time_String (clock (p_tick q)) H), true))) (q2 :: t)).
  { intros q2. cbn. rewrite Eo. destruct (io_write io), (io_close io), (io_rename io); cbn; try done.
    split; [done|]. exists q, (clock (p_tick q)). rewrite <- (repr_view _ _ R). split; [by right|done]. }
  apply wp_bind. case_if; [apply wp_modify, wp_ret|apply wp_skip, wp_ret]; (split; [|apply ok_unlock, Hans]).
  - apply change_same; try done.
  - by apply change_tick.
Qed.

(** What a call asks of its arguments. *)
Definition call_ok (c : call) : Prop := match c with CallLookup4 v => 0 <= v < 2 ^ 32 | _ => True end.

Lemma ok_call c p :
  call_ok c -> sound p -> ok (answer_ok time_String c) false (call_code clock range time_String c) p [p].
Proof.
  intros Hc S. assert (Hp : p ∈ [p]) by left. destruct c; cbn [call_code].
  - by apply ok_lookup4.
  - by apply ok_lookup6.
  - by apply ok_Maintain.
  - by apply ok_SetLeases.
  - by apply ok_Reserve.
  - by apply ok_Assignments.
  - apply ok_rlocked; [done|done|]. intros q t Sq Hq. apply wp_bind, wp_gets, wp_ret.
    split; [by apply change_refl|]. apply ok_done. exists q. split; [left|done].
  - apply ok_rlocked; [done|done|]. intros q t Sq Hq. apply wp_bind, wp_gets, wp_ret.
    split; [by apply change_refl|]. apply ok_done. exists q. split; [left|done].
  - by apply ok_Save.
Qed.
End calls.
