(* ===== verification/PoolSchedules.v ===== *)
(** * Every schedule of calls on a pool

    [system_ok] is the invariant of a pool and the calls under way on it.  Every move
    keeps it, whoever is to move next can, and the calls can always be finished. *)

From stdpp Require Import base tactics list numbers option strings gmap sorting fin_maps fin_map_dom.
From Stdlib Require Import ZArith Lia.
From S2P Require Import Prelude Netip Netutil Text Events Pool PoolFacts PoolOps PoolSave PoolRun PoolThreads PoolRaces PoolCalls.

Open Scope Z_scope.

(** Induction on codes: what follows an access is whatever the access returns. *)
Lemma code_induction {A} (P : code A -> Prop) :
  (forall a, P (Done a)) ->
  (forall act, (forall p c p', act p = Ok (c, p') -> P c) -> P (Free act)) ->
  (forall act, (forall p c p', act p = Ok (c, p') -> P c) -> P (RLocked act)) ->
  (forall c, P c -> P (Lock c)) ->
  (forall act, (forall p c p', act p = Ok (c, p') -> P c) -> P (Held act)) ->
  (forall c, P c -> P (Unlock c)) -> forall c, P c.
Proof.
  intros HD HF HR HL HH HU. fix IH 1. intros [a|act|act|c|act|c]; [apply HD|apply HF|apply HR|apply HL|apply HH|apply HU].
  1, 2, 4: intros p; destruct (act p) as [[c' p'']| |]; intros c p' E; [injection E as <- <-|discriminate..].
  all: apply IH.
Qed.

Section schedules.
Context (clock : nat -> Z).
Context (range : nat -> gmap Addr nat -> list (Addr * nat)).
Context `{AT : AddrText} (time_String : Z -> string).
Context (range_perm : forall k m, range k m ≡ₚ map_to_list m).

Local Abbreviation make := (make clock range time_String).
Local Abbreviation schedule := (schedule clock range time_String).
Local Abbreviation answer_ok := (answer_ok time_String).

Definition go_ok (held : bool) (p : Pool) (g : goroutine) : Prop :=
  p ∈ g_seen g /\ ok (answer_ok (g_call g)) held (g_code g) p (g_seen g).

Record system_ok (s : system) : Prop := {
  sy_sound : sound (s_pool s);
  sy_running : forall i g, s_running s !! i = Some g -> go_ok (owns i s) (s_pool s) g;
  sy_owner : forall i, s_owner s = Some i -> is_Some (s_running s !! i);
  sy_returned : forall r, r ∈ s_returned s -> answer_ok (r_call r) (r_answer r) (r_seen r);
}.

Definition move_ok (m : move) : Prop := match m with Begin _ c => call_ok c | Step _ => True end.

Lemma idle_ok p : sound p -> system_ok (idle p).
Proof.
  intros S. constructor; cbn; [done| |done|].
  - intros i g Hg. by rewrite lookup_empty in Hg.
  - by intros r ?%elem_of_nil.
Qed.

(** The others see a change that goroutine [i] makes. *)
Lemma go_see held p p' g :
  go_ok held p g -> change p p' -> (held = true -> quiet p p') -> go_ok held p' (see p' g).
Proof.
  intros [Hp Hok] C Hq. split; [left|]. cbn.
  apply (ok_rely _ (answer_mono time_String (g_call g)) _ _ p (g_seen g)); [done|]. by apply rely_one.
Qed.

Lemma lookup_go_on i j c (gs : gmap nat goroutine) g :
  go_on i c gs !! j = Some g ->
  (j = i /\ exists g0, gs !! i = Some g0 /\ g = mkGo (g_call g0) c (g_seen g0)) \/ (j <> i /\ gs !! j = Some g).
Proof.
  unfold go_on. destruct (decide (j = i)) as [->|Hne].
  - rewrite lookup_alter_eq. intros (g0 & Hg & ->)%fmap_Some. left. eauto.
  - rewrite lookup_alter_ne by done. auto.
Qed.

Lemma owner_go_on i j c gs : is_Some (gs !! j) -> is_Some (go_on i c gs !! j).
Proof.
  unfold go_on. intros [g Hg]. destruct (decide (j = i)) as [->|Hne].
  - rewrite lookup_alter_eq, Hg. by eexists.
  - rewrite lookup_alter_ne by done. by eexists.
Qed.

(** An access that is a change, and quiet unless nobody else holds the mutex. *)
Lemma access_ok i act s g :
  system_ok s -> s_running s !! i = Some g ->
  match act (s_pool s) with
  | Ok (c, p) => change (s_pool s) p /\ (forall j, j <> i -> owns j s = true -> quiet (s_pool s) p) /\
      ok (answer_ok (g_call g)) (owns i s) c p (p :: g_seen g)
  | _ => False
  end -> owp (access i act s) system_ok.
Proof.
  intros [S Hrun Hown Hret] Hi Hact. unfold access. destruct (act (s_pool s)) as [[c p]| |]; [|done|done].
  destruct Hact as (C & Hq & Hok). constructor; cbn; [by apply C| | |done].
  - intros j g' [[-> (g0 & Hg0 & ->)]|[Hne Hg']]%lookup_go_on.
    + rewrite lookup_fmap, Hi in Hg0. injection Hg0 as <-. by split; [left|].
    + rewrite lookup_fmap in Hg'. apply fmap_Some in Hg' as (g0 & Hg0 & ->).
      apply (go_see _ (s_pool s)); [by apply Hrun|done|by apply Hq].
  - intros j Hj. apply owner_go_on. rewrite lookup_fmap. destruct (Hown j Hj) as [g0 ->]. by eexists.
Qed.

(** Goroutine [i] takes or releases the mutex. *)
Lemma relock_ok i c o s g :
  system_ok s -> s_running s !! i = Some g -> (s_owner s = None \/ s_owner s = Some i) ->
  (o = None \/ o = Some i) ->
  ok (answer_ok (g_call g)) (bool_decide (o = Some i)) c (s_pool s) (g_seen g) ->
  system_ok (mkSystem (s_pool s) o (go_on i c (s_running s)) (s_returned s)).
Proof.
  intros [S Hrun Hown Hret] Hi Ho Ho' Hok. constructor; cbn; [done| | |done].
  - intros j g' [[-> (g0 & Hg0 & ->)]|[Hne Hg']]%lookup_go_on.
    + rewrite Hi in Hg0. injection Hg0 as <-. split; [by destruct (Hrun i g Hi)|exact Hok].
    + specialize (Hrun j g' Hg'). unfold owns in *. cbn.
      rewrite (bool_decide_false (s_owner s = Some j)) in Hrun by naive_solver.
      by rewrite (bool_decide_false (o = Some j)) by naive_solver.
  - intros j Hj. apply owner_go_on. destruct Ho' as [->| ->]; [done|]. injection Hj as <-. by eexists.
Qed.

Lemma make_ok m s : system_ok s -> move_ok m -> match make m s with Some o => owp o system_ok | None => True end.
Proof.
  intros Hs Hm. pose proof Hs as [S Hrun Hown Hret]. destruct m as [i c|i]; cbn.
  - destruct (s_running s !! i) as [g|] eqn:Hi; [done|]. constructor; cbn; [done| | |done].
    + intros j g. destruct (decide (j = i)) as [->|Hne].
      * rewrite lookup_insert_eq. intros [= <-]. split; [left|]. cbn.
        unfold owns. cbn. rewrite bool_decide_false; [by apply ok_call|].
        intros Ho. apply Hown in Ho as [g Hg]. congruence.
      * rewrite lookup_insert_ne by done. apply Hrun.
    + intros j Hj. apply Hown in Hj as [g Hg]. rewrite lookup_insert_ne by congruence. by eexists.
  - destruct (s_running s !! i) as [g|] eqn:Hi; cbn; [|done]. destruct (Hrun i g Hi) as [Hp Hok].
    pose proof (rely_refl (owns i s) (s_pool s) (g_seen g)) as Rl.
    destruct (g_code g) as [a|act|act|c|act|c] eqn:Ec; cbn in Hok.
    + destruct Hok as [Hn Ha]. constructor; cbn; [done| | |].
      * intros j g' [Hne Hg']%lookup_delete_Some. by apply Hrun.
      * intros j Hj. destruct (decide (j = i)) as [->|Hne]; [|rewrite lookup_delete_ne by done; by apply Hown].
        unfold owns in Hn. by rewrite bool_decide_true in Hn.
      * intros r [Hr|Hr]%elem_of_app; [by apply Hret|]. by apply list_elem_of_singleton in Hr as ->.
    + apply (access_ok _ _ _ g); [done|done|]. specialize (Hok _ _ Rl).
      destruct (act (s_pool s)) as [[c p]| |]; [|done|done]. destruct Hok as (C & Q & Hok). by split_and!.
    + unfold unowned. case_bool_decide as Ho; [|done]. destruct Hok as [_ Hok]. specialize (Hok _ _ Rl).
      apply (access_ok _ _ _ g); [done|done|]. destruct (act (s_pool s)) as [[c p]| |]; [|done|done].
      destruct Hok as [C Hok]. split_and!; [done| |done]. intros j _. unfold owns. by rewrite Ho.
    + unfold unowned. case_bool_decide as Ho; [|done]. destruct Hok as [_ Hok].
      apply (relock_ok _ _ _ _ g); [done|done|by left|by right|]. rewrite bool_decide_true by done. by apply Hok, Rl.
    + destruct Hok as [Ho Hok]. rewrite Ho. specialize (Hok _ _ Rl). apply (access_ok _ _ _ g); [done|done|].
      destruct (act (s_pool s)) as [[c p]| |]; [|done|done]. destruct Hok as [C Hok]. rewrite Ho in Hok |- *. split_and!; [done| |done].
      intros j Hne Hj. unfold owns in *. apply bool_decide_eq_true in Ho, Hj. congruence.
    + destruct Hok as [Ho Hok]. rewrite Ho. apply bool_decide_eq_true in Ho.
      apply (relock_ok _ _ _ _ g); [done|done|by right|by left|]. rewrite bool_decide_false by done. by apply Hok, Rl.
Qed.

Lemma schedule_ok ms s : system_ok s -> Forall move_ok ms -> owp (schedule ms s) system_ok.
Proof.
  intros Hs Hms. revert s Hs. induction Hms as [|m ms Hm Hms IH]; intros s Hs; cbn; [done|].
  pose proof (make_ok m s Hs Hm) as Hmk. destruct (make m s) as [o|]; [|by apply IH].
  destruct o as [s'| |]; [|done|done]. cbn. by apply IH.
Qed.

(** ** Progress

    [after c c']: [c'] is what [c] goes on with. *)
Definition after (c c' : code answer) : Prop :=
  match c with
  | Done _ => False
  | Free act | RLocked act | Held act => exists p p', act p = Ok (c', p')
  | Lock k | Unlock k => c' = k
  end.

Definition free_for (i : nat) (s : system) : Prop := s_owner s = None \/ s_owner s = Some i.

(** What a step of goroutine [i] leaves to be done. *)
Definition stepped (i : nat) (c : code answer) (s s' : system) : Prop :=
  (exists c' g', s_running s' !! i = Some g' /\ g_code g' = c' /\ after c c' /\
     dom (s_running s') = dom (s_running s)) \/
  (exists a, c = Done a /\ s_running s' = delete i (s_running s)).

Lemma dom_go_on i c (gs : gmap nat goroutine) : dom (go_on i c gs) = dom gs.
Proof. apply dom_alter_L. Qed.

Lemma stepped_on i c c' s s' g :
  s_running s !! i = Some g -> dom (s_running s') = dom (s_running s) ->
  (exists g0, s_running s' !! i = Some (mkGo (g_call g0) c' (g_seen g0))) -> after c c' -> stepped i c s s'.
Proof. intros Hi Hd [g0 Hg] Ha. left. eexists c', _. by split_and!. Qed.

(** A goroutine moves unless another one holds the mutex. *)
Lemma step_runs s i g :
  system_ok s -> s_running s !! i = Some g -> free_for i s ->
  exists s', make (Step i) s = Some (Ok s') /\ system_ok s' /\ free_for i s' /\ stepped i (g_code g) s s'.
Proof.
  intros Hs Hi Hf. pose proof (make_ok (Step i) s Hs I) as Hmk. pose proof (sy_running _ Hs i g Hi) as [_ Hok].
  assert (Hacc : forall act, make (Step i) s = Some (access i act s) -> after (g_code g) = after (Free act) ->
    exists s', make (Step i) s = Some (Ok s') /\ system_ok s' /\ free_for i s' /\ stepped i (g_code g) s s').
  { intros act Em Ea. rewrite Em in Hmk |- *. unfold access in *.
    destruct (act (s_pool s)) as [[c p]| |] eqn:Ep; [|done|done]. eexists. split_and!; [done|done|done|].
    apply (stepped_on _ _ c _ _ g); [done|cbn; by rewrite dom_go_on, dom_fmap_L| |].
    - cbn. unfold go_on. rewrite lookup_alter_eq, lookup_fmap, Hi. by eexists.
    - rewrite Ea. by eexists _, _. }
  assert (Hlock : forall k o, make (Step i) s = Some (Ok (mkSystem (s_pool s) o (go_on i k (s_running s)) (s_returned s))) ->
    (o = None \/ o = Some i) -> after (g_code g) k ->
    exists s', make (Step i) s = Some (Ok s') /\ system_ok s' /\ free_for i s' /\ stepped i (g_code g) s s').
  { intros k o Em Ho Ea. rewrite Em in Hmk |- *. eexists. split_and!; [done|done|done|].
    apply (stepped_on _ _ k _ _ g); [done|cbn; by rewrite dom_go_on| |done].
    cbn. unfold go_on. rewrite lookup_alter_eq, Hi. by eexists. }
  cbn [PoolThreads.make] in *. rewrite Hi in *. cbn [mbind option_bind] in *.
  assert (Hun : owns i s = false -> unowned s = true).
  { unfold owns, unowned. intros Hn%bool_decide_eq_false. apply bool_decide_true. by destruct Hf. }
  destruct (g_code g) as [a|act|act|k|act|k] eqn:Ec; cbn in Hok.
  - eexists. split_and!; [done|done|done|]. right. by exists a.
  - by apply (Hacc act).
  - destruct Hok as [Hn _]. rewrite Hun in * by done. by apply (Hacc act).
  - destruct Hok as [Hn _]. rewrite Hun in * by done. apply (Hlock k (Some i)); [done|by right|done].
  - destruct Hok as [Hn _]. rewrite Hn in *. by apply (Hacc act).
  - destruct Hok as [Hn _]. rewrite Hn in *. apply (Hlock k None); [done|by left|done].
Qed.

Definition finishes (ms : list move) (s : system) (Q : system -> Prop) : Prop :=
  Forall (fun m => exists i, m = Step i) ms /\ owp (schedule ms s) Q.

(** A call that need not wait for another can be run to its end. *)
Lemma finish_one c s i g :
  system_ok s -> s_running s !! i = Some g -> g_code g = c -> free_for i s ->
  exists ms, finishes ms s (fun s' => system_ok s' /\ s_owner s' = None /\
    dom (s_running s') = dom (s_running s) ∖ {[i]}).
Proof.
  revert s g. assert (Hgo : forall c s g, (forall c', after c c' -> forall s g, system_ok s ->
      s_running s !! i = Some g -> g_code g = c' -> free_for i s -> exists ms, finishes ms s (fun s' =>
        system_ok s' /\ s_owner s' = None /\ dom (s_running s') = dom (s_running s) ∖ {[i]})) ->
    system_ok s -> s_running s !! i = Some g -> g_code g = c -> free_for i s ->
    exists ms, finishes ms s (fun s' =>
      system_ok s' /\ s_owner s' = None /\ dom (s_running s') = dom (s_running s) ∖ {[i]})).
  { clear c. intros c s g IH Hs Hi Hc Hf. destruct (step_runs s i g Hs Hi Hf) as (s' & Em & Hs' & Hf' & Hst).
    destruct Hst as [(c' & g' & Hg' & Ec' & Ha & Hd)|(a & Ea & Hr)].
    - rewrite Hc in Ha. destruct (IH c' Ha s' g' Hs' Hg' Ec' Hf') as (ms & Hms & HQ). exists (Step i :: ms).
      split; [constructor; [by eexists|done]|]. cbn [PoolThreads.schedule]. rewrite Em. cbn. by rewrite <- Hd.
    - exists [Step i]. split; [constructor; [by eexists|done]|]. cbn [PoolThreads.schedule]. rewrite Em. cbn.
      split_and!; [done| |by rewrite Hr, dom_delete_L].
      destruct Hf' as [?|Ho]; [done|]. apply (sy_owner _ Hs') in Ho as [g' Hg']. rewrite Hr in Hg'.
      by rewrite lookup_delete_eq in Hg'. }
  induction c as [a|act IH|act IH|c IH|act IH|c IH] using code_induction; intros s g; apply Hgo; cbn; clear Hgo.
  - done.
  - intros c' (p & p' & E). by apply (IH p c' p').
  - intros c' (p & p' & E). by apply (IH p c' p').
  - intros c' ->. apply IH.
  - intros c' (p & p' & E). by apply (IH p c' p').
  - intros c' ->. apply IH.
Qed.

Lemma schedule_app ms1 ms2 s : schedule (ms1 ++ ms2) s = (s' ← schedule ms1 s; schedule ms2 s').
Proof.
  revert s. induction ms1 as [|m ms1 IH]; intros s; cbn; [done|].
  destruct (make m s) as [[s'| |]|]; cbn; auto.
Qed.

Lemma finish_all n s :
  system_ok s -> size (dom (s_running s)) = n ->
  exists ms, finishes ms s (fun s' => system_ok s' /\ s_running s' = ∅ /\ s_owner s' = None).
Proof.
  revert s. induction n as [|n IH]; intros s Hs Hn.
  - exists []. split; [done|]. cbn. apply size_empty_inv, leibniz_equiv, dom_empty_inv_L in Hn.
    split_and!; [done|done|]. apply eq_None_not_Some. intros [i Ho].
    apply (sy_owner _ Hs) in Ho as [g Hg]. by rewrite Hn, lookup_empty in Hg.
  - assert (Hi : exists i, is_Some (s_running s !! i) /\ free_for i s).
    { destruct (s_owner s) as [i|] eqn:Ho.
      - exists i. split; [by apply (sy_owner _ Hs)|]. by right.
      - assert (Hne : size (dom (s_running s)) <> 0%nat) by lia. apply size_non_empty_iff, set_choose in Hne.
        destruct Hne as [i Hi]. exists i. split; [by apply elem_of_dom|]. by left. }
    destruct Hi as (i & [g Hg] & Hf). destruct (finish_one _ s i g Hs Hg eq_refl Hf) as (ms & Hms & HQ).
    apply owp_run in HQ as (s1 & E1 & Hs1 & Ho1 & Hd1). destruct (IH s1 Hs1) as (ms2 & Hms2 & HQ2).
    { assert (i ∈ dom (s_running s)) by (apply elem_of_dom; eauto).
      rewrite Hd1, size_difference by set_solver. rewrite Hn, size_singleton. lia. }
    exists (ms ++ ms2). split; [by apply Forall_app|]. by rewrite schedule_app, E1.
Qed.
End schedules.
