(* ===== verification/PoolShared.v ===== *)
(** * What the pool guarantees to goroutines that share it

    The properties of [PoolThreads]; the witnesses and the race run on the pool of
    [PoolProps]. *)

From stdpp Require Import base tactics list numbers option strings gmap sorting.
From Stdlib Require Import ZArith Lia.
From S2P Require Import Prelude Netip Netutil Text Events Pool PoolFacts PoolOps PoolSave PoolRun PoolProps PoolThreads PoolRaces PoolCalls PoolSchedules.

Open Scope Z_scope.

Section properties.
Context (clock : nat -> Z).
Context (range : nat -> gmap Addr nat -> list (Addr * nat)).
Context `{AT : AddrText} (time_String : Z -> string).

(** The accesses of every call, made one after the other with nothing between
    them, are the operation of the pool that the other theorems are about: the same
    answer, the same pool, or the same panic. *)
Theorem alone_is_the_operation c p :
  alone (call_code clock range time_String c) p = call_op clock range time_String c p.
Proof.
  destruct c as [v|a allocate| |mn mx|r| | | |io]; cbn [call_code call_op].
  - apply alone_lookup4.
  - apply alone_lookup6.
  - apply alone_Maintain.
  - done.
  - done.
  - cbn. unfold mbind, M_bind. by destruct (Assignments range p) as [[ds p']| |].
  - done.
  - done.
  - unfold Save_code, Save. destruct (io_open io); cbn; [|done]. unfold mbind, M_bind.
    destruct (write clock range time_String p) as [[ls p']| |]; [|done|done].
    destruct (io_write io), (io_close io), (io_rename io); cbn; done.
Qed.

Context (range_perm : forall k m, range k m ≡ₚ map_to_list m).

(** C10: however the calls of any number of goroutines on one pool interleave, at the
    mutex and at the accesses made without it, no access panics (no host is missing,
    no index is out of range, the mutex is not unlocked twice) and the pool's bitmap
    and maps describe the same hosts.  Every answer is one the pool would have given at
    some moment between the call and its return: the address that [lookup4] or
    [lookup6] returns was assigned to the other address then, and none was returned
    only when there was none then (or, when one was to be assigned, nothing was free); a listing is the
    pool's, and a saved file holds the pool's hosts. *)
Theorem schedules_safe p H ms :
  repr p H -> Forall move_ok ms ->
  owp (schedule clock range time_String ms (idle p)) (fun s =>
    (exists H', repr (s_pool s) H') /\
    forall r, r ∈ s_returned s -> answer_ok time_String (r_call r) (r_answer r) (r_seen r)).
Proof.
  intros R Hms. eapply owp_mono; [apply schedule_ok; [exact range_perm|apply idle_ok; by exists H|done]|].
  intros s [S _ _ Hret]. by split.
Qed.

(** C28: the mutex never leaves the calls stuck: whatever has happened, a call can take
    its next step unless another one holds the mutex, and there is a way for all the calls
    under way to go on in which every one of them returns and the mutex is free. *)
Theorem calls_can_finish p H ms :
  repr p H -> Forall move_ok ms ->
  owp (schedule clock range time_String ms (idle p)) (fun s =>
    (forall i, is_Some (s_running s !! i) -> (forall j, s_owner s = Some j -> j = i) ->
       exists s', make clock range time_String (Step i) s = Some (Ok s')) /\
    exists steps, Forall (fun m => exists i, m = Step i) steps /\
      owp (schedule clock range time_String steps s) (fun s' => s_running s' = ∅ /\ s_owner s' = None)).
Proof.
  intros R Hms. eapply owp_mono; [apply schedule_ok; [exact range_perm|apply idle_ok; by exists H|done]|].
  intros s Hs. split.
  - intros i [g Hg] Ho. destruct (step_runs clock range time_String range_perm s i g Hs Hg) as (s' & E & _); [|eauto].
    unfold free_for. destruct (s_owner s) as [j|]; [right|by left]. by rewrite (Ho j).
  - destruct (finish_all clock range time_String range_perm _ s Hs eq_refl) as (steps & Hsteps & Hend).
    exists steps. split; [done|]. eapply owp_mono; [exact Hend|]. by intros s' (_ & ? & ?).
Qed.
End properties.

(** ** A run *)

(** A day after its last packet a host gets one from IPv4 while [Maintain] runs. *)
Definition race_clock (k : nat) : Z := match k with O => 100000 | _ => 186400 end.
Definition race_addr : Z := be [10; 0; 0; 3].
Definition race_host : Addr := px_host 1.

Definition steps (i n : nat) : list move := replicate n (Step i).

(** The host gets its address; [lookup4] finds it in use; [Maintain] runs; [lookup4]
    goes on. *)
Definition race : list move :=
  Begin 0 (CallLookup6 race_host true) :: steps 0 9 ++
  Begin 1 (CallLookup4 race_addr) :: steps 1 2 ++
  Begin 2 CallMaintain :: steps 2 12 ++ steps 1 4.

Definition race_run (ms : list move) : outcome system := schedule race_clock px_range px_time ms (idle px_pool).

Lemma race_moves : Forall move_ok race.
Proof.
  unfold race, steps. cbn [replicate app]. repeat (constructor; [cbn; try done; vm_compute; split; congruence|]). constructor.
Qed.

(** What a run leaves: the answers, and the pool's answer for the host's address. *)
Definition outcome_of (ms : list move) : option (list answer * option Addr * list (Z * bool)) :=
  match race_run ms with
  | Ok s => Some (r_answer <$> s_returned s, pool_v6 (s_pool s) race_addr,
              (fun d => (d_lastUse d, d_dormant d)) <$> (map_to_list (view (s_pool s))).*2)
  | _ => None
  end.

(** The same calls, one after the other in either order. *)
Definition lookup_first : list move :=
  Begin 0 (CallLookup6 race_host true) :: steps 0 9 ++
  Begin 1 (CallLookup4 race_addr) :: steps 1 9 ++ Begin 2 CallMaintain :: steps 2 12.
Definition maintain_first : list move :=
  Begin 0 (CallLookup6 race_host true) :: steps 0 9 ++
  Begin 2 CallMaintain :: steps 2 12 ++ Begin 1 (CallLookup4 race_addr) :: steps 1 9.

(** A host that a packet has just been sent to can be dormant: when [Maintain] runs
    between the moment [lookup4] finds the host in use and the moment it notes the use,
    the packet is translated, the last use is now, and the host is dormant, so the next
    packets to it are refused until it sends one itself.  In neither order of the two calls
    does that happen: the host stays in use, or the packet is refused. *)
Theorem lookup4_races_with_Maintain :
  let addr1 := Addr4 race_addr in
  outcome_of race =
    Some ([AnsAddr (Some addr1); AnsUnit; AnsAddr (Some race_host)], None, [(186400, true)]) /\
  outcome_of lookup_first =
    Some ([AnsAddr (Some addr1); AnsAddr (Some race_host); AnsUnit], Some race_host, [(186400, false)]) /\
  outcome_of maintain_first =
    Some ([AnsAddr (Some addr1); AnsUnit; AnsAddr None], None, [(100000, true)]).
Proof. split_and!; vm_compute; reflexivity. Qed.

(** ** Witnesses *)

Lemma schedules_safe_witness :
  repr px_pool ∅ /\ Forall move_ok race /\
  owp (schedule race_clock px_range px_time race (idle px_pool)) (fun s =>
    (exists H', repr (s_pool s) H') /\
    forall r, r ∈ s_returned s -> answer_ok px_time (r_call r) (r_answer r) (r_seen r)).
Proof.
  split; [exact px_repr|]. split; [exact race_moves|].
  apply (schedules_safe race_clock px_range px_time px_range_perm px_pool ∅ race px_repr race_moves).
Defined.

Lemma calls_can_finish_witness :
  repr px_pool ∅ /\ Forall move_ok race /\
  owp (schedule race_clock px_range px_time race (idle px_pool)) (fun s =>
    (forall i, is_Some (s_running s !! i) -> (forall j, s_owner s = Some j -> j = i) ->
       exists s', make race_clock px_range px_time (Step i) s = Some (Ok s')) /\
    exists steps, Forall (fun m => exists i, m = Step i) steps /\
      owp (schedule race_clock px_range px_time steps s) (fun s' => s_running s' = ∅ /\ s_owner s' = None)).
Proof.
  split; [exact px_repr|]. split; [exact race_moves|].
  apply (calls_can_finish race_clock px_range px_time px_range_perm px_pool ∅ race px_repr race_moves).
Defined.
