(* ===== verification/PoolAvoid.v ===== *)
(** * The pool keeps off the addresses it must not use

    [avoids]: no host has an address the pool refuses.  Every operation but a new
    [reserved] keeps it, so a pool given to [Build] before it hands out an address
    never holds an address that the table maps otherwise. *)

From stdpp Require Import base tactics list numbers option strings gmap.
From Stdlib Require Import ZArith Lia.
From S2P Require Import Prelude Netip Netutil Text Events Pool PoolFacts PoolOps PoolSave PoolRun.

Open Scope Z_scope.

Definition avoids (p : Pool) (H : gmap Z dynHost) : Prop :=
  forall off, is_Some (H !! off) -> p_reserved p (addr p off) = false.

Lemma avoids_empty p : avoids p ∅.
Proof. intros off [d Hd]. by rewrite lookup_empty in Hd. Qed.

Lemma avoids_insert p H off d : avoids p H -> p_reserved p (addr p off) = false -> avoids p (<[off := d]> H).
Proof.
  intros A Hoff o [e Ho]. destruct (decide (o = off)) as [->|]; [done|].
  rewrite lookup_insert_ne in Ho by done. apply A. eauto.
Qed.

Lemma avoids_update p H off d d' : avoids p H -> H !! off = Some d -> avoids p (<[off := d']> H).
Proof. intros A Hd. apply avoids_insert; [done|]. apply A. eauto. Qed.

Lemma avoids_dom p H H' : avoids p H -> (forall o, is_Some (H' !! o) -> is_Some (H !! o)) -> avoids p H'.
Proof. intros A Hd o Ho. by apply A, Hd. Qed.

Lemma avoids_frame p p' H : frame p p' -> avoids p H -> avoids p' H.
Proof. intros F A off Ho. rewrite (frame_addr _ _ off F), (f_reserved _ _ F). by apply A. Qed.

Lemma avoids_host p H off d : repr p H -> avoids p H -> H !! off = Some d -> p_reserved p (d_v4 d) = false.
Proof. intros R A Hd. destruct (r_host _ _ R _ _ Hd) as [Eo [_ ->]]. rewrite Eo. apply A. eauto. Qed.

Lemma lookup6_avoids p H a now allocate ro H' evs dt :
  avoids p H -> lookup6_step p H a now allocate ro H' evs dt -> avoids p H'.
Proof.
  intros A Hs. inversion Hs; subst; try done; try by eapply avoids_update.
  apply avoids_insert; [done|]. match goal with F : free _ _ _ |- _ => apply F end.
Qed.

Lemma lookup4_avoids p H off now : avoids p H -> avoids p (lookup4_result H off now).2.
Proof.
  intros A. unfold lookup4_result. destruct (H !! off) as [d|] eqn:E; [|done].
  destruct (d_dormant d); [done|]. by eapply avoids_update.
Qed.

Lemma maintain_avoids p H now mn mx : avoids p H -> avoids p (omap (aged now mn mx) H).
Proof.
  intros A. apply (avoids_dom p H); [done|]. intros o [d Hd].
  apply lookup_omap_Some in Hd as (e & _ & He). eauto.
Qed.

Lemma load_lines_avoids {AT : AddrText} p n lines H H' offs :
  geom p n -> avoids p H -> load_lines p H lines = (H', offs) -> avoids p H'.
Proof.
  intros G. revert H offs. induction lines as [|line lines IH]; intros H offs A; cbn.
  { by intros [= <- <-]. }
  destruct (load_line p H line) as [d|] eqn:E; [|by apply IH].
  destruct (load_lines p _ lines) as [H2 offs2] eqn:E2. intros [= <- <-]. apply (IH _ _) in E2; [done|].
  unfold load_line in E. destruct (parse_line line) as [[[[|v|] v6] last]|]; try done.
  case_if; [|done]. injection E as <-. bool_prop. apply avoids_insert; [done|]. cbn [d_off].
  repeat match goal with E : _ /\ _ |- _ => destruct E end.
  match goal with E : Contains _ _ = true |- _ => apply (Contains_addr _ _ G) in E; rewrite <- E end.
  done.
Qed.

Lemma settle_avoids p offs future now mn H : avoids p H -> avoids p (settle_in offs future now mn H).
Proof.
  intros A. apply (avoids_dom p H); [done|]. intros o Ho. unfold settle_in in Ho.
  rewrite map_lookup_imap in Ho. destruct (H !! o); [eauto|by destruct Ho].
Qed.

Section run.
Context (clock : nat -> Z).
Context (range : nat -> gmap Addr nat -> list (Addr * nat)).
Context `{AT : AddrText} (time_String : Z -> string).
Context (range_perm : forall k m, range k m ≡ₚ map_to_list m).

(** The pool as its holders see it: hosts that are well represented and avoid what
    is reserved. *)
Definition keeps_off (p : Pool) (p' : Pool) : Prop :=
  exists H, repr p' H /\ avoids p' H /\ p_reserved p' = p_reserved p /\ p_prefix p' = p_prefix p.

Lemma keeps_off_trans p1 p2 p3 : keeps_off p1 p2 -> keeps_off p2 p3 -> keeps_off p1 p3.
Proof. intros (? & _ & _ & E1 & E2) (H & ? & ? & E3 & E4). exists H. split_and!; [done|done|congruence|congruence]. Qed.

Lemma keeps_off_frame p p' H : repr p' H -> avoids p H -> frame p p' -> keeps_off p p'.
Proof.
  intros R A F. exists H. split_and!; [done|by eapply avoids_frame|apply F|apply F].
Qed.

Definition not_reserve (op : pool_op) : Prop := match op with OpReserve _ => False | _ => True end.

Lemma run_op_avoids p H op :
  repr p H -> avoids p H -> op_ok op -> not_reserve op ->
  wp (run_op clock range time_String op) (fun _ p' => keeps_off p p') p.
Proof.
  intros R A Hop Hres. destruct op as [v|a allocate| |mn mx|r| |io|io]; cbn [run_op].
  - apply wp_bind. eapply wp_mono; [by apply lookup4_ok|]. cbv beta. intros r p' HP.
    pose proof (lookup4_avoids p H (Z.land v (p_max p)) (clock (p_tick p)) A) as A'.
    destruct (lookup4_result H _ _) as [r' H']. destruct HP as [_ [? ? _ _ _]]. apply wp_skip.
    by eapply keeps_off_frame.
  - apply wp_bind. eapply wp_mono; [by apply lookup6_ok|].
    intros r p' (ro & H' & evs & dt & Hs & _ & [? ? _ _ _]). apply wp_skip.
    eapply keeps_off_frame; [done| |done]. by eapply lookup6_avoids.
  - eapply wp_mono; [by apply Maintain_ok|]. cbv zeta. intros r p' (? & ? & _).
    eapply keeps_off_frame; [done| |done]. by apply maintain_avoids.
  - unfold SetLeases. apply wp_modify. exists H. split_and!; [by apply repr_leases|exact A|done|done].
  - done.
  - apply wp_bind. unfold Assignments. apply wp_bind.
    eapply wp_mono; [by apply (all_hosts_ok range range_perm p H R)|].
    intros ds p' [_ ->]. apply wp_ret, wp_skip. exists H.
    split_and!; [|exact A|done|done]. apply (repr_same _ _ _ R); try done; by constructor.
  - apply wp_bind. eapply wp_mono; [by apply Save_ok|]. intros r p' (? & ? & _). apply wp_skip.
    by eapply keeps_off_frame.
  - apply wp_bind. unfold Load. destruct (r_geom _ _ R) as [n G].
    destruct io as [| |lines ok]; [apply wp_ret, wp_skip; exists H; by split_and!..|].
    destruct (load_lines p H lines) as [H' offs] eqn:E.
    pose proof (load_lines_avoids p n lines H H' offs G A E) as A'.
    eapply wp_mono; [by apply (read_ok clock time_String p H lines ok H' offs)|].
    cbv zeta. intros r p' (_ & ? & ? & _). apply wp_skip. eapply keeps_off_frame; [done| |done].
    destruct ok; [by apply settle_avoids|done].
Qed.

Lemma run_ops_avoids p H ops :
  repr p H -> avoids p H -> Forall op_ok ops -> Forall not_reserve ops ->
  wp (run_ops clock range time_String ops) (fun _ p' => keeps_off p p') p.
Proof.
  intros R A Hops. revert p H R A. induction Hops as [|op ops Hop Hops IH]; intros p H R A Hres; cbn [run_ops].
  - apply wp_skip. exists H. by split_and!.
  - inversion Hres; subst. apply wp_bind. eapply wp_mono; [by apply (run_op_avoids p H op)|].
    intros u p' K. pose proof K as (H' & R' & A' & _). eapply wp_mono; [by apply (IH p' H')|].
    intros u' p2 K2. exact (keeps_off_trans p p' p2 K K2).
Qed.
End run.
