(* ===== verification/Table.v ===== *)
(** * The address table: [src/internal/addrmap/table.go]

    A [Builder] collects entries; [Build] makes a [Table] of them.  Entries are
    shared through pointers in Go and never change: an [Entry] here carries the
    identity [e_id] of its object, which is what Go's [==] on the pointers compares.
    The dynamic pool is shared between the builder, the table and their callers: it
    is not part of either but the state that [Build] and the two mapping functions
    run on, [None] when there is none.  The table implements the translator's
    [Mapper]. *)

From stdpp Require Import base tactics list numbers option strings gmap sorting.
From Stdlib Require Import ZArith Lia.
From S2P Require Import Prelude Netip Netutil Text Events Packet Translator Pool.

Open Scope Z_scope.

(** [addrmap.Kind] *)
Inductive EntryKind := KindStatic | KindRFC6052 | KindDynamicPool | KindDynamicHost.

#[export] Instance EntryKind_eq_dec : EqDecision EntryKind.
Proof. solve_decision. Defined.

Definition entry_kind_String (k : EntryKind) : string :=
  match k with
  | KindStatic => "static"
  | KindRFC6052 => "rfc6052"
  | KindDynamicPool => "dynamic-pool"
  | KindDynamicHost => "dynamic-host"
  end.

Record Entry := mkEntry {
  e_id : nat;
  e_Kind : EntryKind;
  e_V4 : Prefix;
  e_V6 : Prefix;
  e_v4Only : bool;
}.

#[export] Instance Entry_eq_dec : EqDecision Entry.
Proof. solve_decision. Defined.

(** Equality of possibly nil pointers. *)
Definition same_entry (x y : option Entry) : bool := bool_decide (e_id <$> x = e_id <$> y).

Record Table := mkTable {
  t_wkpfStrict : bool;
  t_prefix : option Entry;
  t_hosts4 : gmap Addr Entry;
  t_hosts6 : gmap Addr Entry;
  t_nets4 : list Entry;
  t_nets6 : list Entry;
  t_pool : bool;
  t_poolEntry : option Entry;
}.

(** The errors of the builder's methods. *)
Inductive BuildErr := ENotIPv4 | ENotIPv6 | EPrefixLen | ESize | EHostBits | EReserved | EConflict.

#[export] Instance BuildErr_eq_dec : EqDecision BuildErr.
Proof. solve_decision. Defined.

Record Builder := mkBuilder { b_wkpfStrict : bool; b_entries : list Entry; b_pool : bool }.

Definition NewBuilder (wkpfStrict : bool) : Builder := mkBuilder wkpfStrict [] false.

(** [b.entries = append(b.entries, &Entry{...})] *)
Definition add_entry (k : EntryKind) (v4 v6 : Prefix) (v4Only : bool) (b : Builder) : Builder :=
  mkBuilder (b_wkpfStrict b) (b_entries b ++ [mkEntry (length (b_entries b)) k v4 v6 v4Only]) (b_pool b).

Definition AddPrefix (p : Prefix) (b : Builder) : Builder + BuildErr :=
  if negb (Is6 (p_addr p)) || Is4In6 (p_addr p) then inr ENotIPv6 else
  if negb (ValidRFC6052PrefixLen (p_bits p)) then inr EPrefixLen else
  if negb (bool_decide (p = Masked p)) then inr EHostBits else
  if negb (ValidIPv6 (As16 (p_addr p))) then inr EReserved else
  if existsb (fun e => bool_decide (e_Kind e = KindRFC6052)) (b_entries b) then inr EConflict else
  inl (add_entry KindRFC6052 (PrefixFrom (Addr4 0) 0) p false b).

Definition AddStatic (v4 v6 : Prefix) (b : Builder) : outcome (Builder + BuildErr) :=
  if negb (Is4 (p_addr v4)) then Ok (inr ENotIPv4) else
  if negb (Is6 (p_addr v6)) || Is4In6 (p_addr v6) then Ok (inr ENotIPv6) else
  if negb (32 - p_bits v4 =? 128 - p_bits v6) then Ok (inr ESize) else
  if negb (bool_decide (v4 = Masked v4)) || negb (bool_decide (v6 = Masked v6)) then Ok (inr EHostBits) else
  a4 ← As4 (p_addr v4);
  if bool_decide (ClassifyIPv4 a4 = IPv4Invalid) then Ok (inr EReserved) else
  if negb (ValidIPv6 (As16 (p_addr v6))) then Ok (inr EReserved) else
  Ok (inl (add_entry KindStatic v4 v6 false b)).

Definition AddSelf (v4 v6 : Addr) (v6Derived : bool) (b : Builder) : outcome (Builder + BuildErr) :=
  let p4 := PrefixFrom v4 32 in
  let p6 := PrefixFrom v6 128 in
  if negb v6Derived then AddStatic p4 p6 b else
  if negb (Is4 v4) then Ok (inr EReserved) else
  a4 ← As4 v4;
  if bool_decide (ClassifyIPv4 a4 = IPv4Invalid) then Ok (inr EReserved) else
  Ok (inl (add_entry KindStatic p4 p6 true b)).

(** [SetPool]: the pool becomes the one the builder refers to. *)
Definition SetPool (p : Pool) (b : Builder) : Builder + BuildErr :=
  if b_pool b then inr EConflict else
  let b := mkBuilder (b_wkpfStrict b) (b_entries b) true in
  inl (add_entry KindDynamicPool (p_prefix p) PrefixZero false b).

(** [sort.SliceStable] by decreasing [key]. *)
Fixpoint insert_desc (key : Entry -> Z) (e : Entry) (l : list Entry) : list Entry :=
  match l with
  | [] => [e]
  | x :: l => if key x <? key e then e :: x :: l else x :: insert_desc key e l
  end.
Definition sort_desc (key : Entry -> Z) (l : list Entry) : list Entry :=
  fold_left (fun acc e => insert_desc key e acc) l [].

Definition set_hosts4 (m : gmap Addr Entry) (t : Table) : Table :=
  mkTable (t_wkpfStrict t) (t_prefix t) m (t_hosts6 t) (t_nets4 t) (t_nets6 t) (t_pool t) (t_poolEntry t).
Definition set_hosts6 (m : gmap Addr Entry) (t : Table) : Table :=
  mkTable (t_wkpfStrict t) (t_prefix t) (t_hosts4 t) m (t_nets4 t) (t_nets6 t) (t_pool t) (t_poolEntry t).
Definition set_nets4 (l : list Entry) (t : Table) : Table :=
  mkTable (t_wkpfStrict t) (t_prefix t) (t_hosts4 t) (t_hosts6 t) l (t_nets6 t) (t_pool t) (t_poolEntry t).
Definition set_nets6 (l : list Entry) (t : Table) : Table :=
  mkTable (t_wkpfStrict t) (t_prefix t) (t_hosts4 t) (t_hosts6 t) (t_nets4 t) l (t_pool t) (t_poolEntry t).
Definition set_prefix (e : Entry) (t : Table) : Table :=
  mkTable (t_wkpfStrict t) (Some e) (t_hosts4 t) (t_hosts6 t) (t_nets4 t) (t_nets6 t) (t_pool t) (t_poolEntry t).
Definition set_poolEntry (e : Entry) (t : Table) : Table :=
  mkTable (t_wkpfStrict t) (t_prefix t) (t_hosts4 t) (t_hosts6 t) (t_nets4 t) (t_nets6 t) (t_pool t) (Some e).

(** The first loop of [Build]: the IPv4 side; [v6s] is threaded through. *)
Fixpoint build4 (entries : list Entry) (t : Table) (v6s : list Entry) : (Table * list Entry) + BuildErr :=
  match entries with
  | [] => inl (t, v6s)
  | e :: entries =>
      match e_Kind e with
      | KindRFC6052 =>
          let t := set_prefix e t in
          build4 entries (set_nets4 (t_nets4 t ++ [e]) t) (v6s ++ [e])
      | KindDynamicPool =>
          let t := set_poolEntry e t in
          build4 entries (set_nets4 (t_nets4 t ++ [e]) t) v6s
      | KindStatic =>
          let v6s := if negb (e_v4Only e) then v6s ++ [e] else v6s in
          if p_bits (e_V4 e) =? 32 then
            if bool_decide (is_Some (t_hosts4 t !! p_addr (e_V4 e))) then inr EConflict
            else build4 entries (set_hosts4 (<[p_addr (e_V4 e) := e]> (t_hosts4 t)) t) v6s
          else
            if existsb (fun o => negb (bool_decide (e_Kind o = KindDynamicPool)) &&
                                 bool_decide (e_V4 o = e_V4 e)) (t_nets4 t)
            then inr EConflict
            else build4 entries (set_nets4 (t_nets4 t ++ [e]) t) v6s
      | KindDynamicHost => build4 entries t v6s
      end
  end.

(** The loop over the IPv6 side; [done] is [v6s[:i]]. *)
Fixpoint build6 (v6s done : list Entry) (t : Table) : Table + BuildErr :=
  match v6s with
  | [] => inl t
  | e :: v6s =>
      if existsb (fun o => Overlaps (e_V6 o) (e_V6 e)) done then inr EConflict else
      let t := if bool_decide (e_Kind e = KindStatic) && (p_bits (e_V6 e) =? 128)
               then set_hosts6 (<[p_addr (e_V6 e) := e]> (t_hosts6 t)) t
               else set_nets6 (t_nets6 t ++ [e]) t in
      build6 v6s (done ++ [e]) t
  end.

Definition table_lookup4 (t : Table) (a : Addr) : option Entry :=
  match t_hosts4 t !! a with
  | Some e => Some e
  | None => find (fun e => Contains (e_V4 e) a) (t_nets4 t)
  end.

Definition table_lookup6 (t : Table) (a : Addr) : option Entry :=
  match t_hosts6 t !! a with
  | Some e => Some e
  | None => find (fun e => Contains (e_V6 e) a) (t_nets6 t)
  end.

(** [t.pool.reserved] *)
Definition table_reserved (t : Table) (a : Addr) : bool :=
  negb (same_entry (table_lookup4 t a) (t_poolEntry t)).

(** [Build], without its effect on the pool. *)
Definition build_table (b : Builder) : Table + BuildErr :=
  let t := mkTable (b_wkpfStrict b) None ∅ ∅ [] [] (b_pool b) None in
  match build4 (sort_desc (fun e => p_bits (e_V4 e)) (b_entries b)) t [] with
  | inr err => inr err
  | inl (t, v6s) =>
      if (match t_poolEntry t with
          | None => false
          | Some pe => existsb (fun o => negb (same_entry (Some o) (Some pe)) &&
                                 bool_decide (e_Kind o = KindStatic) && bool_decide (e_V4 o = e_V4 pe))
                         (t_nets4 t)
          end)
      then inr EConflict
      else build6 (sort_desc (fun e => p_bits (e_V6 e)) v6s) [] t
  end.

(** [Build] runs on the pool; it writes through [t.pool] only when it succeeds. *)
Definition Build (b : Builder) : M (option Pool) (Table + BuildErr) :=
  match build_table b with
  | inr err => mret (inr err)
  | inl t =>
      (if t_pool t then
         p ← gets id;
         match p with
         | None => lift Panic
         | Some p => modify (fun _ => Some (with_reserved (table_reserved t) p))
         end
       else skip);;
      mret (inl t)
  end.

Definition table_Prefix (t : Table) : Prefix * bool :=
  match t_prefix t with None => (PrefixZero, false) | Some e => (e_V6 e, true) end.

(** [joinStatic6] and [joinStatic4]: [x[i] |= v] on an array. *)
Definition or_at (l : list Z) (i : nat) (v : Z) : list Z := <[i := Z.lor (l !!! i) v]> l.

Definition joinStatic6 (e : Entry) (a : Addr) : outcome Addr :=
  if p_bits (e_V4 e) =? 32 then Ok (p_addr (e_V6 e)) else
  if p_bits (e_V4 e) <? 0 then Panic else
  let hostMask := Z.shiftr 0xffffffff (p_bits (e_V4 e)) in
  a4 ← As4 a;
  let host := Z.land (be a4) hostMask in
  let v6 := As16 (p_addr (e_V6 e)) in
  let v6 := or_at v6 12 (u8 (Z.shiftr host 24)) in
  let v6 := or_at v6 13 (u8 (Z.shiftr host 16)) in
  let v6 := or_at v6 14 (u8 (Z.shiftr host 8)) in
  let v6 := or_at v6 15 (u8 host) in
  Ok (AddrFrom16 v6).

Definition joinStatic4 (e : Entry) (a : Addr) : outcome Addr :=
  if p_bits (e_V6 e) =? 128 then Ok (p_addr (e_V4 e)) else
  if p_bits (e_V4 e) <? 0 then Panic else
  let hostMask := Z.shiftr 0xffffffff (p_bits (e_V4 e)) in
  let a6 := As16 a in
  let host := Z.land (be [a6 !!! 12%nat; a6 !!! 13%nat; a6 !!! 14%nat; a6 !!! 15%nat]) hostMask in
  v4 ← As4 (p_addr (e_V4 e));
  let v4 := or_at v4 0 (u8 (Z.shiftr host 24)) in
  let v4 := or_at v4 1 (u8 (Z.shiftr host 16)) in
  let v4 := or_at v4 2 (u8 (Z.shiftr host 8)) in
  let v4 := or_at v4 3 (u8 host) in
  Ok (AddrFrom4 v4).

Definition embed (t : Table) (a : Addr) (prefix : Prefix) : outcome (Addr + MapErr) :=
  a4 ← As4 a;
  if negb (bool_decide (ClassifyIPv4 a4 = IPv4Valid)) then Ok (inr ErrDrop) else
  if t_wkpfStrict t && IsWellKnownPrefix prefix && IsPrivateIPv4 a4 then Ok (inr ErrReject) else
  out ← Embed (As16 (p_addr prefix)) (p_bits prefix) a4;
  match out with
  | inr _ => Ok (inr ErrDrop)
  | inl out => Ok (inl (AddrFrom16 out))
  end.

(** A call on the pool; the pointer must not be nil. *)
Definition on_pool {A} (m : M Pool A) : M (option Pool) A := fun po =>
  match po with
  | None => Panic
  | Some p => '(r, p) ← m p; Ok (r, Some p)
  end.

Section mapper.
Context (clock : nat -> Z).
Context (range : nat -> gmap Addr nat -> list (Addr * nat)).

Definition table_MapIPv4ToIPv6 (t : Table) (a : Addr) : M (option Pool) (Addr + MapErr) :=
  match table_lookup4 t a with
  | None => mret (inr ErrReject)
  | Some e =>
      match e_Kind e with
      | KindStatic => r ← lift (joinStatic6 e a); mret (inl r)
      | KindRFC6052 => lift (embed t a (e_V6 e))
      | KindDynamicPool =>
          r ← on_pool (lookup4 clock a);
          match r with
          | Some v6 => mret (inl v6)
          | None => mret (inr ErrReject)
          end
      | KindDynamicHost => mret (inr ErrDrop)
      end
  end.

Definition table_MapIPv6ToIPv4 (t : Table) (a : Addr) (allocate : bool) : M (option Pool) (Addr + MapErr) :=
  match table_lookup6 t a with
  | None =>
      if negb (t_pool t) then mret (inr ErrReject) else
      r ← on_pool (lookup6 clock range a allocate);
      match r with
      | Some v4 => mret (inl v4)
      | None => mret (inr ErrReject)
      end
  | Some e =>
      match e_Kind e with
      | KindStatic => r ← lift (joinStatic4 e a); mret (inl r)
      | KindRFC6052 =>
          r ← lift (Extract (As16 a) (p_bits (e_V6 e)));
          match r with
          | inr _ => mret (inr ErrDrop)
          | inl v4b =>
              if negb (bool_decide (ClassifyIPv4 v4b = IPv4Valid)) then mret (inr ErrDrop) else
              if t_wkpfStrict t && IsWellKnownPrefix (e_V6 e) && IsPrivateIPv4 v4b
              then mret (inr ErrReject) else
              let v4 := AddrFrom4 v4b in
              if negb (same_entry (table_lookup4 t v4) (Some e)) then mret (inr ErrDrop) else
              mret (inl v4)
          end
      | _ => mret (inr ErrDrop)
      end
  end.

(** [*Table] as the translator's [Mapper]: a table and its pool. *)
Definition table_mapper : Mapper (Table * option Pool) := {|
  MapIPv4ToIPv6 a s := '(r, po) ← table_MapIPv4ToIPv6 s.1 a s.2; Ok (r, (s.1, po));
  MapIPv6ToIPv4 a allocate s := '(r, po) ← table_MapIPv6ToIPv4 s.1 a allocate s.2; Ok (r, (s.1, po));
|}.
End mapper.

(** [Entries], for display: each entry of the four collections once, the maps in
    the order [order4] and [order6] visit them, sorted by kind and IPv4 address. *)
Definition kind_le (k : EntryKind) : Z :=
  match k with KindStatic => 0 | KindRFC6052 => 1 | KindDynamicPool => 2 | KindDynamicHost => 3 end.
Definition entry_less (x y : Entry) : bool :=
  if negb (bool_decide (e_Kind x = e_Kind y)) then kind_le (e_Kind x) <? kind_le (e_Kind y)
  else Less (p_addr (e_V4 x)) (p_addr (e_V4 y)).

Fixpoint add_unseen (seen : list nat) (es : list Entry) : list Entry :=
  match es with
  | [] => []
  | e :: es => if bool_decide (e_id e ∈ seen) then add_unseen seen es
               else e :: add_unseen (e_id e :: seen) es
  end.

(** [sort] is whatever [sort.Slice] does with equal elements. *)
Definition Entries (order4 order6 : list Entry) (sort : (Entry -> Entry -> bool) -> list Entry -> list Entry)
    (t : Table) : list Entry :=
  sort entry_less (add_unseen [] (order4 ++ t_nets4 t ++ order6 ++ t_nets6 t)).
