(* ===== verification/Join.v ===== *)
(** * The arithmetic of the table: joining prefixes and host bits

    [joinStatic6], [joinStatic4] and [embed] work on byte arrays; the lemmas say
    what they compute on numbers. *)

From stdpp Require Import base tactics list numbers option strings gmap sorting.
From Stdlib Require Import ZArith Lia.
From S2P Require Import Prelude Netip Netutil Text Events Packet Translator Pool PoolFacts Table.

Open Scope Z_scope.

(** ** Bits *)

Lemma testbit_byte a b k :
  byte_ok b -> 0 <= k -> Z.testbit (a * 256 + b) k = if k <? 8 then Z.testbit b k else Z.testbit a (k - 8).
Proof.
  intros Hb Hk. unfold byte_ok in Hb. case_if; bool_prop.
  - rewrite <- (Z.mod_pow2_bits_low _ 8 k) by lia. f_equal. change (2 ^ 8) with 256. dlia.
  - replace k with (k - 8 + 8) at 1 by lia. rewrite <- Z.div_pow2_bits by lia.
    f_equal. change (2 ^ 8) with 256. dlia.
Qed.

Lemma lor_byte b d : byte_ok b -> byte_ok d -> byte_ok (Z.lor b d).
Proof.
  unfold byte_ok. intros Hb Hd. split; [apply Z.lor_nonneg; lia|].
  destruct (decide (Z.lor b d = 0)) as [->|Hne]; [lia|].
  assert (0 <= Z.lor b d) by (apply Z.lor_nonneg; lia).
  change 256 with (2 ^ 8). apply Z.log2_lt_pow2; [lia|]. rewrite Z.log2_lor by lia.
  apply Z.max_lub_lt.
  - destruct (decide (b = 0)) as [->|]; [done|]. apply Z.log2_lt_pow2; lia.
  - destruct (decide (d = 0)) as [->|]; [done|]. apply Z.log2_lt_pow2; lia.
Qed.

Lemma lor_step a b c d :
  byte_ok b -> byte_ok d -> Z.lor (a * 256 + b) (c * 256 + d) = Z.lor a c * 256 + Z.lor b d.
Proof.
  intros Hb Hd. apply Z.bits_inj'. intros k Hk.
  rewrite Z.lor_spec, !testbit_byte by (done || by apply lor_byte).
  case_if; by rewrite Z.lor_spec.
Qed.


Lemma lor_add_low a b n : 0 <= n -> a mod 2 ^ n = 0 -> 0 <= b < 2 ^ n -> Z.lor a b = a + b.
Proof.
  intros Hn Ha Hb. symmetry. apply Z.add_nocarry_lor, Z.bits_inj'. intros k Hk.
  rewrite Z.land_spec, Z.bits_0. destruct (decide (k < n)).
  - rewrite <- (Z.mod_pow2_bits_low a n k) by lia. by rewrite Ha, Z.bits_0.
  - rewrite <- (Z.mod_small b (2 ^ n)) by lia. rewrite Z.mod_pow2_bits_high by lia. apply andb_false_r.
Qed.

Lemma be4_horner a b c d : be [a; b; c; d] = ((a * 256 + b) * 256 + c) * 256 + d.
Proof. rewrite be4. lia. Qed.

(** The four bytes of a 32-bit value, as the code takes them. *)
Lemma bytes_of_32 h :
  0 <= h < 2 ^ 32 ->
  [u8 (Z.shiftr h 24); u8 (Z.shiftr h 16); u8 (Z.shiftr h 8); u8 h] = be_bytes 4 h.
Proof.
  intros Hh. unfold be_bytes, u8. cbn [app]. rewrite !Z.shiftr_div_pow2 by lia.
  change (2 ^ 24) with (256 * 256 * 256). change (2 ^ 16) with (256 * 256). change (2 ^ 8) with 256.
  rewrite !Z.div_div by lia. done.
Qed.

Lemma or_at_app pre l i v : or_at (pre ++ l) (length pre + i) v = pre ++ or_at l i v.
Proof. unfold or_at. by rewrite insert_app_r, lookup_total_app_r, Nat.add_comm, Nat.add_sub by lia. Qed.

(** [x[i] |= byte(...)] on the last four of its bytes. *)
Lemma or_at_last pre x0 x1 x2 x3 h :
  bytes_ok [x0; x1; x2; x3] -> 0 <= h < 2 ^ 32 ->
  let k := length pre in
  or_at (or_at (or_at (or_at (pre ++ [x0; x1; x2; x3]) k (u8 (Z.shiftr h 24)))
    (k + 1) (u8 (Z.shiftr h 16))) (k + 2) (u8 (Z.shiftr h 8))) (k + 3) (u8 h) =
  pre ++ be_bytes 4 (Z.lor (be [x0; x1; x2; x3]) h).
Proof.
  intros Hx Hh k. pose proof (bytes_of_32 h Hh) as E4.
  set (h0 := u8 (Z.shiftr h 24)) in *. set (h1 := u8 (Z.shiftr h 16)) in *.
  set (h2 := u8 (Z.shiftr h 8)) in *. set (h3 := u8 h) in *.
  assert (Hb : bytes_ok [h0; h1; h2; h3]) by (rewrite E4; apply be_bytes_ok).
  assert (Eh : be [h0; h1; h2; h3] = h).
  { rewrite E4, be_be_bytes. apply Z.mod_small. done. }
  assert (El : Z.lor (be [x0; x1; x2; x3]) h = be [Z.lor x0 h0; Z.lor x1 h1; Z.lor x2 h2; Z.lor x3 h3]).
  { rewrite <- Eh, !be4_horner. bytes_inv. by rewrite !lor_step by (unfold byte_ok; lia). }
  rewrite El. change 4%nat with (length [Z.lor x0 h0; Z.lor x1 h1; Z.lor x2 h2; Z.lor x3 h3]).
  rewrite be_bytes_be.
  - rewrite <- (Nat.add_0_r k) at 1. unfold k. by rewrite !or_at_app.
  - bytes_inv. repeat constructor; apply lor_byte; unfold byte_ok; lia.
Qed.

Lemma be_bytes_app n m v : be_bytes (n + m) v = be_bytes n (v / 256 ^ Z.of_nat m) ++ be_bytes m v.
Proof.
  revert v. induction m as [|m IH]; intros v.
  - rewrite Nat.add_0_r. change (256 ^ Z.of_nat 0) with 1. by rewrite Z.div_1_r, app_nil_r.
  - rewrite <- plus_n_Sm. change (be_bytes (S (n + m)) v) with (be_bytes (n + m) (v / 256) ++ [v mod 256]).
    change (be_bytes (S m) v) with (be_bytes m (v / 256) ++ [v mod 256]).
    rewrite IH, <- app_assoc. do 2 f_equal.
    rewrite Nat2Z.inj_succ, Z.pow_succ_r by lia. by rewrite Z.div_div by lia.
Qed.

Lemma mod_pow_mod v n m : 0 <= n <= m -> (v mod 2 ^ m) mod 2 ^ n = v mod 2 ^ n.
Proof.
  intros Hn. replace (2 ^ m) with (2 ^ n * 2 ^ (m - n)) by (rewrite <- Z.pow_add_r by lia; f_equal; lia).
  assert (0 < 2 ^ n) by (apply Z.pow_pos_nonneg; lia).
  assert (0 < 2 ^ (m - n)) by (apply Z.pow_pos_nonneg; lia).
  rewrite Z.rem_mul_r, (Z.mul_comm (2 ^ n) (_ mod _)), Z.mod_add, Z.mod_mod by lia. done.
Qed.

(** ** Static entries *)

(** A static map of [2 ^ k] addresses from [v0] to [w]. *)
Record static_map (e : Entry) (v0 w k : Z) : Prop := {
  sm_k : 0 <= k <= 32;
  sm_v4 : e_V4 e = mkPrefix (Addr4 v0) (32 - k);
  sm_v6 : e_V6 e = mkPrefix (Addr6 w "") (128 - k);
  sm_v0 : 0 <= v0 < 2 ^ 32 /\ v0 mod 2 ^ k = 0;
  sm_w : 0 <= w < 2 ^ 128 /\ w mod 2 ^ k = 0;
}.

Lemma host_mask k : 0 <= k <= 32 -> Z.shiftr 0xffffffff (32 - k) = Z.ones k.
Proof.
  intros Hk. change 0xffffffff with (Z.ones 32). rewrite Z.shiftr_div_pow2, Z.ones_div_pow2 by lia.
  f_equal. lia.
Qed.

Lemma be_bytes4_list w : exists x0 x1 x2 x3, be_bytes 4 w = [x0; x1; x2; x3].
Proof. unfold be_bytes. cbn [app]. eauto. Qed.

(** The last four bytes of a number with the host bits set. *)
Lemma or_host x k h :
  0 <= k <= 32 -> x mod 2 ^ k = 0 -> 0 <= h < 2 ^ k ->
  Z.lor (x mod 2 ^ 32) h = x mod 2 ^ 32 + h /\ x mod 2 ^ 32 + h < 2 ^ 32.
Proof.
  intros Hk Hx Hh. assert (E : (x mod 2 ^ 32) mod 2 ^ k = 0) by by rewrite mod_pow_mod by lia.
  split; [by apply (lor_add_low _ _ k); [lia|..]|].
  pose proof (Z.mod_pos_bound x (2 ^ 32)) as Hb.
  assert (Hp : 0 < 2 ^ k) by (apply Z.pow_pos_nonneg; lia).
  apply Z.mod_divide in E as [q Eq]; [|lia]. rewrite Eq in *.
  assert (E32 : 2 ^ 32 = 2 ^ (32 - k) * 2 ^ k) by (rewrite <- Z.pow_add_r by lia; f_equal; lia).
  rewrite E32 in *. pose proof (block_fits q (2 ^ k) (2 ^ (32 - k))). lia.
Qed.

Lemma joinStatic6_eq e v0 w k v :
  static_map e v0 w k -> 0 <= v < 2 ^ 32 -> joinStatic6 e (Addr4 v) = Ok (Addr6 (w + v mod 2 ^ k) "").
Proof.
  intros [Hk E4 E6 [Hv0 Hv0m] [Hw Hwm]] Hv. unfold joinStatic6. rewrite E4, E6. cbn [p_bits p_addr].
  case_if; bool_prop.
  { replace k with 0 by lia. change (2 ^ 0) with 1. by rewrite Z.mod_1_r, Z.add_0_r. }
  rewrite (proj2 (Z.ltb_ge _ _)) by lia. cbn [As4 mbind outcome_bind].
  rewrite be_be_bytes, (Z.mod_small v) by (change (256 ^ Z.of_nat 4) with (2 ^ 32); lia).
  rewrite host_mask, Z.land_ones by lia. set (h := v mod 2 ^ k).
  assert (Hp : 0 < 2 ^ k) by (apply Z.pow_pos_nonneg; lia).
  assert (Hh : 0 <= h < 2 ^ k) by (apply Z.mod_pos_bound; lia).
  assert (2 ^ k <= 2 ^ 32) by (apply Z.pow_le_mono_r; lia).
  cbn [As16]. rewrite (be_bytes_app 12 4). change (256 ^ Z.of_nat 4) with (2 ^ 32).
  destruct (be_bytes4_list w) as (x0 & x1 & x2 & x3 & Ex). rewrite Ex.
  pose proof (or_at_last (be_bytes 12 (w / 2 ^ 32)) x0 x1 x2 x3 h) as Eo.
  rewrite length_be_bytes in Eo. cbn [Nat.add] in Eo. rewrite Eo; [|rewrite <- Ex; apply be_bytes_ok|lia].
  rewrite <- Ex, be_be_bytes. change (256 ^ Z.of_nat 4) with (2 ^ 32).
  destruct (or_host w k h) as [-> Hlt]; [done..|].
  unfold AddrFrom16. rewrite be_app, !be_be_bytes. unfold len. rewrite length_be_bytes.
  change (256 ^ Z.of_nat 4) with (2 ^ 32). change (256 ^ Z.of_nat 12) with (2 ^ 96).
  pose proof (Z.mod_pos_bound w (2 ^ 32)). rewrite (Z.mod_small (_ + h)) by lia.
  rewrite (Z.mod_small (w / 2 ^ 32)) by (change (2 ^ 128) with (2 ^ 32 * 2 ^ 96) in Hw; dlia).
  pose proof (Z.div_mod w (2 ^ 32)). do 2 f_equal. lia.
Qed.

Lemma joinStatic4_eq e v0 w k u :
  static_map e v0 w k -> 0 <= u < 2 ^ 128 -> joinStatic4 e (Addr6 u "") = Ok (Addr4 (v0 + u mod 2 ^ k)).
Proof.
  intros [Hk E4 E6 [Hv0 Hv0m] [Hw Hwm]] Hu. unfold joinStatic4. rewrite E4, E6. cbn [p_bits p_addr].
  case_if; bool_prop.
  { replace k with 0 by lia. change (2 ^ 0) with 1. by rewrite Z.mod_1_r, Z.add_0_r. }
  rewrite (proj2 (Z.ltb_ge _ _)) by lia. cbn [As16].
  rewrite (be_bytes_app 12 4). change (256 ^ Z.of_nat 4) with (2 ^ 32).
  destruct (be_bytes4_list u) as (y0 & y1 & y2 & y3 & Ey). rewrite Ey.
  assert (Ehost : be [(be_bytes 12 (u / 2 ^ 32) ++ [y0; y1; y2; y3]) !!! 12%nat;
                      (be_bytes 12 (u / 2 ^ 32) ++ [y0; y1; y2; y3]) !!! 13%nat;
                      (be_bytes 12 (u / 2 ^ 32) ++ [y0; y1; y2; y3]) !!! 14%nat;
                      (be_bytes 12 (u / 2 ^ 32) ++ [y0; y1; y2; y3]) !!! 15%nat] = u mod 2 ^ 32).
  { rewrite !lookup_total_app_r by (rewrite length_be_bytes; lia). rewrite !length_be_bytes.
    cbn [Nat.sub lookup_total list_lookup_total]. rewrite <- Ey, be_be_bytes. done. }
  rewrite Ehost, host_mask, Z.land_ones, mod_pow_mod by lia. set (h := u mod 2 ^ k).
  assert (Hp : 0 < 2 ^ k) by (apply Z.pow_pos_nonneg; lia).
  assert (Hh : 0 <= h < 2 ^ k) by (apply Z.mod_pos_bound; lia).
  assert (2 ^ k <= 2 ^ 32) by (apply Z.pow_le_mono_r; lia).
  cbn [As4 mbind outcome_bind].
  destruct (be_bytes4_list v0) as (x0 & x1 & x2 & x3 & Ex). rewrite Ex.
  pose proof (or_at_last [] x0 x1 x2 x3 h) as Eo. cbn [length Nat.add app] in Eo.
  rewrite Eo; [|rewrite <- Ex; apply be_bytes_ok|lia].
  rewrite <- Ex, be_be_bytes. change (256 ^ Z.of_nat 4) with (2 ^ 32).
  destruct (or_host v0 k h) as [-> Hlt]; [done..|].
  unfold AddrFrom4. rewrite be_be_bytes. change (256 ^ Z.of_nat 4) with (2 ^ 32).
  rewrite (Z.mod_small v0) in * by lia. rewrite (Z.mod_small (_ + h)) by lia. done.
Qed.

(** Membership in the two prefixes of a static map. *)
Lemma shiftr_block x y k : 0 <= k -> y mod 2 ^ k = 0 -> Z.shiftr x k = Z.shiftr y k <-> x = y + x mod 2 ^ k.
Proof.
  intros Hk Hy. rewrite !Z.shiftr_div_pow2 by lia.
  assert (Hp : 0 < 2 ^ k) by (apply Z.pow_pos_nonneg; lia).
  pose proof (Z.div_mod x (2 ^ k)). pose proof (Z.div_mod y (2 ^ k)). split; intros E; [rewrite E in *; lia|].
  apply (Z.mul_reg_l _ _ (2 ^ k)); lia.
Qed.

Lemma static_Contains4 e v0 w k v :
  static_map e v0 w k -> Contains (e_V4 e) (Addr4 v) = true <-> v = v0 + v mod 2 ^ k.
Proof.
  intros [Hk -> _ [_ Hm] _]. rewrite Contains4 by lia. replace (32 - (32 - k)) with k by lia.
  apply shiftr_block; [lia|done].
Qed.

Lemma Contains6 v w bits :
  0 <= bits -> Contains (mkPrefix (Addr6 v "") bits) (Addr6 w "") = true <->
  Z.shiftr w (128 - bits) = Z.shiftr v (128 - bits).
Proof.
  intros Hb. unfold Contains, PIsValid. simpl. rewrite (proj2 (Z.leb_le 0 bits)) by done.
  simpl. apply Z.eqb_eq.
Qed.

Lemma static_Contains6 e v0 w k u :
  static_map e v0 w k -> Contains (e_V6 e) (Addr6 u "") = true <-> u = w + u mod 2 ^ k.
Proof.
  intros [Hk _ -> _ [_ Hm]]. rewrite Contains6 by lia. replace (128 - (128 - k)) with k by lia.
  apply shiftr_block; [lia|done].
Qed.

(** ** The RFC 6052 entry *)

(** A prefix [w/n] of a length RFC 6052 allows. *)
Record nat64_prefix (p : Prefix) (w n : Z) : Prop := {
  np_eq : p = mkPrefix (Addr6 w "") n;
  np_len : ValidRFC6052PrefixLen n = true;
  np_w : 0 <= w < 2 ^ 128;
}.

Lemma rfc_len n : ValidRFC6052PrefixLen n = true -> n = 32 \/ n = 40 \/ n = 48 \/ n = 56 \/ n = 64 \/ n = 96.
Proof.
  intros H%bool_decide_eq_true_1.
  repeat (apply elem_of_cons in H as [->|H]; [by auto 7|]). by apply elem_of_nil in H.
Qed.

(** The high bytes of a big-endian number are its high bits. *)
Lemma be_take k l :
  bytes_ok l -> (k <= length l)%nat -> be (take k l) = Z.shiftr (be l) (8 * Z.of_nat (length l - k)).
Proof.
  intros Hb Hk. rewrite Z.shiftr_div_pow2 by lia.
  rewrite <- (take_drop k l) at 2. rewrite be_app. unfold len. rewrite length_drop.
  rewrite Z.pow_mul_r by lia. change (2 ^ 8) with 256.
  pose proof (be_range (drop k l) (bytes_ok_drop k l Hb)) as Hr. unfold len in Hr. rewrite length_drop in Hr.
  rewrite Z.div_add_l by lia. rewrite Z.div_small by lia. lia.
Qed.

Lemma Contains_take w n l :
  ValidRFC6052PrefixLen n = true -> 0 <= w < 2 ^ 128 -> bytes_ok l -> length l = 16%nat ->
  Contains (mkPrefix (Addr6 w "") n) (AddrFrom16 l) = true <->
  take (Z.to_nat (n / 8)) l = take (Z.to_nat (n / 8)) (be_bytes 16 w).
Proof.
  intros Hn Hw Hb Hl. apply rfc_len in Hn.
  assert (En : exists k, (k <= 16)%nat /\ n = 8 * Z.of_nat k) by
    (destruct Hn as [->|[->|[->|[->|[->| ->]]]]];
     [exists 4%nat|exists 5%nat|exists 6%nat|exists 7%nat|exists 8%nat|exists 12%nat]; (split; [lia|done])).
  destruct En as (k & Hk & ->). unfold AddrFrom16. rewrite Contains6 by lia.
  replace (8 * Z.of_nat k / 8) with (Z.of_nat k) by dlia. rewrite Nat2Z.id.
  replace (128 - 8 * Z.of_nat k) with (8 * Z.of_nat (16 - k)) by lia.
  pose proof (be_take k l Hb) as E1. rewrite Hl in E1. rewrite <- E1 by lia.
  pose proof (be_take k (be_bytes 16 w) (be_bytes_ok _ _)) as E2. rewrite length_be_bytes in E2.
  rewrite be_be_bytes, Z.mod_small in E2 by (change (256 ^ Z.of_nat 16) with (2 ^ 128); lia).
  rewrite <- E2 by lia. split; [|by intros ->].
  apply be_inj; [by apply bytes_ok_take|apply bytes_ok_take, be_bytes_ok|].
  rewrite !length_take, length_be_bytes. lia.
Qed.

Lemma Embed_bytes p n v4 out :
  ValidRFC6052PrefixLen n = true -> length p = 16%nat -> bytes_ok p -> length v4 = 4%nat -> bytes_ok v4 ->
  Embed p n v4 = Ok (inl out) -> bytes_ok out.
Proof.
  intros Hn Hp Hpb Hv Hvb. explode Hp. explode Hv. bytes_inv.
  rfc6052_cases Hn; exec; intros [= <-]; repeat (constructor; [unfold byte_ok; lia|]); constructor.
Qed.

Lemma Extract_bytes v6 n v4 :
  length v6 = 16%nat -> bytes_ok v6 -> Extract v6 n = Ok (inl v4) -> bytes_ok v4 /\ length v4 = 4%nat.
Proof.
  intros Hl Hb H. destruct (Embed_Extract_ok v6 n v4 Hl H) as (Hn & Hv & _). split; [|done].
  explode Hl. bytes_inv.
  rfc6052_cases Hn; unfold Extract in H; exec_in H; try case_if; simplify_eq; repeat (constructor; [unfold byte_ok; lia|]); constructor.
Qed.

(** Only the prefix bytes of the first argument matter. *)
Lemma Embed_same p q n v4 :
  ValidRFC6052PrefixLen n = true -> length p = 16%nat -> length q = 16%nat ->
  take (Z.to_nat (n / 8)) p = take (Z.to_nat (n / 8)) q -> Embed p n v4 = Embed q n v4.
Proof.
  intros Hn%rfc_len Hp Hq E. unfold Embed.
  assert (0 <= n / 8 <= 16) by dlia. assert (len p = 16) by (unfold len; lia).
  assert (len q = 16) by (unfold len; lia).
  rewrite Z.quot_div_nonneg, (sub_ok p), (sub_ok q) by lia. rewrite !drop_0, Z.sub_0_r, E. done.
Qed.
