(* ===== verification/TableFacts.v ===== *)
(** * What [Build] makes of the entries

    [entries_ok] is what the builder's methods ensure of its entries; [table_of]
    says how the collections of a table are related to them.  The two lookups are
    then longest-prefix match on the IPv4 side and membership in one of a set of
    disjoint prefixes on the IPv6 side. *)

From stdpp Require Import base tactics list numbers option strings gmap sorting.
From Stdlib Require Import ZArith Lia.
From S2P Require Import Prelude Netip Netutil Text Events Packet Translator Pool PoolFacts Table Join.

Open Scope Z_scope.

(** ** Stable sorting by decreasing key *)

Section sorting.
Context (key : Entry -> Z).

Definition desc (x y : Entry) : Prop := key y <= key x.

Lemma insert_desc_perm e l : insert_desc key e l ≡ₚ e :: l.
Proof.
  induction l as [|x l IH]; [done|]. cbn. case_if; [done|]. rewrite IH. apply Permutation_swap.
Qed.

Lemma insert_desc_sorted e l : StronglySorted desc l -> StronglySorted desc (insert_desc key e l).
Proof.
  induction 1 as [|x l Hl IH Hx]; cbn; [repeat constructor|].
  case_if; bool_prop.
  - constructor; [by constructor|]. constructor; [unfold desc; lia|].
    eapply Forall_impl; [exact Hx|]. unfold desc. lia.
  - constructor; [done|]. rewrite insert_desc_perm. constructor; [unfold desc; lia|done].
Qed.

Lemma sort_desc_spec l : sort_desc key l ≡ₚ l /\ StronglySorted desc (sort_desc key l).
Proof.
  unfold sort_desc.
  assert (H : forall acc, StronglySorted desc acc ->
    fold_left (fun acc e => insert_desc key e acc) l acc ≡ₚ acc ++ l /\
    StronglySorted desc (fold_left (fun acc e => insert_desc key e acc) l acc)).
  { induction l as [|e l IH]; intros acc Hacc; cbn; [by rewrite app_nil_r|].
    destruct (IH (insert_desc key e acc)) as [H1 H2]; [by apply insert_desc_sorted|].
    split; [|done]. rewrite H1, insert_desc_perm. cbn. by rewrite Permutation_middle. }
  apply (H []). constructor.
Qed.

Lemma sorted_filter (P : Entry -> Prop) `{!forall x, Decision (P x)} l :
  StronglySorted desc l -> StronglySorted desc (filter P l).
Proof.
  induction 1 as [|x l Hl IH Hx]; [constructor|]. rewrite filter_cons. case_decide; [|done].
  constructor; [done|]. rewrite Forall_forall in *. intros y [_ Hy]%list_elem_of_filter. auto.
Qed.

(** The first match in a sorted list has the largest key. *)
Lemma find_sorted (f : Entry -> bool) l :
  StronglySorted desc l ->
  match find f l with
  | Some e => e ∈ l /\ f e = true /\ forall x, x ∈ l -> f x = true -> key x <= key e
  | None => forall x, x ∈ l -> f x = false
  end.
Proof.
  induction 1 as [|x l Hl IH Hx]; cbn; [by intros x ?%elem_of_nil|].
  destruct (f x) eqn:E.
  - split; [left|]. split; [done|]. intros y [->|Hy]%elem_of_cons _; [lia|].
    rewrite Forall_forall in Hx. by apply Hx.
  - destruct (find f l) as [e|].
    + destruct IH as (H1 & H2 & H3). split; [by right|]. split; [done|].
      intros y [->|Hy]%elem_of_cons Hf; [congruence|auto].
    + intros y [->|Hy]%elem_of_cons; auto.
Qed.
End sorting.

(** ** Well-formed entries *)

Definition is_v6 (e : Entry) : Prop := e_Kind e = KindRFC6052 \/ (e_Kind e = KindStatic /\ e_v4Only e = false).
Definition is_host4 (e : Entry) : Prop := e_Kind e = KindStatic /\ p_bits (e_V4 e) = 32.
Definition is_host6 (e : Entry) : Prop := e_Kind e = KindStatic /\ p_bits (e_V6 e) = 128.

#[export] Instance is_v6_dec e : Decision (is_v6 e).
Proof. unfold is_v6. apply _. Defined.
#[export] Instance is_host4_dec e : Decision (is_host4 e).
Proof. unfold is_host4. apply _. Defined.
#[export] Instance is_host6_dec e : Decision (is_host6 e).
Proof. unfold is_host6. apply _. Defined.

(** A masked IPv4 prefix of [2 ^ k] addresses. *)
Definition net4_ok (p : Prefix) (v k : Z) : Prop :=
  p = mkPrefix (Addr4 v) (32 - k) /\ 0 <= k <= 32 /\ 0 <= v < 2 ^ 32 /\ v mod 2 ^ k = 0.

(** The entries the builder's methods append. *)
Inductive entry_ok (e : Entry) : Prop :=
  | ok_static v0 w k :
      e_Kind e = KindStatic -> e_v4Only e = false -> static_map e v0 w k ->
      ClassifyIPv4 (be_bytes 4 v0) <> IPv4Invalid -> entry_ok e
  | ok_self v a :
      e_Kind e = KindStatic -> e_v4Only e = true -> net4_ok (e_V4 e) v 0 ->
      p_addr (e_V6 e) = a -> entry_ok e
  | ok_prefix w n :
      e_Kind e = KindRFC6052 -> e_V4 e = mkPrefix (Addr4 0) 0 -> nat64_prefix (e_V6 e) w n -> entry_ok e
  | ok_pool v k :
      e_Kind e = KindDynamicPool -> net4_ok (e_V4 e) v k -> 1 <= k <= 24 -> entry_ok e.

Record entries_ok (b : Builder) : Prop := {
  eo_ok : Forall entry_ok (b_entries b);
  eo_ids : NoDup (e_id <$> b_entries b);
  eo_prefix : forall e o, e ∈ b_entries b -> o ∈ b_entries b ->
    e_Kind e = KindRFC6052 -> e_Kind o = KindRFC6052 -> e = o;
  eo_pool : forall e o, e ∈ b_entries b -> o ∈ b_entries b ->
    e_Kind e = KindDynamicPool -> e_Kind o = KindDynamicPool -> e = o;
  eo_has_pool : forall e, e ∈ b_entries b -> e_Kind e = KindDynamicPool -> b_pool b = true;
  eo_fresh : forall e, e ∈ b_entries b -> (e_id e < length (b_entries b))%nat;
}.

Lemma entry_net4 e : entry_ok e -> exists v k, net4_ok (e_V4 e) v k.
Proof.
  intros [v0 w k _ _ [Hk E4 _ [Hv Hm] _] _|v a _ _ Hn _|w n _ E _|v k _ Hn _]; eauto.
  - exists v0, k. split_and!; first [done|lia].
  - exists 0, 32. rewrite E. split_and!; first [done|lia].
Qed.

(** Prefixes of the same length that share an address are equal. *)
Lemma net4_eq p q v k v' k' x :
  net4_ok p v k -> net4_ok q v' k' -> p_bits p = p_bits q ->
  Contains p (Addr4 x) = true -> Contains q (Addr4 x) = true -> p = q.
Proof.
  intros (-> & Hk & Hv & Hm) (-> & Hk' & Hv' & Hm'). cbn. intros E.
  assert (k' = k) by lia. subst k'. rewrite !Contains4 by lia.
  replace (32 - (32 - k)) with k by lia. rewrite !shiftr_block by (lia || done). intros. do 2 f_equal. lia.
Qed.

Lemma id_inj (es : list Entry) x y :
  NoDup (e_id <$> es) -> x ∈ es -> y ∈ es -> e_id x = e_id y -> x = y.
Proof.
  intros Hnd Hx Hy E. apply list_elem_of_lookup in Hx as [i Hi], Hy as [j Hj].
  assert (i = j).
  { eapply NoDup_lookup; [exact Hnd|..]; rewrite list_lookup_fmap; [by rewrite Hi|]. rewrite Hj. cbn. by rewrite E. }
  congruence.
Qed.

(** ** The loops of [Build] *)

Definition t_keep (t t' : Table) : Prop :=
  t_wkpfStrict t' = t_wkpfStrict t /\ t_pool t' = t_pool t.

(** The IPv4 side after the entries [l]. *)
Record built4 (l : list Entry) (t : Table) (v6s : list Entry) : Prop := {
  b4_hosts : forall a e, t_hosts4 t !! a = Some e <-> e ∈ l /\ is_host4 e /\ p_addr (e_V4 e) = a;
  b4_nets : t_nets4 t = filter (fun e => ~ is_host4 e) l;
  b4_v6s : v6s = filter is_v6 l;
  b4_pool : forall e, t_poolEntry t = Some e -> e ∈ l /\ e_Kind e = KindDynamicPool;
  b4_nopool : t_poolEntry t = None -> forall e, e ∈ l -> e_Kind e <> KindDynamicPool;
  b4_prefix : forall e, t_prefix t = Some e -> e ∈ l /\ e_Kind e = KindRFC6052;
  b4_noprefix : t_prefix t = None -> forall e, e ∈ l -> e_Kind e <> KindRFC6052;
  b4_static : forall e o, e ∈ l -> o ∈ l -> e_Kind e = KindStatic -> e_Kind o = KindStatic ->
    e_V4 e = e_V4 o -> e = o;
  b4_hosts6 : t_hosts6 t = ∅;
  b4_nets6 : t_nets6 t = [];
}.

Lemma filter_snoc (P : Entry -> Prop) `{!forall x, Decision (P x)} l e :
  filter P (l ++ [e]) = filter P l ++ (if decide (P e) then [e] else []).
Proof. rewrite filter_app, filter_cons. by case_decide. Qed.

Lemma elem_of_snoc (l : list Entry) e x : x ∈ l ++ [e] <-> x ∈ l \/ x = e.
Proof. rewrite elem_of_app, list_elem_of_singleton. done. Qed.

Ltac snoc_cases :=
  repeat match goal with
  | H : _ ∈ _ ++ [_] |- _ => apply elem_of_snoc in H as [H| ->]
  end.

(** One entry of each kind. *)
Lemma built4_prefix l t v6s e :
  built4 l t v6s -> e_Kind e = KindRFC6052 ->
  built4 (l ++ [e]) (set_nets4 (t_nets4 (set_prefix e t) ++ [e]) (set_prefix e t)) (v6s ++ [e]).
Proof.
  intros [] E. constructor; cbn; try done.
  - intros a x. rewrite b4_hosts0, elem_of_snoc. split; [tauto|].
    intros ([Hx| ->] & [H1 H2] & H3); [by split_and!|congruence].
  - rewrite filter_snoc, decide_True by (intros [? ?]; congruence). by rewrite b4_nets0.
  - rewrite filter_snoc, decide_True by (by left). by rewrite b4_v6s0.
  - intros x Hx. rewrite elem_of_snoc. destruct (b4_pool0 x Hx). auto.
  - intros Hn x Hx. snoc_cases; [by apply b4_nopool0|congruence].
  - intros x [= <-]. rewrite elem_of_snoc. auto.
  - intros x y Hx Hy Ex Ey. snoc_cases; try congruence. by apply b4_static0.
Qed.

Lemma built4_pool l t v6s e :
  built4 l t v6s -> e_Kind e = KindDynamicPool ->
  built4 (l ++ [e]) (set_nets4 (t_nets4 (set_poolEntry e t) ++ [e]) (set_poolEntry e t)) v6s.
Proof.
  intros [] E. constructor; cbn; try done.
  - intros a x. rewrite b4_hosts0, elem_of_snoc. split; [tauto|].
    intros ([Hx| ->] & [H1 H2] & H3); [by split_and!|congruence].
  - rewrite filter_snoc, decide_True by (intros [? ?]; congruence). by rewrite b4_nets0.
  - rewrite filter_snoc, decide_False by (intros [?|[? ?]]; congruence). by rewrite app_nil_r.
  - intros x [= <-]. rewrite elem_of_snoc. auto.
  - intros x Hx. rewrite elem_of_snoc. destruct (b4_prefix0 x Hx). auto.
  - intros Hn x Hx. snoc_cases; [by apply b4_noprefix0|congruence].
  - intros x y Hx Hy Ex Ey. snoc_cases; try congruence. by apply b4_static0.
Qed.

Lemma built4_host l t v6s e :
  built4 l t v6s -> is_host4 e -> (forall o, o ∈ l -> is_host4 o -> e_V4 o = e_V4 e -> False) ->
  t_hosts4 t !! p_addr (e_V4 e) = None ->
  built4 (l ++ [e]) (set_hosts4 (<[p_addr (e_V4 e) := e]> (t_hosts4 t)) t)
    (if negb (e_v4Only e) then v6s ++ [e] else v6s).
Proof.
  intros [] He Hnew Hfree. pose proof He as [E Eb]. constructor; cbn; try done.
  - intros a x. rewrite lookup_insert_Some, b4_hosts0, elem_of_snoc. split.
    + intros [[<- <-]|(_ & ? & ? & ?)]; tauto.
    + intros ([Hx| ->] & Hh & Ha); [|by left]. right. split; [|done].
      intros Ea. assert (Hx' : t_hosts4 t !! a = Some x) by (by apply b4_hosts0). congruence.
  - rewrite filter_snoc, decide_False by tauto. by rewrite app_nil_r.
  - rewrite filter_snoc. destruct (e_v4Only e) eqn:Ev; cbn.
    + rewrite decide_False by (intros [?|[? ?]]; congruence). by rewrite app_nil_r.
    + rewrite decide_True by (by right). by rewrite b4_v6s0.
  - intros x Hx. rewrite elem_of_snoc. destruct (b4_pool0 x Hx). auto.
  - intros Hn x Hx. snoc_cases; [by apply b4_nopool0|congruence].
  - intros x Hx. rewrite elem_of_snoc. destruct (b4_prefix0 x Hx). auto.
  - intros Hn x Hx. snoc_cases; [by apply b4_noprefix0|congruence].
  - intros x y Hx Hy Ex Ey EV. snoc_cases; [by apply b4_static0| | |done]; exfalso.
    + apply (Hnew y); [done|split; [done|congruence]|done].
    + apply (Hnew x); [done|split; [done|congruence]|done].
Qed.

Lemma built4_net l t v6s e :
  built4 l t v6s -> e_Kind e = KindStatic -> p_bits (e_V4 e) <> 32 ->
  (forall o, o ∈ t_nets4 t -> e_Kind o = KindStatic -> e_V4 o = e_V4 e -> False) ->
  built4 (l ++ [e]) (set_nets4 (t_nets4 t ++ [e]) t) (if negb (e_v4Only e) then v6s ++ [e] else v6s).
Proof.
  intros [] E Eb Hnew. assert (He : ~ is_host4 e) by (intros [? ?]; congruence). constructor; cbn; try done.
  - intros a x. rewrite b4_hosts0, elem_of_snoc. split; [tauto|].
    intros ([Hx| ->] & [H1 H2] & H3); [by split_and!|congruence].
  - rewrite filter_snoc, decide_True by done. by rewrite b4_nets0.
  - rewrite filter_snoc. destruct (e_v4Only e) eqn:Ev; cbn.
    + rewrite decide_False by (intros [?|[? ?]]; congruence). by rewrite app_nil_r.
    + rewrite decide_True by (by right). by rewrite b4_v6s0.
  - intros x Hx. rewrite elem_of_snoc. destruct (b4_pool0 x Hx). auto.
  - intros Hn x Hx. snoc_cases; [by apply b4_nopool0|congruence].
  - intros x Hx. rewrite elem_of_snoc. destruct (b4_prefix0 x Hx). auto.
  - intros Hn x Hx. snoc_cases; [by apply b4_noprefix0|congruence].
  - assert (Hnet : forall x, x ∈ l -> e_Kind x = KindStatic -> e_V4 x = e_V4 e -> False).
    { intros x Hx Ex EV. apply (Hnew x); [|done|done]. rewrite b4_nets0. apply list_elem_of_filter.
      split; [|done]. intros [_ ?]. congruence. }
    intros x y Hx Hy Ex Ey EV. snoc_cases; [by apply b4_static0| | |done]; exfalso; eauto.
Qed.

Lemma existsb_false {A} (f : A -> bool) l : existsb f l = false <-> forall x, x ∈ l -> f x = false.
Proof.
  induction l as [|y l IH]; cbn.
  - split; [by intros _ x ?%elem_of_nil|done].
  - rewrite orb_false_iff, IH. split.
    + intros [Hy Hl] x [->|Hx]%elem_of_cons; auto.
    + intros H. split; [apply H; left|intros x Hx; apply H; by right].
Qed.

(** The first loop collects every entry. *)
Lemma build4_ok es l t v6s t' v6s' :
  build4 es t v6s = inl (t', v6s') -> built4 l t v6s -> Forall (fun e => e_Kind e <> KindDynamicHost) es ->
  built4 (l ++ es) t' v6s' /\ t_keep t t'.
Proof.
  revert l t v6s. induction es as [|e es IH]; intros l t v6s; cbn [build4].
  { intros [= -> ->] HB _. by rewrite app_nil_r. }
  intros Hb HB Hk. apply Forall_cons in Hk as [Hke Hk].
  replace (l ++ e :: es) with ((l ++ [e]) ++ es) by by rewrite <- app_assoc.
  assert (Hgo : forall t1 v1, build4 es t1 v1 = inl (t', v6s') -> built4 (l ++ [e]) t1 v1 -> t_keep t t1 ->
            built4 ((l ++ [e]) ++ es) t' v6s' /\ t_keep t t').
  { intros t1 v1 H1 H2 [K1 K2]. destruct (IH _ _ _ H1 H2 Hk) as [? [K3 K4]].
    split; [done|]. split; congruence. }
  revert Hb. destruct (e_Kind e) eqn:E; intros Hb; [|..|done].
  2: { eapply Hgo; [exact Hb|by apply built4_prefix|by split]. }
  2: { eapply Hgo; [exact Hb|by apply built4_pool|by split]. }
  revert Hb. destruct (p_bits (e_V4 e) =? 32) eqn:E32; bool_prop;
    (case_if; [done|]); intros Hb; (eapply Hgo; [exact Hb| |by split]).
  - apply bool_decide_eq_false in E0. rewrite <- eq_None_not_Some in E0.
    apply built4_host; [done|by split| |done]. intros o Ho Hh EV.
    assert (t_hosts4 t !! p_addr (e_V4 e) = Some o) by (apply HB; rewrite EV in *; by split_and!). congruence.
  - apply built4_net; [done..|]. rewrite existsb_false in E0. intros o Ho Eo EV. specialize (E0 o Ho).
    rewrite Eo, EV in E0. by rewrite (bool_decide_false (KindStatic = _)), (bool_decide_true (e_V4 e = _)) in E0 by done.
Qed.

(** The IPv6 side after the entries [l], starting from [t0]. *)
Record built6 (l : list Entry) (t0 t : Table) : Prop := {
  b6_hosts : forall a e, t_hosts6 t !! a = Some e <-> e ∈ l /\ is_host6 e /\ p_addr (e_V6 e) = a;
  b6_nets : t_nets6 t = filter (fun e => ~ is_host6 e) l;
  b6_disjoint : forall e o, e ∈ l -> o ∈ l ->
    e = o \/ Overlaps (e_V6 e) (e_V6 o) = false \/ Overlaps (e_V6 o) (e_V6 e) = false;
  b6_keep : t_keep t0 t /\ t_hosts4 t = t_hosts4 t0 /\ t_nets4 t = t_nets4 t0 /\
    t_poolEntry t = t_poolEntry t0 /\ t_prefix t = t_prefix t0;
}.

Lemma Overlaps_refl p : PIsValid p = true -> Overlaps p p = true.
Proof. intros H. unfold Overlaps. rewrite H. cbn. by rewrite bool_decide_true. Qed.

Lemma host6_eq e o : is_host6 e -> is_host6 o -> p_addr (e_V6 e) = p_addr (e_V6 o) -> e_V6 e = e_V6 o.
Proof.
  intros [_ He] [_ Ho] E. destruct (e_V6 e), (e_V6 o). cbn in *. congruence.
Qed.

Lemma built6_step l t0 t e :
  built6 l t0 t -> (forall o, o ∈ l -> Overlaps (e_V6 o) (e_V6 e) = false) ->
  built6 (l ++ [e]) t0
    (if bool_decide (e_Kind e = KindStatic) && (p_bits (e_V6 e) =? 128)
     then set_hosts6 (<[p_addr (e_V6 e) := e]> (t_hosts6 t)) t
     else set_nets6 (t_nets6 t ++ [e]) t).
Proof.
  intros [Hh Hn Hd Hk] Hno.
  assert (Hdis : forall x o, x ∈ l ++ [e] -> o ∈ l ++ [e] ->
            x = o \/ Overlaps (e_V6 x) (e_V6 o) = false \/ Overlaps (e_V6 o) (e_V6 x) = false).
  { intros x o Hx Ho. snoc_cases; eauto. }
  assert (Ht : bool_decide (e_Kind e = KindStatic) && (p_bits (e_V6 e) =? 128) = true <-> is_host6 e).
  { rewrite andb_true_iff, bool_decide_eq_true, Z.eqb_eq. done. }
  case_if; constructor; cbn; try done.
  - assert (He : is_host6 e) by (by apply Ht). intros a x. rewrite lookup_insert_Some, Hh, elem_of_snoc. split.
    + intros [[<- <-]|(_ & ? & ? & ?)]; tauto.
    + intros ([Hx| ->] & Hx6 & Ha); [|by left]. right. split; [|done]. intros Ea.
      assert (EV : e_V6 x = e_V6 e) by (apply host6_eq; congruence).
      specialize (Hno x Hx). rewrite EV, Overlaps_refl in Hno; [done|].
      unfold PIsValid. by rewrite (proj2 He).
  - assert (He : is_host6 e) by (by apply Ht). rewrite filter_snoc, decide_False by tauto. by rewrite app_nil_r.
  - assert (He : ~ is_host6 e) by (by intros ?%Ht).
    intros a x. rewrite Hh, elem_of_snoc. split; [tauto|]. intros ([Hx| ->] & Hx6 & Ha); [by split_and!|done].
  - assert (He : ~ is_host6 e) by (by intros ?%Ht).
    rewrite filter_snoc, decide_True by done. by rewrite Hn.
Qed.

Lemma build6_ok es l t0 t t' :
  build6 es l t = inl t' -> built6 l t0 t -> built6 (l ++ es) t0 t'.
Proof.
  revert l t. induction es as [|e es IH]; intros l t; cbn [build6].
  { intros [= ->] HB. by rewrite app_nil_r. }
  case_if; [done|]. intros Hb HB.
  replace (l ++ e :: es) with ((l ++ [e]) ++ es) by by rewrite <- app_assoc.
  eapply IH; [exact Hb|]. apply built6_step; [done|]. by apply existsb_false.
Qed.

Lemma built4_nil t : t_hosts4 t = ∅ -> t_nets4 t = [] -> t_poolEntry t = None -> t_prefix t = None ->
  t_hosts6 t = ∅ -> t_nets6 t = [] -> built4 [] t [].
Proof.
  intros E1 E2 E3 E4 E5 E6. constructor; rewrite ?E1, ?E2, ?E3, ?E4; try done.
  - intros a e. rewrite lookup_empty. split; [done|]. by intros (?%elem_of_nil & _).
  - by intros _ e ?%elem_of_nil.
  - by intros _ e ?%elem_of_nil.
  - by intros e o ?%elem_of_nil.
Qed.

(** ** The table of a builder *)

Record table_of (b : Builder) (t : Table) : Prop := {
  to_hosts4 : forall a e, t_hosts4 t !! a = Some e <->
    e ∈ b_entries b /\ is_host4 e /\ p_addr (e_V4 e) = a;
  to_nets4 : forall e, e ∈ t_nets4 t <-> e ∈ b_entries b /\ ~ is_host4 e;
  to_sorted4 : StronglySorted (desc (fun e => p_bits (e_V4 e))) (t_nets4 t);
  to_hosts6 : forall a e, t_hosts6 t !! a = Some e <->
    e ∈ b_entries b /\ is_v6 e /\ is_host6 e /\ p_addr (e_V6 e) = a;
  to_nets6 : forall e, e ∈ t_nets6 t <-> e ∈ b_entries b /\ is_v6 e /\ ~ is_host6 e;
  to_disjoint : forall e o, e ∈ b_entries b -> o ∈ b_entries b -> is_v6 e -> is_v6 o ->
    e = o \/ Overlaps (e_V6 e) (e_V6 o) = false \/ Overlaps (e_V6 o) (e_V6 e) = false;
  to_static : forall e o, e ∈ b_entries b -> o ∈ b_entries b ->
    e_Kind e = KindStatic -> e_Kind o = KindStatic -> e_V4 e = e_V4 o -> e = o;
  to_pool_static : forall pe e, t_poolEntry t = Some pe -> e ∈ b_entries b ->
    e_Kind e = KindStatic -> e_V4 e <> e_V4 pe;
  to_poolEntry : forall e, t_poolEntry t = Some e <-> e ∈ b_entries b /\ e_Kind e = KindDynamicPool;
  to_prefix : forall e, t_prefix t = Some e <-> e ∈ b_entries b /\ e_Kind e = KindRFC6052;
  to_strict : t_wkpfStrict t = b_wkpfStrict b;
  to_pool : t_pool t = b_pool b;
}.

Lemma entry_not_host e : entry_ok e -> e_Kind e <> KindDynamicHost.
Proof. intros [? ? ? E|? ? E|? ? E|? ? E]; congruence. Qed.

Lemma build_table_ok b t : entries_ok b -> build_table b = inl t -> table_of b t.
Proof.
  intros B. unfold build_table.
  destruct (sort_desc_spec (fun e => p_bits (e_V4 e)) (b_entries b)) as [P4 S4].
  set (l := sort_desc _ (b_entries b)) in *. set (t0 := mkTable _ _ _ _ _ _ _ _).
  assert (HB0 : built4 [] t0 []) by by apply built4_nil.
  destruct (build4 l t0 []) as [[t1 v6s]|] eqn:E4; [|done].
  destruct (build4_ok l [] t0 [] t1 v6s E4 HB0) as [HB [K1 K2]].
  { rewrite P4. eapply Forall_impl; [apply (eo_ok _ B)|]. apply entry_not_host. }
  cbn [app] in HB. case_if; [done|]. intros E6.
  destruct (sort_desc_spec (fun e => p_bits (e_V6 e)) v6s) as [P6 _].
  set (l6 := sort_desc _ v6s) in *.
  assert (H6 : built6 l6 t1 t).
  { apply (build6_ok l6 [] t1 t1 t E6). destruct HB. constructor; cbn; try done.
    - intros a e. rewrite b4_hosts7, lookup_empty. split; [done|]. by intros (?%elem_of_nil & _).
    - by intros e o ?%elem_of_nil. }
  destruct H6 as [Hh6 Hn6 Hd6 ([K3 K4] & Eh4 & En4 & Epe & Epf)].
  assert (Hl6 : forall e, e ∈ l6 <-> e ∈ b_entries b /\ is_v6 e).
  { intros e. rewrite P6, (b4_v6s _ _ _ HB), list_elem_of_filter, P4. tauto. }
  constructor.
  - intros a e. rewrite Eh4, (b4_hosts _ _ _ HB), P4. done.
  - intros e. rewrite En4, (b4_nets _ _ _ HB), list_elem_of_filter, P4. tauto.
  - rewrite En4, (b4_nets _ _ _ HB). by apply sorted_filter.
  - intros a e. rewrite Hh6, Hl6. tauto.
  - intros e. rewrite Hn6, list_elem_of_filter, Hl6. tauto.
  - intros e o He Ho V1 V2. apply Hd6; by apply Hl6.
  - intros e o He Ho. rewrite <- P4 in He, Ho. by apply (b4_static _ _ _ HB).
  - intros pe e Hpe He Es EV. rewrite Epe in Hpe. rewrite Hpe in E.
    destruct (b4_pool _ _ _ HB pe Hpe) as [Hin Ek]. rewrite P4 in Hin.
    destruct (proj1 (Forall_forall _ _) (eo_ok _ B) pe Hin) as [? ? ? E'|? ? E'|? ? E'|v k _ [Hnet _] Hk];
      try congruence.
    rewrite existsb_false in E. specialize (E e).
    assert (Hn : e ∈ t_nets4 t1).
    { rewrite (b4_nets _ _ _ HB), list_elem_of_filter, P4. split; [|done].
      intros [_ Eb]. rewrite EV, Hnet in Eb. cbn in Eb. lia. }
    specialize (E Hn). rewrite Es, EV in E. unfold same_entry in E. cbn in E.
    rewrite (bool_decide_true (KindStatic = _)), (bool_decide_true (e_V4 pe = _)) in E by done.
    rewrite bool_decide_false in E; [done|]. intros [= Eid].
    assert (e = pe) by (by apply (id_inj (b_entries b)); [apply B|..]). congruence.
  - intros e. rewrite Epe. split.
    + intros He. destruct (b4_pool _ _ _ HB e He). by rewrite <- P4.
    + intros [He Ek]. rewrite <- P4 in He. destruct (t_poolEntry t1) as [pe|] eqn:Hpe.
      * destruct (b4_pool _ _ _ HB pe Hpe) as [Hpe1 Hpe2]. f_equal.
        apply (eo_pool _ B); [by rewrite <- P4|by rewrite <- P4|done..].
      * by destruct (b4_nopool _ _ _ HB Hpe e He).
  - intros e. rewrite Epf. split.
    + intros He. destruct (b4_prefix _ _ _ HB e He). by rewrite <- P4.
    + intros [He Ek]. rewrite <- P4 in He. destruct (t_prefix t1) as [pe|] eqn:Hpe.
      * destruct (b4_prefix _ _ _ HB pe Hpe) as [Hpe1 Hpe2]. f_equal.
        apply (eo_prefix _ B); [by rewrite <- P4|by rewrite <- P4|done..].
      * by destruct (b4_noprefix _ _ _ HB Hpe e He).
  - by rewrite K3, K1.
  - by rewrite K4, K2.
Qed.

(** ** The lookups *)

(** The RFC 6052 entry has an IPv4 prefix of its own. *)
Lemma static_prefix_V4 x y :
  entry_ok x -> entry_ok y -> e_Kind x = KindStatic -> e_Kind y = KindRFC6052 -> e_V4 x <> e_V4 y.
Proof.
  intros Hx Hy Ex Ey E.
  destruct Hx as [v0 w k _ _ [Hk E4 _ _ _] Hc|v a _ _ (E4 & _) _|? ? ?|? ? ?]; try congruence;
    destruct Hy as [|? ? ?|w' n _ E0 _|]; try congruence; rewrite E0, E4 in E; injection E as -> Ek.
  - by apply Hc.
  - lia.
Qed.

Lemma pool_prefix_V4 x y :
  entry_ok x -> entry_ok y -> e_Kind x = KindDynamicPool -> e_Kind y = KindRFC6052 -> e_V4 x <> e_V4 y.
Proof.
  intros Hx Hy Ex Ey E. destruct Hx as [| | |v k _ (E4 & _) Hk]; try congruence.
  destruct Hy as [| |w' n _ E0 _|]; try congruence. rewrite E0, E4 in E. injection E as -> Ek. lia.
Qed.

Section lookups.
Context (b : Builder) (t : Table) (B : entries_ok b) (T : table_of b t).

Lemma entry_in e : e ∈ b_entries b -> entry_ok e.
Proof. intros He. exact (proj1 (Forall_forall _ _) (eo_ok _ B) e He). Qed.

(** Two entries never have the same IPv4 prefix. *)
Lemma same_V4 e o : e ∈ b_entries b -> o ∈ b_entries b -> e_V4 e = e_V4 o -> e = o.
Proof.
  intros He Ho EV.
  pose proof (entry_not_host e (entry_in e He)). pose proof (entry_not_host o (entry_in o Ho)).
  destruct (e_Kind e) eqn:Ee, (e_Kind o) eqn:Eo; try done.
  - by apply (to_static _ _ T).
  - by destruct (static_prefix_V4 e o (entry_in e He) (entry_in o Ho)).
  - exfalso. apply (to_pool_static _ _ T o e); [by apply (to_poolEntry _ _ T)|done..].
  - by destruct (static_prefix_V4 o e (entry_in o Ho) (entry_in e He)).
  - by apply (eo_prefix _ B).
  - by destruct (pool_prefix_V4 o e (entry_in o Ho) (entry_in e He)).
  - exfalso. apply (to_pool_static _ _ T e o); [by apply (to_poolEntry _ _ T)|done..].
  - by destruct (pool_prefix_V4 e o (entry_in e He) (entry_in o Ho)).
  - by apply (eo_pool _ B).
Qed.

Lemma host4_Contains e v :
  e ∈ b_entries b -> is_host4 e -> Contains (e_V4 e) (Addr4 v) = true <-> p_addr (e_V4 e) = Addr4 v.
Proof.
  intros He [_ Eb]. destruct (entry_net4 e (entry_in e He)) as (v0 & k & E & Hk & Hv & Hm).
  rewrite E in *. cbn in *. assert (k = 0) by lia. subst k. rewrite Contains4 by lia.
  rewrite !Z.shiftr_0_r. split; [by intros ->|by intros [= ->]].
Qed.

(** On the IPv4 side the entry with the longest prefix wins. *)
Lemma lookup4_spec v :
  match table_lookup4 t (Addr4 v) with
  | Some e => e ∈ b_entries b /\ Contains (e_V4 e) (Addr4 v) = true /\
      forall o, o ∈ b_entries b -> Contains (e_V4 o) (Addr4 v) = true ->
        o = e \/ p_bits (e_V4 o) < p_bits (e_V4 e)
  | None => forall e, e ∈ b_entries b -> Contains (e_V4 e) (Addr4 v) = false
  end.
Proof.
  assert (Hmax : forall e o, e ∈ b_entries b -> o ∈ b_entries b ->
            Contains (e_V4 e) (Addr4 v) = true -> Contains (e_V4 o) (Addr4 v) = true ->
            p_bits (e_V4 o) <= p_bits (e_V4 e) -> o = e \/ p_bits (e_V4 o) < p_bits (e_V4 e)).
  { intros e o He Ho Ce Co Hle. destruct (decide (p_bits (e_V4 o) = p_bits (e_V4 e))) as [E|]; [left|right; lia].
    destruct (entry_net4 e (entry_in e He)) as (ve & ke & Ne), (entry_net4 o (entry_in o Ho)) as (vo & ko & No).
    apply same_V4; [done..|]. by apply (net4_eq _ _ vo ko ve ke v). }
  unfold table_lookup4. destruct (t_hosts4 t !! Addr4 v) as [e|] eqn:Eh.
  - apply (to_hosts4 _ _ T) in Eh as (He & Hh & Ea).
    assert (Ce : Contains (e_V4 e) (Addr4 v) = true) by by apply host4_Contains.
    split; [done|]. split; [done|]. intros o Ho Co. apply Hmax; try done.
    destruct Hh as [_ ->]. destruct (entry_net4 o (entry_in o Ho)) as (vo & ko & -> & ? & _). cbn. lia.
  - assert (Hno : forall e, e ∈ b_entries b -> Contains (e_V4 e) (Addr4 v) = true -> e ∈ t_nets4 t).
    { intros e He Ce. apply (to_nets4 _ _ T). split; [done|]. intros Hh.
      apply host4_Contains in Ce; [|done..].
      assert (t_hosts4 t !! Addr4 v = Some e) by (by apply (to_hosts4 _ _ T)). congruence. }
    pose proof (find_sorted _ (fun e => Contains (e_V4 e) (Addr4 v)) _ (to_sorted4 _ _ T)) as Hf.
    cbn beta in Hf. destruct (find _ (t_nets4 t)) as [e|].
    + destruct Hf as (He & Ce & Hm). apply (to_nets4 _ _ T) in He as [He _].
      split; [done|]. split; [done|]. intros o Ho Co. apply Hmax; try done. by apply Hm; [apply Hno|].
    + intros e He. destruct (Contains (e_V4 e) (Addr4 v)) eqn:Ce; [|done].
      rewrite (Hf e) in Ce; [done|]. by apply Hno.
Qed.

(** The IPv6 prefixes. *)
Lemma v6_shape e : e ∈ b_entries b -> is_v6 e ->
  exists w n, e_V6 e = mkPrefix (Addr6 w "") n /\ 0 <= n <= 128.
Proof.
  intros He V. destruct (entry_in e He) as [v0 w k _ _ [Hk _ E6 _ _] _|? ? ? E _ _|w n _ _ [E Hn _]|? ? E _ _].
  - exists w, (128 - k). split; [done|lia].
  - destruct V as [?|[? ?]]; congruence.
  - exists w, n. split; [done|]. apply rfc_len in Hn. lia.
  - destruct V as [?|[? ?]]; congruence.
Qed.

Lemma mask_shiftr x y c m : 0 <= m <= c -> Z.shiftr x m = Z.shiftr y m -> Z.shiftr x c = Z.shiftr y c.
Proof.
  intros Hm E. replace c with (m + (c - m)) by lia. rewrite <- !Z.shiftr_shiftr by lia. by rewrite E.
Qed.

(** Prefixes that share an address overlap. *)
Lemma Overlaps_shared v n w m u :
  0 <= n <= 128 -> 0 <= m <= 128 ->
  Contains (mkPrefix (Addr6 v "") n) (Addr6 u "") = true ->
  Contains (mkPrefix (Addr6 w "") m) (Addr6 u "") = true ->
  Overlaps (mkPrefix (Addr6 v "") n) (mkPrefix (Addr6 w "") m) = true.
Proof.
  intros Hn Hm. rewrite !Contains6 by lia. intros E1 E2. unfold Overlaps, PIsValid. cbn [p_bits p_addr Is4].
  rewrite !(proj2 (Z.leb_le 0 _)) by lia. cbn. case_bool_decide; [done|]. case_if; [done|].
  apply bool_decide_true. f_equal. f_equal. unfold mask_hi. f_equal.
  rewrite <- (mask_shiftr u v (128 - Z.min n m) (128 - n)) by (lia || done).
  by rewrite <- (mask_shiftr u w (128 - Z.min n m) (128 - m)) by (lia || done).
Qed.

Lemma v6_unique e o u :
  e ∈ b_entries b -> o ∈ b_entries b -> is_v6 e -> is_v6 o ->
  Contains (e_V6 e) (Addr6 u "") = true -> Contains (e_V6 o) (Addr6 u "") = true -> e = o.
Proof.
  intros He Ho Ve Vo Ce Co.
  destruct (v6_shape e He Ve) as (w & n & Ee & Hn), (v6_shape o Ho Vo) as (w' & n' & Eo & Hn').
  rewrite Ee in Ce. rewrite Eo in Co.
  destruct (to_disjoint _ _ T e o He Ho Ve Vo) as [|[Hd|Hd]]; [done|..];
    rewrite Ee, Eo, (Overlaps_shared _ _ _ _ u) in Hd by done; done.
Qed.

Lemma host6_Contains e u :
  e ∈ b_entries b -> is_v6 e -> is_host6 e ->
  Contains (e_V6 e) (Addr6 u "") = true <-> p_addr (e_V6 e) = Addr6 u "".
Proof.
  intros He V [_ Eb]. destruct (v6_shape e He V) as (w & n & E & Hn).
  rewrite E in *. cbn in *. subst n. rewrite Contains6 by lia.
  rewrite !Z.shiftr_0_r. split; [by intros ->|by intros [= ->]].
Qed.

(** On the IPv6 side at most one entry matches, and it is found. *)
Lemma lookup6_spec u e :
  table_lookup6 t (Addr6 u "") = Some e <->
  e ∈ b_entries b /\ is_v6 e /\ Contains (e_V6 e) (Addr6 u "") = true.
Proof.
  unfold table_lookup6. split.
  - destruct (t_hosts6 t !! Addr6 u "") as [x|] eqn:Eh.
    + intros [= <-]. apply (to_hosts6 _ _ T) in Eh as (Hx & Vx & Hh & Ea).
      split_and!; [done|done|]. by apply host6_Contains.
    + intros Hf. apply find_some in Hf as [Hin Hc]. apply list_elem_of_In, (to_nets6 _ _ T) in Hin as (He & Ve & _).
      done.
  - intros (He & Ve & Hc). destruct (t_hosts6 t !! Addr6 u "") as [x|] eqn:Eh.
    + apply (to_hosts6 _ _ T) in Eh as (Hx & Vx & Hh & Ea). f_equal.
      apply (v6_unique _ _ u); try done. by apply host6_Contains.
    + assert (Hnet : e ∈ t_nets6 t).
      { apply (to_nets6 _ _ T). split_and!; [done|done|]. intros Hh. apply host6_Contains in Hc; [|done..].
        assert (t_hosts6 t !! Addr6 u "" = Some e) by (by apply (to_hosts6 _ _ T)). congruence. }
      destruct (find _ (t_nets6 t)) as [x|] eqn:Ef.
      * apply find_some in Ef as [Hin Hx]. apply list_elem_of_In, (to_nets6 _ _ T) in Hin as (Hx' & Vx & _).
        f_equal. by apply (v6_unique _ _ u).
      * apply list_elem_of_In in Hnet. pose proof (find_none _ _ Ef _ Hnet) as Hn. cbn in Hn. congruence.
Qed.
End lookups.

(** ** Conflicts *)

(** Two entries that cannot be in one table: the same IPv4 prefix mapped
    twice, a static map of the pool's prefix, or overlapping IPv6 prefixes. *)
Inductive clash (e o : Entry) : Prop :=
  | clash_static : e_Kind e = KindStatic -> e_Kind o = KindStatic -> e_V4 e = e_V4 o -> clash e o
  | clash_pool : e_Kind e = KindStatic -> e_Kind o = KindDynamicPool -> e_V4 e = e_V4 o -> clash e o
  | clash_v6 : is_v6 e -> is_v6 o -> Overlaps (e_V6 e) (e_V6 o) = true -> clash e o.

Definition conflict (es : list Entry) : Prop :=
  exists e o, e ∈ es /\ o ∈ es /\ e_id e <> e_id o /\ clash e o.

Lemma Overlaps_comm p q : Overlaps p q = Overlaps q p.
Proof.
  unfold Overlaps. rewrite (orb_comm (negb (PIsValid p))). case_if; [done|].
  rewrite (bool_decide_ext (p = q) (q = p)) by done. case_if; [done|].
  rewrite (Z.min_comm (p_bits p)).
  destruct (Is4 (p_addr p)), (Is4 (p_addr q)); cbn; try done; (case_if; [done|]); by apply bool_decide_ext.
Qed.

Lemma existsb_true {A} (f : A -> bool) l : existsb f l = true -> exists x, x ∈ l /\ f x = true.
Proof. intros (x & Hx & Hf)%existsb_exists. exists x. by rewrite list_elem_of_In. Qed.

Lemma app_ids (l es : list Entry) e o :
  NoDup (e_id <$> l ++ es) -> o ∈ l -> e ∈ es -> e_id e <> e_id o.
Proof.
  rewrite fmap_app. intros (_ & Hd & _)%NoDup_app Ho He E. apply (Hd (e_id o)).
  - by apply list_elem_of_fmap_2.
  - rewrite <- E. by apply list_elem_of_fmap_2.
Qed.

Lemma build4_err es l t v6s err :
  build4 es t v6s = inr err -> built4 l t v6s -> Forall entry_ok (l ++ es) -> NoDup (e_id <$> l ++ es) ->
  err = EConflict /\ conflict (l ++ es).
Proof.
  revert l t v6s. induction es as [|e es IH]; intros l t v6s; cbn [build4]; [done|].
  intros Hb HB Hok Hnd.
  assert (Hids : forall o, o ∈ l -> e_id e <> e_id o).
  { intros o Ho. apply (app_ids l (e :: es)); [done|done|left]. }
  assert (Hin : e ∈ l ++ e :: es) by (apply elem_of_app; right; left).
  assert (Hl : forall o, o ∈ l -> o ∈ l ++ e :: es) by (intros o Ho; apply elem_of_app; by left).
  rewrite Forall_forall in Hok.
  assert (Hgo : forall t1 v1, build4 es t1 v1 = inr err -> built4 (l ++ [e]) t1 v1 ->
            err = EConflict /\ conflict (l ++ e :: es)).
  { intros t1 v1 H1 H2. replace (l ++ e :: es) with ((l ++ [e]) ++ es) in * by by rewrite <- app_assoc.
    apply (IH _ _ _ H1 H2); [by apply Forall_forall|done]. }
  revert Hb. destruct (e_Kind e) eqn:E; intros Hb.
  2: { eapply Hgo; [exact Hb|by apply built4_prefix]. }
  2: { eapply Hgo; [exact Hb|by apply built4_pool]. }
  2: { by destruct (entry_not_host e (Hok e Hin)). }
  revert Hb. destruct (p_bits (e_V4 e) =? 32) eqn:E32; bool_prop; case_if; intros Hb.
  - injection Hb as <-. split; [done|]. apply bool_decide_eq_true in E0 as [o Ho].
    apply (b4_hosts _ _ _ HB) in Ho as (Ho & [Eo Bo] & Ea). exists e, o. split_and!; eauto.
    apply clash_static; [done|done|]. destruct (e_V4 e), (e_V4 o). cbn in *. congruence.
  - eapply Hgo; [exact Hb|]. apply bool_decide_eq_false in E0. rewrite <- eq_None_not_Some in E0.
    apply built4_host; [done|by split| |done]. intros o Ho Hh EV.
    assert (t_hosts4 t !! p_addr (e_V4 e) = Some o) by (apply HB; rewrite EV in *; by split_and!). congruence.
  - injection Hb as <-. split; [done|]. apply existsb_true in E0 as (o & Ho & Hc).
    rewrite (b4_nets _ _ _ HB), list_elem_of_filter in Ho. destruct Ho as [_ Ho].
    apply andb_true_iff in Hc as [Hk HV]. apply negb_true_iff, bool_decide_eq_false in Hk.
    apply bool_decide_eq_true in HV. exists e, o. split_and!; eauto.
    pose proof (Hok o (Hl o Ho)) as Hoo. pose proof (entry_not_host o Hoo) as Hnh.
    destruct (e_Kind o) eqn:Eo; try done.
    + by apply clash_static.
    + by destruct (static_prefix_V4 e o (Hok e Hin) Hoo E Eo).
  - eapply Hgo; [exact Hb|]. apply built4_net; [done..|]. rewrite existsb_false in E0. intros o Ho Eo EV.
    specialize (E0 o Ho). rewrite Eo, EV in E0.
    by rewrite (bool_decide_false (KindStatic = _)), (bool_decide_true (e_V4 e = _)) in E0 by done.
Qed.

Lemma build6_err es l t err :
  build6 es l t = inr err -> Forall is_v6 (l ++ es) -> NoDup (e_id <$> l ++ es) ->
  err = EConflict /\ conflict (l ++ es).
Proof.
  revert l t. induction es as [|e es IH]; intros l t; cbn [build6]; [done|].
  case_if; intros Hb Hv Hnd.
  - injection Hb as <-. split; [done|]. apply existsb_true in E as (o & Ho & Hc). exists e, o.
    rewrite Forall_forall in Hv. split_and!.
    + apply elem_of_app. right. left.
    + apply elem_of_app. by left.
    + apply (app_ids l (e :: es)); [done|done|left].
    + apply clash_v6; [apply Hv, elem_of_app; right; left|apply Hv, elem_of_app; by left|].
      by rewrite Overlaps_comm.
  - replace (l ++ e :: es) with ((l ++ [e]) ++ es) in * by by rewrite <- app_assoc. by eapply IH.
Qed.

Lemma conflict_incl es es' : (forall e, e ∈ es -> e ∈ es') -> conflict es -> conflict es'.
Proof. intros Hin (e & o & He & Ho & H). exists e, o. eauto. Qed.

Lemma build_table_err b err :
  entries_ok b -> build_table b = inr err -> err = EConflict /\ conflict (b_entries b).
Proof.
  intros B. unfold build_table.
  destruct (sort_desc_spec (fun e => p_bits (e_V4 e)) (b_entries b)) as [P4 S4].
  set (l := sort_desc _ (b_entries b)) in *. set (t0 := mkTable _ _ _ _ _ _ _ _).
  assert (HB0 : built4 [] t0 []) by by apply built4_nil.
  assert (Hnd : NoDup (e_id <$> l)) by (rewrite P4; apply B).
  assert (Hok : Forall entry_ok l) by (rewrite P4; apply B).
  assert (Hl : forall e, e ∈ l -> e ∈ b_entries b) by (intros e; by rewrite P4).
  destruct (build4 l t0 []) as [[t1 v6s]|e1] eqn:E4.
  2: { intros [= <-]. destruct (build4_err l [] t0 [] e1 E4 HB0 Hok Hnd) as [? Hc].
       split; [done|]. by apply (conflict_incl l). }
  destruct (build4_ok l [] t0 [] t1 v6s E4 HB0) as [HB _].
  { eapply Forall_impl; [exact Hok|]. apply entry_not_host. }
  cbn [app] in HB. case_if.
  - intros [= <-]. split; [done|]. destruct (t_poolEntry t1) as [pe|] eqn:Hpe; [|done].
    destruct (b4_pool _ _ _ HB pe Hpe) as [Hin Ek].
    apply existsb_true in E as (o & Ho & Hc). rewrite (b4_nets _ _ _ HB), list_elem_of_filter in Ho.
    destruct Ho as [_ Ho]. apply andb_true_iff in Hc as [Hc HV]. apply andb_true_iff in Hc as [Hs Hk].
    apply bool_decide_eq_true in HV, Hk. apply negb_true_iff, bool_decide_eq_false in Hs.
    exists o, pe. split_and!; [by apply Hl|by apply Hl| |by apply clash_pool].
    intros Ei. apply Hs. cbn. by rewrite Ei.
  - intros E6. destruct (sort_desc_spec (fun e => p_bits (e_V6 e)) v6s) as [P6 _].
    assert (Hl6 : forall e, e ∈ sort_desc (fun e => p_bits (e_V6 e)) v6s -> is_v6 e /\ e ∈ l).
    { intros e. rewrite P6, (b4_v6s _ _ _ HB), list_elem_of_filter. done. }
    apply build6_err in E6; cbn [app] in *.
    + destruct E6 as [? Hc]. split; [done|]. apply (conflict_incl _ _ (fun e He => Hl e (proj2 (Hl6 e He))) Hc).
    + apply Forall_forall. intros e He. by apply Hl6.
    + rewrite P6, (b4_v6s _ _ _ HB).
      apply (sublist_NoDup _ (e_id <$> l)); [done|]. apply fmap_sublist, sublist_filter.
Qed.

Lemma table_of_no_conflict b t : entries_ok b -> table_of b t -> ~ conflict (b_entries b).
Proof.
  intros B T (e & o & He & Ho & Hne & [Ee Eo EV|Ee Eo EV|Ve Vo Hov]).
  - apply Hne. f_equal. by apply (to_static _ _ T).
  - apply (to_pool_static _ _ T o e); [by apply (to_poolEntry _ _ T)|done..].
  - destruct (to_disjoint _ _ T e o He Ho Ve Vo) as [->|[Hd|Hd]]; [done|congruence|].
    rewrite Overlaps_comm in Hd. congruence.
Qed.
