(* ===== verification/TableMap.v ===== *)
(** * Builder and mapping functions of the table

    Every method of the builder keeps [entries_ok]; the two mapping functions
    return, keep the invariant [mapper_ok], and are inverse to each other. *)

From stdpp Require Import base tactics list numbers option strings gmap sorting.
From Stdlib Require Import ZArith Lia.
From S2P Require Import Prelude Netip Netutil Text Events Packet Translator Pool PoolFacts PoolOps Table Join TableFacts.

Open Scope Z_scope.

(** ** The builder *)

Lemma new_ok strict : entries_ok (NewBuilder strict).
Proof.
  constructor; cbn; try constructor; intros; repeat match goal with H : _ ∈ [] |- _ => by apply elem_of_nil in H end.
Qed.

Section add.
Context (b : Builder) (B : entries_ok b).

Lemma add_ok k v4 v6 v4Only :
  let e := mkEntry (length (b_entries b)) k v4 v6 v4Only in
  entry_ok e ->
  (k = KindRFC6052 -> forall o, o ∈ b_entries b -> e_Kind o <> KindRFC6052) ->
  (k = KindDynamicPool -> b_pool b = true /\ forall o, o ∈ b_entries b -> e_Kind o <> KindDynamicPool) ->
  entries_ok (add_entry k v4 v6 v4Only b).
Proof.
  intros e He Hpre Hpool. constructor; cbn [add_entry b_entries b_pool]; fold e.
  - apply Forall_app. split; [apply B|]. by constructor.
  - rewrite fmap_app. apply NoDup_app. split_and!; [apply B| |apply NoDup_singleton].
    intros i Hi Hj. apply list_elem_of_singleton in Hj as ->.
    apply list_elem_of_fmap in Hi as (o & Eo & Ho). apply (eo_fresh _ B) in Ho. cbn in Eo. lia.
  - intros x y Hx Hy Ex Ey. snoc_cases; [by apply (eo_prefix _ B)| | |done]; exfalso;
      [by eapply (Hpre Ex)|by eapply (Hpre Ey)].
  - intros x y Hx Hy Ex Ey. snoc_cases; [by apply (eo_pool _ B)| | |done]; exfalso;
      [by eapply (proj2 (Hpool Ex))|by eapply (proj2 (Hpool Ey))].
  - intros x Hx Ex. snoc_cases; [by apply (eo_has_pool _ B x)|by destruct (Hpool Ex)].
  - intros x Hx. rewrite length_app. cbn. snoc_cases; [apply (eo_fresh _ B) in Hx; lia|cbn; lia].
Qed.

(** A prefix that is its own [Masked] has no host bits. *)
Lemma masked4 v bits :
  0 <= v < 2 ^ 32 -> -1 <= bits <= 32 -> mkPrefix (Addr4 v) bits = Masked (mkPrefix (Addr4 v) bits) ->
  0 <= bits /\ v mod 2 ^ (32 - bits) = 0.
Proof.
  intros Hv Hb. unfold Masked, PIsValid. cbn [p_bits p_addr]. case_if; bool_prop; [|done].
  cbn [addr_prefix]. intros [= E1]. split; [done|]. rewrite E1. unfold mask_hi.
  rewrite Z.shiftl_mul_pow2 by lia. apply Z.mod_mul. pose proof (Z.pow_pos_nonneg 2 (32 - bits)). lia.
Qed.

Lemma masked6 v z bits :
  0 <= v < 2 ^ 128 -> -1 <= bits <= 128 -> mkPrefix (Addr6 v z) bits = Masked (mkPrefix (Addr6 v z) bits) ->
  0 <= bits /\ z = ""%string /\ v mod 2 ^ (128 - bits) = 0.
Proof.
  intros Hv Hb. unfold Masked, PIsValid. cbn [p_bits p_addr]. case_if; bool_prop; [|done].
  cbn [addr_prefix]. intros [= E1 E2]. split; [done|]. split; [done|]. rewrite E1. unfold mask_hi.
  rewrite Z.shiftl_mul_pow2 by lia. apply Z.mod_mul. pose proof (Z.pow_pos_nonneg 2 (128 - bits)). lia.
Qed.

Lemma AddPrefix_ok p b' : prefix_ok p -> AddPrefix p b = inl b' -> entries_ok b'.
Proof.
  intros (Ha & Hz & Hb). unfold AddPrefix. destruct p as [a n]. cbn [p_addr p_bits] in *.
  destruct a as [| |v z]; cbn [Is6 negb orb]; try done. repeat (case_if; [done|]). intros [= <-].
  bool_prop. apply bool_decide_eq_true in E1. cbn in Ha, Hb.
  apply masked6 in E1 as (Hn & -> & Hm); [|done|lia].
  apply add_ok; [|intros _ o Ho Ek|done].
  - by apply (ok_prefix _ v n).
  - rewrite existsb_false in E3. specialize (E3 o Ho). by rewrite bool_decide_true in E3.
Qed.

Lemma AddStatic_ok v4 v6 :
  prefix_ok v4 -> prefix_ok v6 ->
  owp (AddStatic v4 v6 b) (fun r => match r with inl b' => entries_ok b' | inr _ => True end).
Proof.
  intros (Ha4 & _ & Hb4) (Ha6 & _ & Hb6). unfold AddStatic.
  destruct v4 as [a n4], v6 as [a' n6]. cbn [p_addr p_bits] in *.
  destruct a as [|v|]; [exact I| |exact I]. destruct a' as [| |w z]; [exact I..|]. cbn [Is4 Is6 negb orb].
  case_if; [done|]. case_if; [done|]. case_if; [done|]. cbn [As4 mbind outcome_bind].
  case_if; [done|]. case_if; [done|]. cbn [owp]. bool_prop. destruct E1 as [M4 M6].
  apply bool_decide_eq_true in M4, M6. apply bool_decide_eq_false in E2. cbn in Ha4, Hb4, Ha6, Hb6.
  apply masked4 in M4 as (? & Hm4); [|done|lia]. apply masked6 in M6 as (? & -> & Hm6); [|done|lia].
  apply add_ok; [|done|done]. apply (ok_static _ v w (32 - n4)); try done.
  constructor; cbn; [lia|f_equal; lia|f_equal; lia|done|]. split; [done|]. by replace (32 - n4) with (128 - n6) by lia.
Qed.

Lemma AddSelf_ok v4 v6 derived :
  addr_ok v4 -> addr_ok v6 ->
  owp (AddSelf v4 v6 derived b) (fun r => match r with inl b' => entries_ok b' | inr _ => True end).
Proof.
  intros H4 H6. unfold AddSelf. destruct derived; cbn [negb].
  - destruct v4 as [|v|]; [exact I| |exact I]. cbn [Is4 negb As4 mbind outcome_bind]. case_if; [done|]. cbn [owp].
    apply add_ok; [|done|done]. apply (ok_self _ v (p_addr (PrefixFrom v6 128))); try done.
    split_and!; first [done|cbn in *; lia|by rewrite Z.mod_1_r].
  - apply AddStatic_ok; unfold PrefixFrom; case_if; split; cbn; bool_prop; destruct v4, v6; cbn in *; try lia; auto.
    all: split; [done|]; lia.
Qed.

End add.

Lemma SetPool_ok b p n b' : entries_ok b -> geom p n -> SetPool p b = inl b' -> entries_ok b'.
Proof.
  intros B G. unfold SetPool. destruct (b_pool b) eqn:Eb; [done|]. intros [= <-].
  assert (Hno : forall o, o ∈ b_entries b -> e_Kind o <> KindDynamicPool).
  { intros o Ho Ek. apply (eo_has_pool _ B o Ho) in Ek. congruence. }
  apply (add_ok (mkBuilder (b_wkpfStrict b) (b_entries b) true)).
  - by destruct B.
  - rewrite (g_prefix _ _ G). apply (ok_pool _ (p_base p) n); [done| |by destruct G].
    split_and!; cbn; first [done|destruct G; lia|by destruct G].
  - done.
  - done.
Qed.

(** Calls of the builder's methods; a call that fails leaves the builder as it
    was. *)
Inductive builder_op :=
  | BPrefix (p : Prefix)
  | BStatic (v4 v6 : Prefix)
  | BSelf (v4 v6 : Addr) (v6Derived : bool)
  | BPool (p : Pool).

Definition builder_op_ok (op : builder_op) : Prop :=
  match op with
  | BPrefix p => prefix_ok p
  | BStatic v4 v6 => prefix_ok v4 /\ prefix_ok v6
  | BSelf v4 v6 _ => addr_ok v4 /\ addr_ok v6
  | BPool p => exists n, geom p n
  end.

Definition or_same (b : Builder) (r : Builder + BuildErr) : Builder := match r with inl b' => b' | inr _ => b end.

Definition run_builder_op (op : builder_op) (b : Builder) : outcome Builder :=
  match op with
  | BPrefix p => Ok (or_same b (AddPrefix p b))
  | BStatic v4 v6 => r ← AddStatic v4 v6 b; Ok (or_same b r)
  | BSelf v4 v6 d => r ← AddSelf v4 v6 d b; Ok (or_same b r)
  | BPool p => Ok (or_same b (SetPool p b))
  end.

Fixpoint run_builder (ops : list builder_op) (b : Builder) : outcome Builder :=
  match ops with
  | [] => Ok b
  | op :: ops => b ← run_builder_op op b; run_builder ops b
  end.

Lemma run_builder_op_ok op b :
  entries_ok b -> builder_op_ok op -> owp (run_builder_op op b) entries_ok.
Proof.
  intros B Hop. destruct op as [p|v4 v6|v4 v6 d|p]; cbn [run_builder_op builder_op_ok] in *.
  - apply owp_ok. destruct (AddPrefix p b) eqn:E; [by eapply AddPrefix_ok|done].
  - destruct Hop. apply owp_bind. eapply owp_mono; [by apply AddStatic_ok|]. by intros [].
  - destruct Hop. apply owp_bind. eapply owp_mono; [by apply AddSelf_ok|]. by intros [].
  - destruct Hop as [n G]. apply owp_ok. destruct (SetPool p b) eqn:E; [by eapply SetPool_ok|done].
Qed.

Lemma run_builder_ok ops b :
  entries_ok b -> Forall builder_op_ok ops -> owp (run_builder ops b) entries_ok.
Proof.
  intros B Hops. revert b B. induction Hops as [|op ops Hop Hops IH]; intros b B; cbn; [done|].
  apply owp_bind. eapply owp_mono; [by apply run_builder_op_ok|]. auto.
Qed.

(** ** Mapping *)

(** A table, built from entries, with the pool it was built for. *)
Record mapper_ok (b : Builder) (s : Table * option Pool) : Prop := {
  mo_entries : entries_ok b;
  mo_table : table_of b s.1;
  mo_pool : t_pool s.1 = true -> exists p H, s.2 = Some p /\ repr p H /\
    forall e, t_poolEntry s.1 = Some e -> e_V4 e = p_prefix p;
}.

Lemma Contains_addr6 p u : Contains p (Addr6 u "") = true -> exists w z, p_addr p = Addr6 w z.
Proof.
  unfold Contains. case_if; [done|]. destruct (p_addr p); try done. eauto.
Qed.

Section map.
Context (clock : nat -> Z).
Context (range : nat -> gmap Addr nat -> list (Addr * nat)).
Context (range_perm : forall k m, range k m ≡ₚ map_to_list m).
Context (b : Builder).

Lemma embed_ok t e w n v :
  nat64_prefix (e_V6 e) w n -> 0 <= v < 2 ^ 32 ->
  owp (embed t (Addr4 v) (e_V6 e)) (fun r => forall a6, r = inl a6 ->
    ClassifyIPv4 (be_bytes 4 v) = IPv4Valid /\
    (t_wkpfStrict t && IsWellKnownPrefix (e_V6 e) && IsPrivateIPv4 (be_bytes 4 v) = false) /\
    exists out, a6 = AddrFrom16 out /\ length out = 16%nat /\ bytes_ok out /\
      take (Z.to_nat (n / 8)) out = take (Z.to_nat (n / 8)) (be_bytes 16 w) /\
      Extract out n = Ok (inl (be_bytes 4 v))).
Proof.
  intros [-> Hn Hw] Hv. unfold embed. cbn [As4 mbind outcome_bind p_addr p_bits As16].
  case_bool_decide as Ec; cbn [negb]; [|by apply owp_ok].
  destruct (_ && IsPrivateIPv4 _) eqn:Ew; [by apply owp_ok|].
  destruct (Extract_Embed_ok (be_bytes 16 w) n (be_bytes 4 v) Hn (length_be_bytes _ _) (length_be_bytes _ _))
    as (out & E & Hl & Ht & Hx).
  rewrite E. cbn. intros a6 [= <-]. split; [done|]. split; [done|]. exists out. split_and!; try done.
  by apply (Embed_bytes (be_bytes 16 w) n (be_bytes 4 v) out); auto using be_bytes_ok, length_be_bytes.
Qed.

Lemma wp_on_pool {A} (m : M Pool A) (Q : A -> option Pool -> Prop) p :
  wp m (fun r p' => Q r (Some p')) p -> wp (on_pool m) Q (Some p).
Proof. unfold wp, on_pool. by destruct (m p) as [[r p']| |]. Qed.

(** What a mapping call leaves. *)
Lemma mapper_ok_pool t po p p' H' :
  mapper_ok b (t, po) -> po = Some p -> frame p p' -> repr p' H' -> mapper_ok b (t, Some p').
Proof.
  intros [B T P] -> F R'. constructor; [done|done|]. intros Hp. destruct (P Hp) as (q & H & [= <-] & _ & HV).
  exists p', H'. split_and!; [done|done|]. intros e He. rewrite (f_prefix _ _ F). by apply HV.
Qed.

Lemma static_join6 e v :
  entry_ok e -> e_Kind e = KindStatic -> 0 <= v < 2 ^ 32 -> exists a6, joinStatic6 e (Addr4 v) = Ok a6.
Proof.
  intros He Ek Hv. destruct He as [v0 w k _ _ S _|v0 a _ _ (E4 & _) _|? ? ?|? ? ?]; try congruence.
  - rewrite (joinStatic6_eq _ _ _ _ _ S Hv). eauto.
  - unfold joinStatic6. rewrite E4. cbn. eauto.
Qed.

Lemma static_join4 e u :
  entry_ok e -> is_v6 e -> e_Kind e = KindStatic -> 0 <= u < 2 ^ 128 ->
  exists a4, joinStatic4 e (Addr6 u "") = Ok a4.
Proof.
  intros He V Ek Hu. destruct He as [v0 w k _ _ S _|v0 a _ E _ _|? ? ?|? ? ?]; try congruence.
  - rewrite (joinStatic4_eq _ _ _ _ _ S Hu). eauto.
  - destruct V as [?|[? ?]]; congruence.
Qed.

(** A pool before and after a call: the same, but for its hosts. *)
Definition pool_frame (po po' : option Pool) : Prop :=
  match po, po' with
  | Some p, Some p' => frame p p' /\ ((exists H, repr p H) -> exists H', repr p' H')
  | None, None => True
  | _, _ => False
  end.

Lemma pool_frame_refl po : pool_frame po po.
Proof. destruct po; [|done]. split; [by constructor|done]. Qed.

Lemma pool_frame_trans p1 p2 p3 : pool_frame p1 p2 -> pool_frame p2 p3 -> pool_frame p1 p3.
Proof. destruct p1, p2, p3; try done. intros [[] HR] [[] HR']. split; [constructor; congruence|auto]. Qed.

Definition mapped_on t po : option Pool -> Prop := fun po' => mapper_ok b (t, po') /\ pool_frame po po'.

Lemma mapped_on_same t po : mapper_ok b (t, po) -> mapped_on t po po.
Proof. intros MO. split; [done|apply pool_frame_refl]. Qed.

Lemma mapped_on_pool t p p' H' : mapper_ok b (t, Some p) -> frame p p' -> repr p' H' -> mapped_on t (Some p) (Some p').
Proof. intros MO F R'. split; [by eapply mapper_ok_pool|]. split; eauto. Qed.

Lemma map4_frame t po v :
  mapper_ok b (t, po) -> 0 <= v < 2 ^ 32 ->
  wp (table_MapIPv4ToIPv6 clock t (Addr4 v)) (fun _ po' => mapped_on t po po') po.
Proof.
  intros MO Hv. pose proof MO as [B T P]. cbn in T, P. pose proof (mapped_on_same t po MO) as Same. unfold table_MapIPv4ToIPv6.
  pose proof (lookup4_spec b t B T v) as L. destruct (table_lookup4 t (Addr4 v)) as [e|]; [|by apply wp_ret].
  destruct L as (He & _ & _). pose proof (entry_in b B e He) as Hok.
  destruct (e_Kind e) eqn:Ek.
  - destruct (static_join6 e v Hok Ek Hv) as [a6 E]. apply wp_bind, wp_lift. rewrite E. by apply owp_ok, wp_ret.
  - destruct Hok as [| |w n _ _ N|]; try congruence.
    apply wp_lift. eapply owp_mono; [by apply embed_ok|]. done.
  - assert (Hp : t_pool t = true) by (rewrite (to_pool _ _ T); by apply (eo_has_pool _ B e)).
    destruct (P Hp) as (p & H & -> & R & _). apply wp_bind, wp_on_pool.
    eapply wp_mono; [by apply lookup4_ok|]. cbv beta. intros r p' HP.
    destruct (lookup4_result H _ _) as [r' H']. destruct HP as [_ [R' F _ _]].
    destruct r; apply wp_ret; by eapply mapped_on_pool.
  - by apply wp_ret.
Qed.

Lemma map6_frame t po u allocate :
  mapper_ok b (t, po) -> 0 <= u < 2 ^ 128 ->
  wp (table_MapIPv6ToIPv4 clock range t (Addr6 u "") allocate) (fun _ po' => mapped_on t po po') po.
Proof.
  intros MO Hu. pose proof MO as [B T P]. cbn in T, P. pose proof (mapped_on_same t po MO) as Same. unfold table_MapIPv6ToIPv4.
  destruct (table_lookup6 t (Addr6 u "")) as [e|] eqn:L.
  - apply (lookup6_spec b t B T) in L as (He & Ve & _). pose proof (entry_in b B e He) as Hok.
    destruct (e_Kind e) eqn:Ek.
    + destruct (static_join4 e u Hok Ve Ek Hu) as [a4 E]. apply wp_bind, wp_lift. rewrite E. by apply owp_ok, wp_ret.
    + apply wp_bind, wp_lift. destruct (Extract_total (As16 (Addr6 u "")) (p_bits (e_V6 e))) as [r E].
      { apply length_As16. }
      rewrite E. cbn [owp]. destruct r; [|by apply wp_ret]. repeat (case_if; [by apply wp_ret|]). by apply wp_ret.
    + by apply wp_ret.
    + by apply wp_ret.
  - case_if; [by apply wp_ret|]. apply negb_false_iff in E. destruct (P E) as (p & H & -> & R & _).
    apply wp_bind, wp_on_pool. eapply wp_mono; [by apply (lookup6_ok clock range range_perm)|].
    intros r p' (ro & H' & evs & dt & _ & _ & [R' F _ _]). destruct r; apply wp_ret; by eapply mapped_on_pool.
Qed.

Lemma map4_ok t po v :
  mapper_ok b (t, po) -> 0 <= v < 2 ^ 32 ->
  wp (table_MapIPv4ToIPv6 clock t (Addr4 v)) (fun _ po' => mapper_ok b (t, po')) po.
Proof. intros MO Hv. eapply wp_mono; [by apply map4_frame|]. by intros r po' []. Qed.

Lemma map6_ok t po u allocate :
  mapper_ok b (t, po) -> 0 <= u < 2 ^ 128 ->
  wp (table_MapIPv6ToIPv4 clock range t (Addr6 u "") allocate) (fun _ po' => mapper_ok b (t, po')) po.
Proof. intros MO Hu. eapply wp_mono; [by apply map6_frame|]. by intros r po' []. Qed.

(** ** The two directions are inverse *)

(** Mapping back what an entry of each kind gave. *)
Lemma static_back46 t e v :
  entries_ok b -> table_of b t -> table_lookup4 t (Addr4 v) = Some e -> e_Kind e = KindStatic ->
  e_v4Only e = false -> 0 <= v < 2 ^ 32 ->
  exists u, 0 <= u < 2 ^ 128 /\ joinStatic6 e (Addr4 v) = Ok (Addr6 u "") /\
    table_lookup6 t (Addr6 u "") = Some e /\ joinStatic4 e (Addr6 u "") = Ok (Addr4 v).
Proof.
  intros B T L Ek Ev Hv. pose proof (lookup4_spec b t B T v) as HL. rewrite L in HL. destruct HL as (He & Hc & _).
  destruct (entry_in b B e He) as [v0 w k _ _ S _|? ? ? ? _ _|? ? ? _ _|? ? ? _ _]; try congruence.
  pose proof S as [Hk _ _ [Hv0 Hv0m] [Hw Hwm]].
  assert (Hp : 0 < 2 ^ k) by (apply Z.pow_pos_nonneg; lia).
  pose proof (Z.mod_pos_bound v (2 ^ k)) as Hm.
  assert (Hu : 0 <= w + v mod 2 ^ k < 2 ^ 128).
  { apply Z.mod_divide in Hwm as [q ->]; [|lia].
    assert (E : 2 ^ 128 = 2 ^ (128 - k) * 2 ^ k) by (rewrite <- Z.pow_add_r by lia; f_equal; lia).
    rewrite E in *. pose proof (block_fits q (2 ^ k) (2 ^ (128 - k))). lia. }
  exists (w + v mod 2 ^ k). split; [done|]. split; [by apply joinStatic6_eq with (v0 := v0)|].
  assert (Emod : (w + v mod 2 ^ k) mod 2 ^ k = v mod 2 ^ k).
  { rewrite Z.add_mod, Hwm, Z.add_0_l, !Z.mod_mod by lia. done. }
  split.
  - apply (lookup6_spec b t B T). split_and!; [done|by right|].
    apply (static_Contains6 _ _ _ _ _ S). by rewrite Emod.
  - rewrite (joinStatic4_eq _ _ _ _ _ S Hu), Emod. apply (static_Contains4 _ _ _ _ _ S) in Hc. by rewrite <- Hc.
Qed.

Lemma prefix_back46 t e po v a6 allocate :
  entries_ok b -> table_of b t -> table_lookup4 t (Addr4 v) = Some e -> e_Kind e = KindRFC6052 ->
  0 <= v < 2 ^ 32 -> embed t (Addr4 v) (e_V6 e) = Ok (inl a6) ->
  table_MapIPv6ToIPv4 clock range t a6 allocate po = Ok (inl (Addr4 v), po).
Proof.
  intros B T L Ek Hv HE. pose proof (lookup4_spec b t B T v) as HL. rewrite L in HL. destruct HL as (He & _ & _).
  destruct (entry_in b B e He) as [| |w n _ _ N|]; try congruence.
  pose proof (embed_ok t e w n v N Hv) as Hm. unfold owp in Hm. rewrite HE in Hm.
  destruct (Hm a6 eq_refl) as (Hc & Hw & out & -> & Hl & Hb & Ht & Hx).
  unfold AddrFrom16. unfold table_MapIPv6ToIPv4.
  pose proof N as [E6 Hn Hww].
  assert (L6 : table_lookup6 t (Addr6 (be out) "") = Some e).
  { apply (lookup6_spec b t B T). split_and!; [done|by left|]. rewrite E6. by apply Contains_take. }
  rewrite L6, Ek.
  assert (EA : As16 (Addr6 (be out) "") = out) by by apply (As16_AddrFrom16 out).
  rewrite EA. replace (p_bits (e_V6 e)) with n by by rewrite E6. rewrite Hx.
  unfold mbind, M_bind, lift. rewrite bool_decide_true by done. cbn [negb]. rewrite Hw.
  assert (Ev : AddrFrom4 (be_bytes 4 v) = Addr4 v).
  { unfold AddrFrom4. rewrite be_be_bytes, Z.mod_small by (change (256 ^ Z.of_nat 4) with (2 ^ 32); lia). done. }
  rewrite Ev, L. unfold same_entry. by rewrite bool_decide_true.
Qed.

(** The pool keeps its answer for a host that is mapped. *)
Lemma pool_back64 p H off d allocate :
  repr p H -> H !! off = Some d -> d_dormant d = false ->
  exists p', lookup6 clock range (d_v6 d) allocate p = Ok (Some (d_v4 d), p').
Proof.
  intros R Hd Hdd. destruct (H_host_at _ _ R _ _ Hd) as (l & Hl & _). pose proof Hl as [Hh _].
  assert (Hw : wp (lookup6 clock range (d_v6 d) allocate) (fun r _ => r = Some (d_v4 d)) p).
  { unfold lookup6. apply wp_bind, wp_gets. rewrite (proj2 (mapped_loc _ _ R l d _ Hl)) by done.
    apply wp_bind, wp_now, wp_bind, (wp_store _ _ d); [done|].
    by apply wp_bind, (wp_load _ (set_lastUse (clock (p_tick p)) d)); [apply lookup_insert_eq|]. }
  apply wp_run in Hw as (r & p' & -> & ->). eauto.
Qed.

Lemma map46_back t po v a6 po1 allocate :
  mapper_ok b (t, po) -> 0 <= v < 2 ^ 32 ->
  table_MapIPv4ToIPv6 clock t (Addr4 v) po = Ok (inl a6, po1) ->
  match table_lookup4 t (Addr4 v) with
  | Some e => e_v4Only e = false /\ (e_Kind e = KindDynamicPool -> table_lookup6 t a6 = None)
  | None => True
  end ->
  exists po2, table_MapIPv6ToIPv4 clock range t a6 allocate po1 = Ok (inl (Addr4 v), po2).
Proof.
  intros MO Hv. pose proof MO as [B T P]. cbn in T, P. unfold table_MapIPv4ToIPv6.
  destruct (table_lookup4 t (Addr4 v)) as [e|] eqn:L; [|done].
  pose proof (lookup4_spec b t B T v) as HL. rewrite L in HL. destruct HL as (He & Hc & _).
  destruct (e_Kind e) eqn:Ek.
  - intros E [Ev _]. destruct (static_back46 t e v B T L Ek Ev Hv) as (u & Hu & E6 & L6 & E4).
    unfold mbind, M_bind, lift in E. rewrite E6 in E. injection E as <- <-. exists po.
    unfold table_MapIPv6ToIPv4. rewrite L6, Ek. unfold mbind, M_bind, lift. by rewrite E4.
  - intros E _. exists po. unfold lift in E. destruct (embed _ _ _) as [r| |] eqn:EE; try done.
    injection E as -> <-. by apply (prefix_back46 t e).
  - intros E [_ Hfree]. specialize (Hfree eq_refl).
    assert (Hp : t_pool t = true) by (rewrite (to_pool _ _ T); by apply (eo_has_pool _ B e)).
    destruct (P Hp) as (p & H & -> & R & HV). destruct (r_geom _ _ R) as [n G].
    pose proof (lookup4_ok clock p H v R Hv) as Hw. unfold mbind, M_bind, on_pool in E.
    apply wp_run in Hw as (r & p' & Er & HP). rewrite Er in E. cbn in E. unfold lookup4_result in HP.
    set (off := Z.land v (p_max p)) in *.
    destruct (H !! off) as [d|] eqn:Hd; [|by destruct HP as [-> _]].
    destruct (d_dormant d) eqn:Hdd; [by destruct HP as [-> _]|]. destruct HP as [-> [R' F _ _]].
    injection E as <- <-.
    assert (Ed : d_v4 d = Addr4 v).
    { destruct (r_host _ _ R _ _ Hd) as [Eo [_ ->]]. rewrite Eo. symmetry.
      apply (Contains_addr _ _ G). rewrite <- (HV e); [done|]. by apply (to_poolEntry _ _ T). }
    destruct (pool_back64 p' _ off (set_lastUse (clock (p_tick p)) d) allocate R') as [p2 E2];
      [apply lookup_insert_eq|done|].
    exists (Some p2). unfold table_MapIPv6ToIPv4. rewrite Hfree, Hp. cbn [negb].
    unfold mbind, M_bind, on_pool. cbn [d_v6 set_lastUse d_v4] in E2. rewrite E2. cbn. by rewrite Ed.
  - done.
Qed.

Lemma static_back64 t e u :
  entries_ok b -> table_of b t -> table_lookup6 t (Addr6 u "") = Some e -> e_Kind e = KindStatic ->
  0 <= u < 2 ^ 128 ->
  exists v, 0 <= v < 2 ^ 32 /\ joinStatic4 e (Addr6 u "") = Ok (Addr4 v) /\
    Contains (e_V4 e) (Addr4 v) = true /\ joinStatic6 e (Addr4 v) = Ok (Addr6 u "").
Proof.
  intros B T L Ek Hu. apply (lookup6_spec b t B T) in L as (He & Ve & Hc).
  destruct (entry_in b B e He) as [v0 w k _ _ S _|? ? ? ? _ _|? ? ? _ _|? ? ? _ _]; try congruence;
    [|by destruct Ve as [?|[? ?]]; congruence].
  pose proof S as [Hk _ _ [Hv0 Hv0m] [Hw Hwm]].
  assert (Hp : 0 < 2 ^ k) by (apply Z.pow_pos_nonneg; lia).
  pose proof (Z.mod_pos_bound u (2 ^ k)) as Hm.
  assert (Hv : 0 <= v0 + u mod 2 ^ k < 2 ^ 32).
  { apply Z.mod_divide in Hv0m as [q ->]; [|lia].
    assert (E : 2 ^ 32 = 2 ^ (32 - k) * 2 ^ k) by (rewrite <- Z.pow_add_r by lia; f_equal; lia).
    rewrite E in *. pose proof (block_fits q (2 ^ k) (2 ^ (32 - k))). lia. }
  exists (v0 + u mod 2 ^ k). split; [done|]. split; [by apply joinStatic4_eq with (w := w)|].
  assert (Emod : (v0 + u mod 2 ^ k) mod 2 ^ k = u mod 2 ^ k).
  { rewrite Z.add_mod, Hv0m, Z.add_0_l, !Z.mod_mod by lia. done. }
  split; [apply (static_Contains4 _ _ _ _ _ S); by rewrite Emod|].
  rewrite (joinStatic6_eq _ _ _ _ _ S Hv), Emod. apply (static_Contains6 _ _ _ _ _ S) in Hc. by rewrite <- Hc.
Qed.

(** An address extracted from the prefix embeds to where it came from. *)
Lemma prefix_back64 t po e u a4 po1 allocate :
  entries_ok b -> table_of b t -> table_lookup6 t (Addr6 u "") = Some e -> e_Kind e = KindRFC6052 ->
  0 <= u < 2 ^ 128 ->
  table_MapIPv6ToIPv4 clock range t (Addr6 u "") allocate po = Ok (inl a4, po1) ->
  po1 = po /\ (exists v, 0 <= v < 2 ^ 32 /\ a4 = Addr4 v) /\ table_lookup4 t a4 = Some e /\
  table_MapIPv4ToIPv6 clock t a4 po = Ok (inl (Addr6 u ""), po).
Proof.
  intros B T L Ek Hu. unfold table_MapIPv6ToIPv4. rewrite L, Ek.
  apply (lookup6_spec b t B T) in L as (He & Ve & Hc).
  destruct (entry_in b B e He) as [| |w n _ _ N|]; try congruence. pose proof N as [E6 Hn Hw].
  set (l := As16 (Addr6 u "")). assert (Hl : length l = 16%nat) by apply length_As16.
  assert (Hb : bytes_ok l) by apply As16_ok.
  assert (Ebe : be l = u).
  { unfold l. cbn [As16]. rewrite be_be_bytes, Z.mod_small by (change (256 ^ Z.of_nat 16) with (2 ^ 128); lia). done. }
  assert (EA : AddrFrom16 l = Addr6 u "") by (unfold AddrFrom16; by rewrite Ebe).
  clearbody l. rewrite E6. cbn [p_bits]. unfold mbind, M_bind, lift.
  destruct (Extract l n) as [[v4|]| |] eqn:EX; try done.
  destruct (Extract_bytes l n v4 Hl Hb EX) as [Hvb Hvl].
  destruct (Embed_Extract_ok l n v4 Hl EX) as (_ & _ & EE).
  case_bool_decide as Ec; cbn [negb]; [|done].
  destruct (_ && IsPrivateIPv4 _) eqn:Ew; [done|].
  destruct (same_entry _ _) eqn:Es; cbn [negb]; [|done]. intros [= <- <-].
  assert (Hv : 0 <= be v4 < 2 ^ 32).
  { pose proof (be_range v4 Hvb) as Hr. unfold len in Hr. rewrite Hvl in Hr.
    change (256 ^ Z.of_nat 4) with (2 ^ 32) in Hr. done. }
  assert (L4 : table_lookup4 t (AddrFrom4 v4) = Some e).
  { unfold same_entry in Es. apply bool_decide_eq_true in Es.
    destruct (table_lookup4 t (AddrFrom4 v4)) as [e'|] eqn:L'; [|done]. cbn in Es. f_equal.
    pose proof (lookup4_spec b t B T (be v4)) as HL. unfold AddrFrom4 in L'. rewrite L' in HL.
    apply (id_inj (b_entries b)); [apply B|apply HL|done|congruence]. }
  split; [done|]. split; [by exists (be v4)|]. split; [done|].
  unfold table_MapIPv4ToIPv6. rewrite L4, Ek. unfold lift, embed. rewrite As4_AddrFrom4 by done.
  cbn [mbind outcome_bind]. rewrite E6 in *. rewrite bool_decide_true by done. cbn [negb].
  rewrite Ew. cbn [p_addr p_bits As16].
  assert (Eemb : Embed (be_bytes 16 w) n v4 = Ok (inl l)).
  { rewrite <- EE. apply Embed_same; [done|apply length_be_bytes|done|]. symmetry.
    apply (Contains_take w n l Hn Hw Hb Hl). by rewrite EA. }
  rewrite Eemb. cbn. by rewrite EA.
Qed.
End map.

(** The table as the translator's mapper: the laws the translator relies on.  The
    invariant says which table it is, and that the pool is still the one it was. *)
Definition mapper_from (t0 : Table) (po0 : option Pool) (s : Table * option Pool) : Prop :=
  s.1 = t0 /\ (exists b, mapper_ok b s) /\ pool_frame po0 s.2.

Section laws.
Context (clock : nat -> Z) (range : nat -> gmap Addr nat -> list (Addr * nat)).
Context (range_perm : forall k m, range k m ≡ₚ map_to_list m).
Context (t0 : Table) (po0 : option Pool).

Lemma table_map4_from v (s : Table * option Pool) :
  0 <= v < 2 ^ 32 -> mapper_from t0 po0 s ->
  owp ('(r, po) ← table_MapIPv4ToIPv6 clock s.1 (Addr4 v) s.2; Ok (r, (s.1, po))) (fun '(_, s') => mapper_from t0 po0 s').
Proof.
  intros Hv (E0 & [b MO] & F). destruct s as [t po]. pose proof (map4_frame clock b t po v MO Hv) as H.
  apply wp_run in H as (r & po' & E & MO' & F'). cbn. rewrite E. cbn. split_and!; [done|eauto|by eapply pool_frame_trans].
Qed.

Lemma table_map6_from v allocate (s : Table * option Pool) :
  0 <= v < 2 ^ 128 -> mapper_from t0 po0 s ->
  owp ('(r, po) ← table_MapIPv6ToIPv4 clock range s.1 (Addr6 v "") allocate s.2; Ok (r, (s.1, po)))
    (fun '(_, s') => mapper_from t0 po0 s').
Proof.
  intros Hv (E0 & [b MO] & F). destruct s as [t po]. pose proof (map6_frame clock range range_perm b t po v allocate MO Hv) as H.
  apply wp_run in H as (r & po' & E & MO' & F'). cbn. rewrite E. cbn. split_and!; [done|eauto|by eapply pool_frame_trans].
Qed.

Definition table_laws_from : @MapperLaws (Table * option Pool) (table_mapper clock range) :=
  @Build_MapperLaws _ (table_mapper clock range) (mapper_from t0 po0) table_map4_from table_map6_from.
End laws.

(** The same, for whatever valid table and pool are there. *)
Lemma table_map4_safe clock v (s : Table * option Pool) :
  0 <= v < 2 ^ 32 -> (exists b, mapper_ok b s) ->
  owp ('(r, po) ← table_MapIPv4ToIPv6 clock s.1 (Addr4 v) s.2; Ok (r, (s.1, po)))
    (fun '(_, s') => exists b, mapper_ok b s').
Proof.
  intros Hv [b MO]. destruct s as [t po]. pose proof (map4_ok clock b t po v MO Hv) as H.
  apply wp_run in H as (r & po' & E & MO'). cbn. rewrite E. cbn. eauto.
Qed.

Lemma table_map6_safe clock range :
  (forall k m, range k m ≡ₚ map_to_list m) ->
  forall v allocate (s : Table * option Pool), 0 <= v < 2 ^ 128 -> (exists b, mapper_ok b s) ->
  owp ('(r, po) ← table_MapIPv6ToIPv4 clock range s.1 (Addr6 v "") allocate s.2; Ok (r, (s.1, po)))
    (fun '(_, s') => exists b, mapper_ok b s').
Proof.
  intros Hr v allocate s Hv [b MO]. destruct s as [t po].
  pose proof (map6_ok clock range Hr b t po v allocate MO Hv) as H.
  apply wp_run in H as (r & po' & E & MO'). cbn. rewrite E. cbn. eauto.
Qed.

Definition table_mapper_laws clock range (range_perm : forall k m, range k m ≡ₚ map_to_list m) :
    @MapperLaws (Table * option Pool) (table_mapper clock range) :=
  @Build_MapperLaws _ (table_mapper clock range) (fun s => exists b, mapper_ok b s)
    (fun v s => table_map4_safe clock v s) (table_map6_safe clock range range_perm).
