(* ===== verification/TableProps.v ===== *)
(** * What the address table guarantees

    The properties of [addrmap.Builder] and [addrmap.Table], the pool behind the
    table included; the witnesses run them on a table with one entry of each kind. *)

From stdpp Require Import base tactics list numbers option strings gmap sorting.
From Stdlib Require Import ZArith Lia.
From S2P Require Import Prelude Netip Netutil Text Events Packet Translator Pool PoolFacts PoolOps PoolSave PoolRun PoolProps PoolAvoid Table Join TableFacts TableMap.

Open Scope Z_scope.

(** ** A table to try them on *)

(** 2001:db8:1::/96, 192.0.2.16/28 and 2001:db8:5::/124, 198.51.100.7 and
    2001:db8:7::1, 192.0.0.2 for the translator itself, and the pool of
    [PoolProps], 10.0.0.0/30. *)
Definition tx_net6 (x : Z) : Z := 0x20010db8 * 2 ^ 96 + x * 2 ^ 80.
Definition tx_ops : list builder_op :=
  [BPrefix (mkPrefix (Addr6 (tx_net6 1) "") 96);
   BStatic (mkPrefix (Addr4 (be [192; 0; 2; 16])) 28) (mkPrefix (Addr6 (tx_net6 5) "") 124);
   BStatic (mkPrefix (Addr4 (be [198; 51; 100; 7])) 32) (mkPrefix (Addr6 (tx_net6 7 + 1) "") 128);
   BSelf (Addr4 (be [192; 0; 0; 2])) (Addr6 (tx_net6 1 + be [192; 0; 0; 2]) "") true;
   BPool px_pool].

Definition tx_builder : Builder :=
  Eval vm_compute in match run_builder tx_ops (NewBuilder false) with Ok b => b | _ => NewBuilder false end.

Lemma tx_run : run_builder tx_ops (NewBuilder false) = Ok tx_builder.
Proof. vm_compute. reflexivity. Qed.

Lemma tx_ops_ok : Forall builder_op_ok tx_ops.
Proof.
  assert (G : exists n, geom px_pool n) by (apply (r_geom _ _ px_repr)).
  unfold tx_ops. repeat (apply Forall_cons; split); [..|exact G|exact (Forall_nil_2 _)].
  all: cbn [builder_op_ok]; unfold prefix_ok, addr_ok, tx_net6; cbn [p_addr p_bits hasZone BitLen].
  all: vm_compute; intuition congruence.
Qed.

Lemma tx_entries : entries_ok tx_builder.
Proof.
  pose proof (run_builder_ok tx_ops (NewBuilder false) (new_ok false) tx_ops_ok) as H.
  by rewrite tx_run in H.
Qed.

Definition tx_table : Table :=
  match build_table tx_builder with inl t => t | inr _ => mkTable false None ∅ ∅ [] [] false None end.

Lemma tx_build : build_table tx_builder = inl tx_table.
Proof. vm_compute. reflexivity. Qed.

Definition tx_pool : Pool := with_reserved (table_reserved tx_table) px_pool.

Lemma tx_pool_repr : repr tx_pool ∅.
Proof. apply repr_reserved, px_repr. Qed.

Lemma tx_ok : mapper_ok tx_builder (tx_table, Some tx_pool).
Proof.
  constructor; [exact tx_entries|exact (build_table_ok _ _ tx_entries tx_build)|].
  intros _. exists tx_pool, ∅. split_and!; [done|exact tx_pool_repr|].
  intros e He. apply (to_poolEntry _ _ (build_table_ok _ _ tx_entries tx_build)) in He as [He Ek].
  revert He Ek. unfold tx_builder. cbn [b_entries].
  intros He. repeat (apply elem_of_cons in He as [->|He]; [cbn; intros; first [discriminate|vm_compute; reflexivity]|]).
  by apply elem_of_nil in He.
Qed.

(** ** Building *)

(** C30: whatever calls are made on a builder, none panics, and [Build] gives a table
    exactly when no two entries clash: the same IPv4 prefix mapped twice, a static map
    of the pool's own prefix, or two overlapping IPv6 prefixes.  The table then holds
    every entry in the collection it belongs to and the pool refuses the addresses the
    table maps otherwise; a failed [Build] leaves the pool alone. *)
Theorem build_unless_conflict strict ops po :
  Forall builder_op_ok ops ->
  owp (run_builder ops (NewBuilder strict)) (fun b =>
    entries_ok b /\ ((b_pool b = true -> is_Some po) ->
    wp (Build b) (fun r po' =>
      match r with
      | inl t => ~ conflict (b_entries b) /\ table_of b t /\
          po' = if b_pool b then with_reserved (table_reserved t) <$> po else po
      | inr err => err = EConflict /\ conflict (b_entries b) /\ po' = po
      end) po)).
Proof.
  intros Hops. eapply owp_mono; [apply run_builder_ok; [apply new_ok|done]|].
  intros b B. split; [done|]. intros Hp. unfold Build.
  destruct (build_table b) as [t|err] eqn:E.
  - pose proof (build_table_ok b t B E) as T. rewrite (to_pool _ _ T). apply wp_bind.
    destruct (b_pool b).
    + destruct Hp as [p ->]; [done|]. apply wp_bind, wp_gets, wp_modify, wp_ret.
      split; [by eapply table_of_no_conflict|]. by split.
    + apply wp_skip, wp_ret. split; [by eapply table_of_no_conflict|]. by split.
  - apply wp_ret. destruct (build_table_err b err B E). by split_and!.
Qed.

Lemma build_unless_conflict_witness :
  owp (run_builder tx_ops (NewBuilder false)) (fun b =>
    entries_ok b /\ ((b_pool b = true -> is_Some (Some px_pool)) ->
    wp (Build b) (fun r po' =>
      match r with
      | inl t => ~ conflict (b_entries b) /\ table_of b t /\
          po' = if b_pool b then with_reserved (table_reserved t) <$> Some px_pool else Some px_pool
      | inr err => err = EConflict /\ conflict (b_entries b) /\ po' = Some px_pool
      end) (Some px_pool))).
Proof. apply (build_unless_conflict false tx_ops (Some px_pool) tx_ops_ok). Defined.

(** ** Looking up *)

(** An IPv4 address is mapped by the entry with the longest prefix that
    contains it, and there is only one with that length; no entry is found only when
    no entry contains it. *)
Theorem lookup4_longest_prefix b t v :
  entries_ok b -> build_table b = inl t ->
  match table_lookup4 t (Addr4 v) with
  | Some e => e ∈ b_entries b /\ Contains (e_V4 e) (Addr4 v) = true /\
      forall o, o ∈ b_entries b -> Contains (e_V4 o) (Addr4 v) = true ->
        o = e \/ p_bits (e_V4 o) < p_bits (e_V4 e)
  | None => forall e, e ∈ b_entries b -> Contains (e_V4 e) (Addr4 v) = false
  end.
Proof. intros B E. apply (lookup4_spec b t B). by apply build_table_ok. Qed.

Lemma lookup4_longest_prefix_witness :
  e_Kind <$> table_lookup4 tx_table (Addr4 (be [192; 0; 2; 20])) = Some KindStatic /\
  match table_lookup4 tx_table (Addr4 (be [192; 0; 2; 20])) with
  | Some e => e ∈ b_entries tx_builder /\ Contains (e_V4 e) (Addr4 (be [192; 0; 2; 20])) = true /\
      forall o, o ∈ b_entries tx_builder -> Contains (e_V4 o) (Addr4 (be [192; 0; 2; 20])) = true ->
        o = e \/ p_bits (e_V4 o) < p_bits (e_V4 e)
  | None => forall e, e ∈ b_entries tx_builder -> Contains (e_V4 e) (Addr4 (be [192; 0; 2; 20])) = false
  end.
Proof.
  split; [vm_compute; reflexivity|].
  apply (lookup4_longest_prefix tx_builder tx_table _ tx_entries tx_build).
Defined.

(** An IPv6 address is in the prefix of at most one entry, and the lookup finds
    it exactly when there is one; the translator's own address is not among them when
    it is reached through the NAT64 prefix. *)
Theorem lookup6_unique_match b t u e :
  entries_ok b -> build_table b = inl t ->
  table_lookup6 t (Addr6 u "") = Some e <->
  e ∈ b_entries b /\ is_v6 e /\ Contains (e_V6 e) (Addr6 u "") = true.
Proof. intros B E. apply (lookup6_spec b t B). by apply build_table_ok. Qed.

Lemma lookup6_unique_match_witness :
  exists e, table_lookup6 tx_table (Addr6 (tx_net6 5 + 4) "") = Some e /\
  (table_lookup6 tx_table (Addr6 (tx_net6 5 + 4) "") = Some e <->
   e ∈ b_entries tx_builder /\ is_v6 e /\ Contains (e_V6 e) (Addr6 (tx_net6 5 + 4) "") = true).
Proof.
  eexists. split; [vm_compute; reflexivity|].
  apply (lookup6_unique_match tx_builder tx_table _ _ tx_entries tx_build).
Defined.

(** Equal identities are equal entries. *)
Lemma same_entry_lookup b t a :
  entries_ok b -> table_of b t -> (exists v, a = Addr4 v) ->
  same_entry (table_lookup4 t a) (t_poolEntry t) = true -> table_lookup4 t a = t_poolEntry t.
Proof.
  intros B T [v ->] E. apply bool_decide_eq_true in E. pose proof (lookup4_spec b t B T v) as L.
  destruct (table_lookup4 t (Addr4 v)) as [e|], (t_poolEntry t) as [pe|] eqn:Epe; try done.
  f_equal. apply (id_inj (b_entries b)); [apply B|apply L|by apply (to_poolEntry _ _ T)|].
  by apply (inj Some) in E.
Qed.

(** ** Mapping *)

Section mapping.
Context (clock : nat -> Z).
Context (range : nat -> gmap Addr nat -> list (Addr * nat)).
Context (range_perm : forall k m, range k m ≡ₚ map_to_list m).

(** Mapping an address, in either direction, never panics and keeps the table
    and its pool as they must be. *)
Theorem mapping_keeps_invariant b t po v u allocate :
  mapper_ok b (t, po) -> 0 <= v < 2 ^ 32 -> 0 <= u < 2 ^ 128 ->
  wp (table_MapIPv4ToIPv6 clock t (Addr4 v)) (fun _ po' => mapper_ok b (t, po')) po /\
  wp (table_MapIPv6ToIPv4 clock range t (Addr6 u "") allocate) (fun _ po' => mapper_ok b (t, po')) po.
Proof. intros MO Hv Hu. split; [by apply map4_ok|by apply map6_ok]. Qed.

(** C22: an IPv4 address that is mapped is mapped back to itself, whatever the kind of
    its entry, unless the entry is only for IPv4 or the pool's host is also inside an
    IPv6 prefix that is mapped otherwise. *)
Theorem map46_roundtrip b t po v a6 po1 allocate :
  mapper_ok b (t, po) -> 0 <= v < 2 ^ 32 ->
  table_MapIPv4ToIPv6 clock t (Addr4 v) po = Ok (inl a6, po1) ->
  match table_lookup4 t (Addr4 v) with
  | Some e => e_v4Only e = false /\ (e_Kind e = KindDynamicPool -> table_lookup6 t a6 = None)
  | None => True
  end ->
  exists po2, table_MapIPv6ToIPv4 clock range t a6 allocate po1 = Ok (inl (Addr4 v), po2).
Proof. intros MO Hv E HL. eapply map46_back; eauto. Qed.

(** The IPv4 side of the entry that mapped an IPv6 address is not covered by a more
    specific one; the NAT64 prefix checks that itself. *)
Definition not_shadowed (t : Table) (u : Z) (a4 : Addr) : Prop :=
  match table_lookup6 t (Addr6 u "") with
  | Some e => e_Kind e = KindStatic -> table_lookup4 t a4 = Some e
  | None => e_Kind <$> table_lookup4 t a4 = Some KindDynamicPool
  end.

(** C23: an IPv6 address that is mapped is mapped back to itself, the host it was just
    assigned to included, unless a more specific IPv4 prefix shadows the address it
    was given. *)
Theorem map64_roundtrip b t po u allocate :
  mapper_ok b (t, po) -> 0 <= u < 2 ^ 128 ->
  wp (table_MapIPv6ToIPv4 clock range t (Addr6 u "") allocate) (fun r po1 =>
    forall a4, r = inl a4 -> not_shadowed t u a4 ->
    exists po2, table_MapIPv4ToIPv6 clock t a4 po1 = Ok (inl (Addr6 u ""), po2)) po.
Proof.
  intros MO Hu. pose proof MO as [B T P]. cbn in T, P. unfold not_shadowed.
  destruct (table_lookup6 t (Addr6 u "")) as [e|] eqn:L.
  - destruct (e_Kind e) eqn:Ek.
    + destruct (static_back64 b t e u B T L Ek Hu) as (v & Hv & E4 & _ & E6).
      unfold table_MapIPv6ToIPv4. rewrite L, Ek. apply wp_bind, wp_lift. rewrite E4. cbn [owp].
      apply wp_ret. intros a4 [= <-] Hs. specialize (Hs eq_refl). exists po.
      unfold table_MapIPv4ToIPv6. rewrite Hs, Ek. unfold mbind, M_bind, lift. by rewrite E6.
    + pose proof (map6_ok clock range range_perm b t po u allocate MO Hu) as Hw.
      apply wp_run in Hw as (r & po1 & E & _). unfold wp. rewrite E. intros a4 -> _.
      destruct (prefix_back64 clock range b t po e u a4 po1 allocate B T L Ek Hu E) as (-> & _ & _ & E2).
      eauto.
    + unfold table_MapIPv6ToIPv4. rewrite L, Ek. by apply wp_ret.
    + unfold table_MapIPv6ToIPv4. rewrite L, Ek. by apply wp_ret.
  - unfold table_MapIPv6ToIPv4. rewrite L. case_if; [by apply wp_ret|]. apply negb_false_iff in E.
    destruct (P E) as (p & H & -> & R & _). clear E. apply wp_bind, wp_on_pool.
    eapply wp_mono; [by apply (lookup6_ok clock range range_perm)|].
    intros r p' (ro & H' & evs & dt & Hs & -> & [R' F _ _]).
    destruct ro as [off|]; [|by apply wp_ret]. apply wp_ret. intros a4 [= <-] Hsh.
    destruct (lookup6_owner _ _ _ _ _ _ _ _ _ R Hs) as (d & Hd & Hv & Hdd & _).
    destruct (lookup4_owner clock _ _ _ _ R' Hd Hdd) as (v & Ea & HP).
    apply wp_run in HP as (r & p2 & E & ->). rewrite Hv in E.
    rewrite (frame_addr _ _ off F) in Ea. change (addr p <$> Some off) with (Some (addr p off)) in *.
    exists (Some p2). rewrite Ea in *.
    unfold table_MapIPv4ToIPv6. destruct (table_lookup4 t (Addr4 v)) as [e|]; [|done].
    apply (inj Some) in Hsh. rewrite Hsh. unfold mbind, M_bind, on_pool. cbn. by rewrite E.
Qed.

(** A pool that had handed out nothing when a table was built for it never holds,
    whatever is done with it afterwards, an address that the table maps otherwise:
    every address it holds is looked up as the pool's. *)
Theorem pool_stays_clear {AT : AddrText} (time_String : Z -> string) b t po p0 ops :
  mapper_ok b (t, po) -> t_pool t = true ->
  po = Some (with_reserved (table_reserved t) p0) -> repr p0 ∅ ->
  Forall op_ok ops -> Forall not_reserve ops ->
  wp (run_ops clock range time_String ops) (fun _ p' =>
    mapper_ok b (t, Some p') /\
    forall off d, view p' !! off = Some d -> table_lookup4 t (d_v4 d) = t_poolEntry t)
    (with_reserved (table_reserved t) p0).
Proof.
  intros [B T P] Ep -> R0 Hops Hres. cbn in T, P.
  pose proof (repr_reserved _ _ (table_reserved t) R0) as R.
  eapply wp_mono; [by apply (run_ops_avoids clock range time_String range_perm _ ∅ ops R (avoids_empty _))|].
  intros u p' (H & R' & A & Er & Epr). split.
  - constructor; [done|done|]. intros _. exists p', H. split_and!; [done|done|]. intros e He. cbn in *.
    rewrite Epr. destruct (P Ep) as (q & ? & [= <-] & _ & HV). by apply HV.
  - intros off d. rewrite <- (repr_view _ _ R'). intros Hd.
    pose proof (avoids_host _ _ _ _ R' A Hd) as Hn. rewrite Er in Hn. cbn in Hn.
    unfold table_reserved in Hn. apply negb_false_iff in Hn.
    destruct (r_host _ _ R' _ _ Hd) as [_ [_ Hv4]].
    apply (same_entry_lookup b t _ B T); [|done]. rewrite Hv4. unfold addr, AddrFrom4. eauto.
Qed.
End mapping.

(** ** Mapping, tried out *)

Definition tx_state : Table * option Pool := (tx_table, Some tx_pool).

(** A host outside every prefix: 2001:db8:9::1. *)
Definition tx_host : Z := tx_net6 9 + 1.

Lemma mapping_keeps_invariant_witness :
  mapper_ok tx_builder tx_state /\
  wp (table_MapIPv4ToIPv6 px_clock tx_table (Addr4 (be [10; 0; 0; 1]))) (fun _ po' => mapper_ok tx_builder (tx_table, po')) (Some tx_pool) /\
  wp (table_MapIPv6ToIPv4 px_clock px_range tx_table (Addr6 tx_host "") true)
    (fun _ po' => mapper_ok tx_builder (tx_table, po')) (Some tx_pool).
Proof.
  split; [exact tx_ok|].
  apply (mapping_keeps_invariant px_clock px_range px_range_perm tx_builder tx_table (Some tx_pool)
           (be [10; 0; 0; 1]) tx_host true tx_ok); vm_compute; intuition congruence.
Defined.

Lemma map46_roundtrip_witness :
  table_MapIPv4ToIPv6 px_clock tx_table (Addr4 (be [192; 0; 2; 20])) (Some tx_pool) =
    Ok (inl (Addr6 (tx_net6 5 + 4) ""), Some tx_pool) /\
  exists po2, table_MapIPv6ToIPv4 px_clock px_range tx_table (Addr6 (tx_net6 5 + 4) "") false (Some tx_pool) =
    Ok (inl (Addr4 (be [192; 0; 2; 20])), po2).
Proof.
  assert (E : table_MapIPv4ToIPv6 px_clock tx_table (Addr4 (be [192; 0; 2; 20])) (Some tx_pool) =
    Ok (inl (Addr6 (tx_net6 5 + 4) ""), Some tx_pool)) by reflexivity.
  split; [exact E|].
  apply (map46_roundtrip px_clock px_range tx_builder tx_table (Some tx_pool) (be [192; 0; 2; 20]) _ _ _ tx_ok);
    [vm_compute; intuition congruence|exact E|].
  assert (L : exists e, table_lookup4 tx_table (Addr4 (be [192; 0; 2; 20])) = Some e /\ e_v4Only e = false /\ e_Kind e = KindStatic)
    by (eexists; vm_compute; intuition reflexivity).
  destruct L as (e & -> & Ev & Ek). split; [exact Ev|]. rewrite Ek. intros [=].
Defined.

Lemma map64_roundtrip_witness :
  not_shadowed tx_table tx_host (Addr4 (be [10; 0; 0; 1])) /\
  wp (table_MapIPv6ToIPv4 px_clock px_range tx_table (Addr6 tx_host "") true) (fun r po1 =>
    forall a4, r = inl a4 -> not_shadowed tx_table tx_host a4 ->
    exists po2, table_MapIPv4ToIPv6 px_clock tx_table a4 po1 = Ok (inl (Addr6 tx_host ""), po2)) (Some tx_pool).
Proof.
  split; [vm_compute; reflexivity|].
  apply (map64_roundtrip px_clock px_range px_range_perm tx_builder tx_table (Some tx_pool) tx_host true tx_ok).
  vm_compute; intuition congruence.
Defined.

Definition px_table_ops : list pool_op :=
  [OpLookup6 (px_host 1) true; OpLookup6 (px_host 2) true; OpLookup4 (be [10; 0; 0; 1]);
   OpMaintain; OpLoad (Opened ["10.0.0.2 ::9 5"]%string true)].

Lemma pool_stays_clear_witness :
  t_pool tx_table = true /\
  wp (run_ops px_clock px_range px_time px_table_ops) (fun _ p' =>
    mapper_ok tx_builder (tx_table, Some p') /\
    forall off d, view p' !! off = Some d -> table_lookup4 tx_table (d_v4 d) = t_poolEntry tx_table) tx_pool.
Proof.
  split; [vm_compute; reflexivity|].
  apply (pool_stays_clear px_clock px_range px_range_perm px_time tx_builder tx_table (Some tx_pool) px_pool
           px_table_ops tx_ok); [vm_compute; reflexivity|reflexivity|exact px_repr| |].
  all: unfold px_table_ops; repeat constructor; vm_compute; congruence.
Defined.
