(* ===== verification/Engine.v ===== *)
(** * The tun engine: [src/internal/tundev/engine.go]

    [Engine] reads packets from a tun device in batches, hands each to the current
    translator, and writes what was emitted back.  The emitter's output buffers are
    arrays with an identity, taken from a free list and given back after the write:
    the store [em_heap] is explicit, so that two packets in one buffer would be seen.
    The device (wireguard-go's tun) is an interface, [Device], with the contract of
    its methods in [DeviceLaws]. *)

From stdpp Require Import base tactics list numbers option strings.
From Stdlib Require Import ZArith Lia.
From S2P Require Import Prelude Netip Netutil Checksum Events Packet Layout Translator TranslatorFacts Xlate4 Xlate6.

Open Scope Z_scope.

Definition Offset : Z := 16.
Definition maxPacket : Z := 65535.

(** ** The emitter *)

(** [em_outs] is [m.out]: arrays and the number of bytes after the headroom;
    [em_free] is [m.free]. *)
Record emitter := mkEmitter {
  em_heap : list (list Z);
  em_outs : list (nat * Z);
  em_free : list nat;
}.

Definition new_emitter : emitter := mkEmitter [] [] [].

(** [buf[Offset:Offset+n]] *)
Definition buf_bytes (heap : list (list Z)) (s : nat * Z) : list Z :=
  take (Z.to_nat s.2) (drop (Z.to_nat Offset) (heap !!! s.1)).

Definition EPacket (n : Z) (m : emitter) : option (list Z) * emitter :=
  if maxPacket <? n then (None, m) else
  let '(buf, heap, free) :=
    match last (em_free m) with
    | Some b => (b, em_heap m, take (length (em_free m) - 1) (em_free m))
    | None => (length (em_heap m), em_heap m ++ [replicate (Z.to_nat (Offset + maxPacket)) 0], em_free m)
    end in
  (Some (buf_bytes heap (buf, n)), mkEmitter heap (em_outs m ++ [(buf, n)]) free).

(** The translator's writes to the slice [Packet] returned last. *)
Definition efill (c : list Z) (m : emitter) : emitter :=
  match last (em_outs m) with
  | Some (b, n) =>
      mkEmitter (<[b := splice (em_heap m !!! b) (Z.to_nat Offset) c]> (em_heap m)) (em_outs m) (em_free m)
  | None => m
  end.

Definition recycle (m : emitter) : emitter :=
  mkEmitter (em_heap m) [] (em_free m ++ (em_outs m).*1).

#[export] Instance engine_emitter : Emitter emitter := {
  em_packet := EPacket;
  em_fill := efill;
  em_out m := buf_bytes (em_heap m) <$> em_outs m;
}.

(** ** The device and the engine *)

(** [dev_Read batch]: the packets read into the buffers, or an error that is
    [os.ErrClosed] or not; [dev_Write]: no error, or one that is or is not
    [os.ErrClosed]; [ctx_done]: [ctx.Err() != nil] at this point of the run. *)
Class Device (DS : Type) := {
  BatchSize : DS -> Z;
  dev_Read : Z -> DS -> (list (list Z) + bool) * DS;
  dev_Write : list (list Z) -> DS -> option bool * DS;
  dev_Close : DS -> DS;
  ctx_done : DS -> bool;
}.

Record Stats := mkStats {
  PacketsIn : Z;
  PacketsOut : Z;
  BytesIn : Z;
  BytesOut : Z;
  ReadErrors : Z;
  WriteErrors : Z;
}.

Definition count_in (bytes : Z) (s : Stats) : Stats :=
  mkStats (u64 (PacketsIn s + 1)) (PacketsOut s) (u64 (BytesIn s + bytes)) (BytesOut s) (ReadErrors s) (WriteErrors s).
Definition count_out (packets bytes : Z) (s : Stats) : Stats :=
  mkStats (PacketsIn s) (u64 (PacketsOut s + packets)) (BytesIn s) (u64 (BytesOut s + bytes)) (ReadErrors s) (WriteErrors s).
Definition count_read_error (s : Stats) : Stats :=
  mkStats (PacketsIn s) (PacketsOut s) (BytesIn s) (BytesOut s) (u64 (ReadErrors s + 1)) (WriteErrors s).
Definition count_write_error (s : Stats) : Stats :=
  mkStats (PacketsIn s) (PacketsOut s) (BytesIn s) (BytesOut s) (ReadErrors s) (u64 (WriteErrors s + 1)).

(** How [Run] ends: with [ctx.Err()], or with the error of the device. *)
Inductive RunEnd := EndCtx | EndErr.

(** The engine, with the local state of [Run]; the mapper and the observer of the
    translator in force are part of it. *)
Record Engine (MS DS : Type) := mkEngine {
  g_dev : DS;
  g_map : MS;
  g_em : emitter;
  g_obs : list obs;
  g_rand : nat;
  g_stats : Stats;
  g_errors : Z;
  g_loads : nat;
}.
Arguments mkEngine {MS DS} _ _ _ _ _ _ _ _.
Arguments g_dev {MS DS} _.
Arguments g_map {MS DS} _.
Arguments g_em {MS DS} _.
Arguments g_obs {MS DS} _.
Arguments g_rand {MS DS} _.
Arguments g_stats {MS DS} _.
Arguments g_errors {MS DS} _.
Arguments g_loads {MS DS} _.

Section engine.
Context {MS DS : Type} `{Mapper MS} `{Device DS}.
Context (rand32 : nat -> Z).
(** The [k]-th [e.tr.Load()]: the translator in force and its mapper, which
    [SetTranslator] and the upkeep of the pool may have replaced since. *)
Context (loads : nat -> MS -> Translator * MS).

Local Abbreviation G := (Engine MS DS).

Definition g_set_dev (d : DS) (g : G) : G :=
  mkEngine d (g_map g) (g_em g) (g_obs g) (g_rand g) (g_stats g) (g_errors g) (g_loads g).
Definition g_set_map (m : MS) (g : G) : G :=
  mkEngine (g_dev g) m (g_em g) (g_obs g) (g_rand g) (g_stats g) (g_errors g) (g_loads g).
Definition g_set_em (m : emitter) (g : G) : G :=
  mkEngine (g_dev g) (g_map g) m (g_obs g) (g_rand g) (g_stats g) (g_errors g) (g_loads g).
Definition g_count (f : Stats -> Stats) (g : G) : G :=
  mkEngine (g_dev g) (g_map g) (g_em g) (g_obs g) (g_rand g) (f (g_stats g)) (g_errors g) (g_loads g).
Definition g_set_errors (n : Z) (g : G) : G :=
  mkEngine (g_dev g) (g_map g) (g_em g) (g_obs g) (g_rand g) (g_stats g) n (g_loads g).

Definition load_translator : M G Translator := fun g =>
  let '(t, m) := loads (g_loads g) (g_map g) in
  Ok (t, mkEngine (g_dev g) m (g_em g) (g_obs g) (g_rand g) (g_stats g) (g_errors g) (S (g_loads g))).

(** [tr.Translate(pkt, em)] *)
Definition translate (t : Translator) (p : list Z) : M G unit := fun g =>
  '(_, w) ← Translate rand32 t (World p (g_map g) (g_em g) (g_obs g) (g_rand g));
  Ok (tt, mkEngine (g_dev g) (w_map w) (w_em w) (w_obs w) (w_rand w) (g_stats g) (g_errors g) (g_loads g)).

(** The loop over the packets read, from index [i]: [bufs[i]] and the slice of it
    panic when out of range. *)
Fixpoint process (t : Translator) (batch i : Z) (ps : list (list Z)) : M G unit :=
  match ps with
  | [] => skip
  | p :: ps =>
      if (batch <=? i) || (maxPacket <? len p) then lift Panic else
      modify (g_count (count_in (len p)));;
      translate t p;;
      process t batch (i + 1) ps
  end.

Definition out_bytes (outs : list (nat * Z)) : Z := fold_left (fun acc s => u64 (acc + s.2)) outs 0.

(** [e.dev.Read] and [e.dev.Write] *)
Definition read_dev (batch : Z) : M G (list (list Z) + bool) := fun g =>
  let '(r, d) := dev_Read batch (g_dev g) in Ok (r, g_set_dev d g).
Definition write_dev (ps : list (list Z)) : M G (option bool) := fun g =>
  let '(r, d) := dev_Write ps (g_dev g) in Ok (r, g_set_dev d g).

(** One iteration of the loop of [Run]; [Some] leaves it. *)
Definition iteration (batch : Z) : M G (option RunEnd) :=
  r ← read_dev batch;
  match r with
  | inr closed =>
      stop ← gets (fun g => ctx_done (g_dev g));
      if closed || stop then mret (Some EndCtx) else
      modify (g_count count_read_error);;
      modify (fun g => g_set_errors (g_errors g + 1) g);;
      n ← gets g_errors;
      if 10 <? n then mret (Some EndErr) else mret None
  | inl ps =>
      modify (g_set_errors 0);;
      t ← load_translator;
      process t batch 0 ps;;
      m ← gets g_em;
      if len (em_outs m) =? 0 then mret None else
      let outBytes := out_bytes (em_outs m) in
      w ← write_dev (em_out m);
      match w with
      | Some true => modify (g_set_em (recycle m));; mret (Some EndCtx)
      | Some false =>
          modify (g_count count_write_error);;
          modify (g_set_em (recycle m));; mret None
      | None =>
          modify (g_count (count_out (len (em_outs m)) outBytes));;
          modify (g_set_em (recycle m));; mret None
      end
  end.

(** [fuel] iterations; [None] when none of them left the loop. *)
Fixpoint loop (fuel : nat) (batch : Z) : M G (option RunEnd) :=
  match fuel with
  | O => mret None
  | S fuel =>
      r ← iteration batch;
      match r with
      | Some e => mret (Some e)
      | None => loop fuel batch
      end
  end.

(** [Run], for at most [fuel] iterations; the device is closed when it returns. *)
Definition Run (fuel : nat) : M G (option RunEnd) :=
  b ← gets (fun g => BatchSize (g_dev g));
  let batch := if b <? 1 then 1 else b in
  modify (g_set_em new_emitter);;
  modify (g_set_errors 0);;
  r ← loop fuel batch;
  match r with
  | Some e => modify (fun g => g_set_dev (dev_Close (g_dev g)) g);; mret (Some e)
  | None => mret None
  end.

(** [NewEngine] *)
Definition NewEngine (dev : DS) (m : MS) : G :=
  mkEngine dev m new_emitter [] 0 (mkStats 0 0 0 0 0 0) 0 0.
End engine.
