(* ===== verification/EngineFacts.v ===== *)
(** * The engine's emitter and one iteration of its loop

    The emitter keeps the translator's [EmitterLaws]: no two output packets share a
    buffer and none is on the free list.  An iteration writes, in order, exactly what
    the translations of the packets read emitted. *)

From stdpp Require Import base tactics list numbers option strings.
From Stdlib Require Import ZArith Lia.
From S2P Require Import Prelude Netip Netutil Checksum Events Packet Layout Translator TranslatorFacts Xlate4 Xlate6 Fills Transport Xlate4Facts Fragments Xlate4Data Xlate4Icmp Xlate6Facts Xlate6Data Xlate6Icmp Fixtures TranslateProps Engine.

Open Scope Z_scope.

(** ** The emitter *)

Record emitter_ok (m : emitter) : Prop := {
  eo_distinct : NoDup ((em_outs m).*1 ++ em_free m);
  eo_alloc : Forall (fun b => (b < length (em_heap m))%nat) ((em_outs m).*1 ++ em_free m);
  eo_size : Forall (fun l => len l = Offset + maxPacket) (em_heap m);
  eo_len : Forall (fun s : nat * Z => 0 <= s.2 <= maxPacket) (em_outs m);
}.

Lemma new_emitter_ok : emitter_ok new_emitter.
Proof. constructor; constructor. Qed.

Lemma recycle_ok m : emitter_ok m -> emitter_ok (recycle m).
Proof.
  intros [D A S L]. constructor; cbn [recycle em_heap em_outs em_free fmap list_fmap app].
  - by rewrite Permutation_app_comm.
  - by rewrite Permutation_app_comm.
  - done.
  - constructor.
Qed.

Lemma buf_bytes_len heap b n :
  len (heap !!! b) = Offset + maxPacket -> 0 <= n <= maxPacket -> len (buf_bytes heap (b, n)) = n.
Proof.
  unfold buf_bytes, len, Offset, maxPacket. cbn [fst snd]. intros Hl Hn.
  rewrite length_take, length_drop. lia.
Qed.

Lemma buf_bytes_splice heap b n c :
  (b < length heap)%nat -> len (heap !!! b) = Offset + maxPacket -> 0 <= n <= maxPacket -> len c = n ->
  buf_bytes (<[b := splice (heap !!! b) (Z.to_nat Offset) c]> heap) (b, n) = c.
Proof.
  intros Hb Hl Hn Hc. unfold buf_bytes. cbn [fst snd]. rewrite list_lookup_total_insert_eq by done.
  unfold splice. unfold len, Offset, maxPacket in *.
  rewrite drop_app_length' by (rewrite length_take; lia).
  by rewrite take_app_length' by lia.
Qed.

Lemma buf_bytes_other heap b x s : s.1 <> b -> buf_bytes (<[b := x]> heap) s = buf_bytes heap s.
Proof. intros Hs. unfold buf_bytes. by rewrite list_lookup_total_insert_ne. Qed.

Lemma lookup_size (heap : list (list Z)) b :
  Forall (fun l => len l = Offset + maxPacket) heap -> (b < length heap)%nat ->
  len (heap !!! b) = Offset + maxPacket.
Proof. intros HF Hb. rewrite Forall_forall in HF. apply HF. apply list_elem_of_lookup. exists b. by apply list_lookup_lookup_total_lt. Qed.

(** A state after [Packet] handed out the buffer [b], and the translator's writes. *)
Lemma fill_ok heap outs free b n c :
  emitter_ok (mkEmitter heap (outs ++ [(b, n)]) free) -> len c = n ->
  let e := efill c (mkEmitter heap (outs ++ [(b, n)]) free) in
  emitter_ok e /\ em_out e = (buf_bytes heap <$> outs) ++ [c].
Proof.
  intros [D A S L] Hc. cbn [em_outs em_free em_heap] in *. unfold efill. cbn [em_outs em_heap em_free].
  rewrite last_snoc. cbv zeta.
  rewrite fmap_app in D, A. apply Forall_app in L as [L Ln]. apply Forall_cons in Ln as [Ln _]. cbn [snd] in Ln.
  assert (Hb : (b < length heap)%nat).
  { rewrite !Forall_app in A. destruct A as [[_ A] _]. by apply Forall_cons in A as [A _]. }
  pose proof (lookup_size heap b S Hb) as Hsz.
  split.
  - constructor; cbn [em_outs em_free em_heap]; rewrite ?fmap_app; [done|rewrite length_insert; exact A| |].
    + apply Forall_insert; [done|]. unfold len, splice, Offset, maxPacket in *.
      rewrite !length_app, length_take, length_drop. lia.
    + apply Forall_app. split; [done|]. by apply Forall_singleton.
  - cbn [em_out engine_emitter em_outs em_heap]. rewrite fmap_app. f_equal.
    + apply list_fmap_ext. intros i s Hs. apply buf_bytes_other. intros E.
      rewrite <- app_assoc in D. apply NoDup_app in D as (_ & D & _).
      apply (D b); [|by left]. rewrite <- E. apply list_elem_of_fmap_2. by eapply list_elem_of_lookup_2.
    + cbn. f_equal. by apply buf_bytes_splice.
Qed.

Lemma Packet_law n m :
  0 <= n -> emitter_ok m ->
  match EPacket n m with
  | (Some b, m') => len b = n /\ forall c, len c = n ->
      emitter_ok (efill c m') /\ em_out (efill c m') = em_out m ++ [c]
  | (None, m') => emitter_ok m' /\ em_out m' = em_out m
  end.
Proof.
  intros Hn [D A S L]. unfold EPacket. case_if; [done|]. bool_prop.
  destruct (last (em_free m)) as [b|] eqn:Ef.
  - apply last_Some in Ef as [free Ef]. rewrite Ef in D, A |- *.
    rewrite length_app, take_app_length' by (cbn; lia).
    assert (P : (em_outs m).*1 ++ free ++ [b] ≡ₚ ((em_outs m).*1 ++ [b]) ++ free)
      by by rewrite <- app_assoc, (Permutation_app_comm free).
    rewrite P in D, A.
    assert (Hb : (b < length (em_heap m))%nat).
    { rewrite !Forall_app in A. destruct A as [[_ A] _]. by apply Forall_cons in A as [A _]. }
    split; [apply buf_bytes_len; [by apply lookup_size|lia]|].
    intros c Hc. apply fill_ok; [|done]. constructor; cbn [em_outs em_free em_heap]; rewrite ?fmap_app; [done..|].
    apply Forall_app. split; [done|]. apply Forall_singleton. cbn. lia.
  - apply last_None in Ef. rewrite Ef, app_nil_r in *.
    set (heap := em_heap m ++ [_]).
    assert (S' : Forall (fun l => len l = Offset + maxPacket) heap).
    { apply Forall_app. split; [done|]. apply Forall_singleton. by apply len_replicate. }
    assert (Hlen : length heap = Datatypes.S (length (em_heap m))) by (unfold heap; rewrite length_app; cbn; lia).
    split; [apply buf_bytes_len; [apply lookup_size; [done|lia]|lia]|].
    intros c Hc. replace (em_out m) with (buf_bytes heap <$> em_outs m).
    + apply fill_ok; [|done]. constructor; cbn [em_outs em_free em_heap]; rewrite ?fmap_app, ?app_nil_r; [| |done|].
      * apply NoDup_app. split_and!; [done| |apply NoDup_singleton].
        intros x Hx Hx'%list_elem_of_singleton. rewrite Forall_forall in A. specialize (A x Hx). cbn in Hx'. lia.
      * apply Forall_app. split; [|apply Forall_singleton; cbn; lia].
        eapply Forall_impl; [exact A|]. cbn. lia.
      * apply Forall_app. split; [done|]. apply Forall_singleton. cbn. lia.
    + cbn [em_out engine_emitter]. apply list_fmap_ext. intros i s Hs.
      unfold buf_bytes, heap. rewrite lookup_total_app_l; [done|].
      rewrite Forall_forall in A. apply A, list_elem_of_fmap_2. by eapply list_elem_of_lookup_2.
Qed.

#[export] Instance engine_emitter_laws : EmitterLaws emitter.
Proof. exact (@Build_EmitterLaws emitter engine_emitter emitter_ok Packet_law). Defined.

(** ** The device *)

(** What the translator may give to a device. *)
Definition sendable (p : list Z) : Prop := (good4 p \/ good6 p) /\ len p <= maxPacket.

(** [Read] fills at most the buffers it is given, each with bytes that fit; what is
    written keeps the device's own invariant when it is sendable. *)
Class DeviceLaws (DS : Type) `{Device DS} := {
  dev_inv : DS -> Prop;
  dev_Read_ok : forall batch d, 1 <= batch -> dev_inv d ->
    dev_inv (dev_Read batch d).2 /\
    match (dev_Read batch d).1 with
    | inl ps => len ps <= batch /\ Forall (fun p => bytes_ok p /\ len p <= maxPacket) ps
    | inr _ => True
    end;
  dev_Write_ok : forall ps d, Forall sendable ps -> dev_inv d -> dev_inv (dev_Write ps d).2;
  dev_Close_ok : forall d, dev_inv d -> dev_inv (dev_Close d);
}.

(** ** One iteration *)

Definition total_len (ps : list (list Z)) : Z := fold_left (fun acc p => acc + len p) ps 0.

Lemma out_bytes_eq m : emitter_ok m -> out_bytes (em_outs m) = u64 (total_len (em_out m)).
Proof.
  intros [_ A S L]. unfold out_bytes, total_len. cbn [em_out engine_emitter].
  assert (H : forall outs a b, Forall (fun s : nat * Z => (s.1 < length (em_heap m))%nat) outs ->
    Forall (fun s : nat * Z => 0 <= s.2 <= maxPacket) outs -> a = u64 b ->
    fold_left (fun acc s => u64 (acc + s.2)) outs a =
    u64 (fold_left (fun acc p => acc + len p) (buf_bytes (em_heap m) <$> outs) b)).
  { induction outs as [|[x n] outs IH]; intros a b Ha Hl E; [done|].
    apply Forall_cons in Ha as [Ha ?], Hl as [Hl ?]. cbn in Ha, Hl. cbn.
    apply IH; [done..|]. rewrite buf_bytes_len by (try apply lookup_size; done). rewrite E. unfold u64.
    by rewrite Z.add_mod_idemp_l by done. }
  apply H; [|done|done]. apply Forall_app in A as [A _]. by apply Forall_fmap in A.
Qed.

Section engine_facts.
Context {MS DS : Type} {HM : Mapper MS} {HML : MapperLaws MS} {HD : Device DS} {HDL : DeviceLaws DS}.
Context (rand32 : nat -> Z) (loads : nat -> MS -> Translator * MS).
Context (loads_ok : forall k m, mapper_inv m -> tr_ok (loads k m).1 /\ mapper_inv (loads k m).2).

Local Abbreviation G := (Engine MS DS).

(** Translating [p] emits [outs]. *)
Definition emitted (t : Translator) (p : list Z) (outs : list (list Z)) : Prop :=
  exists w w' : world MS emitter, w_buf w = p /\ winv w /\ Translate rand32 t w = Ok (tt, w') /\
    em_out (w_em w') = em_out (w_em w) ++ outs.

(** Between two iterations. *)
Record engine_ok (g : G) : Prop := {
  go_dev : dev_inv (g_dev g);
  go_map : mapper_inv (g_map g);
  go_em : emitter_ok (g_em g);
  go_out : em_outs (g_em g) = [];
}.

Lemma emitter_sendable m (bs : list (list Z)) n :
  emitter_ok m -> (forall b, b ∈ bs -> b ∈ em_out m) ->
  Forall (fun b => (good4 b \/ good6 b) /\ len b <= n) bs -> Forall sendable bs.
Proof.
  intros [_ A S L] Hin HF. rewrite !Forall_forall in HF |- *. intros b Hb. split; [by apply HF|].
  specialize (Hin b Hb). cbn [em_out engine_emitter] in Hin. apply list_elem_of_fmap in Hin as ([x k] & -> & Hx).
  rewrite Forall_forall in L. specialize (L _ Hx). cbn in L. unfold buf_bytes. cbn [fst snd].
  unfold len. rewrite length_take. unfold len, maxPacket in *. lia.
Qed.

Lemma process_ok t batch i ps (g : G) :
  tr_ok t -> mapper_inv (g_map g) -> emitter_ok (g_em g) -> 0 <= i -> i + len ps <= batch ->
  Forall (fun p => bytes_ok p /\ len p <= maxPacket) ps ->
  wp (process rand32 t batch i ps) (fun _ g' =>
    exists groups, Forall2 (emitted t) ps groups /\ Forall sendable (concat groups) /\
      mapper_inv (g_map g') /\ emitter_ok (g_em g') /\
      em_out (g_em g') = em_out (g_em g) ++ concat groups /\
      g_dev g' = g_dev g /\ g_errors g' = g_errors g /\
      g_stats g' = fold_left (fun s p => count_in (len p) s) ps (g_stats g)) g.
Proof.
  intros Ht. revert i g. induction ps as [|p ps IH]; intros i g Hm He Hi Hb Hps; cbn [process].
  { apply wp_skip. exists []. rewrite app_nil_r. split_and!; try done; constructor. }
  apply Forall_cons in Hps as [[Hp Hl] Hps]. unfold len in Hb. cbn [length] in Hb.
  rewrite (proj2 (Z.leb_gt _ _)) by lia. rewrite (proj2 (Z.ltb_ge _ _)) by done. cbn [orb].
  apply wp_bind, wp_modify, wp_bind. unfold wp at 1, translate. cbn [g_map g_em g_count g_obs g_rand].
  assert (Hw : winv (World p (g_map g) (g_em g) (g_obs g) (g_rand g))) by by constructor.
  destruct (translate_run rand32 t _ Ht Hw) as (w' & outs & os & Hrun & [Hw' _ _ HO HS] & HA).
  rewrite Hrun. cbn [mbind outcome_bind]. cbn [w_em] in HO.
  eapply wp_mono; [apply (IH (i + 1)); cbn [g_map g_em]; [apply Hw'|apply Hw'|lia|unfold len; lia|done]|].
  cbn [g_map g_em g_dev g_errors g_stats g_count]. intros _ g' (groups & HF & HS' & Hm' & He' & Eo & Ed & Ee & Es).
  exists (outs :: groups). cbn [concat]. rewrite Eo, HO, <- app_assoc. split_and!; try done.
  - constructor; [|done]. exists (World p (g_map g) (g_em g) (g_obs g) (g_rand g)), w'. by split_and!.
  - apply Forall_app. split; [|done].
    eapply (emitter_sendable (w_em w')); [apply Hw'|rewrite HO; intros b Hb'; apply elem_of_app; by right|].
    eapply Forall_impl; [exact HA|]. intros b. by apply answers_good.
Qed.

(** What an iteration does, by what the device answered. *)
Definition iteration_spec (batch : Z) (g : G) (r : option RunEnd) (g' : G) : Prop :=
  match dev_Read batch (g_dev g) with
  | (inr closed, d) =>
      g_dev g' = d /\ g_map g' = g_map g /\ g_em g' = g_em g /\
      if closed || ctx_done d then r = Some EndCtx /\ g_stats g' = g_stats g /\ g_errors g' = g_errors g
      else r = (if 10 <? g_errors g + 1 then Some EndErr else None) /\
           g_stats g' = count_read_error (g_stats g) /\ g_errors g' = g_errors g + 1
  | (inl ps, d) =>
      exists groups, Forall2 (emitted (loads (g_loads g) (g_map g)).1) ps groups /\
      Forall sendable (concat groups) /\ g_errors g' = 0 /\
      let outs := concat groups in
      let s := fold_left (fun s p => count_in (len p) s) ps (g_stats g) in
      match outs with
      | [] => g_dev g' = d /\ r = None /\ g_stats g' = s
      | _ =>
          let '(w, d') := dev_Write outs d in
          g_dev g' = d' /\
          match w with
          | Some true => r = Some EndCtx /\ g_stats g' = s
          | Some false => r = None /\ g_stats g' = count_write_error s
          | None => r = None /\ g_stats g' = count_out (len outs) (u64 (total_len outs)) s
          end
      end
  end.

Lemma iteration_ok batch (g : G) :
  1 <= batch -> engine_ok g ->
  wp (iteration rand32 loads batch) (fun r g' => engine_ok g' /\ iteration_spec batch g r g') g.
Proof.
  intros Hb [Hd Hm He Ho]. unfold iteration, iteration_spec. apply wp_bind. unfold read_dev, wp at 1.
  pose proof (dev_Read_ok batch (g_dev g) Hb Hd) as HR.
  destruct (dev_Read batch (g_dev g)) as [[ps|closed] d]; cbn [fst snd] in HR; destruct HR as [Hd' HR].
  - apply wp_bind, wp_modify, wp_bind. unfold wp at 1, load_translator. cbn [g_loads g_map g_set_errors g_set_dev].
    pose proof (loads_ok (g_loads g) (g_map g) Hm) as [Ht Hm'].
    destruct (loads (g_loads g) (g_map g)) as [t m]. cbn [fst snd] in *. destruct HR as [Hn Hps].
    apply wp_bind. eapply wp_mono; [apply process_ok; cbn [g_map g_em]; try done; lia|].
    cbn [g_em g_dev g_errors g_stats g_set_dev g_set_errors]. intros _ g1 (groups & HF & HS & Hm1 & He1 & Eo & Ed & Ee & Es).
    apply wp_bind, wp_gets.
    assert (Hout : em_out (g_em g1) = concat groups) by (rewrite Eo; cbn [em_out engine_emitter]; by rewrite Ho).
    assert (Hlen : len (em_outs (g_em g1)) = len (concat groups)).
    { rewrite <- Hout. unfold len. cbn [em_out engine_emitter]. by rewrite length_fmap. }
    destruct (len (em_outs (g_em g1)) =? 0) eqn:E0; [apply Z.eqb_eq in E0|apply Z.eqb_neq in E0].
    + apply wp_ret. unfold len in Hlen, E0. destruct (concat groups) eqn:Ec; [|cbn in Hlen; lia].
      split; [|exists groups; rewrite Ec; by split_and!].
      constructor; try done; [by rewrite Ed|]. destruct (em_outs (g_em g1)); [done|cbn in E0; lia].
    + apply wp_bind. unfold write_dev, wp at 1. rewrite Hout, Ed.
      pose proof (dev_Write_ok (concat groups) d HS Hd') as HW.
      pose proof (out_bytes_eq _ He1) as Hbytes. rewrite Hout in Hbytes.
      assert (Hne : concat groups <> []).
      { intros Ec. rewrite Ec in Hlen. unfold len in *. cbn in *. lia. }
      assert (HI : forall f : Stats -> Stats,
        engine_ok (g_set_em (recycle (g_em g1)) (g_count f (g_set_dev (dev_Write (concat groups) d).2 g1)))).
      { intros f. constructor; cbn; [done|done|by apply recycle_ok|done]. }
      destruct (dev_Write (concat groups) d) as [[[]|] d'] eqn:EW; cbn [snd] in *;
        repeat first [apply wp_bind|apply wp_modify|apply wp_ret];
        (split; [first [exact (HI (fun s => s))|apply (HI _)]|]); exists groups; split_and!; try done;
        destruct (concat groups) as [|x l] eqn:Ec; try done; cbv zeta; rewrite EW; cbn [g_dev g_stats g_set_em g_count g_set_dev];
        (split; [done|]); split; try done; by rewrite ?Hlen, ?Hbytes, ?Es.
  - apply wp_bind, wp_gets. cbn [g_dev g_set_dev].
    destruct (closed || ctx_done d); [apply wp_ret; by split|].
    apply wp_bind, wp_modify, wp_bind, wp_modify, wp_bind, wp_gets. cbn [g_errors g_count g_set_errors g_set_dev].
    case_if; apply wp_ret; by split.
Qed.

Lemma loop_ok fuel batch (g : G) :
  1 <= batch -> engine_ok g -> wp (loop rand32 loads fuel batch) (fun _ g' => engine_ok g') g.
Proof.
  intros Hb. revert g. induction fuel as [|fuel IH]; intros g Hg; cbn [loop]; [by apply wp_ret|].
  apply wp_bind. eapply wp_mono; [by apply iteration_ok|]. intros r g' [Hg' _].
  destruct r; [by apply wp_ret|by apply IH].
Qed.
End engine_facts.
