(* ===== verification/EngineProps.v ===== *)
(** * What the engine guarantees

    The engine, the translator, the address table and its pool together, on a device
    that hands out given packets and records what is written to it. *)

From stdpp Require Import base tactics list numbers option strings gmap.
From Stdlib Require Import ZArith Lia.
From S2P Require Import Prelude Netip Netutil Checksum Text Events Packet Layout Translator TranslatorFacts Xlate4 Xlate6 Fixtures TranslateProps Pool PoolFacts PoolOps PoolProps Table TableFacts TableMap TableProps Engine EngineFacts.

Open Scope Z_scope.

(** ** A device *)

Record fx_device := FxDevice {
  fd_reads : list (list (list Z) + bool);
  fd_written : list (list (list Z));
  fd_closed : bool;
}.

#[export] Instance fx_dev : Device fx_device := {
  BatchSize _ := 2;
  dev_Read batch d :=
    match fd_reads d with
    | [] => (inr true, d)
    | inr c :: rs => (inr c, FxDevice rs (fd_written d) (fd_closed d))
    | inl ps :: rs =>
        let n := Z.to_nat batch in
        (inl (take n ps), FxDevice (match drop n ps with [] => rs | q => inl q :: rs end) (fd_written d) (fd_closed d))
    end;
  dev_Write ps d := (None, FxDevice (fd_reads d) (fd_written d ++ [ps]) (fd_closed d));
  dev_Close d := FxDevice (fd_reads d) (fd_written d) true;
  ctx_done _ := false;
}.

Definition fx_readable (r : list (list Z) + bool) : Prop :=
  match r with inl ps => Forall (fun p => bytes_ok p /\ len p <= maxPacket) ps | inr _ => True end.

Lemma fx_Read_ok batch d :
  1 <= batch -> Forall fx_readable (fd_reads d) /\ Forall (Forall sendable) (fd_written d) ->
  (Forall fx_readable (fd_reads (dev_Read batch d).2) /\ Forall (Forall sendable) (fd_written (dev_Read batch d).2)) /\
  match (dev_Read batch d).1 with
  | inl ps => len ps <= batch /\ Forall (fun p => bytes_ok p /\ len p <= maxPacket) ps
  | inr _ => True
  end.
Proof.
  intros Hb [Hr Hw]. destruct d as [rs ws c]. cbn in *. destruct rs as [|[ps|e] rs]; [done| |].
  - apply Forall_cons in Hr as [Hp Hr]. cbn in *. split; [split; [|done]|].
    + pose proof (Forall_drop _ (Z.to_nat batch) _ Hp) as Hd. destruct (drop _ ps); [done|]. by constructor.
    + split; [unfold len; rewrite length_take; lia|]. by apply Forall_take.
  - apply Forall_cons in Hr as [_ Hr]. by split_and!.
Qed.

#[export] Instance fx_dev_laws : DeviceLaws fx_device.
Proof.
  refine {| dev_inv d := Forall fx_readable (fd_reads d) /\ Forall (Forall sendable) (fd_written d) |}.
  - exact fx_Read_ok.
  - intros ps d Hps [Hr Hw]. cbn. split; [done|]. apply Forall_app. split; [done|]. by constructor.
  - done.
Defined.

(** The translator of [Fixtures] over the table of [TableProps], from one packet to
    the next. *)
Definition ex_loads (k : nat) (m : Table * option Pool) : Translator * (Table * option Pool) := (fx_t, m).

Lemma ex_loads_ok k m :
  (exists b, mapper_ok b m) -> tr_ok (ex_loads k m).1 /\ exists b, mapper_ok b (ex_loads k m).2.
Proof. intros Hm. split; [exact fx_t_ok|exact Hm]. Qed.

Definition ex_dev : fx_device := FxDevice [inl [fx_udp4; fx_unreach4; [1; 2; 3]]; inr false; inl []] [] false.

Lemma ex_dev_ok : dev_inv ex_dev.
Proof.
  split; [|constructor]. cbn. repeat constructor; try exact I; try solve_bytes; vm_compute; congruence.
Qed.

Definition ex_engine : Engine (Table * option Pool) fx_device := NewEngine ex_dev tx_state.

(** ** Safety of the whole packet path *)

(** C19: the engine over any device that keeps its contract, with the address table
    and its pool behind the translator: however many iterations it runs, and whatever
    translators and tables it is switched to meanwhile, nothing panics, the table and
    pool stay consistent, no output buffer is lost or shared, and what is written to
    the device are well-formed packets of at most 65535 bytes. *)
Theorem engine_over_table {DS : Type} {HD : Device DS} {HDL : DeviceLaws DS} clock range rand32
    (loads : nat -> Table * option Pool -> Translator * (Table * option Pool)) fuel (dev : DS) s :
  (forall k m, range k m ≡ₚ map_to_list m) ->
  (forall k m, (exists b, mapper_ok b m) -> tr_ok (loads k m).1 /\ exists b, mapper_ok b (loads k m).2) ->
  dev_inv dev -> (exists b, mapper_ok b s) ->
  wp (Run (H := table_mapper clock range) rand32 loads fuel) (fun r g =>
    dev_inv (g_dev g) /\ (exists b, mapper_ok b (g_map g)) /\ emitter_ok (g_em g) /\ em_outs (g_em g) = [])
    (NewEngine dev s).
Proof.
  intros Hr Hloads Hdev Hs. pose (HM := table_mapper clock range). pose (HML := table_mapper_laws clock range Hr).
  unfold Run. apply wp_bind, wp_gets, wp_bind, wp_modify, wp_bind, wp_modify, wp_bind.
  eapply wp_mono.
  - apply (loop_ok (HM := HM) (HML := HML) rand32 loads Hloads).
    + case_if; [done|]. bool_prop. lia.
    + constructor; cbn; [done|done|exact new_emitter_ok|done].
  - intros r g [Hd Hm He Ho]. destruct r as [e|].
    + apply wp_bind, wp_modify, wp_ret. cbn. split_and!; [by apply dev_Close_ok|done..].
    + apply wp_ret. by split_and!.
Qed.

Lemma engine_over_table_witness :
  wp (Run (H := table_mapper px_clock px_range) (fun _ => 5) ex_loads 7) (fun r g =>
    dev_inv (g_dev g) /\ (exists b, mapper_ok b (g_map g)) /\ emitter_ok (g_em g) /\ em_outs (g_em g) = [])
    (NewEngine ex_dev tx_state).
Proof.
  apply (engine_over_table px_clock px_range (fun _ => 5) ex_loads 7 ex_dev tx_state).
  - exact px_range_perm.
  - exact ex_loads_ok.
  - exact ex_dev_ok.
  - exists tx_builder. exact tx_ok.
Defined.

(** C20: one iteration writes to the device, in one call and in order, exactly what the
    translations of the packets it read emitted, and nothing when that is nothing; it
    counts packets and bytes in whatever happens, and packets and bytes out only when
    the write succeeded; a failed read or write is counted as such; it leaves the loop
    when the device is closed, when the context is done at a failed read, and after
    more than ten failed reads in a row. *)
Theorem iteration_writes_translations {MS DS : Type} {HM : Mapper MS} {HML : MapperLaws MS} {HD : Device DS}
    {HDL : DeviceLaws DS} rand32 (loads : nat -> MS -> Translator * MS) batch (g : Engine MS DS) :
  (forall k m, mapper_inv m -> tr_ok (loads k m).1 /\ mapper_inv (loads k m).2) ->
  1 <= batch -> engine_ok g ->
  wp (iteration rand32 loads batch) (fun r g' =>
    engine_ok g' /\ iteration_spec rand32 loads batch g r g') g.
Proof. intros Hl Hb Hg. by apply iteration_ok. Qed.

Lemma iteration_writes_translations_witness :
  (match iteration (H := fx_mapper) (fun _ => 5) (fun _ m => (fx_t, m)) 2 (NewEngine ex_dev tt) with
   | Ok (None, g) => (len (concat (fd_written (g_dev g))) =? 2) && (PacketsIn (g_stats g) =? 2) && (PacketsOut (g_stats g) =? 2)
   | _ => false
   end = true) /\
  wp (iteration (H := fx_mapper) (fun _ => 5) (fun _ m => (fx_t, m)) 2) (fun r g' =>
    engine_ok g' /\ iteration_spec (fun _ => 5) (fun _ m => (fx_t, m)) 2 (NewEngine ex_dev tt) r g') (NewEngine ex_dev tt).
Proof.
  split; [vm_compute; reflexivity|].
  apply (iteration_writes_translations (HML := fx_mapper_laws) (fun _ => 5) (fun _ m => (fx_t, m)) 2 (NewEngine ex_dev tt)).
  - intros k m _. split; [exact fx_t_ok|exact I].
  - lia.
  - constructor; [exact ex_dev_ok|exact I|exact new_emitter_ok|reflexivity].
Defined.

(** ** Giving up *)

Section failing_device.
Context {MS DS : Type} {HM : Mapper MS} {HD : Device DS}.
Context (rand32 : nat -> Z) (loads : nat -> MS -> Translator * MS).

(** The next [n] reads fail, without the device being closed or the context done. *)
Fixpoint reads_fail (batch : Z) (n : nat) (d : DS) : Prop :=
  match n with
  | O => True
  | S n => let '(r, d') := dev_Read batch d in r = inr false /\ ctx_done d' = false /\ reads_fail batch n d'
  end.

Fixpoint after_reads (batch : Z) (n : nat) (d : DS) : DS :=
  match n with O => d | S n => after_reads batch n (dev_Read batch d).2 end.

Lemma failing_loop batch n k fuel (g : Engine MS DS) :
  reads_fail batch n (g_dev g) -> g_errors g = Z.of_nat k -> (k <= 10)%nat -> (n <= fuel)%nat ->
  wp (loop rand32 loads fuel batch) (fun r g' =>
    (n + k = 11)%nat -> r = Some EndErr /\ g_dev g' = after_reads batch n (g_dev g) /\
      g_stats g' = Nat.iter n count_read_error (g_stats g)) g \/ (n + k <> 11)%nat.
Proof.
  revert k fuel g. induction n as [|n IH]; intros k fuel g Hf Hk Hk10 Hn; [right; lia|].
  destruct (decide (S n + k = 11)%nat) as [E|E]; [left|by right].
  destruct fuel as [|fuel]; [lia|]. cbn [loop reads_fail after_reads] in *. unfold iteration.
  apply wp_bind, wp_bind. unfold read_dev, wp at 1. destruct (dev_Read batch (g_dev g)) as [r d]. cbn [snd].
  destruct Hf as (-> & Hc & Hf). apply wp_bind, wp_gets. cbn [g_dev g_set_dev]. rewrite Hc. cbn [orb].
  apply wp_bind, wp_modify, wp_bind, wp_modify, wp_bind, wp_gets. cbn [g_errors g_count g_set_errors g_set_dev].
  rewrite Hk. destruct (10 <? Z.of_nat k + 1) eqn:E10.
  - bool_prop. apply wp_ret, wp_ret. intros _. assert (n = 0%nat) as -> by lia. done.
  - bool_prop. apply wp_ret.
    destruct (IH (S k) fuel (g_set_errors (Z.of_nat k + 1) (g_count count_read_error (g_set_dev d g)))) as [H|H];
      [done|cbn; lia|lia|lia| |lia].
    eapply wp_mono; [exact H|]. cbv beta. intros r' g' HP _. destruct HP as (-> & -> & ->); [lia|].
    cbn [g_dev g_stats g_set_errors g_count g_set_dev].
    split_and!; [done|done|]. by rewrite <- Nat.iter_succ_r.
Qed.

(** A device whose reads keep failing is given up after exactly eleven of them,
    with its error, and closed; each is counted. *)
Theorem eleven_failed_reads_end_run fuel dev (s : MS) :
  let batch := if BatchSize dev <? 1 then 1 else BatchSize dev in
  reads_fail batch 11 dev -> (11 <= fuel)%nat ->
  wp (Run rand32 loads fuel) (fun r g =>
    r = Some EndErr /\ g_dev g = dev_Close (after_reads batch 11 dev) /\ ReadErrors (g_stats g) = 11)
    (NewEngine dev s).
Proof.
  intros batch Hf Hfuel. unfold Run. apply wp_bind, wp_gets, wp_bind, wp_modify, wp_bind, wp_modify, wp_bind.
  cbn [NewEngine g_dev]. fold batch.
  destruct (failing_loop batch 11 0 fuel (g_set_errors 0 (g_set_em new_emitter (NewEngine dev s)))) as [H|H];
    [exact Hf|reflexivity|lia|lia| |lia].
  eapply wp_mono; [exact H|]. intros r g HP. destruct HP as (-> & Ed & Es); [lia|].
  apply wp_bind, wp_modify, wp_ret. cbn [g_dev g_stats g_set_dev]. rewrite Ed, Es.
  split_and!; [done|done|reflexivity].
Qed.
End failing_device.

Lemma eleven_failed_reads_end_run_witness :
  let dev := FxDevice (replicate 20 (inr false)) [] false in
  let batch := if BatchSize dev <? 1 then 1 else BatchSize dev in
  batch = 2 /\
  wp (Run (H := fx_mapper) (fun _ => 5) (fun _ m => (fx_t, m)) 11) (fun r g =>
    r = Some EndErr /\ g_dev g = dev_Close (after_reads batch 11 dev) /\ ReadErrors (g_stats g) = 11) (NewEngine dev tt).
Proof.
  intros dev batch. split; [reflexivity|].
  pose proof (eleven_failed_reads_end_run (HM := fx_mapper) (fun _ => 5) (fun _ m => (fx_t, m)) 11 dev tt) as H.
  cbv zeta in H. fold batch in H. apply H; [|lia].
  cbn. intuition reflexivity.
Defined.
