(* ===== verification/Fake.v ===== *)
(** * The device of the tests: [src/internal/tundev/fake.go]

    [FakeDevice] hands out the packets that were injected, as many at a time as the
    reader has buffers for, and keeps what is written to it.  Its [Read] is modelled on
    the reader's own buffers and sizes, which it fills and may index out of range.

    A [test] is such a device with what the other goroutines will do to it; it
    implements the engine's [Device] and keeps its [DeviceLaws]. *)

From stdpp Require Import base tactics list numbers option strings.
From Stdlib Require Import ZArith Lia.
From S2P Require Import Prelude Netip Netutil Checksum Events Packet Layout Translator TranslatorFacts Xlate4 Xlate6 Engine EngineFacts.

Open Scope Z_scope.

(** ** The device *)

(** [Out] is all that was sent on the channel, received or not: a full channel only
    makes the sender wait, here as in [Inject]. *)
Record FakeDevice := mkFake {
  fk_in : list (list Z);
  fk_Out : list (list Z);
  fk_closed : bool;
  fk_batch : Z;
  fk_mtu : Z;
}.

Definition NewFakeDevice (batch mtu : Z) : FakeDevice := mkFake [] [] false batch mtu.

Definition fk_with_in (q : list (list Z)) (d : FakeDevice) : FakeDevice :=
  mkFake q (fk_Out d) (fk_closed d) (fk_batch d) (fk_mtu d).

Definition Inject (p : list Z) (d : FakeDevice) : FakeDevice := fk_with_in (fk_in d ++ [p]) d.

Definition fake_MTU (d : FakeDevice) : Z := fk_mtu d.
Definition fake_BatchSize (d : FakeDevice) : Z := fk_batch d.

(** Closing it again changes nothing. *)
Definition Close (d : FakeDevice) : FakeDevice :=
  mkFake (fk_in d) (fk_Out d) true (fk_batch d) (fk_mtu d).

(** The reader's buffers and sizes, and how many of them are filled. *)
Record filled := mkFilled { fi_bufs : list (list Z); fi_sizes : list Z; fi_n : Z }.

(** [deliver] *)
Definition deliver (offset : Z) (p : list Z) (f : filled) : outcome filled :=
  match fi_bufs f !! Z.to_nat (fi_n f), fi_sizes f !! Z.to_nat (fi_n f) with
  | Some b, Some _ =>
      b' ← copy_to b offset (len b) p;
      Ok (mkFilled (<[Z.to_nat (fi_n f) := b']> (fi_bufs f))
            (<[Z.to_nat (fi_n f) := Z.min (len b - offset) (len p)]> (fi_sizes f)) (fi_n f + 1))
  | _, _ => Panic
  end.

(** The loop of [Read]: as long as packets are queued and buffers left. *)
Fixpoint deliver_all (offset : Z) (q : list (list Z)) (f : filled) : outcome (list (list Z) * filled) :=
  match q with
  | [] => Ok ([], f)
  | p :: q' =>
      if fi_n f <? len (fi_bufs f) then f ← deliver offset p f; deliver_all offset q' f
      else Ok (q, f)
  end.

Inductive ReadResult := ReadBlocks | ReadClosed | ReadN (f : filled).

(** [Read]; [closedFirst] is the choice of the [select] when the device is closed and
    packets are queued. *)
Definition fake_Read (closedFirst : bool) (bufs : list (list Z)) (sizes : list Z) (offset : Z) : M FakeDevice ReadResult := fun d =>
  match fk_in d with
  | [] => Ok (if fk_closed d then ReadClosed else ReadBlocks, d)
  | first :: q =>
      if fk_closed d && closedFirst then Ok (ReadClosed, d) else
      f ← deliver offset first (mkFilled bufs sizes 0);
      '(q, f) ← deliver_all offset q f;
      Ok (ReadN f, fk_with_in q d)
  end.

(** [Write]: the packets after [offset] in the buffers; [None] is [os.ErrClosed]. *)
Fixpoint send_all (bufs : list (list Z)) (offset : Z) (out : list (list Z)) : outcome (list (list Z)) :=
  match bufs with
  | [] => Ok out
  | b :: bufs => p ← from b offset; send_all bufs offset (out ++ [p])
  end.

Definition fake_Write (bufs : list (list Z)) (offset : Z) : M FakeDevice (option Z) := fun d =>
  if fk_closed d then Ok (None, d) else
  out ← send_all bufs offset (fk_Out d);
  Ok (Some (len bufs), mkFake (fk_in d) out (fk_closed d) (fk_batch d) (fk_mtu d)).

(** ** What it does *)

(** The packets in the first [k] buffers. *)
Definition packets (offset : Z) (f : filled) (k : Z) : list (list Z) :=
  (fun i => take (Z.to_nat (fi_sizes f !!! i)) (drop (Z.to_nat offset) (fi_bufs f !!! i))) <$> seq 0 (Z.to_nat k).

(** Buffers of [size] bytes after the offset, with a size for each. *)
Record roomy (offset size : Z) (f : filled) : Prop := {
  ro_bufs : Forall (fun b => len b = offset + size) (fi_bufs f);
  ro_sizes : length (fi_sizes f) = length (fi_bufs f);
  ro_n : 0 <= fi_n f <= len (fi_bufs f);
}.

Lemma deliver_ok offset size p f :
  0 <= offset -> 0 <= size -> roomy offset size f -> fi_n f < len (fi_bufs f) ->
  owp (deliver offset p f) (fun f' => roomy offset size f' /\ fi_n f' = fi_n f + 1 /\
    length (fi_bufs f') = length (fi_bufs f) /\
    packets offset f' (fi_n f') = packets offset f (fi_n f) ++ [take (Z.to_nat size) p]).
Proof.
  intros Ho Hs [Hb Hl Hn] Hlt. destruct f as [bufs sizes n]. cbn [fi_bufs fi_sizes fi_n] in *. unfold len in *.
  unfold deliver. cbn [fi_bufs fi_sizes fi_n].
  destruct (lookup_lt_is_Some_2 bufs (Z.to_nat n)) as [b Eb]; [lia|]. rewrite Eb.
  destruct (lookup_lt_is_Some_2 sizes (Z.to_nat n)) as [sz Es]; [lia|]. rewrite Es.
  pose proof (Forall_lookup_1 _ _ _ _ Hb Eb) as Lb. cbn in Lb. unfold copy_to, len.
  rewrite !(proj2 (Z.leb_le _ _)) by lia. cbn [andb mbind outcome_bind]. apply owp_ok.
  set (c := take _ p). assert (Lc : length c = Nat.min (Z.to_nat size) (length p)) by (unfold c; rewrite length_take; lia).
  assert (Ls : length (splice b (Z.to_nat offset) c) = length b).
  { unfold splice. rewrite !length_app, length_take, length_drop. lia. }
  cbn [fi_bufs fi_sizes fi_n]. split_and!; [|done|by rewrite length_insert|].
  - constructor; cbn [fi_bufs fi_sizes fi_n]; rewrite ?length_insert; [|done|unfold len; rewrite length_insert; lia].
    apply Forall_insert; [done|]. unfold len. lia.
  - unfold packets. cbn [fi_bufs fi_sizes]. replace (Z.to_nat (n + 1)) with (S (Z.to_nat n)) by lia.
    rewrite seq_S, fmap_app. cbn [fmap list_fmap Nat.add]. f_equal.
    + apply list_fmap_ext. intros i x Hx. apply lookup_seq in Hx as [-> Hx]. cbn [Nat.add].
      by rewrite !list_lookup_total_insert_ne by lia.
    + rewrite !list_lookup_total_insert_eq by lia. f_equal. unfold splice.
      rewrite drop_app_length' by (rewrite length_take; lia). rewrite take_app_le by (unfold len; lia).
      unfold c. rewrite take_take. destruct (decide (Z.to_nat size <= length p)%nat).
      * f_equal. unfold len. lia.
      * rewrite !take_ge by (unfold len; lia). done.
Qed.

Lemma deliver_all_ok offset size q f :
  0 <= offset -> 0 <= size -> roomy offset size f ->
  owp (deliver_all offset q f) (fun '(q', f') => roomy offset size f' /\
    exists k, q' = drop k q /\ Z.of_nat k = Z.min (len q) (len (fi_bufs f) - fi_n f) /\
      fi_n f' = fi_n f + Z.of_nat k /\ length (fi_bufs f') = length (fi_bufs f) /\
      packets offset f' (fi_n f') = packets offset f (fi_n f) ++ (take (Z.to_nat size) <$> take k q)).
Proof.
  intros Ho Hs. revert f. induction q as [|p q IH]; intros f Hf; cbn [deliver_all].
  - apply owp_ok. split; [done|]. exists 0%nat. rewrite app_nil_r. destruct Hf as [_ _ Hn].
    split_and!; [done|unfold len in *; cbn; lia|lia|done..].
  - destruct (fi_n f <? len (fi_bufs f)) eqn:E; bool_prop.
    + apply owp_bind. eapply owp_mono; [by apply deliver_ok|]. intros f1 (Hf1 & En & El & Ep).
      eapply owp_mono; [by apply IH|]. intros [q' f'] (Hf' & k & -> & Hk & En' & El' & Ep'). split; [done|].
      exists (S k). unfold len in *. rewrite En, El in Hk. split_and!; [done|cbn; lia|lia|congruence|].
      rewrite Ep', Ep, <- app_assoc. done.
    + apply owp_ok. split; [done|]. exists 0%nat. rewrite app_nil_r. destruct Hf as [_ _ Hn].
      split_and!; [done|unfold len in *; cbn; lia|lia|done..].
Qed.

(** A read of a device that has packets, or nothing to wait for: with any buffers of the
    same size it fills as many as there are packets for, cut to that size. *)
Lemma fake_Read_ok offset size closedFirst bufs sizes d :
  0 <= offset -> 0 <= size -> Forall (fun b => len b = offset + size) bufs -> length sizes = length bufs -> bufs <> [] ->
  wp (fake_Read closedFirst bufs sizes offset) (fun r d' =>
    match r with
    | ReadBlocks => fk_in d = [] /\ fk_closed d = false /\ d' = d
    | ReadClosed => fk_closed d = true /\ (closedFirst = true \/ fk_in d = []) /\ d' = d
    | ReadN f => fk_in d <> [] /\ fk_closed d && closedFirst = false /\ d' = fk_with_in (drop (length bufs) (fk_in d)) d /\ fi_n f = Z.min (len (fk_in d)) (len bufs) /\
        packets offset f (fi_n f) = take (Z.to_nat size) <$> take (length bufs) (fk_in d)
    end) d.
Proof.
  intros Ho Hs Hb Hl Hne. unfold wp, fake_Read. destruct (fk_in d) as [|p q] eqn:Eq.
  { destruct (fk_closed d) eqn:Ec; split_and!; auto. }
  destruct (fk_closed d && closedFirst) eqn:Ec; [bool_prop; destruct_and!; auto|].
  set (f0 := mkFilled bufs sizes 0).
  assert (Hf0 : roomy offset size f0) by (constructor; [done|done|cbn; unfold len; lia]).
  assert (Hpos : fi_n f0 < len (fi_bufs f0)) by (cbn; destruct bufs; [done|unfold len; cbn; lia]).
  pose proof (deliver_ok offset size p f0 Ho Hs Hf0 Hpos) as H.
  apply owp_run in H as (f1 & -> & Hf1 & En & El & Ep). cbn [mbind outcome_bind].
  pose proof (deliver_all_ok offset size q f1 Ho Hs Hf1) as H.
  apply owp_run in H as ([q' f2] & -> & _ & k & -> & Hk & En2 & El2 & Ep2). cbn [mbind outcome_bind].
  unfold len in *. cbn [f0 fi_bufs fi_n] in *. rewrite En, El in Hk. cbn [length].
  assert (Et : take (length bufs) (p :: q) = p :: take k q /\ drop (length bufs) (p :: q) = drop k q).
  { destruct bufs as [|b bufs]; [done|]. cbn [length take drop] in *. destruct (decide (length q <= length bufs)%nat).
    - by rewrite !take_ge, !drop_ge by lia.
    - assert (k = length bufs) as -> by lia. done. }
  destruct Et as [-> ->]. split_and!; [done|done|done|lia|]. by rewrite Ep2, Ep.
Qed.

(** ** A test *)

(** What the other goroutines do to the device. *)
Inductive test_event := Injected (p : list Z) | Closing.

Definition happen (e : test_event) (d : FakeDevice) : FakeDevice :=
  match e with Injected p => Inject p d | Closing => Close d end.

(** A device with what is still to happen to it, and the number of reads so far. *)
Record test := mkTest { ts_dev : FakeDevice; ts_coming : list test_event; ts_reads : nat }.

(** The next [n] events. *)
Fixpoint happen_n (n : nat) (es : list test_event) (d : FakeDevice) : list test_event * FakeDevice :=
  match n, es with
  | S n, e :: es => happen_n n es (happen e d)
  | _, _ => (es, d)
  end.

(** A read that blocks goes on after the next event that lets it; when nothing is left
    to happen the test is over and closes the device. *)
Fixpoint wait (es : list test_event) (d : FakeDevice) : list test_event * FakeDevice :=
  if fk_closed d || negb (bool_decide (fk_in d = [])) then (es, d) else
  match es with
  | [] => ([], Close d)
  | e :: es => wait es (happen e d)
  end.

(** The engine's buffers. *)
Definition engine_bufs (batch : Z) : list (list Z) :=
  replicate (Z.to_nat batch) (replicate (Z.to_nat (Offset + maxPacket)) 0).

Section test.
(** How much happens before the [k]-th read, and how its [select] chooses. *)
Context (arrive : nat -> nat) (select : nat -> bool).

Definition at_read (t : test) : list test_event * FakeDevice :=
  let '(es, d) := happen_n (arrive (ts_reads t)) (ts_coming t) (ts_dev t) in wait es d.

Definition test_Read (batch : Z) (t : test) : (list (list Z) + bool) * test :=
  let '(es, d) := at_read t in
  match fake_Read (select (ts_reads t)) (engine_bufs batch) (replicate (Z.to_nat batch) 0) Offset d with
  | Ok (ReadN f, d) => (inl (packets Offset f (fi_n f)), mkTest d es (S (ts_reads t)))
  | Ok (_, d) => (inr true, mkTest d es (S (ts_reads t)))
  | _ => (inr false, t)
  end.

Definition test_Write (ps : list (list Z)) (t : test) : option bool * test :=
  match fake_Write ((fun p => replicate (Z.to_nat Offset) 0 ++ p) <$> ps) Offset (ts_dev t) with
  | Ok (Some _, d) => (None, mkTest d (ts_coming t) (ts_reads t))
  | Ok (None, d) => (Some true, mkTest d (ts_coming t) (ts_reads t))
  | _ => (Some false, t)
  end.

Definition test_device : Device test := {|
  BatchSize t := fake_BatchSize (ts_dev t);
  dev_Read := test_Read;
  dev_Write := test_Write;
  dev_Close t := mkTest (Close (ts_dev t)) (ts_coming t) (ts_reads t);
  ctx_done t := fk_closed (ts_dev t);
|}.

Lemma happen_n_split n es d : exists k, happen_n n es d = (drop k es, fold_left (fun d e => happen e d) (take k es) d).
Proof.
  revert es d. induction n as [|n IH]; intros es d; [by exists 0%nat|].
  destruct es as [|e es]; [by exists 0%nat|]. destruct (IH es (happen e d)) as [k E]. exists (S k). exact E.
Qed.

Lemma ready_true d : fk_closed d || negb (bool_decide (fk_in d = [])) = true -> fk_closed d = true \/ fk_in d <> [].
Proof. destruct (fk_closed d); [by left|]. cbn. case_bool_decide; [done|by right]. Qed.
Lemma ready_false d : fk_closed d || negb (bool_decide (fk_in d = [])) = false -> fk_closed d = false /\ fk_in d = [].
Proof. destruct (fk_closed d); [done|]. cbn. by case_bool_decide. Qed.

(** What has happened when a read goes on: it has a packet, or the device is closed. *)
Lemma wait_split es d : exists k d',
  wait es d = (drop k es, d') /\ (fk_closed d' = true \/ fk_in d' <> []) /\
  let d1 := fold_left (fun d e => happen e d) (take k es) d in
  d' = d1 \/ drop k es = [] /\ fk_in d1 = [] /\ d' = Close d1.
Proof.
  revert d. induction es as [|e es IH]; intros d; cbn [wait]; destruct (fk_closed d || _) eqn:E.
  - apply ready_true in E. exists 0%nat, d. split_and!; [done|done|by left].
  - apply ready_false in E as [_ E]. exists 0%nat, (Close d). split_and!; [done|by left|by right].
  - apply ready_true in E. exists 0%nat, d. split_and!; [done|done|by left].
  - destruct (IH (happen e d)) as (k & d' & Hw & Hd & Hk). exists (S k), d'. by split_and!.
Qed.

Lemma fold_left_take_add {A B} (f : A -> B -> A) k j l a :
  fold_left f (take (k + j) l) a = fold_left f (take j (drop k l)) (fold_left f (take k l) a).
Proof.
  revert l a. induction k as [|k IH]; intros l a; [by rewrite drop_0|].
  destruct l as [|x l]; [by destruct j|]. apply IH.
Qed.

Lemma at_read_split t : exists k d',
  at_read t = (drop k (ts_coming t), d') /\ (fk_closed d' = true \/ fk_in d' <> []) /\
  let d1 := fold_left (fun d e => happen e d) (take k (ts_coming t)) (ts_dev t) in
  d' = d1 \/ drop k (ts_coming t) = [] /\ fk_in d1 = [] /\ d' = Close d1.
Proof.
  unfold at_read. destruct (happen_n_split (arrive (ts_reads t)) (ts_coming t) (ts_dev t)) as [k ->].
  set (d := fold_left _ _ _). destruct (wait_split (drop k (ts_coming t)) d) as (j & d' & -> & Hd & Hj).
  exists (k + j)%nat, d'. rewrite <- drop_drop. cbv zeta in *. rewrite fold_left_take_add. done.
Qed.

(** A read of the engine: all it has buffers for, cut to their size. *)
Lemma test_Read_ok batch t : 1 <= batch ->
  let '(es, d) := at_read t in
  test_Read batch t =
    if fk_closed d && (select (ts_reads t) || bool_decide (fk_in d = [])) then (inr true, mkTest d es (S (ts_reads t)))
    else (inl (take (Z.to_nat maxPacket) <$> take (Z.to_nat batch) (fk_in d)),
          mkTest (fk_with_in (drop (Z.to_nat batch) (fk_in d)) d) es (S (ts_reads t))).
Proof.
  intros Hb. unfold test_Read. destruct (at_read_split t) as (k & d & -> & Hd & _).
  assert (Hl : length (engine_bufs batch) = Z.to_nat batch) by apply length_replicate.
  pose proof (fake_Read_ok Offset maxPacket (select (ts_reads t)) (engine_bufs batch) (replicate (Z.to_nat batch) 0) d) as H.
  rewrite Hl, length_replicate in H.
  assert (Hsz : Forall (fun b => len b = Offset + maxPacket) (engine_bufs batch)).
  { apply Forall_replicate. by apply len_replicate. }
  assert (Hne : engine_bufs batch <> []) by (intros E; rewrite E in Hl; cbn in Hl; lia).
  apply wp_run in H as (r & d' & -> & H); [|done..].
  destruct r as [| |f].
  - destruct H as (Ei & Ec & _). destruct Hd; congruence.
  - destruct H as (-> & Hs & ->). replace (select _ || _) with true; [done|]. symmetry. apply orb_true_iff.
    destruct Hs; [by left|right]. by apply bool_decide_eq_true.
  - destruct H as (Hin & Hc & -> & _ & ->). rewrite bool_decide_false by done. by rewrite orb_false_r, Hc.
Qed.

Lemma send_all_ok ps out :
  send_all ((fun p => replicate (Z.to_nat Offset) 0 ++ p) <$> ps) Offset out = Ok (out ++ ps).
Proof.
  revert out. induction ps as [|p ps IH]; intros out; cbn [send_all fmap list_fmap]; [by rewrite app_nil_r|].
  unfold from. rewrite sub_ok by (unfold len; rewrite ?length_app, ?length_replicate; unfold Offset; lia).
  cbn [mbind outcome_bind]. rewrite drop_app_length' by by rewrite length_replicate.
  rewrite take_ge by (unfold len; rewrite length_app, length_replicate; unfold Offset; lia).
  by rewrite IH, <- app_assoc.
Qed.

Lemma test_Write_ok ps t :
  test_Write ps t = if fk_closed (ts_dev t) then (Some true, t) else
    (None, mkTest (mkFake (fk_in (ts_dev t)) (fk_Out (ts_dev t) ++ ps) false (fk_batch (ts_dev t)) (fk_mtu (ts_dev t)))
             (ts_coming t) (ts_reads t)).
Proof.
  unfold test_Write, fake_Write. destruct t as [d es n]. cbn [ts_dev ts_coming ts_reads].
  destruct (fk_closed d) eqn:E; [done|]. rewrite send_all_ok. cbn [mbind outcome_bind]. done.
Qed.

(** ** The contract of a device *)

Definition test_event_ok (e : test_event) : Prop := match e with Injected p => bytes_ok p | Closing => True end.

Record test_inv (t : test) : Prop := {
  ti_in : Forall bytes_ok (fk_in (ts_dev t));
  ti_coming : Forall test_event_ok (ts_coming t);
  ti_Out : Forall sendable (fk_Out (ts_dev t));
}.

(** Packets are queued, and written packets kept, whatever happens. *)
Lemma happened_inv es d :
  Forall test_event_ok es -> Forall bytes_ok (fk_in d) ->
  let d' := fold_left (fun d e => happen e d) es d in Forall bytes_ok (fk_in d') /\ fk_Out d' = fk_Out d.
Proof.
  revert d. induction es as [|e es IH]; intros d He Hd; [done|].
  apply Forall_cons in He as [He Hes]. cbn [fold_left]. cbv zeta in *.
  destruct (IH (happen e d)) as [H1 H2]; [done| |].
  - destruct e; [|done]. apply Forall_app. split; [done|]. by apply Forall_singleton.
  - split; [done|]. rewrite H2. by destruct e.
Qed.

Lemma at_read_inv t :
  test_inv t -> let '(es, d) := at_read t in Forall test_event_ok es /\ Forall bytes_ok (fk_in d) /\ fk_Out d = fk_Out (ts_dev t).
Proof.
  intros [Hi Hc Ho]. destruct (at_read_split t) as (k & d & -> & _ & Hd).
  destruct (happened_inv (take k (ts_coming t)) (ts_dev t)) as [H1 H2]; [by apply Forall_take|done|].
  split; [by apply Forall_drop|]. cbv zeta in *. destruct Hd as [->|(_ & _ & ->)]; [done|]. by split.
Qed.

Lemma test_Read_inv batch t : 1 <= batch -> test_inv t ->
  test_inv (test_Read batch t).2 /\
  match (test_Read batch t).1 with
  | inl ps => len ps <= batch /\ Forall (fun p => bytes_ok p /\ len p <= maxPacket) ps
  | inr _ => True
  end.
Proof.
  intros Hb Ht. pose proof (test_Read_ok batch t Hb) as Hr. pose proof (at_read_inv t Ht) as Ha.
  destruct (at_read t) as [es d], Ha as (He & Hi & Ho), Ht as [_ _ Hout]. rewrite Hr. case_if; cbn [fst snd].
  - split; [|done]. constructor; cbn [ts_dev ts_coming]; congruence.
  - split; [constructor; cbn [ts_dev ts_coming fk_with_in fk_in fk_Out]; [by apply Forall_drop|done|congruence]|].
    split; [unfold len; rewrite length_fmap, length_take; lia|].
    apply Forall_fmap. eapply Forall_impl; [apply Forall_take; exact Hi|]. intros p Hp. cbn.
    split; [by apply Forall_take|]. unfold len. rewrite length_take. unfold maxPacket. lia.
Qed.

Definition test_laws : DeviceLaws test (H := test_device).
Proof.
  refine (@Build_DeviceLaws test test_device test_inv test_Read_inv _ _).
  - intros ps t Hps [Hi Hc Ho]. change (test_inv (test_Write ps t).2). rewrite test_Write_ok.
    case_if; [done|]. constructor; [done|done|]. by apply Forall_app.
  - intros t [Hi Hc Ho]. by constructor.
Defined.
End test.
