(* ===== verification/FakeProps.v ===== *)
(** * The engine on the device of the tests

    Everything injected into a [FakeDevice] is translated and written, in order, and
    the engine ends when the device is closed. *)

From stdpp Require Import base tactics list numbers option strings.
From Stdlib Require Import ZArith Lia.
From S2P Require Import Prelude Netip Netutil Checksum Events Packet Layout Translator TranslatorFacts Xlate4 Xlate6 Fixtures Engine EngineFacts Fake.

Open Scope Z_scope.

(** What the engine reads of a packet: it has room for 65535 bytes. *)
Definition cut (p : list Z) : list Z := take (Z.to_nat maxPacket) p.

(** ** Packets that are on their way *)

Lemma happened_injected qs d :
  fold_left (fun d e => happen e d) (Injected <$> qs) d = fk_with_in (fk_in d ++ qs) d.
Proof.
  revert d. induction qs as [|q qs IH]; intros d; cbn [fmap list_fmap fold_left].
  - rewrite app_nil_r. by destruct d.
  - change (fold_left (fun d e => happen e d) (Injected <$> qs) (Inject q d) = fk_with_in (fk_in d ++ q :: qs) d).
    rewrite IH. unfold Inject, fk_with_in. cbn. by rewrite <- app_assoc.
Qed.

(** A read waits for one of them, or for the end of the test. *)
Lemma at_read_injected arrive qs t :
  ts_coming t = Injected <$> qs -> fk_closed (ts_dev t) = false ->
  (exists k, let q := fk_in (ts_dev t) ++ take k qs in
     q <> [] /\ at_read arrive t = (Injected <$> drop k qs, fk_with_in q (ts_dev t))) \/
  (fk_in (ts_dev t) ++ qs = [] /\ at_read arrive t = ([], Close (ts_dev t))).
Proof.
  intros Hq Hc. destruct (at_read_split arrive t) as (k & d & Ha & Hd & Hk). rewrite Ha. rewrite Hq in *.
  rewrite <- fmap_take, happened_injected in Hk. rewrite <- fmap_drop in *. cbv zeta in Hk.
  destruct Hk as [->|(E & Ei & ->)].
  - left. exists k. split; [|done]. cbn [fk_with_in fk_closed fk_in] in Hd. destruct Hd; [congruence|done].
  - right. apply fmap_nil_inv in E. cbn [fk_with_in fk_in] in Ei. apply app_nil in Ei as [E1 E2].
    assert (Eq : qs = []) by by rewrite <- (take_drop k qs), E, E2.
    rewrite E1, E, E2, Eq. split; [done|]. destruct t as [[q o c b m] es n]. cbn in E1. by subst q.
Qed.

(** ** Counting *)

Definition counted (s : Stats) : Prop := u64 (PacketsIn s) = PacketsIn s /\ u64 (PacketsOut s) = PacketsOut s.

Lemma u64_u64 x : u64 (u64 x) = u64 x.
Proof. unfold u64. by rewrite Z.mod_mod. Qed.
Lemma u64_add x y : u64 (u64 x + y) = u64 (x + y).
Proof. unfold u64. by rewrite Z.add_mod_idemp_l. Qed.

Lemma count_in_all (ps : list (list Z)) s :
  counted s -> let s' := fold_left (fun s p => count_in (len p) s) ps s in
  counted s' /\ PacketsIn s' = u64 (PacketsIn s + len ps) /\ PacketsOut s' = PacketsOut s.
Proof.
  revert s. induction ps as [|p ps IH]; intros s [Hi Ho]; cbn [fold_left].
  - unfold len. cbn [length]. rewrite Z.add_0_r. cbv zeta. rewrite Hi. done.
  - destruct (IH (count_in (len p) s)) as (H1 & H2 & H3); [by split; [apply u64_u64|]|].
    split; [done|]. split; [|exact H3]. rewrite H2. cbn [count_in PacketsIn]. rewrite u64_add. f_equal.
    unfold len. cbn [length]. lia.
Qed.

(** ** The run *)

Section run.
Context {MS : Type} {HM : Mapper MS} {HML : MapperLaws MS}.
Context (rand32 : nat -> Z) (loads : nat -> MS -> Translator * MS) (t : Translator).
Context (loads_t : forall k m, mapper_inv m -> (loads k m).1 = t /\ mapper_inv (loads k m).2) (t_ok : tr_ok t).
Context (arrive : nat -> nat) (select : nat -> bool).

Local Instance the_device : Device test := test_device arrive select.
Local Instance the_laws : DeviceLaws test := test_laws arrive select.

Local Abbreviation G := (Engine MS test).

Definition fake (g : G) : FakeDevice := ts_dev (g_dev g).

(** [ps] is what the engine has not read yet. *)
Record running (ps : list (list Z)) (g : G) : Prop := {
  rn_ok : engine_ok g;
  rn_open : fk_closed (fake g) = false;
  rn_rest : exists qs, ts_coming (g_dev g) = Injected <$> qs /\ ps = fk_in (fake g) ++ qs;
  rn_stats : counted (g_stats g);
}.

Lemma loads_ok' k m : mapper_inv m -> tr_ok (loads k m).1 /\ mapper_inv (loads k m).2.
Proof. intros Hm. destruct (loads_t k m Hm) as [-> H]. by split. Qed.

(** From [g] to [g'] the packets [ps] were translated into [outs]. *)
Record passed (ps outs : list (list Z)) (g g' : G) : Prop := {
  pa_out : fk_Out (fake g') = fk_Out (fake g) ++ outs;
  pa_in : PacketsIn (g_stats g') = u64 (PacketsIn (g_stats g) + len ps);
  pa_sent : PacketsOut (g_stats g') = u64 (PacketsOut (g_stats g) + len outs);
}.

Lemma passed_trans ps qs os os' g1 g2 g3 :
  passed ps os g1 g2 -> passed qs os' g2 g3 -> passed (ps ++ qs) (os ++ os') g1 g3.
Proof.
  intros [O1 I1 S1] [O2 I2 S2]. constructor; rewrite ?O2, ?I2, ?S2, ?O1, ?I1, ?S1, ?u64_add, ?len_app.
  - by rewrite app_assoc.
  - f_equal. lia.
  - f_equal. lia.
Qed.

Lemma iteration_on_test batch ps (g : G) :
  1 <= batch -> running ps g ->
  wp (iteration rand32 loads batch) (fun r g' =>
    (r = Some EndCtx /\ ps = [] /\ passed [] [] g g' /\ fk_closed (fake g') = true) \/
    (r = None /\ exists now later groups, ps = now ++ later /\ now <> [] /\ running later g' /\
      Forall2 (emitted rand32 t) (cut <$> now) groups /\ passed now (concat groups) g g')) g.
Proof.
  intros Hb [Hok Hopen (qs & Hq & ->) Hst].
  eapply wp_mono; [exact (iteration_ok rand32 loads loads_ok' batch g Hb Hok)|]. intros r g' [Hok' Hspec].
  unfold iteration_spec in Hspec. change (dev_Read batch (g_dev g)) with (test_Read arrive select batch (g_dev g)) in Hspec.
  pose proof (test_Read_ok arrive select batch (g_dev g) Hb) as HR.
  destruct (at_read_injected arrive qs (g_dev g) Hq Hopen) as [(k & Hne & Ha)|[Hnil Ha]]; rewrite Ha in HR.
  - right. set (q := fk_in (ts_dev (g_dev g)) ++ take k qs) in *. cbn [fk_closed fk_with_in fk_in] in HR.
    change (ts_dev (g_dev g)) with (fake g) in HR. rewrite Hopen in HR. cbn [andb] in HR. rewrite HR in Hspec.
    destruct Hspec as (groups & HF & _ & _ & Hd). destruct (loads_t (g_loads g) (g_map g) (go_map _ Hok)) as [Et _].
    rewrite Et in HF.
    set (now := take (Z.to_nat batch) q) in *. set (s := fold_left _ _ (g_stats g)) in *.
    assert (Hs : counted s /\ PacketsIn s = u64 (PacketsIn (g_stats g) + len (cut <$> now)) /\ PacketsOut s = PacketsOut (g_stats g))
      by exact (count_in_all (cut <$> now) (g_stats g) Hst).
    destruct Hs as (Cs & Is & Os).
    assert (En : len (cut <$> now) = len now) by (unfold len; by rewrite length_fmap). rewrite En in Is.
    assert (Hsplit : fk_in (fake g) ++ qs = now ++ drop (Z.to_nat batch) q ++ drop k qs).
    { unfold now. rewrite app_assoc, take_drop. unfold q, fake. by rewrite <- app_assoc, take_drop. }
    assert (Hnow : now <> []).
    { unfold now. destruct q; [done|]. destruct (Z.to_nat batch) eqn:Eb; [lia|done]. }
    assert (Hg : r = None /\ ts_coming (g_dev g') = Injected <$> drop k qs /\ fk_in (fake g') = drop (Z.to_nat batch) q /\
      fk_closed (fake g') = false /\ counted (g_stats g') /\ passed now (concat groups) g g').
    { cbv zeta in Hd. destruct (concat groups) as [|o os] eqn:Ec.
      - destruct Hd as (Ed & -> & Es). unfold fake in *. rewrite Ed, Es. split_and!; [done|done|done|exact Hopen|done|].
        constructor; unfold fake; rewrite ?Ed, ?Es, ?app_nil_r, ?Os; [done|exact Is|]. destruct Hst as [_ Ho].
        unfold len. cbn [length]. by rewrite Z.add_0_r, Ho.
      - match type of Hd with context [dev_Write ?l ?d] => change (dev_Write l d) with (test_Write l d) in Hd end.
        rewrite test_Write_ok in Hd. cbn [ts_dev fk_closed fk_with_in] in Hd. rewrite Hopen in Hd.
        destruct Hd as (Ed & -> & Es). unfold fake. rewrite Ed, Es. split_and!; [done..| |].
        + destruct Cs as [Ci Co]. split; [exact Ci|apply u64_u64].
        + constructor; unfold fake; rewrite ?Ed, ?Es; [done|exact Is|]. cbn [count_out PacketsOut]. by rewrite Os. }
    destruct Hg as (-> & Hc' & Hi' & Ho' & Cs' & Hp). split; [done|].
    exists now, (drop (Z.to_nat batch) q ++ drop k qs), groups. split_and!; try done.
    constructor; [done|done| |done]. exists (drop k qs). by rewrite Hi'.
  - left. cbn [fk_closed Close] in HR. change (fk_in (Close (ts_dev (g_dev g)))) with (fk_in (fake g)) in HR.
    apply app_nil in Hnil as [Ei Eq]. change (fk_in (fake g) = []) in Ei. rewrite Ei, bool_decide_true, orb_true_r in HR by done. cbn [andb] in HR.
    rewrite HR in Hspec. destruct Hspec as (Ed & _ & _ & -> & Es & _). rewrite Ei, Eq.
    unfold fake. rewrite Ed. split_and!; try done. destruct Hst as [Hi Ho].
    constructor; unfold fake; rewrite ?Ed, ?Es; unfold len; cbn [length]; rewrite ?Z.add_0_r; [by rewrite app_nil_r|done|done].
Qed.

Lemma loop_run batch fuel ps (g : G) :
  1 <= batch -> running ps g -> (length ps < fuel)%nat ->
  wp (loop rand32 loads fuel batch) (fun r g' => r = Some EndCtx /\ fk_closed (fake g') = true /\
    exists groups, Forall2 (emitted rand32 t) (cut <$> ps) groups /\ passed ps (concat groups) g g') g.
Proof.
  intros Hb. revert ps g. induction fuel as [|fuel IH]; intros ps g Hr Hf; [lia|]. cbn [loop].
  apply wp_bind. eapply wp_mono; [by apply iteration_on_test|]. intros r g1 [(-> & -> & Hp & Hc)|(-> & now & later & gs & -> & Hne & Hr' & HF & Hp)].
  - apply wp_ret. split; [done|]. split; [done|]. exists []. by split; [constructor|].
  - rewrite length_app in Hf. assert (Hl : (0 < length now)%nat) by (destruct now; [done|cbn; lia]).
    eapply wp_mono; [apply IH; [exact Hr'|lia]|]. intros r g2 (-> & Hc & gs' & HF' & Hp').
    split; [done|]. split; [done|]. exists (gs ++ gs'). rewrite fmap_app, concat_app. split; [by apply Forall2_app|].
    by eapply passed_trans.
Qed.
End run.

(** C21: the engine on a [FakeDevice], whatever its batch size, however many packets are
    there at each read and whatever [select] chooses: when packets are injected and the
    device is closed once nothing is left to read, [Run] ends, and what it sent on [Out]
    are the translations of the packets, each cut to the engine's buffers, in the order
    in which they were injected; the counters say how many packets went in and out.
    One more iteration than packets is enough. *)
Theorem injected_packets_come_out {MS : Type} {HM : Mapper MS} {HML : MapperLaws MS} rand32
    (loads : nat -> MS -> Translator * MS) t (m : MS) arrive select batch mtu ps fuel :
  (forall k m, mapper_inv m -> (loads k m).1 = t /\ mapper_inv (loads k m).2) -> tr_ok t ->
  mapper_inv m -> Forall bytes_ok ps -> (length ps < fuel)%nat ->
  wp (Run (H0 := test_device arrive select) rand32 loads fuel) (fun r g =>
    let d := ts_dev (g_dev g) in
    r = Some EndCtx /\ fk_closed d = true /\
    exists groups, Forall2 (emitted rand32 t) (cut <$> ps) groups /\ fk_Out d = concat groups /\
      PacketsIn (g_stats g) = u64 (len ps) /\ PacketsOut (g_stats g) = u64 (len (concat groups)))
    (NewEngine (mkTest (NewFakeDevice batch mtu) (Injected <$> ps) 0) m).
Proof.
  intros Hl Ht Hm Hps Hf. unfold Run. apply wp_bind, wp_gets, wp_bind, wp_modify, wp_bind, wp_modify, wp_bind.
  eapply wp_mono; [eapply (loop_run rand32 loads t Hl Ht arrive select); [| |exact Hf]|].
  - case_if; [done|]. bool_prop. lia.
  - constructor; [|done|by exists ps|done]. constructor; [|exact Hm|exact new_emitter_ok|done].
    constructor; [constructor| |constructor]. apply Forall_fmap. eapply Forall_impl; [exact Hps|]. done.
  - intros r g (-> & Hc & groups & HF & [Ho Hi Hs]). apply wp_bind, wp_modify, wp_ret. split; [done|]. split; [done|].
    exists groups. split_and!; [done|exact Ho|exact Hi|exact Hs].
Qed.

Definition fx_packets : list (list Z) := [fx_udp4; [1; 2; 3]; fx_unreach4].
Definition fx_test : test := mkTest (NewFakeDevice 2 1500) (Injected <$> fx_packets) 0.

Lemma injected_packets_come_out_witness :
  wp (Run (H := fx_mapper) (H0 := test_device (fun _ => 1%nat) (fun _ => true)) (fun _ => 5) (fun _ m => (fx_t, m)) 4) (fun r g =>
    let d := ts_dev (g_dev g) in
    r = Some EndCtx /\ fk_closed d = true /\
    exists groups, Forall2 (emitted (fun _ => 5) fx_t) (cut <$> fx_packets) groups /\ fk_Out d = concat groups /\
      PacketsIn (g_stats g) = u64 (len fx_packets) /\ PacketsOut (g_stats g) = u64 (len (concat groups)))
    (NewEngine fx_test tt).
Proof.
  apply (injected_packets_come_out (HML := fx_mapper_laws) (fun _ => 5) (fun _ m => (fx_t, m)) fx_t tt).
  - intros k m _. split; [reflexivity|exact I].
  - exact fx_t_ok.
  - exact I.
  - repeat constructor; vm_compute; try congruence.
  - cbn. lia.
Defined.

(** Two of the three packets can be translated; with two buffers they are read in two turns. *)
Example fx_test_run :
  match Run (H := fx_mapper) (H0 := test_device (fun _ => 2%nat) (fun _ => true)) (fun _ => 5) (fun _ m => (fx_t, m)) 4 (NewEngine fx_test tt) with
  | Ok (Some EndCtx, g) =>
      (len <$> fk_Out (ts_dev (g_dev g)), ts_reads (g_dev g), PacketsIn (g_stats g), PacketsOut (g_stats g)) = ([52; 100], 3%nat, 3, 2)
  | _ => False
  end.
Proof. vm_compute. reflexivity. Qed.
