(* ===== verification/Netconf.v ===== *)
(** * Kernel configuration: [src/internal/netconf]

    [Options] is the wanted state of the interface; [Apply] brings the kernel there
    and [Update] moves it from one set of options to another.  The kernel is reached
    through github.com/vishvananda/netlink and /proc/sys: the calls the package makes
    are the interface [Kernel], of which nothing is assumed.  Logging is left out. *)

From stdpp Require Import base tactics list numbers option strings gmap sets.
From Stdlib Require Import ZArith Lia.
From S2P Require Import Prelude Netip Text.

Open Scope Z_scope.

(** ** Options ([netconf.go]) *)

Record Route := mkRoute {
  rt_Prefix : Prefix;
  rt_Metric : Z;
  rt_MTU : Z;
  rt_AdvMSS : Z;
}.

#[export] Instance Route_eq_dec : EqDecision Route.
Proof. solve_decision. Defined.

Record Filter := mkFilter { fl_Proto : Z; fl_Start : Z; fl_End : Z }.

#[export] Instance Filter_eq_dec : EqDecision Filter.
Proof. solve_decision. Defined.

Record Shared := mkShared {
  sh_Addr : Addr;
  sh_From : Prefix;
  sh_Table : Z;
  sh_Filters : list Filter;
}.

Record Options := mkOptions {
  no_Name : string;
  no_Addresses : list Prefix;
  no_Routes4 : list Route;
  no_Routes6 : list Route;
  no_Forward4 : bool;
  no_Forward6 : bool;
  no_Shared : option Shared;
}.

Definition Filter_String (f : Filter) : string :=
  let proto :=
    if fl_Proto f =? 0 then ""%string
    else if fl_Proto f =? 6 then "tcp"%string
    else if fl_Proto f =? 17 then "udp"%string
    else if fl_Proto f =? 58 then "icmp"%string
    else if fl_Proto f =? 132 then "sctp"%string
    else FormatInt (fl_Proto f) in
  if bool_decide (proto = ""%string) then "all"%string
  else if fl_Start f =? 0 then proto
  else if fl_Start f =? fl_End f then proto +:+ "/" +:+ FormatInt (fl_Start f)
  else proto +:+ "/" +:+ FormatInt (fl_Start f) +:+ "-" +:+ FormatInt (fl_End f).

Record ruleSpec := mkRuleSpec {
  rs_Addr : Addr;
  rs_From : Prefix;
  rs_Table : Z;
  rs_Filter : Filter;
}.

#[export] Instance ruleSpec_eq_dec : EqDecision ruleSpec.
Proof. solve_decision. Defined.

Definition ruleSpecs (s : option Shared) : list ruleSpec :=
  match s with
  | None => []
  | Some s =>
      match sh_Filters s with
      | [] => [mkRuleSpec (sh_Addr s) (sh_From s) (sh_Table s) (mkFilter 0 0 0)]
      | fs => (fun f => mkRuleSpec (sh_Addr s) (sh_From s) (sh_Table s) f) <$> fs
      end
  end.

Definition route_key (r : Route) : Prefix * Z := (rt_Prefix r, rt_Metric r).

(** ** Differences ([netconf_linux.go]); a Go map used as a set is the list of its keys *)

Definition missingPrefixes (have want : list Prefix) : list Prefix :=
  filter (fun p => p ∉ have) want.

Definition missingRoutes (have want : list Route) : list Route :=
  filter (fun r => r ∉ have) want.

Definition staleRoutes (have want : list Route) : list Route :=
  filter (fun r => route_key r ∉ route_key <$> want) have.

(** ** Calls to the kernel *)

(** [net.IPNet]: an address and a mask, as bytes. *)
Definition IPNet : Type := list Z * list Z.

(** [net.CIDRMask] *)
Definition CIDRMask (ones bits : Z) : list Z :=
  if (ones <? 0) || (bits <? ones) then []
  else be_bytes (Z.to_nat (bits / 8)) (mask_hi bits ones (2 ^ bits - 1)).

Definition prefixToIPNet (p : Prefix) : IPNet :=
  match p_addr p with
  | Addr4 v => (be_bytes 4 v, CIDRMask (p_bits p) 32)
  | a => (As16 a, CIDRMask (p_bits p) 128)
  end.

Inductive Scope := SCOPE_LINK | SCOPE_UNIVERSE.

#[export] Instance Scope_eq_dec : EqDecision Scope.
Proof. solve_decision. Defined.

Definition routeScope (p : Prefix) : Scope := if Is4 (p_addr p) then SCOPE_LINK else SCOPE_UNIVERSE.

(** [netlink.Route] *)
Record KRoute := mkKRoute {
  kr_Link : Z;
  kr_Dst : IPNet;
  kr_Scope : Scope;
  kr_Table : Z;
  kr_Priority : Z;
  kr_MTU : Z;
  kr_AdvMSS : Z;
}.

#[export] Instance KRoute_eq_dec : EqDecision KRoute.
Proof. solve_decision. Defined.

Definition kernelRoute (link : Z) (r : Route) (table : Z) : KRoute :=
  mkKRoute link (prefixToIPNet (rt_Prefix r)) (routeScope (rt_Prefix r)) table (rt_Metric r) (rt_MTU r) (rt_AdvMSS r).

(** [netlink.Rule]: the fields the program sets of an IPv6 rule, the others being
    those of [NewRule]. *)
Record KRule := mkKRule {
  ku_Priority : Z;
  ku_Table : Z;
  ku_Src : option IPNet;
  ku_Dst : option IPNet;
  ku_IPProto : Z;
  ku_Dport : option (Z * Z);
}.

#[export] Instance KRule_eq_dec : EqDecision KRule.
Proof. solve_decision. Defined.

#[export] Program Instance KRule_countable : Countable KRule :=
  inj_countable' (fun r => (ku_Priority r, ku_Table r, ku_Src r, ku_Dst r, ku_IPProto r, ku_Dport r))
    (fun '(a, b, c, d, e, f) => mkKRule a b c d e f) _.
Next Obligation. by intros []. Qed.

Definition sharedRulePriority : Z := 1.
Definition localRulePriority : Z := 2.
Definition RT_TABLE_LOCAL : Z := 255.

Definition localRule (priority : Z) : KRule := mkKRule priority RT_TABLE_LOCAL None None 0 None.

Definition spec_rule (s : ruleSpec) : KRule :=
  mkKRule sharedRulePriority (rs_Table s) (Some (prefixToIPNet (rs_From s)))
    (Some (prefixToIPNet (PrefixFrom (rs_Addr s) 128))) (fl_Proto (rs_Filter s))
    (if fl_Start (rs_Filter s) =? 0 then None else Some (fl_Start (rs_Filter s), fl_End (rs_Filter s))).

Inductive Errno := E_OK | EEXIST | ENOENT | ESRCH | EADDRNOTAVAIL | EOTHER.

#[export] Instance Errno_eq_dec : EqDecision Errno.
Proof. solve_decision. Defined.

(** The calls; a link is its index. *)
Class Kernel (K : Type) := {
  LinkByName : string -> K -> option Z * K;
  LinkSetUp : Z -> K -> bool * K;
  AddrAdd : Z -> IPNet -> K -> Errno * K;
  AddrDel : Z -> IPNet -> K -> Errno * K;
  RouteReplace : KRoute -> K -> Errno * K;
  RouteDel : KRoute -> K -> Errno * K;
  RuleAdd : KRule -> K -> Errno * K;
  RuleDel : KRule -> K -> Errno * K;
  RuleList : K -> option (list (Z * Z)) * K;
  ReadSysctl : string -> K -> option string * K;
  WriteSysctl : string -> string -> K -> bool * K;
}.

(** The errors, by the call that failed. *)
Inductive NetconfErr :=
  | FindInterface | SetUp | AddAddress (p : Prefix) | RemoveAddress (p : Prefix)
  | AddRoute (r : Route) | RemoveRoute (r : Route) | AddRule (s : ruleSpec) | RemoveRule (s : ruleSpec)
  | ListRules | AddLocalRule | RemoveLocalRule | Sysctl (name : string).

Section calls.
Context {K : Type} `{Kernel K}.

(** A function that returns an error, nil being [None]. *)
Local Abbreviation E := (M K (option NetconfErr)).

Definition call {A} (f : K -> A * K) : M K A := fun k => Ok (f k).

(** [if err := m; err != nil { return err }; k] *)
Definition check (m k : E) : E := e ← m; match e with Some err => mret (Some err) | None => k end.

(** A loop whose body may return an error. *)
Fixpoint each {A} (f : A -> E) (l : list A) : E :=
  match l with
  | [] => mret None
  | x :: l => check (f x) (each f l)
  end.

(** An error code that is not among the tolerated ones. *)
Definition unless (codes : list Errno) (err : NetconfErr) (e : Errno) : option NetconfErr :=
  if bool_decide (e = E_OK) || bool_decide (e ∈ codes) then None else Some err.

Definition delRoute (link : Z) (r : Route) (table : Z) : E :=
  e ← call (RouteDel (kernelRoute link r table));
  mret (unless [ESRCH] (RemoveRoute r) e).

Definition addRoute (link : Z) (r : Route) (table : Z) : E :=
  e ← call (RouteReplace (kernelRoute link r table));
  mret (unless [] (AddRoute r) e).

Definition demoteLocalRule : E :=
  rules ← call RuleList;
  match rules with
  | None => mret (Some ListRules)
  | Some rules =>
      let local := filter (fun r : Z * Z => r.1 = RT_TABLE_LOCAL) rules in
      let atZero := existsb (fun r : Z * Z => r.2 =? 0) local in
      let demoted := existsb (fun r : Z * Z => r.2 =? localRulePriority) local in
      check (if negb demoted
             then e ← call (RuleAdd (localRule localRulePriority)); mret (unless [EEXIST] AddLocalRule e)
             else mret None)
            (if atZero
             then e ← call (RuleDel (localRule 0)); mret (unless [ENOENT] RemoveLocalRule e)
             else mret None)
  end.

Definition applyShared (link : Z) (s : Shared) : E :=
  check demoteLocalRule
    (check (addRoute link (mkRoute (PrefixFrom (sh_Addr s) 128) 0 0 0) (sh_Table s))
       (each (fun spec => e ← call (RuleAdd (spec_rule spec)); mret (unless [EEXIST] (AddRule spec) e))
          (ruleSpecs (Some s)))).

Definition removeStaleRules (prev next : option Shared) : E :=
  let keep := ruleSpecs next in
  each (fun spec =>
    if bool_decide (spec ∈ keep) then mret None else
    e ← call (RuleDel (spec_rule spec)); mret (unless [ENOENT] (RemoveRule spec) e)) (ruleSpecs prev).

(** [string(cur[:len(cur)-1]) == value] *)
Definition same_but_last (cur value : string) : bool :=
  bool_decide (String.substring 0 (String.length cur - 1) cur = value).

Definition writeSysctl (name value : string) : E :=
  cur ← call (ReadSysctl name);
  if (match cur with Some c => (0 <? Z.of_nat (String.length c)) && same_but_last c value | None => false end)
  then mret None else
  ok ← call (WriteSysctl name value);
  mret (if (ok : bool) then None else Some (Sysctl name)).

Definition setSysctl (name : string) : E := writeSysctl name "1".

Definition ip_forward : string := "net/ipv4/ip_forward".
Definition ip6_forwarding : string := "net/ipv6/conf/all/forwarding".

Definition Apply (o : Options) : E :=
  link ← call (LinkByName (no_Name o));
  match link with
  | None => mret (Some FindInterface)
  | Some link =>
      up ← call (LinkSetUp link);
      if negb up then mret (Some SetUp) else
      check (each (fun p => e ← call (AddrAdd link (prefixToIPNet p)); mret (unless [EEXIST] (AddAddress p) e))
               (no_Addresses o))
      (check (each (fun r => addRoute link r 0) (no_Routes4 o ++ no_Routes6 o))
      (check (match no_Shared o with Some s => applyShared link s | None => mret None end)
      (check (if no_Forward4 o then setSysctl ip_forward else mret None)
      (check (if no_Forward6 o then setSysctl ip6_forwarding else mret None)
      (mret None)))))
  end.

Definition sameShared (p n : Shared) : bool :=
  bool_decide (sh_Addr p = sh_Addr n) && (sh_Table p =? sh_Table n).

(** What [Update] hands to [Apply]. *)
Definition added (prev next : Options) : Options :=
  mkOptions (no_Name next) (missingPrefixes (no_Addresses prev) (no_Addresses next))
    (missingRoutes (no_Routes4 prev) (no_Routes4 next)) (missingRoutes (no_Routes6 prev) (no_Routes6 next))
    (no_Forward4 next && negb (no_Forward4 prev)) (no_Forward6 next && negb (no_Forward6 prev)) (no_Shared next).

Definition Update (prev next : Options) : E :=
  link ← call (LinkByName (no_Name next));
  match link with
  | None => mret (Some FindInterface)
  | Some link =>
      check (each (fun r => delRoute link r 0)
               (staleRoutes (no_Routes4 prev) (no_Routes4 next) ++ staleRoutes (no_Routes6 prev) (no_Routes6 next)))
      (check (each (fun p => e ← call (AddrDel link (prefixToIPNet p)); mret (unless [EADDRNOTAVAIL] (RemoveAddress p) e))
               (missingPrefixes (no_Addresses next) (no_Addresses prev)))
      (check (removeStaleRules (no_Shared prev) (no_Shared next))
      (check (match no_Shared prev with
              | Some p =>
                  if (match no_Shared next with Some n => sameShared p n | None => false end) then mret None
                  else delRoute link (mkRoute (PrefixFrom (sh_Addr p) 128) 0 0 0) (sh_Table p)
              | None => mret None
              end)
      (Apply (added prev next)))))
  end.
End calls.

(** [SourceAddress]: the first source address among the routes to a destination;
    [None] is an error. *)
Definition AddrFromSlice (l : list Z) : option Addr :=
  if len l =? 4 then Some (AddrFrom4 l) else if len l =? 16 then Some (AddrFrom16 l) else None.
Definition Unmap (a : Addr) : Addr :=
  match a with Addr6 v _ => if Is4In6 a then Addr4 (v mod 2 ^ 32) else a | _ => a end.
Definition IsUnspecified (a : Addr) : bool :=
  match a with Addr4 v => v =? 0 | Addr6 v z => (v =? 0) && bool_decide (z = ""%string) | AddrZero => false end.

Definition SourceAddress (RouteGet : Addr -> option (list (list Z))) (dst : Addr) : option Addr :=
  routes ← RouteGet dst;
  head (omap (fun src => a ← AddrFromSlice src; if IsUnspecified (Unmap a) then None else Some (Unmap a)) routes).
