(* ===== verification/NetconfFacts.v ===== *)
(** * What the kernel has acknowledged after [Apply] and [Update]

    What Linux does beyond what it is asked (the secondary addresses and routes that
    go with an address, routes removed with a link) is not the program's to say, so no
    law is assumed of the kernel.  Instead a [ledger] keeps, beside any kernel whatever,
    what the kernel last said of each object: there, after a request to add it that
    succeeded or was refused because it exists; gone, after a request to remove it
    that succeeded or was refused because it is not there.  The ledger changes no
    call and no answer ([erases]); [ewp] is the weakest precondition, on what it
    holds, of a function that reports no error. *)

From stdpp Require Import base tactics list numbers option strings gmap sets.
From Stdlib Require Import ZArith Lia.
From S2P Require Import Prelude Netip Text Netconf.

Open Scope Z_scope.

(** ** What the kernel has acknowledged *)

(** What makes a route distinct: destination, table and priority, and not the
    device; a route of another device is replaced too. *)
Definition RouteKey : Type := IPNet * Z * Z.
Definition kr_key (r : KRoute) : RouteKey := (kr_Dst r, kr_Table r, kr_Priority r).

(** The addresses, routes and rules the kernel said it has, and the settings it
    was read or given.  [localRule p] stands for any rule of priority [p] that looks
    up the local table. *)
Record kview := mkKview {
  v_addrs : gset (Z * IPNet);
  v_routes : gmap RouteKey KRoute;
  v_rules : gset KRule;
  v_sysctl : gmap string string;
}.

Definition with_addrs (x : gset (Z * IPNet)) (v : kview) : kview :=
  mkKview x (v_routes v) (v_rules v) (v_sysctl v).
Definition with_routes (x : gmap RouteKey KRoute) (v : kview) : kview :=
  mkKview (v_addrs v) x (v_rules v) (v_sysctl v).
Definition with_rules (x : gset KRule) (v : kview) : kview :=
  mkKview (v_addrs v) (v_routes v) x (v_sysctl v).
Definition with_sysctl (x : gmap string string) (v : kview) : kview :=
  mkKview (v_addrs v) (v_routes v) (v_rules v) x.

Definition put_rule (b : bool) (r : KRule) (x : gset KRule) : gset KRule := if b then x ∪ {[r]} else x ∖ {[r]}.

(** What the answer to each call says. *)
Definition saw_AddrAdd (l : Z) (a : IPNet) (e : Errno) (v : kview) : kview :=
  match e with E_OK | EEXIST => with_addrs (v_addrs v ∪ {[(l, a)]}) v | _ => v end.
Definition saw_AddrDel (l : Z) (a : IPNet) (e : Errno) (v : kview) : kview :=
  match e with E_OK | EADDRNOTAVAIL => with_addrs (v_addrs v ∖ {[(l, a)]}) v | _ => v end.
Definition saw_RouteReplace (r : KRoute) (e : Errno) (v : kview) : kview :=
  match e with E_OK => with_routes (<[kr_key r := r]> (v_routes v)) v | _ => v end.
Definition saw_RouteDel (r : KRoute) (e : Errno) (v : kview) : kview :=
  match e with E_OK | ESRCH => with_routes (delete (kr_key r) (v_routes v)) v | _ => v end.
Definition saw_RuleAdd (r : KRule) (e : Errno) (v : kview) : kview :=
  match e with E_OK | EEXIST => with_rules (v_rules v ∪ {[r]}) v | _ => v end.
Definition saw_RuleDel (r : KRule) (e : Errno) (v : kview) : kview :=
  match e with E_OK | ENOENT => with_rules (v_rules v ∖ {[r]}) v | _ => v end.
Definition saw_RuleList (o : option (list (Z * Z))) (v : kview) : kview :=
  match o with
  | Some l => with_rules (put_rule (bool_decide ((RT_TABLE_LOCAL, 0) ∈ l)) (localRule 0)
      (put_rule (bool_decide ((RT_TABLE_LOCAL, localRulePriority) ∈ l)) (localRule localRulePriority) (v_rules v))) v
  | None => v
  end.
Definition saw_ReadSysctl (n : string) (o : option string) (v : kview) : kview :=
  match o with Some c => with_sysctl (<[n := c]> (v_sysctl v)) v | None => v end.
Definition saw_WriteSysctl (n c : string) (ok : bool) (v : kview) : kview :=
  if ok then with_sysctl (<[n := c +:+ newline]> (v_sysctl v)) v else v.

(** A kernel and what it has said so far. *)
Record ledger (K : Type) := Ledger { lg_kernel : K; lg_view : kview }.
Arguments Ledger {K}.
Arguments lg_kernel {K}.
Arguments lg_view {K}.

(** A call, with what its answer says. *)
Definition noted {K A : Type} (f : K -> A * K) (saw : A -> kview -> kview) (k : ledger K) : A * ledger K :=
  let '(a, k') := f (lg_kernel k) in (a, Ledger k' (saw a (lg_view k))).

#[export] Instance ledger_kernel {K : Type} {HK : Kernel K} : Kernel (ledger K) := {
  LinkByName n := noted (LinkByName n) (fun _ v => v);
  LinkSetUp l := noted (LinkSetUp l) (fun _ v => v);
  AddrAdd l a := noted (AddrAdd l a) (saw_AddrAdd l a);
  AddrDel l a := noted (AddrDel l a) (saw_AddrDel l a);
  RouteReplace r := noted (RouteReplace r) (saw_RouteReplace r);
  RouteDel r := noted (RouteDel r) (saw_RouteDel r);
  RuleAdd r := noted (RuleAdd r) (saw_RuleAdd r);
  RuleDel r := noted (RuleDel r) (saw_RuleDel r);
  RuleList := noted RuleList saw_RuleList;
  ReadSysctl n := noted (ReadSysctl n) (saw_ReadSysctl n);
  WriteSysctl n c := noted (WriteSysctl n c) (saw_WriteSysctl n c);
}.

(** ** The ledger changes nothing *)

Section erasure.
Context {K : Type} {HK : Kernel K}.

(** [m] with a ledger does what [m'] does without. *)
Definition erases {A} (m : M (ledger K) A) (m' : M K A) : Prop :=
  forall k, m' (lg_kernel k) =
    match m k with Ok (a, k') => Ok (a, lg_kernel k') | Panic => Panic | Stuck => Stuck end.

Lemma erases_ret {A} (a : A) : erases (mret a) (mret a).
Proof. by intros k. Qed.

Lemma erases_bind {A B} (m : M (ledger K) A) m' (f : A -> M (ledger K) B) f' :
  erases m m' -> (forall a, erases (f a) (f' a)) -> erases (m ≫= f) (m' ≫= f').
Proof.
  intros Hm Hf k. unfold mbind, M_bind. rewrite Hm. destruct (m k) as [[a k']| |]; [|done..]. cbn. apply Hf.
Qed.

Lemma erases_call {A} (f : K -> A * K) saw : erases (call (noted f saw)) (call f).
Proof. intros k. unfold call, noted. by destruct (f (lg_kernel k)). Qed.

Lemma erases_check (m n : M (ledger K) (option NetconfErr)) m' n' :
  erases m m' -> erases n n' -> erases (check m n) (check m' n').
Proof. intros Hm Hn. apply erases_bind; [done|]. intros [e|]; [apply erases_ret|done]. Qed.

Lemma erases_each {A} (f : A -> M (ledger K) (option NetconfErr)) f' (l : list A) :
  (forall x, erases (f x) (f' x)) -> erases (each f l) (each f' l).
Proof. intros Hf. induction l as [|x l IH]; [apply erases_ret|]. by apply erases_check. Qed.

Lemma erases_if {A} (b : bool) (m n : M (ledger K) A) m' n' :
  erases m m' -> erases n n' -> erases (if b then m else n) (if b then m' else n').
Proof. by destruct b. Qed.
End erasure.

(** ** Functions that return, with any kernel *)

Section returning.
Context {K : Type} {HK : Kernel K}.

Definition returns {A} (m : M K A) : Prop := forall k, exists a k', m k = Ok (a, k').

Lemma returns_ret {A} (a : A) : returns (mret a).
Proof. intros k. by eexists _, _. Qed.

Lemma returns_bind {A B} (m : M K A) (f : A -> M K B) : returns m -> (forall a, returns (f a)) -> returns (m ≫= f).
Proof. intros Hm Hf k. destruct (Hm k) as (a & k' & E). unfold mbind, M_bind. rewrite E. apply Hf. Qed.

Lemma returns_call {A} (f : K -> A * K) : returns (call f).
Proof. intros k. unfold call. destruct (f k) as [a k']. by exists a, k'. Qed.

Lemma returns_check (m n : M K (option NetconfErr)) : returns m -> returns n -> returns (check m n).
Proof. intros Hm Hn. apply returns_bind; [done|]. intros [e|]; [apply returns_ret|done]. Qed.

Lemma returns_each {A} (f : A -> M K (option NetconfErr)) (l : list A) : (forall x, returns (f x)) -> returns (each f l).
Proof. intros Hf. induction l as [|x l IH]; [apply returns_ret|]. by apply returns_check. Qed.
End returning.




(** A function made of calls, loops and cases returns. *)
Ltac returning :=
  repeat first
    [ apply returns_ret | apply returns_call | apply returns_check | apply returns_each; intros
    | apply returns_bind; [|intros] | progress cbv zeta | case_match ].

Create HintDb erasing.
#[export] Hint Resolve erases_ret erases_bind erases_call erases_check erases_each erases_if : erasing.

(** ** Functions that report no error *)

Section ewp.
Context {K : Type} {HK : Kernel K}.
Local Abbreviation kernel_view := (@lg_view K).
Local Abbreviation MK := (M (ledger K)).

Definition ewp (m : MK (option NetconfErr)) (Q : kview -> Prop) (k : ledger K) : Prop :=
  wp m (fun e k' => e = None -> Q (kernel_view k')) k.

(** A specification of a function by the view before. *)
Definition spec (m : MK (option NetconfErr)) (R : kview -> kview -> Prop) : Prop :=
  forall k, ewp m (R (kernel_view k)) k.

Lemma spec_check m m' R R' :
  spec m R -> spec m' R' -> spec (check m m') (fun v v' => exists u, R v u /\ R' u v').
Proof.
  intros H H' k. unfold ewp, check. apply wp_bind. eapply wp_mono; [apply H|]. cbv beta.
  intros [e|] k1 HR; [by apply wp_ret|]. eapply wp_mono; [apply H'|]. cbv beta. intros e k2 HR' ->. eauto.
Qed.

Lemma spec_none (R : kview -> kview -> Prop) : (forall v, R v v) -> spec (mret None) R.
Proof. intros HR k. apply wp_ret. intros _. apply HR. Qed.

Lemma spec_weaken m (R R' : kview -> kview -> Prop) : spec m R -> (forall v v', R v v' -> R' v v') -> spec m R'.
Proof. intros H HR k. eapply wp_mono; [apply H|]. cbv beta. auto. Qed.

(** A loop, by an invariant on what has been done. *)
Lemma spec_each {A} (f : A -> MK (option NetconfErr)) (l : list A) (P : kview -> list A -> kview -> Prop) :
  (forall v, P v [] v) ->
  (forall v x, x ∈ l -> spec (f x) (fun u u' => forall d, P v d u -> P v (d ++ [x]) u')) ->
  spec (each f l) (fun v v' => P v l v').
Proof.
  intros H0 Hf k. assert (H : forall rest d k1, (forall x, x ∈ rest -> x ∈ l) -> P (kernel_view k) d (kernel_view k1) ->
    ewp (each f rest) (P (kernel_view k) (d ++ rest)) k1).
  { induction rest as [|x rest IH]; intros d k1 Hin HP; cbn [each].
    - rewrite app_nil_r. by apply wp_ret.
    - unfold ewp, check. apply wp_bind. eapply wp_mono; [apply (Hf (kernel_view k) x); apply Hin; left|]. cbv beta.
      intros [e|] k2 HP'; [by apply wp_ret|].
      replace (d ++ x :: rest) with ((d ++ [x]) ++ rest) by by rewrite <- app_assoc.
      apply IH; [intros y Hy; apply Hin; by right|]. by apply HP'. }
  apply (H l [] k); [done|apply H0].
Qed.

(** A single call. *)
Lemma spec_call (f : K -> Errno * K) saw codes err (R : kview -> kview -> Prop) :
  (forall e v, e = E_OK \/ e ∈ codes -> R v (saw e v)) ->
  spec (e ← call (noted f saw); mret (unless codes err e)) R.
Proof.
  intros Hf k. unfold ewp. apply wp_bind. unfold wp at 1, call, noted. destruct (f (lg_kernel k)) as [e k'].
  cbv beta iota. apply wp_ret. unfold unless. destruct (bool_decide (e = E_OK)) eqn:E1; [intros _; apply bool_decide_eq_true in E1; apply Hf; auto|].
  destruct (bool_decide (e ∈ codes)) eqn:E2; [intros _; apply bool_decide_eq_true in E2; apply Hf; auto|done].
Qed.

(** Tolerated codes: the one in a singleton list. *)
Ltac one_code := intros e v [->|He]; [done|apply list_elem_of_singleton in He as ->; done].

Lemma addRoute_spec link r table :
  spec (addRoute link r table) (fun v v' =>
    let kr := kernelRoute link r table in v' = with_routes (<[kr_key kr := kr]> (v_routes v)) v).
Proof.
  apply (spec_call (RouteReplace _) (saw_RouteReplace (kernelRoute link r table))).
  intros e v [->|He%elem_of_nil]; done.
Qed.

Lemma delRoute_spec link r table :
  spec (delRoute link r table) (fun v v' =>
    v' = with_routes (delete (kr_key (kernelRoute link r table)) (v_routes v)) v).
Proof. apply (spec_call (RouteDel _) (saw_RouteDel (kernelRoute link r table))). one_code. Qed.

Lemma AddrAdd_spec link p :
  spec (e ← call (AddrAdd link (prefixToIPNet p)); mret (unless [EEXIST] (AddAddress p) e))
    (fun v v' => v' = with_addrs (v_addrs v ∪ {[(link, prefixToIPNet p)]}) v).
Proof. apply (spec_call (AddrAdd _ _) (saw_AddrAdd link (prefixToIPNet p))). one_code. Qed.

Lemma AddrDel_spec link p :
  spec (e ← call (AddrDel link (prefixToIPNet p)); mret (unless [EADDRNOTAVAIL] (RemoveAddress p) e))
    (fun v v' => v' = with_addrs (v_addrs v ∖ {[(link, prefixToIPNet p)]}) v).
Proof. apply (spec_call (AddrDel _ _) (saw_AddrDel link (prefixToIPNet p))). one_code. Qed.

Lemma RuleAdd_spec r err :
  spec (e ← call (RuleAdd r); mret (unless [EEXIST] err e)) (fun v v' => v' = with_rules (v_rules v ∪ {[r]}) v).
Proof. apply (spec_call (RuleAdd _) (saw_RuleAdd r)). one_code. Qed.

Lemma RuleDel_spec r err :
  spec (e ← call (RuleDel r); mret (unless [ENOENT] err e)) (fun v v' => v' = with_rules (v_rules v ∖ {[r]}) v).
Proof. apply (spec_call (RuleDel _) (saw_RuleDel r)). one_code. Qed.

(** ** The loops *)

Lemma AddrAdds_spec link ps :
  spec (each (fun p => e ← call (AddrAdd link (prefixToIPNet p)); mret (unless [EEXIST] (AddAddress p) e)) ps)
    (fun v v' => v' = with_addrs (v_addrs v ∪ list_to_set ((fun p => (link, prefixToIPNet p)) <$> ps)) v).
Proof.
  apply (spec_each _ ps (fun v d v' => v' = with_addrs (v_addrs v ∪ list_to_set ((fun p => (link, prefixToIPNet p)) <$> d)) v)).
  - intros []. unfold with_addrs. cbn. f_equal. set_solver.
  - intros v p _. eapply spec_weaken; [apply AddrAdd_spec|]. intros u u' -> d ->. destruct v.
    unfold with_addrs. cbn. f_equal. rewrite fmap_app, list_to_set_app_L. cbn. set_solver.
Qed.

Lemma AddrDels_spec link ps :
  spec (each (fun p => e ← call (AddrDel link (prefixToIPNet p)); mret (unless [EADDRNOTAVAIL] (RemoveAddress p) e)) ps)
    (fun v v' => v' = with_addrs (v_addrs v ∖ list_to_set ((fun p => (link, prefixToIPNet p)) <$> ps)) v).
Proof.
  apply (spec_each _ ps (fun v d v' => v' = with_addrs (v_addrs v ∖ list_to_set ((fun p => (link, prefixToIPNet p)) <$> d)) v)).
  - intros []. unfold with_addrs. cbn. f_equal. set_solver.
  - intros v p _. eapply spec_weaken; [apply AddrDel_spec|]. intros u u' -> d ->. destruct v.
    unfold with_addrs. cbn. f_equal. rewrite fmap_app, list_to_set_app_L. cbn. set_solver.
Qed.

Definition put_routes (rs : list KRoute) (m : gmap RouteKey KRoute) : gmap RouteKey KRoute :=
  foldl (fun m r => <[kr_key r := r]> m) m rs.

Lemma put_routes_out rs m key : key ∉ kr_key <$> rs -> put_routes rs m !! key = m !! key.
Proof.
  revert m. induction rs as [|r rs IH]; intros m Hk; [done|]. rewrite fmap_cons, not_elem_of_cons in Hk.
  change (put_routes (r :: rs) m) with (put_routes rs (<[kr_key r := r]> m)). rewrite IH by apply Hk. apply lookup_insert_ne. intros E. by apply (proj1 Hk).
Qed.

Lemma put_routes_in rs m r : NoDup (kr_key <$> rs) -> r ∈ rs -> put_routes rs m !! kr_key r = Some r.
Proof.
  revert m. induction rs as [|x rs IH]; intros m Hnd Hr; [by apply elem_of_nil in Hr|].
  rewrite fmap_cons, NoDup_cons in Hnd. destruct Hnd as [Hx Hnd].
  change (put_routes (x :: rs) m) with (put_routes rs (<[kr_key x := x]> m)). apply elem_of_cons in Hr as [->|Hr]; [|by apply IH]. rewrite put_routes_out by done. apply lookup_insert_eq.
Qed.

Lemma addRoutes_spec link rs :
  spec (each (fun r => addRoute link r 0) rs)
    (fun v v' => v' = with_routes (put_routes ((fun r => kernelRoute link r 0) <$> rs) (v_routes v)) v).
Proof.
  apply (spec_each _ rs (fun v d v' => v' = with_routes (put_routes ((fun r => kernelRoute link r 0) <$> d) (v_routes v)) v)).
  - by intros [].
  - intros v r _. eapply spec_weaken; [apply addRoute_spec|]. intros u u' -> d ->.
    unfold put_routes. rewrite fmap_app, foldl_app. by destruct v.
Qed.

Definition del_routes (rs : list KRoute) (m : gmap RouteKey KRoute) : gmap RouteKey KRoute :=
  foldl (fun m r => delete (kr_key r) m) m rs.

Lemma lookup_del_routes rs m key :
  del_routes rs m !! key = if decide (key ∈ kr_key <$> rs) then None else m !! key.
Proof.
  revert m. induction rs as [|r rs IH]; intros m; [done|].
  change (del_routes (r :: rs) m) with (del_routes rs (delete (kr_key r) m)). rewrite IH, fmap_cons.
  destruct (decide (key = kr_key r)) as [->|Hne].
  - rewrite lookup_delete_eq, (decide_True (P := kr_key r ∈ kr_key r :: _)) by by left. by case_decide.
  - rewrite lookup_delete_ne by done. apply decide_ext. rewrite elem_of_cons. tauto.
Qed.

Lemma delRoutes_spec link rs :
  spec (each (fun r => delRoute link r 0) rs)
    (fun v v' => v' = with_routes (del_routes ((fun r => kernelRoute link r 0) <$> rs) (v_routes v)) v).
Proof.
  apply (spec_each _ rs (fun v d v' => v' = with_routes (del_routes ((fun r => kernelRoute link r 0) <$> d) (v_routes v)) v)).
  - by intros [].
  - intros v r _. eapply spec_weaken; [apply delRoute_spec|]. intros u u' -> d ->.
    unfold del_routes. rewrite fmap_app, foldl_app. by destruct v.
Qed.

Lemma RuleAdds_spec ss :
  spec (each (fun s => e ← call (RuleAdd (spec_rule s)); mret (unless [EEXIST] (AddRule s) e)) ss)
    (fun v v' => v' = with_rules (v_rules v ∪ list_to_set (spec_rule <$> ss)) v).
Proof.
  apply (spec_each _ ss (fun v d v' => v' = with_rules (v_rules v ∪ list_to_set (spec_rule <$> d)) v)).
  - intros []. unfold with_rules. cbn. f_equal. set_solver.
  - intros v s _. eapply spec_weaken; [apply RuleAdd_spec|]. intros u u' -> d ->. destruct v.
    unfold with_rules. cbn. f_equal. rewrite fmap_app, list_to_set_app_L. cbn. set_solver.
Qed.

Lemma removeStaleRules_spec prev next :
  spec (removeStaleRules prev next) (fun v v' =>
    v' = with_rules (v_rules v ∖ list_to_set (spec_rule <$> filter (fun s => s ∉ ruleSpecs next) (ruleSpecs prev))) v).
Proof.
  unfold removeStaleRules.
  apply (spec_each _ (ruleSpecs prev) (fun v d v' =>
    v' = with_rules (v_rules v ∖ list_to_set (spec_rule <$> filter (fun s => s ∉ ruleSpecs next) d)) v)).
  - intros []. unfold with_rules. cbn. f_equal. set_solver.
  - intros v s _. case_bool_decide as Es.
    + apply spec_none. intros u d ->. rewrite filter_app, filter_cons_False by auto. by rewrite filter_nil, app_nil_r.
    + eapply spec_weaken; [apply RuleDel_spec|]. intros u u' -> d ->. destruct v.
      unfold with_rules. cbn. f_equal. rewrite filter_app, filter_cons_True, filter_nil by done.
      rewrite fmap_app, list_to_set_app_L. cbn. set_solver.
Qed.
End ewp.
