(* ===== verification/NetconfProps.v ===== *)
(** * Configuring the kernel: what [Apply] and [Update] guarantee

    All of it in terms of what the kernel acknowledged ([NetconfFacts.ledger]).
    [applied] says what [Apply] leaves; [Update] from one set of options to another
    leaves what the second asks for, nothing of what only the first asked for, and
    everything else alone. *)

From stdpp Require Import base tactics list numbers option strings gmap sets.
From Stdlib Require Import ZArith Lia.
From S2P Require Import Prelude Netip Text Netconf NetconfFacts.

Open Scope Z_scope.

(** ** What options ask for *)

Definition shared_route (s : Shared) : Route := mkRoute (PrefixFrom (sh_Addr s) 128) 0 0 0.

Definition wanted_addrs (link : Z) (o : Options) : list (Z * IPNet) :=
  (fun p => (link, prefixToIPNet p)) <$> no_Addresses o.
Definition main_routes (link : Z) (o : Options) : list KRoute :=
  (fun r => kernelRoute link r 0) <$> (no_Routes4 o ++ no_Routes6 o).
Definition shared_routes (link : Z) (s : option Shared) : list KRoute :=
  match s with Some s => [kernelRoute link (shared_route s) (sh_Table s)] | None => [] end.
Definition wanted_routes (link : Z) (o : Options) : list KRoute :=
  main_routes link o ++ shared_routes link (no_Shared o).
Definition wanted_rules (o : Options) : list KRule := spec_rule <$> ruleSpecs (no_Shared o).

(** The local table is consulted after the rules of the program. *)
Definition local_demoted (v : kview) : Prop :=
  localRule localRulePriority ∈ v_rules v /\ localRule 0 ∉ v_rules v.

Definition sysctl_on (name : string) (v : kview) : Prop :=
  exists c, v_sysctl v !! name = Some c /\ same_but_last c "1" = true.

(** [v'] is [v] with everything the options ask for. *)
Record applied (link : Z) (o : Options) (v v' : kview) : Prop := {
  ap_addrs : v_addrs v' = v_addrs v ∪ list_to_set (wanted_addrs link o);
  ap_routes : v_routes v' = put_routes (wanted_routes link o) (v_routes v);
  ap_rules : forall r, ku_Priority r = sharedRulePriority ->
    r ∈ v_rules v' <-> r ∈ v_rules v \/ r ∈ wanted_rules o;
  ap_local : is_Some (no_Shared o) -> local_demoted v';
  ap_fwd4 : no_Forward4 o = true -> sysctl_on ip_forward v';
  ap_fwd6 : no_Forward6 o = true -> sysctl_on ip6_forwarding v';
  ap_sysctl : forall n, sysctl_on n v -> sysctl_on n v';
}.

Lemma spec_rule_priority s : ku_Priority (spec_rule s) = sharedRulePriority.
Proof. done. Qed.

(** The interface is always found under the same index. *)
Definition link_named {K : Type} `{Kernel K} (name : string) (link : Z) : Prop :=
  forall k l k', LinkByName name k = (Some l, k') -> l = link.

Section apply.
Context {K : Type} {HK : Kernel K}.
Implicit Types k : ledger K.
Local Abbreviation kernel_view := (@lg_view K).

(** Only the rules of the local table change. *)
Definition rules_demoted (v v' : kview) : Prop :=
  exists x, v' = with_rules x v /\ local_demoted v' /\
    forall r, ku_Priority r = sharedRulePriority -> r ∈ x <-> r ∈ v_rules v.

Lemma existsb_local (l : list (Z * Z)) p :
  existsb (fun r : Z * Z => r.2 =? p) (filter (fun r : Z * Z => r.1 = RT_TABLE_LOCAL) l) = true <->
  (RT_TABLE_LOCAL, p) ∈ l.
Proof.
  rewrite existsb_exists. split.
  - intros ([t q] & Hin%list_elem_of_In & E). apply list_elem_of_filter in Hin as [Ht Hin].
    apply Z.eqb_eq in E. cbn in *. by subst.
  - intros Hin. exists (RT_TABLE_LOCAL, p). split; [|apply Z.eqb_refl].
    apply list_elem_of_In, list_elem_of_filter. by split.
Qed.

(** The two calls of [demoteLocalRule], each made only when its flag says so. *)
Lemma when_spec (b : bool) (m : M (ledger K) (option NetconfErr)) (R : kview -> kview -> Prop) :
  (b = true -> spec m R) -> (b = false -> forall v, R v v) -> spec (if b then m else mret None) R.
Proof. destruct b; intros H1 H2; [by apply H1|]. apply spec_none. by apply H2. Qed.

(** What a listing says of one rule. *)
Lemma put_rule_in b r x : r ∈ put_rule b r x <-> b = true.
Proof. unfold put_rule. destruct b; [set_solver|]. split; [set_solver|done]. Qed.
Lemma put_rule_ne b r r' x : r' <> r -> r' ∈ put_rule b r x <-> r' ∈ x.
Proof. unfold put_rule. destruct b; set_solver. Qed.

Lemma demoteLocalRule_spec : spec (K := K) demoteLocalRule rules_demoted.
Proof.
  intros k. unfold ewp, demoteLocalRule. apply wp_bind. unfold wp at 1, call. cbn [RuleList ledger_kernel].
  unfold noted. destruct (RuleList (lg_kernel k)) as [[l|] k1]; cbv beta iota; [|by apply wp_ret].
  cbv zeta.
  set (loc := filter (fun r : Z * Z => r.1 = RT_TABLE_LOCAL) l).
  set (atZero := existsb (fun r : Z * Z => r.2 =? 0) loc).
  set (demoted := existsb (fun r : Z * Z => r.2 =? localRulePriority) loc).
  assert (H2 : demoted = true <-> (RT_TABLE_LOCAL, localRulePriority) ∈ l) by apply existsb_local.
  assert (H0 : atZero = true <-> (RT_TABLE_LOCAL, 0) ∈ l) by apply existsb_local.
  clearbody atZero demoted. cbn [saw_RuleList].
  assert (bool_decide ((RT_TABLE_LOCAL, 0) ∈ l) = atZero) as -> by (apply eq_true_iff_eq; by rewrite bool_decide_eq_true, H0).
  assert (bool_decide ((RT_TABLE_LOCAL, localRulePriority) ∈ l) = demoted) as -> by (apply eq_true_iff_eq; by rewrite bool_decide_eq_true, H2).
  set (x0 := put_rule demoted _ _). set (x := put_rule atZero _ _).
  assert (Hx2 : localRule localRulePriority ∈ x <-> demoted = true)
    by (unfold x; rewrite put_rule_ne by done; apply put_rule_in).
  assert (Hx0 : localRule 0 ∈ x <-> atZero = true) by apply put_rule_in.
  assert (Hxr : forall r, ku_Priority r = sharedRulePriority -> r ∈ x <-> r ∈ v_rules (kernel_view k))
    by (intros r Hr; unfold x, x0; rewrite !put_rule_ne by (intros ->; discriminate Hr); done).
  clearbody x. clear x0 H0 H2.
  pose proof (spec_check (K := K)
    (if negb demoted then e ← call (RuleAdd (localRule localRulePriority)); mret (unless [EEXIST] AddLocalRule e) else mret None)
    (if atZero then e ← call (RuleDel (localRule 0)); mret (unless [ENOENT] RemoveLocalRule e) else mret None)
    (fun v u => u = with_rules (if demoted then v_rules v else v_rules v ∪ {[localRule localRulePriority]}) v)
    (fun u v' => v' = with_rules (if atZero then v_rules u ∖ {[localRule 0]} else v_rules u) u)) as HS.
  eapply wp_mono; [apply HS|].
  - destruct demoted; cbn [negb]; [apply spec_none; intros []; reflexivity|apply RuleAdd_spec].
  - destruct atZero; [apply RuleDel_spec|apply spec_none; intros []; reflexivity].
  - cbv beta. cbn [lg_view]. intros e k2 HP He. destruct (HP He) as (u & -> & Ek). rewrite Ek.
    cbn [with_rules v_rules v_addrs v_routes v_sysctl]. clear HP HS Ek.
    eexists. split; [reflexivity|]. split; [split|]; cbn [v_rules with_rules].
    + destruct demoted; destruct atZero; try apply elem_of_difference; set_solver.
    + destruct demoted; destruct atZero; set_solver.
    + intros r Hr. assert (Hne : r <> localRule 0 /\ r <> localRule localRulePriority) by (split; intros ->; discriminate Hr).
      rewrite <- (Hxr r Hr). destruct atZero, demoted; set_solver.
Qed.

Lemma writeSysctl_spec name :
  spec (setSysctl name) (fun v v' =>
    sysctl_on name v' /\ exists x, v' = with_sysctl x v /\ forall n, n <> name -> x !! n = v_sysctl v !! n).
Proof.
  intros k. unfold ewp, setSysctl, writeSysctl. apply wp_bind. unfold wp at 1, call. cbn [ReadSysctl WriteSysctl ledger_kernel].
  unfold noted. destruct (ReadSysctl name (lg_kernel k)) as [cur k1]. cbv beta iota.
  case_if.
  - apply wp_ret. intros _. destruct cur as [c|]; [|done]. apply andb_true_iff in E as [_ E]. cbn. split.
    + exists c. cbn. by rewrite lookup_insert_eq.
    + eexists. split; [done|]. intros n Hn. cbn. by rewrite lookup_insert_ne.
  - clear E. apply wp_bind. unfold wp at 1. cbn [lg_kernel lg_view].
    destruct (WriteSysctl name "1" k1) as [[] k2]; apply wp_ret; [|done]. intros _. cbn. split.
    + exists ("1" +:+ newline). cbn. rewrite lookup_insert_eq. by split.
    + eexists. split; [by destruct cur|]. intros n Hn. cbn. rewrite lookup_insert_ne by done.
      destruct cur; [|done]. cbn. by rewrite lookup_insert_ne.
Qed.

Lemma applyShared_spec link s :
  spec (applyShared link s) (fun v v' =>
    exists x, v' = with_rules x (with_routes (put_routes (shared_routes link (Some s)) (v_routes v)) v) /\
      local_demoted v' /\
      forall r, ku_Priority r = sharedRulePriority -> r ∈ x <-> r ∈ v_rules v \/ r ∈ spec_rule <$> ruleSpecs (Some s)).
Proof.
  eapply spec_weaken.
  { apply spec_check; [apply demoteLocalRule_spec|]. apply spec_check; [apply addRoute_spec|apply RuleAdds_spec]. }
  cbv beta zeta. intros v v' (u & (x & -> & [H2 Hz] & Hx) & w & -> & ->).
  cbn [v_rules with_rules with_routes v_routes] in *.
  eexists. split; [by destruct v|]. split; [split|]; cbn [v_rules with_rules with_routes].
  - set_solver.
  - intros [?|Hin]%elem_of_union; [done|]. apply elem_of_list_to_set, list_elem_of_fmap in Hin as (s' & E & _). discriminate E.
  - intros r Hr. rewrite elem_of_union, elem_of_list_to_set. by rewrite Hx.
Qed.

Lemma sysctl_on_other n name v v' :
  sysctl_on name v' -> (exists x, v' = with_sysctl x v /\ forall n, n <> name -> x !! n = v_sysctl v !! n) ->
  sysctl_on n v -> sysctl_on n v'.
Proof.
  intros Hn (x & -> & Hx) Ho. destruct (decide (n = name)) as [->|Hne]; [done|].
  destruct Ho as (c & Hc & E). exists c. split; [|done]. cbn. by rewrite Hx.
Qed.

(** The part of [Apply] after the interface is up. *)
Lemma Apply_ok (o : Options) link :
  link_named (no_Name o) link -> spec (Apply o) (applied link o).
Proof.
  intros HL k. unfold ewp, Apply. apply wp_bind. unfold wp at 1, call. cbn [LinkByName LinkSetUp ledger_kernel].
  unfold noted. destruct (LinkByName (no_Name o) (lg_kernel k)) as [[l|] k1] eqn:El; cbv beta iota; [|by apply wp_ret].
  apply HL in El as ->. apply wp_bind. unfold wp at 1. cbn [lg_kernel lg_view].
  destruct (LinkSetUp link k1) as [[] k2]; cbv beta iota; [|by apply wp_ret]. cbn [negb].
  remember (Ledger k2 (lg_view k)) as k' eqn:Ek.
  assert (lg_view k = lg_view k') as -> by by rewrite Ek. clear Ek k k1 k2. rename k' into k.
  assert (HS : spec (match no_Shared o with Some s => applyShared link s | None => mret None end) (fun v v' =>
    exists x, v' = with_rules x (with_routes (put_routes (shared_routes link (no_Shared o)) (v_routes v)) v) /\
      (is_Some (no_Shared o) -> local_demoted v') /\
      forall r, ku_Priority r = sharedRulePriority -> r ∈ x <-> r ∈ v_rules v \/ r ∈ wanted_rules o)).
  { unfold wanted_rules. destruct (no_Shared o) as [s|].
    - eapply spec_weaken; [apply applyShared_spec|]. cbv beta. intros v v' (x & -> & Hd & Hr). eauto.
    - apply spec_none. intros v. exists (v_rules v). split; [by destruct v|]. split; [by intros [? ?]|].
      intros r _. cbn. rewrite elem_of_nil. tauto. }
  assert (HF : forall (b : bool) name, spec (if b then setSysctl name else mret None) (fun v v' =>
    (b = true -> sysctl_on name v') /\ (forall n, sysctl_on n v -> sysctl_on n v') /\ exists x, v' = with_sysctl x v)).
  { intros b name. apply when_spec; [|intros -> v; split_and!; [done|done|exists (v_sysctl v); by destruct v]].
    intros _. eapply spec_weaken; [apply writeSysctl_spec|]. cbv beta. intros v v' [Hon Hx].
    split_and!; [done| |destruct Hx as (x & -> & _); eauto]. intros n. by apply sysctl_on_other with name. }
  eapply wp_mono; [apply spec_check; [apply AddrAdds_spec|]; apply spec_check; [apply addRoutes_spec|];
    apply spec_check; [apply HS|]; apply spec_check; [apply HF|]; apply spec_check; [apply HF|];
    apply (spec_none (fun v v' => v' = v)); done|].
  cbv beta. intros e k' HP He. destruct (HP He) as (u1 & -> & u2 & -> & u3 & (x & -> & Hd & Hr) & u4 & (H4 & H4o & x4 & E4) &
    u5 & (H6 & H6o & x5 & E5) & ->). rewrite E5, E4. clear HP HS HF.
  assert (Hrt : put_routes (shared_routes link (no_Shared o)) (put_routes (main_routes link o) (v_routes (kernel_view k)))
    = put_routes (wanted_routes link o) (v_routes (kernel_view k)))
    by (unfold put_routes, wanted_routes; by rewrite foldl_app).
  rewrite E4 in H4, H4o, H6o. rewrite E5, E4 in H6, H6o.
  constructor; cbn [with_rules with_routes with_addrs with_sysctl v_rules v_routes v_addrs v_sysctl] in *; try done.
  - intros HF. apply H6o, H4. done.
  - intros n Hn. apply H6o, H4o. exact Hn.
Qed.
End apply.

(** ** Distinct prefixes are distinct networks *)

Definition net_ok (p : Prefix) : Prop := prefix_ok p /\ 0 <= p_bits p /\ IsValid (p_addr p) = true.

Lemma mask_all w bits : 0 <= bits <= w -> mask_hi w bits (2 ^ w - 1) = 2 ^ w - 2 ^ (w - bits).
Proof.
  intros Hb. unfold mask_hi. replace (2 ^ w - 1) with (Z.ones w) by (rewrite Z.ones_equiv; lia).
  rewrite Z.shiftr_div_pow2, Z.ones_div_pow2 by lia. rewrite Z.ones_equiv, Z.shiftl_mul_pow2 by lia.
  replace (w - (w - bits)) with bits by lia. rewrite <- Z.sub_1_r, Z.mul_sub_distr_r, <- Z.pow_add_r by lia.
  replace (bits + (w - bits)) with w by lia. lia.
Qed.

Lemma CIDRMask_inj w b c :
  w = 32 \/ w = 128 -> 0 <= b <= w -> 0 <= c <= w -> CIDRMask b w = CIDRMask c w -> b = c.
Proof.
  intros Hw Hb Hc. unfold CIDRMask. rewrite !(proj2 (Z.ltb_ge _ _)) by lia. cbn [orb]. intros E.
  apply (f_equal be) in E. rewrite !be_be_bytes, !mask_all in E by lia.
  assert (Hp : 256 ^ Z.of_nat (Z.to_nat (w / 8)) = 2 ^ w) by by destruct Hw as [-> | ->]. rewrite Hp in E.
  assert (Hr : forall x, 0 <= x <= w -> 0 <= 2 ^ w - 2 ^ (w - x) < 2 ^ w).
  { intros x Hx. pose proof (Z.pow_pos_nonneg 2 (w - x)). pose proof (Z.pow_le_mono_r 2 (w - x) w). lia. }
  rewrite !Z.mod_small in E by by apply Hr.
  assert (2 ^ (w - b) = 2 ^ (w - c)) as E2 by lia. apply Z.pow_inj_r in E2; lia.
Qed.

Lemma be_bytes_inj_mod n v w : 0 <= v < 256 ^ Z.of_nat n -> 0 <= w < 256 ^ Z.of_nat n -> be_bytes n v = be_bytes n w -> v = w.
Proof. intros Hv Hw E. apply (f_equal be) in E. rewrite !be_be_bytes, !Z.mod_small in E by done. done. Qed.

Lemma prefixToIPNet_inj p q : net_ok p -> net_ok q -> prefixToIPNet p = prefixToIPNet q -> p = q.
Proof.
  intros ((Ha & Hz & Hb) & Hb0 & Hv) ((Ha' & Hz' & Hb') & Hb0' & Hv'). destruct p as [a b], q as [a' b'].
  unfold prefixToIPNet. cbn [p_addr p_bits] in *.
  destruct a as [|v|v z], a' as [|v'|v' z']; try done; cbn [BitLen addr_ok hasZone] in *.
  - intros E. pose proof (f_equal fst E) as E1. apply (f_equal snd) in E as E2. cbn [fst snd] in E1, E2.
    apply be_bytes_inj_mod in E1; [|done..]. apply CIDRMask_inj in E2; [by subst|auto|lia|lia].
  - intros E. pose proof (f_equal fst E) as E1. apply (f_equal snd) in E as E2. cbn [fst snd As16] in E1, E2. apply be_bytes_inj_mod in E1; [|done..].
    apply CIDRMask_inj in E2; [|auto|lia|lia]. apply negb_false_iff, bool_decide_eq_true in Hz, Hz'. by subst.
Qed.

(** ** Updating *)

(** What the resolved configuration guarantees of the options it gives. *)
Record options_ok (o : Options) : Prop := {
  oo_addrs : Forall net_ok (no_Addresses o);
  oo_routes4 : Forall (fun r => net_ok (rt_Prefix r) /\ Is4 (p_addr (rt_Prefix r)) = true) (no_Routes4 o);
  oo_routes6 : Forall (fun r => net_ok (rt_Prefix r) /\ Is4 (p_addr (rt_Prefix r)) = false) (no_Routes6 o);
  oo_keys : NoDup (route_key <$> no_Routes4 o ++ no_Routes6 o);
  oo_table : match no_Shared o with Some s => sh_Table s <> 0 | None => True end;
}.

(** The kernel holds what the options ask for. *)
Record in_place (link : Z) (o : Options) (v : kview) : Prop := {
  ip_addrs : forall a, a ∈ wanted_addrs link o -> a ∈ v_addrs v;
  ip_routes : forall r, r ∈ wanted_routes link o -> v_routes v !! kr_key r = Some r;
  ip_rules : forall r, r ∈ wanted_rules o -> r ∈ v_rules v;
  ip_local : is_Some (no_Shared o) -> local_demoted v;
  ip_fwd4 : no_Forward4 o = true -> sysctl_on ip_forward v;
  ip_fwd6 : no_Forward6 o = true -> sysctl_on ip6_forwarding v;
}.

Lemma main_route_in link o k :
  k ∈ main_routes link o <-> exists r, k = kernelRoute link r 0 /\ r ∈ no_Routes4 o ++ no_Routes6 o.
Proof. unfold main_routes. by rewrite list_elem_of_fmap. Qed.

Lemma main_net_ok o r : options_ok o -> r ∈ no_Routes4 o ++ no_Routes6 o -> net_ok (rt_Prefix r).
Proof.
  intros [_ R4 R6 _ _]. rewrite Forall_forall in R4, R6. intros [Hr|Hr]%elem_of_app; [by apply R4|by apply R6].
Qed.

Lemma key_inj link r r' :
  net_ok (rt_Prefix r) -> net_ok (rt_Prefix r') ->
  kr_key (kernelRoute link r 0) = kr_key (kernelRoute link r' 0) -> route_key r = route_key r'.
Proof. intros Hr Hr' [= E1 E2]. unfold route_key. f_equal; [|done]. by apply prefixToIPNet_inj. Qed.

Lemma wanted_keys_distinct link o : options_ok o -> NoDup (kr_key <$> wanted_routes link o).
Proof.
  intros O. unfold wanted_routes. rewrite fmap_app. apply NoDup_app. split_and!.
  - unfold main_routes. rewrite <- list_fmap_compose.
    pose proof (oo_keys _ O) as Hk. revert Hk.
    pose proof (fun r => main_net_ok o r O) as Hn. revert Hn. generalize (no_Routes4 o ++ no_Routes6 o).
    induction l as [|r l IH]; intros Hn Hk; [constructor|]. rewrite fmap_cons in Hk. rewrite fmap_cons.
    apply NoDup_cons in Hk as [Hr Hk]. apply NoDup_cons. split; [|apply IH; [intros x Hx; apply Hn; by right|done]].
    intros Hin. apply Hr. apply list_elem_of_fmap in Hin as (r' & E & Hr'). apply list_elem_of_fmap. exists r'. split; [|done].
    apply (key_inj link); [apply Hn; left|apply Hn; by right|done].
  - intros k Hk Hs. apply list_elem_of_fmap in Hk as (kr & -> & Hkr). apply main_route_in in Hkr as (r & -> & _).
    pose proof (oo_table _ O) as Ht. unfold shared_routes in Hs. destruct (no_Shared o) as [s|]; [|by apply elem_of_nil in Hs].
    apply list_elem_of_singleton in Hs. injection Hs as _ Et _. by apply Ht.
  - unfold shared_routes. destruct (no_Shared o); [apply NoDup_singleton|constructor].
Qed.

(** The routes [Update] adds, among those wanted. *)
Definition missing_main (prev next : Options) : list Route :=
  missingRoutes (no_Routes4 prev) (no_Routes4 next) ++ missingRoutes (no_Routes6 prev) (no_Routes6 next).
Definition stale_main (prev next : Options) : list Route :=
  staleRoutes (no_Routes4 prev) (no_Routes4 next) ++ staleRoutes (no_Routes6 prev) (no_Routes6 next).

Lemma added_sublist link prev next : wanted_routes link (added prev next) `sublist_of` wanted_routes link next.
Proof.
  unfold wanted_routes, main_routes. cbn [added no_Routes4 no_Routes6 no_Shared].
  apply sublist_app; [|done]. apply fmap_sublist. apply sublist_app; apply sublist_filter.
Qed.

Lemma stale_not_wanted link prev next r r' :
  options_ok prev -> options_ok next ->
  r ∈ stale_main prev next -> r' ∈ no_Routes4 next ++ no_Routes6 next ->
  kr_key (kernelRoute link r 0) <> kr_key (kernelRoute link r' 0).
Proof.
  intros OP ON Hr Hr' E. pose proof (main_net_ok next r' ON Hr') as Hn'.
  assert (Hp : r ∈ no_Routes4 prev ++ no_Routes6 prev).
  { unfold stale_main, staleRoutes in Hr. rewrite elem_of_app, !list_elem_of_filter in Hr. rewrite elem_of_app. tauto. }
  pose proof (main_net_ok prev r OP Hp) as Hn. apply key_inj in E; [|done..].
  assert (EP : rt_Prefix r = rt_Prefix r') by by injection E.
  destruct OP as [_ P4 P6 _ _], ON as [_ N4 N6 _ _]. rewrite Forall_forall in P4, P6, N4, N6.
  unfold stale_main, staleRoutes in Hr. rewrite elem_of_app, !list_elem_of_filter in Hr.
  apply elem_of_app in Hr'. destruct Hr as [[Hk Hr]|[Hk Hr]], Hr' as [Hr'|Hr'].
  - apply Hk. rewrite E. by apply list_elem_of_fmap_2.
  - apply P4 in Hr as [_ Hr]. apply N6 in Hr' as [_ Hr']. congruence.
  - apply P6 in Hr as [_ Hr]. apply N4 in Hr' as [_ Hr']. congruence.
  - apply Hk. rewrite E. by apply list_elem_of_fmap_2.
Qed.

(** A main route of [prev] whose key [next] does not want is deleted. *)
Lemma unwanted_stale link prev next r :
  r ∈ no_Routes4 prev ++ no_Routes6 prev -> kr_key (kernelRoute link r 0) ∉ kr_key <$> wanted_routes link next ->
  r ∈ stale_main prev next.
Proof.
  intros Hr Hk. unfold stale_main, staleRoutes. rewrite elem_of_app, !list_elem_of_filter.
  assert (H : forall l : list Route, (forall x, x ∈ l -> x ∈ no_Routes4 next ++ no_Routes6 next) -> route_key r ∉ route_key <$> l).
  { intros l Hl Hin. apply list_elem_of_fmap in Hin as (x & E & Hx). apply Hk. unfold wanted_routes.
    rewrite fmap_app. apply elem_of_app. left. apply list_elem_of_fmap. exists (kernelRoute link x 0). split.
    - unfold kr_key. cbn. injection E as -> ->. done.
    - apply main_route_in. eauto. }
  apply elem_of_app in Hr as [Hr|Hr]; [left|right]; (split; [|done]); apply H; intros x Hx; apply elem_of_app; auto.
Qed.

(** ** [Update] *)

Lemma NoDup_fmap_inj_on {A B} (f : A -> B) (l : list A) x y :
  NoDup (f <$> l) -> x ∈ l -> y ∈ l -> f x = f y -> x = y.
Proof.
  intros Hnd Hx Hy E. apply list_elem_of_lookup in Hx as [i Hi], Hy as [j Hj].
  assert (i = j) as ->; [|congruence].
  eapply (NoDup_lookup (f <$> l)); [done|rewrite list_lookup_fmap, Hi; done|rewrite list_lookup_fmap, Hj; cbn; by rewrite E].
Qed.

Section update.
Context {K : Type} {HK : Kernel K}.
Implicit Types k : ledger K.
Local Abbreviation kernel_view := (@lg_view K).

(** The route to the shared address that [Update] deletes. *)
Definition stale_shared (link : Z) (prev next : Options) : list KRoute :=
  match no_Shared prev with
  | Some p => if (match no_Shared next with Some n => sameShared p n | None => false end) then []
              else [kernelRoute link (shared_route p) (sh_Table p)]
  | None => []
  end.

Lemma sameShared_wanted link p next :
  (match no_Shared next with Some n => sameShared p n | None => false end) = true ->
  kr_key (kernelRoute link (shared_route p) (sh_Table p)) ∈ kr_key <$> wanted_routes link next.
Proof.
  intros E. unfold wanted_routes, shared_routes. rewrite fmap_app. apply elem_of_app. right.
  destruct (no_Shared next) as [n|]; [|done]. unfold sameShared in E. bool_prop.
  destruct E as [E1%bool_decide_eq_true E2]. apply list_elem_of_singleton. unfold kr_key, shared_route. cbn. by rewrite E1, E2.
Qed.

(** What [Update] has removed before it calls [Apply]. *)
Record removed (link : Z) (prev next : Options) (v u : kview) : Prop := {
  rm_sysctl : v_sysctl u = v_sysctl v;
  rm_addrs : v_addrs u = v_addrs v ∖ list_to_set ((fun p => (link, prefixToIPNet p)) <$> missingPrefixes (no_Addresses next) (no_Addresses prev));
  rm_rules : v_rules u = v_rules v ∖ list_to_set (spec_rule <$> filter (fun s => s ∉ ruleSpecs (no_Shared next)) (ruleSpecs (no_Shared prev)));
  rm_routes : v_routes u = del_routes (stale_shared link prev next)
    (del_routes ((fun r => kernelRoute link r 0) <$> stale_main prev next) (v_routes v));
}.

Lemma rm_out link prev next v u key :
  removed link prev next v u ->
  key ∉ kr_key <$> ((fun r => kernelRoute link r 0) <$> stale_main prev next) ->
  key ∉ kr_key <$> shared_routes link (no_Shared prev) -> v_routes u !! key = v_routes v !! key.
Proof.
  intros R Hm Hs. rewrite (rm_routes _ _ _ _ _ R), lookup_del_routes, decide_False, lookup_del_routes, decide_False; [done|done|].
  intros Hin. apply Hs. unfold stale_shared in Hin. destruct (no_Shared prev) as [p|]; [|by apply elem_of_nil in Hin].
  destruct (match no_Shared next with Some n => sameShared p n | None => false end); [by apply elem_of_nil in Hin|done].
Qed.

Lemma rm_main link prev next v u r :
  removed link prev next v u -> r ∈ stale_main prev next -> v_routes u !! kr_key (kernelRoute link r 0) = None.
Proof.
  intros R Hr. rewrite (rm_routes _ _ _ _ _ R), lookup_del_routes. case_decide; [done|].
  rewrite lookup_del_routes, decide_True; [done|].
  by apply list_elem_of_fmap_2, (list_elem_of_fmap_2 (fun r => kernelRoute link r 0)).
Qed.

Lemma rm_shared link prev next v u r :
  removed link prev next v u -> r ∈ shared_routes link (no_Shared prev) ->
  kr_key r ∉ kr_key <$> wanted_routes link next -> v_routes u !! kr_key r = None.
Proof.
  intros R Hr Hk. rewrite (rm_routes _ _ _ _ _ R), lookup_del_routes, decide_True; [done|].
  apply list_elem_of_fmap_2. unfold shared_routes, stale_shared in *. destruct (no_Shared prev) as [p|]; [|done].
  destruct (match no_Shared next with Some n => sameShared p n | None => false end) eqn:E; [|done].
  apply list_elem_of_singleton in Hr as ->. exfalso. by apply Hk, sameShared_wanted.
Qed.

Lemma shared_gone_spec link prev next :
  spec (K := K) (match no_Shared prev with
        | Some p => if (match no_Shared next with Some n => sameShared p n | None => false end) then mret None
                    else delRoute link (shared_route p) (sh_Table p)
        | None => mret None
        end) (fun v u => u = with_routes (del_routes (stale_shared link prev next) (v_routes v)) v).
Proof.
  unfold stale_shared. destruct (no_Shared prev) as [p|]; [|apply spec_none; by intros []].
  destruct (match no_Shared next with Some n => sameShared p n | None => false end); [apply spec_none; by intros []|].
  apply delRoute_spec.
Qed.

Lemma Update_removes (prev next : Options) link k :
  link_named (no_Name next) link ->
  ewp (Update prev next) (fun v' => exists u,
    removed link prev next (kernel_view k) u /\ applied link (added prev next) u v') k.
Proof.
  intros HL. unfold ewp, Update. apply wp_bind. unfold wp at 1, call. cbn [LinkByName ledger_kernel].
  unfold noted. destruct (LinkByName (no_Name next) (lg_kernel k)) as [[l|] k1] eqn:El; cbv beta iota; [|by apply wp_ret].
  apply HL in El as ->. remember (Ledger k1 (lg_view k)) as k' eqn:Ek.
  assert (lg_view k = lg_view k') as -> by by rewrite Ek. clear Ek k k1. rename k' into k.
  eapply wp_mono; [apply spec_check; [apply delRoutes_spec|]; apply spec_check; [apply AddrDels_spec|];
    apply spec_check; [apply removeStaleRules_spec|]; apply spec_check; [apply (shared_gone_spec link prev next)|];
    by apply Apply_ok|].
  cbv beta. intros e k' HP He.
  destruct (HP He) as (u1 & -> & u2 & -> & u3 & -> & u4 & -> & HA).
  eexists. split; [|exact HA]. by constructor.
Qed.

(** Membership in the image of a list that a hypothesis puts an element in. *)
Ltac in_map := apply list_elem_of_fmap; eexists; split; [reflexivity|eassumption].

(** The parts of the next theorem, on what the kernel held at three points. *)
Section views.
Context (link : Z) (prev next : Options) (v u v' : kview).
Hypothesis OP : options_ok prev.
Hypothesis ON : options_ok next.
Hypothesis I : in_place link prev v.
Hypothesis R : removed link prev next v u.
Hypothesis A : applied link (added prev next) u v'.

Lemma missing_addr a p :
  p ∈ no_Addresses prev -> a = (link, prefixToIPNet p) ->
  a ∈ (fun p => (link, prefixToIPNet p)) <$> missingPrefixes (no_Addresses next) (no_Addresses prev) <-> p ∉ no_Addresses next.
Proof.
  intros Hp ->. rewrite list_elem_of_fmap. unfold missingPrefixes. split.
  - intros (q & [= E] & Hq) Hn. apply list_elem_of_filter in Hq as [Hqn Hq].
    pose proof (oo_addrs _ OP) as HF. rewrite Forall_forall in HF.
    apply prefixToIPNet_inj in E; [by subst|by apply HF..].
  - intros Hn. exists p. split; [done|]. by apply list_elem_of_filter.
Qed.

Lemma updated_addrs a : a ∉ wanted_addrs link next -> a ∈ v_addrs v' <-> a ∈ v_addrs v /\ a ∉ wanted_addrs link prev.
Proof.
  intros Hn. rewrite (ap_addrs _ _ _ _ A), (rm_addrs _ _ _ _ _ R), elem_of_union, elem_of_difference, !elem_of_list_to_set.
  assert (Hadd : a ∉ wanted_addrs link (added prev next)).
  { intros Hin. apply Hn. unfold wanted_addrs in *. cbn [added no_Addresses] in Hin.
    apply list_elem_of_fmap in Hin as (p & -> & Hp). apply list_elem_of_filter in Hp as [_ Hp]. in_map. }
  split.
  - intros [[Hv Hm]|?]; [|done]. split; [done|]. intros Hp. unfold wanted_addrs in Hp.
    apply list_elem_of_fmap in Hp as (p & E & Hp). apply Hm. apply (missing_addr a p Hp E). intros Hpn. apply Hn.
    rewrite E. in_map.
  - intros [Hv Hp]. left. split; [done|]. intros Hm. apply Hp. apply list_elem_of_fmap in Hm as (p & -> & Hm).
    apply list_elem_of_filter in Hm as [_ Hm]. in_map.
Qed.

Lemma updated_rules r : ku_Priority r = sharedRulePriority -> r ∉ wanted_rules next ->
  r ∈ v_rules v' <-> r ∈ v_rules v /\ r ∉ wanted_rules prev.
Proof.
  intros Hp Hn. rewrite (ap_rules _ _ _ _ A r Hp), (rm_rules _ _ _ _ _ R), elem_of_difference, elem_of_list_to_set.
  assert (Hs : r ∈ spec_rule <$> filter (fun s => s ∉ ruleSpecs (no_Shared next)) (ruleSpecs (no_Shared prev)) <-> r ∈ wanted_rules prev).
  { unfold wanted_rules in *. rewrite !list_elem_of_fmap. split; intros (s & E & Hs); exists s; (split; [done|]).
    - by apply list_elem_of_filter in Hs as [_ Hs].
    - apply list_elem_of_filter. split; [|done]. intros Hin. apply Hn. rewrite E. in_map. }
  rewrite Hs. unfold wanted_rules at 2. cbn [added no_Shared]. change (spec_rule <$> ruleSpecs (no_Shared next)) with (wanted_rules next).
  tauto.
Qed.

Lemma added_key_wanted key : key ∈ kr_key <$> wanted_routes link (added prev next) -> key ∈ kr_key <$> wanted_routes link next.
Proof. intros Hk. eapply elem_of_sublist; [exact Hk|]. apply fmap_sublist, added_sublist. Qed.

Lemma updated_routes key : key ∉ kr_key <$> wanted_routes link next ->
  v_routes v' !! key = if decide (key ∈ kr_key <$> wanted_routes link prev) then None else v_routes v !! key.
Proof.
  intros Hn. rewrite (ap_routes _ _ _ _ A), put_routes_out by (intros Hin; by apply Hn, added_key_wanted).
  destruct (decide _) as [Hp|Hp].
  - unfold wanted_routes in Hp. rewrite fmap_app in Hp. apply elem_of_app in Hp as [Hp|Hp].
    + apply list_elem_of_fmap in Hp as (kr & -> & Hkr). apply main_route_in in Hkr as (r & -> & Hr).
      by apply (rm_main _ _ _ _ _ _ R), (unwanted_stale link).
    + apply list_elem_of_fmap in Hp as (kr & -> & Hkr). by apply (rm_shared _ _ _ _ _ _ R).
  - unfold wanted_routes in Hp. rewrite fmap_app, not_elem_of_app in Hp. destruct Hp as [Hm Hs].
    apply (rm_out _ _ _ _ _ _ R); [|done]. intros Hin. apply Hm. apply list_elem_of_fmap in Hin as (x & -> & Hx).
    apply list_elem_of_fmap in Hx as (y & -> & Hy).
    apply list_elem_of_fmap; eexists; split; [reflexivity|]. apply main_route_in. exists y. split; [done|].
    unfold stale_main, staleRoutes in Hy. rewrite elem_of_app, !list_elem_of_filter in Hy. rewrite elem_of_app. tauto.
Qed.

(** A route that both options ask for is kept. *)
Lemma kept_route r :
  r ∈ no_Routes4 next ++ no_Routes6 next -> r ∈ no_Routes4 prev ++ no_Routes6 prev ->
  v_routes u !! kr_key (kernelRoute link r 0) = Some (kernelRoute link r 0).
Proof.
  intros Hn Hp. rewrite (rm_out _ _ _ _ _ _ R).
  - apply (ip_routes _ _ _ I), elem_of_app. left. apply main_route_in. eauto.
  - intros Hin. apply list_elem_of_fmap in Hin as (x & E & Hx). apply list_elem_of_fmap in Hx as (y & -> & Hy).
    by apply (stale_not_wanted link prev next y r).
  - intros Hin. apply list_elem_of_fmap in Hin as (x & E & Hx). pose proof (oo_table _ OP) as Ht.
    unfold shared_routes in Hx. destruct (no_Shared prev) as [s|]; [|by apply elem_of_nil in Hx].
    apply list_elem_of_singleton in Hx as ->. injection E as _ Et _. by apply Ht.
Qed.

Lemma updated_wanted_route r : r ∈ wanted_routes link next -> v_routes v' !! kr_key r = Some r.
Proof.
  intros Hr. rewrite (ap_routes _ _ _ _ A).
  assert (Hnd : NoDup (kr_key <$> wanted_routes link (added prev next))).
  { eapply sublist_NoDup; [apply (wanted_keys_distinct link next ON)|]. apply fmap_sublist, added_sublist. }
  destruct (decide (r ∈ wanted_routes link (added prev next))) as [Ha|Ha]; [by apply put_routes_in|].
  assert (Hm : exists x, r = kernelRoute link x 0 /\ x ∈ no_Routes4 next ++ no_Routes6 next /\ x ∈ no_Routes4 prev ++ no_Routes6 prev).
  { unfold wanted_routes in Hr, Ha. rewrite not_elem_of_app in Ha. destruct Ha as [Ha Hs].
    apply elem_of_app in Hr as [Hr|Hr]; [|by destruct Hs]. apply main_route_in in Hr as (x & -> & Hx).
    exists x. split; [done|]. split; [done|]. destruct (decide (x ∈ no_Routes4 prev ++ no_Routes6 prev)) as [|Hnp]; [done|].
    exfalso. apply Ha, main_route_in. exists x. split; [done|]. cbn [added no_Routes4 no_Routes6]. unfold missingRoutes.
    rewrite elem_of_app, !list_elem_of_filter. rewrite not_elem_of_app in Hnp. apply elem_of_app in Hx. tauto. }
  destruct Hm as (x & -> & Hxn & Hxp). rewrite put_routes_out; [by apply kept_route|].
  intros Hin. apply list_elem_of_fmap in Hin as (y & E & Hy). apply Ha.
  assert (y ∈ wanted_routes link next) by (eapply elem_of_sublist; [exact Hy|apply added_sublist]).
  assert (y = kernelRoute link x 0) as <-; [|done]. eapply NoDup_fmap_inj_on; [apply (wanted_keys_distinct link next ON)|done|done|done].
Qed.

Lemma updated_in_place : in_place link next v'.
Proof.
  constructor.
  - intros a Ha. rewrite (ap_addrs _ _ _ _ A), (rm_addrs _ _ _ _ _ R), elem_of_union, elem_of_difference, !elem_of_list_to_set.
    unfold wanted_addrs in *. apply list_elem_of_fmap in Ha as (p & -> & Hp). cbn [added no_Addresses].
    destruct (decide (p ∈ no_Addresses prev)) as [Hpp|Hpp].
    + left. split; [apply (ip_addrs _ _ _ I); in_map|]. rewrite (missing_addr _ p Hpp eq_refl). auto.
    + right. apply list_elem_of_fmap; eexists; split; [reflexivity|]. by apply list_elem_of_filter.
  - apply updated_wanted_route.
  - intros r Hr. apply (ap_rules _ _ _ _ A); [|by right].
    unfold wanted_rules in Hr. by apply list_elem_of_fmap in Hr as (s & -> & _).
  - apply (ap_local _ _ _ _ A).
  - intros Hf. destruct (no_Forward4 prev) eqn:Ep.
    + apply (ap_sysctl _ _ _ _ A). destruct (ip_fwd4 _ _ _ I Ep) as (c & Hc & E). exists c. by rewrite (rm_sysctl _ _ _ _ _ R).
    + apply (ap_fwd4 _ _ _ _ A). cbn. by rewrite Hf, Ep.
  - intros Hf. destruct (no_Forward6 prev) eqn:Ep.
    + apply (ap_sysctl _ _ _ _ A). destruct (ip_fwd6 _ _ _ I Ep) as (c & Hc & E). exists c. by rewrite (rm_sysctl _ _ _ _ _ R).
    + apply (ap_fwd6 _ _ _ _ A). cbn. by rewrite Hf, Ep.
Qed.
End views.

(** A kernel that options were applied to holds what they ask for. *)
Lemma applied_in_place link o v v' : options_ok o -> applied link o v v' -> in_place link o v'.
Proof.
  intros O A. constructor.
  - intros a Ha. rewrite (ap_addrs _ _ _ _ A), elem_of_union, elem_of_list_to_set. by right.
  - intros r Hr. rewrite (ap_routes _ _ _ _ A). apply put_routes_in; [by apply wanted_keys_distinct|done].
  - intros r Hr. apply (ap_rules _ _ _ _ A); [|by right]. unfold wanted_rules in Hr. by apply list_elem_of_fmap in Hr as (s & -> & _).
  - apply A.
  - apply A.
  - apply A.
Qed.

(** What [Update] makes of a ledger that held the previous options. *)
Lemma Update_moves prev next link k :
  options_ok prev -> options_ok next -> link_named (no_Name next) link ->
  in_place link prev (kernel_view k) ->
  wp (Update prev next) (fun e k' => e = None ->
    let v := kernel_view k in let v' := kernel_view k' in
    in_place link next v' /\
    (forall a, a ∉ wanted_addrs link next -> a ∈ v_addrs v' <-> a ∈ v_addrs v /\ a ∉ wanted_addrs link prev) /\
    (forall key, key ∉ kr_key <$> wanted_routes link next ->
       v_routes v' !! key = if decide (key ∈ kr_key <$> wanted_routes link prev) then None else v_routes v !! key) /\
    (forall r, ku_Priority r = sharedRulePriority -> r ∉ wanted_rules next ->
       r ∈ v_rules v' <-> r ∈ v_rules v /\ r ∉ wanted_rules prev)) k.
Proof.
  intros OP ON HL I. eapply wp_mono; [by apply Update_removes|]. cbv beta zeta. intros e k' HP He.
  destruct (HP He) as (u & Hrm & Hap). clear HP He e.
  generalize dependent (kernel_view k'). intros v'. generalize dependent (kernel_view k). intros v. intros. clear k k'.
  split; [|split_and!].
  - by apply (updated_in_place link prev next v u v').
  - by apply (updated_addrs link prev next v u v').
  - by apply (updated_routes link prev next v u v').
  - by apply (updated_rules link prev next v u v').
Qed.
End update.

(** ** Without the ledger *)

Section erased.
Context {K : Type} {HK : Kernel K}.

(** The functions do the same with a ledger and without. *)
Lemma demoteLocalRule_erases : erases (K := K) demoteLocalRule demoteLocalRule.
Proof.
  unfold demoteLocalRule. apply erases_bind; [apply erases_call|]. intros [l|]; [|apply erases_ret].
  cbv zeta. apply erases_check; apply erases_if; try apply erases_ret;
    (apply erases_bind; [apply erases_call|intros; apply erases_ret]).
Qed.

Lemma route_call_erases link r table :
  erases (K := K) (addRoute link r table) (addRoute link r table) /\
  erases (K := K) (delRoute link r table) (delRoute link r table).
Proof. split; (apply erases_bind; [apply erases_call|intros; apply erases_ret]). Qed.

Lemma setSysctl_erases name : erases (K := K) (setSysctl name) (setSysctl name).
Proof.
  apply erases_bind; [apply erases_call|]. intros cur. apply erases_if; [apply erases_ret|].
  apply erases_bind; [apply erases_call|intros; apply erases_ret].
Qed.

Lemma applyShared_erases link s : erases (K := K) (applyShared link s) (applyShared link s).
Proof.
  apply erases_check; [apply demoteLocalRule_erases|]. apply erases_check; [apply route_call_erases|].
  apply erases_each. intros spec. apply erases_bind; [apply erases_call|intros; apply erases_ret].
Qed.

Lemma Apply_erases o : erases (K := K) (Apply o) (Apply o).
Proof.
  unfold Apply. apply erases_bind; [apply erases_call|]. intros [link|]; [|apply erases_ret].
  apply erases_bind; [apply erases_call|]. intros up. apply erases_if; [apply erases_ret|].
  apply erases_check; [apply erases_each; intros p; apply erases_bind; [apply erases_call|intros; apply erases_ret]|].
  apply erases_check; [apply erases_each; intros r; apply route_call_erases|].
  apply erases_check; [destruct (no_Shared o); [apply applyShared_erases|apply erases_ret]|].
  apply erases_check; [apply erases_if; [apply setSysctl_erases|apply erases_ret]|].
  apply erases_check; [apply erases_if; [apply setSysctl_erases|apply erases_ret]|]. apply erases_ret.
Qed.

Lemma Update_erases prev next : erases (K := K) (Update prev next) (Update prev next).
Proof.
  unfold Update. apply erases_bind; [apply erases_call|]. intros [link|]; [|apply erases_ret].
  apply erases_check; [apply erases_each; intros r; apply route_call_erases|].
  apply erases_check; [apply erases_each; intros p; apply erases_bind; [apply erases_call|intros; apply erases_ret]|].
  apply erases_check.
  { apply erases_each. intros spec. apply erases_if; [apply erases_ret|].
    apply erases_bind; [apply erases_call|intros; apply erases_ret]. }
  apply erases_check; [|apply Apply_erases].
  destruct (no_Shared prev); [apply erases_if; [apply erases_ret|apply route_call_erases]|apply erases_ret].
Qed.
End erased.

(** They return whatever the kernel answers. *)
Lemma Apply_returns {K : Type} {HK : Kernel K} (o : Options) : returns (K := K) (Apply o).
Proof. unfold Apply, applyShared, demoteLocalRule, addRoute, setSysctl, writeSysctl. returning. Qed.

Lemma Update_returns {K : Type} {HK : Kernel K} (prev next : Options) : returns (K := K) (Update prev next).
Proof.
  unfold Update, delRoute, removeStaleRules. apply returns_bind; [apply returns_call|]. intros [link|]; [|apply returns_ret].
  repeat (apply returns_check; [returning|]). apply Apply_returns.
Qed.


(** ** A kernel to try it on *)

(** One that, like Linux, takes the IPv4 routes of an interface away with its last
    IPv4 address. *)
Definition fx_flush (l : Z) (v : kview) : kview :=
  if decide (Exists (fun a : Z * IPNet => a.1 = l /\ length a.2.1 = 4%nat) (elements (v_addrs v))) then v
  else with_routes (filter (fun kr : RouteKey * KRoute => ~ (kr_Link kr.2 = l /\ length (kr_Dst kr.2).1 = 4%nat)) (v_routes v)) v.

#[export] Instance fx_kernel : Kernel kview := {
  LinkByName n v := (if bool_decide (n = "clat0"%string) then Some 7 else None, v);
  LinkSetUp _ v := (true, v);
  AddrAdd l a v := if decide ((l, a) ∈ v_addrs v) then (EEXIST, v) else (E_OK, with_addrs (v_addrs v ∪ {[(l, a)]}) v);
  AddrDel l a v :=
    if decide ((l, a) ∈ v_addrs v) then (E_OK, fx_flush l (with_addrs (v_addrs v ∖ {[(l, a)]}) v)) else (EADDRNOTAVAIL, v);
  RouteReplace r v := (E_OK, with_routes (<[kr_key r := r]> (v_routes v)) v);
  RouteDel r v :=
    if decide (v_routes v !! kr_key r = Some r) then (E_OK, with_routes (delete (kr_key r) (v_routes v)) v) else (ESRCH, v);
  RuleAdd r v := if decide (r ∈ v_rules v) then (EEXIST, v) else (E_OK, with_rules (v_rules v ∪ {[r]}) v);
  RuleDel r v := if decide (r ∈ v_rules v) then (E_OK, with_rules (v_rules v ∖ {[r]}) v) else (ENOENT, v);
  RuleList v := (Some ((fun r => (ku_Table r, ku_Priority r)) <$> elements (v_rules v)), v);
  ReadSysctl n v := (v_sysctl v !! n, v);
  WriteSysctl n c v := (true, with_sysctl (<[n := c +:+ newline]> (v_sysctl v)) v);
}.

Lemma fx_link : link_named "clat0" 7.
Proof. intros k l k' E. unfold LinkByName, fx_kernel in E. rewrite bool_decide_eq_true_2 in E by done. congruence. Qed.

Definition fx_net (v bits : Z) : Prefix := mkPrefix (Addr4 v) bits.
Definition fx_route (p : Prefix) : Route := mkRoute p 0 0 0.

(** A router with a pool route, and a CLAT that shares 2001:db8::7. *)
Definition fx_prev : Options :=
  mkOptions "clat0" [fx_net (be [192; 0; 0; 9]) 32] [fx_route (fx_net (be [10; 0; 0; 0]) 8)]
    [fx_route (mkPrefix (Addr6 (0x0064ff9b * 2 ^ 96) "") 96)] true true None.
Definition fx_next : Options :=
  mkOptions "clat0" [fx_net (be [192; 0; 0; 1]) 32] [fx_route (fx_net 0 0)] [] false true
    (Some (mkShared (Addr6 (0x20010db8 * 2 ^ 96 + 7) "") (mkPrefix (Addr6 (0x0064ff9b * 2 ^ 96) "") 96) 0xc1a7
             [mkFilter 6 32768 60999; mkFilter 58 0 0])).

Definition fx_kview0 : kview :=
  mkKview {[(1, ([127; 0; 0; 1], [255; 0; 0; 0]))]} ∅ {[localRule 0]} ∅.

(** That kernel after the first options were applied, and the ledger of it. *)
Definition fx_applied : ledger kview :=
  let k0 := Ledger fx_kview0 (mkKview ∅ ∅ ∅ ∅) in match Apply fx_prev k0 with Ok (_, k) => k | _ => k0 end.

Lemma fx_options_ok o :
  o = fx_prev \/ o = fx_next -> options_ok o.
Proof.
  intros [-> | ->]; constructor; cbn [fx_prev fx_next no_Addresses no_Routes4 no_Routes6 no_Shared app fmap list_fmap];
    try done; try lia; try (apply (bool_decide_unpack _); vm_compute; reflexivity);
    repeat constructor; vm_compute; intuition congruence.
Qed.

Lemma fx_in_place : in_place 7 fx_prev (lg_view fx_applied).
Proof.
  constructor.
  - apply Forall_forall. apply (bool_decide_unpack _). vm_compute. reflexivity.
  - apply Forall_forall. apply (bool_decide_unpack _). vm_compute. reflexivity.
  - apply Forall_forall. constructor.
  - by intros [? ?].
  - intros _. eexists. split; vm_compute; reflexivity.
  - intros _. eexists. split; vm_compute; reflexivity.
Qed.


(** What the kernel acknowledged is not all it did: the only IPv4 address changes and
    the IPv4 route stays, so [Update] does not ask for the route again, and the kernel
    that took it away with the old address is left without it. *)
Definition fx_renumbered : Options :=
  mkOptions "clat0" [fx_net (be [192; 0; 0; 1]) 32] (no_Routes4 fx_prev) (no_Routes6 fx_prev) true true None.

Theorem renumbering_loses_routes :
  match Update fx_prev fx_renumbered fx_applied with
  | Ok (None, k) => Forall (fun r => v_routes (lg_view k) !! kr_key r = Some r) (wanted_routes 7 fx_renumbered) /\
      v_routes (lg_kernel k) !! kr_key (kernelRoute 7 (fx_route (fx_net (be [10; 0; 0; 0]) 8)) 0) = None
  | _ => False
  end.
Proof. vm_compute. split; [repeat constructor|reflexivity]. Qed.
