(* ===== verification/Strings.v ===== *)
(** * More of Go's [strings] and [strconv], on ASCII text

    What [internal/config] uses of them: [ToLower], [EqualFold], [Cut], [FieldsFunc],
    [Contains] and [ParseUint], with the facts its parsers need. *)

From stdpp Require Import base tactics list numbers option strings.
From Stdlib Require Import ZArith Lia Ascii String.
From S2P Require Import Prelude Netip Text.

Open Scope Z_scope.

(** [strings.ToLower] *)
Definition lower_ascii (c : ascii) : ascii :=
  let n := nat_of_ascii c in
  if ((65 <=? n) && (n <=? 90))%nat then ascii_of_nat (n + 32) else c.
Fixpoint ToLower (s : string) : string :=
  match s with EmptyString => EmptyString | String c s => String (lower_ascii c) (ToLower s) end.

Definition EqualFold (s t : string) : bool := bool_decide (ToLower s = ToLower t).

(** [strings.Cut] at a separator of one byte. *)
Fixpoint Cut (s : string) (sep : ascii) : string * string * bool :=
  match s with
  | EmptyString => (EmptyString, EmptyString, false)
  | String c s =>
      if bool_decide (c = sep) then (EmptyString, s, true)
      else let '(before, after, found) := Cut s sep in (String c before, after, found)
  end.

(** [strings.Contains] of one byte. *)
Definition ContainsByte (s : string) (c : ascii) : bool := (Cut s c).2.

(** [strings.FieldsFunc] *)
Fixpoint fields_func (f : ascii -> bool) (word s : string) : list string :=
  match s with
  | EmptyString => flush word
  | String c s => if f c then (flush word ++ fields_func f "" s)%list else fields_func f (word +:+ String c "") s
  end.
Definition FieldsFunc (f : ascii -> bool) (s : string) : list string := fields_func f "" s.

(** [strconv.ParseUint(s, 10, bits)]; [None] is an error. *)
Definition ParseUint (s : string) (bits : Z) : option Z :=
  match list_ascii_of_string s with
  | [] => None
  | l => n ← digits_value 0 l; if n <? 2 ^ bits then Some n else None
  end.

(** [strings.TrimSpace] *)
Fixpoint trim_left (l : list ascii) : list ascii :=
  match l with [] => [] | c :: l' => if is_space c then trim_left l' else l end.
Definition TrimSpace (s : string) : string :=
  string_of_list_ascii (reverse (trim_left (reverse (trim_left (list_ascii_of_string s))))).

(** [strconv.Atoi] of a 64-bit machine. *)
Definition Atoi (s : string) : option Z := ParseInt s.

(** The value of a digit of any base up to 36. *)
Definition any_digit (c : ascii) : option Z :=
  let n := Z.of_nat (nat_of_ascii c) in
  let l := Z.of_nat (nat_of_ascii (lower_ascii c)) in
  if (48 <=? n) && (n <=? 57) then Some (n - 48)
  else if (97 <=? l) && (l <=? 122) then Some (l - 97 + 10) else None.

(** The digits of a number in [base]; underscores are skipped. *)
Fixpoint base_value (base acc : Z) (l : list ascii) : option Z :=
  match l with
  | [] => Some acc
  | c :: l =>
      if bool_decide (c = "_"%char) then base_value base acc l else
      d ← any_digit c; if base <=? d then None else base_value base (acc * base + d) l
  end.

(** [underscoreOK] of [strconv]: underscores only between digits, the prefix of a base
    counting as one.  The last character seen is a digit, an underscore or another. *)
Inductive saw := SawStart | SawDigit | SawUnderscore | SawOther.

Fixpoint underscores_ok (hex : bool) (last : saw) (l : list ascii) : bool :=
  match l with
  | [] => match last with SawUnderscore => false | _ => true end
  | c :: l =>
      let letter := match any_digit c with Some d => (10 <=? d) && (d <? 16) | None => false end in
      let decimal := match any_digit c with Some d => d <? 10 | None => false end in
      if decimal || hex && letter then underscores_ok hex SawDigit l
      else if bool_decide (c = "_"%char) then
        match last with SawDigit => underscores_ok hex SawUnderscore l | _ => false end
      else match last with SawUnderscore => false | _ => underscores_ok hex SawOther l end
  end.

(** The base that a prefix of the number tells, and the digits after it. *)
Definition base_prefix (l : list ascii) : Z * list ascii :=
  match l with
  | "0"%char :: b :: d :: l' =>
      let b := lower_ascii b in
      if bool_decide (b = "b"%char) then (2, d :: l')
      else if bool_decide (b = "o"%char) then (8, d :: l')
      else if bool_decide (b = "x"%char) then (16, d :: l')
      else (8, drop 1 l)
  | "0"%char :: l' => (8, l')
  | _ => (10, l)
  end.

Definition underscoreOK (l : list ascii) : bool :=
  match l with
  | "0"%char :: b :: l' =>
      let b := lower_ascii b in
      if bool_decide (b ∈ ["b"%char; "o"%char; "x"%char]) then underscores_ok (bool_decide (b = "x"%char)) SawDigit l'
      else underscores_ok false SawStart l
  | _ => underscores_ok false SawStart l
  end.

(** [strconv.ParseUint(s, 0, _)], before the comparison with the width. *)
Definition parse_uint0 (l : list ascii) : option Z :=
  match l with
  | [] => None
  | _ =>
      let '(base, ds) := base_prefix l in
      n ← base_value base 0 ds;
      if underscoreOK l then Some n else None
  end.

(** [strconv.ParseInt(s, 0, bits)]; [None] is an error. *)
Definition ParseInt0 (s : string) (bits : Z) : option Z :=
  match list_ascii_of_string s with
  | "-"%char :: l => n ← parse_uint0 l; if 2 ^ (bits - 1) <? n then None else Some (- n)
  | "+"%char :: l => n ← parse_uint0 l; if 2 ^ (bits - 1) <=? n then None else Some n
  | l => n ← parse_uint0 l; if 2 ^ (bits - 1) <=? n then None else Some n
  end.

(** [path.Clean]: the components of a path, with [.] and [..] worked out; the list is
    the path so far, last component first. *)
Definition clean_step (rooted : bool) (out : list string) (c : string) : list string :=
  if bool_decide (c = ""%string) || bool_decide (c = "."%string) then out
  else if bool_decide (c = ".."%string) then
    match out with
    | [] => if rooted then [] else [c]
    | p :: out' => if bool_decide (p = ".."%string) then c :: out else out'
    end
  else c :: out.

Definition join_path (l : list string) : string :=
  match l with [] => "" | c :: l => foldl (fun p c => p +:+ String "/" c) c l end.

Definition Clean (path : string) : string :=
  let rooted := String.prefix "/" path in
  let out := foldl (clean_step rooted) [] (FieldsFunc (fun c => bool_decide (c = "/"%char)) path) in
  let s := (if rooted then "/" else "") +:+ join_path (reverse out) in
  if bool_decide (s = ""%string) then "." else s.

(** [filepath.Join] of two elements that are not empty. *)
Definition path_Join (dir file : string) : string := Clean (dir +:+ String "/" file).

(** ** Lemmas *)

Lemma Cut_app s sep t :
  (Cut s sep).2 = false -> Cut (s +:+ String sep t) sep = (s, t, true).
Proof.
  induction s as [|c s IH]; simpl; [by rewrite bool_decide_true|].
  case_bool_decide; [done|]. destruct (Cut s sep) as [[b a] f] eqn:E. cbn. intros ->.
  specialize (IH eq_refl). cbn in IH. by rewrite IH.
Qed.

Lemma Cut_none s sep : (Cut s sep).2 = false -> Cut s sep = (s, ""%string, false).
Proof.
  induction s as [|c s IH]; simpl; [done|]. case_bool_decide; [done|].
  destruct (Cut s sep) as [[b a] f] eqn:E. cbn. intros ->. specialize (IH eq_refl). by injection IH as -> ->.
Qed.

Lemma Cut_app_none s t sep : (Cut s sep).2 = false -> (Cut t sep).2 = false -> (Cut (s +:+ t) sep).2 = false.
Proof.
  induction s as [|c s IH]; simpl; [done|]. case_bool_decide; [done|].
  destruct (Cut s sep) as [[b a] f] eqn:E. cbn in *. intros -> Ht. specialize (IH eq_refl Ht).
  by destruct (Cut (s +:+ t) sep) as [[b' a'] f'].
Qed.

Lemma Cut_digits l sep : Forall (fun c => exists d, 0 <= d < 10 /\ c = digit d) l -> digit_value sep = None ->
  (Cut (string_of_list_ascii l) sep).2 = false.
Proof.
  intros H Hs. induction H as [|c l (d & Hd & ->) H IH]; simpl; [done|].
  case_bool_decide as E; [by rewrite <- E, digit_value_digit in Hs|].
  by destruct (Cut (string_of_list_ascii l) sep) as [[b a] f].
Qed.

(** The non-negative numbers an int64 holds, formatted: digits only. *)
Lemma FormatInt_digits n :
  0 <= n < 2 ^ 63 -> exists l, FormatInt n = string_of_list_ascii l /\ l <> [] /\
    digits_value 0 l = Some n /\ Forall (fun c => exists d, 0 <= d < 10 /\ c = digit d) l.
Proof.
  intros Hn. destruct (digits_spec 20 n) as (H1 & H2 & H3); [lia|done|].
  unfold FormatInt. rewrite (proj2 (Z.ltb_ge n 0)) by lia. eauto.
Qed.

Lemma ParseUint_FormatInt n bits : 0 <= n < 2 ^ 63 -> n < 2 ^ bits -> ParseUint (FormatInt n) bits = Some n.
Proof.
  intros Hn Hb. destruct (FormatInt_digits n Hn) as (l & -> & Hne & Hv & _).
  unfold ParseUint. rewrite list_ascii_of_string_of_list_ascii. destruct l as [|c l]; [done|].
  rewrite Hv. cbn. by rewrite (proj2 (Z.ltb_lt _ _)).
Qed.
