(* ===== verification/Configuration.v ===== *)
(** * The configuration and its parsers: [src/internal/config/config.go]

    The data of a configuration, the small parsers of its fields, and what a resolved
    configuration is.  YAML decoding and encoding are left out; a Go pointer to a bool
    or struct is an option, since the program never shares them. *)

From stdpp Require Import base tactics list numbers option strings gmap.
From Stdlib Require Import ZArith Lia Ascii String.
From S2P Require Import Prelude Netip Netutil Text Strings Events Packet Translator Pool Table Netconf.

Open Scope Z_scope.

(** [netip.ParsePrefix], with what it documents: an address without zone and a length
    that fits it; and the same for [netip.ParseAddr]. *)
Class PrefixText := { ParsePrefix : string -> option Prefix }.

Class ParseLaws `{AddrText} `{PrefixText} := {
  ParsePrefix_ok s p : ParsePrefix s = Some p ->
    prefix_ok p /\ IsValid (p_addr p) = true /\ 0 <= p_bits p;
  ParseAddr_ok s a : ParseAddr s = Some a -> addr_ok a /\ IsValid a = true;
}.

(** ** Data *)

Definition DefaultInterface : string := "clat0".
Definition DefaultMTU : Z := 1500.
Definition DefaultOfflinkMTU : Z := 1280.
Definition DefaultHTTPListen : string := ":6464".
Definition DefaultCLATTable : Z := 0xc1a7.
Definition rtTableDefault : Z := 253.
Definition rtTableMain : Z := 254.
Definition rtTableLocal : Z := 255.
Definition DefaultCLATHostIPv4 : Addr := Addr4 (be [192; 0; 0; 1]).
Definition DefaultCLATTranslatorIPv4 : Addr := Addr4 (be [192; 0; 0; 2]).

Record CLAT := mkCLAT {
  cl_IPv6Address : string;
  cl_IPv4Address : Addr;
  cl_Ports : list string;
  cl_Table : Z;
}.

(** [config.Route] has the fields of [netconf.Route]. *)
Definition route_netconf (r : Route) : Route :=
  mkRoute (Masked (rt_Prefix r)) (rt_Metric r) (rt_MTU r) (rt_AdvMSS r).

Record Interface := mkInterface {
  if_Name : string;
  if_MTU : Z;
  if_Configure : option bool;
  if_Addresses : list Prefix;
  if_Routes : list Route;
  if_AutoRoutes : option bool;
  if_Sysctl : option bool;
}.

(** [config.Map] *)
Record StaticMap := mkStaticMap { sm_IPv4 : string; sm_IPv6 : string }.

Record DynamicPool := mkDynamicPool {
  dp_Prefix : Prefix;
  dp_StateFile : string;
  dp_MinLease : Z;
  dp_MaxLease : Z;
}.

Record Log := mkLog { lg_Level : string; lg_Format : string; lg_Packets : list string }.
Record HTTP := mkHTTP { ht_Listen : string; ht_Admin : bool }.

(** [config.Config] *)
Record UserConfig := mkUserConfig {
  uc_Interface : Interface;
  uc_IPv4Address : Addr;
  uc_IPv6Address : Addr;
  uc_Prefix : Prefix;
  uc_WKPFStrict : option bool;
  uc_Maps : list StaticMap;
  uc_DynamicPool : option DynamicPool;
  uc_CLAT : option CLAT;
  uc_UDPChecksum : string;
  uc_OfflinkMTU : Z;
  uc_Log : Log;
  uc_HTTP : HTTP;
}.

Definition boolOr (p : option bool) (def : bool) : bool := match p with None => def | Some b => b end.

Inductive LogLevel := LevelDebug | LevelInfo | LevelWarn | LevelError.

(** The findings that do not make a configuration invalid. *)
Inductive Warning :=
  | WarnSharedAddress (a : Addr)
  | WarnLinkLocalMap (i : nat)
  | WarnLinkLocalAddress
  | WarnLinkLocalPool.

(** [config.Resolved]; a pool is a reference into the store of pools. *)
Record Resolved := mkResolved {
  rv_Config : UserConfig;
  rv_Xlate : Config;
  rv_Table : Table;
  rv_Pool : option nat;
  rv_Addresses : list Prefix;
  rv_Routes4 : list Route;
  rv_Routes6 : list Route;
  rv_Shared : option Shared;
  rv_Warnings : list Warning;
  rv_LogLevel : LogLevel;
  rv_LogJSON : bool;
  rv_PacketKinds : list Kind;
  rv_HTTPListen : string;
}.

Definition Configure (r : Resolved) : bool := boolOr (if_Configure (uc_Interface (rv_Config r))) true.
Definition r_Sysctl (r : Resolved) : bool := Configure r && boolOr (if_Sysctl (uc_Interface (rv_Config r))) true.
Definition Forward4 (r : Resolved) : bool := r_Sysctl r && bool_decide (rv_Shared r = None).
Definition Forward6 (r : Resolved) : bool := r_Sysctl r.

(** ** Parsers *)

Definition list_sep (c : ascii) : bool :=
  bool_decide (c ∈ [","%char; " "%char; "010"%char; "009"%char]).

Definition splitList (v : string) : list string := FieldsFunc list_sep v.

Definition parseBool (v : string) : option bool :=
  let l := ToLower v in
  if bool_decide (l ∈ ["1"; "true"; "yes"; "on"]%string) then Some true
  else if bool_decide (l ∈ ["0"; "false"; "no"; "off"]%string) then Some false
  else None.

Definition ParseUDPChecksum (s : string) : option UDPChecksumMode :=
  let l := ToLower s in
  if bool_decide (l ∈ [""; "drop"]%string) then Some UDPChecksumDrop
  else if bool_decide (l ∈ ["calc"; "calculate"]%string) then Some UDPChecksumCalc
  else if bool_decide (l ∈ ["fwd"; "forward"]%string) then Some UDPChecksumForward
  else None.

(** The protocol number of a [clat.ports] entry. *)
Definition filter_proto (proto : string) : option Z :=
  let l := ToLower proto in
  if bool_decide (l = "tcp"%string) then Some 6
  else if bool_decide (l = "udp"%string) then Some 17
  else if bool_decide (l = "sctp"%string) then Some 132
  else if bool_decide (l ∈ ["icmp"; "icmpv6"; "ipv6-icmp"]%string) then Some 58
  else None.

Definition parse_port (v : string) : option Z :=
  match ParseUint v 16 with
  | None => None
  | Some n => if n =? 0 then None else Some n
  end.

Definition ParseFilter (s : string) : option Filter :=
  let '(proto, ports, hasPorts) := Cut s "/" in
  match filter_proto proto with
  | None => None
  | Some p =>
      if negb hasPorts then Some (mkFilter p 0 0) else
      if p =? 58 then None else
      let '(lo, hi, isRange) := Cut ports "-" in
      let hi := if isRange then hi else lo in
      match parse_port lo with
      | None => None
      | Some start =>
          match parse_port hi with
          | None => None
          | Some end_ => if end_ <? start then None else Some (mkFilter p start end_)
          end
      end
  end.

Section text.
Context `{AT : AddrText} `{PT : PrefixText}.

Definition parseAddrOrPrefix (s : string) : option Prefix :=
  if ContainsByte s "/" then ParsePrefix s
  else a ← ParseAddr s; Some (PrefixFrom a (BitLen a)).
End text.

(** ** Comparing resolved configurations *)

Inductive Immutable := ImName | ImMTU | ImConfigure | ImSysctl | ImListen | ImFormat.

Definition ImmutableChanges (old new : Resolved) : list Immutable :=
  (if bool_decide (if_Name (uc_Interface (rv_Config old)) = if_Name (uc_Interface (rv_Config new))) then [] else [ImName]) ++
  (if if_MTU (uc_Interface (rv_Config old)) =? if_MTU (uc_Interface (rv_Config new)) then [] else [ImMTU]) ++
  (if Bool.eqb (Configure old) (Configure new) then [] else [ImConfigure]) ++
  (if Bool.eqb (r_Sysctl old) (r_Sysctl new) then [] else [ImSysctl]) ++
  (if bool_decide (rv_HTTPListen old = rv_HTTPListen new) then [] else [ImListen]) ++
  (if Bool.eqb (rv_LogJSON old) (rv_LogJSON new) then [] else [ImFormat]).

(** [dedupe]: the first of equal prefixes; [seen] is the set of those met. *)
Fixpoint dedupe_from (seen ps : list Prefix) : list Prefix :=
  match ps with
  | [] => []
  | p :: ps => if bool_decide (p ∈ seen) then dedupe_from seen ps else p :: dedupe_from (p :: seen) ps
  end.
Definition dedupe (ps : list Prefix) : list Prefix := dedupe_from [] ps.
