(* ===== verification/Env.v ===== *)
(** * Reading a configuration: [LoadYAML], [LoadEnv] and the YAML of a route

    [src/internal/config/config.go]: the document merged into a configuration, and then
    the environment's variables, each into its field.  Decoding YAML is the third-party
    decoder's and a parameter: what it leaves of the configuration, and its error. *)

From stdpp Require Import base tactics list numbers option strings gmap.
From Stdlib Require Import ZArith Lia Ascii String.
From S2P Require Import Prelude Netip Text Strings Netconf Configuration.

Open Scope Z_scope.

(** ** Fields *)

Definition on_interface (f : Interface -> Interface) (c : UserConfig) : UserConfig :=
  mkUserConfig (f (uc_Interface c)) (uc_IPv4Address c) (uc_IPv6Address c) (uc_Prefix c) (uc_WKPFStrict c) (uc_Maps c)
    (uc_DynamicPool c) (uc_CLAT c) (uc_UDPChecksum c) (uc_OfflinkMTU c) (uc_Log c) (uc_HTTP c).
Definition set_Name (x : string) := on_interface (fun i =>
  mkInterface x (if_MTU i) (if_Configure i) (if_Addresses i) (if_Routes i) (if_AutoRoutes i) (if_Sysctl i)).
Definition set_MTU (x : Z) := on_interface (fun i =>
  mkInterface (if_Name i) x (if_Configure i) (if_Addresses i) (if_Routes i) (if_AutoRoutes i) (if_Sysctl i)).
Definition set_Configure (x : option bool) := on_interface (fun i =>
  mkInterface (if_Name i) (if_MTU i) x (if_Addresses i) (if_Routes i) (if_AutoRoutes i) (if_Sysctl i)).
Definition set_Addresses (x : list Prefix) := on_interface (fun i =>
  mkInterface (if_Name i) (if_MTU i) (if_Configure i) x (if_Routes i) (if_AutoRoutes i) (if_Sysctl i)).
Definition set_Routes (x : list Route) := on_interface (fun i =>
  mkInterface (if_Name i) (if_MTU i) (if_Configure i) (if_Addresses i) x (if_AutoRoutes i) (if_Sysctl i)).
Definition set_AutoRoutes (x : option bool) := on_interface (fun i =>
  mkInterface (if_Name i) (if_MTU i) (if_Configure i) (if_Addresses i) (if_Routes i) x (if_Sysctl i)).
Definition set_Sysctl (x : option bool) := on_interface (fun i =>
  mkInterface (if_Name i) (if_MTU i) (if_Configure i) (if_Addresses i) (if_Routes i) (if_AutoRoutes i) x).

Definition set_IPv4Address (x : Addr) (c : UserConfig) : UserConfig :=
  mkUserConfig (uc_Interface c) x (uc_IPv6Address c) (uc_Prefix c) (uc_WKPFStrict c) (uc_Maps c)
    (uc_DynamicPool c) (uc_CLAT c) (uc_UDPChecksum c) (uc_OfflinkMTU c) (uc_Log c) (uc_HTTP c).
Definition set_IPv6Address (x : Addr) (c : UserConfig) : UserConfig :=
  mkUserConfig (uc_Interface c) (uc_IPv4Address c) x (uc_Prefix c) (uc_WKPFStrict c) (uc_Maps c)
    (uc_DynamicPool c) (uc_CLAT c) (uc_UDPChecksum c) (uc_OfflinkMTU c) (uc_Log c) (uc_HTTP c).
Definition set_Prefix (x : Prefix) (c : UserConfig) : UserConfig :=
  mkUserConfig (uc_Interface c) (uc_IPv4Address c) (uc_IPv6Address c) x (uc_WKPFStrict c) (uc_Maps c)
    (uc_DynamicPool c) (uc_CLAT c) (uc_UDPChecksum c) (uc_OfflinkMTU c) (uc_Log c) (uc_HTTP c).
Definition set_WKPFStrict (x : option bool) (c : UserConfig) : UserConfig :=
  mkUserConfig (uc_Interface c) (uc_IPv4Address c) (uc_IPv6Address c) (uc_Prefix c) x (uc_Maps c)
    (uc_DynamicPool c) (uc_CLAT c) (uc_UDPChecksum c) (uc_OfflinkMTU c) (uc_Log c) (uc_HTTP c).
Definition set_Maps (x : list StaticMap) (c : UserConfig) : UserConfig :=
  mkUserConfig (uc_Interface c) (uc_IPv4Address c) (uc_IPv6Address c) (uc_Prefix c) (uc_WKPFStrict c) x
    (uc_DynamicPool c) (uc_CLAT c) (uc_UDPChecksum c) (uc_OfflinkMTU c) (uc_Log c) (uc_HTTP c).
Definition set_DynamicPool (x : option DynamicPool) (c : UserConfig) : UserConfig :=
  mkUserConfig (uc_Interface c) (uc_IPv4Address c) (uc_IPv6Address c) (uc_Prefix c) (uc_WKPFStrict c) (uc_Maps c)
    x (uc_CLAT c) (uc_UDPChecksum c) (uc_OfflinkMTU c) (uc_Log c) (uc_HTTP c).
Definition set_CLAT (x : option CLAT) (c : UserConfig) : UserConfig :=
  mkUserConfig (uc_Interface c) (uc_IPv4Address c) (uc_IPv6Address c) (uc_Prefix c) (uc_WKPFStrict c) (uc_Maps c)
    (uc_DynamicPool c) x (uc_UDPChecksum c) (uc_OfflinkMTU c) (uc_Log c) (uc_HTTP c).
Definition set_UDPChecksum (x : string) (c : UserConfig) : UserConfig :=
  mkUserConfig (uc_Interface c) (uc_IPv4Address c) (uc_IPv6Address c) (uc_Prefix c) (uc_WKPFStrict c) (uc_Maps c)
    (uc_DynamicPool c) (uc_CLAT c) x (uc_OfflinkMTU c) (uc_Log c) (uc_HTTP c).
Definition set_OfflinkMTU (x : Z) (c : UserConfig) : UserConfig :=
  mkUserConfig (uc_Interface c) (uc_IPv4Address c) (uc_IPv6Address c) (uc_Prefix c) (uc_WKPFStrict c) (uc_Maps c)
    (uc_DynamicPool c) (uc_CLAT c) (uc_UDPChecksum c) x (uc_Log c) (uc_HTTP c).
Definition on_log (f : Log -> Log) (c : UserConfig) : UserConfig :=
  mkUserConfig (uc_Interface c) (uc_IPv4Address c) (uc_IPv6Address c) (uc_Prefix c) (uc_WKPFStrict c) (uc_Maps c)
    (uc_DynamicPool c) (uc_CLAT c) (uc_UDPChecksum c) (uc_OfflinkMTU c) (f (uc_Log c)) (uc_HTTP c).
Definition on_http (f : HTTP -> HTTP) (c : UserConfig) : UserConfig :=
  mkUserConfig (uc_Interface c) (uc_IPv4Address c) (uc_IPv6Address c) (uc_Prefix c) (uc_WKPFStrict c) (uc_Maps c)
    (uc_DynamicPool c) (uc_CLAT c) (uc_UDPChecksum c) (uc_OfflinkMTU c) (uc_Log c) (f (uc_HTTP c)).
Definition set_Level (x : string) := on_log (fun l => mkLog x (lg_Format l) (lg_Packets l)).
Definition set_Format (x : string) := on_log (fun l => mkLog (lg_Level l) x (lg_Packets l)).
Definition set_Packets (x : list string) := on_log (fun l => mkLog (lg_Level l) (lg_Format l) x).
Definition set_Listen (x : string) := on_http (fun h => mkHTTP x (ht_Admin h)).
Definition set_Admin (x : bool) := on_http (fun h => mkHTTP (ht_Listen h) x).

(** The zero values, and [Config{}]. *)
Definition CLAT_zero : CLAT := mkCLAT "" AddrZero [] 0.
Definition DynamicPool_zero : DynamicPool := mkDynamicPool PrefixZero "" 0 0.
Definition Config_zero : UserConfig :=
  mkUserConfig (mkInterface "" 0 None [] [] None None) AddrZero AddrZero PrefixZero None [] None None "" 0
    (mkLog "" "" []) (mkHTTP "" false).

(** [clat()]: the CLAT of the configuration, made when there is none. *)
Definition on_clat (f : CLAT -> CLAT) (c : UserConfig) : UserConfig :=
  set_CLAT (Some (f (default CLAT_zero (uc_CLAT c)))) c.
Definition on_pool (f : DynamicPool -> DynamicPool) (c : UserConfig) : UserConfig :=
  set_DynamicPool (Some (f (default DynamicPool_zero (uc_DynamicPool c)))) c.

(** ** YAML *)

(** How decoding fails: at the end of the input (an empty document), with an error that
    wraps [os.ErrNotExist], or otherwise. *)
Inductive YAMLErr := YAMLEOF | YAMLNotExist | YAMLOther.

(** A YAML node as [UnmarshalYAML] sees it. *)
Inductive YNode := YScalar (value : string) | YMapping (content : list (string * string)) | YOther.

(** A route's YAML: a bare prefix, or a mapping. *)
Inductive RouteYAML := RouteScalar (s : string) | RoutePlain (r : Route).

Section load.
Context `{AT : AddrText} `{PT : PrefixText}.
(** The decoder: the configuration it leaves, and its error; and of a route. *)
Context (Decode : string -> UserConfig -> UserConfig * option YAMLErr).
Context (DecodePlain : list (string * string) -> option Route).
(** [Prefix.String]. *)
Context (prefix_String : Prefix -> string).

Definition LoadYAML (cfg : UserConfig) (data : string) : UserConfig * option YAMLErr :=
  match Decode data cfg with
  | (c, Some YAMLEOF) | (c, Some YAMLNotExist) => (c, None)
  | r => r
  end.

(** [Route.UnmarshalYAML]; [None] is an error. *)
Definition route_UnmarshalYAML (n : YNode) : option Route :=
  match n with
  | YScalar v => p ← parseAddrOrPrefix v; Some (mkRoute p 0 0 0)
  | YMapping content =>
      if negb (forallb (fun x => bool_decide (x.1 ∈ ["prefix"; "metric"; "mtu"; "advmss"]%string)) content) then None else
      p ← DecodePlain content;
      if negb (PIsValid (rt_Prefix p)) then None else Some p
  | YOther => None
  end.

(** [Route.MarshalYAML] *)
Definition route_MarshalYAML (r : Route) : RouteYAML :=
  if (rt_Metric r =? 0) && (rt_MTU r =? 0) && (rt_AdvMSS r =? 0) then RouteScalar (prefix_String (rt_Prefix r))
  else RoutePlain r.

(** ** The environment *)

Definition EnvPrefix : string := "CLATTO_".

(** An error names the variable, and for [MAPS] the entry. *)
Inductive EnvErr := BadYAML | BadVariable (name : string) | BadMap (entry : string).

Context (lookup : string -> option string).

Definition get (name : string) : option string := TrimSpace <$> lookup (EnvPrefix +:+ name).

(** The configuration, and the errors so far. *)
Definition env_step : Type := UserConfig * list EnvErr -> UserConfig * list EnvErr.

(** A variable parsed into its field. *)
Definition variable {A} (name : string) (parse : string -> option A) (set : A -> UserConfig -> UserConfig) : env_step :=
  fun s =>
    match get name with
    | None => s
    | Some v =>
        match parse v with
        | None => (s.1, s.2 ++ [BadVariable name])
        | Some x => (set x s.1, s.2)
        end
    end.

Definition str (name : string) (set : string -> UserConfig -> UserConfig) : env_step := variable name Some set.
Definition integer (name : string) (set : Z -> UserConfig -> UserConfig) : env_step := variable name Atoi set.
Definition boolean (name : string) (set : option bool -> UserConfig -> UserConfig) : env_step :=
  variable name parseBool (fun b => set (Some b)).
Definition env_addr (name : string) (set : Addr -> UserConfig -> UserConfig) : env_step := variable name ParseAddr set.
Definition pfx (name : string) (set : Prefix -> UserConfig -> UserConfig) : env_step := variable name ParsePrefix set.
Definition pfxList (name : string) (set : list Prefix -> UserConfig -> UserConfig) : env_step :=
  variable name (fun v => mapM parseAddrOrPrefix (splitList v)) set.
Definition routeList (name : string) (set : list Route -> UserConfig -> UserConfig) : env_step :=
  variable name (fun v => mapM (fun s => p ← parseAddrOrPrefix s; Some (mkRoute p 0 0 0)) (splitList v)) set.
Definition strList (name : string) (set : list string -> UserConfig -> UserConfig) : env_step :=
  variable name (fun v => Some (splitList v)) set.

(** [CLAT]: on, or off with everything that was set of it. *)
Definition env_clat : env_step :=
  variable "CLAT" parseBool (fun b => if b : bool then on_clat (fun c => c) else set_CLAT None).
Definition env_clat_table : env_step :=
  variable "CLAT_TABLE" (fun v => ParseInt0 v 32) (fun n => on_clat (fun c =>
    mkCLAT (cl_IPv6Address c) (cl_IPv4Address c) (cl_Ports c) n)).

(** An entry of [MAPS]. *)
Definition parse_map (s : string) : option StaticMap :=
  match Cut s "=" with
  | (v4, v6, true) => Some (mkStaticMap (TrimSpace v4) (TrimSpace v6))
  | _ => None
  end.
Definition add_map (s : UserConfig * list EnvErr) (entry : string) : UserConfig * list EnvErr :=
  match parse_map entry with
  | None => (s.1, s.2 ++ [BadMap entry])
  | Some m => (set_Maps (uc_Maps s.1 ++ [m]) s.1, s.2)
  end.
Definition env_maps : env_step := fun s =>
  match get "MAPS" with
  | None => s
  | Some v => foldl add_map (set_Maps [] s.1, s.2) (splitList v)
  end.

(** [DYNAMIC_POOL]: a prefix, or nothing to have no pool. *)
Definition parse_pool (v : string) : option (option Prefix) :=
  if bool_decide (v = ""%string) then Some None else p ← ParsePrefix v; Some (Some p).
Definition env_pool : env_step :=
  variable "DYNAMIC_POOL" parse_pool (fun o =>
    match o with
    | None => set_DynamicPool None
    | Some p => on_pool (fun d => mkDynamicPool p (dp_StateFile d) (dp_MinLease d) (dp_MaxLease d))
    end).

Definition set_StateFile (v : string) : DynamicPool -> DynamicPool := fun d =>
  mkDynamicPool (dp_Prefix d) v (dp_MinLease d) (dp_MaxLease d).

(** systemd's [STATE_DIRECTORY], for a pool without a state file. *)
Definition state_directory : env_step := fun s =>
  match lookup "STATE_DIRECTORY", uc_DynamicPool s.1 with
  | Some sd, Some d =>
      if bool_decide (dp_StateFile d = ""%string) then
        let sd := (Cut sd ":").1.1 in
        if bool_decide (sd = ""%string) then s
        else (on_pool (set_StateFile (path_Join sd "dynamic.map")) s.1, s.2)
      else s
  | _, _ => s
  end.

(** The variables in the order they are read. *)
Definition env_steps : list env_step := [
  str "INTERFACE" set_Name;
  integer "MTU" set_MTU;
  boolean "INTERFACE_CONFIGURE" set_Configure;
  boolean "INTERFACE_AUTO_ROUTES" set_AutoRoutes;
  boolean "INTERFACE_SYSCTL" set_Sysctl;
  pfxList "INTERFACE_ADDRESSES" set_Addresses;
  routeList "INTERFACE_ROUTES" set_Routes;
  env_addr "IPV4_ADDRESS" set_IPv4Address;
  env_addr "IPV6_ADDRESS" set_IPv6Address;
  pfx "PREFIX" set_Prefix;
  boolean "WKPF_STRICT" set_WKPFStrict;
  env_clat;
  str "CLAT_IPV6_ADDRESS" (fun v => on_clat (fun c => mkCLAT v (cl_IPv4Address c) (cl_Ports c) (cl_Table c)));
  env_addr "CLAT_IPV4_ADDRESS" (fun a => on_clat (fun c => mkCLAT (cl_IPv6Address c) a (cl_Ports c) (cl_Table c)));
  strList "CLAT_PORTS" (fun l => on_clat (fun c => mkCLAT (cl_IPv6Address c) (cl_IPv4Address c) l (cl_Table c)));
  env_clat_table;
  env_maps;
  env_pool;
  str "DYNAMIC_POOL_STATE_FILE" (fun v => on_pool (set_StateFile v));
  str "UDP_CHECKSUM" set_UDPChecksum;
  integer "OFFLINK_MTU" set_OfflinkMTU;
  str "LOG_LEVEL" set_Level;
  str "LOG_FORMAT" set_Format;
  strList "LOG_PACKETS" set_Packets;
  str "HTTP_LISTEN" set_Listen;
  variable "HTTP_ADMIN" parseBool set_Admin;
  state_directory
].

(** [CONFIG_YAML], merged first; its error is the only one reported. *)
Definition config_yaml (cfg : UserConfig) : UserConfig * bool :=
  match get "CONFIG_YAML" with
  | None => (cfg, true)
  | Some v =>
      if bool_decide (v = ""%string) then (cfg, true) else
      let '(c, e) := LoadYAML cfg v in (c, match e with None => true | Some _ => false end)
  end.

(** [LoadEnv]: the configuration, and the errors joined. *)
Definition LoadEnv (cfg : UserConfig) : UserConfig * list EnvErr :=
  let '(c, ok) := config_yaml cfg in
  if ok then foldl (fun s step => step s) (c, []) env_steps else (c, [BadYAML]).
End load.
