(* ===== verification/Resolve.v ===== *)
(** * Validating a configuration: [ResolveWith] of [src/internal/config/config.go]

    The function in the parts its comments name.  It runs on [rstate]: the errors and
    warnings collected, the table builder, and the store of pools, of which the
    existing pool is one: a pool is shared with the configuration in force, and what
    [SetLeases] and [Build] do to it is seen there. *)

From stdpp Require Import base tactics list numbers option strings gmap.
From Stdlib Require Import ZArith Lia.
From S2P Require Import Prelude Netip Netutil Text Strings Events Packet Translator Pool Table Netconf Configuration.

Open Scope Z_scope.

(** The errors, by the line that reports them. *)
Inductive CfgErr :=
  | ErrIfName | ErrIfMTU | ErrOfflinkMTU | ErrUDPChecksum | ErrPrefix (e : BuildErr)
  | ErrClatIPv4 | ErrClatIPv4Own | ErrClatTableReserved | ErrClatTableRange | ErrClatPorts
  | ErrClatNoPrefix | ErrClatNoAuto | ErrClatSource | ErrClatParse | ErrClatNotIPv6 | ErrClatReserved
  | ErrClatInsidePrefix | ErrClatStatic (e : BuildErr)
  | ErrMapIPv4 (i : nat) | ErrMapIPv6 (i : nat) | ErrMap (i : nat) (e : BuildErr) | ErrNothing
  | ErrIPv4Required | ErrIPv4NotIPv4 | ErrIPv4Reserved
  | ErrIPv6NotIPv6 | ErrIPv6Reserved | ErrIPv6WellKnown | ErrIPv6InsidePrefix | ErrIPv6Required
  | ErrIPv6Derive | ErrIPv6Private | ErrIPv6LinkLocal | ErrSelf (e : BuildErr)
  | ErrPoolPrefix | ErrPool (e : PoolErr) | ErrStateFile | ErrSetPool (e : BuildErr)
  | ErrBuild (e : BuildErr) | ErrLogLevel | ErrLogFormat | ErrLogPackets.

Record rstate := mkRstate {
  rs_errs : list CfgErr;
  rs_warns : list Warning;
  rs_b : Builder;
  rs_pools : list Pool;
}.

(** [ResolveOptions]; the observer is the event log of the pool. *)
Record ResolveOptions := mkResolveOptions {
  ro_ExistingPool : option nat;
  ro_SourceAddr : option (Addr -> option Addr);
}.

Local Abbreviation R := (M rstate).

Definition fail (e : CfgErr) : R unit :=
  modify (fun s => mkRstate (rs_errs s ++ [e]) (rs_warns s) (rs_b s) (rs_pools s)).
Definition warn (w : Warning) : R unit :=
  modify (fun s => mkRstate (rs_errs s) (rs_warns s ++ [w]) (rs_b s) (rs_pools s)).
Definition fail_if (c : bool) (e : CfgErr) : R unit := if c then fail e else skip.
Definition no_errs : R bool := gets (fun s => bool_decide (rs_errs s = [])).

(** A method of the builder, whose error is reported. *)
Definition build_step (f : Builder -> outcome (Builder + BuildErr)) (wrap : BuildErr -> CfgErr) : R unit := fun s =>
  r ← f (rs_b s);
  match r with
  | inl b => Ok (tt, mkRstate (rs_errs s) (rs_warns s) b (rs_pools s))
  | inr e => Ok (tt, mkRstate (rs_errs s ++ [wrap e]) (rs_warns s) (rs_b s) (rs_pools s))
  end.

(** An operation on the pool a reference points to. *)
Definition on_ref {A} (ref : option nat) (m : M (option Pool) A) : R A := fun s =>
  '(r, po) ← m (i ← ref; rs_pools s !! i);
  Ok (r, mkRstate (rs_errs s) (rs_warns s) (rs_b s)
           match ref, po with Some i, Some p => <[i := p]> (rs_pools s) | _, _ => rs_pools s end).

Definition alloc_pool (p : Pool) : R nat := fun s =>
  Ok (length (rs_pools s), mkRstate (rs_errs s) (rs_warns s) (rs_b s) (rs_pools s ++ [p])).

Section resolve.
Context `{AT : AddrText} `{PT : PrefixText}.
(** [table.Entries()] *)
Context (table_Entries : Table -> list Entry).
Context (cfg : UserConfig) (ro : ResolveOptions).

(** *** Interface *)

Definition interface_of (i : Interface) : Interface :=
  mkInterface (if bool_decide (if_Name i = ""%string) then DefaultInterface else if_Name i)
    (if if_MTU i =? 0 then DefaultMTU else if_MTU i)
    (if_Configure i) (if_Addresses i) (if_Routes i) (if_AutoRoutes i) (if_Sysctl i).

Definition offlink_of (mtu : Z) : Z := if mtu =? 0 then DefaultOfflinkMTU else mtu.

Definition udp_mode_of (s : string) : UDPChecksumMode := default UDPChecksumDrop (ParseUDPChecksum s).

Definition check_interface : R unit :=
  let i := interface_of (uc_Interface cfg) in
  fail_if (15 <? Z.of_nat (String.length (if_Name i))) ErrIfName;;
  fail_if ((if_MTU i <? 1280) || (65535 <? if_MTU i)) ErrIfMTU;;
  fail_if (offlink_of (uc_OfflinkMTU cfg) <? 1280) ErrOfflinkMTU;;
  fail_if (bool_decide (ParseUDPChecksum (uc_UDPChecksum cfg) = None)) ErrUDPChecksum.

Definition wkpfStrict : bool := boolOr (uc_WKPFStrict cfg) true.

Definition check_prefix : R unit :=
  if PIsValid (uc_Prefix cfg) then build_step (fun b => Ok (AddPrefix (uc_Prefix cfg) b)) ErrPrefix else skip.

(** *** CLAT sharing the host's address *)

Fixpoint parse_filters (ports : list string) : R (list Filter) :=
  match ports with
  | [] => mret []
  | s :: ports =>
      match ParseFilter s with
      | None => fail ErrClatPorts;; parse_filters ports
      | Some f => fs ← parse_filters ports; mret (f :: fs)
      end
  end.

(** The address to share: the zero address when there is none. *)
Definition shared_address (cc : CLAT) : R Addr :=
  if negb (PIsValid (uc_Prefix cfg)) then fail ErrClatNoPrefix;; mret AddrZero
  else if bool_decide (cl_IPv6Address cc = ""%string) || EqualFold (cl_IPv6Address cc) "auto" then
    match ro_SourceAddr ro with
    | None => fail ErrClatNoAuto;; mret AddrZero
    | Some source =>
        match source (p_addr (uc_Prefix cfg)) with
        | None => fail ErrClatSource;; mret AddrZero
        | Some a => warn (WarnSharedAddress a);; mret a
        end
    end
  else
    match ParseAddr (cl_IPv6Address cc) with
    | None => fail ErrClatParse;; mret AddrZero
    | Some a => mret a
    end.

(** The translator's IPv4 address, the CLAT section as it is in effect, the shared
    address and the policy routing. *)
Definition check_clat : R (Addr * option CLAT * Addr * option Shared) :=
  match uc_CLAT cfg with
  | None => mret (uc_IPv4Address cfg, None, AddrZero, None)
  | Some c =>
      let ipv4 := if IsValid (uc_IPv4Address cfg) then uc_IPv4Address cfg else DefaultCLATTranslatorIPv4 in
      let host4 := if IsValid (cl_IPv4Address c) then cl_IPv4Address c else DefaultCLATHostIPv4 in
      (if negb (Is4 host4) then fail ErrClatIPv4
       else fail_if (bool_decide (host4 = ipv4)) ErrClatIPv4Own);;
      let table := if cl_Table c =? 0 then DefaultCLATTable else cl_Table c in
      (if bool_decide (table ∈ [rtTableLocal; rtTableMain; rtTableDefault]) then fail ErrClatTableReserved
       else fail_if ((table <? 1) || (0xfffffffe <? table)) ErrClatTableRange);;
      filters ← parse_filters (cl_Ports c);
      shared6 ← shared_address c;
      text6 ←
        (if negb (IsValid shared6) then mret (cl_IPv6Address c)
         else if negb (Is6 shared6) || Is4In6 shared6 then fail ErrClatNotIPv6;; mret (cl_IPv6Address c)
         else if negb (ValidIPv6 (As16 shared6)) then fail ErrClatReserved;; mret (cl_IPv6Address c)
         else if PIsValid (uc_Prefix cfg) && Contains (uc_Prefix cfg) shared6
         then fail ErrClatInsidePrefix;; mret (cl_IPv6Address c)
         else build_step (AddStatic (PrefixFrom host4 32) (PrefixFrom shared6 128)) ErrClatStatic;;
              mret (addr_String shared6));
      ok ← no_errs;
      mret (ipv4, Some (mkCLAT text6 host4 (cl_Ports c) table), shared6,
            if (ok : bool) then Some (mkShared shared6 (uc_Prefix cfg) table filters) else None)
  end.

(** *** Static maps *)

Fixpoint check_maps (i : nat) (maps : list StaticMap) : R unit :=
  match maps with
  | [] => skip
  | m :: maps =>
      match parseAddrOrPrefix (sm_IPv4 m) with
      | None => fail (ErrMapIPv4 i)
      | Some p4 =>
          match parseAddrOrPrefix (sm_IPv6 m) with
          | None => fail (ErrMapIPv6 i)
          | Some p6 =>
              (if Is4 (p_addr p4)
               then a4 ← lift (As4 (p_addr p4));
                    (if bool_decide (ClassifyIPv4 a4 = IPv4LinkLocal) then warn (WarnLinkLocalMap i) else skip)
               else skip);;
              build_step (AddStatic p4 p6) (ErrMap i)
          end
      end;;
      check_maps (S i) maps
  end.

(** *** The translator's own addresses *)

Definition check_ipv4 (ipv4 : Addr) : R unit :=
  if negb (IsValid ipv4) then fail ErrIPv4Required
  else if negb (Is4 ipv4) then fail ErrIPv4NotIPv4
  else a4 ← lift (As4 ipv4);
       match ClassifyIPv4 a4 with
       | IPv4Invalid => fail ErrIPv4Reserved
       | IPv4LinkLocal => warn WarnLinkLocalAddress
       | IPv4Valid => skip
       end.

(** [netutil.Embed] of an IPv4 address in the configured prefix. *)
Definition embed_own (ipv4 : Addr) : outcome (list Z + unit) :=
  a4 ← As4 ipv4;
  r ← Embed (As16 (p_addr (uc_Prefix cfg))) (p_bits (uc_Prefix cfg)) a4;
  Ok (match r with inl out => inl out | inr _ => inr tt end).

Definition derived_address (ipv4 : Addr) : outcome Addr :=
  if PIsValid (uc_Prefix cfg) && Is4 ipv4 then
    r ← embed_own ipv4;
    Ok (match r with inl a16 => AddrFrom16 a16 | inr _ => AddrZero end)
  else Ok AddrZero.

(** The translator's IPv6 address, and whether it is the one the prefix gives. *)
Definition own_ipv6 (ipv4 : Addr) : R (Addr * bool) :=
  let local6 := uc_IPv6Address cfg in
  let prefix := uc_Prefix cfg in
  derived ← lift (derived_address ipv4);
  if IsValid local6 && bool_decide (local6 = derived) then mret (local6, true)
  else if IsValid local6 then
    (if negb (Is6 local6) || Is4In6 local6 then fail ErrIPv6NotIPv6
     else if negb (ValidIPv6 (As16 local6)) then fail ErrIPv6Reserved
     else if wkpfStrict && Contains WellKnownPrefix local6 then fail ErrIPv6WellKnown
     else fail_if (PIsValid prefix && Contains prefix local6) ErrIPv6InsidePrefix);;
    mret (local6, false)
  else if negb (PIsValid prefix) then fail ErrIPv6Required;; mret (local6, false)
  else if Is4 ipv4 then
    a4 ← lift (As4 ipv4);
    r ← lift (embed_own ipv4);
    match r with
    | inr _ => fail ErrIPv6Derive;; mret (local6, false)
    | inl a16 =>
        if wkpfStrict && IsWellKnownPrefix prefix && IsPrivateIPv4 a4 then fail ErrIPv6Private;; mret (local6, false)
        else if negb (bool_decide (ClassifyIPv4 a4 = IPv4Valid)) then fail ErrIPv6LinkLocal;; mret (local6, false)
        else mret (AddrFrom16 a16, true)
    end
  else mret (local6, false).

Definition check_self (ipv4 local6 : Addr) (v6Derived : bool) : R Addr :=
  ok ← no_errs;
  if (ok : bool) then
    build_step (AddSelf ipv4 local6 v6Derived) ErrSelf;; mret local6
  else mret (uc_IPv6Address cfg).

(** *** Dynamic pool *)

Definition get_pool (ref : nat) : R (option Pool) := gets (fun s => rs_pools s !! ref).

Definition pool_for (dp : DynamicPool) : R (nat + PoolErr) :=
  existing ← (match ro_ExistingPool ro with
              | None => mret None
              | Some ref =>
                  p ← get_pool ref;
                  match p with
                  | None => lift Panic
                  | Some p => mret (if bool_decide (pool_Prefix p = dp_Prefix dp) then Some ref else None)
                  end
              end);
  match existing with
  | Some ref =>
      on_ref (Some ref) (on_pool (SetLeases (dp_MinLease dp) (dp_MaxLease dp)));; mret (inl ref)
  | None =>
      r ← lift (NewPool (dp_Prefix dp) (dp_MinLease dp) (dp_MaxLease dp));
      match r with
      | inr e => mret (inr e)
      | inl p => ref ← alloc_pool p; mret (inl ref)
      end
  end.

Definition check_pool : R (option nat) :=
  match uc_DynamicPool cfg with
  | None => mret None
  | Some dp =>
      if negb (PIsValid (dp_Prefix dp)) then fail ErrPoolPrefix;; mret None else
      r ← pool_for dp;
      match r with
      | inr e => fail (ErrPool e);; mret None
      | inl ref =>
          a4 ← lift (As4 (p_addr (dp_Prefix dp)));
          (if bool_decide (ClassifyIPv4 a4 = IPv4LinkLocal) then warn WarnLinkLocalPool else skip);;
          fail_if (negb (bool_decide (dp_StateFile dp = ""%string)) && negb (HasPrefix (dp_StateFile dp) "/")) ErrStateFile;;
          p ← get_pool ref;
          match p with
          | None => lift Panic
          | Some p => build_step (fun b => Ok (SetPool p b)) ErrSetPool
          end;;
          mret (Some ref)
      end
  end.

(** *** Addresses and routes *)

(** The automatic routes of an entry. *)
Definition entry_routes (ipv4 : Addr) (v6Derived : bool) (shared : option Shared) (shared6 : Addr) (e : Entry) : list Route :=
  let route p := mkRoute p 0 0 0 in
  match e_Kind e with
  | KindStatic =>
      if bool_decide (is_Some shared) && bool_decide (e_V6 e = PrefixFrom shared6 128) then []
      else route (e_V4 e) ::
           (if bool_decide (e_V4 e = PrefixFrom ipv4 32) && negb v6Derived then [route (e_V6 e)] else [])
  | KindRFC6052 => if bool_decide (is_Some shared) then [] else [route (e_V6 e)]
  | KindDynamicPool => [route (e_V4 e)]
  | KindDynamicHost => []
  end.

Definition auto_routes (ipv4 : Addr) (v6Derived : bool) (shared : option Shared) (shared6 : Addr) (t : Table) : list Route :=
  if boolOr (if_AutoRoutes (uc_Interface cfg)) true then
    concat (entry_routes ipv4 v6Derived shared shared6 <$> table_Entries t) ++
    (if bool_decide (is_Some shared) then [mkRoute (PrefixFrom (Addr4 0) 0) 0 0 0] else [])
  else [].

(** The two loops that fill [r.Routes4] and [r.Routes6]; [seen] holds the prefixes met. *)
Fixpoint add_routes (rs : list Route) (seen : list Prefix) (r4 r6 : list Route) : list Prefix * list Route * list Route :=
  match rs with
  | [] => (seen, r4, r6)
  | r :: rs =>
      if bool_decide (rt_Prefix r ∈ seen) then add_routes rs seen r4 r6
      else if Is4 (p_addr (rt_Prefix r)) then add_routes rs (rt_Prefix r :: seen) (r4 ++ [r]) r6
      else add_routes rs (rt_Prefix r :: seen) r4 (r6 ++ [r])
  end.

Definition all_routes (auto : list Route) : list Route * list Route :=
  let '(seen, r4, r6) := add_routes (route_netconf <$> if_Routes (uc_Interface cfg)) [] [] [] in
  let '(_, r4, r6) := add_routes auto seen r4 r6 in
  (r4, r6).

Definition addresses_of (clat : option CLAT) (shared : option Shared) : list Prefix :=
  dedupe (if_Addresses (uc_Interface cfg) ++
          match shared, clat with Some _, Some c => [PrefixFrom (cl_IPv4Address c) 32] | _, _ => [] end).

(** *** Logging and HTTP *)

Definition log_level : option LogLevel :=
  let l := ToLower (lg_Level (uc_Log cfg)) in
  if bool_decide (l ∈ [""; "info"]%string) then Some LevelInfo
  else if bool_decide (l = "debug"%string) then Some LevelDebug
  else if bool_decide (l ∈ ["warn"; "warning"]%string) then Some LevelWarn
  else if bool_decide (l = "error"%string) then Some LevelError
  else None.

Definition log_json : option bool :=
  let l := ToLower (lg_Format (uc_Log cfg)) in
  if bool_decide (l ∈ [""; "json"]%string) then Some true
  else if bool_decide (l = "text"%string) then Some false
  else None.

Definition packet_kind (s : string) : option (list Kind) :=
  let l := ToLower s in
  if bool_decide (l = "drop"%string) then Some [KindDrop]
  else if bool_decide (l = "reject"%string) then Some [KindReject]
  else if bool_decide (l = "icmp"%string) then Some [KindICMP]
  else if bool_decide (l = "self"%string) then Some [KindSelf]
  else if bool_decide (l ∈ ["dyn"; "dynamic"]%string) then Some [KindDynamic]
  else if bool_decide (l = "all"%string) then Some [KindDrop; KindReject; KindICMP; KindSelf; KindDynamic]
  else None.

Definition packet_kinds : option (list Kind) := @concat Kind <$> mapM packet_kind (lg_Packets (uc_Log cfg)).

Definition http_listen : string :=
  let l := ToLower (ht_Listen (uc_HTTP cfg)) in
  if bool_decide (l = ""%string) then DefaultHTTPListen
  else if bool_decide (l ∈ ["off"; "none"; "disabled"]%string) then ""
  else ht_Listen (uc_HTTP cfg).

(** *** The whole *)

(** Everything that is checked before the table is built, and what it found. *)
Record checked := mkChecked {
  ck_ipv4 : Addr;
  ck_clat : option CLAT;
  ck_shared6 : Addr;
  ck_shared : option Shared;
  ck_local6 : Addr;
  ck_derived : bool;
  ck_config6 : Addr;
  ck_pool : option nat;
}.

Definition check_all : R checked :=
  check_interface;;
  check_prefix;;
  '(ipv4, clat, shared6, shared) ← check_clat;
  check_maps 0 (uc_Maps cfg);;
  fail_if (negb (PIsValid (uc_Prefix cfg)) && bool_decide (uc_Maps cfg = [])) ErrNothing;;
  check_ipv4 ipv4;;
  '(local6, v6Derived) ← own_ipv6 ipv4;
  config6 ← check_self ipv4 local6 v6Derived;
  pool ← check_pool;
  mret (mkChecked ipv4 clat shared6 shared local6 v6Derived config6 pool).

(** [r.Config] at the end. *)
Definition effective (c : checked) : UserConfig :=
  mkUserConfig (interface_of (uc_Interface cfg)) (ck_ipv4 c) (ck_config6 c) (uc_Prefix cfg) (uc_WKPFStrict cfg)
    (uc_Maps cfg) (uc_DynamicPool cfg) (ck_clat c) (udp_mode_String (udp_mode_of (uc_UDPChecksum cfg)))
    (offlink_of (uc_OfflinkMTU cfg)) (uc_Log cfg) (uc_HTTP cfg).

(** What is left when the table is built: only the log settings can still fail. *)
Definition finish (c : checked) (t : Table) (warns : list Warning) : Resolved + list CfgErr :=
  let xlate := mkConfig (ck_ipv4 c) (ck_local6 c) (if_MTU (interface_of (uc_Interface cfg)))
                 (offlink_of (uc_OfflinkMTU cfg)) (udp_mode_of (uc_UDPChecksum cfg)) in
  let '(r4, r6) := all_routes (auto_routes (ck_ipv4 c) (ck_derived c) (ck_shared c) (ck_shared6 c) t) in
  match log_level with
  | None => inr [ErrLogLevel]
  | Some level =>
      match log_json with
      | None => inr [ErrLogFormat]
      | Some json =>
          match packet_kinds with
          | None => inr [ErrLogPackets]
          | Some kinds =>
              inl (mkResolved (effective c) xlate t (ck_pool c) (addresses_of (ck_clat c) (ck_shared c)) r4 r6
                     (ck_shared c) warns level json kinds http_listen)
          end
      end
  end.

Definition resolve_body : R (Resolved + list CfgErr) :=
  c ← check_all;
  errs ← gets rs_errs;
  if negb (bool_decide (errs = [])) then mret (inr errs) else
  b ← gets rs_b;
  t ← on_ref (ck_pool c) (Build b);
  match t with
  | inr e => mret (inr [ErrBuild e])
  | inl t => warns ← gets rs_warns; mret (finish c t warns)
  end.

(** [ResolveWith] on the store of pools. *)
Definition ResolveWith : M (list Pool) (Resolved + list CfgErr) := fun pools =>
  '(r, s) ← resolve_body (mkRstate [] [] (NewBuilder wkpfStrict) pools);
  Ok (r, rs_pools s).
End resolve.
