(* ===== verification/ResolveFacts.v ===== *)
(** * What validating a configuration establishes

    [good m P]: the step [m] returns, keeps the builder's and the pools' invariants,
    only adds errors and entries, leaves the hosts of every pool alone, and ensures [P]
    when no error was reported.  A configuration resolved without errors satisfies what
    the translator, the table, the pool and the kernel configuration each require. *)

From stdpp Require Import base tactics list numbers option strings gmap.
From Stdlib Require Import ZArith Lia.
From S2P Require Import Prelude Netip Netutil Text Strings Events Packet Layout Translator TranslatorFacts Pool PoolFacts PoolOps PoolSave PoolRun Table Join TableFacts TableMap Netconf NetconfFacts NetconfProps Configuration Resolve.

Open Scope Z_scope.

(** ** Prefixes *)

Lemma PrefixFrom_ok a n : addr_ok a -> prefix_ok (PrefixFrom a n).
Proof.
  intros Ha. unfold PrefixFrom. case_if; split_and!; cbn [p_addr p_bits].
  - by destruct a.
  - by destruct a.
  - bool_prop. right. destruct a; cbn [withoutZone BitLen] in *; lia.
  - by destruct a.
  - by destruct a.
  - by left.
Qed.

Lemma PrefixFrom_net_ok a n : addr_ok a -> IsValid a = true -> 0 <= n <= BitLen a -> net_ok (PrefixFrom a n).
Proof.
  intros Ha Hv Hn. split; [by apply PrefixFrom_ok|]. unfold PrefixFrom.
  rewrite Hv, !(proj2 (Z.leb_le _ _)) by lia. cbn. split; [lia|]. by destruct a.
Qed.

Lemma mask_hi_range w bits v : 0 <= bits <= w -> 0 <= v < 2 ^ w -> 0 <= mask_hi w bits v < 2 ^ w.
Proof.
  intros Hb Hv. unfold mask_hi. rewrite Z.shiftl_mul_pow2, Z.shiftr_div_pow2 by lia.
  assert (0 < 2 ^ (w - bits)) by (apply Z.pow_pos_nonneg; lia).
  pose proof (Z.mul_div_le v (2 ^ (w - bits)) ltac:(lia)). pose proof (Z.div_pos v (2 ^ (w - bits))). nia.
Qed.

Lemma Masked_net_ok p : net_ok p -> net_ok (Masked p).
Proof.
  intros ((Ha & Hz & Hb) & Hb0 & Hv). destruct p as [a b]. unfold Masked, PIsValid. cbn [p_bits p_addr] in *.
  rewrite (proj2 (Z.leb_le 0 b)) by done. destruct a as [|v|v z]; cbn [addr_prefix BitLen addr_ok IsValid] in *; [done| |];
    (split; [|split; [done|done]]); (split; [apply mask_hi_range; [lia|done]|split; [done|right; cbn [p_bits p_addr BitLen]; lia]]).
Qed.

Lemma Masked_net_ok_inv p : prefix_ok p -> net_ok (Masked p) -> net_ok p.
Proof.
  intros Hp (_ & Hb & Hv). split; [done|]. unfold Masked in *. destruct (PIsValid p) eqn:E; [|done].
  split; [by apply Z.leb_le|]. by destruct (p_addr p).
Qed.

(** ** Pools *)

(** The same pool, but for its leases and what is reserved. *)
Definition retuned (p p' : Pool) : Prop :=
  exists mn mx f, p' = with_leases mn mx (with_reserved f p).

Lemma retuned_refl p : retuned p p.
Proof. exists (p_minLease p), (p_maxLease p), (p_reserved p). by destruct p. Qed.

Lemma retuned_trans p1 p2 p3 : retuned p1 p2 -> retuned p2 p3 -> retuned p1 p3.
Proof. intros (a & b & f & ->) (a' & b' & f' & ->). by exists a', b', f'. Qed.

Definition pools_ok (l : list Pool) : Prop := Forall (fun p => exists H, repr p H) l.

(** Every pool is still there, with its hosts. *)
Definition pools_kept (l l' : list Pool) : Prop :=
  forall i p, l !! i = Some p -> exists p', l' !! i = Some p' /\ retuned p p'.

Lemma pools_kept_refl l : pools_kept l l.
Proof. intros i p Hp. exists p. split; [done|apply retuned_refl]. Qed.

Lemma pools_kept_trans l1 l2 l3 : pools_kept l1 l2 -> pools_kept l2 l3 -> pools_kept l1 l3.
Proof.
  intros H1 H2 i p Hp. destruct (H1 i p Hp) as (p' & Hp' & R1). destruct (H2 i p' Hp') as (p2 & Hp2 & R2).
  exists p2. split; [done|]. by eapply retuned_trans.
Qed.

Lemma pools_kept_app l p : pools_kept l (l ++ [p]).
Proof. intros i q Hq. exists q. split; [by apply lookup_app_l_Some|apply retuned_refl]. Qed.

Lemma pools_kept_insert l i p p' : l !! i = Some p -> retuned p p' -> pools_kept l (<[i := p']> l).
Proof.
  intros Hp R j q Hq. destruct (decide (j = i)) as [->|Hne].
  - exists p'. split; [apply list_lookup_insert_eq; by eapply lookup_lt_Some|congruence].
  - exists q. split; [by rewrite list_lookup_insert_ne|apply retuned_refl].
Qed.

(** ** Steps *)

(** The IPv6 side of an entry that is only for IPv4 is a prefix all the same. *)
Definition v6_prefixes (b : Builder) : Prop := forall e, e ∈ b_entries b -> e_v4Only e = true -> net_ok (e_V6 e).

Record rinv (s : rstate) : Prop := {
  ri_entries : entries_ok (rs_b s);
  ri_v6 : v6_prefixes (rs_b s);
  ri_no_pool : b_pool (rs_b s) = false;
  ri_pools : pools_ok (rs_pools s);
}.

Record rgrows (s s' : rstate) : Prop := {
  rg_entries : forall e, e ∈ b_entries (rs_b s) -> e ∈ b_entries (rs_b s');
  rg_strict : b_wkpfStrict (rs_b s') = b_wkpfStrict (rs_b s);
  rg_pools : pools_kept (rs_pools s) (rs_pools s');
}.

Lemma rgrows_refl s : rgrows s s.
Proof. constructor; [done|done|apply pools_kept_refl]. Qed.

Lemma rgrows_trans s1 s2 s3 : rgrows s1 s2 -> rgrows s2 s3 -> rgrows s1 s3.
Proof. intros [A1 A2 A3] [B1 B2 B3]. constructor; [auto|congruence|by eapply pools_kept_trans]. Qed.

(** What a step that started in [s] leaves. *)
Definition post {A} (s : rstate) (P : A -> rstate -> Prop) (a : A) (s' : rstate) : Prop :=
  rinv s' /\ rgrows s s' /\ (rs_errs s' = [] -> rs_errs s = [] /\ P a s').

Definition good {A} (m : M rstate A) (P : A -> rstate -> Prop) : Prop := forall s, rinv s -> wp m (post s P) s.

Lemma good_ret {A} (a : A) (P : A -> rstate -> Prop) : (forall s, P a s) -> good (mret a) P.
Proof. intros HP s I. apply wp_ret. split; [done|]. split; [apply rgrows_refl|]. auto. Qed.

Lemma good_skip (P : unit -> rstate -> Prop) : (forall s, P tt s) -> good skip P.
Proof. apply (good_ret tt). Qed.

Lemma good_bind {A B} (m : M rstate A) (k : A -> M rstate B) P Q :
  good m P -> (forall a, good (k a) (fun b s' => (exists s, rgrows s s' /\ P a s) -> Q b s')) -> good (m ≫= k) Q.
Proof.
  intros Hm Hk s I. apply wp_bind. eapply wp_mono; [by apply Hm|]. intros a s1 (I1 & G1 & E1).
  eapply wp_mono; [by apply Hk|]. intros b s2 (I2 & G2 & E2). split; [done|]. split; [by eapply rgrows_trans|].
  intros E. destruct (E2 E) as [E3 HQ]. destruct (E1 E3) as [E4 HP]. split; [done|]. apply HQ. eauto.
Qed.

Lemma good_weaken {A} (m : M rstate A) (P Q : A -> rstate -> Prop) :
  good m P -> (forall a s, P a s -> Q a s) -> good m Q.
Proof.
  intros Hm HPQ s I. eapply wp_mono; [by apply Hm|]. intros a s' (I' & G' & E'). split; [done|]. split; [done|].
  intros E. destruct (E' E). auto.
Qed.

(** Nothing is claimed after an error. *)
Lemma good_fail {P : unit -> rstate -> Prop} e : good (fail e) P.
Proof.
  intros s [I1 I0 I2 I3]. apply wp_modify. split; [by constructor|]. split; [constructor; [done|done|apply pools_kept_refl]|].
  cbn. intros E. by apply app_eq_nil in E as [_ ?].
Qed.

Lemma good_fail_then {A} e (m : M rstate A) P : good m (fun _ _ => True) -> good (fail e;; m) P.
Proof.
  intros Hm. eapply (good_bind _ _ (fun _ _ => False)); [apply good_fail|]. intros _.
  eapply good_weaken; [exact Hm|]. by intros a s _ (s0 & _ & []).
Qed.

Lemma good_warn w (P : unit -> rstate -> Prop) : (forall s, P tt s) -> good (warn w) P.
Proof.
  intros HP s [I1 I0 I2 I3]. apply wp_modify. split; [by constructor|]. split; [constructor; [done|done|apply pools_kept_refl]|]. auto.
Qed.

Lemma good_fail_if c e : good (fail_if c e) (fun _ _ => c = false).
Proof. destruct c; cbn; [apply good_fail|]. by apply good_skip. Qed.

Lemma good_lift {A} (o : outcome A) (P : A -> rstate -> Prop) : owp o (fun a => forall s, P a s) -> good (lift o) P.
Proof.
  intros Ho s I. apply wp_lift. eapply owp_mono; [exact Ho|]. intros a HP. split; [done|]. split; [apply rgrows_refl|]. auto.
Qed.

Lemma good_no_errs : good no_errs (fun ok _ => ok = true).
Proof.
  intros s I. apply wp_gets. split; [done|]. split; [apply rgrows_refl|]. intros ->. split; [done|]. by apply bool_decide_eq_true.
Qed.

(** A builder method that leaves the pool alone. *)
Definition builder_step_ok (f : Builder -> outcome (Builder + BuildErr)) (P : Builder -> Prop) : Prop :=
  forall b, entries_ok b -> owp (f b) (fun r => forall b', r = inl b' ->
    entries_ok b' /\ b_pool b' = b_pool b /\ b_wkpfStrict b' = b_wkpfStrict b /\
    (forall e, e ∈ b_entries b -> e ∈ b_entries b') /\
    (forall e, e ∈ b_entries b' -> e ∈ b_entries b \/ (e_v4Only e = true -> net_ok (e_V6 e))) /\ P b').

Lemma good_build_step f wrap P : builder_step_ok f P -> good (build_step f wrap) (fun _ s => P (rs_b s)).
Proof.
  intros Hf s [I1 I0 I2 I3]. unfold wp, build_step. pose proof (Hf (rs_b s) I1) as H. destruct (f (rs_b s)) as [[b|e]| |]; try done.
  - cbn. destruct (H b eq_refl) as (Hb & Hp & Hs & Hin & Hout & HP).
    split; [constructor; cbn; [done| |congruence|done]|].
    { intros e He Hv. destruct (Hout e He) as [Hold|Hnew]; [by apply I0|by apply Hnew]. }
    split; [constructor; [done|done|apply pools_kept_refl]|]. auto.
  - cbn. split; [by constructor|]. split; [constructor; [done|done|apply pools_kept_refl]|].
    cbn. intros E. by apply app_eq_nil in E as [_ ?].
Qed.

Lemma add_entry_frame k v4 v6 o b :
  b_pool (add_entry k v4 v6 o b) = b_pool b /\ b_wkpfStrict (add_entry k v4 v6 o b) = b_wkpfStrict b /\
  (forall e, e ∈ b_entries b -> e ∈ b_entries (add_entry k v4 v6 o b)) /\
  (forall e, e ∈ b_entries (add_entry k v4 v6 o b) -> e ∈ b_entries b \/ e_v4Only e = o /\ e_V6 e = v6) /\
  mkEntry (length (b_entries b)) k v4 v6 o ∈ b_entries (add_entry k v4 v6 o b).
Proof.
  split; [done|]. split; [done|]. cbn. split; [intros e He; apply elem_of_app; by left|]. split.
  - intros e [He|He%list_elem_of_singleton]%elem_of_app; [by left|right; by subst].
  - apply elem_of_app. right. by left.
Qed.

(** The IPv6 side of a new entry. *)
Ltac new_v6 := intros ?; first [congruence|by auto].

Lemma AddPrefix_step p : prefix_ok p -> builder_step_ok (fun b => Ok (AddPrefix p b)) (fun b =>
  exists e, e ∈ b_entries b /\ e_Kind e = KindRFC6052 /\ e_V6 e = p).
Proof.
  intros Hp b B. apply owp_ok. intros b' E. split; [by apply (AddPrefix_ok b B p)|].
  unfold AddPrefix in E. repeat (case_if; [done|]). injection E as <-.
  destruct (add_entry_frame KindRFC6052 (PrefixFrom (Addr4 0) 0) p false b) as (F1 & F2 & Hin & Hout & He).
  split; [exact F1|]. split; [exact F2|]. split; [exact Hin|].
  split; [intros e0 He0; destruct (Hout e0 He0) as [?|[Hv ->]]; [by left|right; new_v6]|]. eexists. split; [exact He|done].
Qed.

(** The entry a static map makes. *)
Definition static_added (v4 v6 : Prefix) (b : Builder) : Prop :=
  exists e, e ∈ b_entries b /\ e_Kind e = KindStatic /\ e_V4 e = v4 /\ e_V6 e = v6.

Lemma AddStatic_step v4 v6 : prefix_ok v4 -> prefix_ok v6 -> builder_step_ok (AddStatic v4 v6) (static_added v4 v6).
Proof.
  intros H4 H6 b B. pose proof (AddStatic_ok b B v4 v6 H4 H6) as H. eapply owp_run in H as (r & E & H). rewrite E.
  apply owp_ok. intros b' ->. split; [done|]. unfold AddStatic in E.
  repeat (case_if; [done|]). destruct (As4 _); try done. cbn in E. repeat (case_if; [done|]). injection E as <-.
  destruct (add_entry_frame KindStatic v4 v6 false b) as (F1 & F2 & Hin & Hout & He).
  split; [exact F1|]. split; [exact F2|]. split; [exact Hin|].
  split; [intros e0 He0; destruct (Hout e0 He0) as [?|[Hv ->]]; [by left|right; new_v6]|]. eexists. split; [exact He|done].
Qed.

Lemma AddSelf_step v4 v6 derived : addr_ok v4 -> addr_ok v6 -> (derived = true -> Is6 v6 = true) ->
  builder_step_ok (AddSelf v4 v6 derived) (static_added (PrefixFrom v4 32) (PrefixFrom v6 128)).
Proof.
  intros H4 H6 HI b B. assert (HV : derived = true -> net_ok (PrefixFrom v6 128)).
  { intros Hd. apply HI in Hd. apply PrefixFrom_net_ok; destruct v6; cbn; try done; lia. }
  destruct derived.
  - pose proof (AddSelf_ok b B v4 v6 true H4 H6) as H. eapply owp_run in H as (r & E & H). rewrite E.
    apply owp_ok. intros b' ->. split; [done|]. unfold AddSelf in E. cbn [negb] in E.
    case_if; [done|]. destruct (As4 v4); try done. cbn in E. case_if; [done|]. injection E as <-.
    destruct (add_entry_frame KindStatic (PrefixFrom v4 32) (PrefixFrom v6 128) true b) as (F1 & F2 & Hin & Hout & He).
    split; [exact F1|]. split; [exact F2|]. split; [exact Hin|].
  split; [intros e0 He0; destruct (Hout e0 He0) as [?|[Hv ->]]; [by left|right; new_v6]|]. eexists. split; [exact He|done].
  - unfold AddSelf. cbn [negb]. apply AddStatic_step; [by apply PrefixFrom_ok..|done].
Qed.

(** ** Results that do not depend on errors *)

Definition yields {A} (m : M rstate A) (U : A -> Prop) : Prop := forall s a s', m s = Ok (a, s') -> U a.

Lemma yields_ret {A} (a : A) (U : A -> Prop) : U a -> yields (mret a) U.
Proof. by intros HU s b s' [= <- <-]. Qed.

Lemma yields_bind {A B} (m : M rstate A) (k : A -> M rstate B) V U :
  yields m V -> (forall a, V a -> yields (k a) U) -> yields (m ≫= k) U.
Proof.
  intros Hm Hk s b s'. unfold mbind, M_bind. destruct (m s) as [[a s1]| |] eqn:E; [|done..].
  intros E'. eapply Hk; [by eapply Hm|exact E'].
Qed.

Lemma yields_any {A} (m : M rstate A) : yields m (fun _ => True).
Proof. done. Qed.

Lemma yields_lift {A} (o : outcome A) (U : A -> Prop) : (forall a, o = Ok a -> U a) -> yields (lift o) U.
Proof. intros HU s a s'. unfold lift. destruct o; [|done..]. intros [= <- <-]. by apply HU. Qed.

Lemma good_bind_yields {A B} (m : M rstate A) (k : A -> M rstate B) U P Q :
  good m P -> yields m U ->
  (forall a, U a -> good (k a) (fun b s' => (exists s, rgrows s s' /\ P a s) -> Q b s')) -> good (m ≫= k) Q.
Proof.
  intros Hm HU Hk s I. apply wp_bind. pose proof (Hm s I) as H. apply wp_run in H as (a & s1 & E & I1 & G1 & E1).
  unfold wp at 1. rewrite E. eapply wp_mono; [apply Hk; [by eapply HU|done]|]. intros b s2 (I2 & G2 & E2).
  split; [done|]. split; [by eapply rgrows_trans|].
  intros E0. destruct (E2 E0) as [E3 HQ]. destruct (E1 E3) as [E4 HP]. split; [done|]. apply HQ. eauto.
Qed.

(** ** The parts *)

(** The addresses and prefixes are values of their types: numbers within their
    width.  Nothing is said of their being valid; the empty text decodes to the zero
    prefix. *)
Record config_ok (cfg : UserConfig) : Prop := {
  co_addrs : Forall prefix_ok (if_Addresses (uc_Interface cfg));
  co_routes : Forall (fun r => prefix_ok (rt_Prefix r)) (if_Routes (uc_Interface cfg));
  co_ipv4 : addr_ok (uc_IPv4Address cfg);
  co_ipv6 : addr_ok (uc_IPv6Address cfg);
  co_prefix : prefix_ok (uc_Prefix cfg);
  co_pool : match uc_DynamicPool cfg with Some dp => prefix_ok (dp_Prefix dp) | None => True end;
  co_clat : match uc_CLAT cfg with Some c => addr_ok (cl_IPv4Address c) | None => True end;
}.

Definition source_ok (ro : ResolveOptions) : Prop :=
  match ro_SourceAddr ro with Some f => forall d a, f d = Some a -> addr_ok a /\ IsValid a = true | None => True end.

Section parts.
Context {AT : AddrText} {PT : PrefixText} {PL : ParseLaws}.
Context (cfg : UserConfig) (ro : ResolveOptions) (C : config_ok cfg) (SO : source_ok ro).

Lemma check_interface_good : good (check_interface cfg) (fun _ _ =>
  1280 <= if_MTU (interface_of (uc_Interface cfg)) <= 65535 /\ 1280 <= offlink_of (uc_OfflinkMTU cfg)).
Proof.
  unfold check_interface. eapply good_bind; [apply good_fail_if|intros ?]. eapply good_bind; [apply good_fail_if|intros ?].
  eapply good_bind; [apply good_fail_if|intros ?]. eapply good_weaken; [apply good_fail_if|].
  intros ? s _ (s1 & _ & H1) (s2 & _ & H2) _. bool_prop. lia.
Qed.

Lemma check_prefix_good : good (check_prefix cfg) (fun _ s =>
  PIsValid (uc_Prefix cfg) = true -> exists e, e ∈ b_entries (rs_b s) /\ e_Kind e = KindRFC6052 /\ e_V6 e = uc_Prefix cfg).
Proof.
  unfold check_prefix. case_if; [|by apply good_skip].
  eapply good_weaken; [apply good_build_step, AddPrefix_step, (co_prefix _ C)|]. auto.
Qed.

Lemma parse_filters_good ports : good (parse_filters ports) (fun _ _ => True).
Proof.
  induction ports as [|p ports IH]; cbn [parse_filters]; [by apply good_ret|].
  destruct (ParseFilter p); [|by apply good_fail_then].
  eapply good_bind; [exact IH|]. intros fs. by apply good_ret.
Qed.

Lemma shared_address_good cc : good (shared_address cfg ro cc) (fun a _ => PIsValid (uc_Prefix cfg) = true /\ IsValid a = true).
Proof.
  unfold shared_address. case_if; [by apply good_fail_then, good_ret|]. apply negb_false_iff in E. case_if.
  - pose proof SO as HS. unfold source_ok in HS. destruct (ro_SourceAddr ro) as [f|]; [|by apply good_fail_then, good_ret].
    destruct (f _) as [a|] eqn:Ef; [|by apply good_fail_then, good_ret]. apply HS in Ef as [_ Hv].
    eapply good_bind; [by apply (good_warn _ (fun _ _ => True))|]. intros ?. by apply good_ret.
  - destruct (ParseAddr _) as [a|] eqn:Ea; [|by apply good_fail_then, good_ret].
    apply ParseAddr_ok in Ea as [_ ?]. by apply good_ret.
Qed.

Lemma shared_address_yields cc : yields (shared_address cfg ro cc) addr_ok.
Proof.
  assert (HZ : addr_ok AddrZero) by exact I.
  unfold shared_address. case_if; [eapply yields_bind; [apply yields_any|]; intros; by apply yields_ret|]. case_if.
  - pose proof SO as HS. unfold source_ok in HS. destruct (ro_SourceAddr ro) as [f|]; [|eapply yields_bind; [apply yields_any|]; intros; by apply yields_ret].
    destruct (f _) as [a|] eqn:Ef; (eapply yields_bind; [apply yields_any|]; intros; apply yields_ret); [|done]. by apply HS in Ef as [? _].
  - destruct (ParseAddr _) as [a|] eqn:Ea; [|eapply yields_bind; [apply yields_any|]; intros; by apply yields_ret].
    apply yields_ret. by apply ParseAddr_ok in Ea as [? _].
Qed.

(** What [check_clat] finds. *)
Definition clat_found (r : Addr * option CLAT * Addr * option Shared) : Prop :=
  let '(ipv4, clat, shared6, shared) := r in
  match shared with
  | None => clat = None
  | Some s => sh_Addr s = shared6 /\ sh_From s = uc_Prefix cfg /\ PIsValid (uc_Prefix cfg) = true /\ sh_Table s <> 0 /\
      exists c, clat = Some c /\ Is4 (cl_IPv4Address c) = true /\ addr_ok (cl_IPv4Address c)
  end.

Lemma check_clat_yields : yields (check_clat cfg ro) (fun r => addr_ok r.1.1.1).
Proof.
  pose proof (co_ipv4 _ C) as H4. unfold check_clat. destruct (uc_CLAT cfg) as [c|]; [|by apply yields_ret].
  do 5 (eapply yields_bind; [apply yields_any|intros ? _]). eapply yields_bind; [apply yields_any|intros ? _].
  apply yields_ret. cbn. case_if; [done|]. cbn. unfold DefaultCLATTranslatorIPv4. vm_compute. by split.
Qed.

Lemma check_clat_good : good (check_clat cfg ro) (fun r _ => clat_found r).
Proof.
  unfold check_clat. destruct (uc_CLAT cfg) as [c|] eqn:Ec; [|by apply good_ret].
  pose proof (co_clat _ C) as Hc. rewrite Ec in Hc.
  set (ipv4 := if IsValid (uc_IPv4Address cfg) then _ else _).
  set (host4 := if IsValid (cl_IPv4Address c) then _ else _). set (table := if cl_Table c =? 0 then _ else _).
  assert (Hh : addr_ok host4). { subst host4. case_if; [done|]. vm_compute. by split. }
  eapply (good_bind _ _ (fun _ _ => Is4 host4 = true)).
  { destruct (Is4 host4); [|apply good_fail]. eapply good_weaken; [apply good_fail_if|done]. }
  intros ?. eapply (good_bind _ _ (fun _ _ => table <> 0)).
  { case_if; [apply good_fail|]. eapply good_weaken; [apply good_fail_if|]. intros ? ? Hf. cbv beta in Hf. bool_prop. lia. }
  intros ?. eapply good_bind; [apply parse_filters_good|]. intros filters.
  eapply good_bind_yields; [apply shared_address_good|apply shared_address_yields|]. intros shared6 Hs6.
  eapply (good_bind _ _ (fun _ _ => True)).
  { case_if; [by apply good_ret|]. do 3 (case_if; [by apply good_fail_then, good_ret|]).
    eapply good_bind; [apply good_build_step, AddStatic_step; by apply PrefixFrom_ok|]. intros ?. by apply good_ret. }
  intros text6. eapply good_bind; [apply good_no_errs|]. intros ok. apply good_ret.
  intros s (? & _ & ->) _ (? & _ & Hv & _) _ (? & _ & Ht) (? & _ & H4). cbn. split_and!; try done. eauto.
Qed.
Lemma parseAddrOrPrefix_ok s p : parseAddrOrPrefix s = Some p -> prefix_ok p.
Proof.
  unfold parseAddrOrPrefix. case_if; [by intros [? _]%ParsePrefix_ok|].
  destruct (ParseAddr s) as [a|] eqn:Ea; [|done]. cbn. intros [= <-]. apply ParseAddr_ok in Ea as [? _]. by apply PrefixFrom_ok.
Qed.

Lemma good_As4 a (P : list Z -> rstate -> Prop) :
  Is4 a = true -> (forall l s, As4 a = Ok l -> P l s) -> good (lift (As4 a)) P.
Proof.
  intros H4 HP. apply good_lift. destruct (As4_shape a H4) as (l & E & _). rewrite E. apply owp_ok. intros s. by apply HP.
Qed.

Lemma check_maps_good i maps : good (check_maps i maps) (fun _ _ => True).
Proof.
  revert i. induction maps as [|m maps IH]; intros i; cbn [check_maps]; [by apply good_skip|].
  eapply (good_bind _ _ (fun _ _ => True)); [|intros ?; eapply good_weaken; [apply IH|done]].
  destruct (parseAddrOrPrefix (sm_IPv4 m)) as [p4|] eqn:E4; [|apply good_fail].
  destruct (parseAddrOrPrefix (sm_IPv6 m)) as [p6|] eqn:E6; [|apply good_fail].
  apply parseAddrOrPrefix_ok in E4, E6. eapply (good_bind _ _ (fun _ _ => True)).
  - case_if; [|by apply good_skip]. eapply (good_bind _ _ (fun _ _ => True)); [by apply good_As4|]. intros a4.
    case_if; [by apply good_warn|by apply good_skip].
  - intros ?. eapply good_weaken; [by apply good_build_step, AddStatic_step|done].
Qed.

Lemma check_ipv4_good ipv4 : good (check_ipv4 ipv4) (fun _ _ => Is4 ipv4 = true).
Proof.
  unfold check_ipv4. case_if; [apply good_fail|]. case_if; [apply good_fail|]. apply negb_false_iff in E0.
  eapply (good_bind _ _ (fun _ _ => True)); [by apply good_As4|]. intros a4.
  destruct (ClassifyIPv4 a4); [by apply good_skip|by apply good_warn|apply good_fail].
Qed.

(** The address embedded in the prefix. *)
Lemma embed_own_ok ipv4 :
  Is4 ipv4 = true -> PIsValid (uc_Prefix cfg) = true ->
  owp (embed_own cfg ipv4) (fun r => match r with inl a16 => length a16 = 16%nat /\ bytes_ok a16 | inr _ => True end).
Proof.
  intros H4 Hv. destruct (As4_shape _ H4) as (a & E & Hl & Hb). unfold embed_own. rewrite E. cbn [mbind outcome_bind].
  pose proof (length_As16 (p_addr (uc_Prefix cfg))) as H16. pose proof (As16_ok (p_addr (uc_Prefix cfg))) as Hb16.
  destruct (ValidRFC6052PrefixLen (p_bits (uc_Prefix cfg))) eqn:En.
  - destruct (Extract_Embed_ok _ _ _ En H16 Hl) as (out & Eo & Hlo & _). rewrite Eo. cbn. split; [done|].
    by apply (Embed_bytes _ _ _ _ En H16 Hb16 Hl Hb Eo).
  - rewrite (Embed_invalid _ _ _ En H16); [done|]. destruct (co_prefix _ C) as (_ & _ & Hbits).
    unfold PIsValid in Hv. bool_prop. destruct (p_addr (uc_Prefix cfg)); cbn in Hbits; lia.
Qed.

Lemma AddrFrom16_own a16 : length a16 = 16%nat -> bytes_ok a16 -> addr_ok (AddrFrom16 a16).
Proof. intros Hl Hb. pose proof (be_range a16 Hb) as Hr. unfold len in Hr. rewrite Hl in Hr. exact Hr. Qed.

Lemma derived_address_ok ipv4 :
  owp (derived_address cfg ipv4) (fun a => addr_ok a /\ (IsValid a = true -> Is6 a = true)).
Proof.
  unfold derived_address. case_if; [|by apply owp_ok]. apply andb_true_iff in E as [Hv H4].
  apply owp_bind. eapply owp_mono; [by apply embed_own_ok|]. intros [a16|] Ha; [|by apply owp_ok].
  apply owp_ok. split; [apply AddrFrom16_own; apply Ha|done].
Qed.

Lemma derived_yields ipv4 a : derived_address cfg ipv4 = Ok a -> addr_ok a /\ (IsValid a = true -> Is6 a = true).
Proof. intros E. pose proof (derived_address_ok ipv4) as H. by rewrite E in H. Qed.

Lemma own_ipv6_good ipv4 : good (own_ipv6 cfg ipv4) (fun r _ => Is4 ipv4 = true -> Is6 r.1 = true).
Proof.
  unfold own_ipv6. eapply good_bind; [apply good_lift; eapply owp_mono; [apply derived_address_ok|]; intros a Ha s; exact Ha|].
  intros derived. case_if.
  { apply good_ret. intros s (? & _ & _ & H6) _. apply andb_true_iff in E as [Hv He]. apply bool_decide_eq_true in He.
    cbn. rewrite He in Hv |- *. by apply H6. }
  case_if.
  { eapply (good_bind _ _ (fun _ _ => Is6 (uc_IPv6Address cfg) = true)).
    - case_if; [apply good_fail|]. apply orb_false_iff in E1 as [H6 _]. apply negb_false_iff in H6.
      do 2 (case_if; [apply good_fail|]). eapply good_weaken; [apply good_fail_if|done].
    - intros ?. by apply good_ret; intros ? (? & _ & ?) ?. }
  case_if; [by apply good_fail_then, good_ret|]. apply negb_false_iff in E1. case_if; [|by apply good_ret].
  eapply (good_bind _ _ (fun _ _ => True)); [by apply good_As4|]. intros a4.
  eapply (good_bind _ _ (fun _ _ => True)); [apply good_lift; by eapply owp_mono; [by apply embed_own_ok|]|]. intros [a16|];
    [|by apply good_fail_then, good_ret].
  case_if; [by apply good_fail_then, good_ret|]. case_if; [by apply good_fail_then, good_ret|]. by apply good_ret.
Qed.

Lemma own_ipv6_yields ipv4 : yields (own_ipv6 cfg ipv4) (fun r => addr_ok r.1 /\ (r.2 = true -> Is6 r.1 = true)).
Proof.
  pose proof (co_ipv6 _ C) as H6. unfold own_ipv6. eapply yields_bind; [apply (yields_lift _ _ (fun a Ea => proj2 (derived_yields ipv4 a Ea)))|]. intros derived Hd.
  case_if; [apply yields_ret; cbn; split; [done|]; intros _; apply andb_true_iff in E as [Hv He];
    apply bool_decide_eq_true in He; rewrite He in Hv |- *; by apply Hd|]. case_if; [eapply yields_bind; [apply yields_any|]; intros ? _; by apply yields_ret|].
  case_if; [eapply yields_bind; [apply yields_any|]; intros ? _; by apply yields_ret|]. case_if; [|by apply yields_ret].
  eapply yields_bind; [apply yields_any|]. intros a4 _.
  eapply (yields_bind _ _ (fun r => match r with inl a16 => length a16 = 16%nat /\ bytes_ok a16 | inr _ => True end)).
  - apply yields_lift. intros r Er. apply negb_false_iff in E1. pose proof (embed_own_ok ipv4 E2 E1) as H. by rewrite Er in H.
  - intros [a16|] Ha; [|eapply yields_bind; [apply yields_any|]; intros ? _; by apply yields_ret].
    do 2 (case_if; [eapply yields_bind; [apply yields_any|]; intros ? _; by apply yields_ret|]).
    apply yields_ret. cbn. split; [apply AddrFrom16_own; apply Ha|done].
Qed.

Lemma check_self_good ipv4 local6 derived : addr_ok ipv4 -> addr_ok local6 -> (derived = true -> Is6 local6 = true) ->
  good (check_self cfg ipv4 local6 derived) (fun _ s => static_added (PrefixFrom ipv4 32) (PrefixFrom local6 128) (rs_b s)).
Proof.
  intros H4 H6 HI. unfold check_self. eapply good_bind; [apply good_no_errs|]. intros [].
  - eapply good_bind; [by apply good_build_step, AddSelf_step|]. intros ?. apply good_ret.
    intros s (s0 & [Hin _ _] & e & He & Hk & H4' & H6') _. exists e. split; [by apply Hin|done].
  - apply good_ret. by intros s (? & _ & ?).
Qed.
End parts.
