(* ===== verification/EnvProps.v ===== *)
(** * What the environment does to a configuration

    Every field is what its variables say, or what it was; the order in which they are
    read shows only in the fields that are made of several. *)

From stdpp Require Import base tactics list numbers option strings gmap sorting.
From Stdlib Require Import ZArith Lia Ascii.
From S2P Require Import Prelude Netip Text Strings Netconf NetconfFacts NetconfProps Configuration Resolve ResolveFacts Env.

Open Scope Z_scope.

Section env.
Context {AT : AddrText} {PT : PrefixText}.
Context (Decode : string -> UserConfig -> UserConfig * option YAMLErr).
Context (lookup : string -> option string).

Local Abbreviation get := (get lookup).
Implicit Types c : UserConfig.

(** ** A variable *)

(** The value a variable has, when it has a good one. *)
Definition value_of {A} (name : string) (parse : string -> option A) : option A := v ← get name; parse v.

(** The error of a variable whose value is not one. *)
Definition bad {A} (name : string) (parse : string -> option A) : list EnvErr :=
  match get name with
  | Some v => match parse v with None => [BadVariable name] | Some _ => [] end
  | None => []
  end.

(** A value put where it belongs. *)
Definition put {A} (o : option A) (set : A -> UserConfig -> UserConfig) c : UserConfig :=
  match o with Some x => set x c | None => c end.

Lemma variable_put {A} name (parse : string -> option A) set s :
  variable lookup name parse set s = (put (value_of name parse) set s.1, s.2 ++ bad name parse).
Proof.
  unfold variable, value_of, bad. destruct s as [c e]. destruct (get name) as [v|]; cbn; [|by rewrite app_nil_r].
  destruct (parse v); cbn; by rewrite ?app_nil_r.
Qed.

(** What a field is after it: the value, when the variable is the field's, or what it
    was. *)
Lemma put_frame {A B} (P : UserConfig -> B) (o : option A) set c old :
  (forall x c, P (set x c) = P c) -> P c = old -> P (put o set c) = old.
Proof. intros E <-. by destruct o; cbn. Qed.

Lemma put_field {A B} (P : UserConfig -> B) (o : option A) set (g : A -> B) c old :
  (forall x c, P (set x c) = g x) -> P c = old -> P (put o set c) = match o with Some x => g x | None => old end.
Proof. intros E <-. by destruct o; cbn. Qed.

Lemma put_default {B} (P : UserConfig -> B) (o : option B) set c old :
  (forall x c, P (set x c) = x) -> P c = old -> P (put o set c) = default old o.
Proof. intros E <-. by destruct o; cbn. Qed.

Lemma value_str name : value_of name Some = get name.
Proof. unfold value_of. by destruct (get name). Qed.

(** ** The maps *)

Definition bad_entry (entry : string) : option EnvErr :=
  match parse_map entry with None => Some (BadMap entry) | Some _ => None end.
Definition bad_maps : list EnvErr := match get "MAPS" with Some v => omap bad_entry (splitList v) | None => [] end.

Definition maps_of (old : list StaticMap) : list StaticMap :=
  match get "MAPS" with Some v => omap parse_map (splitList v) | None => old end.

Lemma add_maps l c e :
  foldl add_map (c, e) l = (set_Maps (uc_Maps c ++ omap parse_map l) c, e ++ omap bad_entry l).
Proof.
  revert c e. induction l as [|x l IH]; intros c e; cbn.
  - rewrite !app_nil_r. by destruct c.
  - unfold add_map at 2, bad_entry at 1. cbn. destruct (parse_map x) as [m|]; rewrite IH; cbn; by rewrite <- app_assoc.
Qed.

Lemma env_maps_put s : env_maps lookup s = (set_Maps (maps_of (uc_Maps s.1)) s.1, s.2 ++ bad_maps).
Proof.
  unfold env_maps, maps_of, bad_maps. destruct s as [c e]. destruct (get "MAPS") as [v|]; cbn [fst snd].
  - by rewrite add_maps.
  - rewrite app_nil_r. by destruct c.
Qed.

(** ** The state directory *)

Definition state_file_of (d : DynamicPool) : DynamicPool :=
  match lookup "STATE_DIRECTORY" with
  | Some sd =>
      if bool_decide (dp_StateFile d = ""%string) && negb (bool_decide ((Cut sd ":"%char).1.1 = ""%string))
      then set_StateFile (path_Join (Cut sd ":"%char).1.1 "dynamic.map") d else d
  | None => d
  end.

Lemma state_directory_put s :
  state_directory lookup s = (set_DynamicPool (state_file_of <$> uc_DynamicPool s.1) s.1, s.2).
Proof.
  destruct s as [c e]. unfold state_directory. cbn [fst snd].
  assert (Same : uc_DynamicPool c = state_file_of <$> uc_DynamicPool c ->
    (c, e) = (set_DynamicPool (state_file_of <$> uc_DynamicPool c) c, e)) by (intros <-; by destruct c).
  unfold state_file_of in *. destruct (lookup "STATE_DIRECTORY") as [sd|]; [|apply Same; by destruct (uc_DynamicPool c)].
  destruct (uc_DynamicPool c) as [d|] eqn:Ed; cbn in *; [|by apply Same].
  case_bool_decide as E1; cbn in *; [|by apply Same]. case_bool_decide as E2; cbn in *; [by apply Same|].
  unfold on_pool. by rewrite Ed.
Qed.

(** ** Every field *)

Definition parse_prefixes (v : string) : option (list Prefix) := mapM parseAddrOrPrefix (splitList v).
Definition bare_routes (l : list Prefix) : list Route := (fun p => mkRoute p 0 0 0) <$> l.
Definition list_of (v : string) : option (list string) := Some (splitList v).

(** The errors, in the order of the variables. *)
Definition env_errors : list EnvErr :=
  bad "MTU" Atoi ++ bad "INTERFACE_CONFIGURE" parseBool ++ bad "INTERFACE_AUTO_ROUTES" parseBool ++
  bad "INTERFACE_SYSCTL" parseBool ++ bad "INTERFACE_ADDRESSES" parse_prefixes ++
  bad "INTERFACE_ROUTES" parse_prefixes ++
  bad "IPV4_ADDRESS" ParseAddr ++ bad "IPV6_ADDRESS" ParseAddr ++ bad "PREFIX" ParsePrefix ++ bad "WKPF_STRICT" parseBool ++
  bad "CLAT" parseBool ++ bad "CLAT_IPV4_ADDRESS" ParseAddr ++ bad "CLAT_TABLE" (fun v => ParseInt0 v 32) ++ bad_maps ++
  bad "DYNAMIC_POOL" parse_pool ++ bad "OFFLINK_MTU" Atoi ++ bad "HTTP_ADMIN" parseBool.

Definition part {A B} (zero : B) (o : option A) (g : A -> B -> B) (old : option B) : option B :=
  match o with Some x => Some (g x (default zero old)) | None => old end.

(** The CLAT: switched on or off first, and made by any of its settings. *)
Definition clat_of (old : option CLAT) : option CLAT :=
  let base := match value_of "CLAT" parseBool with
              | Some true => Some (default CLAT_zero old)
              | Some false => None
              | None => old
              end in
  let six := get "CLAT_IPV6_ADDRESS" in
  let four := value_of "CLAT_IPV4_ADDRESS" ParseAddr in
  let ports := value_of "CLAT_PORTS" list_of in
  let table := value_of "CLAT_TABLE" (fun v => ParseInt0 v 32) in
  let c := default CLAT_zero base in
  if bool_decide (six = None /\ four = None /\ ports = None /\ table = None) then base
  else Some (mkCLAT (default (cl_IPv6Address c) six) (default (cl_IPv4Address c) four)
               (default (cl_Ports c) ports) (default (cl_Table c) table)).

(** The pool: its prefix or no pool, and the state file. *)
Definition pool_of (old : option DynamicPool) : option DynamicPool :=
  let base := match value_of "DYNAMIC_POOL" parse_pool with
              | Some (Some p) => let d := default DynamicPool_zero old in
                  Some (mkDynamicPool p (dp_StateFile d) (dp_MinLease d) (dp_MaxLease d))
              | Some None => None
              | None => old
              end in
  state_file_of <$> part DynamicPool_zero (get "DYNAMIC_POOL_STATE_FILE") set_StateFile base.

(** [c] is [c0] with the environment's variables. *)
Record from_env c0 c : Prop := {
  fe_Name : if_Name (uc_Interface c) = default (if_Name (uc_Interface c0)) (get "INTERFACE");
  fe_MTU : if_MTU (uc_Interface c) = default (if_MTU (uc_Interface c0)) (value_of "MTU" Atoi);
  fe_Configure : if_Configure (uc_Interface c) =
    match value_of "INTERFACE_CONFIGURE" parseBool with Some b => Some b | None => if_Configure (uc_Interface c0) end;
  fe_AutoRoutes : if_AutoRoutes (uc_Interface c) =
    match value_of "INTERFACE_AUTO_ROUTES" parseBool with Some b => Some b | None => if_AutoRoutes (uc_Interface c0) end;
  fe_Sysctl : if_Sysctl (uc_Interface c) =
    match value_of "INTERFACE_SYSCTL" parseBool with Some b => Some b | None => if_Sysctl (uc_Interface c0) end;
  fe_Addresses : if_Addresses (uc_Interface c) = default (if_Addresses (uc_Interface c0))
    (value_of "INTERFACE_ADDRESSES" parse_prefixes);
  fe_Routes : if_Routes (uc_Interface c) = 
    match value_of "INTERFACE_ROUTES" parse_prefixes with Some l => bare_routes l | None => if_Routes (uc_Interface c0) end;
  fe_IPv4Address : uc_IPv4Address c = default (uc_IPv4Address c0) (value_of "IPV4_ADDRESS" ParseAddr);
  fe_IPv6Address : uc_IPv6Address c = default (uc_IPv6Address c0) (value_of "IPV6_ADDRESS" ParseAddr);
  fe_Prefix : uc_Prefix c = default (uc_Prefix c0) (value_of "PREFIX" ParsePrefix);
  fe_WKPFStrict : uc_WKPFStrict c =
    match value_of "WKPF_STRICT" parseBool with Some b => Some b | None => uc_WKPFStrict c0 end;
  fe_CLAT : uc_CLAT c = clat_of (uc_CLAT c0);
  fe_Maps : uc_Maps c = maps_of (uc_Maps c0);
  fe_DynamicPool : uc_DynamicPool c = pool_of (uc_DynamicPool c0);
  fe_UDPChecksum : uc_UDPChecksum c = default (uc_UDPChecksum c0) (get "UDP_CHECKSUM");
  fe_OfflinkMTU : uc_OfflinkMTU c = default (uc_OfflinkMTU c0) (value_of "OFFLINK_MTU" Atoi);
  fe_Level : lg_Level (uc_Log c) = default (lg_Level (uc_Log c0)) (get "LOG_LEVEL");
  fe_Format : lg_Format (uc_Log c) = default (lg_Format (uc_Log c0)) (get "LOG_FORMAT");
  fe_Packets : lg_Packets (uc_Log c) = default (lg_Packets (uc_Log c0)) (value_of "LOG_PACKETS" list_of);
  fe_Listen : ht_Listen (uc_HTTP c) = default (ht_Listen (uc_HTTP c0)) (get "HTTP_LISTEN");
  fe_Admin : ht_Admin (uc_HTTP c) = default (ht_Admin (uc_HTTP c0)) (value_of "HTTP_ADMIN" parseBool);
}.
(** A list of routes parses when the list of prefixes does. *)
Lemma mapM_routes l :
  mapM (fun s => p ← parseAddrOrPrefix s; Some (mkRoute p 0 0 0)) l = ps ← mapM parseAddrOrPrefix l; Some (bare_routes ps).
Proof.
  induction l as [|x l IH]; [done|]. cbn [mapM]. rewrite IH. destruct (parseAddrOrPrefix x); [|done]. cbn.
  by destruct (mapM parseAddrOrPrefix l).
Qed.

(** ** Running the variables *)

Local Abbreviation run_steps := (foldl (fun (s : UserConfig * list EnvErr) (step : env_step) => step s)).

Definition put_maps c : UserConfig := set_Maps (maps_of (uc_Maps c)) c.
Definition put_state_file c : UserConfig := set_DynamicPool (state_file_of <$> uc_DynamicPool c) c.

Lemma put_maps_frame {B} (P : UserConfig -> B) c old :
  (forall x c, P (set_Maps x c) = P c) -> P c = old -> P (put_maps c) = old.
Proof. intros E <-. apply E. Qed.
Lemma put_state_file_frame {B} (P : UserConfig -> B) c old :
  (forall x c, P (set_DynamicPool x c) = P c) -> P c = old -> P (put_state_file c) = old.
Proof. intros E <-. apply E. Qed.

Lemma run_variable {A} name (parse : string -> option A) set c e l :
  run_steps (c, e) (variable lookup name parse set :: l) =
    run_steps (put (value_of name parse) set c, e ++ bad name parse) l.
Proof. cbn [foldl]. by rewrite variable_put. Qed.

Lemma run_maps c e l : run_steps (c, e) (env_maps lookup :: l) = run_steps (put_maps c, e ++ bad_maps) l.
Proof. cbn [foldl]. by rewrite env_maps_put. Qed.

Lemma run_state_directory c e : run_steps (c, e) [state_directory lookup] = (put_state_file c, e).
Proof. cbn [foldl]. by rewrite state_directory_put. Qed.

(** Variables that are never bad. *)
Lemma bad_str name : bad name (@Some string) = [].
Proof. unfold bad. by destruct (get name). Qed.
Lemma bad_list name : bad name (fun v => Some (splitList v)) = [].
Proof. unfold bad. by destruct (get name). Qed.

Lemma bad_routes : bad "INTERFACE_ROUTES" (fun v => mapM (fun s => p ← parseAddrOrPrefix s; Some (mkRoute p 0 0 0)) (splitList v)) =
  bad "INTERFACE_ROUTES" parse_prefixes.
Proof. unfold bad, parse_prefixes. destruct (get _) as [v|]; [|done]. rewrite mapM_routes. by destruct (mapM _ _). Qed.

Lemma value_routes (old : list Route) :
  match value_of "INTERFACE_ROUTES" parse_prefixes with Some l => bare_routes l | None => old end =
  default old (value_of "INTERFACE_ROUTES" (fun v => mapM (fun s => p ← parseAddrOrPrefix s; Some (mkRoute p 0 0 0)) (splitList v))).
Proof.
  unfold value_of, parse_prefixes. destruct (get _) as [v|]; [|done]. cbn [mbind option_bind]. rewrite mapM_routes. by destruct (mapM _ _).
Qed.

Ltac frame_tac := let x := fresh in intros x ?; first [reflexivity|destruct x; reflexivity].

(** A field through all the variables. *)
Ltac field P :=
  repeat first
    [ reflexivity
    | apply (put_frame P); [frame_tac|]
    | apply (put_default P); [frame_tac|]
    | eapply (put_field P); [frame_tac|]
    | apply (put_maps_frame P); [frame_tac|]
    | apply (put_state_file_frame P); [frame_tac|] ].

(** The parts of the CLAT and of the pool. *)
Lemma put_clat {A} (o : option A) f c :
  uc_CLAT (put o (fun x => on_clat (f x)) c) =
    match o with Some x => Some (f x (default CLAT_zero (uc_CLAT c))) | None => uc_CLAT c end.
Proof. by destruct o. Qed.

Lemma put_switch o c :
  uc_CLAT (put o (fun b : bool => if b then on_clat (fun x => x) else set_CLAT None) c) =
    match o with Some true => Some (default CLAT_zero (uc_CLAT c)) | Some false => None | None => uc_CLAT c end.
Proof. by destruct o as [[]|]. Qed.

Lemma put_pool {A} (o : option A) f c :
  uc_DynamicPool (put o (fun x => on_pool (f x)) c) =
    match o with Some x => Some (f x (default DynamicPool_zero (uc_DynamicPool c))) | None => uc_DynamicPool c end.
Proof. by destruct o. Qed.

Lemma put_pool_prefix o c :
  uc_DynamicPool (put o (fun o => match o with
      | None => set_DynamicPool None
      | Some p => on_pool (fun d => mkDynamicPool p (dp_StateFile d) (dp_MinLease d) (dp_MaxLease d))
      end) c) =
    match o with
    | Some (Some p) => let d := default DynamicPool_zero (uc_DynamicPool c) in
        Some (mkDynamicPool p (dp_StateFile d) (dp_MinLease d) (dp_MaxLease d))
    | Some None => None
    | None => uc_DynamicPool c
    end.
Proof. by destruct o as [[]|]. Qed.

Lemma put_state_pool c : uc_DynamicPool (put_state_file c) = state_file_of <$> uc_DynamicPool c.
Proof. done. Qed.

(** The field [P] of what the innermost of these is put into. *)
Ltac inner P c0 :=
  match goal with
  | |- context [P (put ?o ?set ?c)] => replace (P (put o set c)) with (P c0) by (symmetry; field P)
  | |- context [P (put_maps ?c)] => replace (P (put_maps c)) with (P c0) by (symmetry; field P)
  end.

Lemma env_steps_put c0 :
  exists c, run_steps (c0, []) (env_steps lookup) = (c, env_errors) /\ from_env c0 c.
Proof.
  eexists. split.
  - unfold env_steps, str, integer, boolean, env_addr, pfx, pfxList, routeList, strList, env_clat, env_clat_table, env_pool.
    rewrite !run_variable, run_maps, !run_variable, run_state_directory, !bad_str, !bad_list, !value_str, bad_routes.
    f_equal. unfold env_errors, parse_prefixes. by rewrite !app_nil_l, !app_nil_r, <- !app_assoc.
  - constructor.
    + field (fun c => if_Name (uc_Interface c)).
    + field (fun c => if_MTU (uc_Interface c)).
    + field (fun c => if_Configure (uc_Interface c)).
    + field (fun c => if_AutoRoutes (uc_Interface c)).
    + field (fun c => if_Sysctl (uc_Interface c)).
    + field (fun c => if_Addresses (uc_Interface c)).
    + rewrite value_routes. field (fun c => if_Routes (uc_Interface c)).
    + field uc_IPv4Address.
    + field uc_IPv6Address.
    + field uc_Prefix.
    + field uc_WKPFStrict.
    + field uc_CLAT. rewrite !put_clat, put_switch. inner uc_CLAT c0. unfold clat_of, list_of.
      generalize (value_of "CLAT" parseBool) (value_of "CLAT_IPV4_ADDRESS" ParseAddr) (get "CLAT_IPV6_ADDRESS")
        (value_of "CLAT_PORTS" (fun v => Some (splitList v))) (value_of "CLAT_TABLE" (fun v => ParseInt0 v 32)).
      intros [[]|] [] [] [] []; case_bool_decide as X; cbn in *; try done; intuition congruence.
    + field uc_Maps. apply (f_equal maps_of). field uc_Maps.
    + rewrite put_state_pool. unfold pool_of. f_equal. field uc_DynamicPool. unfold part. rewrite put_pool, put_pool_prefix. by inner uc_DynamicPool c0.
    + field uc_UDPChecksum.
    + field uc_OfflinkMTU.
    + field (fun c => lg_Level (uc_Log c)).
    + field (fun c => lg_Format (uc_Log c)).
    + field (fun c => lg_Packets (uc_Log c)).
    + field (fun c => ht_Listen (uc_HTTP c)).
    + field (fun c => ht_Admin (uc_HTTP c)).
Qed.

(** ** What is loaded *)

Lemma parse_prefixes_ok {PL : ParseLaws} v ps : parse_prefixes v = Some ps -> Forall prefix_ok ps.
Proof.
  intros E%mapM_Some. eapply Forall2_Forall_r; [exact E|]. apply Forall_true. intros s p. apply parseAddrOrPrefix_ok.
Qed.

(** A value satisfies what its parser guarantees. *)
Lemma value_of_ok {A} (P : A -> Prop) name parse :
  (forall v x, parse v = Some x -> P x) -> match value_of name parse with Some x => P x | None => True end.
Proof. intros H. unfold value_of. destruct (get name) as [v|]; [|done]. cbn. destruct (parse v) eqn:E; [eauto|done]. Qed.

Lemma value_default_ok {A} (P : A -> Prop) name parse old :
  (forall v x, parse v = Some x -> P x) -> P old -> P (default old (value_of name parse)).
Proof. intros H Ho. pose proof (value_of_ok P name parse H). by destruct (value_of name parse). Qed.

Lemma from_env_ok {PL : ParseLaws} c0 c : config_ok c0 -> from_env c0 c -> config_ok c.
Proof.
  intros [C1 C2 C3 C4 C5 C6 C7] [_ _ _ _ _ E1 E2 E3 E4 E5 _ E6 _ E7 _ _ _ _ _ _ _].
  constructor; rewrite ?E1, ?E2, ?E3, ?E4, ?E5, ?E6, ?E7.
  - by apply value_default_ok; [apply parse_prefixes_ok|].
  - pose proof (value_of_ok (Forall prefix_ok) "INTERFACE_ROUTES" parse_prefixes parse_prefixes_ok).
    destruct (value_of "INTERFACE_ROUTES" _) as [l|]; [|done]. by apply Forall_fmap.
  - apply value_default_ok; [|done]. by intros v x [? _]%ParseAddr_ok.
  - apply value_default_ok; [|done]. by intros v x [? _]%ParseAddr_ok.
  - apply value_default_ok; [|done]. by intros v x [? _]%ParsePrefix_ok.
  - unfold pool_of. pose proof (value_of_ok (fun o => match o with Some p => prefix_ok p | None => True end) "DYNAMIC_POOL" parse_pool) as Hv.
    set (b := match value_of "DYNAMIC_POOL" parse_pool with Some _ => _ | None => _ end).
    assert (Hb : match b with Some d => prefix_ok (dp_Prefix d) | None => True end).
    { assert (Hp : forall v x, parse_pool v = Some x -> match x with Some p => prefix_ok p | None => True end).
      { unfold parse_pool. intros v x. case_bool_decide; [by intros [= <-]|]. destruct (ParsePrefix v) eqn:E; [|done].
        intros [= <-]. by apply ParsePrefix_ok in E as [? _]. }
      specialize (Hv Hp). subst b. by destruct (value_of "DYNAMIC_POOL" parse_pool) as [[p|]|]. }
    clearbody b. unfold part. destruct (get "DYNAMIC_POOL_STATE_FILE"); destruct b as [d|]; cbn; try done; unfold state_file_of;
      repeat case_match; cbn; try done; by right + (split_and!; [done|done|by left]).
  - unfold clat_of. set (b := match value_of "CLAT" parseBool with Some _ => _ | None => _ end).
    assert (Hb : match b with Some d => addr_ok (cl_IPv4Address d) | None => True end).
    { subst b. destruct (value_of "CLAT" parseBool) as [[]|]; [|done|done]. by destruct (uc_CLAT c0). }
    clearbody b. case_bool_decide; [done|]. apply value_default_ok; [by intros v x [? _]%ParseAddr_ok|]. by destruct b.
Qed.

Lemma LoadYAML_keeps (I : UserConfig -> Prop) data c :
  (forall data c, I c -> I (Decode data c).1) -> I c -> I (LoadYAML Decode c data).1.
Proof.
  intros HD Hc. specialize (HD data c Hc). unfold LoadYAML. destruct (Decode data c) as [c' [[]|]]; exact HD.
Qed.

Lemma config_yaml_keeps (I : UserConfig -> Prop) c :
  (forall data c, I c -> I (Decode data c).1) -> I c -> I (config_yaml Decode lookup c).1.
Proof.
  intros HD Hc. unfold config_yaml. destruct (get _) as [v|]; [|done]. case_bool_decide; [done|].
  pose proof (LoadYAML_keeps I v c HD Hc). by destruct (LoadYAML Decode c v).
Qed.

Lemma LoadEnv_cases c :
  match config_yaml Decode lookup c with
  | (c0, true) => from_env c0 (LoadEnv Decode lookup c).1 /\ (LoadEnv Decode lookup c).2 = env_errors
  | (c0, false) => LoadEnv Decode lookup c = (c0, [BadYAML])
  end.
Proof.
  unfold LoadEnv. destruct (config_yaml Decode lookup c) as [c0 []]; [|done].
  cbv beta iota. destruct (env_steps_put c0) as (c1 & E & H). unfold env_step in E. by rewrite E.
Qed.

Lemma LoadEnv_keeps {PL : ParseLaws} c :
  (forall data c, config_ok c -> config_ok (Decode data c).1) -> config_ok c -> config_ok (LoadEnv Decode lookup c).1.
Proof.
  intros HD Hc. pose proof (LoadEnv_cases c) as H. pose proof (config_yaml_keeps config_ok c HD Hc) as H0.
  destruct (config_yaml Decode lookup c) as [c0 []]; [|by rewrite H]. destruct H as [H _]. by eapply from_env_ok.
Qed.

(** C34: [LoadEnv] reads every variable into its field and nothing else: after the inline
    document, each of the twenty-one settings is what its variable says when that is a
    value, and what it was when the variable is not set or not a value; the CLAT is made
    by any of its settings unless it is switched off, the pool by its prefix or its state
    file.  The errors are those of the variables that are not values, in their order. *)
Theorem LoadEnv_fields c :
  match config_yaml Decode lookup c with
  | (c0, true) => from_env c0 (LoadEnv Decode lookup c).1 /\ (LoadEnv Decode lookup c).2 = env_errors
  | (c0, false) => LoadEnv Decode lookup c = (c0, [BadYAML])
  end.
Proof. apply LoadEnv_cases. Qed.
End env.

(** ** Routes *)

(** A route that is written to YAML and read again is the same route, whether it is
    written as a bare prefix or as a mapping, when the prefix's text parses again and
    the decoder decodes what was encoded. *)
Theorem route_yaml_roundtrip {AT : AddrText} {PT : PrefixText} (DecodePlain : list (string * string) -> option Route)
    (EncodePlain : Route -> list (string * string)) (prefix_String : Prefix -> string) r :
  PIsValid (rt_Prefix r) = true ->
  ParsePrefix (prefix_String (rt_Prefix r)) = Some (rt_Prefix r) -> ContainsByte (prefix_String (rt_Prefix r)) "/" = true ->
  DecodePlain (EncodePlain r) = Some r ->
  Forall (fun x => x.1 ∈ ["prefix"; "metric"; "mtu"; "advmss"]%string) (EncodePlain r) ->
  route_UnmarshalYAML DecodePlain
    match route_MarshalYAML prefix_String r with RouteScalar s => YScalar s | RoutePlain r => YMapping (EncodePlain r) end = Some r.
Proof.
  intros Hv Hp Hs HE HF. unfold route_MarshalYAML. destruct r as [p me mt ad]. cbn [rt_Prefix rt_Metric rt_MTU rt_AdvMSS] in *.
  destruct ((me =? 0) && (mt =? 0) && (ad =? 0)) eqn:E; cbn [route_UnmarshalYAML].
  - rewrite !andb_true_iff, !Z.eqb_eq in E. destruct E as [[-> ->] ->]. unfold parseAddrOrPrefix. by rewrite Hs, Hp.
  - assert (Hn : forallb (fun x : string * string => bool_decide (x.1 ∈ ["prefix"; "metric"; "mtu"; "advmss"]%string)) (EncodePlain (mkRoute p me mt ad)) = true).
    { apply forallb_forall. intros x Hx. apply bool_decide_eq_true_2. rewrite Forall_forall in HF. by apply HF, list_elem_of_In. }
    rewrite Hn, HE. cbn. by rewrite Hv.
Qed.

(** ** Witnesses *)

Definition ex_prefix : Prefix := mkPrefix (Addr4 0x0a000000) 8.
Definition ex_text : AddrText := {| addr_String _ := ""%string; ParseAddr _ := None |}.
Definition ex_prefix_text : PrefixText := {|
  ParsePrefix s := if bool_decide (s = "10.0.0.0/8"%string) then Some ex_prefix else None;
|}.
Definition ex_route : Route := mkRoute ex_prefix 100 0 0.
Definition ex_encode (r : Route) : list (string * string) := [("prefix", "10.0.0.0/8"); ("metric", FormatInt (rt_Metric r))]%string.
Definition ex_decode (l : list (string * string)) : option Route :=
  match l with
  | [(_, p); (_, m)] => p ← @ParsePrefix ex_prefix_text p; m ← ParseInt m; Some (mkRoute p m 0 0)
  | _ => None
  end.

Lemma route_yaml_roundtrip_witness :
  PIsValid ex_prefix = true /\
  @route_UnmarshalYAML ex_text ex_prefix_text ex_decode
    match route_MarshalYAML (fun _ => "10.0.0.0/8"%string) ex_route with
    | RouteScalar s => YScalar s
    | RoutePlain r => YMapping (ex_encode r)
    end = Some ex_route.
Proof.
  split; [done|].
  apply (@route_yaml_roundtrip ex_text ex_prefix_text ex_decode ex_encode (fun _ => "10.0.0.0/8"%string) ex_route); try done.
  apply (bool_decide_unpack _). vm_compute. exact I.
Defined.
