(* ===== verification/ResolveProps.v ===== *)
(** * What a resolved configuration guarantees

    A configuration that resolves satisfies what every component it is made for
    requires; one that does not reports why; neither touches the hosts of a running
    pool. *)

From stdpp Require Import base tactics list numbers option strings gmap sorting.
From Stdlib Require Import ZArith Lia Ascii.
From S2P Require Import Prelude Netip Netutil Text Strings Events Packet Layout Translator TranslatorFacts Pool PoolFacts PoolOps PoolSave PoolRun Table Join TableFacts TableMap Netconf NetconfFacts NetconfProps Configuration Resolve ResolveFacts.

Open Scope Z_scope.

(** ** The pool *)

(** The pool a reference points to is the builder's. *)
Definition pool_link (ref : option nat) (s : rstate) : Prop :=
  match ref with
  | None => b_pool (rs_b s) = false
  | Some i => b_pool (rs_b s) = true /\ exists p H, rs_pools s !! i = Some p /\ repr p H /\
      forall e, e ∈ b_entries (rs_b s) -> e_Kind e = KindDynamicPool -> e_V4 e = p_prefix p
  end.

Definition existing_ok (ro : ResolveOptions) (pools : list Pool) : Prop :=
  match ro_ExistingPool ro with Some i => (i < length pools)%nat | None => True end.

Lemma pools_kept_length l l' i : pools_kept l l' -> (i < length l)%nat -> (i < length l')%nat.
Proof. intros Hk [p Hp]%lookup_lt_is_Some. destruct (Hk i p Hp) as (p' & Hp' & _). by eapply lookup_lt_Some. Qed.

(** Which pool a configuration gets: the existing one when its prefix is the one
    configured, and a new one otherwise. *)
Definition chosen_from (ro : ResolveOptions) (pools : list Pool) (prefix : Prefix) (i : nat) : Prop :=
  match (j ← ro_ExistingPool ro; pools !! j) with
  | Some p => if decide (p_prefix p = prefix) then ro_ExistingPool ro = Some i else (length pools <= i)%nat
  | None => (length pools <= i)%nat
  end.

Definition chosen (cfg : UserConfig) (ro : ResolveOptions) (pools pools' : list Pool) (ref : option nat) : Prop :=
  match uc_DynamicPool cfg, ref with
  | Some dp, Some i => (exists p, pools' !! i = Some p /\ p_prefix p = dp_Prefix dp) /\ chosen_from ro pools (dp_Prefix dp) i
  | None, None => True
  | _, _ => False
  end.

Lemma pools_kept_le l l' : pools_kept l l' -> (length l <= length l')%nat.
Proof.
  intros Hk. destruct (Nat.le_gt_cases (length l) (length l')); [done|].
  pose proof (pools_kept_length l l' (length l') Hk). lia.
Qed.

Lemma chosen_from_earlier ro pools0 pools prefix i :
  pools_kept pools0 pools -> existing_ok ro pools0 -> chosen_from ro pools prefix i -> chosen_from ro pools0 prefix i.
Proof.
  intros Hk Hex. unfold chosen_from, existing_ok in *. pose proof (pools_kept_le _ _ Hk).
  destruct (ro_ExistingPool ro) as [j|]; cbn [mbind option_bind]; [|lia].
  apply lookup_lt_is_Some in Hex as [p Hp]. destruct (Hk j p Hp) as (p' & Hp' & (mn & mx & f & ->)).
  rewrite Hp, Hp'. change (p_prefix (with_leases mn mx (with_reserved f p))) with (p_prefix p).
  repeat case_decide; try done; lia.
Qed.

Lemma chosen_earlier cfg ro pools0 pools pools' ref :
  pools_kept pools0 pools -> existing_ok ro pools0 -> chosen cfg ro pools pools' ref -> chosen cfg ro pools0 pools' ref.
Proof.
  intros Hk Hex. unfold chosen. destruct (uc_DynamicPool cfg), ref; try done. intros [Hp Hc]. split; [done|].
  by eapply chosen_from_earlier.
Qed.

Lemma chosen_later cfg ro pools pools' pools'' ref :
  pools_kept pools' pools'' -> chosen cfg ro pools pools' ref -> chosen cfg ro pools pools'' ref.
Proof.
  intros Hk. unfold chosen. destruct (uc_DynamicPool cfg), ref as [i|]; try done. intros [(p & Hp & E) Hc]. split; [|done].
  destruct (Hk i p Hp) as (p' & Hp' & (mn & mx & f & ->)). exists (with_leases mn mx (with_reserved f p)). by rewrite <- E.
Qed.

Section pool.
Context (cfg : UserConfig) (ro : ResolveOptions) (C : config_ok cfg).

(** The pool for the prefix of the configuration, new or not. *)
Lemma pool_for_ok dp s :
  prefix_ok (dp_Prefix dp) -> rinv s -> existing_ok ro (rs_pools s) ->
  wp (pool_for ro dp) (fun r s' => rinv s' /\ rgrows s s' /\ rs_errs s' = rs_errs s /\
    match r with
    | inl i => exists p H, rs_pools s' !! i = Some p /\ repr p H /\ p_prefix p = dp_Prefix dp /\ Is4 (p_addr (dp_Prefix dp)) = true /\
        chosen_from ro (rs_pools s) (dp_Prefix dp) i
    | inr _ => True
    end) s.
Proof.
  intros Hp I Hex. assert (Hnew : (match (j ← ro_ExistingPool ro; rs_pools s !! j) with
      Some p => p_prefix p <> dp_Prefix dp | None => True end) -> wp (r ← lift (NewPool (dp_Prefix dp) (dp_MinLease dp) (dp_MaxLease dp));
      match r with inr e => mret (inr e) | inl p => ref ← alloc_pool p; mret (inl ref) end)
      (fun r s' => rinv s' /\ rgrows s s' /\ rs_errs s' = rs_errs s /\
        match r with
        | inl i => exists p H, rs_pools s' !! i = Some p /\ repr p H /\ p_prefix p = dp_Prefix dp /\ Is4 (p_addr (dp_Prefix dp)) = true /\
            chosen_from ro (rs_pools s) (dp_Prefix dp) i
        | inr _ => True
        end) s).
  { intros Hne. apply wp_bind, wp_lift. eapply owp_mono; [by apply NewPool_ok|]. intros [p|e] HN.
    - destruct (pool_error (dp_Prefix dp)) eqn:Ee; [done|]. destruct HN as (R & Ep & _). apply wp_bind. unfold wp at 1, alloc_pool.
      apply wp_ret. destruct I as [I1 I0 I2 I3]. split; [constructor; [done|done|done|]|split; [|split; [done|]]].
      + apply Forall_app. split; [done|]. constructor; [eauto|constructor].
      + constructor; [done|done|apply pools_kept_app].
      + exists p, ∅. cbn. rewrite lookup_app_r, Nat.sub_diag by lia. split_and!; [done|done|done| |].
        * unfold pool_error in Ee. by destruct (Is4 (p_addr (dp_Prefix dp))).
        * unfold chosen_from. destruct (j ← ro_ExistingPool ro; rs_pools s !! j) as [q|]; [|lia]. by rewrite decide_False.
    - apply wp_ret. split; [done|]. split; [apply rgrows_refl|done]. }
  unfold pool_for. unfold existing_ok in Hex. unfold chosen_from in *. destruct (ro_ExistingPool ro) as [i|].
  2: { apply wp_bind, wp_ret. by apply Hnew. }
  apply lookup_lt_is_Some in Hex as [p Hi]. apply wp_bind, wp_bind. unfold get_pool. apply wp_gets. rewrite Hi. apply wp_ret.
  cbn [mbind option_bind] in *. rewrite Hi in *.
  assert (EP : pool_Prefix p = p_prefix p).
  { destruct I as [_ _ _ I3]. unfold pools_ok in I3. rewrite Forall_forall in I3.
    destruct (I3 p) as [H R]; [by eapply list_elem_of_lookup_2|]. destruct (r_geom _ _ R) as [n G]. unfold pool_Prefix.
    by rewrite (g_prefix _ _ G). }
  rewrite EP. case_bool_decide as Epre; [|by apply Hnew]. apply wp_bind. unfold wp at 1, on_ref. cbn [mbind option_bind]. rewrite Hi.
  cbn [on_pool SetLeases modify mbind outcome_bind]. apply wp_ret.
  destruct I as [I1 I0 I2 I3]. pose proof I3 as I3'. unfold pools_ok in I3'. rewrite Forall_forall in I3'.
  destruct (I3' p) as [H R]; [by eapply list_elem_of_lookup_2|].
  set (p' := with_leases _ _ p). assert (R' : repr p' H) by by apply repr_leases.
  split; [constructor; cbn; [done|done|done|]|split; [|split; [done|]]].
  - apply Forall_insert; [done|eauto].
  - constructor; cbn; [done|done|]. apply (pools_kept_insert _ i p); [done|].
    exists (if dp_MinLease dp <=? 0 then DefaultMinLease else dp_MinLease dp),
           (if dp_MaxLease dp <=? 0 then DefaultMaxLease else dp_MaxLease dp), (p_reserved p). by destruct p.
  - exists p', H. cbn. rewrite list_lookup_insert_eq by (by eapply lookup_lt_Some). split_and!; [done|done|done| |].
    + destruct (r_geom _ _ R) as [n G]. rewrite <- Epre. by rewrite (g_prefix _ _ G).
    + by rewrite decide_True.
Qed.

Lemma check_pool_ok s :
  rinv s -> existing_ok ro (rs_pools s) ->
  wp (check_pool cfg ro) (fun ref s' => entries_ok (rs_b s') /\ v6_prefixes (rs_b s') /\ pools_ok (rs_pools s') /\ rgrows s s' /\
    pool_link ref s' /\ (rs_errs s' = [] -> rs_errs s = [] /\ chosen cfg ro (rs_pools s) (rs_pools s') ref)) s.
Proof.
  intros I Hex. pose proof (co_pool _ C) as Hdp. unfold check_pool, chosen. destruct (uc_DynamicPool cfg) as [dp|].
  2: { apply wp_ret. destruct I as [I1 I0 I2 I3]. split_and!; [done|done|done|apply rgrows_refl|done|done]. }
  case_if.
  { apply wp_bind. eapply wp_mono; [by apply (good_fail (P := fun _ _ => False) _ s I)|]. intros ? s' ([I1 I0 I2 I3] & G & He).
    apply wp_ret. split_and!; [done|done|done|done|done|]. intros E0. by destruct (He E0). }
  apply wp_bind. eapply wp_mono; [by apply pool_for_ok|]. intros [i|e] s1 (I1 & G1 & E1 & Hr).
  2: { apply wp_bind. eapply wp_mono; [by apply (good_fail (P := fun _ _ => False) _ s1 I1)|]. intros ? s' ([I1' I0 I2 I3] & G & He).
    apply wp_ret. split_and!; [done|done|done|by eapply rgrows_trans|done|]. intros E0. by destruct (He E0). }
  destruct Hr as (p & H & Hi & R & Epre & H4 & Hch). destruct (As4_shape _ H4) as (a4 & Ea & _).
  apply wp_bind, wp_lift. rewrite Ea. apply owp_ok, wp_bind.
  assert (Hg : good (if bool_decide (ClassifyIPv4 a4 = IPv4LinkLocal) then warn WarnLinkLocalPool else skip) (fun _ _ => True))
    by (case_if; [by apply good_warn|by apply good_skip]).
  eapply wp_mono; [by apply Hg|]. intros ? s2 (I2 & G2 & E2). apply wp_bind.
  eapply wp_mono; [by apply good_fail_if|]. intros ? s3 (I3 & G3 & E3). apply wp_bind. unfold get_pool. apply wp_gets.
  destruct (rg_pools _ _ (rgrows_trans _ _ _ G2 G3) i p Hi) as (p3 & Hi3 & (mn & mx & f & Ep3)). rewrite Hi3.
  assert (R3 : repr p3 H) by (rewrite Ep3; by apply repr_leases, repr_reserved).
  destruct I3 as [B3 V3 N3 P3]. destruct (r_geom _ _ R3) as [n G].
  apply wp_bind. unfold wp at 1, build_step. unfold SetPool at 1. rewrite N3. cbn [mbind outcome_bind].
  apply wp_ret. set (b' := add_entry _ _ _ _ _).
  assert (HS : SetPool p3 (rs_b s3) = inl b') by (unfold SetPool; by rewrite N3).
  split_and!; cbn [rs_b rs_pools rs_errs].
  - by apply (SetPool_ok (rs_b s3) p3 n).
  - cbn. intros e [He|He%list_elem_of_singleton]%elem_of_app Hv; [by apply V3|by subst].
  - exact P3.
  - eapply rgrows_trans; [exact G1|]. eapply rgrows_trans; [exact G2|]. eapply rgrows_trans; [exact G3|].
    constructor; cbn; [intros e He; apply elem_of_app; by left|done|apply pools_kept_refl].
  - split; [done|]. exists p3, H. split; [done|]. split; [done|]. cbn. intros e He Hk.
    apply elem_of_app in He as [He|He%list_elem_of_singleton]; [|by subst].
    exfalso. apply (eo_has_pool _ B3 e He) in Hk. congruence.
  - intros E0. split; [rewrite <- E1; by destruct (E2 (proj1 (E3 E0)))|]. split; [|done].
    exists p3. split; [done|]. by rewrite Ep3.
Qed.
End pool.

(** ** Routes *)

(** The first route for each prefix, leaving out the prefixes in [seen]. *)
Fixpoint firsts (seen : list Prefix) (rs : list Route) : list Route :=
  match rs with
  | [] => []
  | r :: rs => if bool_decide (rt_Prefix r ∈ seen) then firsts seen rs else r :: firsts (rt_Prefix r :: seen) rs
  end.

Definition has_prefix (p : Prefix) (r : Route) : bool := bool_decide (rt_Prefix r = p).
Definition route4 (r : Route) : bool := Is4 (p_addr (rt_Prefix r)).

Lemma firsts_find p seen rs :
  p ∉ seen -> find (has_prefix p) (firsts seen rs) = find (has_prefix p) rs.
Proof.
  revert seen. induction rs as [|r rs IH]; intros seen Hp; [done|]. cbn [firsts find].
  unfold has_prefix at 2. destruct (bool_decide (rt_Prefix r = p)) eqn:E.
  - apply bool_decide_eq_true in E. rewrite bool_decide_false by by rewrite E. cbn [find]. unfold has_prefix. by rewrite bool_decide_true.
  - apply bool_decide_eq_false in E. case_bool_decide; [by apply IH|]. cbn [find]. unfold has_prefix at 1.
    rewrite bool_decide_false by done. apply IH. rewrite not_elem_of_cons. auto.
Qed.

Lemma firsts_sub seen rs r : r ∈ firsts seen rs -> r ∈ rs /\ rt_Prefix r ∉ seen.
Proof.
  revert seen. induction rs as [|x rs IH]; intros seen Hr; cbn in Hr; [by apply elem_of_nil in Hr|].
  case_bool_decide as E.
  - apply IH in Hr as [? ?]. split; [by right|done].
  - apply elem_of_cons in Hr as [->|Hr]; [split; [left|done]|]. apply IH in Hr as [? Hn]. rewrite not_elem_of_cons in Hn.
    split; [by right|apply Hn].
Qed.

Lemma firsts_distinct seen rs : NoDup (rt_Prefix <$> firsts seen rs).
Proof.
  revert seen. induction rs as [|x rs IH]; intros seen; cbn; [constructor|]. case_bool_decide; [apply IH|].
  cbn. constructor; [|apply IH]. intros Hin. apply list_elem_of_fmap in Hin as (y & E & Hy). apply firsts_sub in Hy as [_ Hy].
  apply Hy. rewrite E. left.
Qed.

Lemma add_routes_app a b seen r4 r6 :
  add_routes (a ++ b) seen r4 r6 = let '(s, x, y) := add_routes a seen r4 r6 in add_routes b s x y.
Proof.
  revert seen r4 r6. induction a as [|r a IH]; intros seen r4 r6; [done|]. cbn [app add_routes].
  repeat case_if; apply IH.
Qed.

Lemma add_routes_firsts rs seen r4 r6 :
  let '(_, x, y) := add_routes rs seen r4 r6 in
  x = r4 ++ filter (fun r => route4 r = true) (firsts seen rs) /\ y = r6 ++ filter (fun r => route4 r = false) (firsts seen rs).
Proof.
  revert seen r4 r6. induction rs as [|r rs IH]; intros seen r4 r6; cbn [add_routes firsts]; [by rewrite !app_nil_r|].
  case_bool_decide; [apply IH|]. rewrite !filter_cons. change (Is4 (p_addr (rt_Prefix r))) with (route4 r).
  destruct (route4 r) eqn:E4.
  - specialize (IH (rt_Prefix r :: seen) (r4 ++ [r]) r6). destruct (add_routes rs _ _ _) as [[s x] y].
    rewrite decide_True, decide_False by done. by rewrite <- app_assoc in IH.
  - specialize (IH (rt_Prefix r :: seen) r4 (r6 ++ [r])). destruct (add_routes rs _ _ _) as [[s x] y].
    rewrite decide_False, decide_True by done. by rewrite <- app_assoc in IH.
Qed.

Lemma all_routes_firsts cfg auto :
  let l := firsts [] ((route_netconf <$> if_Routes (uc_Interface cfg)) ++ auto) in
  all_routes cfg auto = (filter (fun r => route4 r = true) l, filter (fun r => route4 r = false) l).
Proof.
  cbv zeta. pose proof (add_routes_firsts ((route_netconf <$> if_Routes (uc_Interface cfg)) ++ auto) [] [] []) as H.
  rewrite add_routes_app in H. unfold all_routes. destruct (add_routes _ [] [] []) as [[s x] y].
  destruct (add_routes auto s x y) as [[s' x'] y']. by destruct H as [-> ->].
Qed.

Lemma dedupe_sub seen ps p : p ∈ dedupe_from seen ps -> p ∈ ps.
Proof.
  revert seen. induction ps as [|q ps IH]; intros seen; cbn; [done|]. case_bool_decide; [intros ?; right; by eapply IH|].
  intros [->|?]%elem_of_cons; [left|right; by eapply IH].
Qed.

Lemma dedupe_has seen ps p : p ∈ ps -> p ∈ seen \/ p ∈ dedupe_from seen ps.
Proof.
  revert seen. induction ps as [|q ps IH]; intros seen Hp; cbn; [by apply elem_of_nil in Hp|].
  case_bool_decide as E; apply elem_of_cons in Hp as [->|Hp]; [by left|by apply IH|right; left|].
  destruct (IH (q :: seen) Hp) as [[->|?]%elem_of_cons|?]; [right; left|by left|by right; right].
Qed.

Lemma firsts_has seen rs r :
  r ∈ rs -> rt_Prefix r ∈ seen \/ exists r', r' ∈ firsts seen rs /\ rt_Prefix r' = rt_Prefix r.
Proof.
  revert seen. induction rs as [|x rs IH]; intros seen Hr; cbn; [by apply elem_of_nil in Hr|].
  case_bool_decide as E; apply elem_of_cons in Hr as [->|Hr]; [by left|by apply IH|right; exists x; split; [left|done]|].
  destruct (IH (rt_Prefix x :: seen) Hr) as [[E'|?]%elem_of_cons|(y & Hy & Ey)]; [|by left|].
  - right. exists x. split; [left|done].
  - right. exists y. split; [by right|done].
Qed.

(** ** Everything checked *)

Lemma good_yields {A} (m : M rstate A) P U s :
  good m P -> yields m U -> rinv s -> wp m (fun a s' => post s P a s' /\ U a) s.
Proof.
  intros Hm HU I. pose proof (Hm s I) as H. apply wp_run in H as (a & s' & E & Hp). unfold wp. rewrite E.
  split; [done|]. by eapply HU.
Qed.

(** What holds of the checks when none of them failed. *)
Record checks_passed (cfg : UserConfig) (c : checked) (b : Builder) : Prop := {
  cp_mtu : 1280 <= if_MTU (interface_of (uc_Interface cfg)) <= 65535;
  cp_offlink : 1280 <= offlink_of (uc_OfflinkMTU cfg);
  cp_ipv4 : Is4 (ck_ipv4 c) = true;
  cp_ipv4_ok : addr_ok (ck_ipv4 c);
  cp_ipv6 : Is6 (ck_local6 c) = true;
  cp_ipv6_ok : addr_ok (ck_local6 c);
  cp_clat : clat_found cfg (ck_ipv4 c, ck_clat c, ck_shared6 c, ck_shared c);
  cp_self : static_added (PrefixFrom (ck_ipv4 c) 32) (PrefixFrom (ck_local6 c) 128) b;
}.

Section resolve.
Context {AT : AddrText} {PT : PrefixText} {PL : ParseLaws}.
Context (cfg : UserConfig) (ro : ResolveOptions) (C : config_ok cfg) (SO : source_ok ro).

(** Take the next step of a chain. *)
Local Ltac step lem := apply wp_bind; eapply wp_mono; [first [by apply lem|by eapply lem]|].

Lemma check_all_ok s :
  rinv s -> existing_ok ro (rs_pools s) ->
  wp (check_all cfg ro) (fun c s' => entries_ok (rs_b s') /\ v6_prefixes (rs_b s') /\ pools_ok (rs_pools s') /\
    rgrows s s' /\ pool_link (ck_pool c) s' /\
    (rs_errs s' = [] -> checks_passed cfg c (rs_b s') /\ chosen cfg ro (rs_pools s) (rs_pools s') (ck_pool c))) s.
Proof.
  intros I Hex. unfold check_all.
  step (check_interface_good cfg). intros ? s1 (I1 & G1 & E1).
  step (check_prefix_good cfg C). intros ? s2 (I2 & G2 & E2).
  apply wp_bind. eapply wp_mono; [apply (good_yields _ _ _ _ (check_clat_good cfg ro C SO) (check_clat_yields cfg ro C) I2)|].
  intros [[[ipv4 clat] shared6] shared] s3 ((I3 & G3 & E3) & H4). cbn [fst snd] in H4.
  step (check_maps_good (AT := AT)). intros ? s4 (I4 & G4 & E4).
  step good_fail_if. intros ? s5 (I5 & G5 & E5).
  step check_ipv4_good. intros ? s6 (I6 & G6 & E6).
  apply wp_bind. eapply wp_mono; [apply (good_yields _ _ _ _ (own_ipv6_good cfg C ipv4) (own_ipv6_yields cfg C ipv4) I6)|].
  intros [local6 derived] s7 ((I7 & G7 & E7) & H6 & Hd). cbn [fst snd] in *.
  step (check_self_good cfg). intros config6 s8 (I8 & G8 & E8).
  assert (G18 : rgrows s s8) by (do 7 (eapply rgrows_trans; [eassumption|]); exact G8).
  apply wp_bind. eapply wp_mono.
  { apply (check_pool_ok cfg ro C s8 I8). unfold existing_ok in *. destruct (ro_ExistingPool ro); [|done].
    eapply pools_kept_length; [apply (rg_pools _ _ G18)|done]. }
  intros ref s9 (B9 & V9 & P9 & G9 & L9 & E9). apply wp_ret. split_and!; [done|done|done|by eapply rgrows_trans|done|].
  intros E0. destruct (E9 E0) as [E0' Hch]. split; [|eapply chosen_earlier; [apply (rg_pools _ _ G18)|done|exact Hch]]. clear E0 Hch.
  rename E0' into E0. destruct (E8 E0) as [E0' Hself]. destruct (E7 E0') as [E0'' H6']. destruct (E6 E0'') as [E0''' Hip].
  destruct (E5 E0''') as [E5' _]. destruct (E4 E5') as [E4' _]. destruct (E3 E4') as [E3' Hcl]. destruct (E2 E3') as [E2' _].
  destruct (E1 E2') as [_ [Hm Ho]]. constructor; cbn [ck_ipv4 ck_clat ck_shared6 ck_shared ck_local6]; auto.
  destruct Hself as (e & He & Hk & H4' & H6''). exists e. split; [by apply (rg_entries _ _ G9)|done].
Qed.
End resolve.

(** ** The resolved configuration *)

(** The interface addresses and routes of the configuration are networks. *)
Definition nets_given (cfg : UserConfig) : Prop :=
  Forall net_ok (if_Addresses (uc_Interface cfg)) /\ Forall (fun r => net_ok (rt_Prefix r)) (if_Routes (uc_Interface cfg)).

(** What the components that a resolved configuration is for require of it.  What is
    asked of the kernel is well formed exactly if the configured addresses and routes
    are: nothing else checks them. *)
Record resolved_ok (rv : Resolved) (po : option Pool) : Prop := {
  rk_translator : owp (New (rv_Xlate rv)) tr_ok;
  rk_table : exists b, mapper_ok b (rv_Table rv, po);
  rk_options : forall name f4 f6, nets_given (rv_Config rv) <->
    options_ok (mkOptions name (rv_Addresses rv) (rv_Routes4 rv) (rv_Routes6 rv) f4 f6 (rv_Shared rv));
  rk_local4 : exists v, LocalAddr4 (rv_Xlate rv) = Addr4 v /\ 0 <= v < 2 ^ 32;
  rk_local6 : Is6 (LocalAddr6 (rv_Xlate rv)) = true;
  rk_own : forall clock po', table_MapIPv4ToIPv6 clock (rv_Table rv) (LocalAddr4 (rv_Xlate rv)) po' =
    Ok (inl (withoutZone (LocalAddr6 (rv_Xlate rv))), po');
}.

Lemma own_address_maps clock b t v a6 po :
  table_of b t -> static_added (PrefixFrom (Addr4 v) 32) (PrefixFrom a6 128) b ->
  table_MapIPv4ToIPv6 clock t (Addr4 v) po = Ok (inl (withoutZone a6), po).
Proof.
  intros T (e & He & Hk & H4 & H6). change (PrefixFrom (Addr4 v) 32) with (mkPrefix (Addr4 v) 32) in H4.
  unfold table_MapIPv4ToIPv6, table_lookup4.
  assert (Hh : t_hosts4 t !! Addr4 v = Some e).
  { apply (to_hosts4 _ _ T). split_and!; [done|split; [done|by rewrite H4]|by rewrite H4]. }
  rewrite Hh, Hk. unfold joinStatic6. rewrite H4. cbn [p_bits Z.eqb Pos.eqb]. unfold mbind, M_bind, lift. cbn.
  rewrite H6. unfold PrefixFrom. by case_if.
Qed.

Section entries.
(** [Entries] as the table has it: the maps in any order, sorted in any way. *)
Context (order4 order6 : Table -> list Entry) (sort : (Entry -> Entry -> bool) -> list Entry -> list Entry).
Context (order4_perm : forall t, order4 t ≡ₚ (map_to_list (t_hosts4 t)).*2).
Context (order6_perm : forall t, order6 t ≡ₚ (map_to_list (t_hosts6 t)).*2).
Context (sort_perm : forall less l, sort less l ≡ₚ l).

Definition entries_of (t : Table) : list Entry := Entries (order4 t) (order6 t) sort t.

Lemma add_unseen_sub seen es e : e ∈ add_unseen seen es -> e ∈ es.
Proof.
  revert seen. induction es as [|x es IH]; intros seen; cbn; [done|].
  case_bool_decide; [intros ?; right; by eapply IH|]. intros [->|?]%elem_of_cons; [left|right; by eapply IH].
Qed.

Lemma entries_of_sub b t e : table_of b t -> e ∈ entries_of t -> e ∈ b_entries b.
Proof.
  intros T. unfold entries_of, Entries. rewrite sort_perm. intros He%add_unseen_sub.
  rewrite order4_perm, order6_perm, !elem_of_app in He. destruct He as [He|[He|[He|He]]].
  - apply list_elem_of_fmap in He as ([a x] & -> & Hx). apply elem_of_map_to_list in Hx. apply (to_hosts4 _ _ T) in Hx. apply Hx.
  - apply (to_nets4 _ _ T) in He. apply He.
  - apply list_elem_of_fmap in He as ([a x] & -> & Hx). apply elem_of_map_to_list in Hx. apply (to_hosts6 _ _ T) in Hx. apply Hx.
  - apply (to_nets6 _ _ T) in He. apply He.
Qed.

(** An explicit prefix is one. *)
Ltac solve_net := unfold net_ok, prefix_ok; cbn [p_addr p_bits addr_ok hasZone BitLen IsValid]; split_and!; first [done|lia|reflexivity].

Lemma net4_net_ok p v k : net4_ok p v k -> net_ok p.
Proof. intros (-> & Hk & Hv & _). solve_net. Qed.

(** The routes of an entry go to prefixes. *)
Lemma entry_routes_ok b ipv4 derived shared shared6 e r :
  entries_ok b -> v6_prefixes b -> e ∈ b_entries b -> r ∈ entry_routes ipv4 derived shared shared6 e -> net_ok (rt_Prefix r).
Proof.
  intros B V He Hr. pose proof (entry_in b B e He) as Hok. destruct (entry_net4 e Hok) as (v & k & H4%net4_net_ok).
  unfold entry_routes in Hr. destruct (e_Kind e) eqn:Ek.
  - case_if; [by apply elem_of_nil in Hr|]. apply elem_of_cons in Hr as [->|Hr]; [done|]. case_if; [|by apply elem_of_nil in Hr].
    apply list_elem_of_singleton in Hr as ->. cbn. destruct (e_v4Only e) eqn:Ev; [by apply V|].
    destruct Hok as [v0 w j _ _ S _|? ? ? ? _ _|? ? ? _ _|? ? ? _ _]; try congruence.
    destruct S as [Hj _ -> _ [Hw _]]. solve_net.
  - case_if; [by apply elem_of_nil in Hr|]. apply list_elem_of_singleton in Hr as ->. cbn.
    destruct Hok as [| |w n _ _ [-> Hn Hw]|]; try congruence. apply rfc_len in Hn. solve_net.
  - by apply list_elem_of_singleton in Hr as ->.
  - by apply elem_of_nil in Hr.
Qed.

Lemma auto_routes_ok cfg b t ipv4 derived shared shared6 r :
  entries_ok b -> v6_prefixes b -> table_of b t ->
  r ∈ auto_routes entries_of cfg ipv4 derived shared shared6 t -> net_ok (rt_Prefix r).
Proof.
  intros B V T. unfold auto_routes. case_if; [|by intros ?%elem_of_nil]. intros [Hr|Hr]%elem_of_app.
  - apply list_elem_of_In, in_concat in Hr as (l & Hl%list_elem_of_In & Hr%list_elem_of_In).
    apply list_elem_of_fmap in Hl as (e & -> & He). eapply entry_routes_ok; eauto. by eapply entries_of_sub.
  - case_if; [|by apply elem_of_nil in Hr]. apply list_elem_of_singleton in Hr as ->.
    change (rt_Prefix _) with (mkPrefix (Addr4 0) 0). solve_net.
Qed.

(** The parts of [finish]. *)
Section finish.
Context {AT : AddrText}.
Context (cfg : UserConfig) (C : config_ok cfg) (c : checked) (b : Builder) (t : Table) (po : option Pool).
Hypothesis B : entries_ok b.
Hypothesis V : v6_prefixes b.
Hypothesis T : table_of b t.
Hypothesis K : checks_passed cfg c b.
Hypothesis M : mapper_ok b (t, po).

Lemma finish_options name f4 f6 r4 r6 :
  all_routes cfg (auto_routes entries_of cfg (ck_ipv4 c) (ck_derived c) (ck_shared c) (ck_shared6 c) t) = (r4, r6) ->
  nets_given cfg -> options_ok (mkOptions name (addresses_of cfg (ck_clat c) (ck_shared c)) r4 r6 f4 f6 (ck_shared c)).
Proof.
  intros E [HA HR]. rewrite Forall_forall in HA. rewrite Forall_forall in HR. rewrite all_routes_firsts in E. set (l := firsts [] _) in E. injection E as <- <-.
  assert (HF : forall r, r ∈ l -> net_ok (rt_Prefix r)).
  { intros r [Hr _]%firsts_sub. apply elem_of_app in Hr as [Hr|Hr]; [|by eapply auto_routes_ok].
    apply list_elem_of_fmap in Hr as (x & -> & Hx). cbn. by apply Masked_net_ok, HR. }
  pose proof (cp_clat _ _ _ K) as Hcl. unfold clat_found in Hcl.
  constructor; cbn [no_Addresses no_Routes4 no_Routes6 no_Shared].
  - apply Forall_forall. intros p Hp. unfold addresses_of, dedupe in Hp. apply dedupe_sub, elem_of_app in Hp as [Hp|Hp].
    + by apply HA.
    + destruct (ck_shared c) as [s|]; [|by apply elem_of_nil in Hp]. destruct Hcl as (_ & _ & _ & _ & cl & Ecl & H4 & Ha).
      rewrite Ecl in Hp. apply list_elem_of_singleton in Hp as ->. apply PrefixFrom_net_ok; [done| |]; destruct (cl_IPv4Address cl); cbn; try done; lia.
  - apply Forall_forall. intros r [Hr Hl]%list_elem_of_filter. split; [by apply HF|done].
  - apply Forall_forall. intros r [Hr Hl]%list_elem_of_filter. split; [by apply HF|done].
  - assert (Hperm : filter (fun r => route4 r = true) l ++ filter (fun r => route4 r = false) l ≡ₚ l).
    { clear. induction l as [|r l IH]; [done|]. rewrite !filter_cons. destruct (route4 r).
      - rewrite decide_True, decide_False by done. cbn. by rewrite IH.
      - rewrite decide_False, decide_True by done. rewrite <- Permutation_middle. by rewrite IH. }
    rewrite Hperm. pose proof (firsts_distinct [] ((route_netconf <$> if_Routes (uc_Interface cfg)) ++
      auto_routes entries_of cfg (ck_ipv4 c) (ck_derived c) (ck_shared c) (ck_shared6 c) t)) as Hnd. fold l in Hnd.
    apply (NoDup_fmap_1 fst). rewrite <- list_fmap_compose. exact Hnd.
  - destruct (ck_shared c); [|done]. apply Hcl.
Qed.

(** Nothing but the configured addresses and routes being networks makes the options
    well formed. *)
Lemma finish_options_only name f4 f6 r4 r6 :
  all_routes cfg (auto_routes entries_of cfg (ck_ipv4 c) (ck_derived c) (ck_shared c) (ck_shared6 c) t) = (r4, r6) ->
  options_ok (mkOptions name (addresses_of cfg (ck_clat c) (ck_shared c)) r4 r6 f4 f6 (ck_shared c)) -> nets_given cfg.
Proof.
  intros E [OA O4 O6 _ _]. cbn [no_Addresses no_Routes4 no_Routes6] in *. rewrite all_routes_firsts in E.
  set (l := firsts [] _) in E. injection E as <- <-. rewrite !Forall_forall in *. split; apply Forall_forall.
  - intros p Hp. apply OA. unfold addresses_of, dedupe.
    match goal with |- _ ∈ dedupe_from [] ?ps => destruct (dedupe_has [] ps p) as [[]%elem_of_nil|Hd] end; [|exact Hd].
    apply elem_of_app. by left.
  - intros r Hr. pose proof (co_routes _ C) as HC. rewrite Forall_forall in HC. apply Masked_net_ok_inv; [by apply HC|].
    destruct (firsts_has [] ((route_netconf <$> if_Routes (uc_Interface cfg)) ++
      auto_routes entries_of cfg (ck_ipv4 c) (ck_derived c) (ck_shared c) (ck_shared6 c) t) (route_netconf r))
      as [[]%elem_of_nil|(r' & Hr' & Er)]; [apply elem_of_app; left; by apply list_elem_of_fmap_2|].
    change (Masked (rt_Prefix r)) with (rt_Prefix (route_netconf r)). rewrite <- Er. destruct (route4 r') eqn:E4.
    + apply O4. by apply list_elem_of_filter.
    + apply O6. by apply list_elem_of_filter.
Qed.

Lemma finish_ok warns :
  match finish entries_of cfg c t warns with
  | inl rv => resolved_ok rv po /\ rv_Pool rv = ck_pool c /\ uc_DynamicPool (rv_Config rv) = uc_DynamicPool cfg
  | inr errs => errs <> []
  end.
Proof.
  unfold finish. destruct (all_routes _ _) as [r4 r6] eqn:Er. destruct (log_level cfg); [|done]. destruct (log_json cfg); [|done].
  destruct (packet_kinds cfg); [|done]. split; [|done]. pose proof K as [Hm Ho H4 H4o H6 H6o Hc Hself].
  destruct (ck_ipv4 c) as [|v4|] eqn:Ev; try done.
  constructor; cbn [rv_Xlate rv_Table rv_Addresses rv_Routes4 rv_Routes6 rv_Shared LocalAddr4 LocalAddr6].
  - apply New_spec; cbn [LocalAddr4 MTU]; [done|unfold mtuMin; lia].
  - eauto.
  - intros name f4 f6. unfold nets_given, effective. cbn [rv_Config uc_Interface interface_of if_Addresses if_Routes].
    change (nets_given cfg <-> options_ok (mkOptions name (addresses_of cfg (ck_clat c) (ck_shared c)) r4 r6 f4 f6 (ck_shared c))).
    split; [apply finish_options|apply finish_options_only]; rewrite Ev; exact Er.
  - eauto.
  - done.
  - intros clock po'. by apply (own_address_maps clock b).
Qed.
End finish.

Context {AT : AddrText} {PT : PrefixText} {PL : ParseLaws}.

(** The whole of [ResolveWith]. *)
Lemma ResolveWith_ok cfg ro pools :
  config_ok cfg -> source_ok ro -> pools_ok pools -> existing_ok ro pools ->
  wp (ResolveWith entries_of cfg ro) (fun r pools' =>
    pools_ok pools' /\ pools_kept pools pools' /\
    match r with
    | inl rv => resolved_ok rv (i ← rv_Pool rv; pools' !! i) /\ uc_DynamicPool (rv_Config rv) = uc_DynamicPool cfg /\
        chosen cfg ro pools pools' (rv_Pool rv)
    | inr errs => errs <> []
    end) pools.
Proof.
  intros C SO P Hex. unfold wp, ResolveWith. set (s0 := mkRstate [] [] (NewBuilder (wkpfStrict cfg)) pools).
  assert (I : rinv s0).
  { constructor; [apply new_ok| |done|done]. intros e He. by apply elem_of_nil in He. }
  assert (H : wp (resolve_body entries_of cfg ro) (fun r s' => pools_ok (rs_pools s') /\ pools_kept pools (rs_pools s') /\
    match r with
    | inl rv => resolved_ok rv (i ← rv_Pool rv; rs_pools s' !! i) /\ uc_DynamicPool (rv_Config rv) = uc_DynamicPool cfg /\
        chosen cfg ro pools (rs_pools s') (rv_Pool rv)
    | inr errs => errs <> []
    end) s0).
  2: { apply wp_run in H as (r & s' & -> & H). exact H. }
  unfold resolve_body. apply wp_bind. eapply wp_mono; [by apply (check_all_ok cfg ro C SO s0 I)|].
  intros c s (B & V & P1 & [_ _ G1] & L & K). apply wp_bind, wp_gets. case_bool_decide as Ee; cbn [negb].
  2: { apply wp_ret. by split_and!. }
  destruct (K Ee) as [K' Hch]. clear K. rename K' into K. apply wp_bind, wp_gets, wp_bind. unfold wp at 1, on_ref, Build.
  destruct (build_table (rs_b s)) as [t|e] eqn:Et.
  2: { unfold mret, M_ret. cbn [mbind outcome_bind]. apply wp_ret. cbn [rs_pools].
       assert (Ek : forall i p, ck_pool c = Some i -> rs_pools s !! i = Some p -> <[i := p]> (rs_pools s) = rs_pools s)
         by (intros i p _ Hi; by apply list_insert_id).
       destruct (ck_pool c) as [i|]; [|by split_and!]. cbn [mbind option_bind].
       destruct (rs_pools s !! i) as [p|] eqn:Ei; [rewrite (Ek i p) by done|]; by split_and!. }
  pose proof (build_table_ok _ _ B Et) as T. rewrite (to_pool _ _ T). unfold pool_link in L.
  destruct (ck_pool c) as [i|] eqn:Ec.
  - destruct L as (Hb & p & H & Hi & R & HV). rewrite Hb. cbn [mbind option_bind]. rewrite Hi. cbn -[with_reserved].
    set (p' := with_reserved (table_reserved t) p). assert (R' : repr p' H) by by apply repr_reserved.
    assert (Hl : (i < length (rs_pools s))%nat) by by eapply lookup_lt_Some.
    apply wp_ret. cbn [rs_pools]. split_and!.
    + apply Forall_insert; [done|eauto].
    + eapply pools_kept_trans; [exact G1|]. apply (pools_kept_insert _ i p); [done|].
      exists (p_minLease p), (p_maxLease p), (table_reserved t). by destruct p.
    + assert (Mo : mapper_ok (rs_b s) (t, Some p')).
      { constructor; [done|done|]. intros _. exists p', H. split_and!; [done|done|]. intros e He. apply (to_poolEntry _ _ T) in He as [He Hk].
        by apply HV. }
      pose proof (finish_ok cfg C c (rs_b s) t (Some p') B V T K Mo (rs_warns s)) as HF. rewrite Ec in HF.
      destruct (finish _ _ _ _ _) as [rv|errs]; [|done]. destruct HF as (HF & Er & Edp). rewrite Er. cbn [mbind option_bind].
      rewrite list_lookup_insert_eq by done. split; [done|]. split; [done|].
      eapply chosen_later; [|exact Hch]. apply (pools_kept_insert _ i p); [done|].
      exists (p_minLease p), (p_maxLease p), (table_reserved t). by destruct p.
  - rewrite L. cbn. apply wp_ret. cbn [rs_pools]. split_and!; [done|done|].
    assert (Mo : mapper_ok (rs_b s) (t, None)).
    { constructor; [done|done|]. intros Hp. cbn in Hp. rewrite (to_pool _ _ T) in Hp. congruence. }
    pose proof (finish_ok cfg C c (rs_b s) t None B V T K Mo (rs_warns s)) as HF. rewrite Ec in HF.
    destruct (finish _ _ _ _ _) as [rv|errs]; [|done]. destruct HF as (HF & -> & Edp). done.
Qed.
(** C17: resolving a configuration always returns.  Without errors, the translator can
    be made from what it gives; the table and the pool are a valid mapper, in which the
    translator's own IPv4 address maps to its own IPv6 address; and addresses, routes
    and policy routing are fit for configuring the kernel if and only if the configured
    interface addresses and routes are networks, which is not checked.  Otherwise there
    is at least one error.  Either way no pool loses a host: a running pool changes at
    most in its leases and in the addresses it refuses.  The pool of the configuration
    is the one in use when its prefix is the one configured, and a new one otherwise. *)
Theorem resolve_establishes cfg ro pools :
  config_ok cfg -> source_ok ro -> pools_ok pools -> existing_ok ro pools ->
  wp (ResolveWith entries_of cfg ro) (fun r pools' =>
    pools_ok pools' /\ pools_kept pools pools' /\
    match r with
    | inl rv => resolved_ok rv (i ← rv_Pool rv; pools' !! i) /\ uc_DynamicPool (rv_Config rv) = uc_DynamicPool cfg /\
        chosen cfg ro pools pools' (rv_Pool rv)
    | inr errs => errs <> []
    end) pools.
Proof. apply ResolveWith_ok. Qed.
End entries.

(** ** Parsing *)

(** The filters [ParseFilter] gives. *)
Definition filter_ok (f : Filter) : Prop :=
  fl_Proto f ∈ [6; 17; 132; 58] /\
  (fl_Start f = 0 /\ fl_End f = 0 \/ fl_Proto f <> 58 /\ 0 < fl_Start f <= fl_End f /\ fl_End f < 65536).

Lemma digits_bound acc l n : 0 <= acc -> digits_value acc l = Some n -> acc <= n.
Proof.
  revert acc. induction l as [|c l IH]; intros acc Ha; cbn; [by intros [= ->]|].
  unfold digit_value. destruct ((48 <=? Z.of_nat (nat_of_ascii c)) && (Z.of_nat (nat_of_ascii c) <=? 57)) eqn:E; [|done].
  cbn. intros H. bool_prop. apply IH in H; lia.
Qed.

Lemma parse_port_range s n : parse_port s = Some n -> 0 < n < 65536.
Proof.
  unfold parse_port, ParseUint. destruct (String.list_ascii_of_string s) as [|c l]; [done|].
  destruct (digits_value 0 (c :: l)) as [m|] eqn:E; [|done]. cbn [mbind option_bind].
  case_if; [|done]. case_if; [done|]. intros [= <-]. apply digits_bound in E; [|done]. bool_prop.
  change (2 ^ 16) with 65536 in *. lia.
Qed.

Lemma parse_port_FormatInt n : 0 < n < 65536 -> parse_port (FormatInt n) = Some n.
Proof.
  intros Hn. unfold parse_port. rewrite ParseUint_FormatInt by (try change (2 ^ 16) with 65536; lia).
  by rewrite (proj2 (Z.eqb_neq _ _)) by lia.
Qed.

Lemma filter_proto_range s p : filter_proto s = Some p -> p ∈ [6; 17; 132; 58].
Proof. unfold filter_proto. repeat case_if; intros [= <-]; set_solver. Qed.

Lemma ParseFilter_ok s f : ParseFilter s = Some f -> filter_ok f.
Proof.
  unfold ParseFilter. destruct (Cut s "/") as [[proto ports] has]. destruct (filter_proto proto) as [p|] eqn:Ep; [|done].
  apply filter_proto_range in Ep. case_if; [intros [= <-]; split; [exact Ep|left; by split]|]. case_if; [done|].
  destruct (Cut ports "-") as [[lo hi] range]. destruct (parse_port lo) as [a|] eqn:Ea; [|done].
  destruct (parse_port (if range then hi else lo)) as [b|] eqn:Eb; [|done]. destruct (b <? a) eqn:Eab; [done|]. intros [= <-].
  apply parse_port_range in Ea, Eb. bool_prop. split; [exact Ep|]. right. cbn. lia.
Qed.

Lemma FormatInt_no_sep n c : 0 <= n < 2 ^ 63 -> digit_value c = None -> (Cut (FormatInt n) c).2 = false.
Proof. intros Hn Hc. destruct (FormatInt_digits n Hn) as (l & -> & _ & _ & HF). by apply Cut_digits. Qed.

(** The ports of a filter, as [Filter_String] writes them. *)
Lemma parse_ports a b (q : string) :
  0 < a <= b -> b < 65536 ->
  q = (if a =? b then FormatInt a else FormatInt a +:+ "-" +:+ FormatInt b) ->
  let '(lo, hi, range) := Cut q "-" in
  parse_port lo = Some a /\ parse_port (if (range : bool) then hi else lo) = Some b.
Proof.
  intros Ha Hb ->. case_if.
  - bool_prop. subst b. rewrite Cut_none by (apply FormatInt_no_sep; [lia|done]). by rewrite parse_port_FormatInt by lia.
  - change (FormatInt a +:+ "-" +:+ FormatInt b) with (FormatInt a +:+ String "-" (FormatInt b)).
    rewrite Cut_app by (apply FormatInt_no_sep; [lia|done]). by rewrite !parse_port_FormatInt by lia.
Qed.

Lemma ParseFilter_String_lemma f : filter_ok f -> ParseFilter (Filter_String f) = Some f.
Proof.
  intros [Hp Hr]. destruct f as [p a b]. cbn [fl_Proto fl_Start fl_End] in *.
  assert (Hproto : exists name, (if p =? 0 then ""%string else if p =? 6 then "tcp"%string else if p =? 17 then "udp"%string
      else if p =? 58 then "icmp"%string else if p =? 132 then "sctp"%string else FormatInt p) = name /\
      name <> ""%string /\ filter_proto name = Some p /\ (Cut name "/").2 = false).
  { repeat (apply elem_of_cons in Hp as [->|Hp]; [eexists; split; [reflexivity|]; by vm_compute|]). by apply elem_of_nil in Hp. }
  destruct Hproto as (name & En & Hne & Hf & Hc). unfold Filter_String. cbn [fl_Proto fl_Start fl_End]. rewrite En.
  rewrite bool_decide_false by done. destruct Hr as [[-> ->]|(Hp58 & Ha & Hb)].
  - cbn [Z.eqb]. unfold ParseFilter. rewrite Cut_none by done. by rewrite Hf.
  - rewrite (proj2 (Z.eqb_neq a 0)) by lia.
    pose proof (parse_ports a b _ Ha Hb eq_refl) as HP.
    assert (Es : (if a =? b then name +:+ "/" +:+ FormatInt a else name +:+ "/" +:+ FormatInt a +:+ "-" +:+ FormatInt b) =
      name +:+ String "/" (if a =? b then FormatInt a else FormatInt a +:+ "-" +:+ FormatInt b)) by by case_if.
    rewrite Es. unfold ParseFilter. rewrite Cut_app by done. rewrite Hf. cbn [negb].
    rewrite (proj2 (Z.eqb_neq p 58)) by done. destruct (Cut _ "-") as [[lo hi] range]. destruct HP as [-> ->].
    by rewrite (proj2 (Z.ltb_ge _ _)) by lia.
Qed.

(** The text of a filter parses back to it, and every filter that parses is one
    that the text can express: a known protocol, and either no ports or a range of
    ports from 1 to 65535 that is not reversed. *)
Theorem ParseFilter_roundtrip f : filter_ok f <-> ParseFilter (Filter_String f) = Some f.
Proof. split; [apply ParseFilter_String_lemma|apply ParseFilter_ok]. Qed.

(** Routes are what one pass over the explicit routes followed by the automatic
    ones gives: for every prefix the first route for it, so an explicit route replaces
    an automatic one, and no prefix has two. *)
Theorem explicit_routes_win cfg auto p :
  let '(r4, r6) := all_routes cfg auto in
  let wanted := (route_netconf <$> if_Routes (uc_Interface cfg)) ++ auto in
  find (has_prefix p) (if Is4 (p_addr p) then r4 else r6) = find (has_prefix p) wanted /\
  NoDup (rt_Prefix <$> r4) /\ NoDup (rt_Prefix <$> r6) /\
  Forall (fun r => Is4 (p_addr (rt_Prefix r)) = true) r4 /\ Forall (fun r => Is4 (p_addr (rt_Prefix r)) = false) r6.
Proof.
  rewrite all_routes_firsts. set (wanted := _ ++ auto).
  assert (Hf : forall l : list Route, find (has_prefix p) (filter (fun r => route4 r = Is4 (p_addr p)) l) = find (has_prefix p) l).
  { induction l as [|r l IH]; [done|]. rewrite filter_cons. cbn [find]. unfold has_prefix at 2.
    destruct (bool_decide (rt_Prefix r = p)) eqn:E.
    - apply bool_decide_eq_true in E. rewrite decide_True by (unfold route4; by rewrite E). cbn [find].
      unfold has_prefix. by rewrite bool_decide_true.
    - destruct (decide (route4 r = Is4 (p_addr p))); [|exact IH]. cbn [find]. unfold has_prefix at 1. rewrite E. exact IH. }
  assert (Hd : forall b, NoDup (rt_Prefix <$> filter (fun r => route4 r = b) (firsts [] wanted))).
  { intros b. eapply sublist_NoDup; [apply firsts_distinct|]. apply fmap_sublist, sublist_filter. }
  split_and!; [|apply Hd|apply Hd|apply Forall_forall; intros r Hr; apply list_elem_of_filter in Hr as [Hr _]; exact Hr..].
  rewrite <- (firsts_find p [] wanted) by apply not_elem_of_nil. destruct (Is4 (p_addr p)); apply Hf.
Qed.
