(* ===== verification/ResolveRuns.v ===== *)
(** * Configurations resolved

    Witnesses of [ResolveProps]: a router with a map, a pool that is already running
    and a NAT64 prefix, and the same configuration with a log level that does not
    exist, which is rejected after the running pool was changed. *)

From stdpp Require Import base tactics list numbers option strings gmap sorting.
From Stdlib Require Import ZArith Lia.
From S2P Require Import Prelude Netip Netutil Text Strings Events Packet Layout Translator TranslatorFacts Pool PoolFacts PoolOps PoolSave PoolRun PoolProps Table Join TableFacts TableMap Netconf NetconfFacts NetconfProps Configuration Resolve ResolveFacts ResolveProps.

Open Scope Z_scope.

(** The text of the addresses and prefixes used below. *)
Definition rx_net6 (x : Z) : Z := 0x20010db8 * 2 ^ 96 + x * 2 ^ 80.
Definition rx_addrs : list (string * Addr) :=
  [("198.51.100.7"%string, Addr4 (be [198; 51; 100; 7])); ("2001:db8:7::1"%string, Addr6 (rx_net6 7 + 1) "")].

Definition rx_text : AddrText := {|
  addr_String a := match list_find (fun x => x.2 = a) rx_addrs with Some (_, x) => x.1 | None => "?"%string end;
  ParseAddr s := (fun x => x.2.2) <$> list_find (fun x => x.1 = s) rx_addrs;
|}.

Definition rx_prefix_text : PrefixText := {|
  ParsePrefix s := if bool_decide (s = "192.0.2.16/28"%string) then Some (mkPrefix (Addr4 (be [192; 0; 2; 16])) 28)
                   else if bool_decide (s = "2001:db8:5::/124"%string) then Some (mkPrefix (Addr6 (rx_net6 5) "") 124)
                   else None;
|}.

(** Conditions on concrete addresses, by evaluation. *)
Ltac by_value :=
  vm_compute; repeat match goal with |- _ /\ _ => split end;
  first [exact I|reflexivity|discriminate|right; split; discriminate].

Lemma rx_laws : @ParseLaws rx_text rx_prefix_text.
Proof.
  constructor.
  - intros s p. cbn [ParsePrefix rx_prefix_text]. repeat case_bool_decide; intros [= <-]; by_value.
  - intros s a. cbn [ParseAddr rx_text]. destruct (list_find _ rx_addrs) as [[i [t b]]|] eqn:E; [|done]. cbn. intros [= <-].
    apply list_find_Some in E as (Hi & _ & _). apply list_elem_of_lookup_2 in Hi. unfold rx_addrs in Hi.
    repeat (apply elem_of_cons in Hi as [[= -> ->]|Hi]; [by_value|]). by apply elem_of_nil in Hi.
Qed.

Definition rx_config_with (addrs : list Prefix) (routes : list Route) (level : string) : UserConfig :=
  mkUserConfig (mkInterface "" 0 None addrs routes None None)
    (Addr4 (be [192; 0; 0; 2])) AddrZero (mkPrefix (Addr6 (rx_net6 1) "") 96) None
    [mkStaticMap "198.51.100.7" "2001:db8:7::1"; mkStaticMap "192.0.2.16/28" "2001:db8:5::/124"]
    (Some (mkDynamicPool px_prefix "/var/lib/clatto/dynamic.map" (600 * Second) 0)) None "" 0
    (mkLog level "" ["drop"; "dyn"]%string) (mkHTTP "off" false).

Definition rx_config : string -> UserConfig :=
  rx_config_with [] [mkRoute (mkPrefix (Addr4 (be [10; 0; 0; 1])) 8) 100 0 0].

Definition rx_options : ResolveOptions := mkResolveOptions (Some 0%nat) None.

Definition rx_order4 (t : Table) : list Entry := (map_to_list (t_hosts4 t)).*2.
Definition rx_order6 (t : Table) : list Entry := (map_to_list (t_hosts6 t)).*2.
Definition rx_sort (less : Entry -> Entry -> bool) (l : list Entry) : list Entry := l.

Definition rx_resolve (level : string) : outcome ((Resolved + list CfgErr) * list Pool) :=
  @ResolveWith rx_text rx_prefix_text (entries_of rx_order4 rx_order6 rx_sort) (rx_config level) rx_options [px_full].

Lemma rx_config_ok level : config_ok (rx_config level).
Proof.
  constructor.
  - constructor.
  - constructor; [by_value|constructor].
  - by_value.
  - by_value.
  - by_value.
  - by_value.
  - exact I.
Qed.

Lemma resolve_establishes_witness :
  (match rx_resolve "" with
   | Ok (inl rv, _) => bool_decide (rv_Pool rv = Some 0%nat /\ length (rv_Routes4 rv) = 5%nat /\ length (rv_Routes6 rv) = 1%nat)
   | _ => false
   end = true) /\
  wp (@ResolveWith rx_text rx_prefix_text (entries_of rx_order4 rx_order6 rx_sort) (rx_config "") rx_options) (fun r pools' =>
    pools_ok pools' /\ pools_kept [px_full] pools' /\
    match r with
    | inl rv => resolved_ok rv (i ← rv_Pool rv; pools' !! i) /\
        uc_DynamicPool (rv_Config rv) = uc_DynamicPool (rx_config "") /\ chosen (rx_config "") rx_options [px_full] pools' (rv_Pool rv)
    | inr errs => errs <> []
    end) [px_full].
Proof.
  split; [vm_compute; reflexivity|].
  apply (@resolve_establishes rx_order4 rx_order6 rx_sort (fun t => Permutation_refl _) (fun t => Permutation_refl _)
           (fun less l => Permutation_refl _) rx_text rx_prefix_text rx_laws (rx_config "") rx_options [px_full]).
  - apply rx_config_ok.
  - exact I.
  - constructor; [|constructor]. exists (view px_full). exact px_full_repr.
  - unfold existing_ok. cbn. lia.
Defined.

(** A configuration can be rejected after it has changed the pool that is running:
    with an unknown log level, [ResolveWith] reports an error, but the pool that the
    running configuration uses already has the new minimum lease, and already refuses
    the addresses that the rejected configuration maps. *)
Theorem rejected_config_changes_pool :
  match rx_resolve "verbose" with
  | Ok (inr errs, pools) => errs = [ErrLogLevel] /\
      exists p, pools = [p] /\ p_minLease px_full = DefaultMinLease /\ p_minLease p = 600 * Second /\
        p_reserved px_full (Addr4 (be [198; 51; 100; 7])) = false /\ p_reserved p (Addr4 (be [198; 51; 100; 7])) = true
  | _ => False
  end.
Proof.
  assert (H : match rx_resolve "verbose" with
    | Ok (inr [ErrLogLevel], [p]) => (p_minLease p =? 600 * Second) && p_reserved p (Addr4 (be [198; 51; 100; 7]))
    | _ => false
    end = true) by (vm_compute; reflexivity).
  destruct (rx_resolve "verbose") as [[[rv|errs] pools]| |]; try done.
  destruct errs as [|[] [|]]; try done. destruct pools as [|p [|]]; try done.
  apply andb_true_iff in H as [H1 H2]. apply Z.eqb_eq in H1. split; [reflexivity|]. exists p. by split_and!.
Qed.

(** An interface address and a route that are not networks, as the documents
    [addresses: [""]] and [routes: [null]] decode to them, resolve without an error. *)
Theorem invalid_networks_resolve :
  match @ResolveWith rx_text rx_prefix_text (entries_of rx_order4 rx_order6 rx_sort)
          (rx_config_with [PrefixZero] [mkRoute PrefixZero 0 0 0] "") rx_options [px_full] with
  | Ok (inl rv, _) => rv_Addresses rv = [PrefixZero] /\ head (rv_Routes6 rv) = Some (mkRoute PrefixZero 0 0 0)
  | _ => False
  end.
Proof.
  assert (H : match @ResolveWith rx_text rx_prefix_text (entries_of rx_order4 rx_order6 rx_sort)
          (rx_config_with [PrefixZero] [mkRoute PrefixZero 0 0 0] "") rx_options [px_full] with
    | Ok (inl rv, _) => bool_decide (rv_Addresses rv = [PrefixZero] /\ head (rv_Routes6 rv) = Some (mkRoute PrefixZero 0 0 0))
    | _ => false
    end = true) by (vm_compute; reflexivity).
  destruct (ResolveWith _ _ _ _) as [[[rv|errs] pools]| |]; try done. by apply bool_decide_eq_true in H.
Qed.
