(* ===== verification/Daemon.v ===== *)
(** * The daemon: [src/internal/daemon/daemon.go]

    The daemon holds the configuration in force, the engine with the translators it
    was given, the options last applied to the kernel and its status; around it are
    the pools, the kernel and the files.  [Running] adds where [Run] is, and what became
    of the engine's goroutine.  Everything that happens (a step of [Run], a turn of the
    engine's loop, a configuration applied, the file reloaded, cancellation) is a step
    on this state, and the steps come in any order, before [Run] begins and after it
    ended too; a turn of the engine may work with any translator it has had, because it
    loads the translator before it translates the packets of a batch. *)

From stdpp Require Import base tactics list numbers option strings gmap.
From Stdlib Require Import ZArith Lia.
From S2P Require Import Prelude Netip Netutil Text Strings Events Packet Translator Pool Table Engine Netconf Configuration Resolve.

Open Scope Z_scope.

(** ** Data *)

(** The errors; [ErrInvalid] wraps the first five. *)
Inductive DaemonErr :=
  | InvalidConfig (errs : list CfgErr)
  | InvalidChange (changed : list Immutable)
  | InvalidYAML
  | InvalidNoFile
  | InvalidFile
  | UpdateFailed (e : NetconfErr).

(** [errors.Is(err, ErrInvalid)] *)
Definition is_invalid (e : DaemonErr) : bool := match e with UpdateFailed _ => false | _ => true end.

Record Status := mkStatus {
  st_Generation : Z;
  st_Source : string;
  st_AppliedAt : Z;
  st_LastError : option DaemonErr;
  st_LastErrorAt : Z;
  st_Interface : string;
  st_Ready : bool;
}.

(** How [Run] fails. *)
Inductive RunErr := CreateFailed | ConfigureFailed (e : NetconfErr) | DeviceFailed.

(** The error that the engine's [Run] returns. *)
Inductive EngineEnd := Canceled | DeviceError | NoError.

(** A translator with its table and the pool the table was built for. *)
Record Live := mkLive { lv_tr : Translator; lv_table : Table; lv_pool : option nat }.

(** The files: what opening and reading one gives, how the calls that write one end,
    and the directory after a file was renamed over another. *)
Class Files (F : Type) := {
  file_load : string -> F -> load_io;
  file_save : string -> F -> save_io;
  file_replace : string -> list string -> F -> F;
}.

(** The device as the daemon sees it: its name, and the effect on it of cancelling the
    context. *)
Class Tun (DS : Type) `{Device DS} := {
  NewDevice : string -> Z -> option DS;
  dev_Name : DS -> string;
  cancel : DS -> DS;
}.

(** The fields of [Daemon] that change, with the store of pools, the kernel, the files
    and the count of [time.Now] calls.  [d_live] lists the translators the engine was
    given, the one in force first; [d_reloads] the increments of the reload counter. *)
Record Daemon (K F DS : Type) := mkDaemon {
  d_cur : Resolved;
  d_eng : option (Engine (Table * option Pool) DS);
  d_live : list Live;
  d_applied : Options;
  d_started : bool;
  d_status : Status;
  d_ready : bool;
  d_level : LogLevel;
  d_kinds : list Kind;
  d_reloads : list (string * bool);
  d_generation : Z;
  d_pools : list Pool;
  d_kernel : K;
  d_files : F;
  d_now : nat;
}.
Arguments mkDaemon {K F DS} _ _ _ _ _ _ _ _ _ _ _ _ _ _ _.
Arguments d_cur {K F DS} _.
Arguments d_eng {K F DS} _.
Arguments d_live {K F DS} _.
Arguments d_applied {K F DS} _.
Arguments d_started {K F DS} _.
Arguments d_status {K F DS} _.
Arguments d_ready {K F DS} _.
Arguments d_level {K F DS} _.
Arguments d_kinds {K F DS} _.
Arguments d_reloads {K F DS} _.
Arguments d_generation {K F DS} _.
Arguments d_pools {K F DS} _.
Arguments d_kernel {K F DS} _.
Arguments d_files {K F DS} _.
Arguments d_now {K F DS} _.

Section setters.
Context {K F DS : Type}.
Local Abbreviation D := (Daemon K F DS).

Definition d_set_cur (r : Resolved) (d : D) : D :=
  mkDaemon r (d_eng d) (d_live d) (d_applied d) (d_started d) (d_status d) (d_ready d) (rv_LogLevel r) (rv_PacketKinds r)
    (d_reloads d) (d_generation d) (d_pools d) (d_kernel d) (d_files d) (d_now d).
Definition d_set_eng (e : option (Engine (Table * option Pool) DS)) (d : D) : D :=
  mkDaemon (d_cur d) e (d_live d) (d_applied d) (d_started d) (d_status d) (d_ready d) (d_level d) (d_kinds d)
    (d_reloads d) (d_generation d) (d_pools d) (d_kernel d) (d_files d) (d_now d).
Definition d_add_live (l : Live) (d : D) : D :=
  mkDaemon (d_cur d) (d_eng d) (l :: d_live d) (d_applied d) (d_started d) (d_status d) (d_ready d) (d_level d) (d_kinds d)
    (d_reloads d) (d_generation d) (d_pools d) (d_kernel d) (d_files d) (d_now d).
Definition d_set_applied (o : Options) (d : D) : D :=
  mkDaemon (d_cur d) (d_eng d) (d_live d) o (d_started d) (d_status d) (d_ready d) (d_level d) (d_kinds d)
    (d_reloads d) (d_generation d) (d_pools d) (d_kernel d) (d_files d) (d_now d).
Definition d_start (d : D) : D :=
  mkDaemon (d_cur d) (d_eng d) (d_live d) (d_applied d) true (d_status d) (d_ready d) (d_level d) (d_kinds d)
    (d_reloads d) (d_generation d) (d_pools d) (d_kernel d) (d_files d) (d_now d).
Definition d_set_ready (b : bool) (d : D) : D :=
  mkDaemon (d_cur d) (d_eng d) (d_live d) (d_applied d) (d_started d) (d_status d) b (d_level d) (d_kinds d)
    (d_reloads d) (d_generation d) (d_pools d) (d_kernel d) (d_files d) (d_now d).
Definition d_set_status (s : Status) (d : D) : D :=
  mkDaemon (d_cur d) (d_eng d) (d_live d) (d_applied d) (d_started d) s (d_ready d) (d_level d) (d_kinds d)
    (d_reloads d) (d_generation d) (d_pools d) (d_kernel d) (d_files d) (d_now d).
Definition d_count_reload (source : string) (ok : bool) (d : D) : D :=
  mkDaemon (d_cur d) (d_eng d) (d_live d) (d_applied d) (d_started d) (d_status d) (d_ready d) (d_level d) (d_kinds d)
    (d_reloads d ++ [(source, ok)]) (if ok then st_Generation (d_status d) else d_generation d)
    (d_pools d) (d_kernel d) (d_files d) (d_now d).
Definition d_set_pools (ps : list Pool) (d : D) : D :=
  mkDaemon (d_cur d) (d_eng d) (d_live d) (d_applied d) (d_started d) (d_status d) (d_ready d) (d_level d) (d_kinds d)
    (d_reloads d) (d_generation d) ps (d_kernel d) (d_files d) (d_now d).
Definition d_set_kernel (k : K) (d : D) : D :=
  mkDaemon (d_cur d) (d_eng d) (d_live d) (d_applied d) (d_started d) (d_status d) (d_ready d) (d_level d) (d_kinds d)
    (d_reloads d) (d_generation d) (d_pools d) k (d_files d) (d_now d).
Definition d_set_files (f : F) (d : D) : D :=
  mkDaemon (d_cur d) (d_eng d) (d_live d) (d_applied d) (d_started d) (d_status d) (d_ready d) (d_level d) (d_kinds d)
    (d_reloads d) (d_generation d) (d_pools d) (d_kernel d) f (d_now d).
Definition d_tick (d : D) : D :=
  mkDaemon (d_cur d) (d_eng d) (d_live d) (d_applied d) (d_started d) (d_status d) (d_ready d) (d_level d) (d_kinds d)
    (d_reloads d) (d_generation d) (d_pools d) (d_kernel d) (d_files d) (S (d_now d)).
End setters.

(** ** A daemon and its goroutines *)

(** The engine's goroutine: at work, ended with its error in the channel, or ended with
    its error taken from there. *)
Inductive EngineState := Working | Ended (e : EngineEnd) | Taken.

(** Where [Run] is. *)
Inductive RunPC :=
  | Begin                      (* before it takes the mutex *)
  | Started                    (* the mutex is free again, the engine made *)
  | Selecting                  (* at the select of its loop *)
  | Ticked (r : Resolved)      (* with the configuration of a tick, before Maintain *)
  | Maintained (r : Resolved)  (* before the save of that tick *)
  | Awaiting                   (* after the loop, where it wants the engine's error *)
  | Leaving (e : EngineEnd)    (* before the last save *)
  | Returned (e : option RunErr).

(** The branches of its select. *)
Inductive branch := BDone | BEngine | BTick.

(** [rn_done] tells whether the context was cancelled. *)
Record Running (K F DS : Type) := mkRunning {
  rn_daemon : Daemon K F DS;
  rn_pc : RunPC;
  rn_engine : EngineState;
  rn_done : bool;
}.
Arguments mkRunning {K F DS} _ _ _ _.
Arguments rn_daemon {K F DS} _.
Arguments rn_pc {K F DS} _.
Arguments rn_engine {K F DS} _.
Arguments rn_done {K F DS} _.

Section running.
Context {K F DS : Type}.
Local Abbreviation R := (Running K F DS).

Definition rn_set_daemon (d : Daemon K F DS) (s : R) : R := mkRunning d (rn_pc s) (rn_engine s) (rn_done s).
Definition rn_set_pc (pc : RunPC) (s : R) : R := mkRunning (rn_daemon s) pc (rn_engine s) (rn_done s).
Definition rn_set_engine (e : EngineState) (s : R) : R := mkRunning (rn_daemon s) (rn_pc s) e (rn_done s).
Definition rn_cancel (s : R) : R := mkRunning (rn_daemon s) (rn_pc s) (rn_engine s) true.
End running.

(** ** Operations *)

Section daemon.
Context {K F DS : Type} `{Kernel K} `{Files F} `{HD : Device DS} {HT : @Tun DS HD}.
Context `{AT : AddrText} `{PT : PrefixText}.
(** The clock of the pool, the order in which Go visits a map, the text of a time, and
    [time.Now] of the daemon. *)
Context (clock : nat -> Z) (range : nat -> gmap Addr nat -> list (Addr * nat)) (time_String : Z -> string).
Context (wall : nat -> Z) (rand32 : nat -> Z).
Context (table_Entries : Table -> list Entry).
(** [Options]: [SourceAddr], and [LoadFile], whose answer depends on when it is asked;
    [config.LoadYAML] into the zero configuration. *)
Context (SourceAddr : Addr -> option Addr) (LoadFile : option (nat -> option UserConfig)).
Context (LoadYAML : string -> option UserConfig).

Local Abbreviation D := (Daemon K F DS).
Local Abbreviation MD := (M D).

(** *** Parts of the daemon *)

Definition time_Now : MD Z := fun d => Ok (wall (d_now d), d_tick d).

Definition on_pools {A} (m : M (list Pool) A) : MD A := fun d =>
  '(r, ps) ← m (d_pools d); Ok (r, d_set_pools ps d).
Definition on_kernel {A} (m : M K A) : MD A := fun d =>
  '(r, k) ← m (d_kernel d); Ok (r, d_set_kernel k d).

(** A method of the pool a pointer points to. *)
Definition on_pool_ref {A} (ref : option nat) (m : M Pool A) : MD A := fun d =>
  match ref with
  | None => Panic
  | Some i =>
      match d_pools d !! i with
      | None => Panic
      | Some p => '(r, p') ← m p; Ok (r, d_set_pools (<[i := p']> (d_pools d)) d)
      end
  end.

(** *** The state of the pool *)

Definition loadPoolState (r : Resolved) : MD unit :=
  match uc_DynamicPool (rv_Config r) with
  | None => lift Panic
  | Some dp =>
      let sf := dp_StateFile dp in
      if bool_decide (sf = ""%string) then skip else
      io ← gets (fun d => file_load sf (d_files d));
      on_pool_ref (rv_Pool r) (Load clock io);; skip
  end.

Definition savePoolState (r : Resolved) (force : bool) : MD unit :=
  match rv_Pool r, uc_DynamicPool (rv_Config r) with
  | Some ref, Some dp =>
      let sf := dp_StateFile dp in
      if bool_decide (sf = ""%string) then skip else
      dirty ← on_pool_ref (Some ref) (gets Dirty);
      if negb force && negb dirty then skip else
      io ← gets (fun d => file_save sf (d_files d));
      '(lines, _) ← on_pool_ref (Some ref) (Save clock range time_String io);
      match lines with
      | Some ls => modify (fun d => d_set_files (file_replace sf ls (d_files d)) d)
      | None => skip
      end
  | _, _ => skip
  end.

(** *** Configuration *)

Definition netconfOptions (r : Resolved) (name : string) : Options :=
  mkOptions name (rv_Addresses r) (rv_Routes4 r) (rv_Routes6 r) (Forward4 r) (Forward6 r) (rv_Shared r).

Definition failLocked (source : string) (e : DaemonErr) : MD (option DaemonErr) :=
  t ← time_Now;
  modify (fun d => let s := d_status d in
    d_set_status (mkStatus (st_Generation s) (st_Source s) (st_AppliedAt s) (Some e) t (st_Interface s) (st_Ready s)) d);;
  modify (d_count_reload source false);;
  mret (Some e).

(** The end of [Apply], when nothing can fail any more. *)
Definition switch (r : Resolved) (source : string) : MD (option DaemonErr) :=
  eng ← gets d_eng;
  (match eng with
   | Some _ => t ← lift (New (rv_Xlate r)); modify (d_add_live (mkLive t (rv_Table r) (rv_Pool r)))
   | None => skip
   end);;
  modify (d_set_cur r);;
  t ← time_Now;
  modify (fun d => let s := d_status d in
    d_set_status (mkStatus (st_Generation s + 1) source t None (st_LastErrorAt s) (st_Interface s) (st_Ready s)) d);;
  modify (d_count_reload source true);;
  mret None.

Definition Apply (cfg : UserConfig) (source : string) : MD (option DaemonErr) :=
  cur ← gets d_cur;
  r ← on_pools (ResolveWith table_Entries cfg (mkResolveOptions (rv_Pool cur) (Some SourceAddr)));
  match r with
  | inr errs => failLocked source (InvalidConfig errs)
  | inl r =>
      let changed := ImmutableChanges cur r in
      if negb (bool_decide (changed = [])) then failLocked source (InvalidChange changed) else
      (match rv_Pool r with
       | Some _ =>
           if bool_decide (rv_Pool r = rv_Pool cur) then skip else
           savePoolState cur true;;
           loadPoolState r
       | None => skip
       end);;
      started ← gets d_started;
      if started && Configure r then
        prev ← gets d_applied;
        let want := netconfOptions r (no_Name prev) in
        e ← on_kernel (Update prev want);
        match e with
        | Some e => failLocked source (UpdateFailed e)
        | None => modify (d_set_applied want);; switch r source
        end
      else switch r source
  end.

Definition ApplyYAML (data : string) (source : string) : MD (option DaemonErr) :=
  match LoadYAML data with
  | None => failLocked source InvalidYAML
  | Some cfg => Apply cfg source
  end.

Definition Reload (source : string) : MD (option DaemonErr) :=
  match LoadFile with
  | None => failLocked source InvalidNoFile
  | Some load =>
      n ← gets d_now;
      match load n with
      | None => failLocked source InvalidFile
      | Some cfg => Apply cfg source
      end
  end.

(** [Status()]: what is stored, with readiness as it is now. *)
Definition get_status (d : D) : Status :=
  let s := d_status d in
  mkStatus (st_Generation s) (st_Source s) (st_AppliedAt s) (st_LastError s) (st_LastErrorAt s) (st_Interface s) (d_ready d).

(** The pool in force, [Pool()]. *)
Definition current_pool (d : D) : option Pool := i ← rv_Pool (d_cur d); d_pools d !! i.

(** *** Start, run, stop *)

(** [New]: the initial configuration, its pool with what the state file holds. *)
Definition NewDaemon (initial : Resolved) (pools : list Pool) (k : K) (f : F) : outcome D :=
  let name := if_Name (uc_Interface (rv_Config initial)) in
  let d := mkDaemon initial None [] (mkOptions "" [] [] [] false false None) false
             (mkStatus 1 "startup" 0 None 0 name false) false (rv_LogLevel initial) (rv_PacketKinds initial)
             [] 1 pools k f 0 in
  '(_, d) ← (match rv_Pool initial with Some _ => loadPoolState initial | None => skip end) d;
  '(t, d) ← time_Now d;
  Ok (d_set_status (mkStatus 1 "startup" t None 0 name false) d).

(** The beginning of [Run], with the mutex: the device, the kernel and the engine. *)
Definition start : MD (option RunErr) :=
  r ← gets d_cur;
  match NewDevice (if_Name (uc_Interface (rv_Config r))) (if_MTU (uc_Interface (rv_Config r))) with
  | None => mret (Some CreateFailed)
  | Some dev =>
      let want := netconfOptions r (dev_Name dev) in
      e ← (if Configure r then on_kernel (Netconf.Apply want) else mret None);
      match e with
      | Some e => mret (Some (ConfigureFailed e))
      | None =>
          modify (d_set_applied want);;
          t ← lift (New (rv_Xlate r));
          po ← gets current_pool;
          modify (d_set_eng (Some (NewEngine dev (rv_Table r, po))));;
          modify (d_add_live (mkLive t (rv_Table r) (rv_Pool r)));;
          modify d_start;;
          mret None
      end
  end.

(** One turn of the engine's loop, with the [k]-th last translator it was given, and
    the error of the engine's [Run] when the turn was its last. *)
Definition turn (k : nat) : MD (option EngineEnd) := fun d =>
  match d_eng d, d_live d !! k with
  | Some g, Some l =>
      let batch := if BatchSize (g_dev g) <? 1 then 1 else BatchSize (g_dev g) in
      let po := i ← lv_pool l; d_pools d !! i in
      '(r, g) ← iteration (H := table_mapper clock range) rand32 (fun _ m => (lv_tr l, m)) batch (g_set_map (lv_table l, po) g);
      let e := match r with
               | None => None
               | Some EndErr => Some DeviceError
               | Some EndCtx => Some (if ctx_done (g_dev g) then Canceled else NoError)
               end in
      let g := match r with Some _ => g_set_dev (dev_Close (g_dev g)) g | None => g end in
      let pools := match lv_pool l, (g_map g).2 with Some i, Some p => <[i := p]> (d_pools d) | _, _ => d_pools d end in
      Ok (e, d_set_pools pools (d_set_eng (Some g) d))
  | _, _ => Ok (None, d)
  end.

(** The device hears of the cancellation. *)
Definition cancel_device (d : D) : D := d_set_eng ((fun g => g_set_dev (cancel (g_dev g)) g) <$> d_eng d) d.

(** *** [Run], among what else happens *)

Local Abbreviation R := (Running K F DS).
Local Abbreviation MR := (M R).

Definition on_daemon {A} (m : MD A) : MR A := fun s =>
  '(a, d) ← m (rn_daemon s); Ok (a, rn_set_daemon d s).

Definition goto (pc : RunPC) : MR unit := modify (rn_set_pc pc).

(** [Run] goes on, from where it is to the next place where the other goroutines can
    tell; at the [select] it takes the branch [b], when that branch is ready. *)
Definition Run (b : branch) : MR unit :=
  pc ← gets rn_pc;
  match pc with
  | Begin =>
      e ← on_daemon start;
      match e with
      | Some e => goto (Returned (Some e))
      | None =>
          over ← gets rn_done;
          (if (over : bool) then on_daemon (modify cancel_device) else skip);;
          goto Started
      end
  | Started => on_daemon (modify (d_set_ready true));; goto Selecting
  | Selecting =>
      match b with
      | BDone =>
          over ← gets rn_done;
          if (over : bool) then on_daemon (modify (d_set_ready false));; goto Awaiting else skip
      | BEngine =>
          res ← gets rn_engine;
          match res with
          | Ended e =>
              modify (rn_set_engine Taken);;
              on_daemon (modify (d_set_ready false));;
              goto (match e with NoError => Awaiting | _ => Leaving e end)
          | _ => skip
          end
      | BTick =>
          r ← on_daemon (gets d_cur);
          match rv_Pool r with None => skip | Some _ => goto (Ticked r) end
      end
  | Ticked r => on_daemon (on_pool_ref (rv_Pool r) (Maintain clock range));; goto (Maintained r)
  | Maintained r => on_daemon (savePoolState r false);; goto Selecting
  | Awaiting =>
      res ← gets rn_engine;
      match res with
      | Ended e => modify (rn_set_engine Taken);; goto (Leaving e)
      | _ => skip
      end
  | Leaving e =>
      r ← on_daemon (gets d_cur);
      on_daemon (savePoolState r true);;
      goto (Returned (match e with DeviceError => Some DeviceFailed | _ => None end))
  | Returned _ => skip
  end.

(** The engine's goroutine, which puts the error it ends with in the channel. *)
Definition engine_turn (k : nat) : MR unit :=
  res ← gets rn_engine;
  match res with
  | Working =>
      e ← on_daemon (turn k);
      match e with Some e => modify (rn_set_engine (Ended e)) | None => skip end
  | _ => skip
  end.

(** The context is cancelled. *)
Definition cancel_ctx : MR unit :=
  over ← gets rn_done;
  if (over : bool) then skip else modify rn_cancel;; on_daemon (modify cancel_device).

(** What can happen to a daemon: [Run] goes on, the engine's loop takes a turn with the
    [k]-th last translator, the context is cancelled, another goroutine calls. *)
Inductive happening :=
  | HRun (b : branch)
  | HTurn (k : nat)
  | HDone
  | HApply (cfg : UserConfig) (source : string)
  | HApplyYAML (data source : string)
  | HReload (source : string).

Definition happen (h : happening) : MR unit :=
  match h with
  | HRun b => Run b
  | HTurn k => engine_turn k
  | HDone => cancel_ctx
  | HApply cfg source => on_daemon (Apply cfg source);; skip
  | HApplyYAML data source => on_daemon (ApplyYAML data source);; skip
  | HReload source => on_daemon (Reload source);; skip
  end.

Fixpoint happens (hs : list happening) : MR unit :=
  match hs with
  | [] => skip
  | h :: hs => happen h;; happens hs
  end.

(** *** The file watcher *)

(** [WatchFile]: the hash of the file at each tick, the empty string when it cannot be
    read; what happens between ticks does not matter to the watcher. *)
Fixpoint WatchFile (last : string) (hashes : list string) : MD unit :=
  match hashes with
  | [] => skip
  | h :: hashes =>
      if bool_decide (h = last) || bool_decide (h = ""%string) then WatchFile last hashes else
      Reload "file";; WatchFile h hashes
  end.
End daemon.
