(* ===== verification/Cli.v ===== *)
(** * The command: [src/cmd/clatto/main.go]

    Reading the configuration from the file and the environment, the flags, the probe of
    a running instance, and the run of the daemon with its exit code.  Printing and
    logging are left out. *)

From stdpp Require Import base tactics list numbers option strings gmap.
From Stdlib Require Import ZArith Lia Ascii String.
From S2P Require Import Prelude Netip Netutil Text Strings Events Packet Translator Pool Table Engine Netconf Configuration Env Resolve Daemon.

Open Scope Z_scope.

(** ** Go's [net.SplitHostPort] and [net.JoinHostPort] *)

(** The text before and after the last byte [c]. *)
Fixpoint cut_last (c : ascii) (l : list ascii) : option (list ascii * list ascii) :=
  match l with
  | [] => None
  | x :: l =>
      match cut_last c l with
      | Some (a, b) => Some (x :: a, b)
      | None => if bool_decide (x = c) then Some ([], l) else None
      end
  end.

(** The text before and after the first byte [c]. *)
Fixpoint cut_first (c : ascii) (l : list ascii) : option (list ascii * list ascii) :=
  match l with
  | [] => None
  | x :: l =>
      if bool_decide (x = c) then Some ([], l)
      else '(a, b) ← cut_first c l; Some (x :: a, b)
  end.

Definition no_brackets (l : list ascii) : bool := forallb (fun c => negb (bool_decide (c ∈ ["["%char; "]"%char]))) l.

(** [None] is an error. *)
Definition SplitHostPort (s : string) : option (string * string) :=
  let l := list_ascii_of_string s in
  '(before, port) ← cut_last ":" l;
  match l with
  | "["%char :: rest =>
      '(host, after) ← cut_first "]" rest;
      (* the bracket is followed by the last colon *)
      if negb (bool_decide (after = ":"%char :: port)) then None else
      if negb (bool_decide ("["%char ∉ host)) || negb (no_brackets port) then None else
      Some (string_of_list_ascii host, string_of_list_ascii port)
  | _ =>
      if bool_decide (":"%char ∈ before) then None else
      if negb (no_brackets before) || negb (no_brackets port) then None else
      Some (string_of_list_ascii before, string_of_list_ascii port)
  end.

Definition JoinHostPort (host port : string) : string :=
  if ContainsByte host ":" then "[" +:+ host +:+ "]:" +:+ port else host +:+ ":" +:+ port.

(** ** The probe *)

(** [probeURL] *)
Definition probeURL (listen path : string) : string :=
  let '(host, port) := match SplitHostPort listen with Some hp => hp | None => (listen, ""%string) end in
  let host := if bool_decide (host ∈ [""; "0.0.0.0"; "::"]%string) then "127.0.0.1"%string else host in
  let path := if HasPrefix path "/" then path else ("/" +:+ path)%string in
  "http://" +:+ JoinHostPort host port +:+ path.

(** [runProbe], with the status of the answer, [None] when there was none. *)
Definition runProbe (http_Get : string -> option Z) (url : string) : Z :=
  match http_Get url with
  | None => 1
  | Some status => if (status <? 200) || (300 <=? status) then 1 else 0
  end.

(** ** The program *)

(** What reading a file gives. *)
Inductive FileData := NotExist | Unreadable | Data (data : string).
Inductive LoadErr := LoadNotExist | LoadOther.

(** The flags, without the profile; [fl_config] is the file name, when one is given. *)
Record Flags := mkFlags {
  fl_config : option string;
  fl_check : bool;
  fl_printConfig : bool;
  fl_showVersion : bool;
  fl_probe : string;
}.

Section main.
Context {K F DS : Type} `{Kernel K} `{Files F} `{HD : Device DS} {HT : @Tun DS HD}.
Context `{AT : AddrText} `{PT : PrefixText}.
Context (clock : nat -> Z) (range : nat -> gmap Addr nat -> list (Addr * nat)) (time_String : Z -> string).
Context (wall : nat -> Z) (rand32 : nat -> Z).
Context (table_Entries : Table -> list Entry).
Context (SourceAddr : Addr -> option Addr).
Context (Decode : string -> UserConfig -> UserConfig * option YAMLErr) (Marshal : UserConfig -> option string).
Context (lookup : string -> option string).
(** What a file holds, by its name and the time it is read. *)
Context (configFile : string -> nat -> FileData).
(** The CPU profile that was asked for could be started, and the answer to a probe. *)
Context (profile : bool) (http_Get : string -> option Z).

(** [os.Getenv] *)
Definition Getenv (name : string) : string := default ""%string (lookup name).

Definition DefaultConfigPath : string := "/etc/clatto/config.yaml".

Definition defaultPath : string :=
  let p := Getenv (EnvPrefix +:+ "CONFIG") in
  if bool_decide (p = ""%string) then DefaultConfigPath else p.

(** [*configPath], the flag's value or its default. *)
Definition configPath (flags : Flags) : string := default defaultPath (fl_config flags).

(** [config.LoadFile] into the zero configuration. *)
Definition LoadFile (path : string) (n : nat) : UserConfig * option LoadErr :=
  match configFile path n with
  | NotExist => (Config_zero, Some LoadNotExist)
  | Unreadable => (Config_zero, Some LoadOther)
  | Data data => let '(c, e) := LoadYAML Decode Config_zero data in (c, match e with None => None | Some _ => Some LoadOther end)
  end.

(** [load]: the file, if present, and the environment; [None] is an error. *)
Definition load (path : string) (n : nat) : option UserConfig :=
  let explicit := negb (bool_decide (path = defaultPath)) in
  let '(cfg, err) := LoadFile path n in
  if match err with None => false | Some e => explicit || match e with LoadNotExist => false | LoadOther => true end end then None else
  let '(cfg, errs) := LoadEnv Decode lookup cfg in
  match errs with [] => Some cfg | _ => None end.

(** [config.LoadYAML] as [ApplyYAML] calls it. *)
Definition parse_YAML (data : string) : option UserConfig :=
  match LoadYAML Decode Config_zero data with (c, None) => Some c | _ => None end.

(** [daemon.New], and all that happens then: [main] starts the goroutines that call
    [Run], [Reload] and, through the admin server, [ApplyYAML]. *)
Definition launch (path : string) (resolved : Resolved) (pools : list Pool) (hs : list happening) (k : K) (f : F) : outcome (Running K F DS) :=
  d ← NewDaemon clock wall resolved pools k f;
  '(_, s) ← happens clock range time_String wall rand32 table_Entries SourceAddr (Some (load path)) parse_YAML hs
    (mkRunning d Begin Working false);
  Ok s.

(** [run]: the exit code of what ends without a daemon, or the daemon. *)
Definition run (flags : Flags) (hs : list happening) (k : K) (f : F) : outcome (Z + Running K F DS) :=
  if fl_showVersion flags then Ok (inl 0) else
  let path := configPath flags in
  match load path 0 with
  | None => Ok (inl 2)
  | Some cfg =>
      '(r, pools) ← ResolveWith table_Entries cfg (mkResolveOptions None (Some SourceAddr)) [];
      match r with
      | inr _ => Ok (inl 2)
      | inl resolved =>
          if negb (bool_decide (fl_probe flags = ""%string)) then
            if bool_decide (rv_HTTPListen resolved = ""%string) then Ok (inl 2)
            else Ok (inl (runProbe http_Get (probeURL (rv_HTTPListen resolved) (fl_probe flags))))
          else if fl_check flags then Ok (inl 0)
          else if fl_printConfig flags then
            Ok (inl (match Marshal (rv_Config resolved) with None => 1 | Some _ => 0 end))
          else if negb profile then Ok (inl 1)
          else s ← launch path resolved pools hs k f; Ok (inr s)
      end
  end.

(** The exit code, once there is one; [adminFailed] says that the admin server stopped
    first, which stops the daemon too. *)
Definition exit_code (adminFailed : bool) (r : Z + Running K F DS) : option Z :=
  match r with
  | inl code => Some code
  | inr s =>
      match rn_pc s with
      | Returned e => Some (if adminFailed then 1 else match e with None => 0 | Some _ => 1 end)
      | _ => None
      end
  end.
End main.
