(* ===== verification/DaemonFacts.v ===== *)
(** * The daemon's invariant

    What the pools go through while the daemon runs, the laws of the tun device and of
    the files, the invariant [daemon_ok] of the daemon, and that its parts keep it. *)

From stdpp Require Import base tactics list numbers option strings gmap sorting.
From Stdlib Require Import ZArith Lia.
From S2P Require Import Prelude Netip Netutil Text Strings Events Packet Layout Translator TranslatorFacts Pool PoolFacts PoolOps PoolSave PoolRun PoolProps Table Join TableFacts TableMap Engine EngineFacts Netconf NetconfFacts NetconfProps Configuration Resolve ResolveFacts ResolveProps Daemon.

Open Scope Z_scope.

(** ** Laws of what surrounds the daemon *)

Class FilesLaws (F : Type) `{Files F} := {
  file_replaced path ls f : file_load path (file_replace path ls f) = Opened ls true;
}.

Class TunLaws (DS : Type) `{HD : Device DS} `{DL : @DeviceLaws DS HD} `{HT : @Tun DS HD} := {
  NewDevice_ok name mtu dev : NewDevice name mtu = Some dev -> dev_inv dev;
  cancel_ok dev : dev_inv dev -> dev_inv (cancel dev) /\ ctx_done (cancel dev) = true;
  cancel_batch dev : BatchSize (cancel dev) = BatchSize dev;
}.

(** ** Pools over time *)

(** Every pool is still there, for the same prefix. *)
Definition pools_moved (l l' : list Pool) : Prop :=
  forall i p, l !! i = Some p -> exists p', l' !! i = Some p' /\ p_prefix p' = p_prefix p.

(** Every pool is still there, for the same prefix, with its hosts. *)
Definition hosts_kept (l l' : list Pool) : Prop :=
  forall i p, l !! i = Some p -> exists p', l' !! i = Some p' /\ p_prefix p' = p_prefix p /\ forall H, repr p H -> repr p' H.

Lemma pools_moved_refl l : pools_moved l l.
Proof. intros i p Hp. eauto. Qed.

Lemma pools_moved_trans l1 l2 l3 : pools_moved l1 l2 -> pools_moved l2 l3 -> pools_moved l1 l3.
Proof.
  intros H1 H2 i p Hp. destruct (H1 i p Hp) as (q & Hq & E1). destruct (H2 i q Hq) as (r & Hr & E2).
  exists r. split; [done|congruence].
Qed.

Lemma hosts_kept_refl l : hosts_kept l l.
Proof. intros i p Hp. eauto. Qed.

Lemma hosts_kept_trans l1 l2 l3 : hosts_kept l1 l2 -> hosts_kept l2 l3 -> hosts_kept l1 l3.
Proof.
  intros H1 H2 i p Hp. destruct (H1 i p Hp) as (q & Hq & E1 & R1). destruct (H2 i q Hq) as (r & Hr & E2 & R2).
  exists r. split_and!; [done|congruence|auto].
Qed.

Lemma hosts_kept_moved l l' : hosts_kept l l' -> pools_moved l l'.
Proof. intros HK i p Hp. destruct (HK i p Hp) as (q & Hq & E & _). eauto. Qed.

Lemma pools_kept_hosts l l' : pools_kept l l' -> hosts_kept l l'.
Proof.
  intros HK i p Hp. destruct (HK i p Hp) as (q & Hq & (mn & mx & f & ->)). eexists. split; [exact Hq|].
  split; [done|]. intros H R. by apply repr_leases, repr_reserved.
Qed.

Lemma pools_moved_insert l i p p' : l !! i = Some p -> p_prefix p' = p_prefix p -> pools_moved l (<[i := p']> l).
Proof.
  intros Hi E j q Hq. destruct (decide (j = i)) as [->|Hne].
  - exists p'. rewrite list_lookup_insert_eq by (by eapply lookup_lt_Some). split; [done|congruence].
  - exists q. by rewrite list_lookup_insert_ne.
Qed.

Lemma hosts_kept_insert l i p p' :
  l !! i = Some p -> p_prefix p' = p_prefix p -> (forall H, repr p H -> repr p' H) -> hosts_kept l (<[i := p']> l).
Proof.
  intros Hi E R j q Hq. destruct (decide (j = i)) as [->|Hne].
  - exists p'. rewrite list_lookup_insert_eq by (by eapply lookup_lt_Some). split_and!; [done|congruence|].
    assert (q = p) as -> by congruence. done.
  - exists q. by rewrite list_lookup_insert_ne.
Qed.

Lemma pools_ok_insert l i p' H : pools_ok l -> repr p' H -> pools_ok (<[i := p']> l).
Proof. intros P R. apply Forall_insert; eauto. Qed.

Lemma pools_ok_lookup l i p : pools_ok l -> l !! i = Some p -> exists H, repr p H.
Proof. intros P Hi. unfold pools_ok in P. rewrite Forall_forall in P. by apply P, (list_elem_of_lookup_2 _ i). Qed.

(** A table keeps its pool. *)
Lemma mapper_ok_moved b t (ref : option nat) l l' :
  pools_ok l' -> pools_moved l l' -> mapper_ok b (t, i ← ref; l !! i) -> mapper_ok b (t, i ← ref; l' !! i).
Proof.
  intros P HM [B T HP]. constructor; [done|done|]. intros Et. destruct (HP Et) as (p & H & E & R & HV). cbn [snd] in *.
  destruct ref as [i|]; [|done]. cbn [mbind option_bind] in *. destruct (HM i p E) as (p' & Hp' & Ep).
  destruct (pools_ok_lookup _ _ _ P Hp') as [H' R']. exists p', H'. split_and!; [done|done|]. rewrite Ep. exact HV.
Qed.

Lemma resolved_ok_moved rv (ref : option nat) l l' :
  pools_ok l' -> pools_moved l l' -> resolved_ok rv (i ← ref; l !! i) -> resolved_ok rv (i ← ref; l' !! i).
Proof.
  intros P HM [K1 [b K2] K3 K4 K5 K6]. constructor; try done. exists b. by eapply mapper_ok_moved.
Qed.

(** ** The invariant *)

Section facts.
Context {K F DS : Type} {HK : Kernel K} {HF : Files F} {HFL : @FilesLaws F HF}.
Context {HD : Device DS} {HDL : @DeviceLaws DS HD} {HT : @Tun DS HD} {HTL : @TunLaws DS HD HDL HT}.
Context {AT : AddrText} {PT : PrefixText} {PL : ParseLaws}.
Context (clock : nat -> Z) (range : nat -> gmap Addr nat -> list (Addr * nat)) (time_String : Z -> string).
Context (range_perm : forall k m, range k m ≡ₚ map_to_list m).
Context (wall : nat -> Z) (rand32 : nat -> Z).

Local Abbreviation D := (Daemon K F DS).
Implicit Types d : D.

(** A translator that the engine was given. *)
Definition live_ok (l : list Pool) (v : Live) : Prop :=
  tr_ok (lv_tr v) /\ (exists b, mapper_ok b (lv_table v, i ← lv_pool v; l !! i)) /\
  match lv_pool v with Some i => (i < length l)%nat | None => True end.

(** The pool of a resolved configuration is there, and is the one configured. *)
Definition pool_there (r : Resolved) (l : list Pool) : Prop :=
  match uc_DynamicPool (rv_Config r), rv_Pool r with
  | Some dp, Some i => exists p, l !! i = Some p /\ p_prefix p = dp_Prefix dp
  | None, None => True
  | _, _ => False
  end.

Record daemon_ok d : Prop := {
  dk_pools : pools_ok (d_pools d);
  dk_cur : resolved_ok (d_cur d) (current_pool d);
  dk_pool : pool_there (d_cur d) (d_pools d);
  dk_live : Forall (live_ok (d_pools d)) (d_live d);
  dk_force : is_Some (d_eng d) -> exists v, head (d_live d) = Some v /\
    lv_table v = rv_Table (d_cur d) /\ lv_pool v = rv_Pool (d_cur d) /\ New (rv_Xlate (d_cur d)) = Ok (lv_tr v);
  dk_started : d_started d = true <-> is_Some (d_eng d);
  dk_applied : d_started d = true -> Configure (d_cur d) = true ->
    d_applied d = netconfOptions (d_cur d) (no_Name (d_applied d));
  dk_engine : forall g, d_eng d = Some g -> dev_inv (g_dev g) /\ emitter_ok (g_em g) /\ em_outs (g_em g) = [];
  dk_generation : d_generation d = st_Generation (d_status d);
  dk_count : st_Generation (d_status d) = 1 + len (filter (fun x => x.2 = true) (d_reloads d));
}.

Lemma live_ok_moved l l' v : pools_ok l' -> pools_moved l l' -> live_ok l v -> live_ok l' v.
Proof.
  intros P HM (Ht & [b Mo] & Hv). split_and!; [done|exists b; by eapply mapper_ok_moved|].
  destruct (lv_pool v) as [i|]; [|done]. apply lookup_lt_is_Some in Hv as [p Hp]. destruct (HM i p Hp) as (p' & Hp' & _).
  by eapply lookup_lt_Some.
Qed.

Lemma pool_there_moved r l l' : pools_moved l l' -> pool_there r l -> pool_there r l'.
Proof.
  intros HM. unfold pool_there. destruct (uc_DynamicPool _) as [dp|], (rv_Pool r) as [i|]; try done.
  intros (p & Hp & E). destruct (HM i p Hp) as (p' & Hp' & E'). exists p'. split; [done|congruence].
Qed.

(** Only pools and files changed. *)
Definition upkept d d' : Prop :=
  exists ps f, d' = d_set_files f (d_set_pools ps d) /\ pools_ok ps /\ pools_moved (d_pools d) ps.

Lemma upkept_ok d d' : upkept d d' -> daemon_ok d -> daemon_ok d'.
Proof.
  intros (ps & f & -> & P & HM) [K1 K2 K3 K4 K5 K6 K7 K8 K9 K10]. constructor; try done.
  - cbn. by eapply resolved_ok_moved.
  - cbn. by eapply pool_there_moved.
  - cbn. eapply Forall_impl; [exact K4|]. intros v. by apply live_ok_moved.
Qed.

Lemma upkept_refl d : pools_ok (d_pools d) -> upkept d d.
Proof. intros P. exists (d_pools d), (d_files d). split; [by destruct d|]. split; [done|apply pools_moved_refl]. Qed.

Lemma upkept_trans d1 d2 d3 : upkept d1 d2 -> upkept d2 d3 -> upkept d1 d3.
Proof.
  intros (ps & f & -> & P & HM) (ps' & f' & -> & P' & HM'). exists ps', f'. split; [done|]. split; [done|].
  by eapply pools_moved_trans.
Qed.

(** ** Calls on the parts *)

Lemma wp_on_pools {A} (m : M (list Pool) A) (Q : A -> D -> Prop) d :
  wp m (fun a ps => Q a (d_set_pools ps d)) (d_pools d) -> wp (on_pools m) Q d.
Proof. intros H. apply wp_run in H as (a & ps & E & H). unfold wp, on_pools. by rewrite E. Qed.

Lemma wp_on_kernel {A} (m : M K A) (Q : A -> D -> Prop) d :
  wp m (fun a k => Q a (d_set_kernel k d)) (d_kernel d) -> wp (on_kernel m) Q d.
Proof. intros H. apply wp_run in H as (a & k & E & H). unfold wp, on_kernel. by rewrite E. Qed.

Lemma wp_on_pool_ref {A} i p (m : M Pool A) (Q : A -> D -> Prop) d :
  d_pools d !! i = Some p -> wp m (fun a p' => Q a (d_set_pools (<[i := p']> (d_pools d)) d)) p ->
  wp (on_pool_ref (Some i) m) Q d.
Proof. intros Hi H. apply wp_run in H as (a & p' & E & H). unfold wp, on_pool_ref. by rewrite Hi, E. Qed.

Lemma wp_time_Now (Q : Z -> D -> Prop) d : Q (wall (d_now d)) (d_tick d) -> wp (time_Now wall) Q d.
Proof. done. Qed.
(** *** Saving and loading *)

(** The files after a save of [H] at time [now]. *)
Definition saved (sf : string) (now : Z) (H : gmap Z dynHost) (f : F) : F :=
  let io := file_save sf f in
  if io_open io && io_write io && io_close io && io_rename io then file_replace sf (file_of time_String now H) f else f.

Lemma savePoolState_spec r force i dp p H d :
  rv_Pool r = Some i -> uc_DynamicPool (rv_Config r) = Some dp -> d_pools d !! i = Some p -> repr p H ->
  wp (savePoolState clock range time_String r force) (fun _ d' => exists p' f,
    repr p' H /\ frame p p' /\ d' = d_set_files f (d_set_pools (<[i := p']> (d_pools d)) d) /\
    f = (if bool_decide (dp_StateFile dp = ""%string) || (negb force && negb (p_dirty p)) then d_files d
         else saved (dp_StateFile dp) (clock (p_tick p)) H (d_files d))) d.
Proof.
  intros Er Edp Hi R. unfold savePoolState. rewrite Er, Edp.
  assert (Same : exists p' f, repr p' H /\ frame p p' /\ d = d_set_files f (d_set_pools (<[i := p']> (d_pools d)) d) /\ f = d_files d).
  { exists p, (d_files d). split_and!; [done|by constructor| |done]. rewrite list_insert_id by done. by destruct d. }
  case_bool_decide as Esf; cbn [orb]; [by apply wp_skip|].
  apply wp_bind, (wp_on_pool_ref i p); [done|]. apply wp_gets. rewrite list_insert_id by done.
  assert (Ed : d_set_pools (d_pools d) d = d) by by destruct d. rewrite Ed. unfold Dirty.
  destruct (negb force && negb (p_dirty p)); [by apply wp_skip|].
  apply wp_bind, wp_gets, wp_bind, (wp_on_pool_ref i p); [done|].
  eapply wp_mono; [by apply (Save_ok clock range time_String range_perm p H)|].
  cbv beta. intros [lines ok] p' (R' & Fr & _ & _ & E). unfold saved.
  destruct (io_open _ && _ && _ && _).
  - injection E as -> ->. apply wp_modify. exists p'. eexists. split_and!; [done|done|done|done].
  - injection E as -> ->. apply wp_skip. exists p', (d_files d). split_and!; [done|done| |done]. by destruct d.
Qed.

Lemma pool_there_cases r l : pool_there r l ->
  (rv_Pool r = None /\ uc_DynamicPool (rv_Config r) = None) \/
  exists i dp p, rv_Pool r = Some i /\ uc_DynamicPool (rv_Config r) = Some dp /\ l !! i = Some p /\ p_prefix p = dp_Prefix dp.
Proof.
  unfold pool_there. destruct (uc_DynamicPool _) as [dp|], (rv_Pool r) as [i|]; try done; [|by left].
  intros (p & Hp & E). right. eauto 10.
Qed.

(** Whatever becomes of the file, the pools keep their hosts. *)
Lemma savePoolState_ok r force d :
  pools_ok (d_pools d) -> pool_there r (d_pools d) ->
  wp (savePoolState clock range time_String r force) (fun _ d' => exists ps f,
    d' = d_set_files f (d_set_pools ps d) /\ pools_ok ps /\ hosts_kept (d_pools d) ps /\ length ps = length (d_pools d)) d.
Proof.
  intros P HT'. destruct (pool_there_cases _ _ HT') as [[E1 E2]|(i & dp & p & E1 & E2 & Hi & Ep)].
  - unfold savePoolState. rewrite E1. apply wp_skip. exists (d_pools d), (d_files d).
    split_and!; [by destruct d|done|apply hosts_kept_refl|done].
  - destruct (pools_ok_lookup _ _ _ P Hi) as [H R]. eapply wp_mono; [by apply (savePoolState_spec r force i dp p H d)|].
    intros _ d' (p' & f & R' & Fr & -> & _). eexists _, f. split; [done|]. split; [by eapply pools_ok_insert|].
    split; [|by rewrite length_insert]. intros j q Hq. destruct (decide (j = i)) as [->|Hne].
    + exists p'. rewrite list_lookup_insert_eq by (by eapply lookup_lt_Some). assert (q = p) as -> by congruence.
      split_and!; [done|apply (f_prefix _ _ Fr)|]. intros H0 R0. by rewrite (repr_view _ _ R0), <- (repr_view _ _ R).
    + exists q. by rewrite list_lookup_insert_ne.
Qed.

Lemma Load_any p H io : repr p H -> wp (Load clock io) (fun _ p' => (exists H', repr p' H') /\ frame p p') p.
Proof.
  intros R. unfold Load. destruct io as [| |lines ok]; [apply wp_ret; split; [eauto|by constructor]..|].
  destruct (load_lines p H lines) as [H' offs] eqn:E.
  eapply wp_mono; [by apply (read_ok clock time_String p H lines ok H' offs)|]. cbv zeta. intros r p' (_ & R' & Fr & _). eauto.
Qed.

Lemma loadPoolState_ok r i d :
  pools_ok (d_pools d) -> pool_there r (d_pools d) -> rv_Pool r = Some i ->
  wp (loadPoolState clock r) (fun _ d' => exists ps, d' = d_set_pools ps d /\ pools_ok ps /\ pools_moved (d_pools d) ps /\
    forall j, j <> i -> ps !! j = d_pools d !! j) d.
Proof.
  intros P HT' Er. destruct (pool_there_cases _ _ HT') as [[E1 E2]|(j & dp & p & E1 & E2 & Hi & Ep)]; [congruence|].
  assert (j = i) as -> by congruence. unfold loadPoolState. rewrite E2.
  assert (Same : exists ps, d = d_set_pools ps d /\ pools_ok ps /\ pools_moved (d_pools d) ps /\ forall j, j <> i -> ps !! j = d_pools d !! j).
  { exists (d_pools d). split_and!; [by destruct d|done|apply pools_moved_refl|done]. }
  case_bool_decide as Esf; [by apply wp_skip|]. apply wp_bind, wp_gets, wp_bind. rewrite Er. apply (wp_on_pool_ref i p); [done|].
  destruct (pools_ok_lookup _ _ _ P Hi) as [H R]. eapply wp_mono; [by apply (Load_any p H)|].
  intros _ p' [[H' R'] Fr]. apply wp_skip. eexists. split; [done|]. split; [by eapply pools_ok_insert|].
  split; [by apply (pools_moved_insert _ _ p); [|apply Fr]|]. intros k Hk. by rewrite list_lookup_insert_ne.
Qed.
End facts.
