(* ===== verification/DaemonApply.v ===== *)
(** * Changing the configuration of a running daemon

    What [Apply] leaves when it rejects a configuration and when it accepts one, and
    that either way the daemon's invariant holds. *)

From stdpp Require Import base tactics list numbers option strings gmap sorting.
From Stdlib Require Import ZArith Lia.
From S2P Require Import Prelude Netip Netutil Text Strings Events Packet Layout Translator TranslatorFacts Pool PoolFacts PoolOps PoolSave PoolRun PoolProps Table Join TableFacts TableMap Engine EngineFacts Netconf NetconfFacts NetconfProps Configuration Resolve ResolveFacts ResolveProps Daemon DaemonFacts.

Open Scope Z_scope.

Lemma ImmutableChanges_Configure r r' : ImmutableChanges r r' = [] -> Configure r = Configure r'.
Proof.
  unfold ImmutableChanges. destruct (Bool.eqb (Configure r) (Configure r')) eqn:E; [intros _; by apply eqb_prop|].
  by destruct (bool_decide (if_Name _ = _)), (if_MTU _ =? _).
Qed.

Lemma count_reloads (l : list (string * bool)) s (ok : bool) :
  len (filter (fun x => x.2 = true) (l ++ [(s, ok)])) = len (filter (fun x => x.2 = true) l) + if ok then 1 else 0.
Proof. rewrite filter_app, len_app, filter_cons. by destruct ok. Qed.

Section apply.
Context {K F DS : Type} {HK : Kernel K} {HF : Files F} {HFL : @FilesLaws F HF}.
Context {HD : Device DS} {HDL : @DeviceLaws DS HD} {HT : @Tun DS HD} {HTL : @TunLaws DS HD HDL HT}.
Context {AT : AddrText} {PT : PrefixText} {PL : ParseLaws}.
Context (clock : nat -> Z) (range : nat -> gmap Addr nat -> list (Addr * nat)) (time_String : Z -> string).
Context (range_perm : forall k m, range k m ≡ₚ map_to_list m).
Context (wall : nat -> Z) (rand32 : nat -> Z).
Context (order4 order6 : Table -> list Entry) (sort : (Entry -> Entry -> bool) -> list Entry -> list Entry).
Context (order4_perm : forall t, order4 t ≡ₚ (map_to_list (t_hosts4 t)).*2).
Context (order6_perm : forall t, order6 t ≡ₚ (map_to_list (t_hosts6 t)).*2).
Context (sort_perm : forall less l, sort less l ≡ₚ l).
Context (SourceAddr : Addr -> option Addr).
Hypothesis SourceAddr_ok : forall dst a, SourceAddr dst = Some a -> addr_ok a /\ IsValid a = true.

Local Abbreviation D := (Daemon K F DS).
Local Abbreviation entries := (entries_of order4 order6 sort).
Implicit Types d : D.

(** ** Outcomes *)

(** What [Apply] resolves [cfg] to. *)
Definition resolves cfg d (r : Resolved) : Prop :=
  exists ps, ResolveWith entries cfg (mkResolveOptions (rv_Pool (d_cur d)) (Some SourceAddr)) (d_pools d) = Ok (inl r, ps).

(** A rejected configuration: the running one stays, the status tells the error, and no
    pool loses a host, though leases and reserved addresses of the running pool may
    be those of the rejected one.  Kernel and files stay too, unless it was the kernel
    that failed: then it is what the failed [Update] made of it, and the running pool may
    have been saved. *)
Record rejected (source : string) (e : DaemonErr) d d' : Prop := {
  rj_cur : d_cur d' = d_cur d;
  rj_eng : d_eng d' = d_eng d /\ d_live d' = d_live d;
  rj_applied : d_applied d' = d_applied d /\ d_started d' = d_started d /\ d_ready d' = d_ready d;
  rj_level : d_level d' = d_level d /\ d_kinds d' = d_kinds d;
  rj_generation : d_generation d' = d_generation d;
  rj_status : exists t, let s := d_status d in
    d_status d' = mkStatus (st_Generation s) (st_Source s) (st_AppliedAt s) (Some e) t (st_Interface s) (st_Ready s);
  rj_reloads : d_reloads d' = d_reloads d ++ [(source, false)];
  rj_hosts : hosts_kept (d_pools d) (d_pools d');
  rj_rest : if is_invalid e then d_kernel d' = d_kernel d /\ d_files d' = d_files d else d_started d = true;
}.

(** An accepted one: it is in force everywhere at once, the generation is one more, the
    settings that cannot change did not, a pool over the same prefix is kept, no pool
    loses a host, and the kernel is what [Update] made of it, from the options last
    applied to those of this configuration, without an error. *)
Record accepted cfg (source : string) d d' : Prop := {
  ac_cur : resolves cfg d (d_cur d');
  ac_same : ImmutableChanges (d_cur d) (d_cur d') = [];
  ac_live : match d_eng d with Some _ => exists v, d_live d' = v :: d_live d /\ lv_table v = rv_Table (d_cur d') /\
                lv_pool v = rv_Pool (d_cur d') /\ New (rv_Xlate (d_cur d')) = Ok (lv_tr v)
            | None => d_live d' = d_live d end;
  ac_eng : d_eng d' = d_eng d /\ d_started d' = d_started d /\ d_ready d' = d_ready d;
  ac_level : d_level d' = rv_LogLevel (d_cur d') /\ d_kinds d' = rv_PacketKinds (d_cur d');
  ac_generation : d_generation d' = st_Generation (d_status d) + 1;
  ac_status : exists t, let s := d_status d in
    d_status d' = mkStatus (st_Generation s + 1) source t None (st_LastErrorAt s) (st_Interface s) (st_Ready s);
  ac_reloads : d_reloads d' = d_reloads d ++ [(source, true)];
  ac_hosts : hosts_kept (d_pools d) (d_pools d');
  ac_pool : forall p dp, current_pool d = Some p -> uc_DynamicPool cfg = Some dp -> p_prefix p = dp_Prefix dp ->
    rv_Pool (d_cur d') = rv_Pool (d_cur d);
  ac_kernel : if d_started d && Configure (d_cur d') then
      d_applied d' = netconfOptions (d_cur d') (no_Name (d_applied d)) /\
      Update (d_applied d) (d_applied d') (d_kernel d) = Ok (None, d_kernel d')
    else d_applied d' = d_applied d /\ d_kernel d' = d_kernel d;
}.

(** Why [Apply] rejects a configuration. *)
Definition cause cfg d (e : DaemonErr) d' : Prop :=
  match e with
  | InvalidConfig errs => exists ps,
      ResolveWith entries cfg (mkResolveOptions (rv_Pool (d_cur d)) (Some SourceAddr)) (d_pools d) = Ok (inr errs, ps)
  | InvalidChange changed => exists r, resolves cfg d r /\ changed = ImmutableChanges (d_cur d) r /\ changed <> []
  | UpdateFailed e => exists r, resolves cfg d r /\ ImmutableChanges (d_cur d) r = [] /\ Configure r = true /\
      Update (d_applied d) (netconfOptions r (no_Name (d_applied d))) (d_kernel d) = Ok (Some e, d_kernel d')
  | _ => False
  end.

Definition applied_ok cfg source d (e : option DaemonErr) d' : Prop :=
  daemon_ok d' /\ match e with Some e => rejected source e d d' /\ cause cfg d e d' | None => accepted cfg source d d' end.

(** ** The ends of [Apply] *)

(** A step that so far changed at most pools, files and kernel. *)
Definition so_far d d' : Prop :=
  exists ps f k, d' = d_set_kernel k (d_set_files f (d_set_pools ps d)) /\ pools_ok ps /\ hosts_kept (d_pools d) ps.

Lemma so_far_ok d d' : so_far d d' -> daemon_ok d -> daemon_ok d'.
Proof.
  intros (ps & f & k & -> & P & HK') O.
  assert (O' : daemon_ok (d_set_files f (d_set_pools ps d))).
  { eapply upkept_ok; [|exact O]. exists ps, f. split_and!; [done|done|by apply hosts_kept_moved]. }
  destruct O' as [K1 K2 K3 K4 K5 K6 K7 K8 K9 K10]. by constructor.
Qed.

Lemma fail_rejects source e d d' :
  daemon_ok d -> so_far d d' ->
  (if is_invalid e then d_kernel d' = d_kernel d /\ d_files d' = d_files d else d_started d = true) ->
  wp (failLocked wall source e) (fun r d'' => daemon_ok d'' /\ r = Some e /\ rejected source e d d'' /\ d_kernel d'' = d_kernel d') d'.
Proof.
  intros O SF HR. pose proof (so_far_ok _ _ SF O) as O'. destruct SF as (ps & f & k & -> & P & HK').
  unfold failLocked. apply wp_bind, wp_time_Now, wp_bind, wp_modify, wp_bind, wp_modify, wp_ret. split.
  - destruct O' as [K1 K2 K3 K4 K5 K6 K7 K8 K9 K10]. constructor; try done. cbn in *. rewrite count_reloads. lia.
  - split; [done|]. split; [|done]. constructor; try done. by eexists.
Qed.
(** Switching to a resolved configuration, from a state in which pools, files, kernel
    and the options applied are already the new ones. *)
Lemma switch_accepts cfg source r d o k f ps :
  daemon_ok d -> pools_ok ps -> hosts_kept (d_pools d) ps ->
  resolved_ok r (i ← rv_Pool r; ps !! i) -> pool_there r ps ->
  resolves cfg d r -> ImmutableChanges (d_cur d) r = [] ->
  (forall p dp, current_pool d = Some p -> uc_DynamicPool cfg = Some dp -> p_prefix p = dp_Prefix dp ->
    rv_Pool r = rv_Pool (d_cur d)) ->
  (if d_started d && Configure r then
     o = netconfOptions r (no_Name (d_applied d)) /\ Update (d_applied d) o (d_kernel d) = Ok (None, k)
   else o = d_applied d /\ k = d_kernel d) ->
  wp (switch wall r source) (fun e d' => applied_ok cfg source d e d')
    (d_set_applied o (d_set_kernel k (d_set_files f (d_set_pools ps d)))).
Proof.
  intros O P HK' Rok PT' HR HI Hreuse Hk. unfold switch. apply wp_bind, wp_gets. cbn [d_eng d_set_applied d_set_kernel d_set_files d_set_pools].
  assert (HL : Forall (live_ok ps) (d_live d)).
  { eapply Forall_impl; [apply (dk_live _ O)|]. intros v. by apply live_ok_moved, hosts_kept_moved. }
  pose proof (rk_translator _ _ Rok) as Ht. apply owp_run in Ht as (t & Et & Ht).
  assert (Hv : live_ok ps (mkLive t (rv_Table r) (rv_Pool r))).
  { split_and!; [done|apply (rk_table _ _ Rok)|]. cbn. destruct (rv_Pool r) as [i|] eqn:Er; [|done].
    destruct (pool_there_cases _ _ PT') as [[? _]|(j & dp & p & E1 & _ & Hi & _)]; [congruence|].
    assert (j = i) as -> by congruence. by eapply lookup_lt_Some. }
  assert (Ho : d_started d = true -> Configure r = true -> o = netconfOptions r (no_Name o)).
  { intros Es Ec. rewrite Es, Ec in Hk. destruct Hk as [-> _]. done. }
  pose proof O as [K1 K2 K3 K4 K5 K6 K7 K8 K9 K10]. apply wp_bind.
  destruct (d_eng d) as [g|] eqn:Eg.
  - apply wp_bind, wp_lift. rewrite Et. apply owp_ok, wp_modify.
    apply wp_bind, wp_modify, wp_bind, wp_time_Now, wp_bind, wp_modify, wp_bind, wp_modify, wp_ret. split.
    + constructor; cbn; rewrite ?Eg; try done; [by constructor| |rewrite count_reloads; lia]. intros _. eexists. split; [done|]. by split_and!.
    + constructor; cbn; rewrite ?Eg; try done; by eexists.
  - apply wp_skip. apply wp_bind, wp_modify, wp_bind, wp_time_Now, wp_bind, wp_modify, wp_bind, wp_modify, wp_ret. split.
    + constructor; cbn; rewrite ?Eg; try done. rewrite count_reloads. lia.
    + constructor; cbn; rewrite ?Eg; try done. by eexists.
Qed.
(** ** The pool of the new configuration *)

Lemma loaded_hosts_kept l0 l1 l2 i :
  (length l0 <= i)%nat -> hosts_kept l0 l1 -> (forall j, j <> i -> l2 !! j = l1 !! j) -> hosts_kept l0 l2.
Proof.
  intros Hi HK' HE j p Hj. destruct (HK' j p Hj) as (q & Hq & HQ). exists q. split; [|done].
  rewrite HE; [done|]. apply lookup_lt_Some in Hj. lia.
Qed.

Lemma chosen_new cfg cur pools pools' i :
  chosen cfg (mkResolveOptions (rv_Pool cur) (Some SourceAddr)) pools pools' (Some i) -> Some i <> rv_Pool cur ->
  (length pools <= i)%nat.
Proof.
  unfold chosen. destruct (uc_DynamicPool cfg) as [dp|]; [|done]. intros [_ Hc] Hne. unfold chosen_from in Hc.
  cbn [ro_ExistingPool] in Hc. destruct (_ ← _; _) as [p|]; [|done]. by case_decide.
Qed.

(** Saving the pool that is left, and loading the state of the one that comes. *)
Lemma pool_switch_ok cfg r d ps f :
  daemon_ok d -> pools_ok ps -> hosts_kept (d_pools d) ps -> resolved_ok r (i ← rv_Pool r; ps !! i) -> pool_there r ps ->
  chosen cfg (mkResolveOptions (rv_Pool (d_cur d)) (Some SourceAddr)) (d_pools d) ps (rv_Pool r) ->
  wp (match rv_Pool r with
      | Some _ => if bool_decide (rv_Pool r = rv_Pool (d_cur d)) then skip else
          savePoolState clock range time_String (d_cur d) true;; loadPoolState clock r
      | None => skip
      end) (fun _ d' => exists ps' f', d' = d_set_files f' (d_set_pools ps' d) /\ pools_ok ps' /\ hosts_kept (d_pools d) ps' /\
        resolved_ok r (i ← rv_Pool r; ps' !! i) /\ pool_there r ps') (d_set_files f (d_set_pools ps d)).
Proof.
  intros O P HK' Rok PT' Hch.
  assert (Same : exists ps' f', d_set_files f (d_set_pools ps d) = d_set_files f' (d_set_pools ps' d) /\ pools_ok ps' /\
    hosts_kept (d_pools d) ps' /\ resolved_ok r (i ← rv_Pool r; ps' !! i) /\ pool_there r ps') by by exists ps, f.
  destruct (rv_Pool r) as [i|] eqn:Er; [|by apply wp_skip]. case_bool_decide as Ei; [by apply wp_skip|].
  pose proof (chosen_new _ _ _ _ _ Hch Ei) as Hlen. apply wp_bind.
  eapply wp_mono; [apply (savePoolState_ok clock range time_String range_perm); cbn|].
  { exact P. }
  { apply (pool_there_moved _ (d_pools d)); [by apply hosts_kept_moved|apply (dk_pool _ O)]. }
  cbn. intros _ d1 (ps1 & f1 & -> & P1 & HK1 & L1). cbn in *.
  eapply wp_mono; [apply (loadPoolState_ok clock time_String r i); cbn; [done| |done]|].
  { eapply pool_there_moved; [by apply hosts_kept_moved|done]. }
  cbn. intros _ d2 (ps2 & -> & P2 & M2 & E2). exists ps2, f1.
  assert (M : pools_moved ps ps2) by (eapply pools_moved_trans; [by apply hosts_kept_moved|done]).
  split_and!; [done|done| | |].
  - apply (loaded_hosts_kept _ ps1 _ i); [done| |done]. by eapply hosts_kept_trans.
  - by apply (resolved_ok_moved r (Some i) ps).
  - by eapply pool_there_moved.
Qed.

(** ** [Apply] *)

(** The pool that is handed to the new configuration exists. *)
Lemma running_pool_there d :
  daemon_ok d -> existing_ok (mkResolveOptions (rv_Pool (d_cur d)) (Some SourceAddr)) (d_pools d).
Proof.
  intros O. unfold existing_ok. cbn. destruct (pool_there_cases _ _ (dk_pool _ O)) as [[-> _]|(i & dp & p & -> & _ & Hi & _)]; [done|].
  by eapply lookup_lt_Some.
Qed.

Lemma Apply_wp cfg source d :
  daemon_ok d -> config_ok cfg ->
  wp (Apply clock range time_String wall entries SourceAddr cfg source) (applied_ok cfg source d) d.
Proof.
  intros O C. pose proof (dk_pools _ O) as P0. unfold Apply. apply wp_bind, wp_gets, wp_bind, wp_on_pools.
  set (ro := mkResolveOptions (rv_Pool (d_cur d)) (Some SourceAddr)).
  pose proof (running_pool_there d O : existing_ok ro (d_pools d)) as Hex.
  pose proof (ResolveWith_ok order4 order6 sort order4_perm order6_perm sort_perm cfg ro (d_pools d) C SourceAddr_ok P0 Hex) as HR.
  apply wp_run in HR as (r & ps & ER & P & HKp & HR). apply wp_run. exists r, ps. split; [exact ER|].
  pose proof (pools_kept_hosts _ _ HKp) as HK'. clear HKp.
  assert (Fail : forall e f ps', is_invalid e = true -> (forall d', cause cfg d e d') -> f = d_files d -> pools_ok ps' ->
    hosts_kept (d_pools d) ps' -> wp (failLocked wall source e) (applied_ok cfg source d) (d_set_files f (d_set_pools ps' d))).
  { intros e f ps' He Hc -> P' HK2. eapply wp_mono; [apply (fail_rejects source e d); [done| |by rewrite He]|].
    - exists ps', (d_files d), (d_kernel d). by split_and!.
    - intros r' d' (O' & -> & HJ & _). by split. }
  assert (Ed : forall ps' : list Pool, d_set_pools ps' d = d_set_files (d_files d) (d_set_pools ps' d)) by done.
  destruct r as [r|errs]; [|rewrite Ed; apply Fail; try done; intros ?; by exists ps]. destruct HR as (Rok & Edp & Hch).
  assert (Hres : resolves cfg d r) by by exists ps.
  case_bool_decide as EI; cbn [negb]; [|rewrite Ed; apply Fail; try done; intros ?; by exists r].
  assert (PT' : pool_there r ps).
  { unfold pool_there. rewrite Edp. unfold chosen in Hch. destruct (uc_DynamicPool cfg), (rv_Pool r); try done. by destruct Hch. }
  rewrite Ed. apply wp_bind. eapply wp_mono; [by apply (pool_switch_ok cfg)|]. intros _ d1 (ps' & f & -> & P' & HK2 & Rok' & PT2).
  assert (Hreuse : forall p dp, current_pool d = Some p -> uc_DynamicPool cfg = Some dp -> p_prefix p = dp_Prefix dp ->
    rv_Pool r = rv_Pool (d_cur d)).
  { intros p dp Hp Hdp Hpp. unfold chosen, chosen_from in Hch. rewrite Hdp in Hch. destruct (rv_Pool r) as [i|]; [|done].
    destruct Hch as [_ Hch]. cbn [ro ro_ExistingPool] in Hch. unfold current_pool in Hp. rewrite Hp in Hch.
    by rewrite decide_True in Hch. }
  pose proof (ImmutableChanges_Configure _ _ EI) as EC.
  apply wp_bind, wp_gets. cbn [d_started d_set_files d_set_pools].
  destruct (d_started d && Configure r) eqn:Es.
  2: { change (d_set_files f (d_set_pools ps' d)) with
         (d_set_applied (d_applied d) (d_set_kernel (d_kernel d) (d_set_files f (d_set_pools ps' d)))).
       apply switch_accepts; try done. by rewrite Es. }
  apply wp_bind, wp_gets, wp_bind, wp_on_kernel. cbn [d_kernel d_applied d_set_files d_set_pools].
  set (want := netconfOptions r (no_Name (d_applied d))).
  destruct (Update_returns (d_applied d) want (d_kernel d)) as (e & k & EU). apply wp_run. exists e, k.
  split; [exact EU|]. apply andb_true_iff in Es as [Es Ec]. destruct e as [e|].
  - eapply wp_mono; [apply (fail_rejects source (UpdateFailed e) d); [done| |done]|].
    + exists ps', f, k. by split_and!.
    + intros r' d' (O' & -> & HJ & Ek). split; [done|]. split; [done|]. exists r. rewrite Ek. by split_and!.
  - apply wp_bind, wp_modify. apply switch_accepts; try done. by rewrite Es, Ec.
Qed.
End apply.
