(* ===== verification/DaemonRun.v ===== *)
(** * A daemon from its start to its end

    The invariant [run_ok] of a daemon and its goroutines, and that whatever happens keeps
    it: steps of [Run], turns of the engine with any of the translators it was given,
    configurations applied before, while and after it runs, and cancellation. *)

From stdpp Require Import base tactics list numbers option strings gmap sorting.
From Stdlib Require Import ZArith Lia.
From S2P Require Import Prelude Netip Netutil Text Strings Events Packet Layout Translator TranslatorFacts Pool PoolFacts PoolOps PoolSave PoolRun PoolProps Table Join TableFacts TableMap Engine EngineFacts Netconf NetconfFacts NetconfProps Configuration Resolve ResolveFacts ResolveProps Daemon DaemonFacts DaemonApply.

Open Scope Z_scope.

Section run.
Context {K F DS : Type} {HK : Kernel K} {HF : Files F} {HFL : @FilesLaws F HF}.
Context {HD : Device DS} {HDL : @DeviceLaws DS HD} {HT : @Tun DS HD} {HTL : @TunLaws DS HD HDL HT}.
Context {AT : AddrText} {PT : PrefixText} {PL : ParseLaws}.
Context (clock : nat -> Z) (range : nat -> gmap Addr nat -> list (Addr * nat)) (time_String : Z -> string).
Context (range_perm : forall k m, range k m ≡ₚ map_to_list m).
Context (wall : nat -> Z) (rand32 : nat -> Z).
Context (order4 order6 : Table -> list Entry) (sort : (Entry -> Entry -> bool) -> list Entry -> list Entry).
Context (order4_perm : forall t, order4 t ≡ₚ (map_to_list (t_hosts4 t)).*2).
Context (order6_perm : forall t, order6 t ≡ₚ (map_to_list (t_hosts6 t)).*2).
Context (sort_perm : forall less l, sort less l ≡ₚ l).
Context (SourceAddr : Addr -> option Addr) (LoadFile : option (nat -> option UserConfig)) (LoadYAML : string -> option UserConfig).
Hypothesis SourceAddr_ok : forall dst a, SourceAddr dst = Some a -> addr_ok a /\ IsValid a = true.
Hypothesis LoadFile_ok : forall load n cfg, LoadFile = Some load -> load n = Some cfg -> config_ok cfg.
Hypothesis LoadYAML_ok : forall data cfg, LoadYAML data = Some cfg -> config_ok cfg.

Local Abbreviation D := (Daemon K F DS).
Local Abbreviation entries := (entries_of order4 order6 sort).
Implicit Types d : D.

(** ** The engine *)

(** A turn of the engine moves at most the pool of the translator it works with. *)
Lemma turn_keeps k d :
  daemon_ok d -> wp (turn clock range rand32 k) (fun _ d' => daemon_ok d' /\ exists g ps, d' = d_set_pools ps (d_set_eng g d) /\ pools_moved (d_pools d) ps) d.
Proof.
  intros O. assert (Same : exists g ps, d = d_set_pools ps (d_set_eng g d) /\ pools_moved (d_pools d) ps)
    by (exists (d_eng d), (d_pools d); split; [by destruct d|apply pools_moved_refl]).
  unfold wp, turn. destruct (d_eng d) as [g|] eqn:Eg; [|done]. destruct (d_live d !! k) as [v|] eqn:Ev; [|done].
  pose proof (dk_live _ O) as HL. rewrite Forall_forall in HL.
  destruct (HL v) as (Ht & [b Mo] & Hv); [by eapply list_elem_of_lookup_2|].
  destruct (dk_engine _ O g Eg) as (Hdev & Hem & Hout).
  set (po := i ← lv_pool v; d_pools d !! i) in *. cbv zeta. set (batch := if _ <? 1 then 1 else _).
  pose (HM := table_mapper clock range). pose (HML := table_laws_from clock range range_perm (lv_table v) po).
  assert (Hb : 1 <= batch) by (unfold batch; case_if; bool_prop; lia).
  assert (Hg : @engine_ok _ _ HM HML HD HDL (g_set_map (lv_table v, po) g)).
  { constructor; cbn; try done. split_and!; [done|eauto|apply pool_frame_refl]. }
  pose proof (iteration_ok (HM := HM) (HML := HML) rand32 (fun _ m => (lv_tr v, m)) (fun _ m Hm => conj Ht Hm) batch _ Hb Hg) as HI.
  apply wp_run in HI as (r & g' & E & Hg' & _). unfold HM in E. rewrite E. cbn [mbind outcome_bind].
  destruct Hg' as [Hd' Hm' He' Ho']. set (g2 := match r with Some _ => _ | None => _ end).
  assert (Hg2 : dev_inv (g_dev g2) /\ emitter_ok (g_em g2) /\ em_outs (g_em g2) = [] /\ g_map g2 = g_map g').
  { unfold g2. destruct r; cbn; split_and!; try done. by apply dev_Close_ok. }
  destruct Hg2 as (Hd2 & He2 & Ho2 & Em2). clearbody g2. destruct Hm' as (_ & _ & HFr). rewrite <- Em2 in HFr. unfold po in HFr.
  set (ps := match lv_pool v with Some _ => _ | None => _ end).
  assert (HP : pools_ok ps /\ pools_moved (d_pools d) ps).
  { subst ps. destruct (lv_pool v) as [i|]; [|split; [apply O|apply pools_moved_refl]]. cbn [mbind option_bind] in HFr.
    apply lookup_lt_is_Some in Hv as [p Hp]. rewrite Hp in HFr. destruct (g_map g2).2 as [p'|]; [|done].
    destruct HFr as [Fr HR]. destruct HR as [H' R']; [by eapply pools_ok_lookup; [apply O|]|].
    split; [by apply (pools_ok_insert _ _ _ H'); [apply O|]|]. by apply (pools_moved_insert _ _ p); [|apply Fr]. }
  destruct HP as [P M]. split; [|by eauto].
  assert (O2 : daemon_ok (d_set_pools ps d)).
  { eapply upkept_ok; [|exact O]. exists ps, (d_files d). by split_and!. }
  destruct O2 as [K1 K2 K3 K4 K5 K6 K7 K8 K9 K10]. constructor; try done; cbn in *.
  - intros _. apply K5. by rewrite Eg.
  - rewrite K6, Eg. split; eauto.
  - by intros g0 [= <-].
Qed.

(** ** Calls from elsewhere *)

Lemma fail_keeps source e d :
  daemon_ok d -> is_invalid e = true -> wp (failLocked wall source e) (fun r d' => daemon_ok d' /\ r = Some e /\ rejected source e d d' /\ d_kernel d' = d_kernel d) d.
Proof.
  intros O He. apply fail_rejects; [done| |by rewrite He].
  exists (d_pools d), (d_files d), (d_kernel d). split_and!; [by destruct d|apply O|apply hosts_kept_refl].
Qed.

(** A call answered: rejected, or accepted. *)
Definition answered source d (e : option DaemonErr) d' : Prop :=
  daemon_ok d' /\ match e with
                  | Some e => rejected source e d d'
                  | None => exists cfg, accepted order4 order6 sort SourceAddr cfg source d d'
                  end.

Lemma Apply_keeps cfg source d :
  daemon_ok d -> config_ok cfg ->
  wp (Apply clock range time_String wall entries SourceAddr cfg source) (answered source d) d.
Proof.
  intros O C. eapply wp_mono; [by apply (Apply_wp clock range time_String range_perm wall order4 order6 sort order4_perm order6_perm
    sort_perm SourceAddr SourceAddr_ok)|]. intros [e|] d' [O' HA]; (split; [done|]); [apply HA|eauto].
Qed.

Lemma fail_answers source e d : daemon_ok d -> is_invalid e = true -> wp (failLocked wall source e) (answered source d) d.
Proof. intros O He. eapply wp_mono; [by apply fail_keeps|]. intros r d' (O' & -> & HR & _). by split. Qed.

Lemma Reload_keeps source d :
  daemon_ok d -> wp (Reload clock range time_String wall entries SourceAddr LoadFile source) (answered source d) d.
Proof.
  intros O. unfold Reload. destruct LoadFile as [load|] eqn:EL; [|by apply fail_answers]. apply wp_bind, wp_gets.
  destruct (load (d_now d)) as [cfg|] eqn:E; [|by apply fail_answers]. apply Apply_keeps; [done|]. by eapply LoadFile_ok.
Qed.

Lemma ApplyYAML_keeps data source d :
  daemon_ok d -> wp (ApplyYAML clock range time_String wall entries SourceAddr LoadYAML data source) (answered source d) d.
Proof.
  intros O. unfold ApplyYAML. destruct (LoadYAML data) as [cfg|] eqn:E; [|by apply fail_answers].
  apply Apply_keeps; [done|]. by eapply LoadYAML_ok.
Qed.

(** ** [Run], and what else happens *)

Local Abbreviation R := (Running K F DS).
Local Abbreviation Run := (Run clock range time_String).
Local Abbreviation happen := (happen clock range time_String wall rand32 entries SourceAddr LoadFile LoadYAML).
Local Abbreviation happens := (happens clock range time_String wall rand32 entries SourceAddr LoadFile LoadYAML).
Implicit Types s : R.

(** Before packets are translated, while they are, and after. *)
Definition phase (pc : RunPC) : Z :=
  match pc with Begin | Started => 0 | Selecting | Ticked _ | Maintained _ => 1 | _ => 2 end.

(** Where [Run] may be with a daemon: it is ready exactly while [Run] is in its loop and
    started when it says so; and the pool that a tick works on is one the daemon has or
    had. *)
Definition pc_ok (pc : RunPC) d : Prop :=
  d_ready d = (phase pc =? 1) /\
  match pc with Begin => d_started d = false | Returned _ => True | _ => d_started d = true end /\
  match pc with Ticked r | Maintained r => is_Some (rv_Pool r) /\ pool_there r (d_pools d) | _ => True end.

Record run_ok s : Prop := {
  ro_daemon : daemon_ok (rn_daemon s);
  ro_pc : pc_ok (rn_pc s) (rn_daemon s);
}.

(** Who asks for a configuration to be put in force. *)
Definition asks (h : happening) : option string :=
  match h with HApply _ source | HApplyYAML _ source | HReload source => Some source | _ => None end.

(** What an operator sees of a step: a call is answered, or [Run] and the engine go on, with
    configuration, status and attempts as they were. *)
Definition went (call : option string) s s' : Prop :=
  let d := rn_daemon s in let d' := rn_daemon s' in
  match call with
  | Some source => rn_pc s' = rn_pc s /\ exists e, answered source d e d'
  | None => d_cur d' = d_cur d /\ d_status d' = d_status d /\ d_reloads d' = d_reloads d /\ phase (rn_pc s) <= phase (rn_pc s')
  end.

Lemma wp_on_daemon {A} (m : M D A) (Q : A -> R -> Prop) s :
  wp m (fun a d => Q a (rn_set_daemon d s)) (rn_daemon s) -> wp (on_daemon m) Q s.
Proof. intros H. apply wp_run in H as (a & d & E & H). unfold wp, on_daemon. by rewrite E. Qed.

Lemma went_refl s : went None s s.
Proof. split_and!; [done..|lia]. Qed.

(** Readiness is set by [Run] alone. *)
Lemma ready_keeps b d : daemon_ok d -> daemon_ok (d_set_ready b d).
Proof. intros [K1 K2 K3 K4 K5 K6 K7 K8 K9 K10]. by constructor. Qed.

Lemma cancel_keeps d : daemon_ok d -> daemon_ok (cancel_device d).
Proof.
  intros [K1 K2 K3 K4 K5 K6 K7 K8 K9 K10]. constructor; try done; cbn.
  - intros E. apply K5. by destruct (d_eng d); [|destruct E].
  - rewrite K6. by rewrite fmap_is_Some.
  - intros g Hg. destruct (d_eng d) as [g0|]; [|done]. injection Hg as <-. destruct (K8 g0 eq_refl) as (H1 & H2 & H3).
    cbn. split_and!; [|done|done]. by apply cancel_ok.
Qed.

(** *** The steps of [Run] *)

Lemma start_ok d :
  daemon_ok d -> d_started d = false ->
  wp start (fun e d' => daemon_ok d' /\ d_cur d' = d_cur d /\ d_status d' = d_status d /\ d_reloads d' = d_reloads d /\
    d_ready d' = d_ready d /\ (e = None -> d_started d' = true /\
    (Configure (d_cur d) = true -> Netconf.Apply (d_applied d') (d_kernel d) = Ok (None, d_kernel d')))) d.
Proof.
  intros O Es. pose proof O as [K1 K2 K3 K4 K5 K6 K7 K8 K9 K10]. unfold start. apply wp_bind, wp_gets.
  assert (Eg : d_eng d = None).
  { destruct (d_eng d); [|done]. assert (d_started d = true) by (apply K6; eauto). congruence. }
  destruct (NewDevice _ _) as [dev|] eqn:Ed; [|by apply wp_ret]. apply NewDevice_ok in Ed.
  set (want := netconfOptions (d_cur d) (dev_Name dev)).
  assert (Hcfg : wp (if Configure (d_cur d) then on_kernel (Netconf.Apply want) else mret None)
    (fun e d1 => exists k, d1 = d_set_kernel k d /\ (e = None -> Configure (d_cur d) = true -> Netconf.Apply want (d_kernel d) = Ok (None, k))) d).
  { destruct (Configure (d_cur d)); [|apply wp_ret; exists (d_kernel d); split; [by destruct d|done]].
    apply wp_on_kernel. destruct (Apply_returns want (d_kernel d)) as (e & k & E). apply wp_run. exists e, k.
    split; [done|]. exists k. split; [done|]. intros -> _. exact E. }
  apply wp_bind. eapply wp_mono; [exact Hcfg|]. intros [e|] d1 (k & -> & Hk).
  { apply wp_ret. split; [by constructor|done]. }
  apply wp_bind, wp_modify, wp_bind, wp_lift.
  pose proof (rk_translator _ _ K2) as Ht. apply owp_run in Ht as (t & Et & Ht). rewrite Et. apply owp_ok.
  apply wp_bind, wp_gets, wp_bind, wp_modify, wp_bind, wp_modify, wp_bind, wp_modify, wp_ret.
  split; [|split_and!; try done; intros _; split; [done|by apply Hk]].
  constructor; cbn; try done.
  - constructor; [|done]. split_and!; [done|apply (rk_table _ _ K2)|]. cbn.
    destruct (pool_there_cases _ _ K3) as [[-> _]|(i & dp & p & -> & _ & Hi & _)]; [done|]. by eapply lookup_lt_Some.
  - intros _. eexists. split; [done|]. by split_and!.
  - intros g [= <-]. cbn. split_and!; [done|apply new_emitter_ok|done].
Qed.

(** A tick's work on the pool of the configuration it read. *)
Lemma Maintain_keeps r d :
  daemon_ok d -> pool_there r (d_pools d) -> is_Some (rv_Pool r) ->
  wp (on_pool_ref (rv_Pool r) (Maintain clock range)) (fun _ d' => daemon_ok d' /\ upkept d d') d.
Proof.
  intros O PT' [i0 Hr]. destruct (pool_there_cases _ _ PT') as [[E _]|(i & dp & p & Er & Edp & Hi & _)]; [congruence|]. rewrite Er.
  destruct (pools_ok_lookup _ _ _ (dk_pools _ O) Hi) as [H R]. apply (wp_on_pool_ref i p); [done|].
  eapply wp_mono; [by apply (Maintain_ok clock range range_perm p H)|]. cbv zeta. intros _ p' (R' & Fr & _ & _).
  assert (U : upkept d (d_set_pools (<[i := p']> (d_pools d)) d)).
  { exists (<[i := p']> (d_pools d)), (d_files d). split; [by destruct d|].
    split; [eapply pools_ok_insert; [apply O|exact R']|by apply (pools_moved_insert _ _ p); [|apply Fr]]. }
  split; [by eapply upkept_ok|exact U].
Qed.

Lemma save_keeps r force d :
  daemon_ok d -> pool_there r (d_pools d) ->
  wp (savePoolState clock range time_String r force) (fun _ d' => daemon_ok d' /\ upkept d d') d.
Proof.
  intros O PT'. eapply wp_mono; [apply (savePoolState_ok clock range time_String range_perm); [apply O|done]|].
  intros _ d' (ps & f & -> & P & HK' & _). assert (U : upkept d (d_set_files f (d_set_pools ps d))).
  { exists ps, f. split_and!; [done|done|by apply hosts_kept_moved]. }
  split; [by eapply upkept_ok|exact U].
Qed.

(** The daemon that [Run] leaves where it goes on. *)
Lemma go_on s s' :
  let d := rn_daemon s in let d' := rn_daemon s' in
  daemon_ok d' -> d_cur d' = d_cur d -> d_status d' = d_status d -> d_reloads d' = d_reloads d ->
  phase (rn_pc s) <= phase (rn_pc s') -> pc_ok (rn_pc s') d' -> run_ok s' /\ went None s s'.
Proof. intros d d' O E1 E2 E3 Hp Hpc. split; [done|]. by split_and!. Qed.

Ltac step_on := apply go_on; cbn; auto using ready_keeps, cancel_keeps; try done; try (split_and!; cbn in *; first [done|congruence]).

Lemma Run_keeps b s : run_ok s -> wp (Run b) (fun _ s' => run_ok s' /\ went None s s') s.
Proof.
  intros RO. pose proof RO as [O (Hr & Hs & Ht)]. destruct s as [d pc res over]. cbn [rn_daemon rn_pc] in *.
  assert (Stay : run_ok (mkRunning d pc res over) /\ went None (mkRunning d pc res over) (mkRunning d pc res over)) by (split; [done|apply went_refl]).
  unfold Daemon.Run. apply wp_bind, wp_gets. destruct pc; cbn [rn_pc rn_engine rn_done] in *.
  - apply wp_bind, wp_on_daemon. eapply wp_mono; [by apply start_ok|]. cbn [rn_daemon].
    intros [e|] d' (O' & E1 & E2 & E3 & E4 & HN); [apply wp_modify; step_on|].
    destruct (HN eq_refl) as [Es' _]. apply wp_bind, wp_gets, wp_bind. destruct over; cbn [rn_done rn_set_daemon].
    + apply wp_on_daemon, wp_modify, wp_modify; step_on.
    + apply wp_skip, wp_modify; step_on.
  - apply wp_bind, wp_on_daemon, wp_modify, wp_modify; step_on.
  - destruct b; cbn [rn_done rn_engine].
    + apply wp_bind, wp_gets. destruct over; [|by apply wp_skip].
      apply wp_bind, wp_on_daemon, wp_modify, wp_modify; step_on.
    + apply wp_bind, wp_gets. destruct res as [|e|]; [by apply wp_skip| |by apply wp_skip].
      apply wp_bind, wp_modify, wp_bind, wp_on_daemon, wp_modify, wp_modify; step_on; by destruct e.
    + apply wp_bind, wp_on_daemon, wp_gets. cbn [rn_daemon]. destruct (rv_Pool (d_cur d)) as [i|] eqn:Er; [|by apply wp_skip].
      apply wp_modify; step_on; split_and!; try done; apply O.
  - destruct Ht as [Hp PT']. apply wp_bind, wp_on_daemon. eapply wp_mono; [by apply Maintain_keeps|]. cbn [rn_daemon].
    intros _ d' (O' & ps & f & -> & P & M). apply wp_modify; step_on; split_and!; try done; by eapply pool_there_moved.
  - destruct Ht as [Hp PT']. apply wp_bind, wp_on_daemon. eapply wp_mono; [by apply save_keeps|]. cbn [rn_daemon].
    intros _ d' (O' & ps & f & -> & P & M). apply wp_modify; step_on.
  - apply wp_bind, wp_gets. destruct res as [|e|]; [by apply wp_skip| |by apply wp_skip].
    apply wp_bind, wp_modify, wp_modify; step_on.
  - apply wp_bind, wp_on_daemon, wp_gets, wp_bind, wp_on_daemon. cbn [rn_daemon].
    eapply wp_mono; [apply save_keeps; [done|apply O]|]. intros _ d' (O' & ps & f & -> & P & M). apply wp_modify; step_on.
  - by apply wp_skip.
Qed.

(** *** The other happenings *)

(** The happenings that carry a configuration carry one that parsing gives. *)
Definition happening_ok (h : happening) : Prop := match h with HApply cfg _ => config_ok cfg | _ => True end.

Lemma answered_keeps source e s d' :
  run_ok s -> answered source (rn_daemon s) e d' -> run_ok (rn_set_daemon d' s) /\ went (Some source) s (rn_set_daemon d' s).
Proof.
  intros [O (Hr & Hs & Ht)] HA. split; [|split; [done|by exists e]]. destruct HA as [O' HA].
  assert (E : d_ready d' = d_ready (rn_daemon s) /\ d_started d' = d_started (rn_daemon s) /\ hosts_kept (d_pools (rn_daemon s)) (d_pools d')).
  { destruct e as [e|]; [by destruct HA as [_ _ (_ & -> & ->) _ _ _ _ ? _]|].
    by destruct HA as (cfg & [_ _ _ (_ & -> & ->) _ _ _ _ ? _ _]). }
  destruct E as (Er & Es & HK'). constructor; cbn [rn_daemon rn_pc rn_set_daemon]; [done|]. unfold pc_ok. rewrite Er, Es. split_and!; [done..|].
  destruct (rn_pc s); try done; (split; [apply Ht|]; eapply pool_there_moved; [by apply hosts_kept_moved|apply Ht]).
Qed.

Lemma happen_keeps h s : run_ok s -> happening_ok h -> wp (happen h) (fun _ s' => run_ok s' /\ went (asks h) s s') s.
Proof.
  intros RO Hh. pose proof RO as [O (Hr & Hs & Ht)].
  assert (Stay : run_ok s /\ went None s s) by (split; [done|apply went_refl]).
  assert (Call : forall source (m : M D (option DaemonErr)), wp m (answered source (rn_daemon s)) (rn_daemon s) ->
    wp (on_daemon m;; skip) (fun _ s' => run_ok s' /\ went (Some source) s s') s).
  { intros source m Hm. apply wp_bind, wp_on_daemon. eapply wp_mono; [exact Hm|]. intros e d' HA. apply wp_skip. by eapply answered_keeps. }
  destruct h as [b|k| |cfg source|data source|source]; cbn [Daemon.happen].
  - by apply Run_keeps.
  - unfold engine_turn. apply wp_bind, wp_gets. destruct (rn_engine s); [|by apply wp_skip..].
    apply wp_bind, wp_on_daemon. eapply wp_mono; [by apply turn_keeps|]. intros e d' (O' & g & ps & -> & M).
    assert (Hpc : pc_ok (rn_pc s) (d_set_pools ps (d_set_eng g (rn_daemon s)))).
    { split_and!; [done|done|]. destruct (rn_pc s); try done; (split; [apply Ht|]; eapply pool_there_moved; [exact M|apply Ht]). }
    destruct e; [apply wp_modify|apply wp_skip]; by apply go_on; cbn.
  - unfold cancel_ctx. apply wp_bind, wp_gets. destruct (rn_done s); [by apply wp_skip|].
    apply wp_bind, wp_modify, wp_on_daemon, wp_modify. apply go_on; cbn; try done. by apply cancel_keeps.
  - by apply (Call source), Apply_keeps.
  - by apply (Call source), ApplyYAML_keeps.
  - by apply (Call source), Reload_keeps.
Qed.

Lemma happens_keeps hs s : run_ok s -> Forall happening_ok hs -> wp (happens hs) (fun _ s' => run_ok s') s.
Proof.
  revert s. induction hs as [|h hs IH]; intros s RO Hhs; [by apply wp_skip|]. apply Forall_cons in Hhs as [Hh Hhs].
  cbn [Daemon.happens]. apply wp_bind. eapply wp_mono; [by apply happen_keeps|]. intros ? s' [RO' _]. by apply IH.
Qed.
End run.
