(* ===== verification/Service.v ===== *)
(** * The daemon as a configuration service

    What an operator can tell of the daemon: the configuration in force and where it
    came from, the last error, readiness, and the attempts to change it.  The service is
    a small state machine; whatever happens to a running daemon is a sequence of its
    steps. *)

From stdpp Require Import base tactics list numbers option strings gmap sorting relations.
From Stdlib Require Import ZArith Lia.
From S2P Require Import Prelude Netip Netutil Text Strings Events Packet Layout Translator TranslatorFacts Pool PoolFacts PoolOps PoolSave PoolRun PoolProps Table Join TableFacts TableMap Engine EngineFacts Netconf NetconfFacts NetconfProps Configuration Resolve ResolveFacts ResolveProps Daemon DaemonFacts DaemonApply DaemonRun.

Open Scope Z_scope.

(** ** The service *)

Record Service := mkService {
  sv_generation : Z;
  sv_source : string;
  sv_config : Resolved;
  sv_error : option DaemonErr;
  sv_begun : bool;
  sv_ready : bool;
  sv_attempts : list (string * bool);
}.

(** A step, with who asked for it: a configuration is put in force, or refused, at
    someone's request, and of itself the service begins, ceases for good to be ready, or
    does nothing that can be told. *)
Inductive sv_step : option string -> Service -> Service -> Prop :=
  | sv_accept source r s :
      ImmutableChanges (sv_config s) r = [] ->
      sv_step (Some source) s
        (mkService (sv_generation s + 1) source r None (sv_begun s) (sv_ready s) (sv_attempts s ++ [(source, true)]))
  | sv_reject source e s :
      sv_step (Some source) s
        (mkService (sv_generation s) (sv_source s) (sv_config s) (Some e) (sv_begun s) (sv_ready s) (sv_attempts s ++ [(source, false)]))
  | sv_begin s :
      sv_begun s = false ->
      sv_step None s (mkService (sv_generation s) (sv_source s) (sv_config s) (sv_error s) true true (sv_attempts s))
  | sv_stop s :
      sv_step None s (mkService (sv_generation s) (sv_source s) (sv_config s) (sv_error s) true false (sv_attempts s))
  | sv_idle s : sv_step None s s.

(** Steps one after another. *)
Inductive sv_trace : list (option string) -> Service -> Service -> Prop :=
  | sv_end s : sv_trace [] s s
  | sv_next call calls s1 s2 s3 : sv_step call s1 s2 -> sv_trace calls s2 s3 -> sv_trace (call :: calls) s1 s3.

(** ** Its invariants *)

Lemma ImmutableChanges_nil r1 r2 :
  ImmutableChanges r1 r2 = [] <->
  if_Name (uc_Interface (rv_Config r1)) = if_Name (uc_Interface (rv_Config r2)) /\
  if_MTU (uc_Interface (rv_Config r1)) = if_MTU (uc_Interface (rv_Config r2)) /\
  Configure r1 = Configure r2 /\ r_Sysctl r1 = r_Sysctl r2 /\ rv_HTTPListen r1 = rv_HTTPListen r2 /\ rv_LogJSON r1 = rv_LogJSON r2.
Proof.
  unfold ImmutableChanges. rewrite <- !(eqb_true_iff (Configure r1)), <- !(eqb_true_iff (r_Sysctl r1)), <- !(eqb_true_iff (rv_LogJSON r1)), <- !Z.eqb_eq.
  repeat case_bool_decide; repeat case_match; cbn; split; try done; intros; naive_solver.
Qed.

Lemma ImmutableChanges_trans r1 r2 r3 : ImmutableChanges r1 r2 = [] -> ImmutableChanges r2 r3 = [] -> ImmutableChanges r1 r3 = [].
Proof. rewrite !ImmutableChanges_nil. intros (?&?&?&?&?&?) (?&?&?&?&?&?). split_and!; congruence. Qed.

Lemma ImmutableChanges_refl r : ImmutableChanges r r = [].
Proof. by apply ImmutableChanges_nil. Qed.

(** The number of attempts that succeeded. *)
Definition successes (l : list (string * bool)) : Z := len (filter (fun x => x.2 = true) l).

Lemma successes_app l source ok : successes (l ++ [(source, ok)]) = successes l + (if ok : bool then 1 else 0).
Proof. unfold successes. rewrite filter_app, len_app. by destruct ok. Qed.

(** What stays, however the service goes on, when it was asked by [calls]. *)
Record sv_history (calls : list (option string)) (s s' : Service) : Prop := {
  sh_same : ImmutableChanges (sv_config s) (sv_config s') = [];
  sh_attempts : exists l, sv_attempts s' = sv_attempts s ++ l /\ l.*1 = omap id calls;
  sh_generation : sv_generation s' - successes (sv_attempts s') = sv_generation s - successes (sv_attempts s);
  sh_begun : sv_begun s = true -> sv_begun s' = true;
  sh_ready : sv_begun s = true -> sv_ready s' = true -> sv_ready s = true;
}.

Lemma sv_history_trace calls s s' : sv_trace calls s s' -> sv_history calls s s'.
Proof.
  intros H. induction H as [s|call calls s s1 s' Hs H [K1 (l & K2 & K5) K3 K4 K6]].
  - constructor; try done; [apply ImmutableChanges_refl|]. exists []. by rewrite app_nil_r.
  - destruct Hs; cbn in *; rewrite ?successes_app in K3; constructor; try done; try lia.
    all: try (exists l; by split).
    + by eapply ImmutableChanges_trans.
    + rewrite K2, <- app_assoc. eexists. split; [done|]. cbn. by rewrite K5.
    + rewrite K2, <- app_assoc. eexists. split; [done|]. cbn. by rewrite K5.
    + intros _. by apply K4.
    + congruence.
    + intros _. by apply K4.
    + intros _ E. by apply K6 in E.
Qed.

(** ** The daemon implements it *)

Section service.
Context {K F DS : Type} {HK : Kernel K} {HF : Files F} {HFL : @FilesLaws F HF}.
Context {HD : Device DS} {HDL : @DeviceLaws DS HD} {HT : @Tun DS HD} {HTL : @TunLaws DS HD HDL HT}.
Context {AT : AddrText} {PT : PrefixText} {PL : ParseLaws}.
Context (clock : nat -> Z) (range : nat -> gmap Addr nat -> list (Addr * nat)) (time_String : Z -> string).
Context (range_perm : forall k m, range k m ≡ₚ map_to_list m).
Context (wall : nat -> Z) (rand32 : nat -> Z).
Context (order4 order6 : Table -> list Entry) (sort : (Entry -> Entry -> bool) -> list Entry -> list Entry).
Context (order4_perm : forall t, order4 t ≡ₚ (map_to_list (t_hosts4 t)).*2).
Context (order6_perm : forall t, order6 t ≡ₚ (map_to_list (t_hosts6 t)).*2).
Context (sort_perm : forall less l, sort less l ≡ₚ l).
Context (SourceAddr : Addr -> option Addr) (LoadFile : option (nat -> option UserConfig)) (LoadYAML : string -> option UserConfig).
Hypothesis SourceAddr_ok : forall dst a, SourceAddr dst = Some a -> addr_ok a /\ IsValid a = true.
Hypothesis LoadFile_ok : forall load n cfg, LoadFile = Some load -> load n = Some cfg -> config_ok cfg.
Hypothesis LoadYAML_ok : forall data cfg, LoadYAML data = Some cfg -> config_ok cfg.

Local Abbreviation D := (Daemon K F DS).
Local Abbreviation entries := (entries_of order4 order6 sort).
Local Abbreviation R := (Running K F DS).
Local Abbreviation happens := (happens clock range time_String wall rand32 entries SourceAddr LoadFile LoadYAML).
Implicit Types s : R.

(** What can be told of a daemon. *)
Definition service s : Service :=
  let d := rn_daemon s in
  mkService (st_Generation (d_status d)) (st_Source (d_status d)) (d_cur d) (st_LastError (d_status d))
    (1 <=? phase (rn_pc s)) (d_ready d) (d_reloads d).

(** Every happening is one step of it. *)
Lemma went_step call s s' :
  run_ok s -> run_ok s' -> went order4 order6 sort SourceAddr call s s' -> sv_step call (service s) (service s').
Proof.
  intros [O [Hr _]] [O' [Hr' _]]. unfold service, went. destruct call as [source|].
  - intros (-> & e & _ & HA). destruct e as [e|].
    + destruct HA as [-> _ (_ & _ & ->) _ _ [t ->] -> _ _]. cbn. apply (sv_reject source e (service s)).
    + destruct HA as (cfg & [_ HI _ (_ & _ & ->) _ _ [t ->] -> _ _ _]). cbn.
      by apply (sv_accept source (d_cur (rn_daemon s')) (service s)).
  - intros (-> & -> & -> & Hp). rewrite Hr, Hr'.
    assert (Hph : forall pc, phase pc = 0 \/ phase pc = 1 \/ phase pc = 2) by (intros []; cbn; auto).
    destruct (Hph (rn_pc s)) as [E|[E|E]], (Hph (rn_pc s')) as [E'|[E'|E']]; rewrite E, E' in *; try lia; cbn.
    all: first [apply (sv_idle (mkService _ _ _ _ _ _ _))|apply (sv_stop (mkService _ _ _ _ _ _ _))|by apply (sv_begin (mkService _ _ _ _ _ _ _))].
Qed.

Lemma happens_trace hs s :
  run_ok s -> Forall happening_ok hs -> wp (happens hs) (fun _ s' => sv_trace (asks <$> hs) (service s) (service s')) s.
Proof.
  revert s. induction hs as [|h hs IH]; intros s RO Hhs; [by apply wp_skip, sv_end|]. apply Forall_cons in Hhs as [Hh Hhs].
  cbn [Daemon.happens]. apply wp_bind. eapply wp_mono; [by apply (happen_keeps clock range time_String range_perm wall rand32
    order4 order6 sort order4_perm order6_perm sort_perm SourceAddr LoadFile LoadYAML SourceAddr_ok LoadFile_ok LoadYAML_ok)|].
  intros ? s1 [RO1 Hw]. eapply wp_mono; [by apply IH|]. intros ? s2 Ht. cbn. eapply sv_next; [by apply went_step|exact Ht].
Qed.

(** C24: the daemon implements the configuration service: whatever happens, in
    whatever order, before [Run] begins, while it runs and after it ended, each happening
    is one step of the service.  A call to [Apply], [ApplyYAML] or [Reload] puts in force a
    configuration that changes nothing that needs a restart, or is refused; anything else
    lets the service begin, cease for good to be ready, or go on unchanged. *)
Theorem daemon_implements_service hs s :
  run_ok s -> Forall happening_ok hs ->
  wp (happens hs) (fun _ s' => sv_trace (asks <$> hs) (service s) (service s')) s.
Proof. apply happens_trace. Qed.

(** C26: whatever happens to a daemon, interface name and MTU, whether it configures the
    kernel and the forwarding sysctls, its listener and its log format never change; the
    generation it reports is the one it started with plus the configurations it accepted
    since; the attempts it counted are never forgotten, and those it counts are the calls
    made, in their order; and once it began to translate packets it never becomes ready
    again after it ceased to be. *)
Theorem running_history hs s :
  run_ok s -> Forall happening_ok hs ->
  wp (happens hs) (fun _ s' => sv_history (asks <$> hs) (service s) (service s')) s.
Proof. intros RO Hhs. eapply wp_mono; [by apply happens_trace|]. intros ? s' Ht. by apply sv_history_trace. Qed.
End service.
