(* ===== verification/DaemonProps.v ===== *)
(** * What the daemon guarantees

    From start to stop: the invariant, what a new configuration changes and what it
    leaves, and what a restart brings back. *)

From stdpp Require Import base tactics list numbers option strings gmap sorting.
From Stdlib Require Import ZArith Lia.
From S2P Require Import Prelude Netip Netutil Text Strings Events Packet Layout Translator TranslatorFacts Pool PoolFacts PoolOps PoolSave PoolRun PoolProps Table Join TableFacts TableMap Engine EngineFacts Netconf NetconfFacts NetconfProps Configuration Resolve ResolveFacts ResolveProps Daemon DaemonFacts DaemonApply DaemonRun.

Open Scope Z_scope.

(** A read that fails for good ends the loop. *)
Lemma iteration_closed {MS DS : Type} {HM : Mapper MS} {HD : Device DS} rand32 loads batch (g : Engine MS DS) c dev :
  dev_Read batch (g_dev g) = (inr c, dev) -> c || ctx_done dev = true ->
  iteration rand32 loads batch g = Ok (Some EndCtx, g_set_dev dev g).
Proof.
  intros Er Ec. unfold iteration, read_dev, gets, mbind, M_bind, mret, M_ret. rewrite Er. cbn [mbind outcome_bind g_dev g_set_dev].
  by rewrite Ec.
Qed.

Section daemon.
Context {K F DS : Type} {HK : Kernel K} {HF : Files F} {HFL : @FilesLaws F HF}.
Context {HD : Device DS} {HDL : @DeviceLaws DS HD} {HT : @Tun DS HD} {HTL : @TunLaws DS HD HDL HT}.
Context {AT : AddrText} {PT : PrefixText} {PL : ParseLaws}.
Context (clock : nat -> Z) (range : nat -> gmap Addr nat -> list (Addr * nat)) (time_String : Z -> string).
Context (range_perm : forall k m, range k m ≡ₚ map_to_list m).
Context (wall : nat -> Z) (rand32 : nat -> Z).
Context (order4 order6 : Table -> list Entry) (sort : (Entry -> Entry -> bool) -> list Entry -> list Entry).
Context (order4_perm : forall t, order4 t ≡ₚ (map_to_list (t_hosts4 t)).*2).
Context (order6_perm : forall t, order6 t ≡ₚ (map_to_list (t_hosts6 t)).*2).
Context (sort_perm : forall less l, sort less l ≡ₚ l).
Context (SourceAddr : Addr -> option Addr) (LoadFile : option (nat -> option UserConfig)) (LoadYAML : string -> option UserConfig).
Hypothesis SourceAddr_ok : forall dst a, SourceAddr dst = Some a -> addr_ok a /\ IsValid a = true.
Hypothesis LoadFile_ok : forall load n cfg, LoadFile = Some load -> load n = Some cfg -> config_ok cfg.
Hypothesis LoadYAML_ok : forall data cfg, LoadYAML data = Some cfg -> config_ok cfg.

Local Abbreviation D := (Daemon K F DS).
Local Abbreviation entries := (entries_of order4 order6 sort).
Implicit Types d : D.

(** ** Start *)

Lemma NewDaemon_ok initial pools (k : K) (f : F) :
  pools_ok pools -> resolved_ok initial (i ← rv_Pool initial; pools !! i) -> pool_there initial pools ->
  owp (NewDaemon clock wall initial pools k f) (fun d => daemon_ok d /\ d_started d = false /\ d_ready d = false /\
    d_cur d = initial /\ d_kernel d = k /\ d_files d = f).
Proof.
  intros P Rok PT'. unfold NewDaemon. cbv zeta. set (d0 := mkDaemon _ _ _ _ _ _ _ _ _ _ _ _ _ _ _).
  assert (O0 : daemon_ok (d0 : D)).
  { constructor; try done; cbn. - by intros [? ?]. - by split; [|intros [? ?]]. }
  assert (H : wp (match rv_Pool initial with Some _ => loadPoolState clock initial | None => skip end)
    (fun _ d => exists ps, d = d_set_pools ps d0 /\ pools_ok ps /\ pools_moved pools ps) d0).
  { assert (E0 : d0 = d_set_pools pools d0) by done.
    destruct (rv_Pool initial) as [i|] eqn:Er; [|apply wp_skip; eauto using pools_moved_refl].
    eapply wp_mono; [by apply (loadPoolState_ok clock time_String initial i)|]. intros _ d (ps & -> & P' & M & _). eauto. }
  apply wp_run in H as (u & d & -> & ps & -> & P' & M). cbn [mbind outcome_bind time_Now].
  assert (O : daemon_ok (d_set_pools ps d0)).
  { eapply upkept_ok; [|exact O0]. by exists ps, f. }
  apply owp_ok. split; [|done]. destruct O as [K1 K2 K3 K4 K5 K6 K7 K8 K9 K10]. by constructor.
Qed.

(** A daemon that was just made, before [Run]. *)
Lemma new_run_ok d : daemon_ok d -> d_started d = false -> d_ready d = false -> run_ok (mkRunning d Begin Working false).
Proof. intros O Es Er. constructor; [done|]. by split_and!. Qed.

(** ** New configurations *)

(** C7: [Apply] always returns, and keeps the daemon's invariant.  It rejects a
    configuration only for what resolving it finds wrong, for a change that needs a
    restart, or for an error of the kernel.  Then what runs and what is reported as
    running stays as it is, except for the error, and no pool loses a host; but the
    leases and reserved addresses of the running pool may be those of the rejected
    configuration.  Files stay too, and so does the kernel, unless it was the kernel that
    failed: then it is what [Update] left of it, and the running pool may have been saved.
    When it accepts one, that configuration is in force everywhere at once: the
    generation is one more, nothing that needs a restart changed, the engine has a
    translator made from it, a pool over the same prefix was kept with its hosts, and the
    kernel is what [Update] made of it, without an error, from the options last applied to
    those of this configuration. *)
Theorem Apply_outcomes cfg source d :
  daemon_ok d -> config_ok cfg ->
  wp (Apply clock range time_String wall entries SourceAddr cfg source)
    (applied_ok order4 order6 sort SourceAddr cfg source d) d.
Proof. by apply Apply_wp. Qed.

(** ** A pool that is configured away *)

(** The ends of [Apply] leave the files. *)
Lemma failLocked_files source e d :
  wp (failLocked wall source e) (fun r d' => is_Some r /\ d_files d' = d_files d) d.
Proof. unfold failLocked. apply wp_bind, wp_time_Now, wp_bind, wp_modify, wp_bind, wp_modify, wp_ret. by split. Qed.

Lemma switch_files r source d :
  owp (New (rv_Xlate r)) (fun _ => True) ->
  wp (switch wall r source) (fun e d' => d_files d' = d_files d /\ d_cur d' = r /\ d_pools d' = d_pools d) d.
Proof.
  intros Ht. unfold switch. apply wp_bind, wp_gets, wp_bind. apply owp_run in Ht as (t & Et & _).
  destruct (d_eng d); [apply wp_bind, wp_lift; rewrite Et; apply owp_ok, wp_modify|apply wp_skip];
    by apply wp_bind, wp_modify, wp_bind, wp_time_Now, wp_bind, wp_modify, wp_bind, wp_modify, wp_ret.
Qed.

(** C39: a configuration without a pool saves nothing: whatever [Apply] answers, the state
    file of the running pool is as old as it was, also when the configuration is accepted
    and the pool with all its assignments is gone from the daemon, which will not save it
    when it stops either. *)
Theorem removed_pool_not_saved cfg source d :
  daemon_ok d -> config_ok cfg -> uc_DynamicPool cfg = None ->
  wp (Apply clock range time_String wall entries SourceAddr cfg source) (fun e d' => d_files d' = d_files d /\
    (e = None -> current_pool d' = None /\
      forall b res over e', wp (Run clock range time_String b) (fun _ s => d_files (rn_daemon s) = d_files d)
        (mkRunning d' (Leaving e') res over))) d.
Proof.
  intros O C Edp. unfold Apply. apply wp_bind, wp_gets, wp_bind, wp_on_pools.
  set (ro := mkResolveOptions (rv_Pool (d_cur d)) (Some SourceAddr)).
  pose proof (running_pool_there SourceAddr d O : existing_ok ro (d_pools d)) as Hex.
  eapply wp_mono; [by apply (ResolveWith_ok order4 order6 sort order4_perm order6_perm sort_perm cfg ro (d_pools d) C SourceAddr_ok (dk_pools _ O))|].
  intros r ps (P & _ & HR).
  assert (Fail : forall e d1, d_files d1 = d_files d -> wp (failLocked wall source e) (fun e d' => d_files d' = d_files d /\
    (e = None -> current_pool d' = None /\
      forall b res over e', wp (Run clock range time_String b) (fun _ s => d_files (rn_daemon s) = d_files d)
        (mkRunning d' (Leaving e') res over))) d1).
  { intros e d1 E. eapply wp_mono; [apply failLocked_files|]. intros e' d' [[? ->] E']. split; [congruence|done]. }
  destruct r as [r|errs]; [|by apply Fail]. case_bool_decide; cbn [negb]; [|by apply Fail].
  destruct HR as (Rok & _ & Hch). unfold chosen in Hch. rewrite Edp in Hch. destruct (rv_Pool r) as [|] eqn:Er; [done|].
  assert (Switch : forall d1, d_files d1 = d_files d -> wp (switch wall r source) (fun e d' => d_files d' = d_files d /\
    (e = None -> current_pool d' = None /\
      forall b res over e', wp (Run clock range time_String b) (fun _ s => d_files (rn_daemon s) = d_files d)
        (mkRunning d' (Leaving e') res over))) d1).
  { intros d1 E. eapply wp_mono; [apply switch_files|].
    - eapply owp_mono; [apply (rk_translator _ _ Rok)|done].
    - intros e d' (E' & Ec & _). split; [congruence|]. intros _. unfold current_pool. rewrite Ec, Er. split; [done|].
      intros b res over e''. unfold Run. apply wp_bind, wp_gets. cbn [rn_pc]. apply wp_bind, wp_on_daemon, wp_gets, wp_bind, wp_on_daemon.
      cbn [rn_daemon]. unfold savePoolState. rewrite Ec, Er. apply wp_skip, wp_modify. cbn. congruence. }
  apply wp_bind, wp_skip, wp_bind, wp_gets. destruct (_ && _); [|by apply Switch].
  apply wp_bind, wp_gets, wp_bind, wp_on_kernel. cbv zeta. destruct (Update_returns (d_applied d) (netconfOptions r (no_Name (d_applied d))) (d_kernel d)) as (e & k & EU).
  apply wp_run. exists e, k. split; [exact EU|]. destruct e as [e|]; [by apply Fail|]. apply wp_bind, wp_modify. by apply Switch.
Qed.

(** ** The file watcher *)

(** How often the text at hand is not the one before. *)
Fixpoint changes (last : string) (l : list string) : nat :=
  match l with
  | [] => 0
  | h :: l => (if decide (h = last) then 0 else 1) + changes h l
  end.

(** [n] reloads, one after another. *)
Fixpoint reloads (n : nat) : M D unit :=
  match n with
  | O => skip
  | S n => Reload clock range time_String wall entries SourceAddr LoadFile "file";; reloads n
  end.

(** The watcher reloads exactly when the file's contents changed since it last read
    them: the times the file cannot be read do not count, and a file that is gone and
    comes back as it was is not reloaded. *)
Theorem WatchFile_reloads last hashes d :
  WatchFile clock range time_String wall entries SourceAddr LoadFile last hashes d =
    reloads (changes last (filter (fun h => h <> ""%string) hashes)) d.
Proof.
  revert last d. induction hashes as [|h hashes IH]; intros last d; [done|]. cbn [WatchFile].
  destruct (decide (h = ""%string)) as [->|Hne].
  - rewrite orb_true_r, filter_cons_False by (intros X; by apply X). apply IH.
  - rewrite (bool_decide_false (h = ""%string)), orb_false_r, filter_cons_True by done. cbn [changes].
    case_bool_decide as E; destruct (decide (h = last)); try done.
    + subst. apply IH.
    + cbn [Nat.add reloads]. unfold mbind, M_bind. destruct (Reload _ _ _ _ _ _ _ _ d) as [[r d']| |]; cbn; [apply IH|done|done].
Qed.

(** ** The end *)

Definition batch_of (g : Engine (Table * option Pool) DS) : Z := if BatchSize (g_dev g) <? 1 then 1 else BatchSize (g_dev g).

(** A turn whose read fails for good changes only the device. *)
Lemma failed_turn k d g v c dev :
  d_eng d = Some g -> d_live d !! k = Some v -> dev_Read (batch_of g) (g_dev g) = (inr c, dev) -> c || ctx_done dev = true ->
  wp (turn clock range rand32 k) (fun e d' => e = Some (if ctx_done dev then Canceled else NoError) /\
    exists g', d' = d_set_eng (Some g') d) d.
Proof.
  intros Eg Ev Er Ec. unfold wp, turn. rewrite Eg, Ev. cbv zeta. fold (batch_of g).
  rewrite (iteration_closed (HM := table_mapper clock range) _ _ _ _ c dev) by done.
  cbn [mbind outcome_bind g_dev g_set_dev g_map g_set_map snd]. split; [done|].
  exists (g_set_dev (dev_Close dev) (g_set_dev dev (g_set_map (lv_table v, i ← lv_pool v; d_pools d !! i) g))).
  assert (Ep : match lv_pool v, (i ← lv_pool v; d_pools d !! i) with Some i, Some p => <[i := p]> (d_pools d) | _, _ => d_pools d end = d_pools d).
  { destruct (lv_pool v) as [i|]; [|done]. cbn [mbind option_bind]. destruct (d_pools d !! i) eqn:Hi; [|done]. by apply list_insert_id. }
  cbn [mbind option_bind] in *. rewrite Ep. by destruct d.
Qed.

Local Abbreviation R := (Running K F DS).
Local Abbreviation Run := (Run clock range time_String).
Local Abbreviation happen := (happen clock range time_String wall rand32 entries SourceAddr LoadFile LoadYAML).
Local Abbreviation happens := (happens clock range time_String wall rand32 entries SourceAddr LoadFile LoadYAML).
Implicit Types s : R.

(** [Run] has taken a result of the engine without an error, and wants another. *)
Definition stuck s : Prop := rn_pc s = Awaiting /\ rn_engine s = Taken.

(** The engine ended without an error and nobody cancelled, or it is stuck. *)
Definition quiet s : Prop :=
  phase (rn_pc s) = 1 /\ rn_engine s = Ended NoError /\ rn_done s = false \/ stuck s.

Lemma quiet_Run b s : run_ok s -> quiet s -> wp (Run b) (fun _ s' => quiet s' /\ (stuck s -> s' = s)) s.
Proof.
  intros [O (_ & _ & Ht)] HQ. destruct s as [d pc res over]. unfold quiet, stuck in *. cbn [rn_daemon rn_pc rn_engine rn_done] in *.
  unfold Daemon.Run. apply wp_bind, wp_gets. destruct HQ as [(Hph & -> & ->)|[-> ->]];
    [|cbn [rn_pc]; apply wp_bind, wp_gets, wp_skip; cbn; auto].
  destruct pc; try discriminate Hph; cbn [rn_pc].
  - destruct b; [by apply wp_bind, wp_gets, wp_skip; cbn; (split; [by (left + right)|by intros []])| |].
    + apply wp_bind, wp_gets. cbn [rn_engine]. apply wp_bind, wp_modify, wp_bind, wp_on_daemon, wp_modify, wp_modify. cbn. split; [by (left + right)|by intros []].
    + apply wp_bind, wp_on_daemon, wp_gets. cbn [rn_daemon]. destruct (rv_Pool (d_cur d)); [apply wp_modify|apply wp_skip]; cbn; (split; [by (left + right)|by intros []]).
  - destruct Ht as [Hp PT']. apply wp_bind, wp_on_daemon. eapply wp_mono; [by apply (Maintain_keeps clock range range_perm)|].
    intros _ d' _. apply wp_modify. cbn. split; [by (left + right)|by intros []].
  - destruct Ht as [Hp PT']. apply wp_bind, wp_on_daemon. eapply wp_mono; [by apply (save_keeps clock range time_String range_perm)|].
    intros _ d' _. apply wp_modify. cbn. split; [by (left + right)|by intros []].
Qed.

(** Whatever happens, but a cancellation before it is stuck, [Run] does not return. *)
Lemma quiet_happen h s :
  run_ok s -> happening_ok h -> quiet s -> (h = HDone -> stuck s) ->
  wp (happen h) (fun _ s' => quiet s' /\ (stuck s -> stuck s' /\ (asks h = None -> d_files (rn_daemon s') = d_files (rn_daemon s)))) s.
Proof.
  intros RO Hh HQ HD'. assert (Call : forall source m, wp m (answered order4 order6 sort SourceAddr source (rn_daemon s)) (rn_daemon s) ->
    wp (on_daemon m;; skip) (fun _ s' => quiet s' /\ (stuck s -> stuck s' /\ (Some source = None -> d_files (rn_daemon s') = d_files (rn_daemon s)))) s).
  { intros source m Hm. apply wp_bind, wp_on_daemon. eapply wp_mono; [exact Hm|]. intros e d' _. apply wp_skip. by split; [exact HQ|]. }
  destruct h as [b|k| |cfg source|data source|source]; cbn [Daemon.happen asks].
  - eapply wp_mono; [by apply quiet_Run|]. intros _ s' [HQ' HS]. split; [done|]. intros Hst. by rewrite (HS Hst).
  - unfold engine_turn. apply wp_bind, wp_gets. destruct HQ as [(Hph & Ee & Ed)|[Epc Ee]]; rewrite Ee; apply wp_skip; unfold quiet, stuck; auto.
  - destruct (HD' eq_refl) as [Epc Ee]. unfold cancel_ctx. apply wp_bind, wp_gets. unfold quiet, stuck.
    destruct (rn_done s); [apply wp_skip; auto|]. apply wp_bind, wp_modify, wp_on_daemon, wp_modify. cbn. auto.
  - apply Call. by apply (Apply_keeps clock range time_String range_perm wall order4 order6 sort order4_perm order6_perm sort_perm SourceAddr SourceAddr_ok); [apply RO|].
  - apply Call. by apply (ApplyYAML_keeps clock range time_String range_perm wall order4 order6 sort order4_perm order6_perm sort_perm SourceAddr LoadYAML SourceAddr_ok LoadYAML_ok); apply RO.
  - apply Call. by apply (Reload_keeps clock range time_String range_perm wall order4 order6 sort order4_perm order6_perm sort_perm SourceAddr LoadFile SourceAddr_ok LoadFile_ok); apply RO.
Qed.

Lemma quiet_happens hs s :
  run_ok s -> Forall happening_ok hs -> quiet s -> HDone ∉ hs \/ stuck s ->
  wp (happens hs) (fun _ s' => run_ok s' /\ quiet s' /\ (stuck s -> stuck s' /\
    (Forall (fun h => asks h = None) hs -> d_files (rn_daemon s') = d_files (rn_daemon s)))) s.
Proof.
  revert s. induction hs as [|h hs IH]; intros s RO Hhs HQ HD'; [apply wp_skip; auto|]. apply Forall_cons in Hhs as [Hh Hhs].
  cbn [Daemon.happens]. apply wp_bind.
  pose proof (happen_keeps clock range time_String range_perm wall rand32 order4 order6 sort order4_perm order6_perm sort_perm
    SourceAddr LoadFile LoadYAML SourceAddr_ok LoadFile_ok LoadYAML_ok h s RO Hh) as HK'.
  assert (HD1 : h = HDone -> stuck s) by (intros ->; destruct HD' as [Hn|]; [by destruct Hn; left|done]).
  pose proof (quiet_happen h s RO Hh HQ HD1) as HQ1.
  apply wp_run in HK' as (u & s1 & E & RO1 & _). apply wp_run in HQ1 as (u' & s1' & E' & HQ1 & HS1).
  rewrite E in E'. injection E' as <- <-. apply wp_run. exists u, s1. split; [exact E|].
  eapply wp_mono; [apply IH; [done..|]|].
  - destruct HD' as [Hn|Hst]; [left; by apply not_elem_of_cons in Hn as [_ Hn]|right; by apply HS1].
  - intros ? s2 (RO2 & HQ2 & HS2). split_and!; [done..|]. intros Hst. destruct (HS1 Hst) as [Hst1 HF1]. destruct (HS2 Hst1) as [Hst2 HF2].
    split; [done|]. intros HF'. apply Forall_cons in HF' as [Ha Hq]. by rewrite HF2, HF1.
Qed.

(** C38: when the device is closed by anything but cancellation (the interface is
    deleted, say), the engine ends without an error, and [Run] does not return unless it
    is cancelled.  Once it has taken the engine's result it waits for a second one, which
    never comes: then it never returns, whatever happens afterwards, cancellation
    included.  The daemon is not ready then, and saves its pool at most when a new
    configuration is applied. *)
Theorem closed_device_blocks_run k hs s g v dev :
  run_ok s -> Forall happening_ok hs ->
  rn_pc s = Selecting -> rn_engine s = Working -> rn_done s = false ->
  d_eng (rn_daemon s) = Some g -> d_live (rn_daemon s) !! k = Some v ->
  dev_Read (batch_of g) (g_dev g) = (inr true, dev) -> ctx_done dev = false ->
  (HDone ∉ hs -> wp (happens (HTurn k :: hs)) (fun _ s' => forall e, rn_pc s' <> Returned e) s) /\
  wp (happens (HTurn k :: HRun BEngine :: hs)) (fun _ s' => rn_pc s' = Awaiting /\ d_ready (rn_daemon s') = false /\
    (Forall (fun h => asks h = None) hs -> d_files (rn_daemon s') = d_files (rn_daemon s))) s.
Proof.
  intros RO Hhs Epc Ee Edn Eg Ev Er Ec.
  assert (HT' : wp (happen (HTurn k)) (fun _ s1 => run_ok s1 /\ rn_pc s1 = Selecting /\ rn_engine s1 = Ended NoError /\
    rn_done s1 = false /\ d_files (rn_daemon s1) = d_files (rn_daemon s)) s).
  { pose proof (happen_keeps clock range time_String range_perm wall rand32 order4 order6 sort order4_perm order6_perm sort_perm
      SourceAddr LoadFile LoadYAML SourceAddr_ok LoadFile_ok LoadYAML_ok (HTurn k) s RO I) as HK'.
    apply wp_run in HK' as (u & s1 & E & RO1 & _). apply wp_run. exists u, s1. split; [exact E|]. split; [done|]. clear RO1.
    assert (H : wp (happen (HTurn k)) (fun _ s1 => rn_pc s1 = Selecting /\ rn_engine s1 = Ended NoError /\
      rn_done s1 = false /\ d_files (rn_daemon s1) = d_files (rn_daemon s)) s).
    { cbn [Daemon.happen]. unfold engine_turn. apply wp_bind, wp_gets. rewrite Ee. apply wp_bind, wp_on_daemon.
      eapply wp_mono; [by apply (failed_turn k _ g v true dev)|]. intros e d' (-> & g' & ->). rewrite Ec.
      apply wp_modify. by split_and!. }
    apply wp_run in H as (u' & s1' & E' & H). rewrite E in E'. by injection E' as <- <-. }
  split; [intros Hn|]; cbn [Daemon.happens]; apply wp_bind; (eapply wp_mono; [exact HT'|]); intros ? s1 (RO1 & Epc1 & Ee1 & Edn1 & Ef1).
  - eapply wp_mono; [apply quiet_happens; [done..| |by left]|]; [left; by rewrite Epc1|].
    intros ? s2 (_ & [(Hph & _)|[-> _]] & _) e; [|done]. intros E. by rewrite E in Hph.
  - apply wp_bind. assert (HR : wp (Run BEngine) (fun _ s2 => run_ok s2 /\ stuck s2 /\ d_files (rn_daemon s2) = d_files (rn_daemon s)) s1).
    { pose proof (Run_keeps clock range time_String range_perm order4 order6 sort SourceAddr BEngine s1 RO1) as HK'.
      apply wp_run in HK' as (u & s2 & E & RO2 & _). apply wp_run. exists u, s2. split; [exact E|]. split; [done|].
      destruct s1 as [d1 pc1 res1 over1]. cbn in Epc1, Ee1, Edn1. subst. injection E as _ <-. by split. }
    eapply wp_mono; [exact HR|]. intros ? s2 (RO2 & Hst & Ef2).
    eapply wp_mono; [apply quiet_happens; [done..|by right|by right]|]. intros ? s3 (RO3 & _ & HS). destruct (HS Hst) as [[Epc3 _] HF'].
    split; [done|]. split; [|intros Hq; rewrite HF' by done; congruence]. destruct (ro_pc _ RO3) as [Hr _]. by rewrite Hr, Epc3.
Qed.
(** ** Stop and start *)

Lemma wp_happens_app l1 l2 (Q : unit -> R -> Prop) s :
  wp (happens l1) (fun _ s1 => wp (happens l2) Q s1) s -> wp (happens (l1 ++ l2)) Q s.
Proof.
  revert s. induction l1 as [|h l1 IH]; intros s H; [exact H|]. cbn [Daemon.happens app] in *.
  apply wp_run in H as (u & s1 & E & H). unfold mbind, M_bind in E. destruct (happen h s) as [[u1 s0]| |] eqn:Eh; [|done..]. cbn in E.
  apply wp_bind, wp_run. exists u1, s0. split; [exact Eh|]. apply IH, wp_run. by exists u, s1.
Qed.

(** How [Run] leaves its loop after a cancellation: the engine's turn comes after or before
    it looks at the context, or it looks at the engine's result first. *)
Definition leave_orders (k : nat) (b : branch) : list (list happening) :=
  [[HRun BDone; HTurn k; HRun b]; [HTurn k; HRun BDone; HRun b]; [HTurn k; HRun BEngine]].

Lemma cancelled_leaves k b hs s g v c dev :
  rn_pc s = Selecting -> rn_engine s = Working -> rn_done s = false ->
  d_eng (rn_daemon s) = Some g -> d_live (rn_daemon s) !! k = Some v ->
  dev_Read (batch_of g) (cancel (g_dev g)) = (inr c, dev) -> ctx_done dev = true -> hs ∈ leave_orders k b ->
  wp (happens (HDone :: hs)) (fun _ s' => rn_pc s' = Leaving Canceled /\
    exists g', rn_daemon s' = d_set_ready false (d_set_eng (Some g') (rn_daemon s))) s.
Proof.
  intros Epc Ee Edn Eg Ev Er Ec Hhs. destruct s as [d pc res over]. cbn [rn_daemon rn_pc rn_engine rn_done] in *. subst.
  assert (HT' : forall d0, d0 = cancel_device d \/ d0 = d_set_ready false (cancel_device d) ->
    wp (turn clock range rand32 k) (fun e d' => e = Some Canceled /\ exists g', d' = d_set_eng (Some g') d0) d0).
  { intros d0 Hd0. eapply wp_mono; [apply (failed_turn k _ (g_set_dev (cancel (g_dev g)) g) v c dev)|].
    - destruct Hd0 as [-> | ->]; cbn; by rewrite Eg.
    - by destruct Hd0 as [-> | ->].
    - unfold batch_of in *. cbn [g_dev g_set_dev]. by rewrite cancel_batch.
    - rewrite Ec. by destruct c.
    - intros e d' [-> Hg']. by rewrite Ec. }
  cbn [Daemon.happens Daemon.happen]. apply wp_bind, wp_bind, wp_gets, wp_bind, wp_modify, wp_on_daemon, wp_modify. cbn [rn_daemon rn_cancel].
  unfold leave_orders in Hhs. rewrite !elem_of_cons in Hhs. destruct Hhs as [->|[->|[->|Hhs]]]; [..|by apply elem_of_nil in Hhs];
    cbn [Daemon.happens Daemon.happen].
  - apply wp_bind, wp_bind, wp_gets, wp_bind, wp_gets, wp_bind, wp_on_daemon, wp_modify, wp_modify.
    apply wp_bind, wp_bind, wp_gets, wp_bind, wp_on_daemon. eapply wp_mono; [apply HT'; by right|]. intros e d' (-> & g' & ->).
    apply wp_modify, wp_bind, wp_bind, wp_gets, wp_bind, wp_gets, wp_bind, wp_modify, wp_modify, wp_skip. split; [done|by exists g'].
  - apply wp_bind, wp_bind, wp_gets, wp_bind, wp_on_daemon. eapply wp_mono; [apply HT'; by left|]. intros e d' (-> & g' & ->).
    apply wp_modify, wp_bind, wp_bind, wp_gets, wp_bind, wp_gets, wp_bind, wp_on_daemon, wp_modify, wp_modify.
    apply wp_bind, wp_bind, wp_gets, wp_bind, wp_gets, wp_bind, wp_modify, wp_modify, wp_skip. split; [done|by exists g'].
  - apply wp_bind, wp_bind, wp_gets, wp_bind, wp_on_daemon. eapply wp_mono; [apply HT'; by left|]. intros e d' (-> & g' & ->).
    apply wp_modify, wp_bind, wp_bind, wp_gets, wp_bind, wp_gets, wp_bind, wp_modify, wp_bind, wp_on_daemon, wp_modify, wp_modify, wp_skip.
    split; [done|by exists g'].
Qed.

(** C25: a daemon that is cancelled returns without an error once its engine has found the
    device closed, in whatever order the two notice, with its pool saved; started again
    with the same state file and a pool over the same prefix, it has every host back:
    with the addresses it had, mapped when it was used within the minimum lease, and
    dormant otherwise. *)
Theorem restart_keeps_hosts {ATL : AddrTextLaws} (clock' wall' : nat -> Z) k b b' hs s g v c dev i dp p H r' pools' j dp' q (k' : K) :
  rn_pc s = Selecting -> rn_engine s = Working -> rn_done s = false ->
  let d := rn_daemon s in
  d_eng d = Some g -> d_live d !! k = Some v ->
  dev_Read (batch_of g) (cancel (g_dev g)) = (inr c, dev) -> ctx_done dev = true -> hs ∈ leave_orders k b ->
  rv_Pool (d_cur d) = Some i -> uc_DynamicPool (rv_Config (d_cur d)) = Some dp -> dp_StateFile dp <> ""%string ->
  d_pools d !! i = Some p -> repr p H ->
  file_save (dp_StateFile dp) (d_files d) = mkSaveIO true true true true ->
  rv_Pool r' = Some j -> uc_DynamicPool (rv_Config r') = Some dp' -> dp_StateFile dp' = dp_StateFile dp ->
  pools' !! j = Some q -> repr q ∅ -> p_prefix q = p_prefix p ->
  (forall off h, H !! off = Some h ->
     Is6 (d_v6 h) = true /\ addr_ok (d_v6 h) /\ hasZone (d_v6 h) = false /\ ValidIPv6 (As16 (d_v6 h)) = true /\
     0 < d_lastUse h <= clock' (p_tick q) /\ p_reserved q (d_v4 h) = false) ->
  clock' (p_tick q) < 2 ^ 63 ->
  wp (happens (HDone :: hs ++ [HRun b'])) (fun _ s' => rn_pc s' = Returned None /\ d_ready (rn_daemon s') = false /\
    owp (NewDaemon clock' wall' r' pools' k' (d_files (rn_daemon s'))) (fun d2 : D =>
      exists q', current_pool d2 = Some q' /\
        repr q' (revived (clock' (p_tick q)) (Z.quot (p_minLease q) Second) <$> H))) s.
Proof.
  intros Epc Ee Edn d Eg Ev Er Ec Hhs Ep Edp Hsf Hi R Hio Ep' Edp' Esf Hj Rq Epre Hh Hnow.
  change (HDone :: hs ++ [HRun b']) with ((HDone :: hs) ++ [HRun b']). apply wp_happens_app.
  eapply wp_mono; [by apply (cancelled_leaves k b hs s g v c dev)|]. fold d. intros ? s1 (Epc1 & g' & Ed1).
  cbn [Daemon.happens Daemon.happen]. unfold Daemon.Run. apply wp_bind, wp_bind, wp_gets. rewrite Epc1.
  apply wp_bind, wp_on_daemon, wp_gets, wp_bind, wp_on_daemon. cbn [rn_daemon rn_set_daemon]. rewrite Ed1.
  eapply wp_mono; [by apply (savePoolState_spec clock range time_String range_perm _ true i dp p H)|].
  intros _ d2 (p' & f & R' & Fr & -> & ->). apply wp_modify, wp_skip. cbn [rn_daemon rn_pc rn_set_pc rn_set_daemon].
  split; [done|]. split; [done|].
  cbn [d_files d_set_files d_set_eng d_set_ready negb andb orb]. rewrite bool_decide_false by done. unfold saved. rewrite Hio. cbn [andb orb negb io_open io_write io_close io_rename].
  unfold NewDaemon. cbv zeta. rewrite Ep'. unfold loadPoolState. rewrite Edp', Esf, bool_decide_false by done.
  set (d0 := mkDaemon _ _ _ _ _ _ _ _ _ _ _ _ _ _ _).
  assert (HL : wp (io ← gets (fun d => file_load (dp_StateFile dp) (d_files d)); on_pool_ref (rv_Pool r') (Load clock' io);; skip)
    (fun _ d2 => exists q', d2 = d_set_pools (<[j := q']> pools') d0 /\
        repr q' (revived (clock' (p_tick q)) (Z.quot (p_minLease q) Second) <$> H)) d0).
  { apply wp_bind, wp_gets, wp_bind. rewrite Ep'. apply (wp_on_pool_ref j q); [done|]. change (d_files d0) with (file_replace (dp_StateFile dp) (file_of time_String (clock (p_tick p)) H) (d_files d)). rewrite file_replaced.
    eapply wp_mono; [by apply (load_saved time_String clock' p q H)|]. intros r q' (_ & Rq' & _). apply wp_skip. by exists q'. }
  apply wp_run in HL as (u & d2 & -> & q' & -> & Rq'). cbn [mbind outcome_bind time_Now]. apply owp_ok.
  exists q'. split; [|done]. unfold current_pool. cbn. rewrite Ep'. cbn. apply list_lookup_insert_eq. by eapply lookup_lt_Some.
Qed.
End daemon.
