(* ===== verification/CliProps.v ===== *)
(** * What the command guarantees

    From the command line to the end of the daemon; and the text of the probe. *)

From stdpp Require Import base tactics list numbers option strings gmap sorting.
From Stdlib Require Import ZArith Lia Ascii String.
From S2P Require Import Prelude Netip Netutil Text Strings Events Packet Layout Translator TranslatorFacts Pool PoolFacts PoolOps PoolSave PoolRun PoolProps Table Join TableFacts TableMap Engine EngineFacts Netconf NetconfFacts NetconfProps Configuration Env Resolve ResolveFacts EnvProps ResolveProps Daemon Cli DaemonFacts DaemonApply DaemonRun DaemonProps.

Open Scope Z_scope.

Section main.
Context {K F DS : Type} {HK : Kernel K} {HF : Files F} {HFL : @FilesLaws F HF}.
Context {HD : Device DS} {HDL : @DeviceLaws DS HD} {HT : @Tun DS HD} {HTL : @TunLaws DS HD HDL HT}.
Context {AT : AddrText} {PT : PrefixText} {PL : ParseLaws}.
Context (clock : nat -> Z) (range : nat -> gmap Addr nat -> list (Addr * nat)) (time_String : Z -> string).
Context (range_perm : forall k m, range k m ≡ₚ map_to_list m).
Context (wall : nat -> Z) (rand32 : nat -> Z).
Context (order4 order6 : Table -> list Entry) (sort : (Entry -> Entry -> bool) -> list Entry -> list Entry).
Context (order4_perm : forall t, order4 t ≡ₚ (map_to_list (t_hosts4 t)).*2).
Context (order6_perm : forall t, order6 t ≡ₚ (map_to_list (t_hosts6 t)).*2).
Context (sort_perm : forall less l, sort less l ≡ₚ l).
Context (SourceAddr : Addr -> option Addr).
Hypothesis SourceAddr_ok : forall dst a, SourceAddr dst = Some a -> addr_ok a /\ IsValid a = true.
(** The decoder gives what the types of the fields parse, over what was there. *)
Context (Decode : string -> UserConfig -> UserConfig * option YAMLErr) (Marshal : UserConfig -> option string).
Hypothesis Decode_ok : forall data c, config_ok c -> config_ok (Decode data c).1.
Context (lookup : string -> option string) (configFile : string -> nat -> FileData).
Context (profile : bool) (http_Get : string -> option Z).

Local Abbreviation D := (Daemon K F DS).
Local Abbreviation entries := (entries_of order4 order6 sort).
Local Abbreviation load := (load Decode lookup configFile).
Local Abbreviation launch := (launch clock range time_String wall rand32 entries SourceAddr Decode lookup configFile).
Local Abbreviation run := (run clock range time_String wall rand32 entries SourceAddr Decode Marshal lookup configFile profile http_Get).

(** ** Configurations from outside *)

Lemma Config_zero_ok : config_ok Config_zero.
Proof. constructor; cbn; try done. split_and!; [done|done|by left]. Qed.

Lemma LoadFile_keeps path n : config_ok (LoadFile Decode configFile path n).1.
Proof.
  unfold LoadFile. destruct (configFile path n) as [| |data]; [apply Config_zero_ok|apply Config_zero_ok|].
  pose proof (LoadYAML_keeps Decode config_ok data Config_zero Decode_ok Config_zero_ok) as H.
  by destruct (LoadYAML Decode Config_zero data).
Qed.

Lemma load_ok path n cfg : load path n = Some cfg -> config_ok cfg.
Proof.
  unfold Cli.load. cbv zeta. pose proof (LoadFile_keeps path n) as H. destruct (LoadFile _ _ path n) as [c e]. cbn [fst] in H.
  case_match; [done|]. pose proof (LoadEnv_keeps Decode lookup c Decode_ok H) as H1.
  destruct (LoadEnv Decode lookup c) as [c1 [|]]; [|done]. by intros [= <-].
Qed.

Lemma parse_YAML_ok data cfg : parse_YAML Decode data = Some cfg -> config_ok cfg.
Proof.
  unfold parse_YAML. pose proof (LoadYAML_keeps Decode config_ok data Config_zero Decode_ok Config_zero_ok) as H.
  destruct (LoadYAML Decode Config_zero data) as [c [|]]; [done|]. by intros [= <-].
Qed.

(** What the file is worth: a file that does not exist counts as empty, unless the flag
    named another than the default one. *)
Definition file_part (path : string) (n : nat) : option UserConfig :=
  match configFile path n with
  | NotExist => if decide (path = defaultPath lookup) then Some Config_zero else None
  | Unreadable => None
  | Data data => match LoadYAML Decode Config_zero data with (c, None) => Some c | _ => None end
  end.

(** C33: the configuration the program starts with, and that a reload reads, is the file's
    document over the defaults, the inline document over that, and the variables over
    both.  A file that does not exist counts as empty when its name is the default one,
    which the environment can set, and is an error when the command line names another;
    a file that cannot be read or parsed, an inline document that cannot be parsed and a
    variable that is no value are errors, and nothing else is. *)
Theorem load_precedence path n :
  match file_part path n with
  | None => load path n = None
  | Some file =>
      match config_yaml Decode lookup file with
      | (inline, true) =>
          if decide (env_errors lookup = []) then exists cfg, load path n = Some cfg /\ from_env lookup inline cfg
          else load path n = None
      | (_, false) => load path n = None
      end
  end.
Proof.
  assert (HE : forall c, let r := match LoadEnv Decode lookup c with (cfg, []) => Some cfg | _ => None end in
    match config_yaml Decode lookup c with
    | (inline, true) => if decide (env_errors lookup = []) then exists cfg, r = Some cfg /\ from_env lookup inline cfg else r = None
    | (_, false) => r = None
    end).
  { intros c. cbv zeta. pose proof (LoadEnv_cases Decode lookup c) as HC. destruct (config_yaml Decode lookup c) as [c0 []].
    - destruct HC as [H1 H2]. destruct (LoadEnv Decode lookup c) as [c1 es]. cbn in H1, H2. rewrite <- H2. destruct es; [|done]. rewrite decide_True by done. eauto.
    - by rewrite HC. }
  unfold file_part, Cli.load, LoadFile. cbv zeta. destruct (configFile path n) as [| |data].
  - destruct (decide (path = defaultPath lookup)) as [E|E].
    + rewrite bool_decide_true by done. apply HE.
    + by rewrite bool_decide_false by done.
  - by rewrite orb_true_r.
  - destruct (LoadYAML Decode Config_zero data) as [c [e|]]; [by rewrite orb_true_r|]. apply HE.
Qed.

(** A file that the environment names and that does not exist is passed over without an
    error. *)
Theorem named_file_ignored path flags n :
  lookup "CLATTO_CONFIG" = Some path -> path <> ""%string -> fl_config flags = None -> configFile path n = NotExist ->
  load (configPath lookup flags) n = match LoadEnv Decode lookup Config_zero with (cfg, []) => Some cfg | _ => None end.
Proof.
  intros El Hp Ef Ec. assert (Ed : defaultPath lookup = path).
  { unfold defaultPath, Getenv. cbn [EnvPrefix String.app]. cbv zeta. change (EnvPrefix +:+ "CONFIG") with "CLATTO_CONFIG"%string.
    rewrite El. cbn. by rewrite bool_decide_false. }
  unfold configPath. rewrite Ef. cbn [default]. unfold Cli.load, LoadFile. cbv zeta. rewrite Ed, Ec, bool_decide_true by done. done.
Qed.

(** ** The program *)

Lemma launch_keeps path r pools hs (k : K) (f : F) :
  pools_ok pools -> resolved_ok r (i ← rv_Pool r; pools !! i) -> pool_there r pools -> Forall happening_ok hs ->
  owp (launch path r pools hs k f) run_ok.
Proof.
  intros P Rok PT' Hhs. unfold Cli.launch. apply owp_bind. eapply owp_mono; [by apply NewDaemon_ok|]. intros d (O & Es & Er & _).
  assert (H : wp (happens clock range time_String wall rand32 entries SourceAddr (Some (load path)) (parse_YAML Decode) hs)
    (fun _ s => run_ok s) (mkRunning d Begin Working false)).
  { apply (happens_keeps clock range time_String range_perm wall rand32 order4 order6 sort order4_perm order6_perm sort_perm); try done; try apply parse_YAML_ok; try by apply new_run_ok.
    by intros ? n cfg [= <-] ?%load_ok. }
  apply wp_run in H as (u & s & -> & RO). by apply owp_ok.
Qed.

(** C2: the whole program, for any command line, environment, configuration file and
    decoder that gives values of the fields' types, any kernel, and lawful files and
    device, and whatever happens after its start (steps of [Run], packets translated with
    the current or an earlier translator, configurations applied and reloaded before
    [Run], while it runs and after it ended, cancellation, in any order): nothing panics;
    it ends with an exit code of 0, 1 or 2, or its daemon keeps its invariant, that the
    running configuration, the engine's translator, the table, the pool, the options
    applied to the kernel and the reported generation belong together, and that it is
    ready exactly while [Run] is in its loop. *)
Theorem program_safe flags hs (k : K) (f : F) :
  Forall happening_ok hs ->
  owp (run flags hs k f) (fun r => match r with inl code => 0 <= code <= 2 | inr s => run_ok s end).
Proof.
  intros Hhs. unfold Cli.run. destruct (fl_showVersion flags); [by apply owp_ok|].
  cbv zeta.
  destruct (load (configPath lookup flags) 0) as [cfg|] eqn:El; [|by apply owp_ok]. apply load_ok in El.
  set (ro := mkResolveOptions None (Some SourceAddr)).
  pose proof (ResolveWith_ok order4 order6 sort order4_perm order6_perm sort_perm cfg ro [] El SourceAddr_ok
    (Forall_nil_2 _) I) as HR.
  apply wp_run in HR as (r & ps & -> & P & _ & HR). cbn [mbind outcome_bind].
  destruct r as [r|errs]; [|by apply owp_ok]. destruct HR as (Rok & Edp & Hch).
  assert (PT' : pool_there r ps).
  { unfold pool_there. rewrite Edp. unfold chosen in Hch. destruct (uc_DynamicPool cfg), (rv_Pool r); try done. by destruct Hch. }
  destruct (negb _).
  { case_bool_decide; apply owp_ok; [done|]. unfold runProbe. destruct (http_Get _); [case_match|]; lia. }
  destruct (fl_check flags); [by apply owp_ok|]. destruct (fl_printConfig flags); [by apply owp_ok; destruct (Marshal _)|].
  destruct (negb profile); [by apply owp_ok|]. apply owp_bind. eapply owp_mono; [by apply launch_keeps|].
  intros s RO. by apply owp_ok.
Qed.
End main.

(** ** Host and port *)

Lemma list_ascii_app s t : list_ascii_of_string (s +:+ t) = list_ascii_of_string s ++ list_ascii_of_string t.
Proof. induction s as [|c s IH]; [done|]. exact (f_equal (cons c) IH). Qed.

Lemma cut_last_none c l : c ∉ l -> cut_last c l = None.
Proof.
  induction l as [|x l IH]; [done|]. intros [Hx Hl]%not_elem_of_cons. cbn. rewrite IH by done. rewrite bool_decide_false; [done|congruence].
Qed.

Lemma cut_last_app c a b : c ∉ b -> cut_last c (a ++ c :: b) = Some (a, b).
Proof.
  intros Hb. induction a as [|x a IH]; cbn.
  - rewrite cut_last_none by done. by rewrite bool_decide_true.
  - by rewrite IH.
Qed.

Lemma cut_first_app c a b : c ∉ a -> cut_first c (a ++ c :: b) = Some (a, b).
Proof.
  induction a as [|x a IH]; cbn; [by rewrite bool_decide_true|]. intros [Hx Ha]%not_elem_of_cons.
  rewrite bool_decide_false by congruence. by rewrite IH.
Qed.

Lemma ContainsByte_elem s c : ContainsByte s c = true <-> c ∈ list_ascii_of_string s.
Proof.
  unfold ContainsByte. induction s as [|x s IH]; cbn; [split; [done|by intros ?%elem_of_nil]|].
  rewrite elem_of_cons, <- IH. case_bool_decide as E; cbn; [by split; auto|].
  destruct (Cut s c) as [[a b] f]. cbn. split; [by right|]. by intros [?|?].
Qed.

Lemma not_bracketed (A : Type) l (f : list ascii -> A) (y : A) :
  no_brackets l = true -> match l with "["%char :: rest => f rest | _ => y end = y.
Proof.
  destruct l as [|c l]; [done|]. unfold no_brackets. cbn [forallb]. intros [Hc _]%andb_true_iff. apply negb_true_iff, bool_decide_eq_false in Hc.
  assert (Hne : c <> "["%char) by (intros ->; apply Hc; by left).
  by destruct c as [[] [] [] [] [] [] [] []].
Qed.

(** A host without brackets and a port without a colon. *)
Definition plain_host (host port : string) : Prop :=
  no_brackets (list_ascii_of_string host) = true /\ no_brackets (list_ascii_of_string port) = true /\
  ContainsByte port ":" = false.

Lemma SplitHostPort_Join host port : plain_host host port -> SplitHostPort (JoinHostPort host port) = Some (host, port).
Proof.
  intros (Hh & Hp & Hc). assert (Hcp : ":"%char ∉ list_ascii_of_string port) by (rewrite <- ContainsByte_elem; congruence).
  unfold SplitHostPort, JoinHostPort. destruct (ContainsByte host ":") eqn:Eh.
  - rewrite !list_ascii_app. change (list_ascii_of_string "[") with ["["%char]. change (list_ascii_of_string "]:") with ["]"%char; ":"%char].
    set (h := list_ascii_of_string host) in *. set (p := list_ascii_of_string port) in *.
    replace (["["%char] ++ h ++ ["]"%char; ":"%char] ++ p) with (("["%char :: h ++ ["]"%char]) ++ ":"%char :: p)
      by (cbn; by rewrite <- app_assoc).
    rewrite cut_last_app by done. cbn [mbind option_bind app]. rewrite <- app_assoc. cbn [app].
    assert (Hb : forall c, c ∈ ["["%char; "]"%char] -> c ∉ h).
    { intros c Hc' Hin. unfold no_brackets in Hh. rewrite forallb_forall in Hh. specialize (Hh c (proj1 (list_elem_of_In _ _) Hin)).
      apply negb_true_iff, bool_decide_eq_false in Hh. by apply Hh. }
    rewrite cut_first_app by (apply Hb; right; by left). cbn [mbind option_bind].
    rewrite bool_decide_true by done. cbn [negb]. rewrite bool_decide_true by (apply Hb; by left). rewrite Hp. cbn [negb orb].
    unfold h, p. by rewrite !string_of_list_ascii_of_string.
  - rewrite !list_ascii_app. change (list_ascii_of_string ":") with [":"%char]. cbn [app].
    rewrite cut_last_app by done. cbn [mbind option_bind].
    assert (Hch : ":"%char ∉ list_ascii_of_string host) by (rewrite <- ContainsByte_elem; congruence).
    set (h := list_ascii_of_string host) in *. set (p := list_ascii_of_string port) in *.
    rewrite not_bracketed.
    2: { unfold no_brackets in *. rewrite forallb_app, Hh. cbn. exact Hp. }
    rewrite bool_decide_false by done. rewrite Hh, Hp. cbn [negb orb]. unfold h, p. by rewrite !string_of_list_ascii_of_string.
Qed.

(** The probe of an instance that listens on a host and a port asks that host at that
    port, or the loopback address when the instance listens on every address; the path
    gets its slash. *)
Theorem probeURL_reaches host port path :
  plain_host host port ->
  probeURL (JoinHostPort host port) path =
    ("http://" +:+ JoinHostPort (if bool_decide (host ∈ [""; "0.0.0.0"; "::"]%string) then "127.0.0.1" else host) port +:+
     (if HasPrefix path "/" then path else "/" +:+ path))%string.
Proof. intros H. unfold probeURL. by rewrite SplitHostPort_Join. Qed.

Lemma probeURL_reaches_witness :
  plain_host "::" "6464" /\ probeURL (JoinHostPort "::" "6464") "readyz" = "http://127.0.0.1:6464/readyz"%string.
Proof.
  assert (H : plain_host "::" "6464") by (split_and!; vm_compute; reflexivity).
  split; [exact H|]. rewrite (probeURL_reaches "::" "6464" "readyz" H). reflexivity.
Defined.
