(* ===== verification/DaemonRuns.v ===== *)
(** * A daemon, run

    Witnesses of [DaemonProps] and [CliProps], on the configuration of [ResolveRuns]; and three runs
    that show what the daemon does not do: repair the kernel after a failed update, save
    the pool of a configuration that is replaced by one without a pool, and end when its
    device is closed. *)

From stdpp Require Import base tactics list numbers option strings gmap sorting.
From Stdlib Require Import ZArith Lia.
From S2P Require Import Prelude Netip Netutil Text Strings Events Packet Layout Translator TranslatorFacts Fixtures Pool PoolFacts PoolOps PoolSave PoolRun PoolProps Table Join TableFacts TableMap Engine EngineFacts EngineProps Netconf NetconfFacts NetconfProps Configuration Env Resolve ResolveFacts EnvProps ResolveProps ResolveRuns Daemon Cli DaemonFacts DaemonApply DaemonRun Service DaemonProps CliProps.

Open Scope Z_scope.

(** ** What surrounds it *)

(** The device of [EngineProps], which reads as closed once the context is done. *)
Record dx_device := DxDevice { dx_dev : fx_device; dx_done : bool }.

#[export] Instance dx_dev_ops : Device dx_device := {
  BatchSize _ := 2;
  dev_Read batch d :=
    if dx_done d then (inr true, d)
    else let '(r, d') := dev_Read batch (dx_dev d) in (r, DxDevice d' false);
  dev_Write ps d := let '(r, d') := dev_Write ps (dx_dev d) in (r, DxDevice d' (dx_done d));
  dev_Close d := DxDevice (dev_Close (dx_dev d)) (dx_done d);
  ctx_done d := dx_done d;
}.

#[export] Instance dx_dev_laws : DeviceLaws dx_device.
Proof.
  refine {| dev_inv d := dev_inv (dx_dev d) |}.
  - intros batch [d []] Hb Hd; cbn [dx_dev dx_done dev_Read dx_dev_ops]; [done|].
    pose proof (dev_Read_ok batch d Hb Hd) as [H1 H2]. by destruct (dev_Read batch d).
  - intros ps [d b] Hps Hd. cbn [dx_dev dx_done dev_Write dx_dev_ops]. pose proof (dev_Write_ok ps d Hps Hd) as H.
    by destruct (dev_Write ps d).
  - intros [d b] Hd. by apply (dev_Close_ok d).
Defined.

#[export] Instance dx_tun : Tun dx_device := {
  NewDevice _ _ := Some (DxDevice ex_dev false);
  dev_Name _ := "clat0"%string;
  cancel d := DxDevice (dx_dev d) true;
}.

#[export] Instance dx_tun_laws : TunLaws dx_device.
Proof. constructor; [intros name mtu dev [= <-]; exact ex_dev_ok|done|done]. Qed.

(** Files that can always be written. *)
Local Abbreviation dx_files := (gmap string (list string)).

#[export] Instance dx_files_ops : Files dx_files := {
  file_load path f := match f !! path with Some ls => Opened ls true | None => Missing end;
  file_save _ _ := mkSaveIO true true true true;
  file_replace path ls f := <[path := ls]> f;
}.

#[export] Instance dx_files_laws : FilesLaws dx_files.
Proof.
  constructor. intros path ls f. unfold file_load, file_replace, dx_files_ops. by rewrite lookup_insert_eq.
Qed.

(** A kernel that can be told to refuse the next address. *)
Record dx_kernel := DxKernel { dx_view : kview; dx_refuse : bool }.

Definition dx_call {A} (f : kview -> A * kview) (k : dx_kernel) : A * dx_kernel :=
  let '(r, v) := f (dx_view k) in (r, DxKernel v (dx_refuse k)).

#[export] Instance dx_kernel_ops : Kernel dx_kernel := {
  LinkByName n := dx_call (LinkByName n);
  LinkSetUp l := dx_call (LinkSetUp l);
  AddrAdd l a k := if dx_refuse k then (EOTHER, DxKernel (dx_view k) false) else dx_call (AddrAdd l a) k;
  AddrDel l a := dx_call (AddrDel l a);
  RouteReplace r := dx_call (RouteReplace r);
  RouteDel r := dx_call (RouteDel r);
  RuleAdd r := dx_call (RuleAdd r);
  RuleDel r := dx_call (RuleDel r);
  RuleList := dx_call RuleList;
  ReadSysctl n := dx_call (ReadSysctl n);
  WriteSysctl n c := dx_call (WriteSysctl n c);
}.

(** ** Configurations *)

(** The text of [PoolProps], for addresses that are in range. *)
Definition dx_in_range (a : Addr) : bool :=
  match a with AddrZero => true | Addr4 v => (0 <=? v) && (v <? 2 ^ 32) | Addr6 v _ => (0 <=? v) && (v <? 2 ^ 128) end.

Lemma dx_in_range_ok a : dx_in_range a = true <-> addr_ok a.
Proof. destruct a; cbn [dx_in_range addr_ok]; [done|rewrite andb_true_iff; lia|rewrite andb_true_iff; lia]. Qed.

Definition dx_text : AddrText := {|
  addr_String := @addr_String px_text;
  ParseAddr s := a ← @ParseAddr px_text s; if dx_in_range a then Some a else None;
|}.

Lemma dx_text_laws : @AddrTextLaws dx_text.
Proof.
  constructor; cbn [addr_String ParseAddr dx_text].
  - intros a Ha. rewrite (ParseAddr_String a Ha). cbn [mbind option_bind]. by rewrite (proj2 (dx_in_range_ok a)) by apply Ha.
  - apply addr_String_plain.
  - apply addr_String_head.
Qed.

Lemma dx_laws : @ParseLaws dx_text rx_prefix_text.
Proof.
  constructor; [exact (@ParsePrefix_ok _ _ rx_laws)|]. intros s a. cbn [ParseAddr dx_text].
  destruct (@ParseAddr px_text s) as [b|] eqn:E; [|done]. cbn [mbind option_bind].
  destruct (dx_in_range b) eqn:Er; [|done]. intros [= <-]. split; [by apply dx_in_range_ok|]. revert E. unfold ParseAddr, px_text.
  destruct s as [|c s]; [done|]. repeat match goal with |- context [match ?x with _ => _ end] => destruct x; try done end;
    by intros (v & _ & ->)%fmap_Some.
Qed.

Definition dx_route : Route := mkRoute (mkPrefix (Addr4 (be [10; 0; 0; 1])) 8) 100 0 0.
Definition dx_address : Prefix := mkPrefix (Addr4 (be [198; 51; 100; 9])) 32.
Definition dx_state : string := "/var/lib/clatto/dynamic.map".
Definition dx_dynamic : DynamicPool := mkDynamicPool px_prefix dx_state (600 * Second) 0.

Definition dx_config (addrs : list Prefix) (routes : list Route) (pool : option DynamicPool) : UserConfig :=
  mkUserConfig (mkInterface "" 0 None addrs routes None None)
    (Addr4 (be [192; 0; 0; 2])) AddrZero (mkPrefix (Addr6 (rx_net6 1) "") 96) None
    [mkStaticMap "192.0.2.16/28" "2001:db8:5::/124"] pool None "" 0 (mkLog "" "" []) (mkHTTP "off" false).

(** With a route and a pool; with an address instead of the route; without a pool. *)
Definition dx_first : UserConfig := dx_config [] [dx_route] (Some dx_dynamic).
Definition dx_second : UserConfig := dx_config [dx_address] [] (Some dx_dynamic).
Definition dx_third : UserConfig := dx_config [] [dx_route] None.

Lemma dx_config_ok c : c = dx_first \/ c = dx_second \/ c = dx_third -> config_ok c.
Proof.
  intros [->|[->| ->]]; constructor; try exact I;
    try (repeat first [apply Forall_nil_2|apply Forall_cons_2]); by_value.
Qed.

(** ** Daemons *)

Local Abbreviation dx_entries := (entries_of rx_order4 rx_order6 rx_sort).
Local Abbreviation dx_D := (Daemon dx_kernel dx_files dx_device).

Definition dx_wall (n : nat) : Z := Z.of_nat n.
Definition dx_source (a : Addr) : option Addr := None.
Definition dx_yaml (data : string) : option UserConfig := None.
Definition dx_kernel0 : dx_kernel := DxKernel fx_kview0 false.

Lemma dx_source_ok dst a : dx_source dst = Some a -> addr_ok a /\ IsValid a = true.
Proof. done. Qed.

Definition dx_apply (cfg : UserConfig) (source : string) : M dx_D (option DaemonErr) :=
  Apply (AT := dx_text) (PT := rx_prefix_text) px_clock px_range px_time dx_wall dx_entries dx_source cfg source.
Definition dx_happens (hs : list happening) : M (Running dx_kernel dx_files dx_device) unit :=
  happens (AT := dx_text) (PT := rx_prefix_text) px_clock px_range px_time dx_wall (fun _ => 5) dx_entries dx_source None dx_yaml hs.

(** What the first configuration resolves to, over a pool that has hosts or over none. *)
Definition dx_resolve (existing : option nat) (pools : list Pool) : outcome ((Resolved + list CfgErr) * list Pool) :=
  ResolveWith (AT := dx_text) (PT := rx_prefix_text) dx_entries dx_first (mkResolveOptions existing (Some dx_source)) pools.

(** A daemon whose pool has three hosts, with [Run] in its loop. *)
Definition dx_running : outcome (Running dx_kernel dx_files dx_device) :=
  '(r, ps) ← dx_resolve (Some 0%nat) [px_full];
  match r with
  | inr _ => Panic
  | inl r =>
      d ← NewDaemon (AT := dx_text) px_clock dx_wall r ps dx_kernel0 ∅;
      '(_, s) ← dx_happens [HRun BTick; HRun BTick] (mkRunning d Begin Working false);
      Ok s
  end.

Definition dx_full : outcome dx_D := s ← dx_running; Ok (rn_daemon s).

Lemma dx_resolve_ok existing pools :
  match dx_resolve existing pools with Ok (inl _, _) => true | _ => false end = true ->
  pools_ok pools -> existing_ok (mkResolveOptions existing (Some dx_source)) pools ->
  exists r ps, dx_resolve existing pools = Ok (inl r, ps) /\ pools_ok ps /\ resolved_ok r (i ← rv_Pool r; ps !! i) /\
    pool_there r ps /\ uc_DynamicPool (rv_Config r) = Some dx_dynamic.
Proof.
  intros E P Hex.
  pose proof (@ResolveWith_ok rx_order4 rx_order6 rx_sort (fun t => Permutation_refl _) (fun t => Permutation_refl _)
    (fun less l => Permutation_refl _) dx_text rx_prefix_text dx_laws dx_first (mkResolveOptions existing (Some dx_source)) pools
    (dx_config_ok dx_first (or_introl eq_refl)) dx_source_ok P Hex) as H.
  unfold wp in H. fold (dx_resolve existing pools) in H. destruct (dx_resolve existing pools) as [[[r|errs] ps]| |]; try done.
  destruct H as (P' & _ & Rok & Edp & Hch). exists r, ps. split_and!; [done|done|done| |exact Edp].
  unfold pool_there. rewrite Edp. unfold chosen in Hch. destruct (uc_DynamicPool dx_first), (rv_Pool r); try done. by destruct Hch.
Qed.

(** Steps that nobody asked for keep the configuration. *)
Lemma sv_trace_config calls s s' : sv_trace calls s s' -> Forall (fun c => c = None) calls -> sv_config s' = sv_config s.
Proof.
  intros H. induction H as [s|call calls s1 s2 s3 Hs H IH]; [done|]. intros [-> Hc]%Forall_cons. rewrite IH by done. by inversion Hs.
Qed.

Lemma dx_running_ok : owp dx_running (fun s => run_ok s /\ rn_pc s = Selecting /\ rn_engine s = Working /\ rn_done s = false /\
  uc_DynamicPool (rv_Config (d_cur (rn_daemon s))) = Some dx_dynamic).
Proof.
  assert (E : match dx_running with
    | Ok s => match rn_pc s, rn_engine s with Selecting, Working => negb (rn_done s) | _, _ => false end
    | _ => false end = true) by (vm_compute; reflexivity).
  revert E. unfold dx_running. destruct (dx_resolve_ok (Some 0%nat) [px_full]) as (r & ps & -> & P & Rok & PT & Edp).
  - vm_compute. reflexivity.
  - constructor; [|constructor]. exists (view px_full). exact px_full_repr.
  - unfold existing_ok. cbn. lia.
  - cbn [mbind outcome_bind]. intros E.
    pose proof (NewDaemon_ok (HDL := dx_dev_laws) (AT := dx_text) px_clock px_time dx_wall r ps dx_kernel0 ∅ P Rok PT) as HN.
    apply owp_run in HN as (d & Ed & O & Es & Er & Ec & _). rewrite Ed in E |- *. cbn [mbind outcome_bind] in *.
    pose proof (happens_trace (PL := dx_laws) px_clock px_range px_time px_range_perm dx_wall (fun _ => 5)
      rx_order4 rx_order6 rx_sort (fun t => Permutation_refl _) (fun t => Permutation_refl _) (fun less l => Permutation_refl _)
      dx_source None dx_yaml dx_source_ok ltac:(discriminate) ltac:(discriminate) [HRun BTick; HRun BTick] _ (new_run_ok d O Es Er)
      ltac:(repeat constructor)) as HT.
    pose proof (happens_keeps (PL := dx_laws) px_clock px_range px_time px_range_perm dx_wall (fun _ => 5)
      rx_order4 rx_order6 rx_sort (fun t => Permutation_refl _) (fun t => Permutation_refl _) (fun less l => Permutation_refl _)
      dx_source None dx_yaml dx_source_ok ltac:(discriminate) ltac:(discriminate) [HRun BTick; HRun BTick] _ (new_run_ok d O Es Er)
      ltac:(repeat constructor)) as HK.
    unfold dx_happens in *. apply wp_run in HT as (u & s & Ehs & HT). apply wp_run in HK as (u' & s' & Ehs' & HK).
    rewrite Ehs in Ehs'. injection Ehs' as <- <-. rewrite Ehs in E |- *. cbn [mbind outcome_bind] in *. apply owp_ok.
    destruct (rn_pc s), (rn_engine s); try discriminate E. apply negb_true_iff in E. split_and!; try done.
    assert (Ecur : d_cur (rn_daemon s) = d_cur d) by (apply (sv_trace_config _ _ _ HT); repeat constructor). by rewrite Ecur, Ec.
Qed.

Lemma dx_full_ok : owp dx_full (fun d => daemon_ok d /\ uc_DynamicPool (rv_Config (d_cur d)) = Some dx_dynamic).
Proof.
  unfold dx_full. apply owp_bind. eapply owp_mono; [exact dx_running_ok|]. intros s (RO & _ & _ & _ & E). apply owp_ok.
  split; [apply RO|done].
Qed.

(** ** Witnesses *)

(** A decoder of three documents, and an environment with one variable. *)
Definition dx_decode (data : string) (c : UserConfig) : UserConfig * option YAMLErr :=
  if bool_decide (data = "first"%string) then (dx_first, None)
  else if bool_decide (data = "second"%string) then (dx_second, None)
  else (c, Some (if bool_decide (data = ""%string) then YAMLEOF else YAMLOther)).
Definition dx_lookup (name : string) : option string :=
  if bool_decide (name = "CLATTO_OFFLINK_MTU"%string) then Some " 1400 "%string else None.

Lemma dx_decode_ok data c : config_ok c -> config_ok (dx_decode data c).1.
Proof.
  intros C. unfold dx_decode. case_bool_decide; [apply dx_config_ok; by left|].
  case_bool_decide; [apply dx_config_ok; right; by left|exact C].
Qed.

(** A file that goes from the first document to one that does not parse. *)
Definition dx_file (path : string) (n : nat) : FileData :=
  if bool_decide (path = "/run/clatto.yaml"%string) then if (n <? 4)%nat then Data "first" else Data "?" else NotExist.

Definition dx_flags : Flags := mkFlags (Some "/run/clatto.yaml"%string) false false false "".

(** A file that is missing is an error when the command line names it, and counts as
    empty when the environment does. *)
Example missing_files :
  load (AT := dx_text) (PT := rx_prefix_text) dx_decode dx_lookup dx_file (configPath dx_lookup (mkFlags (Some "/etc/c.yaml"%string) false false false "")) 0 = None /\
  let lookup name := if bool_decide (name = "CLATTO_CONFIG"%string) then Some "/etc/c.yaml"%string else dx_lookup name in
  load (AT := dx_text) (PT := rx_prefix_text) dx_decode lookup dx_file (configPath lookup (mkFlags None false false false "")) 0 =
    Some (set_OfflinkMTU 1400 Config_zero).
Proof. vm_compute. by split. Qed.

(** A reload before [Run] begins, a tick, other configurations while it runs, cancellation,
    and a call that comes too late. *)
Definition dx_happenings : list happening :=
  [HReload "sighup"; HRun BTick; HTurn 0; HRun BTick; HRun BTick; HApplyYAML "second" "api"; HRun BTick; HTurn 1; HRun BTick; HTurn 0;
   HReload "file"; HReload "file"; HDone; HRun BDone; HTurn 0; HRun BDone; HRun BDone; HApplyYAML "second" "late"].

Definition dx_run (hs : list happening) : outcome (Z + Running dx_kernel dx_files dx_device) :=
  run (AT := dx_text) (PT := rx_prefix_text) px_clock px_range px_time dx_wall (fun _ => 5) dx_entries dx_source
    dx_decode (fun _ => Some ""%string) dx_lookup dx_file true (fun _ => None) dx_flags hs dx_kernel0 ∅.

Lemma program_safe_witness :
  (match dx_run dx_happenings with
   | Ok (inr s) =>
       let d := rn_daemon s in
       bool_decide (exit_code false (inr s) = Some 0) && (st_Generation (d_status d) =? 5) &&
       bool_decide (d_reloads d = [("sighup", true); ("api", true); ("file", true); ("file", false); ("late", true)]%string) &&
       bool_decide (is_Some (d_files d !! dx_state)) && (len (d_live d) =? 4) && (OfflinkMTU (rv_Xlate (d_cur d)) =? 1280)
   | _ => false
   end = true) /\
  owp (dx_run dx_happenings) (fun r => match r with inl code => 0 <= code <= 2 | inr s => run_ok s end).
Proof.
  split; [vm_compute; reflexivity|]. unfold dx_run.
  apply (program_safe (PL := dx_laws) (HDL := dx_dev_laws) px_clock px_range px_time px_range_perm dx_wall (fun _ => 5)
    rx_order4 rx_order6 rx_sort (fun t => Permutation_refl _) (fun t => Permutation_refl _) (fun less l => Permutation_refl _)
    dx_source dx_source_ok dx_decode (fun _ => Some ""%string) dx_decode_ok dx_lookup dx_file true (fun _ => None)
    dx_flags dx_happenings dx_kernel0 ∅).
  unfold dx_happenings. repeat first [apply Forall_nil_2|apply Forall_cons_2]; exact I.
Defined.

Lemma Apply_outcomes_witness :
  owp dx_full (fun d => daemon_ok d /\
    wp (dx_apply dx_second "api")
      (applied_ok (AT := dx_text) (PT := rx_prefix_text) rx_order4 rx_order6 rx_sort dx_source dx_second "api" d) d).
Proof.
  eapply owp_mono; [exact dx_full_ok|]. intros d [O _]. split; [exact O|].
  apply (Apply_outcomes (PL := dx_laws) px_clock px_range px_time px_range_perm dx_wall
    rx_order4 rx_order6 rx_sort (fun t => Permutation_refl _) (fun t => Permutation_refl _) (fun less l => Permutation_refl _)
    dx_source dx_source_ok).
  - exact O.
  - apply dx_config_ok. right. by left.
Defined.


Definition dx_calls : list happening :=
  [HTurn 0; HApply dx_second "api"; HRun BTick; HReload "sighup"; HRun BTick; HApply dx_first "api"; HRun BTick; HDone;
   HTurn 0; HRun BEngine; HApply dx_third "api"; HRun BTick; HApply dx_first "late"].

Lemma dx_calls_ok : Forall happening_ok dx_calls.
Proof.
  unfold dx_calls. repeat first [apply Forall_nil_2|apply Forall_cons_2]; try exact I; apply dx_config_ok; auto.
Qed.

(** The service before and after some calls. *)
Definition dx_services (hs : list happening) : option (list (Z * string * bool * list (string * bool))) :=
  match dx_running with
  | Ok s =>
      match dx_happens hs s with
      | Ok (_, s') => Some ((fun s => (sv_generation s, sv_source s, sv_ready s, sv_attempts s)) <$> [service s; service s'])
      | _ => None
      end
  | _ => None
  end.

Lemma daemon_implements_service_witness :
  dx_services dx_calls = Some [(1, "startup", true, []);
    (5, "late", false, [("api", true); ("sighup", false); ("api", true); ("api", true); ("late", true)])]%string /\
  owp dx_running (fun s => run_ok s /\ wp (dx_happens dx_calls) (fun _ s' => sv_trace (asks <$> dx_calls) (service s) (service s')) s).
Proof.
  split; [vm_compute; reflexivity|]. eapply owp_mono; [exact dx_running_ok|]. intros s [RO _]. split; [exact RO|]. unfold dx_happens.
  refine (daemon_implements_service (PL := dx_laws) px_clock px_range px_time px_range_perm dx_wall (fun _ => 5)
    rx_order4 rx_order6 rx_sort (fun t => Permutation_refl _) (fun t => Permutation_refl _) (fun less l => Permutation_refl _)
    dx_source None dx_yaml dx_source_ok _ _ dx_calls s RO dx_calls_ok); intros; discriminate.
Defined.

Lemma running_history_witness :
  owp dx_running (fun s => run_ok s /\ wp (dx_happens dx_calls) (fun _ s' => sv_history (asks <$> dx_calls) (service s) (service s')) s).
Proof.
  eapply owp_mono; [exact dx_running_ok|]. intros s [RO _]. split; [exact RO|]. unfold dx_happens.
  refine (running_history (PL := dx_laws) px_clock px_range px_time px_range_perm dx_wall (fun _ => 5)
    rx_order4 rx_order6 rx_sort (fun t => Permutation_refl _) (fun t => Permutation_refl _) (fun less l => Permutation_refl _)
    dx_source None dx_yaml dx_source_ok _ _ dx_calls s RO dx_calls_ok); intros; discriminate.
Defined.

(** The daemon with its interface deleted under it. *)
Definition dx_closed (s : Running dx_kernel dx_files dx_device) : Running dx_kernel dx_files dx_device :=
  rn_set_daemon (d_set_eng (g_set_dev (DxDevice (FxDevice [inr true] [] false) false) <$> d_eng (rn_daemon s)) (rn_daemon s)) s.

Lemma dx_closed_ok s : run_ok s -> run_ok (dx_closed s).
Proof.
  intros [O Hpc]. constructor; [|exact Hpc]. destruct O as [K1 K2 K3 K4 K5 K6 K7 K8 K9 K10]. constructor; try done; cbn.
  - intros E. apply K5. by destruct (d_eng (rn_daemon s)); [|destruct E].
  - rewrite K6. by rewrite fmap_is_Some.
  - intros g Hg. destruct (d_eng (rn_daemon s)) as [g0|]; [|done]. injection Hg as <-. destruct (K8 g0 eq_refl) as (H1 & H2 & H3).
    cbn. split; [|done]. split; [by apply Forall_singleton|constructor].
Qed.

(** Cancelled when it is too late, and configured anew. *)
Definition dx_too_late : list happening := [HDone; HTurn 0; HRun BDone; HRun BEngine; HApply dx_second "api"; HRun BDone].

Lemma closed_device_blocks_run_witness :
  match dx_running with
  | Ok s0 =>
      let s := dx_closed s0 in
      (HDone ∉ dx_too_late -> wp (dx_happens (HTurn 0 :: dx_too_late)) (fun _ s' => forall e, rn_pc s' <> Returned e) s) /\
      wp (dx_happens (HTurn 0 :: HRun BEngine :: dx_too_late)) (fun _ s' => rn_pc s' = Awaiting /\ d_ready (rn_daemon s') = false /\
        (Forall (fun h => asks h = None) dx_too_late -> d_files (rn_daemon s') = d_files (rn_daemon s))) s
  | _ => False
  end.
Proof.
  pose proof dx_running_ok as HO.
  assert (E : match dx_running with
    | Ok s0 => let s := dx_closed s0 in match d_eng (rn_daemon s), d_live (rn_daemon s) !! 0%nat with
      | Some g, Some v => match dev_Read (batch_of g) (g_dev g) with (inr true, dev) => negb (ctx_done dev) | _ => false end
      | _, _ => false
      end
    | _ => false end = true) by (vm_compute; reflexivity).
  destruct dx_running as [s0| |]; try discriminate E. unfold owp in HO. destruct HO as (RO & Epc & Ee & Edn & _). cbv zeta in E |- *.
  destruct (d_eng (rn_daemon (dx_closed s0))) as [g|] eqn:Eg; [|discriminate E].
  destruct (d_live (rn_daemon (dx_closed s0)) !! 0%nat) as [v|] eqn:Ev; [|discriminate E].
  destruct (dev_Read (batch_of g) (g_dev g)) as [[|[]] dev] eqn:Er; try discriminate E. apply negb_true_iff in E.
  unfold dx_happens. refine (closed_device_blocks_run (PL := dx_laws) px_clock px_range px_time px_range_perm dx_wall (fun _ => 5)
    rx_order4 rx_order6 rx_sort (fun t => Permutation_refl _) (fun t => Permutation_refl _) (fun less l => Permutation_refl _)
    dx_source None dx_yaml dx_source_ok _ _ 0 dx_too_late (dx_closed s0) g v dev (dx_closed_ok s0 RO) _ Epc Ee Edn Eg Ev Er E);
    try (intros; discriminate).
  unfold dx_too_late. repeat first [apply Forall_nil_2|apply Forall_cons_2]; try exact I; apply dx_config_ok; auto.
Defined.

(** The next run of the daemon, much later: every lease is over. *)
Definition dx_later (n : nat) : Z := 200000.

(** A host that the state file can hold. *)
Definition dx_host_ok (q : Pool) (h : dynHost) : bool :=
  Is6 (d_v6 h) && dx_in_range (d_v6 h) && negb (hasZone (d_v6 h)) && ValidIPv6 (As16 (d_v6 h)) &&
  (0 <? d_lastUse h) && (d_lastUse h <=? dx_later (p_tick q)) && negb (p_reserved q (d_v4 h)).

Lemma dx_host_ok_spec p q :
  forallb (fun x : Z * dynHost => dx_host_ok q x.2) (map_to_list (view p)) = true ->
  forall off h, view p !! off = Some h ->
    Is6 (d_v6 h) = true /\ addr_ok (d_v6 h) /\ hasZone (d_v6 h) = false /\ ValidIPv6 (As16 (d_v6 h)) = true /\
    0 < d_lastUse h <= dx_later (p_tick q) /\ p_reserved q (d_v4 h) = false.
Proof.
  intros F off h Hh. rewrite forallb_forall in F. specialize (F (off, h)). cbn [snd] in F.
  assert (Hin : In (off, h) (map_to_list (view p))) by by apply list_elem_of_In, elem_of_map_to_list.
  apply F in Hin. clear F. unfold dx_host_ok in Hin. rewrite !andb_true_iff, !negb_true_iff, dx_in_range_ok in Hin.
  destruct Hin as [[[[[[H1 H2] H3] H4] H5] H6] H7]. split_and!; try done; lia.
Qed.

(** Checks of the two runs, by evaluation. *)
Definition dx_restart_check (d : dx_D) (r' : Resolved) (p q : Pool) : bool :=
  match d_eng d, d_live d !! 0%nat with
  | Some g, Some v =>
      match dev_Read (batch_of g) (cancel (g_dev g)) with (inr _, dev) => ctx_done dev | _ => false end
  | _, _ => false
  end &&
  bool_decide (rv_Pool (d_cur d) = Some 0%nat) && bool_decide (rv_Pool r' = Some 0%nat) &&
  match p_prefix p, p_prefix q with mkPrefix a n, mkPrefix b m => bool_decide (a = b) && (n =? m) end &&
  (size (view p) =? 3)%nat && (size (view q) =? 0)%nat &&
  forallb (fun x => dx_host_ok q x.2) (map_to_list (view p)).

Lemma restart_keeps_hosts_witness :
  match dx_running, dx_resolve None [] with
  | Ok s, Ok (inl r', pools') =>
      match d_pools (rn_daemon s) !! 0%nat, pools' !! 0%nat with
      | Some p, Some q =>
          size (view p) = 3%nat /\
          wp (dx_happens (HDone :: [HRun BDone; HTurn 0; HRun BDone] ++ [HRun BDone])) (fun _ s' =>
            rn_pc s' = Returned None /\ d_ready (rn_daemon s') = false /\
            owp (NewDaemon (AT := dx_text) dx_later dx_wall r' pools' dx_kernel0 (d_files (rn_daemon s'))) (fun d2 : dx_D =>
              exists q', current_pool d2 = Some q' /\
                repr q' (revived (dx_later (p_tick q)) (Z.quot (p_minLease q) Second) <$> view p))) s
      | _, _ => False
      end
  | _, _ => False
  end.
Proof.
  assert (E : match dx_running, dx_resolve None [] with
    | Ok s, Ok (inl r', pools') =>
        match d_pools (rn_daemon s) !! 0%nat, pools' !! 0%nat with Some p, Some q => dx_restart_check (rn_daemon s) r' p q | _, _ => false end
    | _, _ => false
    end = true) by (vm_compute; reflexivity).
  pose proof dx_running_ok as HF.
  destruct (dx_resolve_ok None []) as (r' & pools' & Er' & P' & _ & _ & Edp'); [vm_compute; reflexivity|constructor|exact I|].
  rewrite Er' in E |- *. clear Er'. destruct dx_running as [s| |]; [|discriminate E|discriminate E]. unfold owp in HF.
  destruct HF as ([O _] & Epc & Ee & Edn & Edp). set (d := rn_daemon s) in *. pose proof (dk_pools _ O) as P.
  destruct (d_pools d !! 0%nat) as [p|] eqn:Hp; [|discriminate E]. destruct (pools' !! 0%nat) as [q|] eqn:Hq; [|discriminate E].
  unfold dx_restart_check in E. rewrite !andb_true_iff in E. destruct E as [[[[[[E1 E2] E3] E4] E5] E6] E7].
  destruct (d_eng d) as [g|] eqn:Eg; [|done]. destruct (d_live d !! 0%nat) as [v|] eqn:Ev; [|done].
  destruct (dev_Read (batch_of g) (cancel (g_dev g))) as [rd dev] eqn:Erd.
  apply bool_decide_eq_true_1 in E2, E3. apply Nat.eqb_eq in E5, E6. split; [done|].
  eapply Forall_lookup_1 in P as [H R]; [|exact Hp]. rewrite (repr_view _ _ R) in R.
  eapply Forall_lookup_1 in P' as [H' R']; [|exact Hq]. rewrite (repr_view _ _ R') in R'. rewrite (map_size_empty_inv _ E6) in R'.
  assert (Epre : p_prefix q = p_prefix p).
  { destruct (p_prefix p), (p_prefix q). apply andb_true_iff in E4 as [<-%bool_decide_eq_true_1 E4]. f_equal. lia. }
  destruct rd as [|c]; [done|].
  pose proof (dx_host_ok_spec p q E7) as Hh.
  apply (restart_keeps_hosts (AT := dx_text) (PT := rx_prefix_text) (ATL := dx_text_laws) px_clock px_range px_time px_range_perm dx_wall (fun _ => 5) rx_order4 rx_order6 rx_sort
    dx_source None dx_yaml dx_later dx_wall 0 BDone BDone [HRun BDone; HTurn 0; HRun BDone] s g v c dev 0 dx_dynamic p (view p) r' pools' 0 dx_dynamic q dx_kernel0
    Epc Ee Edn Eg Ev Erd E1 ltac:(left) E2 Edp ltac:(discriminate) Hp R eq_refl E3 Edp' eq_refl Hq R' Epre Hh eq_refl).
Defined.

Lemma removed_pool_not_saved_witness :
  (match dx_full with
   | Ok d =>
       match dx_apply dx_third "api" d with
       | Ok (None, d') =>
           (match d_pools d' !! 0%nat with Some p => p_dirty p && (size (view p) =? 3)%nat | None => false end) &&
           (size (d_files d') =? 0)%nat
       | _ => false
       end
   | _ => false
   end = true) /\
  owp dx_full (fun d => daemon_ok d /\
    wp (dx_apply dx_third "api") (fun e d' => d_files d' = d_files d /\ (e = None -> current_pool d' = None /\
      forall b res over e', wp (Run px_clock px_range px_time b) (fun _ s => d_files (rn_daemon s) = d_files d)
        (mkRunning d' (Leaving e') res over))) d).
Proof.
  split; [vm_compute; reflexivity|].
  eapply owp_mono; [exact dx_full_ok|]. intros d [O _]. split; [exact O|].
  apply (removed_pool_not_saved (PL := dx_laws) px_clock px_range px_time dx_wall
    rx_order4 rx_order6 rx_sort (fun t => Permutation_refl _) (fun t => Permutation_refl _) (fun less l => Permutation_refl _)
    dx_source dx_source_ok).
  - exact O.
  - apply dx_config_ok. right. by right.
  - reflexivity.
Defined.

(** ** A kernel that is not repaired *)

(** The route of the first configuration, in the kernel. *)
Definition dx_routed (d : dx_D) : bool :=
  bool_decide (is_Some (v_routes (dx_view (d_kernel d)) !! ((([10; 0; 0; 0], [255; 0; 0; 0]), 0, 100) : RouteKey))).

(** Three configurations applied, the first of them while the kernel refuses an address. *)
Definition dx_repairs (k : dx_kernel -> dx_kernel) : option (list (option DaemonErr * bool)) :=
  match dx_full with
  | Ok d =>
      match dx_apply dx_second "api" (d_set_kernel (k (d_kernel d)) d) with
      | Ok (e1, d1) =>
          match dx_apply dx_first "api" d1 with
          | Ok (e2, d2) => Some [(None, dx_routed d); (e1, dx_routed d1); (e2, dx_routed d2)]
          | _ => None
          end
      | _ => None
      end
  | _ => None
  end.

(** After an update of the kernel that failed half-way, [Apply] with the configuration
    that is running reports success and repairs nothing: a daemon whose kernel had the
    configured route asks for another configuration, the kernel refuses an address after
    the route was removed, and applying the running configuration again succeeds
    without the route.  The same calls with a kernel that does not refuse bring it back. *)
Theorem failed_update_not_repaired :
  dx_repairs (fun k => DxKernel (dx_view k) true) =
    Some [(None, true); (Some (UpdateFailed (AddAddress dx_address)), false); (None, false)] /\
  dx_repairs (fun k => k) = Some [(None, true); (None, false); (None, true)].
Proof. vm_compute. by split. Qed.
