(* ===== verification/Admin.v ===== *)
(** * The admin server: [src/internal/admin/server.go]

    The handlers over what they need of the daemon, an interface that the daemon
    implements.  Requests arrive with clean paths; the text of errors, JSON and of the
    metrics is left to the libraries that write it. *)

From stdpp Require Import base tactics list numbers option strings gmap.
From Stdlib Require Import ZArith Lia.
From S2P Require Import Prelude Netip Text Strings Pool Table Engine Netconf Configuration Resolve Daemon.

Open Scope Z_scope.

(** [Controller]; the methods of the pool that [Pool()] returns are called through it,
    with no result when there is none. *)
Class Controller (C : Type) := {
  Ready : C -> bool;
  ctl_Status : C -> Status;
  ConfigYAML : C -> option string;
  ctl_ApplyYAML : string -> string -> M C (option DaemonErr);
  ctl_Reload : string -> M C (option DaemonErr);
  ctl_on_pool : forall A, M Pool A -> M C (option A);
}.
Arguments ctl_on_pool {C _ A} _.

(** ** Requests and responses *)

Inductive Method := GET | HEAD | PUT | POST | OtherMethod.

#[export] Instance Method_eq_dec : EqDecision Method.
Proof. solve_decision. Defined.

(** A request; its body may break off before its end. *)
Record Request := mkRequest {
  rq_method : Method;
  rq_path : string;
  rq_body : string;
  rq_broken : bool;
}.

Inductive Body :=
  | BOk
  | BReady
  | BMetrics
  | BYAML (data : string)
  | BStatus (s : Status)
  | BDynamic (prefix : Prefix) (stats : Pool.Stats) (assignments : list Assignment)
  | BIndex (admin : bool)
  | BError.

Record Response := mkResponse { rs_status : Z; rs_body : Body }.

Definition StatusOK : Z := 200.
Definition StatusBadRequest : Z := 400.
Definition StatusForbidden : Z := 403.
Definition StatusNotFound : Z := 404.
Definition StatusMethodNotAllowed : Z := 405.
Definition StatusRequestEntityTooLarge : Z := 413.
Definition StatusInternalServerError : Z := 500.
Definition StatusServiceUnavailable : Z := 503.

Definition http_Error (code : Z) : Response := mkResponse code BError.

Definition maxConfigBody : Z := 2 ^ 20.

(** The [n] first bytes. *)
Definition string_take (n : Z) (s : string) : string := String.substring 0 (Z.to_nat n) s.
Definition string_len (s : string) : Z := Z.of_nat (String.length s).

(** [io.ReadAll(io.LimitReader(r.Body, n))]; [None] is an error. *)
Definition ReadAll_limited (n : Z) (r : Request) : option string :=
  if rq_broken r && (string_len (rq_body r) <? n) then None else Some (string_take n (rq_body r)).

(** ** Handlers *)

Section server.
Context {C : Type} `{Controller C}.
(** [http.admin] when the server was made, and the order in which Go visits a map. *)
Context (admin : bool) (range : nat -> gmap Addr nat -> list (Addr * nat)).

Local Abbreviation MC := (M C).

Definition writeApplyError (e : DaemonErr) : Response :=
  http_Error (if is_invalid e then StatusBadRequest else StatusInternalServerError).

Definition getConfig : MC Response :=
  y ← gets ConfigYAML;
  mret (match y with None => http_Error StatusInternalServerError | Some data => mkResponse StatusOK (BYAML data) end).

Definition putConfig (r : Request) : MC Response :=
  if negb admin then mret (http_Error StatusForbidden) else
  match ReadAll_limited (maxConfigBody + 1) r with
  | None => mret (http_Error StatusBadRequest)
  | Some data =>
      if maxConfigBody <? string_len data then mret (http_Error StatusRequestEntityTooLarge) else
      e ← ctl_ApplyYAML data "api";
      match e with
      | Some e => mret (writeApplyError e)
      | None => getConfig
      end
  end.

Definition reload : MC Response :=
  if negb admin then mret (http_Error StatusForbidden) else
  e ← ctl_Reload "api";
  match e with
  | Some e => mret (writeApplyError e)
  | None => getConfig
  end.

Definition readyz : MC Response :=
  ready ← gets Ready;
  mret (if negb ready then http_Error StatusServiceUnavailable else mkResponse StatusOK BReady).

Definition config_status : MC Response := s ← gets ctl_Status; mret (mkResponse StatusOK (BStatus s)).

Definition dynamic : MC Response :=
  r ← ctl_on_pool (stats ← gets pool_Stats; rows ← Assignments range; prefix ← gets pool_Prefix; mret (prefix, stats, rows));
  mret (match r with
        | None => http_Error StatusNotFound
        | Some (prefix, stats, rows) => mkResponse StatusOK (BDynamic prefix stats rows)
        end).

(** The patterns that [New] registers. *)
Definition patterns : list (Method * string * (Request -> MC Response)) := [
  (GET, "/healthz", fun _ => mret (mkResponse StatusOK BOk));
  (GET, "/readyz", fun _ => readyz);
  (GET, "/metrics", fun _ => mret (mkResponse StatusOK BMetrics));
  (GET, "/config", fun _ => getConfig);
  (PUT, "/config", putConfig);
  (POST, "/config", putConfig);
  (POST, "/config/reload", fun _ => reload);
  (GET, "/config/status", fun _ => config_status);
  (GET, "/dynamic", fun _ => dynamic);
  (GET, "/", fun _ => mret (mkResponse StatusOK (BIndex admin)))]%string.

(** [ServeMux]: GET patterns serve HEAD too; a path that is served for other methods is
    answered with 405. *)
Definition method_matches (m : Method) (r : Request) : bool :=
  bool_decide (m = rq_method r) || bool_decide (m = GET) && bool_decide (rq_method r = HEAD).

Definition ServeHTTP (r : Request) : MC Response :=
  let here := filter (fun x => x.1.2 = rq_path r) patterns in
  match filter (fun x => method_matches x.1.1 r = true) here with
  | x :: _ => x.2 r
  | [] => mret (http_Error (match here with [] => StatusNotFound | _ => StatusMethodNotAllowed end))
  end.
End server.

(** ** The daemon as a controller *)

Section daemon.
Context {K F DS : Type} `{Kernel K} `{Files F} `{HD : Device DS} {HT : @Tun DS HD}.
Context `{AT : AddrText} `{PT : PrefixText}.
Context (clock : nat -> Z) (range : nat -> gmap Addr nat -> list (Addr * nat)) (time_String : Z -> string).
Context (wall : nat -> Z) (table_Entries : Table -> list Entry).
Context (SourceAddr : Addr -> option Addr) (LoadFile : option (nat -> option UserConfig)).
Context (LoadYAML : string -> option UserConfig) (Marshal : UserConfig -> option string).

(** [Daemon.ConfigYAML] *)
Definition daemon_ConfigYAML (d : Daemon K F DS) : option string := Marshal (rv_Config (d_cur d)).

Definition daemon_controller : Controller (Daemon K F DS) := {|
  Ready := d_ready;
  ctl_Status := get_status;
  ConfigYAML := daemon_ConfigYAML;
  ctl_ApplyYAML := ApplyYAML clock range time_String wall table_Entries SourceAddr LoadYAML;
  ctl_Reload := Reload clock range time_String wall table_Entries SourceAddr LoadFile;
  ctl_on_pool A m :=
    cur ← gets d_cur;
    match rv_Pool cur with
    | None => mret None
    | Some i => r ← on_pool_ref (Some i) m; mret (Some r)
    end;
|}.
End daemon.
