(* ===== verification/AdminProps.v ===== *)
(** * What a request can do

    Requests that only read, and what becomes of a configuration that is put. *)

From stdpp Require Import base tactics list numbers option strings gmap sorting.
From Stdlib Require Import ZArith Lia.
From S2P Require Import Prelude Netip Netutil Text Strings Events Packet Layout Translator TranslatorFacts Pool PoolFacts PoolOps PoolSave PoolRun PoolProps Table Join TableFacts TableMap Engine EngineFacts Netconf NetconfFacts NetconfProps Configuration Resolve ResolveFacts ResolveProps Daemon DaemonFacts DaemonApply DaemonRun Admin.

Open Scope Z_scope.

(** ** Bodies *)

Lemma take_all n s : (String.length s <= n)%nat -> String.substring 0 n s = s.
Proof.
  revert n. induction s as [|c s IH]; intros [|n] H; cbn in *; try done; [lia|]. by rewrite IH by lia.
Qed.

Lemma take_length n s : String.length (String.substring 0 n s) = (n `min` String.length s)%nat.
Proof. revert n. induction s as [|c s IH]; intros [|n]; cbn; try done. by rewrite IH. Qed.

Lemma ReadAll_cases n r :
  0 <= n ->
  ReadAll_limited (n + 1) r =
    if rq_broken r && (string_len (rq_body r) <=? n) then None
    else Some (if n <? string_len (rq_body r) then string_take (n + 1) (rq_body r) else rq_body r).
Proof.
  intros Hn. unfold ReadAll_limited, string_take, string_len.
  replace (Z.of_nat (String.length (rq_body r)) <? n + 1) with (Z.of_nat (String.length (rq_body r)) <=? n)
    by (apply eq_true_iff_eq; lia).
  destruct (_ && _); [done|]. destruct (n <? _) eqn:E; [done|]. by rewrite take_all by lia.
Qed.

Section admin.
Context {K F DS : Type} {HK : Kernel K} {HF : Files F} {HFL : @FilesLaws F HF}.
Context {HD : Device DS} {HDL : @DeviceLaws DS HD} {HT : @Tun DS HD} {HTL : @TunLaws DS HD HDL HT}.
Context {AT : AddrText} {PT : PrefixText} {PL : ParseLaws}.
Context (clock : nat -> Z) (range : nat -> gmap Addr nat -> list (Addr * nat)) (time_String : Z -> string).
Context (range_perm : forall k m, range k m ≡ₚ map_to_list m).
Context (wall : nat -> Z).
Context (order4 order6 : Table -> list Entry) (sort : (Entry -> Entry -> bool) -> list Entry -> list Entry).
Context (order4_perm : forall t, order4 t ≡ₚ (map_to_list (t_hosts4 t)).*2).
Context (order6_perm : forall t, order6 t ≡ₚ (map_to_list (t_hosts6 t)).*2).
Context (sort_perm : forall less l, sort less l ≡ₚ l).
Context (SourceAddr : Addr -> option Addr) (LoadFile : option (nat -> option UserConfig)) (LoadYAML : string -> option UserConfig).
Hypothesis SourceAddr_ok : forall dst a, SourceAddr dst = Some a -> addr_ok a /\ IsValid a = true.
Hypothesis LoadYAML_ok : forall data cfg, LoadYAML data = Some cfg -> config_ok cfg.
Context (Marshal : UserConfig -> option string).

Local Abbreviation D := (Daemon K F DS).
Local Abbreviation entries := (entries_of order4 order6 sort).
Local Abbreviation controller :=
  (daemon_controller clock range time_String wall entries SourceAddr LoadFile LoadYAML Marshal).
Local Abbreviation ServeHTTP admin := (ServeHTTP (H := controller) admin range).
Implicit Types d : D.

(** Only the order in which the pools' maps are visited next may differ. *)
Definition read_only d d' : Prop :=
  exists ps, d' = d_set_pools ps d /\ Forall2 (fun p p' => exists n, p' = with_ticks (p_tick p) n p) (d_pools d) ps.

Lemma same_ticks p : p = with_ticks (p_tick p) (p_iter p) p.
Proof. by destruct p. Qed.

Lemma read_only_refl d : read_only d d.
Proof. exists (d_pools d). split; [by destruct d|]. apply Forall_Forall2_diag, Forall_forall. intros p _. eexists. apply same_ticks. Qed.

Lemma dynamic_reads d : daemon_ok d -> wp (dynamic (H := controller) range) (fun _ d' => read_only d d') d.
Proof.
  intros O. unfold dynamic. apply wp_bind. cbn [ctl_on_pool daemon_controller]. apply wp_bind, wp_gets.
  destruct (pool_there_cases _ _ (dk_pool _ O)) as [[-> _]|(i & dp & p & -> & _ & Hi & _)].
  { apply wp_ret, wp_ret, read_only_refl. }
  destruct (pools_ok_lookup _ _ _ (dk_pools _ O) Hi) as [H R].
  apply wp_bind, (wp_on_pool_ref i p); [done|]. apply wp_bind, wp_gets, wp_bind. unfold Assignments. apply wp_bind.
  eapply wp_mono; [by apply (all_hosts_ok range range_perm p H R)|]. intros ds p' [_ ->].
  apply wp_ret, wp_bind, wp_gets, wp_ret, wp_ret, wp_ret. eexists. split; [done|].
  apply Forall2_same_length_lookup_2; [by rewrite length_insert|]. intros j q q' Hq Hq'.
  destruct (decide (j = i)) as [->|Hne].
  - rewrite list_lookup_insert_eq in Hq' by (by eapply lookup_lt_Some). assert (q = p) as -> by congruence. injection Hq' as <-. by eexists.
  - rewrite list_lookup_insert_ne in Hq' by done. assert (q' = q) as -> by congruence. eexists. apply same_ticks.
Qed.

(** A request is answered by a handler of its path and method, or by the server. *)
Lemma ServeHTTP_handlers admin r (Q : Response -> D -> Prop) d :
  (forall m p h, (m, p, h) ∈ patterns (H := controller) admin range -> p = rq_path r -> method_matches m r = true -> wp (h r) Q d) ->
  (forall code, (forall m p (h : Request -> M D Response), (m, p, h) ∈ patterns (H := controller) admin range -> p = rq_path r -> method_matches m r = true -> False) ->
    Q (http_Error code) d) ->
  wp (ServeHTTP admin r) Q d.
Proof.
  intros HP HE. unfold Admin.ServeHTTP. destruct (filter _ (filter _ _)) as [|[[m p] h] l] eqn:E.
  - apply wp_ret, HE. intros m p h Hin Hp Hm. eapply (filter_nil_not_elem_of _ _ (m, p, h)); [exact E|exact Hm|].
    by apply list_elem_of_filter.
  - assert (Hin : (m, p, h) ∈ filter (fun x => method_matches x.1.1 r = true) (filter (fun x => x.1.2 = rq_path r) (patterns (H := controller) admin range)))
      by (rewrite E; by left).
    apply list_elem_of_filter in Hin as [Hm Hin]. apply list_elem_of_filter in Hin as [Hp Hin]. by apply (HP m p h).
Qed.

Lemma getConfig_run d :
  wp (getConfig (H := controller)) (fun resp d' => d' = d /\
    resp = match Marshal (rv_Config (d_cur d)) with None => http_Error StatusInternalServerError | Some data => mkResponse StatusOK (BYAML data) end) d.
Proof. unfold getConfig. apply wp_bind, wp_gets, wp_ret. by split. Qed.

(** The handlers that read, and a server that is not an admin. *)
Lemma handlers_read admin r m p (h : Request -> M D Response) d :
  daemon_ok d -> (m, p, h) ∈ patterns (H := controller) admin range -> m = GET \/ admin = false ->
  wp (h r) (fun resp d' => read_only d d' /\ (m <> GET -> resp = http_Error StatusForbidden)) d.
Proof.
  intros O Hin Hm. pose proof (read_only_refl d) as RR. unfold patterns in Hin.
  repeat (apply elem_of_cons in Hin as [[= -> -> ->]|Hin];
    [try by apply wp_ret; split|]); [| | | |by apply elem_of_nil in Hin].
  1,2,3: destruct Hm as [|Hm]; [done|]; rewrite Hm; by apply wp_ret; split.
  eapply wp_mono; [by apply dynamic_reads|]. by split.
Qed.

Lemma patterns_methods admin m p (h : Request -> M D Response) : (m, p, h) ∈ patterns (H := controller) admin range -> m = GET \/ m = PUT \/ m = POST.
Proof.
  unfold patterns. intros Hin. repeat (apply elem_of_cons in Hin as [[= -> _ _]|Hin]; [auto|]). by apply elem_of_nil in Hin.
Qed.

Lemma method_matches_spec m r : method_matches m r = true -> m = rq_method r \/ m = GET /\ rq_method r = HEAD.
Proof. unfold method_matches. rewrite orb_true_iff, andb_true_iff, !bool_decide_eq_true. tauto. Qed.

(** What a server that is no admin refuses. *)
Definition changes_config (r : Request) : Prop :=
  rq_method r = PUT /\ rq_path r = "/config"%string \/
  rq_method r = POST /\ (rq_path r = "/config"%string \/ rq_path r = "/config/reload"%string).

Lemma changes_handled admin r : changes_config r ->
  exists h : Request -> M D Response, (rq_method r, rq_path r, h) ∈ patterns (H := controller) admin range /\ method_matches (rq_method r) r = true /\ rq_method r <> GET.
Proof.
  intros Hr. unfold method_matches. rewrite bool_decide_true by done. unfold patterns.
  destruct Hr as [[-> ->]|[-> [-> | ->]]]; eexists; (split; [|by split]);
    repeat first [apply list_elem_of_here|apply list_elem_of_further].
Qed.


(** ** A configuration that is put *)

Lemma string_take_len n s : 0 <= n -> string_len (string_take n s) = Z.min n (string_len s).
Proof. intros Hn. unfold string_len, string_take. rewrite take_length. lia. Qed.

(** The answer to an accepted configuration, and to a rejected one. *)
Definition answer d (e : option DaemonErr) : Response :=
  match e with
  | Some e => http_Error (if is_invalid e then StatusBadRequest else StatusInternalServerError)
  | None => match Marshal (rv_Config (d_cur d)) with None => http_Error StatusInternalServerError | Some y => mkResponse StatusOK (BYAML y) end
  end.

Lemma applied_answer (m : M D (option DaemonErr)) (Q : option DaemonErr -> D -> Prop) d :
  wp m Q d ->
  wp (e ← m; match e with Some e => mret (writeApplyError e) | None => getConfig (H := controller) end)
    (fun resp d' => exists e, Q e d' /\ resp = answer d' e) d.
Proof.
  intros H. apply wp_bind. eapply wp_mono; [exact H|]. intros [e|] d' HQ; [apply wp_ret; by exists (Some e)|].
  eapply wp_mono; [apply getConfig_run|]. intros resp d2 [-> ->]. by exists None.
Qed.

(** What [ApplyYAML] does with a document. *)
Lemma ApplyYAML_wp data source d :
  daemon_ok d ->
  wp (ApplyYAML clock range time_String wall entries SourceAddr LoadYAML data source) (fun e d' => daemon_ok d' /\
    match LoadYAML data with
    | None => e = Some InvalidYAML /\ rejected source InvalidYAML d d'
    | Some cfg => match e with Some e => rejected source e d d' | None => accepted order4 order6 sort SourceAddr cfg source d d' end
    end) d.
Proof.
  intros O. unfold ApplyYAML. destruct (LoadYAML data) as [cfg|] eqn:E.
  - apply LoadYAML_ok in E. eapply wp_mono; [by apply (Apply_wp clock range time_String range_perm wall order4 order6 sort order4_perm order6_perm sort_perm
      SourceAddr SourceAddr_ok)|]. intros e d' [O' HA]. split; [done|]. by destruct e; [apply HA|].
  - eapply wp_mono; [by apply fail_keeps|]. intros e d' (O' & -> & HR & _). by split_and!.
Qed.

(** C31: a document that is put to an admin server: one that is cut short or longer than a
    mebibyte is refused with 400 or 413 and changes nothing; any other is applied whole,
    and the answer tells what became of it: 400 when it was invalid and 500 when the
    kernel failed, with the daemon as a rejected configuration leaves it, or the text of
    the configuration that is now in force. *)
Theorem put_config_outcomes r d :
  daemon_ok d -> rq_method r = PUT \/ rq_method r = POST -> rq_path r = "/config"%string ->
  wp (ServeHTTP true r) (fun resp d' => daemon_ok d' /\
    if maxConfigBody <? string_len (rq_body r) then resp = http_Error StatusRequestEntityTooLarge /\ d' = d
    else if rq_broken r then resp = http_Error StatusBadRequest /\ d' = d
    else exists e, resp = answer d' e /\
      match LoadYAML (rq_body r) with
      | None => e = Some InvalidYAML /\ rejected "api" InvalidYAML d d'
      | Some cfg => match e with Some e => rejected "api" e d d' | None => accepted order4 order6 sort SourceAddr cfg "api" d d' end
      end) d.
Proof.
  intros O Hm Hp. apply ServeHTTP_handlers.
  2: { intros code Hno. exfalso. assert (Hc : changes_config r) by (destruct Hm as [Hm|Hm]; [by left|right; by split; [|left]]).
       destruct (changes_handled true r Hc) as (h & Hin & Hmm & _). by eapply Hno. }
  intros m p h Hin -> Hmm. assert (Eh : h = putConfig (H := controller) true).
  { apply method_matches_spec in Hmm. rewrite Hp in Hin. unfold patterns in Hin.
    assert (Em : m = PUT \/ m = POST) by (destruct Hmm as [->|[_ ?]]; [done|destruct Hm; congruence]).
    destruct Em as [-> | ->]; repeat (apply elem_of_cons in Hin as [Ein|Hin]; [try discriminate Ein; by injection Ein|]);
      by apply elem_of_nil in Hin. }
  subst h. unfold putConfig. cbn [negb]. rewrite ReadAll_cases by done.
  destruct (maxConfigBody <? string_len (rq_body r)) eqn:El.
  - rewrite (proj2 (Z.leb_gt _ _)), andb_false_r by lia. rewrite string_take_len by done.
    rewrite (proj2 (Z.ltb_lt _ _)) by lia. by apply wp_ret.
  - rewrite (proj2 (Z.leb_le _ _)), andb_true_r by lia. destruct (rq_broken r); [by apply wp_ret|]. rewrite El.
    eapply wp_mono; [apply applied_answer, ApplyYAML_wp, O|]. intros resp d' (e & (O' & HA) & ->). split; [done|]. by exists e.
Qed.
End admin.
