(* ===== verification/AdminRuns.v ===== *)
(** * Requests, run

    Witnesses of [AdminProps], on the daemon of [DaemonRuns]; and a server that goes on
    taking configurations after one that switches that off. *)

From stdpp Require Import base tactics list numbers option strings gmap sorting.
From Stdlib Require Import ZArith Lia.
From S2P Require Import Prelude Netip Netutil Text Strings Events Packet Layout Translator TranslatorFacts Fixtures Pool PoolFacts PoolOps PoolSave PoolRun PoolProps Table Join TableFacts TableMap Engine EngineFacts EngineProps Netconf NetconfFacts NetconfProps Configuration Env Resolve ResolveFacts EnvProps ResolveProps ResolveRuns Daemon Cli DaemonFacts DaemonApply DaemonRun DaemonProps CliProps DaemonRuns Admin AdminProps.

Open Scope Z_scope.

Local Abbreviation ax_entries := (entries_of rx_order4 rx_order6 rx_sort).
Local Abbreviation ax_D := (Daemon dx_kernel (gmap string (list string)) dx_device).

Definition ax_yaml : string -> option UserConfig := parse_YAML dx_decode.
Definition ax_marshal (c : UserConfig) : option string := Some "yaml"%string.

Lemma ax_yaml_ok data cfg : ax_yaml data = Some cfg -> config_ok cfg.
Proof. apply parse_YAML_ok, dx_decode_ok. Qed.

Definition ax_serve (admin : bool) (r : Request) : M ax_D Response :=
  ServeHTTP (H := daemon_controller (AT := dx_text) (PT := rx_prefix_text) px_clock px_range px_time dx_wall ax_entries dx_source None ax_yaml ax_marshal)
    admin px_range r.

Definition ax_put (body : string) : Request := mkRequest PUT "/config" body false.
Definition ax_get (path : string) : Request := mkRequest GET path "" false.

(** The status of the answers to some requests, and what the daemon runs at the end. *)
Fixpoint ax_statuses (admin : bool) (rs : list Request) (d : ax_D) : list Z * ax_D :=
  match rs with
  | [] => ([], d)
  | r :: rs =>
      match ax_serve admin r d with
      | Ok (resp, d) => let '(l, d) := ax_statuses admin rs d in (rs_status resp :: l, d)
      | _ => ([], d)
      end
  end.


Lemma put_config_outcomes_witness :
  (match dx_full with
   | Ok d => bool_decide ((ax_statuses true [ax_put "second"; ax_put "?"; mkRequest POST "/config" "first" true; ax_put "first"] d).1 = [200; 400; 400; 200])
   | _ => false
   end = true) /\
  owp dx_full (fun d => daemon_ok d /\
    wp (ax_serve true (ax_put "second")) (fun resp d' => daemon_ok d' /\
      if maxConfigBody <? string_len "second" then resp = http_Error StatusRequestEntityTooLarge /\ d' = d
      else exists e, resp = answer ax_marshal d' e /\
        match ax_yaml "second" with
        | None => e = Some InvalidYAML /\ rejected "api" InvalidYAML d d'
        | Some cfg => match e with Some e => rejected "api" e d d'
            | None => accepted (AT := dx_text) (PT := rx_prefix_text) rx_order4 rx_order6 rx_sort dx_source cfg "api" d d' end
        end) d).
Proof.
  split; [vm_compute; reflexivity|].
  eapply owp_mono; [exact dx_full_ok|]. intros d [O _]. split; [exact O|].
  exact (put_config_outcomes (PL := dx_laws) px_clock px_range px_time px_range_perm dx_wall rx_order4 rx_order6 rx_sort
    (fun t => Permutation_refl _) (fun t => Permutation_refl _) (fun less l => Permutation_refl _)
    dx_source None ax_yaml dx_source_ok ax_yaml_ok ax_marshal (ax_put "second") d O (or_introl eq_refl) eq_refl).
Defined.

(** ** A switch that does nothing *)

(** A configuration that switches http.admin off is accepted, and reported as in
    force, but the server that took it goes on taking configurations. *)
Theorem admin_off_not_applied :
  match dx_full with
  | Ok d =>
      let '(l1, d1) := ax_statuses true [ax_put "second"] d in
      let '(l2, _) := ax_statuses true [ax_put "first"] d1 in
      Some (l1, ht_Admin (uc_HTTP (rv_Config (d_cur d1))), l2)
  | _ => None
  end = Some ([200], false, [200]).
Proof. vm_compute. reflexivity. Qed.
