(* ===== verification/Observe.v ===== *)
(** * Observers: [src/internal/observe/metrics.go] and the observers of [events.go]

    The metrics and the packet log as observers of the translator.  The registry of the
    metrics library is the value of every series it was asked for, a series being a name
    with the values of its labels; the log is the list of lines written. *)

From stdpp Require Import base tactics list numbers option strings gmap.
From Stdlib Require Import ZArith Lia.
From S2P Require Import Prelude Netip Text Events Pool Engine.

Open Scope Z_scope.

(** A series: the metric's name and the values of its labels. *)
Definition Series : Type := string * list string.

(** A line of the packet log. *)
Inductive LogLine :=
  | LogDynamic (event : string) (ipv4 ipv6 : Addr)
  | LogPacket (kind reason family : string) (src dst : Addr) (proto len : Z).

(** [Metrics]: the series behind every counter, resolved in advance. *)
Record Metrics := mkMetrics {
  mt_packets : list Series;
  mt_bytes : list Series;
  mt_events : list (list (list Series));
}.

(** What observers write to: the registry, the log, and the kinds that are logged. *)
Record World := mkWorld {
  w_series : gmap Series Z;
  w_log : list LogLine;
  w_kinds : list bool;
}.

Local Abbreviation MW := (M World).

Definition w_set_series (f : gmap Series Z -> gmap Series Z) (w : World) : World := mkWorld (f (w_series w)) (w_log w) (w_kinds w).
Definition w_write (l : LogLine) (w : World) : World := mkWorld (w_series w) (w_log w ++ [l]) (w_kinds w).
Definition w_set_kinds (ks : list bool) (w : World) : World := mkWorld (w_series w) (w_log w) ks.

(** [Counter.Add]; [WithLabelValues] makes a series of value zero. *)
Definition Add (s : Series) (n : Z) : MW unit := modify (w_set_series (fun m => <[s := default 0 (m !! s) + n]> m)).
Definition WithLabelValues (name : string) (labels : list string) : Series := (name, labels).

(** The element of a slice; out of range it panics. *)
Definition at_index {A} (l : list A) (i : nat) : MW A := lift (match l !! i with Some x => Ok x | None => Panic end).

(** ** Metrics *)

Definition packets_total : string := "clatto_translated_packets_total".
Definition bytes_total : string := "clatto_translated_bytes_total".
Definition events_total : string := "clatto_packet_events_total".

Definition families : list string := ["4"; "6"]%string.
Definition directions : list string := ["4to6"; "6to4"]%string.
Definition all_kinds : list Kind := [KindDrop; KindReject; KindICMP; KindSelf; KindDynamic].

(** [NewMetrics]: the counters, and what registering them leaves. *)
Definition NewMetrics : Metrics :=
  mkMetrics ((fun d => WithLabelValues packets_total [d]) <$> directions)
    ((fun d => WithLabelValues bytes_total [d]) <$> directions)
    ((fun f => (fun k => (fun r => WithLabelValues events_total [f; kind_String k; reason_String r]) <$> all_reasons) <$> all_kinds)
       <$> families).

Definition register (m : Metrics) (w : World) : World :=
  w_set_series (fun s => foldr (fun k s => <[k := 0]> s) s (mt_packets m ++ mt_bytes m ++ concat (concat (mt_events m)))) w.

Definition familyIndex (f : Z) : nat := if f =? 6 then 1 else 0.

Definition Metrics_Translated (m : Metrics) (family n : Z) : MW unit :=
  let i := familyIndex family in
  p ← at_index (mt_packets m) i;
  Add p 1;;
  b ← at_index (mt_bytes m) i;
  Add b n.

Definition Metrics_Event (m : Metrics) (e : Event) : MW unit :=
  if (NumKinds <=? kind_index (e_Kind e))%nat || (NumReasons <=? reason_index (e_Reason e))%nat then skip else
  f ← at_index (mt_events m) (familyIndex (e_Family e));
  k ← at_index f (kind_index (e_Kind e));
  r ← at_index k (reason_index (e_Reason e));
  Add r 1.

(** ** The packet log *)

(** The array of kinds that [SetKinds] stores. *)
Definition SetKinds (kinds : list Kind) : World -> World :=
  w_set_kinds (foldl (fun arr k => if (kind_index k <? NumKinds)%nat then <[kind_index k := true]> arr else arr)
                 (replicate NumKinds false) kinds).

Definition PacketLogger_Event (e : Event) : MW unit :=
  if (NumKinds <=? kind_index (e_Kind e))%nat then skip else
  kinds ← gets w_kinds;
  on ← at_index kinds (kind_index (e_Kind e));
  if negb on then skip else
  if bool_decide (e_Kind e = KindDynamic) then
    modify (w_write (LogDynamic (reason_String (e_Reason e)) (e_Src e) (e_Dst e)))
  else
    modify (w_write (LogPacket ("packet " +:+ kind_String (e_Kind e)) (reason_String (e_Reason e)) (FormatInt (e_Family e))
                       (e_Src e) (e_Dst e) (e_Proto e) (e_Length e))).

(** ** Observers *)

(** An [Observer]: what its two methods do. *)
Definition Observer : Type := obs -> MW unit.

Definition NopObserver : Observer := fun _ => skip.
Definition MultiObserver (m : list Observer) : Observer := fun o =>
  foldr (fun (f : Observer) (rest : MW unit) => f o;; rest) skip m.

Definition metrics_observer (m : Metrics) : Observer := fun o =>
  match o with OTranslated f n => Metrics_Translated m f n | OEvent e => Metrics_Event m e end.
Definition logger_observer : Observer := fun o =>
  match o with OTranslated _ _ => skip | OEvent e => PacketLogger_Event e end.

(** The observer that the daemon gives to the translator and the pool. *)
Definition daemon_observer (m : Metrics) : Observer := MultiObserver [metrics_observer m; logger_observer].

(** A list of calls to it. *)
Fixpoint observe (o : Observer) (l : list obs) : MW unit :=
  match l with [] => skip | x :: l => o x;; observe o l end.

(** ** Gauges of the pool and counters of the engine *)

(** [RegisterPool]: the gauges, zero without a pool. *)
Definition pool_gauges (p : option Pool) : list (string * Z) :=
  let stat (get : Pool.Stats -> Z) := match p with None => 0 | Some p => get (pool_Stats p) end in
  [("clatto_dynamic_pool_size", stat s_Size); ("clatto_dynamic_pool_mapped", stat s_Mapped);
   ("clatto_dynamic_pool_dormant", stat s_Dormant)]%string.

(** [RegisterEngine] *)
Definition engine_counters (s : Engine.Stats) : list (string * Z) :=
  [("clatto_tun_packets_received_total", PacketsIn s); ("clatto_tun_packets_sent_total", PacketsOut s);
   ("clatto_tun_bytes_received_total", BytesIn s); ("clatto_tun_bytes_sent_total", BytesOut s);
   ("clatto_tun_read_errors_total", ReadErrors s); ("clatto_tun_write_errors_total", WriteErrors s)]%string.
