(* ===== verification/ObserveProps.v ===== *)
(** * Counting and logging what happened

    The metrics are the number of times each thing was observed, and the log is the
    events of the kinds that are switched on, in their order. *)

From stdpp Require Import base tactics list numbers option strings gmap.
From Stdlib Require Import ZArith Lia.
From S2P Require Import Prelude Netip Text Events Pool PoolFacts PoolOps Engine Observe.

Open Scope Z_scope.

(** ** Series *)

Definition packets_series (i : nat) : Series := (packets_total, [nth i directions ""%string]).
Definition bytes_series (i : nat) : Series := (bytes_total, [nth i directions ""%string]).
Definition events_series (i : nat) (k : Kind) (r : Reason) : Series :=
  (events_total, [nth i families ""%string; kind_String k; reason_String r]).

Lemma kind_String_inj k k' : kind_String k = kind_String k' -> k = k'.
Proof. by destruct k, k'. Qed.

Lemma events_series_inj i j k k' r r' :
  (i < 2)%nat -> (j < 2)%nat -> events_series i k r = events_series j k' r' -> i = j /\ k = k' /\ r = r'.
Proof.
  intros Hi Hj. unfold events_series. intros [= Ef Ek Er]. split_and!; [|by apply kind_String_inj|].
  - destruct i as [|[|]], j as [|[|]]; try done; lia.
  - by apply (proj2 (proj2 reason_names_complete)).
Qed.

Lemma kinds_lookup k : all_kinds !! kind_index k = Some k.
Proof. by destruct k. Qed.
Lemma reasons_lookup r : all_reasons !! reason_index r = Some r.
Proof. by destruct r. Qed.
Lemma labels_lookup (l : list string) i : (i < length l)%nat -> l !! i = Some (nth i l ""%string).
Proof. revert i. induction l as [|x l IH]; intros [|i] Hi; cbn in *; [lia|lia|done|]. apply IH. lia. Qed.

Lemma familyIndex_lt f : (familyIndex f < 2)%nat.
Proof. unfold familyIndex. case_match; lia. Qed.

(** ** One call *)

(** The value of a series. *)
Definition value (s : Series) (w : World) : Z := default 0 (w_series w !! s).

(** A series that grew. *)
Definition grown (s : Series) (n : Z) (w : World) : World := w_set_series (fun m => <[s := default 0 (m !! s) + n]> m) w.

Lemma value_grown s t n w : value s (grown t n w) = value s w + (if decide (s = t) then n else 0).
Proof.
  unfold value, grown. cbn. destruct (decide (s = t)) as [->|Hne].
  - by rewrite lookup_insert_eq.
  - rewrite lookup_insert_ne by done. lia.
Qed.

Lemma Metrics_Translated_run f n w :
  Metrics_Translated NewMetrics f n w = Ok (tt, grown (bytes_series (familyIndex f)) n (grown (packets_series (familyIndex f)) 1 w)).
Proof.
  pose proof (familyIndex_lt f) as Hf. unfold Metrics_Translated, NewMetrics, at_index. cbn [mt_packets mt_bytes].
  rewrite !list_lookup_fmap, labels_lookup by done. reflexivity.
Qed.

Lemma Metrics_Event_run e w :
  Metrics_Event NewMetrics e w = Ok (tt, grown (events_series (familyIndex (e_Family e)) (e_Kind e) (e_Reason e)) 1 w).
Proof.
  pose proof (familyIndex_lt (e_Family e)) as Hf. unfold Metrics_Event.
  pose proof (lookup_lt_Some _ _ _ (kinds_lookup (e_Kind e))) as Hk. pose proof (lookup_lt_Some _ _ _ (reasons_lookup (e_Reason e))) as Hr.
  rewrite (proj2 (Nat.leb_gt NumKinds _)) by exact Hk. rewrite (proj2 (Nat.leb_gt NumReasons _)) by exact Hr. cbn [orb].
  unfold NewMetrics, at_index. cbn [mt_events]. rewrite list_lookup_fmap, labels_lookup by done. cbn [fmap option_fmap option_map lift].
  unfold mbind, M_bind, lift. rewrite list_lookup_fmap, kinds_lookup. cbn [fmap option_fmap option_map].
  rewrite list_lookup_fmap, reasons_lookup. reflexivity.
Qed.

(** The line of an event. *)
Definition line_of (e : Event) : LogLine :=
  if bool_decide (e_Kind e = KindDynamic) then LogDynamic (reason_String (e_Reason e)) (e_Src e) (e_Dst e)
  else LogPacket ("packet " +:+ kind_String (e_Kind e)) (reason_String (e_Reason e)) (FormatInt (e_Family e))
         (e_Src e) (e_Dst e) (e_Proto e) (e_Length e).

(** The kinds that are switched on. *)
Definition kinds_on (ks : list Kind) (w : World) : Prop := forall k, w_kinds w !! kind_index k = Some (bool_decide (k ∈ ks)).

Lemma SetKinds_on ks w : kinds_on ks (SetKinds ks w).
Proof.
  intros k. unfold SetKinds. cbn [w_set_kinds w_kinds].
  assert (G : forall (l : list Kind) (arr : list bool) (on : list Kind), (forall k, arr !! kind_index k = Some (bool_decide (k ∈ on))) ->
    forall k, foldl (fun arr k => if (kind_index k <? NumKinds)%nat then <[kind_index k := true]> arr else arr) arr l !! kind_index k
      = Some (bool_decide (k ∈ on ++ l))).
  { induction l as [|x l IH]; intros arr on Harr k'; cbn [foldl]; [by rewrite app_nil_r|].
    rewrite (cons_middle x on l), app_assoc. apply IH. clear k'. intros k'.
    assert (Hx : (kind_index x <? NumKinds)%nat = true) by (by destruct x). rewrite Hx.
    destruct (decide (k' = x)) as [->|Hne].
    - rewrite list_lookup_insert_eq by (by eapply lookup_lt_Some). f_equal. symmetry. apply bool_decide_eq_true_2. set_solver.
    - rewrite list_lookup_insert_ne by (by intros E; apply Hne; destruct x, k'). rewrite Harr. f_equal. apply bool_decide_ext. set_solver. }
  apply (G ks _ []). intros k'. by destruct k'.
Qed.

Lemma PacketLogger_Event_run ks e w :
  kinds_on ks w -> PacketLogger_Event e w = Ok (tt, if bool_decide (e_Kind e ∈ ks) then w_write (line_of e) w else w).
Proof.
  intros Hk. unfold PacketLogger_Event, line_of.
  pose proof (lookup_lt_Some _ _ _ (kinds_lookup (e_Kind e))) as Hlt.
  rewrite (proj2 (Nat.leb_gt NumKinds _)) by exact Hlt. unfold gets, at_index, mbind, M_bind, lift. rewrite Hk.
  case_bool_decide; cbn [negb]; [|done]. by case_bool_decide.
Qed.

(** ** Many calls *)

Definition total (g : obs -> Z) (l : list obs) : Z := foldr (fun o n => g o + n) 0 l.

Definition packet_of (i : nat) (o : obs) : Z :=
  match o with OTranslated f _ => if decide (familyIndex f = i) then 1 else 0 | OEvent _ => 0 end.
Definition bytes_of (i : nat) (o : obs) : Z :=
  match o with OTranslated f n => if decide (familyIndex f = i) then n else 0 | OEvent _ => 0 end.
Definition event_of (i : nat) (k : Kind) (r : Reason) (o : obs) : Z :=
  match o with
  | OTranslated _ _ => 0
  | OEvent e => if decide (familyIndex (e_Family e) = i /\ e_Kind e = k /\ e_Reason e = r) then 1 else 0
  end.
Definition logged (ks : list Kind) (o : obs) : option LogLine :=
  match o with OEvent e => if bool_decide (e_Kind e ∈ ks) then Some (line_of e) else None | OTranslated _ _ => None end.

(** What a world holds more than another, after some calls. *)
Record counted (ks : list Kind) (l : list obs) (w w' : World) : Prop := {
  ct_packets : forall i, (i < 2)%nat -> value (packets_series i) w' = value (packets_series i) w + total (packet_of i) l;
  ct_bytes : forall i, (i < 2)%nat -> value (bytes_series i) w' = value (bytes_series i) w + total (bytes_of i) l;
  ct_events : forall i k r, (i < 2)%nat -> value (events_series i k r) w' = value (events_series i k r) w + total (event_of i k r) l;
  ct_log : w_log w' = w_log w ++ omap (logged ks) l;
  ct_kinds : w_kinds w' = w_kinds w;
}.

Lemma labels_inj (l : list string) i j :
  bool_decide (NoDup l) = true -> (i < length l)%nat -> (j < length l)%nat -> nth i l ""%string = nth j l ""%string -> i = j.
Proof.
  intros Hn%bool_decide_eq_true_1 Hi Hj E. eapply NoDup_lookup; [exact Hn|by apply labels_lookup|]. rewrite E. by apply labels_lookup.
Qed.

Lemma counted_translated ks f n w :
  counted ks [OTranslated f n] w (grown (bytes_series (familyIndex f)) n (grown (packets_series (familyIndex f)) 1 w)).
Proof.
  pose proof (familyIndex_lt f) as Hf. constructor; try done; cbn [total foldr packet_of bytes_of event_of].
  - intros i Hi. rewrite !value_grown, (decide_False (P := packets_series i = bytes_series _)) by done.
    destruct (decide (packets_series i = _)) as [[= E]|Hne].
    + rewrite decide_True; [lia|]. symmetry. by apply (labels_inj directions).
    + rewrite decide_False; [lia|]. by intros <-.
  - intros i Hi. rewrite !value_grown, (decide_False (P := bytes_series i = packets_series _)) by done.
    destruct (decide (bytes_series i = _)) as [[= E]|Hne].
    + rewrite decide_True; [lia|]. symmetry. by apply (labels_inj directions).
    + rewrite decide_False; [lia|]. by intros <-.
  - intros i k r Hi. rewrite !value_grown, !decide_False by done. lia.
  - cbn. by rewrite app_nil_r.
Qed.

Lemma counted_event ks e w :
  counted ks [OEvent e] w
    (let w1 := grown (events_series (familyIndex (e_Family e)) (e_Kind e) (e_Reason e)) 1 w in
     if bool_decide (e_Kind e ∈ ks) then w_write (line_of e) w1 else w1).
Proof.
  pose proof (familyIndex_lt (e_Family e)) as Hf. cbv zeta.
  set (w1 := grown _ 1 w). set (w2 := if bool_decide _ then _ else _).
  assert (E : forall s, value s w2 = value s w1) by (intros s; unfold w2; by case_bool_decide).
  constructor; cbn [total foldr packet_of bytes_of event_of omap list_omap logged].
  - intros i Hi. unfold w1 in E. rewrite E, value_grown, decide_False by done. lia.
  - intros i Hi. unfold w1 in E. rewrite E, value_grown, decide_False by done. lia.
  - intros i k r Hi. unfold w1 in E. rewrite E, value_grown. destruct (decide (events_series i k r = _)) as [Es|Hne].
    + apply events_series_inj in Es as (-> & -> & ->); [|done|done]. rewrite decide_True by done. lia.
    + rewrite decide_False; [lia|]. by intros (<- & <- & <-).
  - unfold w2. case_bool_decide; cbn; by rewrite ?app_nil_r.
  - unfold w2. by case_bool_decide.
Qed.

Lemma counted_trans ks l1 l2 w1 w2 w3 : counted ks l1 w1 w2 -> counted ks l2 w2 w3 -> counted ks (l1 ++ l2) w1 w3.
Proof.
  assert (T : forall g l l', total g (l ++ l') = total g l + total g l').
  { intros g l l'. induction l as [|o l IH]; [done|]. cbn [app total foldr]. fold (total g (l ++ l')) (total g l). lia. }
  intros [A1 A2 A3 A4 A5] [B1 B2 B3 B4 B5]. constructor.
  - intros i Hi. rewrite T, B1, A1 by done. lia.
  - intros i Hi. rewrite T, B2, A2 by done. lia.
  - intros i k r Hi. rewrite T, B3, A3 by done. lia.
  - by rewrite B4, A4, omap_app, app_assoc.
  - congruence.
Qed.

(** One call, to both observers. *)
Lemma daemon_observer_ok ks o w :
  kinds_on ks w -> wp (daemon_observer NewMetrics o) (fun _ w' => counted ks [o] w w') w.
Proof.
  intros Hk. unfold wp, daemon_observer, MultiObserver. cbn [foldr]. unfold mbind, M_bind. destruct o as [f n|e]; cbn [metrics_observer logger_observer].
  - rewrite Metrics_Translated_run. apply counted_translated.
  - rewrite Metrics_Event_run, (PacketLogger_Event_run ks) by done. apply (counted_event ks e w).
Qed.

Lemma observe_counted ks l w :
  kinds_on ks w -> wp (observe (daemon_observer NewMetrics) l) (fun _ w' => counted ks l w w') w.
Proof.
  revert w. induction l as [|o l IH]; intros w Hk; cbn [observe].
  - apply wp_skip. constructor; cbn; try done; intros; rewrite ?app_nil_r; lia || done.
  - apply wp_bind. eapply wp_mono; [by apply daemon_observer_ok|]. intros ? w1 H1.
    assert (Hk1 : kinds_on ks w1) by (intros k; rewrite (ct_kinds _ _ _ _ H1); apply Hk).
    eapply wp_mono; [by apply IH|]. intros ? w2 H2. exact (counted_trans ks [o] l w w1 w2 H1 H2).
Qed.

(** C35: the metrics count what was observed, and the log tells it: after any calls to the
    daemon's observer, nothing panicked, and of every family, kind and reason the counter
    of events has grown by the number of such events, each direction's counters of
    packets and bytes by what was translated, and the log by one line per event of a kind
    that is switched on, in order. *)
Theorem metrics_count ks l w :
  wp (observe (daemon_observer NewMetrics) l) (fun _ w' => counted ks l (SetKinds ks w) w') (SetKinds ks w).
Proof. apply observe_counted, SetKinds_on. Qed.
